(* ===== verification/_CoqProject ===== *)
-Q . S2P
Prelude.v
Keys.v
Proto.v
Arrow.v
Scalar.v
Expr.v
LogicalPlan.v
SchedTypes.v
ExecPlan.v
Planner.v
Slicing.v
Physical.v
SerdeTests.v
Backend.v
Utils.v
Distribute.v
Batch.v
State.v
Assign.v
Server.v
Flight.v
Execution.v
Client.v
PyTypes.v
PyExpr.v
PyClient.v
PyModule.v
Cluster.v
Refine.v
Leases.v
Blocked.v
Planning.v
Shared.v
Executor.v
Startup.v
System.v
SchedulerTests.v
Queries.v
Completion.v
Dataflow.v
Run.v
