(* ===== verification/Prelude.v ===== *)
(** * Ballista: a verification of the scheduler, the executor, the clients and the serde layer

    Ballista runs DataFusion queries on a cluster.  A client sends a logical
    plan (or SQL) to the scheduler; the scheduler has DataFusion make a
    physical plan of it, slices that into query stages at the shuffle
    boundaries, and records the plan of every stage and one task per partition
    in a key/value store (sled, or etcd).  Executors poll the scheduler: they
    report what became of their tasks and take a new one when they have a free
    slot.  A task is handed out once the tasks of the stages it reads are
    complete, with the locations of their outputs put into its plan.  A task
    writes its partition to a file, which the executor's flight service hands
    to the tasks that read it and, once the job is completed, to the client.
    All of it travels as protocol buffer messages and Arrow streams.  Python
    programs use the client through a binding.

    ** The files

    Data and conversions (src/rust/core/src):
    - [Prelude]: results with panics, machine integers, lists, the tactics
      [res_inv] and [no_panic], the hint database [ballista] (error.rs,
      serde/mod.rs);
    - [Proto]: the messages and enums of core/proto/ballista.proto as prost
      generates them;
    - [Arrow], [Scalar], [Expr], [LogicalPlan]: types and schemas, scalar
      values, expressions and logical plans with their encoders and decoders
      (serde/logical_plan/to_proto.rs and from_proto.rs, datasource.rs);
    - [SchedTypes]: partitions, locations, executors (serde/scheduler);
    - [ExecPlan], [Physical]: physical plans and Ballista's own operators
      (execution_plans), their messages (serde/physical_plan);
    - [Execution]: [execute] of Ballista's operators and of whole plans
      (execution_plans, executor/src/collect.rs);
    - [Utils]: the formatter of plans and the diagrams of stages (utils.rs);
    - [Batch]: record batches and streams, partition statistics (utils.rs,
      memory_stream.rs), the collect operator (executor/src/collect.rs) and
      columnar batches (client/src/columnar_batch.rs).

    The scheduler (src/rust/scheduler/src):
    - [Keys]: the keys of the store (end of state/mod.rs);
    - [Planner]: planner.rs, slicing into stages and resolving shuffles;
    - [Distribute]: planner.rs, running the stages over the executors with the
      requests this sends;
    - [Slicing]: what the stages of a query mean, put together again;
    - [Backend]: the trait [ConfigBackendClient] as a class with laws and its
      two implementations as instances (state/standalone.rs, state/etcd.rs);
    - [State], [Assign]: [SchedulerState] (state/mod.rs), and the theorems on
      [assign_next_schedulable_task];
    - [Server]: the handlers of lib.rs and the global lock;
    - [Leases]: registrations of executors that run out;
    - [Blocked]: stages that were stored and cannot be decoded.

    The executor (src/rust/executor/src):
    - [Executor]: execution_loop.rs;
    - [Startup]: the [main] functions of executor and scheduler (main.rs of
      both);
    - [Flight]: the data plane, that is the actions and their messages
      (core/src/serde/scheduler), the partition files (utils.rs), the service
      (flight_service.rs), the client of it (core/src/client.rs) and the read
      of a shuffle (shuffle_reader.rs).

    The clients:
    - [Client]: the context, its tables and data frames, [collect]
      (src/rust/client/src/context.rs);
    - [PyTypes]: types, fields, schemas and literals of the Python binding
      (src/python/src/datatypes.rs, field.rs, schema.rs, dfschema.rs,
      scalar.rs, util.rs);
    - [PyExpr]: its expressions, functions and case builder (expression.rs,
      functions.rs, partition.rs);
    - [PyClient]: its context and data frames (context.rs, dataframe.rs);
    - [PyModule]: what its module registers, texts and JSON (lib.rs).

    The specification and the whole:
    - [Cluster]: what a store means, an abstract cluster of executors, tasks,
      stage plans and jobs, and the relation [rep] between the two;
    - [Refine]: the handlers act on the cluster as specified;
    - [Planning]: the planning task of a query, write by write
      ([planning_step]);
    - [Shared]: a store that planning tasks write to between the operations of
      a poll, and what a poll does there;
    - [System]: scheduler, executors, planning tasks and leases as one state
      machine ([system_step], [reachable]) with its invariant ([full_inv]);
    - [Queries]: the same with the physical plans the stages were cut from
      ([queries_inv]): what the plan of a task stands for;
    - [Completion]: how far a system is from completing its tasks, and that
      polls and ends of tasks get it there;
    - [Dataflow]: the same with the executors' disks and the client: what a
      task reads from other executors, writes, and what [collect] returns
      ([data_step], [data_inv]);
    - [Run]: a concrete cluster and its runs, for the witnesses;
    - [SerdeTests], [SchedulerTests]: the unit tests of the repository as
      programs of the model, and that they pass.

    ** How the code is modelled

    A function that returns a [Result] and may panic is a function into
    [result E A] ([Ok], [Err], [Panic]); [?] is [let?], [unwrap] a [Panic].
    Methods on the store are functions in the state and error monad [MR]
    ([let!]), the store being any type with the backend's operations.  Rust's
    iterations over a hash map are a parameter [hash_iter] that yields some
    permutation.  Integers are [Z] with the wrap of every [as] cast written
    out; [usize] has 64 bits; floats are their bit patterns.  Plans and types
    are trees, and the functions on them are structural.  Loops that are not
    structural are bounded as follows: [chunks_fuel] of [Distribute] by the length
    of the list, which is enough because every chunk takes at least one
    element; [drain] of [PyClient] by the number of polls, enough because every
    poll but the last takes a batch; [extract_scalar] of [PyTypes] by the depth
    of the stack, where running out is the stack overflow of the code and only
    objects of the class [ballista.Scalar] need more than one call
    ([scalar_extraction_recursion]).  The client's loop that waits for a job
    goes through the list of answers it is given, and has no result when they
    are used up.  Texts made with the [Debug] format of third-party values are
    reduced to their fixed part; the text that [Display] makes of third-party
    errors is the parameter [ErrorText], the texts of operators and expressions
    in logs are [PlanText].  Log calls are dropped, but for those whose
    arguments can fail: the flight service and the planner format the plans
    they run, and the planner cuts a debug text, if the log is enabled.

    Third-party code is a parameter, with laws where a theorem needs them:
    sled and etcd ([SledOk], [EtcdOk]: what is put is what is got), prost
    ([MessageOk], [Codec]: valid messages survive, values in range are valid),
    DataFusion's plan builders and operators ([DataFusionOk],
    [ExprBuildersOk], [ExecutionPlanMethodsOk], [WithNewChildrenOk];
    [InterfaceOk]: schema and partition count of an operator depend on those of
    its children; [ConstructorsOk]: constructors check the schema of their
    inputs; [Operators]: an operator runs as a function of what its children
    give and of a choice, which stands for the order in which things arrive),
    its planner, optimizer and data frames ([QueryContext], [PhysicalPlanner],
    [LocalContext]), Arrow's arrays, files and flight messages ([ArraysOk],
    [DataPlaneOk]: what is written or sent is what is read), the file system
    ([disk_works]), Python objects ([Python], [PythonOk]: an extracted integer
    is in range).  Witnesses instantiate them with concrete functions.

    ** The theorems

    - The control plane ([Shared], [System], [Run]): in every system that a
      regular run reaches, under any interleaving of polls, ends of tasks, queries and planning
      writes, the latter also between the operations of a poll, every poll is
      answered, with a task only if that can run
      ([polls_always_answered]); no task is started twice
      ([tasks_started_once]); an idle cluster with pending tasks makes
      progress ([idle_cluster_progresses]), and unless a task failed the
      executors can complete all tasks ([Completion], [jobs_can_complete]); job
      statuses follow the tasks ([job_status_answers]); handing out, ending and
      reporting tasks takes at most three steps per task ([work_bounded]).
      [premature_completion] shows what the missing lock of the planning costs:
      a job reported as completed in the middle of its planning.
      A run is regular ([regular]) if the stages of the planned queries survive
      their encoding ([query_fits]), no executor loses its registration after it
      completed a task, and no answer to a poll is lost; the steps themselves
      have all of this ([unrestricted]), and failing and crashing plannings and
      locks that etcd ends as well.
    - The executors ([Queries]): in a regular run they can take every answer;
      the plan they decode is a stage of the query with its shuffles resolved
      ([polls_accepted]).
    - End to end ([Slicing], [Execution], [Dataflow]): the stages of a query
      put together are its plan ([sliced_plan_rebuilt]); once a job is planned
      and its tasks are complete, the cluster has for every partition of the
      query's plan batches that running the whole plan in one process can
      produce, and a client can fetch them ([finished_query_answered]); when a
      job is reported as completed, a client gets for every task the job lists
      what its part of the plan can produce ([completed_job_collected]).  The
      runs are regular and have no dictionary columns ([data_regular]), which
      the client cannot decode.
    - What goes wrong otherwise ([Leases], [Blocked]): once an executor that
      completed an input is gone, polls that meet a task that reads it crash
      ([lost_executor_breaks_polls]); once the pending tasks are of stages that
      cannot be decoded, as one with a call of [asin], polls fail
      ([undecodable_stage_blocks_polls]).
    - Task assignment ([Assign]), on the store itself: what is handed out, when
      nothing is, and that the search never fails on a consistent store.
    - Planning ([Planner], [Distribute], [Planning]): stages are numbered
      consecutively and read earlier stages only; every partition of a stage is
      sent to an executor exactly once ([execute_query_stage_covers]); a query
      whose requests succeed completes ([distributed_query_completes]); success
      and failure are recorded.
    - Statuses, records, keys and the lock ([State], [Refine], [Keys],
      [Server]).
    - The executor ([Executor]): its slots, and what a failed poll loses.
    - The data plane ([Flight], [Batch]): what a partition's execution writes
      is what a fetch returns ([execute_then_fetch]), with exact statistics as
      long as the sums fit ([partition_stats_exact]); a damaged file is served
      shortened without an error ([fetch_truncates]); a plan the log cannot
      format is not run ([unformatted_plan_fails]); the collect operator
      executes all partitions ([collect_execute_partitions]); columnar batches
      convert back
      ([columnar_roundtrip]).
    - The client ([Client]): its query is the one the scheduler plans
      ([collect_submits_plan]), the batches of a completed job are returned in
      full ([collect_completed_job]) and an incomplete job never gives part of
      them ([collect_incomplete_job]); statements see the registered tables.
    - The Python binding ([PyTypes], [PyExpr], [PyClient]): literals are in the
      range of their type and survive the messages, expressions can be sent
      but for a list of functions, the case builder builds what it was given,
      and collecting a stream ends with its batches; the module registers what
      its stub declares ([module_complete]).
    - Starting ([Startup]): what an executor that started registers as; an
      executor in local mode waits for ever for a scheduler that ended.
    - Texts ([Utils]): the formatter is the preorder list of operator lines;
      a diagram is a tree per stage with an edge per stage that is read.
    - Round trips and their limits ([Arrow], [Scalar], [Expr], [LogicalPlan],
      [Physical], [SchedTypes]): decoding inverts encoding on the values the
      messages can carry, which the well-formedness predicates make precise;
      further theorems state what is lost, refused or crashes.

    - The repository's tests ([SerdeTests], [SchedulerTests]): those of the
      logical and physical serde layer, the scheduler state, its backend, the
      poll handler and the planner pass on the model, for every DataFusion,
      store and debug text with the stated laws.

    ** Not modelled

    The benchmarks, and the schemas and context of the tests' data
    (scheduler/src/test_utils.rs).  The formats of Arrow IPC, Flight and JSON
    are parameters, as is what DataFusion's operators compute and the order in
    which [futures::stream::select_all] merges streams.  The spawned tasks of
    one request to the flight service run one after the other: with distinct
    partition ids, which is what the scheduler sends, each writes a file of its
    own and the order does not matter; a request that names a partition twice
    would have two tasks write the same file at once.

    In [System] and the files on it, job ids are fresh and without slashes, the
    store answers every operation, the lock is granted when it is free, and
    leases run out between polls.  The planning tasks run between any two
    operations of a poll on the store, but a query is accepted, and one that
    cannot be planned is given up, in one step, as is the request that an
    executor builds.  Another poll cannot fall into one:
    [poll_work] has no answer while the lock is taken.  A poll that fails does not
    give the lock of etcd back ([poll_releases_lock]); that etcd ends it with the
    session that took it is the step [sys_unlock].  An execution that
    panics is, to the scheduler, one that never ends ([panics_never_end]), which
    [System] and [Dataflow] have; the part of its file it has written is not on
    the disks of [Dataflow].  An execution reads the disks as they are when it
    starts.  Schema metadata of Arrow is not carried by the messages and not
    modelled.

    What else is left of the sources are lines that compute nothing: imports,
    derives, constructors that only fill a record, commented code, the parsing
    of command lines that a macro generates, and the texts of [Debug]
    formats. *)

From stdpp Require Export base tactics option list gmap strings numbers pretty.
From Stdlib Require Export ZArith Lia.

#[global] Unset Printing Records.

Declare Scope ballista_scope.
Delimit Scope ballista_scope with ballista.
#[global] Open Scope ballista_scope.

(** Induction over data nested in lists, options and pairs. *)
Scheme All for list.
Scheme All for option.
Scheme All for prod.

Lemma list_all_Forall {A} (P : A → Prop) l : list_all A P l → Forall P l.
Proof. induction 1; by constructor. Qed.

(** ** Results, errors and panics

    A Rust function that returns [Result<T, E>] and may panic ([unwrap],
    indexing out of range, [unimplemented!], [todo!]) is a function into
    [result E T]. *)
Inductive result (E A : Type) : Type :=
| Ok (a : A)
| Err (e : E)
| Panic (msg : string).
Arguments Ok {E A} a.
Arguments Err {E A} e.
Arguments Panic {E A} msg.

(** DataFusion's error type, as far as the sources name its variants. *)
Inductive DataFusionError :=
| DF_Plan (msg : string)
| DF_Execution (msg : string)
| DF_Other (msg : string).

(** The error enum of rust/core/src/error.rs.  Payloads that are errors of
    third-party crates are kept as their text. *)
Inductive BallistaError :=
| NotImplemented (msg : string)
| General (msg : string)
| Internal (msg : string)
| ArrowError (msg : string)
| BE_DataFusionError (e : DataFusionError)
| SqlError (msg : string)
| IoError (msg : string)
| TonicError (msg : string)
| GrpcError (msg : string)
| TokioError (msg : string).

(** [ballista_core::error::Result] and [datafusion::error::Result]. *)
Abbreviation Result A := (result BallistaError A).
Abbreviation DFResult A := (result DataFusionError A).

(** [proto_error] of rust/core/src/serde/mod.rs. *)
Definition proto_error (message : string) : BallistaError := General message.

(** [ballista_error] of rust/core/src/error.rs. *)
Definition ballista_error (message : string) : BallistaError := General message.

(** The conversions that [?] and [into] apply, one per source of errors; the
    third-party errors are their text. *)
Definition error_into_result {A} (e : BallistaError) : Result A := Err e.
Definition error_from_string (e : string) : BallistaError := General e.
Definition error_from_arrow (e : string) : BallistaError := ArrowError e.
Definition error_from_parser (e : string) : BallistaError := SqlError e.
Definition error_from_datafusion (e : DataFusionError) : BallistaError := BE_DataFusionError e.
Definition error_from_io (e : string) : BallistaError := IoError e.
Definition error_from_transport (e : string) : BallistaError := TonicError e.
Definition error_from_status (e : string) : BallistaError := GrpcError e.
Definition error_from_join (e : string) : BallistaError := TokioError e.

Instance DataFusionError_eq_dec : EqDecision DataFusionError.
Proof. solve_decision. Defined.
Instance BallistaError_eq_dec : EqDecision BallistaError.
Proof. solve_decision. Defined.

(** Rust's [?]: the rest of the body runs on [Ok] only. *)
Notation "'let?' x ':=' e 'in' k" :=
  (match e with
   | Ok x => k
   | Err err => Err err
   | Panic msg => Panic msg
   end)
  (at level 10, x pattern, e at level 100, k at level 200)
  : ballista_scope.

(** [Result::map_err]. *)
Definition map_err {E F A} (f : E → F) (r : result E A) : result F A :=
  match r with Ok a => Ok a | Err e => Err (f e) | Panic m => Panic m end.

(** [Result::map]. *)
Definition rmap {E A B} (f : A → B) (r : result E A) : result E B :=
  match r with Ok a => Ok (f a) | Err e => Err e | Panic m => Panic m end.

(** [Option::ok_or_else]. *)
Definition ok_or {E A} (e : E) (o : option A) : result E A :=
  match o with Some a => Ok a | None => Err e end.

(** [Option::unwrap]. *)
Definition unwrap {E A} (m : string) (o : option A) : result E A :=
  match o with Some a => Ok a | None => Panic m end.

(** [iter().map(f).collect::<Result<Vec<_>, _>>()]: stops at the first
    element that does not give [Ok]. *)
Definition rmapM {E A B} (f : A → result E B) : list A → result E (list B) :=
  fix go l :=
    match l with
    | [] => Ok []
    | x :: xs => let? y := f x in let? ys := go xs in Ok (y :: ys)
    end.

(** A [for] loop that pushes one result per element and threads a state, and
    stops at the first error. *)
Definition smapM {E S A B} (f : A → S → result E (B * S))
    : list A → S → result E (list B * S) :=
  fix go l s :=
    match l with
    | [] => Ok ([], s)
    | x :: xs =>
        let? ys := f x s in
        let? r := go xs ys.2 in
        Ok (ys.1 :: r.1, r.2)
    end.

(** The conversion [From<DataFusionError> for BallistaError] that [?] applies. *)
Definition lift_df {A} (r : DFResult A) : Result A := map_err error_from_datafusion r.

Definition is_ok {E A} (r : result E A) : bool :=
  match r with Ok _ => true | _ => false end.
Definition is_panic {E A} (r : result E A) : bool :=
  match r with Panic _ => true | _ => false end.
(** [Result::ok]. *)
Definition ok {E A} (r : result E A) : option A :=
  match r with Ok a => Some a | _ => None end.

(** ** Automation *)

(** Case analysis on the scrutinee of a [match] in a hypothesis or the goal,
    discarding the branches that contradict an [Ok] outcome. *)
Ltac res_step :=
  match goal with
  | H : Ok _ = Ok _ |- _ => injection H as H; try subst
  | H : Err _ = Ok _ |- _ => discriminate H
  | H : Panic _ = Ok _ |- _ => discriminate H
  | H : Some _ = Some _ |- _ => injection H as H; try subst
  | H : None = Some _ |- _ => discriminate H
  | H : match ?x with Ok _ => _ | Err _ => _ | Panic _ => _ end = Ok _ |- _ =>
      let Hx := fresh "Hres" in destruct x eqn:Hx; [|discriminate H..]
  | H : match ?x with Some _ => _ | None => _ end = Ok _ |- _ =>
      let Hx := fresh "Hopt" in destruct x eqn:Hx; try discriminate H
  | H : rmap _ ?x = Ok _ |- _ => destruct x eqn:?; simpl in H; [|discriminate H..]
  | H : ok_or _ ?x = Ok _ |- _ => destruct x eqn:?; simpl in H; [|discriminate H]
  | H : unwrap _ ?x = Ok _ |- _ => destruct x eqn:?; simpl in H; [|discriminate H]
  end.
Ltac res_inv := repeat (res_step; simplify_eq).

Create HintDb ballista.
Create Rewrite HintDb ballista.

(** ** Lemmas on results *)

Section rmapM_lemmas.
Context {E A B : Type}.
Implicit Types (f : A → result E B) (l : list A).

Lemma rmapM_Forall2 f l k :
  rmapM f l = Ok k ↔ Forall2 (λ x y, f x = Ok y) l k.
Proof.
  split.
  - revert k; induction l as [|x l IH]; intros k Hk; simpl in Hk; res_inv; [constructor|].
    constructor; auto.
  - induction 1 as [|x y l k Hx _ IH]; simpl; [done|]. by rewrite Hx, IH.
Qed.

Lemma rmapM_length f l k : rmapM f l = Ok k → length k = length l.
Proof. rewrite rmapM_Forall2. intros H. symmetry. by eapply Forall2_length. Qed.

Lemma rmapM_ok f (g : A → B) l :
  Forall (λ x, f x = Ok (g x)) l → rmapM f l = Ok (g <$> l).
Proof. induction 1 as [|x l Hx _ IH]; simpl; [done|]. by rewrite Hx, IH. Qed.

Lemma rmapM_no_panic f l :
  Forall (λ x, is_panic (f x) = false) l → is_panic (rmapM f l) = false.
Proof.
  induction 1 as [|x l Hx _ IH]; simpl; [done|].
  destruct (f x); simpl in *; [|done..]. by destruct (rmapM f l).
Qed.

Lemma rmapM_all_ok f l : Forall (λ x, is_ok (f x) = true) l → ∃ k, rmapM f l = Ok k.
Proof.
  induction 1 as [|x l Hx _ [k IH]]; simpl; [by eexists|].
  destruct (f x); simpl in *; [|done..]. rewrite IH. by eexists.
Qed.

Lemma rmapM_ext f g l : Forall (λ x, f x = g x) l → rmapM f l = rmapM g l.
Proof. induction 1 as [|x l Hx _ IH]; simpl; [done|]. by rewrite Hx, IH. Qed.
End rmapM_lemmas.

Lemma rmapM_ok_id {E A} (f : A → result E A) l :
  Forall (λ x, f x = Ok x) l → rmapM f l = Ok l.
Proof. intros H. rewrite (rmapM_ok f id); [by rewrite list_fmap_id|done]. Qed.

Lemma rmapM_fmap {E A B C} (f : B → result E C) (g : A → B) l :
  rmapM f (g <$> l) = rmapM (λ x, f (g x)) l.
Proof. induction l as [|x l IH]; csimpl; [done|]. by rewrite IH. Qed.

Lemma rmapM_map_ok {E A B C} (f : B → result E C) (g : A → B) (h : A → C) l :
  Forall (λ x, f (g x) = Ok (h x)) l → rmapM f (List.map g l) = Ok (List.map h l).
Proof. induction 1 as [|x l Hx _ IH]; simpl; [done|]. by rewrite Hx, IH. Qed.

Lemma bind_no_panic {E A B} (r : result E A) (k : A → result E B) :
  is_panic r = false → (∀ a, r = Ok a → is_panic (k a) = false) →
  is_panic (let? a := r in k a) = false.
Proof. destruct r; simpl; eauto. Qed.
(** [ok] of a chain of [?] steps, when only success matters. *)
Lemma ok_bind {E A B} (r : result E A) (k : A → result E B) :
  ok (let? a := r in k a) = match ok r with Some a => ok (k a) | None => None end.
Proof. by destruct r. Qed.
Lemma ok_cong {E A B} (r r' : result E A) (k k' : A → result E B) :
  ok r = ok r' → (∀ a, ok (k a) = ok (k' a)) →
  ok (let? a := r in k a) = ok (let? a := r' in k' a).
Proof. intros Hr Hk. rewrite !ok_bind, Hr. by destruct (ok r'). Qed.
Lemma ok_swap {E A B C} (r : result E A) (q : result E B) (k : A → B → result E C) :
  ok (let? a := r in let? b := q in k a b) = ok (let? b := q in let? a := r in k a b).
Proof. by destruct r, q. Qed.
Lemma ok_Some {E A} (r : result E A) a : ok r = Some a ↔ r = Ok a.
Proof. destruct r; simpl; split; congruence. Qed.
Lemma ok_or_no_panic {E A} (e : E) (o : option A) : is_panic (ok_or e o) = false.
Proof. by destruct o. Qed.
Lemma rmap_no_panic {E A B} (f : A → B) (r : result E A) :
  is_panic (rmap f r) = is_panic r.
Proof. by destruct r. Qed.

(** Crash-freedom of a chain of [?] steps: one goal per step. *)
Ltac no_panic :=
  repeat first
    [ reflexivity | assumption
    | apply ok_or_no_panic
    | (apply bind_no_panic; [|let a := fresh "a" in let Ha := fresh "Ha" in intros a Ha])
    | progress simpl ].

(** A conversion there and back, element by element. *)
Lemma rmapM_compose {E A B C} (f : A → result E B) (g : B → result E C) (h : A → C) l k :
  Forall (λ x, ∀ y, f x = Ok y → g y = Ok (h x)) l →
  rmapM f l = Ok k → rmapM g k = Ok (h <$> l).
Proof.
  intros H. revert k; induction H as [|x l Hx _ IH]; intros k Hk; simpl in *; res_inv; [done|].
  simpl. rewrite (Hx _ eq_refl). by rewrite (IH _ eq_refl).
Qed.

(** ** Machine integers

    Every fixed-width integer is a [Z]; a cast [x as u32] is the wrap-around
    written out.  [usize] is 64 bits wide. *)
Definition wrap_u (w : Z) (x : Z) : Z := x mod 2 ^ w.
Definition wrap_s (w : Z) (x : Z) : Z := (x + 2 ^ (w - 1)) mod 2 ^ w - 2 ^ (w - 1).
Abbreviation as_u8 := (wrap_u 8).
Abbreviation as_u16 := (wrap_u 16).
Abbreviation as_u32 := (wrap_u 32).
Abbreviation as_u64 := (wrap_u 64).
Abbreviation as_usize := (wrap_u 64).
Abbreviation as_i8 := (wrap_s 8).
Abbreviation as_i16 := (wrap_s 16).
Abbreviation as_i32 := (wrap_s 32).

Definition in_u (w x : Z) : Prop := (0 ≤ x < 2 ^ w)%Z.
Definition in_s (w x : Z) : Prop := (- 2 ^ (w - 1) ≤ x < 2 ^ (w - 1))%Z.
Instance in_u_dec w x : Decision (in_u w x).
Proof. unfold in_u. apply _. Defined.
Instance in_s_dec w x : Decision (in_s w x).
Proof. unfold in_s. apply _. Defined.

Lemma wrap_u_id w x : in_u w x → wrap_u w x = x.
Proof. intros H. apply Z.mod_small, H. Qed.

Lemma wrap_s_id w x : (0 < w)%Z → in_s w x → wrap_s w x = x.
Proof.
  intros Hw [??]. unfold wrap_s.
  assert (2 ^ w = 2 * 2 ^ (w - 1))%Z as E.
  { rewrite <-Z.pow_succ_r by lia. f_equal; lia. }
  rewrite Z.mod_small; lia.
Qed.

Lemma wrap_u_range w x : (0 < w)%Z → in_u w (wrap_u w x).
Proof. intros. apply Z.mod_pos_bound, Z.pow_pos_nonneg; lia. Qed.

Lemma in_u_mono w w' x : (w ≤ w')%Z → (0 ≤ w)%Z → in_u w x → in_u w' x.
Proof.
  intros. unfold in_u in *. assert (2 ^ w ≤ 2 ^ w')%Z; [|lia].
  apply Z.pow_le_mono_r; lia.
Qed.

Lemma in_s_mono w w' x : (w ≤ w')%Z → (1 ≤ w)%Z → in_s w x → in_s w' x.
Proof.
  intros. unfold in_s in *. assert (2 ^ (w - 1) ≤ 2 ^ (w' - 1))%Z; [|lia].
  apply Z.pow_le_mono_r; lia.
Qed.

(** A value that fits the narrow type survives widening and narrowing. *)
Lemma wrap_u_widen w w' x :
  (0 ≤ w ≤ w')%Z → in_u w x → wrap_u w (wrap_u w' x) = x.
Proof.
  intros [??] Hx. rewrite (wrap_u_id w') by (eapply in_u_mono; eauto). by apply wrap_u_id.
Qed.

Lemma wrap_s_widen w w' x :
  (1 ≤ w ≤ w')%Z → in_s w x → wrap_s w (wrap_s w' x) = x.
Proof.
  intros [??] Hx. rewrite (wrap_s_id w'); [|lia|eapply in_s_mono; eauto].
  apply wrap_s_id; [lia|done].
Qed.

#[export] Hint Resolve wrap_u_id wrap_s_id wrap_u_widen wrap_s_widen : ballista.

(** [0..n] for a machine integer [n]. *)
Definition zrange (n : Z) : list Z := Z.of_nat <$> seq 0 (Z.to_nat n).

Lemma elem_of_zrange n x : x ∈ zrange n ↔ (0 ≤ x < n)%Z.
Proof.
  unfold zrange. rewrite list_elem_of_fmap. split.
  - intros (i & -> & Hi%elem_of_seq). lia.
  - intros H. exists (Z.to_nat x). rewrite elem_of_seq. lia.
Qed.

Lemma NoDup_zrange n : NoDup (zrange n).
Proof. apply NoDup_fmap_2; [apply _|]. apply NoDup_seq. Qed.

Lemma zrange_lookup n i : (0 ≤ i < n)%Z → zrange n !! Z.to_nat i = Some i.
Proof.
  intros Hi. unfold zrange. rewrite list_lookup_fmap, (lookup_seq_lt 0) by lia. simpl. f_equal. lia.
Qed.
Lemma length_zrange n : length (zrange n) = Z.to_nat n.
Proof. unfold zrange. by rewrite length_fmap, length_seq. Qed.
