(* ===== verification/Keys.v ===== *)
(** * The key space of the scheduler's state store

    Models the key functions at the end of
    src/rust/scheduler/src/state/mod.rs: every record of the scheduler lives
    in one flat key/value store, under a key [/ballista/<namespace>/<kind>/...]
    built with [format!].  Components are read back by prefix scans and by
    splitting a key on ['/'], so the correctness of the whole state layer
    rests on these keys being injective, disjoint between kinds, and isolated
    under the prefixes used by the scans. *)

From S2P Require Import Prelude.
From Stdlib Require Import Ascii.


(** ** [str::split], [str::starts_with] *)

Definition slash : ascii := "/"%char.

(** [s.split(c)]: the pieces between the occurrences of [c]; never empty. *)
Fixpoint split (c : ascii) (s : string) : list string :=
  match s with
  | EmptyString => [EmptyString]
  | String a s' =>
      if decide (a = c) then EmptyString :: split c s'
      else match split c s' with
           | [] => [String a EmptyString]
           | h :: t => String a h :: t
           end
  end.

(** Does [s] begin with [p]?  The test behind [scan_prefix]. *)
Fixpoint starts_with (p s : string) : bool :=
  match p, s with
  | EmptyString, _ => true
  | String a p', String b s' => bool_decide (a = b) && starts_with p' s'
  | String _ _, EmptyString => false
  end.

Fixpoint has_char (c : ascii) (s : string) : bool :=
  match s with
  | EmptyString => false
  | String a s' => bool_decide (a = c) || has_char c s'
  end.

(** A component that can stand between two slashes of a key. *)
Definition slash_free (s : string) : Prop := has_char slash s = false.
Instance slash_free_dec s : Decision (slash_free s).
Proof. unfold slash_free. apply _. Defined.

(** ** The keys *)

Definition get_executors_prefix (namespace : string) : string :=
  "/ballista/" +:+ namespace +:+ "/executors".

Definition get_executor_key (namespace id : string) : string :=
  get_executors_prefix namespace +:+ "/" +:+ id.

Definition get_job_prefix (namespace : string) : string :=
  "/ballista/" +:+ namespace +:+ "/jobs".

Definition extract_job_id_from_key (job_key : string) : Result string :=
  ok_or (Internal ("Unexpected job key: " +:+ job_key)) (split slash job_key !! 4).

Definition get_job_key (namespace id : string) : string :=
  get_job_prefix namespace +:+ "/" +:+ id.

Definition get_task_prefix (namespace : string) : string :=
  "/ballista/" +:+ namespace +:+ "/tasks".

Definition get_task_prefix_for_job (namespace job_id : string) : string :=
  get_task_prefix namespace +:+ "/" +:+ job_id.

Definition get_task_status_key (namespace job_id : string) (stage_id partition_id : Z) : string :=
  get_task_prefix_for_job namespace job_id +:+ "/" +:+ pretty stage_id +:+ "/" +:+
  pretty partition_id.

Definition get_stage_plan_key (namespace job_id : string) (stage_id : Z) : string :=
  "/ballista/" +:+ namespace +:+ "/stages/" +:+ job_id +:+ "/" +:+ pretty stage_id.

(** ** Lemmas on strings *)

Lemma string_app_cons a s1 s2 : String a s1 +:+ s2 = String a (s1 +:+ s2).
Proof. done. Qed.

Lemma string_app_nil_r s : s +:+ "" = s.
Proof. induction s; [done|]. rewrite string_app_cons. by f_equal. Qed.

Lemma string_app_assoc s1 s2 s3 : s1 +:+ s2 +:+ s3 = (s1 +:+ s2) +:+ s3.
Proof. induction s1; [done|]. rewrite !string_app_cons. by f_equal. Qed.

Lemma string_app_inv_length s1 s2 t1 t2 :
  s1 +:+ t1 = s2 +:+ t2 → String.length s1 = String.length s2 → s1 = s2 ∧ t1 = t2.
Proof.
  revert s2; induction s1 as [|a s1 IH]; intros [|b s2] He Hl; simpl in Hl;
    rewrite ?string_app_cons in He; simplify_eq; [done|].
  destruct (IH s2) as [-> ->]; [done|lia|done].
Qed.

Lemma length_string_app s1 s2 :
  String.length (s1 +:+ s2) = (String.length s1 + String.length s2)%nat.
Proof. induction s1; [done|]. rewrite string_app_cons. simpl. by rewrite IHs1. Qed.

Lemma starts_with_spec p s : starts_with p s = true ↔ ∃ r, s = p +:+ r.
Proof.
  revert s; induction p as [|a p IH]; intros s.
  { split; [by exists s|done]. }
  destruct s as [|b s]; simpl.
  { split; [done|]. intros [r Hr]. by rewrite string_app_cons in Hr. }
  rewrite andb_true_iff, bool_decide_eq_true, IH. split.
  - intros [-> [r ->]]. by exists r.
  - intros [r Hr]. rewrite string_app_cons in Hr. simplify_eq. eauto.
Qed.

Lemma has_char_app c s1 s2 : has_char c (s1 +:+ s2) = has_char c s1 || has_char c s2.
Proof.
  induction s1 as [|a s1 IH]; [done|]. rewrite string_app_cons. simpl. rewrite IH.
  by rewrite orb_assoc.
Qed.

(** Splitting a concatenation: the last piece of the left joins the first
    piece of the right. *)
Lemma split_app c s r ini l hd tl :
  split c s = ini ++ [l] → split c r = hd :: tl →
  split c (s +:+ r) = ini ++ (l +:+ hd) :: tl.
Proof.
  intros Hs Hr. revert ini l Hs. induction s as [|a s IH]; intros ini l Hs.
  - destruct ini as [|? [|]]; simplify_eq/=. done.
  - rewrite string_app_cons. simpl in *. destruct (decide (a = c)).
    + destruct ini as [|i ini]; simplify_eq/=.
      { by destruct s as [|b s]; simpl in *; [|case_decide; [|case_match]]. }
      f_equal. by apply IH.
    + destruct (split c s) as [|h t] eqn:E.
      { destruct s; simpl in E; [done|]. case_decide; [done|]. by case_match. }
      destruct ini as [|i ini]; simplify_eq/=.
      * rewrite (IH [] h) by done. done.
      * rewrite (IH (h :: ini) l) by done. done.
Qed.

Lemma split_char_free c s : has_char c s = false → split c s = [s].
Proof.
  induction s as [|a s IH]; [done|]. simpl. intros [Ha Hs]%orb_false_iff.
  apply bool_decide_eq_false in Ha. rewrite decide_False by done. by rewrite IH.
Qed.

Lemma string_app_inj_l (w a b : string) : w +:+ a = w +:+ b → a = b.
Proof. induction w as [|x w IH]; [done|]. simpl. intros [= ?]. auto. Qed.

Lemma split_sep_cons s r :
  slash_free s → split slash (s +:+ "/" +:+ r) = s :: split slash r.
Proof.
  intros Hs. rewrite (split_app slash s ("/" +:+ r) [] s "" (split slash r)).
  - by rewrite string_app_nil_r.
  - by apply split_char_free.
  - rewrite string_app_cons. done.
Qed.

(** ** Decimal numbers contain no slash *)

Lemma pretty_N_go_slash_free x s : slash_free s → slash_free (pretty_N_go x s).
Proof.
  revert s. induction (N.lt_wf_0 x) as [x _ IH]; intros s Hs.
  destruct (decide (x = 0)%N) as [->|]; [done|].
  rewrite pretty_N_go_step by lia. apply IH; [apply N.div_lt; lia|].
  unfold slash_free in *. simpl. rewrite Hs, orb_false_r. apply bool_decide_eq_false.
  unfold pretty_N_char. by repeat case_match.
Qed.

Lemma pretty_Z_slash_free (z : Z) : slash_free (pretty z).
Proof.
  assert (∀ n : N, slash_free (pretty n)) as HN.
  { intros n. unfold pretty, pretty_N. case_decide; [done|]. by apply pretty_N_go_slash_free. }
  destruct z as [|p|p]; [done|apply (HN (Npos p))|].
  unfold slash_free. change (pretty (Z.neg p)) with ("-" +:+ pretty (Npos p)).
  rewrite has_char_app. apply HN.
Qed.

#[export] Hint Resolve pretty_Z_slash_free : ballista.
#[export] Hint Extern 1 (slash_free _) => (vm_compute; reflexivity) : ballista.

(** ** Keys as lists of components *)

Ltac split_key :=
  repeat (rewrite <-?string_app_assoc; rewrite ?split_sep_cons by eauto with ballista);
  rewrite ?split_char_free by eauto with ballista.

Lemma split_ballista r : split slash ("/ballista/" +:+ r) = "" :: "ballista" :: split slash r.
Proof.
  change ("/ballista/" +:+ r) with ("" +:+ "/" +:+ "ballista" +:+ "/" +:+ r).
  by rewrite !split_sep_cons by done.
Qed.

Section components.
Context (ns : string) (Hns : slash_free ns).

Lemma split_kind (kind r : string) :
  slash_free kind →
  split slash ("/ballista/" +:+ ns +:+ "/" +:+ kind +:+ "/" +:+ r) =
  "" :: "ballista" :: ns :: kind :: split slash r.
Proof. intros. rewrite split_ballista, !split_sep_cons by done. done. Qed.

Lemma get_executor_key_eq id :
  get_executor_key ns id = "/ballista/" +:+ ns +:+ "/" +:+ "executors" +:+ "/" +:+ id.
Proof.
  unfold get_executor_key, get_executors_prefix. by rewrite <-!string_app_assoc.
Qed.
Lemma get_job_key_eq id :
  get_job_key ns id = "/ballista/" +:+ ns +:+ "/" +:+ "jobs" +:+ "/" +:+ id.
Proof. unfold get_job_key, get_job_prefix. by rewrite <-!string_app_assoc. Qed.
Lemma get_task_prefix_for_job_eq job :
  get_task_prefix_for_job ns job = "/ballista/" +:+ ns +:+ "/" +:+ "tasks" +:+ "/" +:+ job.
Proof.
  unfold get_task_prefix_for_job, get_task_prefix. by rewrite <-!string_app_assoc.
Qed.
Lemma get_task_status_key_eq job stage part :
  get_task_status_key ns job stage part =
  "/ballista/" +:+ ns +:+ "/" +:+ "tasks" +:+ "/" +:+ job +:+ "/" +:+ pretty stage +:+ "/" +:+
  pretty part.
Proof.
  unfold get_task_status_key. rewrite get_task_prefix_for_job_eq.
  by rewrite <-!string_app_assoc.
Qed.
Lemma get_stage_plan_key_eq job stage :
  get_stage_plan_key ns job stage =
  "/ballista/" +:+ ns +:+ "/" +:+ "stages" +:+ "/" +:+ job +:+ "/" +:+ pretty stage.
Proof. done. Qed.

Lemma split_executor_key id :
  slash_free id → split slash (get_executor_key ns id) = ["" ; "ballista"; ns; "executors"; id].
Proof.
  intros. rewrite get_executor_key_eq, split_kind by done. by rewrite split_char_free.
Qed.
Lemma split_job_key id :
  slash_free id → split slash (get_job_key ns id) = ["" ; "ballista"; ns; "jobs"; id].
Proof. intros. rewrite get_job_key_eq, split_kind by done. by rewrite split_char_free. Qed.
Lemma split_task_status_key job stage part :
  slash_free job →
  split slash (get_task_status_key ns job stage part) =
  ["" ; "ballista"; ns; "tasks"; job; pretty stage; pretty part].
Proof.
  intros. rewrite get_task_status_key_eq, split_kind by done.
  rewrite !split_sep_cons by eauto with ballista.
  rewrite split_char_free; [done|apply pretty_Z_slash_free].
Qed.
Lemma split_stage_plan_key job stage :
  slash_free job →
  split slash (get_stage_plan_key ns job stage) =
  ["" ; "ballista"; ns; "stages"; job; pretty stage].
Proof.
  intros. rewrite get_stage_plan_key_eq, split_kind by done.
  rewrite split_sep_cons by done. rewrite split_char_free; [done|apply pretty_Z_slash_free].
Qed.
End components.

(** ** The key space as a data type *)

(** What a key identifies. *)
Inductive StateKey :=
| KExecutor (namespace id : string)
| KJob (namespace id : string)
| KTask (namespace job_id : string) (stage_id partition_id : Z)
| KStage (namespace job_id : string) (stage_id : Z).

Definition key_of (k : StateKey) : string :=
  match k with
  | KExecutor ns id => get_executor_key ns id
  | KJob ns id => get_job_key ns id
  | KTask ns job st pt => get_task_status_key ns job st pt
  | KStage ns job st => get_stage_plan_key ns job st
  end.

(** Namespaces, executor ids and job ids contain no slash (ids are UUIDs and
    alphanumeric strings). *)
Definition wf_key (k : StateKey) : Prop :=
  match k with
  | KExecutor ns id | KJob ns id => slash_free ns ∧ slash_free id
  | KTask ns job _ _ | KStage ns job _ => slash_free ns ∧ slash_free job
  end.

Definition components (k : StateKey) : list string :=
  match k with
  | KExecutor ns id => ["" ; "ballista"; ns; "executors"; id]
  | KJob ns id => ["" ; "ballista"; ns; "jobs"; id]
  | KTask ns job st pt => ["" ; "ballista"; ns; "tasks"; job; pretty st; pretty pt]
  | KStage ns job st => ["" ; "ballista"; ns; "stages"; job; pretty st]
  end.

Lemma split_key_of k : wf_key k → split slash (key_of k) = components k.
Proof.
  destruct k; intros [??];
    [by apply split_executor_key|by apply split_job_key|by apply split_task_status_key
    |by apply split_stage_plan_key].
Qed.

Lemma split_nonempty c s : split c s ≠ [].
Proof. destruct s; simpl; [done|]. case_decide; [done|]. by case_match. Qed.

(** The components of a key that begins with [/ballista/<ns>/<kind><rest>]. *)
Lemma starts_with_components ns kind k :
  slash_free ns → slash_free kind → wf_key k →
  starts_with ("/ballista/" +:+ ns +:+ "/" +:+ kind) (key_of k) = true →
  ∃ hd tl, components k = "" :: "ballista" :: ns :: (kind +:+ hd) :: tl.
Proof.
  intros Hns Hkind Hk [r Hr]%starts_with_spec.
  destruct (split slash r) as [|hd tl] eqn:E; [by destruct (split_nonempty slash r)|].
  exists hd, tl. rewrite <-split_key_of, Hr by done.
  rewrite (split_app _ _ r ["" ; "ballista"; ns] kind hd tl); [done| |done].
  rewrite split_ballista, split_sep_cons, split_char_free by done. done.
Qed.

Lemma starts_with_app p r : starts_with p (p +:+ r) = true.
Proof. apply starts_with_spec. eauto. Qed.

Lemma key_of_inj k1 k2 : wf_key k1 → wf_key k2 → key_of k1 = key_of k2 → k1 = k2.
Proof.
  intros H1 H2 He.
  assert (components k1 = components k2) as Hc by (by rewrite <-!split_key_of, He).
  destruct k1, k2; simpl in Hc; simplify_eq; done.
Qed.

(** ** Properties *)

(** C33 — Keys identify what they are built from: with slash-free namespaces and
    ids, two keys of the store are equal only if they are keys of the same
    kind with the same components, so records of different kinds, namespaces,
    jobs, stages or partitions never overwrite each other. *)
Theorem key_of_injective k1 k2 :
  wf_key k1 → wf_key k2 → key_of k1 = key_of k2 → k1 = k2.
Proof. apply key_of_inj. Qed.

Lemma key_of_injective_witness :
  KTask "default" "abc" 1 12 = KTask "default" "abc" 1 12 ∧
  key_of (KTask "default" "abc" 1 12) ≠ key_of (KTask "default" "abc" 11 2).
Proof.
  split; [|by vm_compute].
  apply (key_of_injective (KTask "default" "abc" 1 12) (KTask "default" "abc" 1 12));
    [by vm_compute|by vm_compute|reflexivity].
Defined.

Lemma extract_job_id ns id :
  slash_free ns → slash_free id → extract_job_id_from_key (get_job_key ns id) = Ok id.
Proof.
  intros. unfold extract_job_id_from_key. by rewrite split_job_key.
Qed.

(** [extract_job_id_from_key] recovers the job id from the key that
    [get_job_key] builds. *)
Theorem extract_job_id_from_job_key ns id :
  slash_free ns → slash_free id → extract_job_id_from_key (get_job_key ns id) = Ok id.
Proof. apply extract_job_id. Qed.

Lemma extract_job_id_from_job_key_witness :
  extract_job_id_from_key (get_job_key "default" "aB3xYz9") = Ok "aB3xYz9".
Proof. apply (extract_job_id_from_job_key "default" "aB3xYz9"); reflexivity. Defined.

(** A scan of the executors, jobs or tasks prefix of a namespace meets exactly
    the keys of that kind and namespace. *)
Lemma scan_executors_spec ns k :
  slash_free ns → wf_key k →
  starts_with (get_executors_prefix ns) (key_of k) = true ↔ ∃ id, k = KExecutor ns id.
Proof.
  intros Hns Hk. split.
  - intros H. apply (starts_with_components ns "executors") in H as (hd & tl & Hc); [|done..].
    destruct k; simpl in Hc; simplify_eq; eauto.
  - intros [id ->]. simpl. unfold get_executor_key. apply starts_with_app.
Qed.

Lemma scan_jobs_spec ns k :
  slash_free ns → wf_key k →
  starts_with (get_job_prefix ns) (key_of k) = true ↔ ∃ id, k = KJob ns id.
Proof.
  intros Hns Hk. split.
  - intros H. apply (starts_with_components ns "jobs") in H as (hd & tl & Hc); [|done..].
    destruct k; simpl in Hc; simplify_eq; eauto.
  - intros [id ->]. simpl. unfold get_job_key. apply starts_with_app.
Qed.

Lemma scan_tasks_spec ns k :
  slash_free ns → wf_key k →
  starts_with (get_task_prefix ns) (key_of k) = true ↔ ∃ job st pt, k = KTask ns job st pt.
Proof.
  intros Hns Hk. split.
  - intros H. apply (starts_with_components ns "tasks") in H as (hd & tl & Hc); [|done..].
    destruct k; simpl in Hc; simplify_eq; eauto.
  - intros (job & st & pt & ->). simpl. unfold get_task_status_key, get_task_prefix_for_job.
    rewrite <-string_app_assoc. apply starts_with_app.
Qed.

Lemma scan_stages_spec ns k :
  slash_free ns → wf_key k →
  starts_with ("/ballista/" +:+ ns +:+ "/stages") (key_of k) = true ↔ ∃ job st, k = KStage ns job st.
Proof.
  intros Hns Hk. split.
  - intros H. apply (starts_with_components ns "stages") in H as (hd & tl & Hc); [|done..].
    destruct k; simpl in Hc; simplify_eq; try discriminate; eauto.
  - intros (job & st & ->). apply starts_with_spec. exists ("/" +:+ job +:+ "/" +:+ pretty st).
    rewrite <-!string_app_assoc. done.
Qed.

Lemma scan_job_tasks ns job k :
  slash_free ns → slash_free job → wf_key k →
  starts_with (get_task_prefix_for_job ns job) (key_of k) = true ↔
  ∃ job' st pt, k = KTask ns job' st pt ∧ starts_with job job' = true.
Proof.
  intros Hns Hjob Hk. rewrite get_task_prefix_for_job_eq. split.
  - intros [r Hr]%starts_with_spec.
    destruct (split slash r) as [|hd tl] eqn:E; [by destruct (split_nonempty slash r)|].
    pose proof (split_key_of k Hk) as Hc.
    rewrite Hr, (split_app _ _ r ["" ; "ballista"; ns; "tasks"] job hd tl) in Hc; [|..|done].
    2:{ rewrite split_kind by done. by rewrite split_char_free. }
    destruct k; simpl in Hc; simplify_eq. eexists _, _, _. split; [done|].
    apply starts_with_app.
  - intros (job' & st & pt & -> & [r ->]%starts_with_spec). cbn [key_of].
    rewrite get_task_status_key_eq. apply starts_with_spec.
    exists (r +:+ "/" +:+ pretty st +:+ "/" +:+ pretty pt). by rewrite <-!string_app_assoc.
Qed.

(** C34 — The scan that collects the tasks of a job, whose prefix has no
    trailing slash, meets exactly the tasks of the namespace whose job id
    begins with the given one; job ids of one length (the scheduler draws
    seven characters) make that the tasks of the job itself. *)
Theorem scan_job_tasks_spec ns job k :
  slash_free ns → slash_free job → wf_key k →
  starts_with (get_task_prefix_for_job ns job) (key_of k) = true ↔
  ∃ job' st pt, k = KTask ns job' st pt ∧ starts_with job job' = true.
Proof. apply scan_job_tasks. Qed.

Lemma scan_job_tasks_spec_witness :
  ∃ job' st pt, KTask "default" "job10" 1 0 = KTask "default" job' st pt ∧
                starts_with "job1" job' = true.
Proof.
  apply (scan_job_tasks_spec "default" "job1" (KTask "default" "job10" 1 0));
    [reflexivity|reflexivity|split; reflexivity|vm_compute; reflexivity].
Defined.

Lemma starts_with_same_length p s :
  String.length p = String.length s → starts_with p s = true → s = p.
Proof.
  intros Hl [r ->]%starts_with_spec. rewrite length_string_app in Hl.
  destruct r; [apply string_app_nil_r|simpl in Hl; lia].
Qed.
