(* ===== verification/Proto.v ===== *)
(** * The Ballista protocol buffer messages

    The messages and enums of src/rust/core/proto/ballista.proto that the
    conversions of this development read and write, as the Rust types prost
    generates from them: a message field of message type is an [option], a
    repeated field a [list], an enum field the [i32] that holds its number
    ([Z]), a [oneof] an option of a sum type.  One-field wrapper messages
    ([List], [Struct], [Not], ...) are flattened into the constructor that
    carries them.  Floats are carried as their bit patterns. *)

From S2P Require Import Prelude.

(** ** Enums

    A protobuf enum: the number of each variant ([v as i32]) and the generated
    [from_i32], which finds the variant with a given number. *)
Class ProtoEnum (A : Type) := {
  to_i32 : A → Z;
  variants : list A;
}.

Definition from_i32 {A} `{ProtoEnum A} (n : Z) : option A :=
  List.find (λ v, bool_decide (to_i32 v = n)) variants.

(** Every enum of the protocol numbers its variants injectively and lists all
    of them. *)
Class ProtoEnumOk (A : Type) `{ProtoEnum A} :=
  from_i32_to_i32 : ∀ v : A, from_i32 (to_i32 v) = Some v.

#[global] Arguments to_i32 : simpl never.
#[global] Arguments from_i32 : simpl never.

Inductive PIntervalUnit := PIU_YearMonth | PIU_DayTime.
Instance PIntervalUnit_enum : ProtoEnum PIntervalUnit := {
  to_i32 v := match v with PIU_YearMonth => 0 | PIU_DayTime => 1 end%Z;
  variants := [PIU_YearMonth; PIU_DayTime] }.

Inductive PTimeUnit := PTU_Second | PTU_TimeMillisecond | PTU_Microsecond | PTU_Nanosecond.
Instance PTimeUnit_enum : ProtoEnum PTimeUnit := {
  to_i32 v := match v with
    | PTU_Second => 0 | PTU_TimeMillisecond => 1 | PTU_Microsecond => 2 | PTU_Nanosecond => 3
    end%Z;
  variants := [PTU_Second; PTU_TimeMillisecond; PTU_Microsecond; PTU_Nanosecond] }.

Inductive PrimitiveScalarType :=
| PST_Bool | PST_Uint8 | PST_Int8 | PST_Uint16 | PST_Int16 | PST_Uint32 | PST_Int32
| PST_Uint64 | PST_Int64 | PST_Float32 | PST_Float64 | PST_Utf8 | PST_LargeUtf8
| PST_Date32 | PST_TimeMicrosecond | PST_TimeNanosecond | PST_Null.
Instance PrimitiveScalarType_enum : ProtoEnum PrimitiveScalarType := {
  to_i32 v := match v with
    | PST_Bool => 0 | PST_Uint8 => 1 | PST_Int8 => 2 | PST_Uint16 => 3 | PST_Int16 => 4
    | PST_Uint32 => 5 | PST_Int32 => 6 | PST_Uint64 => 7 | PST_Int64 => 8
    | PST_Float32 => 9 | PST_Float64 => 10 | PST_Utf8 => 11 | PST_LargeUtf8 => 12
    | PST_Date32 => 13 | PST_TimeMicrosecond => 14 | PST_TimeNanosecond => 15
    | PST_Null => 16
    end%Z;
  variants := [PST_Bool; PST_Uint8; PST_Int8; PST_Uint16; PST_Int16; PST_Uint32; PST_Int32;
    PST_Uint64; PST_Int64; PST_Float32; PST_Float64; PST_Utf8; PST_LargeUtf8; PST_Date32;
    PST_TimeMicrosecond; PST_TimeNanosecond; PST_Null] }.

Inductive PScalarFunction :=
| SF_Sqrt | SF_Sin | SF_Cos | SF_Tan | SF_Asin | SF_Acos | SF_Atan | SF_Exp | SF_Log | SF_Log2
| SF_Log10 | SF_Floor | SF_Ceil | SF_Round | SF_Trunc | SF_Abs | SF_Signum | SF_Length
| SF_Concat | SF_Lower | SF_Upper | SF_Trim | SF_Ltrim | SF_Rtrim | SF_Totimestamp | SF_Array
| SF_Nullif | SF_Datetrunc | SF_Md5 | SF_Sha224 | SF_Sha256 | SF_Sha384 | SF_Sha512.
Instance PScalarFunction_enum : ProtoEnum PScalarFunction := {
  to_i32 v := match v with
    | SF_Sqrt => 0 | SF_Sin => 1 | SF_Cos => 2 | SF_Tan => 3 | SF_Asin => 4 | SF_Acos => 5
    | SF_Atan => 6 | SF_Exp => 7 | SF_Log => 8 | SF_Log2 => 9 | SF_Log10 => 10
    | SF_Floor => 11 | SF_Ceil => 12 | SF_Round => 13 | SF_Trunc => 14 | SF_Abs => 15
    | SF_Signum => 16 | SF_Length => 17 | SF_Concat => 18 | SF_Lower => 19 | SF_Upper => 20
    | SF_Trim => 21 | SF_Ltrim => 22 | SF_Rtrim => 23 | SF_Totimestamp => 24 | SF_Array => 25
    | SF_Nullif => 26 | SF_Datetrunc => 27 | SF_Md5 => 28 | SF_Sha224 => 29 | SF_Sha256 => 30
    | SF_Sha384 => 31 | SF_Sha512 => 32
    end%Z;
  variants := [SF_Sqrt; SF_Sin; SF_Cos; SF_Tan; SF_Asin; SF_Acos; SF_Atan; SF_Exp; SF_Log;
    SF_Log2; SF_Log10; SF_Floor; SF_Ceil; SF_Round; SF_Trunc; SF_Abs; SF_Signum; SF_Length;
    SF_Concat; SF_Lower; SF_Upper; SF_Trim; SF_Ltrim; SF_Rtrim; SF_Totimestamp; SF_Array;
    SF_Nullif; SF_Datetrunc; SF_Md5; SF_Sha224; SF_Sha256; SF_Sha384; SF_Sha512] }.

Inductive PAggregateFunction := PAF_Min | PAF_Max | PAF_Sum | PAF_Avg | PAF_Count.
Instance PAggregateFunction_enum : ProtoEnum PAggregateFunction := {
  to_i32 v := match v with
    | PAF_Min => 0 | PAF_Max => 1 | PAF_Sum => 2 | PAF_Avg => 3 | PAF_Count => 4
    end%Z;
  variants := [PAF_Min; PAF_Max; PAF_Sum; PAF_Avg; PAF_Count] }.

Inductive PFileType := PFT_NdJson | PFT_Parquet | PFT_Csv.
Instance PFileType_enum : ProtoEnum PFileType := {
  to_i32 v := match v with PFT_NdJson => 0 | PFT_Parquet => 1 | PFT_Csv => 2 end%Z;
  variants := [PFT_NdJson; PFT_Parquet; PFT_Csv] }.

Inductive PJoinType := PJT_Inner | PJT_Left | PJT_Right.
Instance PJoinType_enum : ProtoEnum PJoinType := {
  to_i32 v := match v with PJT_Inner => 0 | PJT_Left => 1 | PJT_Right => 2 end%Z;
  variants := [PJT_Inner; PJT_Left; PJT_Right] }.

Inductive PAggregateMode := PAM_Partial | PAM_Final.
Instance PAggregateMode_enum : ProtoEnum PAggregateMode := {
  to_i32 v := match v with PAM_Partial => 0 | PAM_Final => 1 end%Z;
  variants := [PAM_Partial; PAM_Final] }.

Ltac solve_enum := intros []; vm_compute; reflexivity.
Instance PIntervalUnit_ok : ProtoEnumOk PIntervalUnit.
Proof. solve_enum. Qed.
Instance PTimeUnit_ok : ProtoEnumOk PTimeUnit.
Proof. solve_enum. Qed.
Instance PrimitiveScalarType_ok : ProtoEnumOk PrimitiveScalarType.
Proof. solve_enum. Qed.
Instance PScalarFunction_ok : ProtoEnumOk PScalarFunction.
Proof. solve_enum. Qed.
Instance PAggregateFunction_ok : ProtoEnumOk PAggregateFunction.
Proof. solve_enum. Qed.
Instance PFileType_ok : ProtoEnumOk PFileType.
Proof. solve_enum. Qed.
Instance PJoinType_ok : ProtoEnumOk PJoinType.
Proof. solve_enum. Qed.
Instance PAggregateMode_ok : ProtoEnumOk PAggregateMode.
Proof. solve_enum. Qed.

(** ** Arrow types, fields and schemas *)

Inductive PArrowType :=
| mkArrowType (arrow_type_enum : option ArrowTypeEnum)
with ArrowTypeEnum :=
| ATE_None | ATE_Bool | ATE_Uint8 | ATE_Int8 | ATE_Uint16 | ATE_Int16 | ATE_Uint32 | ATE_Int32
| ATE_Uint64 | ATE_Int64 | ATE_Float16 | ATE_Float32 | ATE_Float64 | ATE_Utf8 | ATE_LargeUtf8
| ATE_Binary
| ATE_FixedSizeBinary (size : Z)
| ATE_LargeBinary | ATE_Date32 | ATE_Date64
| ATE_Duration (time_unit : Z)
| ATE_Timestamp (time_unit : Z) (timezone : string)
| ATE_Time32 (time_unit : Z)
| ATE_Time64 (time_unit : Z)
| ATE_Interval (interval_unit : Z)
| ATE_Decimal (whole fractional : Z)
| ATE_List (field_type : option PField)
| ATE_LargeList (field_type : option PField)
| ATE_FixedSizeList (field_type : option PField) (list_size : Z)
| ATE_Struct (sub_field_types : list PField)
| ATE_Union (union_types : list PField)
| ATE_Dictionary (key value : option PArrowType)
with PField :=
| mkPField (name : string) (arrow_type : option PArrowType) (nullable : bool)
           (children : list PField).

Record PSchema := mkPSchema { ps_columns : list PField }.

(** ** Scalars *)

Inductive PDatatype :=
| PD_Scalar (scalar_type : Z)
| PD_List (field_names : list string) (deepest_type : Z).

Record PScalarType := mkPScalarType { pst_datatype : option PDatatype }.

Inductive PScalarValue :=
| mkPScalarValue (value : option PValue)
with PValue :=
| PV_BoolValue (v : bool)
| PV_Utf8Value (v : string)
| PV_LargeUtf8Value (v : string)
| PV_Int8Value (v : Z)
| PV_Int16Value (v : Z)
| PV_Int32Value (v : Z)
| PV_Int64Value (v : Z)
| PV_Uint8Value (v : Z)
| PV_Uint16Value (v : Z)
| PV_Uint32Value (v : Z)
| PV_Uint64Value (v : Z)
| PV_Float32Value (v : Z)
| PV_Float64Value (v : Z)
| PV_Date32Value (v : Z)
| PV_TimeMicrosecondValue (v : Z)
| PV_TimeNanosecondValue (v : Z)
| PV_ListValue (datatype : option PScalarType) (values : list PScalarValue)
| PV_NullListValue (v : PScalarType)
| PV_NullValue (v : Z).

(** ** Logical expressions *)

Inductive PLogicalExprNode :=
| mkLogicalExprNode (expr_type : option ExprType)
with ExprType :=
| ET_ColumnName (name : string)
| ET_Alias (expr : option PLogicalExprNode) (alias : string)
| ET_Literal (v : PScalarValue)
| ET_BinaryExpr (l r : option PLogicalExprNode) (op : string)
| ET_AggregateExpr (aggr_function : Z) (expr : option PLogicalExprNode)
| ET_IsNullExpr (expr : option PLogicalExprNode)
| ET_IsNotNullExpr (expr : option PLogicalExprNode)
| ET_NotExpr (expr : option PLogicalExprNode)
| ET_Between (expr : option PLogicalExprNode) (negated : bool)
             (low high : option PLogicalExprNode)
| ET_Case (expr : option PLogicalExprNode) (when_then_expr : list PWhenThen)
          (else_expr : option PLogicalExprNode)
| ET_Cast (expr : option PLogicalExprNode) (arrow_type : option PArrowType)
| ET_Sort (expr : option PLogicalExprNode) (asc nulls_first : bool)
| ET_Negative (expr : option PLogicalExprNode)
| ET_InList (expr : option PLogicalExprNode) (list : list PLogicalExprNode) (negated : bool)
| ET_Wildcard (b : bool)
| ET_ScalarFunction (fun_ : Z) (expr : list PLogicalExprNode)
with PWhenThen :=
| mkWhenThen (when_expr then_expr : option PLogicalExprNode).

(** ** Logical plans *)

Record PCsvTableScanNode := mkCsvTableScanNode {
  cts_table_name : string; cts_path : string; cts_has_header : bool; cts_delimiter : string;
  cts_file_extension : string; cts_projection : option (list string);
  cts_schema : option PSchema; cts_filters : list PLogicalExprNode }.

Record PParquetTableScanNode := mkParquetTableScanNode {
  pts_table_name : string; pts_path : string; pts_projection : option (list string);
  pts_schema : option PSchema; pts_filters : list PLogicalExprNode }.

Inductive PPartitionMethod :=
| PM_RoundRobin (batch_size : Z)
| PM_Hash (hash_expr : list PLogicalExprNode) (batch_size : Z).

Record PCreateExternalTableNode := mkCreateExternalTableNode {
  cet_name : string; cet_location : string; cet_file_type : Z; cet_has_header : bool;
  cet_schema : option PSchema }.

Inductive PLogicalPlanNode :=
| mkLogicalPlanNode (logical_plan_type : option LogicalPlanType)
with LogicalPlanType :=
| LPT_CsvScan (scan : PCsvTableScanNode)
| LPT_ParquetScan (scan : PParquetTableScanNode)
| LPT_Projection (input : option PLogicalPlanNode) (expr : list PLogicalExprNode)
| LPT_Selection (input : option PLogicalPlanNode) (expr : option PLogicalExprNode)
| LPT_Limit (input : option PLogicalPlanNode) (limit : Z)
| LPT_Aggregate (input : option PLogicalPlanNode) (group_expr aggr_expr : list PLogicalExprNode)
| LPT_Join (left right : option PLogicalPlanNode) (join_type : Z)
           (left_join_column right_join_column : list string)
| LPT_Sort (input : option PLogicalPlanNode) (expr : list PLogicalExprNode)
| LPT_Repartition (input : option PLogicalPlanNode)
                  (partition_method : option PPartitionMethod)
| LPT_EmptyRelation (produce_one_row : bool)
| LPT_CreateExternalTable (node : PCreateExternalTableNode)
| LPT_Explain (input : option PLogicalPlanNode) (verbose : bool).

(** ** Scheduling messages *)

Record PPartitionId := mkPPartitionId {
  ppi_job_id : string; ppi_stage_id : Z; ppi_partition_id : Z }.

Record PExecutorMetadata := mkPExecutorMetadata {
  pem_id : string; pem_host : string; pem_port : Z }.

Record PPartitionLocation := mkPPartitionLocation {
  ppl_partition_id : option PPartitionId; ppl_executor_meta : option PExecutorMetadata }.

Inductive TaskStatusStatus :=
| TS_Running (executor_id : string)
| TS_Failed (error : string)
| TS_Completed (executor_id : string).

Record TaskStatus := mkTaskStatus {
  ts_partition_id : option PPartitionId; ts_status : option TaskStatusStatus }.

Inductive JobStatusStatus :=
| JS_Queued
| JS_Running
| JS_Failed (error : string)
| JS_Completed (partition_location : list PPartitionLocation).

Record JobStatus := mkJobStatus { js_status : option JobStatusStatus }.

Instance PPartitionId_eq_dec : EqDecision PPartitionId.
Proof. solve_decision. Defined.
Instance PExecutorMetadata_eq_dec : EqDecision PExecutorMetadata.
Proof. solve_decision. Defined.
Instance PPartitionLocation_eq_dec : EqDecision PPartitionLocation.
Proof. solve_decision. Defined.
Instance TaskStatusStatus_eq_dec : EqDecision TaskStatusStatus.
Proof. solve_decision. Defined.
Instance TaskStatus_eq_dec : EqDecision TaskStatus.
Proof. solve_decision. Defined.
Instance JobStatusStatus_eq_dec : EqDecision JobStatusStatus.
Proof. solve_decision. Defined.
Instance JobStatus_eq_dec : EqDecision JobStatus.
Proof. solve_decision. Defined.

(** ** Physical plans *)

Inductive PPhysicalPlanNode :=
| mkPhysicalPlanNode (physical_plan_type : option PhysicalPlanType)
with PhysicalPlanType :=
| PPT_ParquetScan (filename : list string) (projection : list Z) (num_partitions batch_size : Z)
| PPT_CsvScan (path : string) (projection : list Z) (schema : option PSchema)
              (file_extension : string) (has_header : bool) (batch_size : Z)
              (delimiter : string) (filename : list string)
| PPT_Empty (produce_one_row : bool) (schema : option PSchema)
| PPT_Projection (input : option PPhysicalPlanNode) (expr : list PLogicalExprNode)
                 (expr_name : list string)
| PPT_GlobalLimit (input : option PPhysicalPlanNode) (limit : Z)
| PPT_LocalLimit (input : option PPhysicalPlanNode) (limit : Z)
| PPT_HashAggregate (group_expr aggr_expr : list PLogicalExprNode) (mode : Z)
                    (input : option PPhysicalPlanNode)
                    (group_expr_name aggr_expr_name : list string)
                    (input_schema : option PSchema)
| PPT_HashJoin (left right : option PPhysicalPlanNode) (on : list (string * string))
               (join_type : Z)
| PPT_ShuffleReader (partition_location : list PPartitionLocation) (schema : option PSchema)
| PPT_Sort (input : option PPhysicalPlanNode) (expr : list PLogicalExprNode)
| PPT_CoalesceBatches (input : option PPhysicalPlanNode) (target_batch_size : Z)
| PPT_Filter (input : option PPhysicalPlanNode) (expr : option PLogicalExprNode)
| PPT_Merge (input : option PPhysicalPlanNode)
| PPT_Unresolved (query_stage_ids : list Z) (schema : option PSchema) (partition_count : Z).

(** ** Requests to an executor *)

Record PExecutePartition := mkPExecutePartition {
  pep_job_id : string; pep_stage_id : Z; pep_partition_id : list Z;
  pep_plan : option PPhysicalPlanNode; pep_partition_location : list PPartitionLocation }.

Inductive PActionType :=
| AT_Query (plan : PLogicalPlanNode)
| AT_ExecutePartition (p : PExecutePartition)
| AT_FetchPartition (p : PPartitionId).

Record PAction := mkPAction {
  pa_action_type : option PActionType; pa_settings : list (string * string) }.
