(* ===== verification/Arrow.v ===== *)
(** * Arrow schemas and their protobuf form

    Models the schema part of src/rust/core/src/serde/logical_plan/to_proto.rs
    and from_proto.rs: Arrow's [DataType], [Field] and [Schema], their
    conversion to the protobuf messages, the two decoders back (one over
    [ArrowType], one over [ArrowTypeEnum]), and the theorems that decoding
    inverts encoding up to the information the messages do not carry, and that
    the two decoders agree. *)

From S2P Require Import Prelude Proto.

(** ** The Arrow types *)

Inductive TimeUnit := Second | Millisecond | Microsecond | Nanosecond.
Inductive IntervalUnit := YearMonth | DayTime.

(** [arrow::datatypes::DataType] and [Field].  [DT_] constructors are the
    variants the conversions match on exhaustively. *)
Inductive DataType :=
| DT_Null | DT_Boolean
| DT_Int8 | DT_Int16 | DT_Int32 | DT_Int64 | DT_UInt8 | DT_UInt16 | DT_UInt32 | DT_UInt64
| DT_Float16 | DT_Float32 | DT_Float64
| DT_Timestamp (unit : TimeUnit) (timezone : option string)
| DT_Date32 | DT_Date64
| DT_Time32 (unit : TimeUnit)
| DT_Time64 (unit : TimeUnit)
| DT_Duration (unit : TimeUnit)
| DT_Interval (unit : IntervalUnit)
| DT_Binary
| DT_FixedSizeBinary (size : Z)
| DT_LargeBinary | DT_Utf8 | DT_LargeUtf8
| DT_List (item : Field)
| DT_FixedSizeList (item : Field) (size : Z)
| DT_LargeList (item : Field)
| DT_Struct (fields : list Field)
| DT_Union (fields : list Field)
| DT_Dictionary (key value : DataType)
| DT_Decimal (whole fractional : Z)
with Field :=
| mkField (name : string) (data_type : DataType) (nullable : bool)
          (dict_id : Z) (dict_is_ordered : bool)
          (metadata : option (list (string * string))).

Definition field_name (f : Field) : string := let 'mkField n _ _ _ _ _ := f in n.
Definition field_data_type (f : Field) : DataType := let 'mkField _ t _ _ _ _ := f in t.
Definition field_nullable (f : Field) : bool := let 'mkField _ _ b _ _ _ := f in b.

(** [Field::new]: no dictionary id, no ordering, no metadata. *)
Definition Field_new (name : string) (t : DataType) (nullable : bool) : Field :=
  mkField name t nullable 0 false None.

Record Schema := mkSchema { schema_fields : list Field }.

Scheme DataType_mind := Induction for DataType Sort Prop
with Field_mind := Induction for Field Sort Prop.

(** Induction over types and fields together. *)
Combined Scheme DataType_Field_ind from DataType_mind, Field_mind.

(** ** Units *)

Definition from_arrow_interval_unit (u : IntervalUnit) : PIntervalUnit :=
  match u with YearMonth => PIU_YearMonth | DayTime => PIU_DayTime end.

Definition interval_unit_from_i32_to_arrow (n : Z) : Result IntervalUnit :=
  match from_i32 (A := PIntervalUnit) n with
  | Some PIU_YearMonth => Ok YearMonth
  | Some PIU_DayTime => Ok DayTime
  | None => Err (proto_error "Error converting i32 to DateUnit: Passed invalid variant")
  end.

Definition from_arrow_time_unit (u : TimeUnit) : PTimeUnit :=
  match u with
  | Second => PTU_Second
  | Millisecond => PTU_TimeMillisecond
  | Microsecond => PTU_Microsecond
  | Nanosecond => PTU_Nanosecond
  end.

Definition time_unit_from_i32_to_arrow (n : Z) : Result TimeUnit :=
  match from_i32 (A := PTimeUnit) n with
  | Some PTU_Second => Ok Second
  | Some PTU_TimeMillisecond => Ok Millisecond
  | Some PTU_Microsecond => Ok Microsecond
  | Some PTU_Nanosecond => Ok Nanosecond
  | None => Err (proto_error "Error converting i32 to TimeUnit: Passed invalid variant")
  end.

Lemma interval_unit_roundtrip u :
  interval_unit_from_i32_to_arrow (to_i32 (from_arrow_interval_unit u)) = Ok u.
Proof. by destruct u. Qed.
Lemma time_unit_roundtrip u :
  time_unit_from_i32_to_arrow (to_i32 (from_arrow_time_unit u)) = Ok u.
Proof. by destruct u. Qed.
#[export] Hint Rewrite interval_unit_roundtrip time_unit_roundtrip : ballista.

(** ** Encoding *)

(** [From<&DataType> for ArrowTypeEnum] together with [From<&Field> for
    protobuf::Field]. *)
Fixpoint datatype_to_arrow_type_enum (val : DataType) : ArrowTypeEnum :=
  match val with
  | DT_Null => ATE_None
  | DT_Boolean => ATE_Bool
  | DT_Int8 => ATE_Int8
  | DT_Int16 => ATE_Int16
  | DT_Int32 => ATE_Int32
  | DT_Int64 => ATE_Int64
  | DT_UInt8 => ATE_Uint8
  | DT_UInt16 => ATE_Uint16
  | DT_UInt32 => ATE_Uint32
  | DT_UInt64 => ATE_Uint64
  | DT_Float16 => ATE_Float16
  | DT_Float32 => ATE_Float32
  | DT_Float64 => ATE_Float64
  | DT_Timestamp time_unit timezone =>
      ATE_Timestamp (to_i32 (from_arrow_time_unit time_unit)) (default "" timezone)
  | DT_Date32 => ATE_Date32
  | DT_Date64 => ATE_Date64
  | DT_Time32 time_unit => ATE_Time32 (to_i32 (from_arrow_time_unit time_unit))
  | DT_Time64 time_unit => ATE_Time64 (to_i32 (from_arrow_time_unit time_unit))
  | DT_Duration time_unit => ATE_Duration (to_i32 (from_arrow_time_unit time_unit))
  | DT_Interval interval_unit =>
      ATE_Interval (to_i32 (from_arrow_interval_unit interval_unit))
  | DT_Binary => ATE_Binary
  | DT_FixedSizeBinary size => ATE_FixedSizeBinary size
  | DT_LargeBinary => ATE_LargeBinary
  | DT_Utf8 => ATE_Utf8
  | DT_LargeUtf8 => ATE_LargeUtf8
  | DT_List item_type => ATE_List (Some (field_to_proto item_type))
  | DT_FixedSizeList item_type size => ATE_FixedSizeList (Some (field_to_proto item_type)) size
  | DT_LargeList item_type => ATE_LargeList (Some (field_to_proto item_type))
  | DT_Struct struct_fields => ATE_Struct (List.map field_to_proto struct_fields)
  | DT_Union union_types => ATE_Union (List.map field_to_proto union_types)
  | DT_Dictionary key_type value_type =>
      ATE_Dictionary (Some (mkArrowType (Some (datatype_to_arrow_type_enum key_type))))
                     (Some (mkArrowType (Some (datatype_to_arrow_type_enum value_type))))
  | DT_Decimal whole fractional => ATE_Decimal (as_u64 whole) (as_u64 fractional)
  end
with field_to_proto (field : Field) : PField :=
  match field with
  | mkField name data_type nullable _ _ _ =>
      mkPField name (Some (mkArrowType (Some (datatype_to_arrow_type_enum data_type))))
               nullable []
  end.

(** [From<&DataType> for protobuf::ArrowType]. *)
Definition datatype_to_arrow_type (val : DataType) : PArrowType :=
  mkArrowType (Some (datatype_to_arrow_type_enum val)).
#[global] Arguments datatype_to_arrow_type : simpl never.

(** [Into<protobuf::Schema> for &Schema]. *)
Definition schema_to_proto (s : Schema) : PSchema :=
  mkPSchema (List.map field_to_proto (schema_fields s)).

(** ** Decoding *)

Definition timezone_from_proto (timezone : string) : option string :=
  match timezone with EmptyString => None | _ => Some timezone end.

(** [TryInto<DataType> for &protobuf::ArrowType] (in to_proto.rs) together
    with [TryInto<Field> for &protobuf::Field]. *)
Fixpoint arrow_type_to_datatype (self : PArrowType) : Result DataType :=
  match self with
  | mkArrowType None =>
      Err (proto_error
        "Protobuf deserialization error: ArrowType missing required field 'data_type'")
  | mkArrowType (Some pb_arrow_type) =>
    match pb_arrow_type with
    | ATE_None => Ok DT_Null
    | ATE_Bool => Ok DT_Boolean
    | ATE_Uint8 => Ok DT_UInt8
    | ATE_Int8 => Ok DT_Int8
    | ATE_Uint16 => Ok DT_UInt16
    | ATE_Int16 => Ok DT_Int16
    | ATE_Uint32 => Ok DT_UInt32
    | ATE_Int32 => Ok DT_Int32
    | ATE_Uint64 => Ok DT_UInt64
    | ATE_Int64 => Ok DT_Int64
    | ATE_Float16 => Ok DT_Float16
    | ATE_Float32 => Ok DT_Float32
    | ATE_Float64 => Ok DT_Float64
    | ATE_Utf8 => Ok DT_Utf8
    | ATE_LargeUtf8 => Ok DT_LargeUtf8
    | ATE_Binary => Ok DT_Binary
    | ATE_FixedSizeBinary size => Ok (DT_FixedSizeBinary size)
    | ATE_LargeBinary => Ok DT_LargeBinary
    | ATE_Date32 => Ok DT_Date32
    | ATE_Date64 => Ok DT_Date64
    | ATE_Duration time_unit_i32 =>
        let? u := time_unit_from_i32_to_arrow time_unit_i32 in Ok (DT_Duration u)
    | ATE_Timestamp time_unit timezone =>
        let? u := time_unit_from_i32_to_arrow time_unit in
        Ok (DT_Timestamp u (timezone_from_proto timezone))
    | ATE_Time32 time_unit_i32 =>
        let? u := time_unit_from_i32_to_arrow time_unit_i32 in Ok (DT_Time32 u)
    | ATE_Time64 time_unit_i32 =>
        let? u := time_unit_from_i32_to_arrow time_unit_i32 in Ok (DT_Time64 u)
    | ATE_Interval interval_unit_i32 =>
        let? u := interval_unit_from_i32_to_arrow interval_unit_i32 in Ok (DT_Interval u)
    | ATE_Decimal whole fractional => Ok (DT_Decimal (as_usize whole) (as_usize fractional))
    | ATE_List None | ATE_LargeList None =>
        Err (proto_error "Protobuf deserialization error: List message was missing required field 'field_type'")
    | ATE_List (Some f) => let? f' := proto_to_field f in Ok (DT_List f')
    | ATE_LargeList (Some f) => let? f' := proto_to_field f in Ok (DT_LargeList f')
    | ATE_FixedSizeList None _ =>
        Err (proto_error "Protobuf deserialization error: FixedSizeList message was missing required field 'field_type'")
    | ATE_FixedSizeList (Some f) list_size =>
        let? f' := proto_to_field f in Ok (DT_FixedSizeList f' list_size)
    | ATE_Struct sub_field_types =>
        let? fields := rmapM proto_to_field sub_field_types in Ok (DT_Struct fields)
    | ATE_Union union_types =>
        let? fields := rmapM proto_to_field union_types in Ok (DT_Union fields)
    | ATE_Dictionary None _ =>
        Err (proto_error "Protobuf deserialization error: Dictionary message was missing required field 'key'")
    | ATE_Dictionary (Some _) None =>
        Err (proto_error "Protobuf deserialization error: Dictionary message was missing required field 'value'")
    | ATE_Dictionary (Some pb_key) (Some pb_value) =>
        let? k := arrow_type_to_datatype pb_key in
        let? v := arrow_type_to_datatype pb_value in
        Ok (DT_Dictionary k v)
    end
  end
with proto_to_field (self : PField) : Result Field :=
  match self with
  | mkPField name None _ _ =>
      Err (proto_error
        "Protobuf deserialization error: Field message missing required field 'arrow_type'")
  | mkPField name (Some pb_datatype) nullable _ =>
      let? t := arrow_type_to_datatype pb_datatype in Ok (Field_new name t nullable)
  end.

(** [TryInto<DataType> for &protobuf::arrow_type::ArrowTypeEnum] (in
    from_proto.rs): the second decoder. *)
Definition arrow_type_enum_to_datatype (self : ArrowTypeEnum) : Result DataType :=
  match self with
  | ATE_None => Ok DT_Null
  | ATE_Bool => Ok DT_Boolean
  | ATE_Uint8 => Ok DT_UInt8
  | ATE_Int8 => Ok DT_Int8
  | ATE_Uint16 => Ok DT_UInt16
  | ATE_Int16 => Ok DT_Int16
  | ATE_Uint32 => Ok DT_UInt32
  | ATE_Int32 => Ok DT_Int32
  | ATE_Uint64 => Ok DT_UInt64
  | ATE_Int64 => Ok DT_Int64
  | ATE_Float16 => Ok DT_Float16
  | ATE_Float32 => Ok DT_Float32
  | ATE_Float64 => Ok DT_Float64
  | ATE_Utf8 => Ok DT_Utf8
  | ATE_LargeUtf8 => Ok DT_LargeUtf8
  | ATE_Binary => Ok DT_Binary
  | ATE_FixedSizeBinary size => Ok (DT_FixedSizeBinary size)
  | ATE_LargeBinary => Ok DT_LargeBinary
  | ATE_Date32 => Ok DT_Date32
  | ATE_Date64 => Ok DT_Date64
  | ATE_Duration time_unit =>
      let? u := time_unit_from_i32_to_arrow time_unit in Ok (DT_Duration u)
  | ATE_Timestamp time_unit timezone =>
      let? u := time_unit_from_i32_to_arrow time_unit in
      Ok (DT_Timestamp u (match String.length timezone with O => None | _ => Some timezone end))
  | ATE_Time32 time_unit =>
      let? u := time_unit_from_i32_to_arrow time_unit in Ok (DT_Time32 u)
  | ATE_Time64 time_unit =>
      let? u := time_unit_from_i32_to_arrow time_unit in Ok (DT_Time64 u)
  | ATE_Interval interval_unit =>
      let? u := interval_unit_from_i32_to_arrow interval_unit in Ok (DT_Interval u)
  | ATE_Decimal whole fractional => Ok (DT_Decimal (as_usize whole) (as_usize fractional))
  | ATE_List list =>
      let? list_type := ok_or (proto_error "Protobuf deserialization error: List message missing required field 'field_type'") list in
      let? f := proto_to_field list_type in Ok (DT_List f)
  | ATE_LargeList list =>
      let? list_type := ok_or (proto_error "Protobuf deserialization error: List message missing required field 'field_type'") list in
      let? f := proto_to_field list_type in Ok (DT_LargeList f)
  | ATE_FixedSizeList list list_size =>
      let? list_type := ok_or (proto_error "Protobuf deserialization error: List message missing required field 'field_type'") list in
      let? f := proto_to_field list_type in Ok (DT_FixedSizeList f list_size)
  | ATE_Struct sub_field_types =>
      let? fields := rmapM proto_to_field sub_field_types in Ok (DT_Struct fields)
  | ATE_Union union_types =>
      let? fields := rmapM proto_to_field union_types in Ok (DT_Union fields)
  | ATE_Dictionary key value =>
      let? pb_key_datatype := ok_or (proto_error "Protobuf deserialization error: Dictionary message missing required field 'key'") key in
      let? pb_value_datatype := ok_or (proto_error "Protobuf deserialization error: Dictionary message missing required field 'key'") value in
      let? key_datatype := arrow_type_to_datatype pb_key_datatype in
      let? value_datatype := arrow_type_to_datatype pb_value_datatype in
      Ok (DT_Dictionary key_datatype value_datatype)
  end.

(** [TryInto<DataType> for &Box<protobuf::List>]. *)
Definition list_message_to_datatype (field_type : option PField) : Result DataType :=
  match field_type with
  | Some pb_field => let? f := proto_to_field pb_field in Ok (DT_List f)
  | None => Err (proto_error "List message missing required field 'field_type'")
  end.

(** [TryInto<Schema> for &protobuf::Schema]. *)
Definition schema_from_proto (self : PSchema) : Result Schema :=
  let? fields :=
    rmapM (λ c, let 'mkPField name arrow_type nullable _ := c in
      match arrow_type with
      | None => Err (proto_error "Protobuf deserialization error: Field message was missing required field 'arrow_type'")
      | Some pb_arrow_type =>
          let? t := arrow_type_to_datatype pb_arrow_type in Ok (Field_new name t nullable)
      end) (ps_columns self) in
  Ok (mkSchema fields).

(** ** What the messages carry

    The messages have no room for a field's dictionary id, ordering flag and
    metadata, and an empty time zone stands for none.  [norm] is a type with
    that information dropped, [wf] the machine ranges of its integers. *)
Fixpoint norm_datatype (t : DataType) : DataType :=
  match t with
  | DT_Timestamp u (Some tz) => DT_Timestamp u (timezone_from_proto tz)
  | DT_List f => DT_List (norm_field f)
  | DT_FixedSizeList f n => DT_FixedSizeList (norm_field f) n
  | DT_LargeList f => DT_LargeList (norm_field f)
  | DT_Struct fs => DT_Struct (List.map norm_field fs)
  | DT_Union fs => DT_Union (List.map norm_field fs)
  | DT_Dictionary k v => DT_Dictionary (norm_datatype k) (norm_datatype v)
  | t => t
  end
with norm_field (f : Field) : Field :=
  match f with mkField name t nullable _ _ _ => Field_new name (norm_datatype t) nullable end.

Definition norm_schema (s : Schema) : Schema :=
  mkSchema (List.map norm_field (schema_fields s)).

(** Machine ranges: the [usize] parameters of a decimal. *)
Fixpoint wf_datatype (t : DataType) : Prop :=
  match t with
  | DT_List f | DT_FixedSizeList f _ | DT_LargeList f => wf_field f
  | DT_Struct fs | DT_Union fs => foldr (λ f acc, wf_field f ∧ acc) True fs
  | DT_Dictionary k v => wf_datatype k ∧ wf_datatype v
  | DT_Decimal w f => in_u 64 w ∧ in_u 64 f
  | _ => True
  end
with wf_field (f : Field) : Prop :=
  match f with mkField _ t _ _ _ _ => wf_datatype t end.

Definition wf_schema (s : Schema) : Prop := Forall wf_field (schema_fields s).

Lemma foldr_and_Forall {A} (P : A → Prop) l :
  foldr (λ x acc, P x ∧ acc) True l ↔ Forall P l.
Proof.
  induction l as [|x l IH]; simpl; [by split|]. by rewrite Forall_cons, IH.
Qed.

Lemma timezone_from_proto_length tz :
  timezone_from_proto tz = match String.length tz with O => None | _ => Some tz end.
Proof. by destruct tz. Qed.

Lemma Forall_impl_all {A} (P Q : A → Prop) l :
  list_all A (λ x, P x → Q x) l → foldr (λ x acc, P x ∧ acc) True l → Forall Q l.
Proof. induction 1; simpl; [done|]. intros [??]. constructor; auto. Qed.

(** The inductive core of the round trip: for both types and fields. *)
Lemma arrow_roundtrip_aux :
  (∀ t, wf_datatype t → arrow_type_to_datatype (datatype_to_arrow_type t) = Ok (norm_datatype t)) ∧
  (∀ f, wf_field f → proto_to_field (field_to_proto f) = Ok (norm_field f)).
Proof.
  unfold datatype_to_arrow_type.
  apply DataType_Field_ind; intros; cbn -[to_i32] in *; try done;
    autorewrite with ballista; try done.
  - by destruct timezone.
  - by rewrite H.
  - by rewrite H.
  - by rewrite H.
  - by rewrite (rmapM_map_ok _ _ norm_field) by (eapply Forall_impl_all; eauto).
  - by rewrite (rmapM_map_ok _ _ norm_field) by (eapply Forall_impl_all; eauto).
  - destruct H1. by rewrite H, H0.
  - destruct H. by rewrite !wrap_u_widen by (done || lia).
  - by rewrite H.
Qed.

(** Encoding ignores what the messages do not carry. *)
Lemma arrow_encode_norm_aux :
  (∀ t, datatype_to_arrow_type_enum (norm_datatype t) = datatype_to_arrow_type_enum t) ∧
  (∀ f, field_to_proto (norm_field f) = field_to_proto f).
Proof.
  assert (∀ fs, list_all Field (λ f, field_to_proto (norm_field f) = field_to_proto f) fs →
    List.map field_to_proto (List.map norm_field fs) = List.map field_to_proto fs) as Hmap.
  { induction 1; simpl; congruence. }
  apply DataType_Field_ind; intros; simpl in *; try congruence.
  - by destruct timezone as [[]|].
  - by rewrite Hmap.
  - by rewrite Hmap.
Qed.

Scheme PArrowType_mind := Induction for PArrowType Sort Prop
with ArrowTypeEnum_mind := Induction for ArrowTypeEnum Sort Prop
with PField_mind := Induction for PField Sort Prop.
Combined Scheme arrow_message_ind from PArrowType_mind, ArrowTypeEnum_mind, PField_mind.

Lemma time_unit_no_panic n : is_panic (time_unit_from_i32_to_arrow n) = false.
Proof. unfold time_unit_from_i32_to_arrow. by destruct (from_i32 n) as [[]|]. Qed.
Lemma interval_unit_no_panic n : is_panic (interval_unit_from_i32_to_arrow n) = false.
Proof. unfold interval_unit_from_i32_to_arrow. by destruct (from_i32 n) as [[]|]. Qed.
Lemma rmapM_no_panic_all {A B} (f : A → Result B) l :
  list_all A (λ x, is_panic (f x) = false) l → is_panic (rmapM f l) = false.
Proof. intros. by apply rmapM_no_panic, list_all_Forall. Qed.
#[export] Hint Resolve time_unit_no_panic interval_unit_no_panic rmapM_no_panic_all : ballista.

(** Decoding a type never crashes, whatever the message. *)
Lemma arrow_decode_no_panic_aux :
  (∀ p, is_panic (arrow_type_to_datatype p) = false) ∧
  (∀ e, is_panic (arrow_type_to_datatype (mkArrowType (Some e))) = false) ∧
  (∀ f, is_panic (proto_to_field f) = false).
Proof.
  apply arrow_message_ind; intros;
    repeat match goal with H : option_all _ _ _ |- _ => destruct H end;
    simpl; no_panic; auto with ballista.
Qed.

(** ** Properties *)

(** Decoding the protobuf form of an Arrow type gives the type back, up to
    exactly the information the messages do not carry ([norm_datatype]: the
    dictionary id, ordering flag and metadata of nested fields, and the
    difference between no time zone and an empty one). *)
Theorem datatype_roundtrip t :
  wf_datatype t → arrow_type_to_datatype (datatype_to_arrow_type t) = Ok (norm_datatype t).
Proof. apply arrow_roundtrip_aux. Qed.

Definition sample_type : DataType :=
  DT_Struct [Field_new "ts" (DT_Timestamp Nanosecond (Some "UTC")) false;
             Field_new "xs" (DT_List (Field_new "item" (DT_Decimal 10 2) true)) true;
             Field_new "d" (DT_Dictionary DT_Int32 DT_Utf8) false].

Lemma datatype_roundtrip_witness :
  arrow_type_to_datatype (datatype_to_arrow_type sample_type) = Ok sample_type.
Proof. apply (datatype_roundtrip sample_type). vm_compute. repeat split; congruence. Defined.

(** The protobuf form identifies a type up to that information: two
    well-formed types have the same message exactly if they are equal up to
    [norm_datatype]. *)
Theorem datatype_encoding_injective t1 t2 :
  wf_datatype t1 → wf_datatype t2 →
  datatype_to_arrow_type t1 = datatype_to_arrow_type t2 ↔ norm_datatype t1 = norm_datatype t2.
Proof.
  intros H1 H2. split.
  - intros He. pose proof (proj1 arrow_roundtrip_aux t1 H1) as R.
    rewrite He, (proj1 arrow_roundtrip_aux t2 H2) in R. congruence.
  - intros Hn. unfold datatype_to_arrow_type.
    by rewrite <-(proj1 arrow_encode_norm_aux t1), Hn, (proj1 arrow_encode_norm_aux t2).
Qed.

Lemma datatype_encoding_injective_witness :
  datatype_to_arrow_type (DT_Timestamp Second (Some "")) =
  datatype_to_arrow_type (DT_Timestamp Second None).
Proof.
  apply (datatype_encoding_injective (DT_Timestamp Second (Some "")) (DT_Timestamp Second None));
    [exact I|exact I|reflexivity].
Defined.

(** The two decoders, over [ArrowType] (to_proto.rs) and over
    [ArrowTypeEnum] (from_proto.rs), accept the same messages and give the
    same types; only their error texts differ. *)
Theorem decoders_agree e :
  ok (arrow_type_enum_to_datatype e) = ok (arrow_type_to_datatype (mkArrowType (Some e))).
Proof.
  destruct e as [| | | | | | | | | | | | | | | | | | | | | | | | | |[]|[]|[]| | |[] []]; simpl; try done.
  by rewrite timezone_from_proto_length.
Qed.

Lemma field_roundtrip f : wf_field f → proto_to_field (field_to_proto f) = Ok (norm_field f).
Proof. apply arrow_roundtrip_aux. Qed.

Lemma schema_roundtrip_aux s : wf_schema s → schema_from_proto (schema_to_proto s) = Ok (norm_schema s).
Proof.
  intros Hs. unfold schema_from_proto, schema_to_proto, norm_schema. simpl.
  rewrite (rmapM_map_ok _ _ norm_field); [done|].
  eapply Forall_impl; [exact Hs|]. intros [name t nullable d o m] Hf.
  by rewrite <-(field_roundtrip (mkField name t nullable d o m) Hf).
Qed.

(** A schema sent as protobuf and read back has the same fields in the
    same order, up to what the messages do not carry. *)
Theorem schema_roundtrip s : wf_schema s → schema_from_proto (schema_to_proto s) = Ok (norm_schema s).
Proof. apply schema_roundtrip_aux. Qed.

Lemma schema_roundtrip_witness :
  schema_from_proto (schema_to_proto (mkSchema [Field_new "x" sample_type true])) =
  Ok (mkSchema [Field_new "x" sample_type true]).
Proof.
  apply (schema_roundtrip (mkSchema [Field_new "x" sample_type true])).
  constructor; [vm_compute; repeat split; congruence|constructor].
Defined.
