(* ===== verification/Scalar.v ===== *)
(** * Scalar values and their protobuf form

    Models the scalar part of src/rust/core/src/serde/logical_plan/to_proto.rs
    and from_proto.rs: DataFusion's [ScalarValue], the conversion of types and
    values to protobuf, and the decoders back.  There are two value decoders
    in the source: over [protobuf::ScalarValue] (which expressions use) and
    over [scalar_value::Value] with [ScalarListValue]; both are modelled.

    The theorems: decoding a type or a value inverts encoding up to the
    nullability and metadata of list items, the accepted types are exactly the
    nested lists over a primitive leaf, and where the second decoder departs
    from the first. *)

From S2P Require Import Prelude Proto Arrow.

(** ** The native scalars

    [datafusion::scalar::ScalarValue]: the variants the sources name;
    [SV_Other] stands for each of the rest, by its number. *)
Inductive ScalarValue :=
| SV_Boolean (v : option bool)
| SV_Float32 (v : option Z)
| SV_Float64 (v : option Z)
| SV_Int8 (v : option Z)
| SV_Int16 (v : option Z)
| SV_Int32 (v : option Z)
| SV_Int64 (v : option Z)
| SV_UInt8 (v : option Z)
| SV_UInt16 (v : option Z)
| SV_UInt32 (v : option Z)
| SV_UInt64 (v : option Z)
| SV_Utf8 (v : option string)
| SV_LargeUtf8 (v : option string)
| SV_List (value : option (list ScalarValue)) (datatype : DataType)
| SV_Date32 (v : option Z)
| SV_TimeMicrosecond (v : option Z)
| SV_TimeNanosecond (v : option Z)
| SV_Other (variant : nat).

(** ** Encoding scalar types *)

Definition is_valid_scalar_type_no_list_check (datatype : DataType) : bool :=
  match datatype with
  | DT_Boolean | DT_Int8 | DT_Int16 | DT_Int32 | DT_Int64
  | DT_UInt8 | DT_UInt16 | DT_UInt32 | DT_UInt64
  | DT_Float32 | DT_Float64 | DT_LargeUtf8 | DT_Utf8 | DT_Date32 => true
  | DT_Time64 time_unit => match time_unit with Microsecond | Nanosecond => true | _ => false end
  | DT_List _ => true
  | _ => false
  end.

(** The [while let DataType::List(..) = curr_field.data_type()] loop over the
    type of the current field: the names it pushes and the deepest type, or
    the error it returns. *)
Fixpoint nested_list_names (curr_type : DataType) : Result (list string * DataType) :=
  match curr_type with
  | DT_List nested_field_type =>
      match nested_field_type with
      | mkField name data_type _ _ _ _ =>
          if is_valid_scalar_type_no_list_check data_type then
            let? r := nested_list_names data_type in Ok (name :: r.1, r.2)
          else Err (proto_error "{:?} is an invalid scalar type")
      end
  | deepest => Ok ([], deepest)
  end.

(** The inner [match deepest_datatype]. *)
Definition deepest_primitive_type (deepest_datatype : DataType) : Result PrimitiveScalarType :=
  match deepest_datatype with
  | DT_Boolean => Ok PST_Bool
  | DT_Int8 => Ok PST_Int8
  | DT_Int16 => Ok PST_Int16
  | DT_Int32 => Ok PST_Int32
  | DT_Int64 => Ok PST_Int64
  | DT_UInt8 => Ok PST_Uint8
  | DT_UInt16 => Ok PST_Uint16
  | DT_UInt32 => Ok PST_Uint32
  | DT_UInt64 => Ok PST_Uint64
  | DT_Float32 => Ok PST_Float32
  | DT_Float64 => Ok PST_Float64
  | DT_Date32 => Ok PST_Date32
  | DT_Time64 time_unit =>
      match time_unit with
      | Microsecond => Ok PST_TimeMicrosecond
      | Nanosecond => Ok PST_TimeNanosecond
      | _ => Err (proto_error "Found invalid time unit for scalar value, only TimeUnit::Microsecond and TimeUnit::Nanosecond are valid time units: {:?}")
      end
  | DT_Utf8 => Ok PST_Utf8
  | DT_LargeUtf8 => Ok PST_LargeUtf8
  | _ => Err (proto_error "Error converting to Datatype to scalar type, {:?} is invalid as a datafusion scalar.")
  end.

(** [TryFrom<&DataType> for scalar_type::Datatype]. *)
Definition datatype_to_scalar_datatype (val : DataType) : Result PDatatype :=
  match val with
  | DT_Boolean => Ok (PD_Scalar (to_i32 PST_Bool))
  | DT_Int8 => Ok (PD_Scalar (to_i32 PST_Int8))
  | DT_Int16 => Ok (PD_Scalar (to_i32 PST_Int16))
  | DT_Int32 => Ok (PD_Scalar (to_i32 PST_Int32))
  | DT_Int64 => Ok (PD_Scalar (to_i32 PST_Int64))
  | DT_UInt8 => Ok (PD_Scalar (to_i32 PST_Uint8))
  | DT_UInt16 => Ok (PD_Scalar (to_i32 PST_Uint16))
  | DT_UInt32 => Ok (PD_Scalar (to_i32 PST_Uint32))
  | DT_UInt64 => Ok (PD_Scalar (to_i32 PST_Uint64))
  | DT_Float32 => Ok (PD_Scalar (to_i32 PST_Float32))
  | DT_Float64 => Ok (PD_Scalar (to_i32 PST_Float64))
  | DT_Date32 => Ok (PD_Scalar (to_i32 PST_Date32))
  | DT_Time64 time_unit =>
      match time_unit with
      | Microsecond => Ok (PD_Scalar (to_i32 PST_TimeMicrosecond))
      | Nanosecond => Ok (PD_Scalar (to_i32 PST_TimeNanosecond))
      | _ => Err (proto_error "Found invalid time unit for scalar value, only TimeUnit::Microsecond and TimeUnit::Nanosecond are valid time units: {:?}")
      end
  | DT_Utf8 => Ok (PD_Scalar (to_i32 PST_Utf8))
  | DT_LargeUtf8 => Ok (PD_Scalar (to_i32 PST_LargeUtf8))
  | DT_List field_type =>
      let? r := nested_list_names (field_data_type field_type) in
      let field_names := field_name field_type :: r.1 in
      let deepest_datatype := r.2 in
      if is_valid_scalar_type_no_list_check deepest_datatype then
        let? pb_deepest_type := deepest_primitive_type deepest_datatype in
        Ok (PD_List field_names (to_i32 pb_deepest_type))
      else Err (proto_error "The list nested type {:?} is an invalid scalar type")
  | DT_Null | DT_Float16 | DT_Timestamp _ _ | DT_Date64 | DT_Time32 _ | DT_Duration _
  | DT_Interval _ | DT_Binary | DT_FixedSizeBinary _ | DT_LargeBinary | DT_FixedSizeList _ _
  | DT_LargeList _ | DT_Struct _ | DT_Union _ | DT_Dictionary _ _ | DT_Decimal _ _ =>
      Err (proto_error "Error converting to Datatype to scalar type, {:?} is invalid as a datafusion scalar.")
  end.

(** [TryFrom<&DataType> for protobuf::ScalarType]. *)
Definition datatype_to_scalar_type (value : DataType) : Result PScalarType :=
  let? datatype := datatype_to_scalar_datatype value in Ok (mkPScalarType (Some datatype)).

(** ** Encoding scalar values *)

Definition create_proto_scalar {I} (v : option I) (null_arrow_type : PrimitiveScalarType)
    (constructor : I → PValue) : PScalarValue :=
  mkPScalarValue (Some (default (PV_NullValue (to_i32 null_arrow_type)) (constructor <$> v))).

(** [std::mem::discriminant] of a [DataType]. *)
Definition discriminant (t : DataType) : nat :=
  match t with
  | DT_Null => 0 | DT_Boolean => 1 | DT_Int8 => 2 | DT_Int16 => 3 | DT_Int32 => 4
  | DT_Int64 => 5 | DT_UInt8 => 6 | DT_UInt16 => 7 | DT_UInt32 => 8 | DT_UInt64 => 9
  | DT_Float16 => 10 | DT_Float32 => 11 | DT_Float64 => 12 | DT_Timestamp _ _ => 13
  | DT_Date32 => 14 | DT_Date64 => 15 | DT_Time32 _ => 16 | DT_Time64 _ => 17
  | DT_Duration _ => 18 | DT_Interval _ => 19 | DT_Binary => 20 | DT_FixedSizeBinary _ => 21
  | DT_LargeBinary => 22 | DT_Utf8 => 23 | DT_LargeUtf8 => 24 | DT_List _ => 25
  | DT_FixedSizeList _ _ => 26 | DT_LargeList _ => 27 | DT_Struct _ => 28 | DT_Union _ => 29
  | DT_Dictionary _ _ => 30 | DT_Decimal _ _ => 31
  end.

(** The type check of one list element against the element type of the list:
    the [match (scalar, scalar_type)] whose accepted arms all convert the
    scalar. *)
Definition check_list_element (scalar : ScalarValue) (scalar_type : DataType) : Result unit :=
  match scalar, scalar_type with
  | SV_List _ (DT_List list_field), DT_List field =>
      let scalar_datatype := field_data_type field in
      let list_datatype := field_data_type list_field in
      if negb (Nat.eqb (discriminant list_datatype) (discriminant scalar_datatype)) then
        Err (proto_error "Protobuf serialization error: Lists with inconsistent typing {:?} and {:?} found within list")
      else Ok ()
  | SV_Boolean _, DT_Boolean | SV_Float32 _, DT_Float32 | SV_Float64 _, DT_Float64
  | SV_Int8 _, DT_Int8 | SV_Int16 _, DT_Int16 | SV_Int32 _, DT_Int32 | SV_Int64 _, DT_Int64
  | SV_UInt8 _, DT_UInt8 | SV_UInt16 _, DT_UInt16 | SV_UInt32 _, DT_UInt32
  | SV_UInt64 _, DT_UInt64 | SV_Utf8 _, DT_Utf8 | SV_LargeUtf8 _, DT_LargeUtf8 => Ok ()
  | _, _ => Err (proto_error "Protobuf serialization error, {:?} was inconsistent with designated type {:?}")
  end.

(** The [scalar::ScalarValue::List] arm, the conversion of elements given. *)
Definition list_to_proto_with (try_into : ScalarValue → Result PScalarValue)
    (value : option (list ScalarValue)) (datatype : DataType) : Result PScalarValue :=
  match value with
  | Some [] =>
      let? dt := datatype_to_scalar_type datatype in
      Ok (mkPScalarValue (Some (PV_ListValue (Some dt) [])))
  | Some values =>
      match datatype with
      | DT_List field =>
          let scalar_type := field_data_type field in
          let? type_checked_values :=
            rmapM (λ scalar,
              let? _ := check_list_element scalar scalar_type in try_into scalar) values in
          let? dt := datatype_to_scalar_type datatype in
          Ok (mkPScalarValue (Some (PV_ListValue (Some dt) type_checked_values)))
      | _ => Panic "not yet implemented: Proper error handling"
      end
  | None =>
      let? dt := datatype_to_scalar_type datatype in
      Ok (mkPScalarValue (Some (PV_NullListValue dt)))
  end.

(** [TryFrom<&ScalarValue> for protobuf::ScalarValue]. *)
Fixpoint scalar_value_to_proto (val : ScalarValue) : Result PScalarValue :=
  match val with
  | SV_Boolean val => Ok (create_proto_scalar val PST_Bool PV_BoolValue)
  | SV_Float32 val => Ok (create_proto_scalar val PST_Float32 PV_Float32Value)
  | SV_Float64 val => Ok (create_proto_scalar val PST_Float64 PV_Float64Value)
  | SV_Int8 val => Ok (create_proto_scalar val PST_Int8 (λ s, PV_Int8Value (as_i32 s)))
  | SV_Int16 val => Ok (create_proto_scalar val PST_Int16 (λ s, PV_Int16Value (as_i32 s)))
  | SV_Int32 val => Ok (create_proto_scalar val PST_Int32 PV_Int32Value)
  | SV_Int64 val => Ok (create_proto_scalar val PST_Int64 PV_Int64Value)
  | SV_UInt8 val => Ok (create_proto_scalar val PST_Uint8 (λ s, PV_Uint8Value (as_u32 s)))
  | SV_UInt16 val => Ok (create_proto_scalar val PST_Uint16 (λ s, PV_Uint16Value (as_u32 s)))
  | SV_UInt32 val => Ok (create_proto_scalar val PST_Uint32 PV_Uint32Value)
  | SV_UInt64 val => Ok (create_proto_scalar val PST_Uint64 PV_Uint64Value)
  | SV_Utf8 val => Ok (create_proto_scalar val PST_Utf8 PV_Utf8Value)
  | SV_LargeUtf8 val => Ok (create_proto_scalar val PST_LargeUtf8 PV_LargeUtf8Value)
  | SV_List value datatype => list_to_proto_with scalar_value_to_proto value datatype
  | SV_Date32 val => Ok (create_proto_scalar val PST_Date32 PV_Date32Value)
  | SV_TimeMicrosecond val =>
      Ok (create_proto_scalar val PST_TimeMicrosecond PV_TimeMicrosecondValue)
  | SV_TimeNanosecond val =>
      Ok (create_proto_scalar val PST_TimeNanosecond PV_TimeNanosecondValue)
  | SV_Other _ => Err (proto_error "Error converting to Datatype to scalar type, {:?} is invalid as a datafusion scalar.")
  end.

(** ** Decoding scalar types *)

(** [Into<DataType> for PrimitiveScalarType]. *)
Definition primitive_scalar_type_to_datatype (self : PrimitiveScalarType) : DataType :=
  match self with
  | PST_Bool => DT_Boolean
  | PST_Uint8 => DT_UInt8
  | PST_Int8 => DT_Int8
  | PST_Uint16 => DT_UInt16
  | PST_Int16 => DT_Int16
  | PST_Uint32 => DT_UInt32
  | PST_Int32 => DT_Int32
  | PST_Uint64 => DT_UInt64
  | PST_Int64 => DT_Int64
  | PST_Float32 => DT_Float32
  | PST_Float64 => DT_Float64
  | PST_Utf8 => DT_Utf8
  | PST_LargeUtf8 => DT_LargeUtf8
  | PST_Date32 => DT_Date32
  | PST_TimeMicrosecond => DT_Time64 Microsecond
  | PST_TimeNanosecond => DT_Time64 Nanosecond
  | PST_Null => DT_Null
  end.

(** [for name in field_names.iter().rev().skip(1)]: wraps the innermost list
    into one list per remaining name. *)
Definition wrap_in_lists (field_names : list string) (innermost : DataType) : DataType :=
  fold_left (λ scalar_type name, DT_List (Field_new name scalar_type true))
            (drop 1 (reverse field_names)) innermost.

(** [TryInto<DataType> for &scalar_type::Datatype]. *)
Definition scalar_datatype_to_datatype (self : PDatatype) : Result DataType :=
  match self with
  | PD_Scalar scalar_type =>
      let? pb_scalar_enum := ok_or (proto_error "Protobuf deserialization error, scalar_type::Datatype missing was provided invalid enum variant: {}")
        (from_i32 scalar_type) in
      Ok (primitive_scalar_type_to_datatype pb_scalar_enum)
  | PD_List field_names deepest_type =>
      match last field_names with
      | None => Err (proto_error "Protobuf deserialization error: found no field names in ScalarListType message which requires at least one")
      | Some last_name =>
          let? pb_scalar_type := ok_or (proto_error "Protobuf deserialization error: invalid i32 for scalar enum: {}")
            (from_i32 deepest_type) in
          let scalar_type :=
            DT_List (Field_new last_name (primitive_scalar_type_to_datatype pb_scalar_type) true) in
          Ok (wrap_in_lists field_names scalar_type)
      end
  end.

(** [TryInto<DataType> for &protobuf::ScalarType]. *)
Definition scalar_type_to_datatype (self : PScalarType) : Result DataType :=
  let? pb_scalartype :=
    ok_or (proto_error "ScalarType message missing required field 'datatype'") (pst_datatype self) in
  scalar_datatype_to_datatype pb_scalartype.

(** [TryInto<DataType> for &protobuf::ScalarListType]. *)
Definition scalar_list_type_to_datatype (field_names : list string) (deepest_type : Z)
    : Result DataType :=
  match last field_names with
  | None => Err (proto_error "Protobuf deserialization error: Found a ScalarListType message with no field names, at least one is required")
  | Some last_name =>
      let? p := ok_or (proto_error "Could not convert to datafusion scalar type")
        (from_i32 deepest_type) in
      let curr_type := DT_List (Field_new last_name (primitive_scalar_type_to_datatype p) true) in
      Ok (wrap_in_lists field_names curr_type)
  end.

(** ** Decoding scalar values *)

(** [TryInto<ScalarValue> for PrimitiveScalarType]: the null of a type. *)
Definition primitive_scalar_type_to_null (self : PrimitiveScalarType) : Result ScalarValue :=
  match self with
  | PST_Null => Err (proto_error "Untyped null is an invalid scalar value")
  | PST_Bool => Ok (SV_Boolean None)
  | PST_Uint8 => Ok (SV_UInt8 None)
  | PST_Int8 => Ok (SV_Int8 None)
  | PST_Uint16 => Ok (SV_UInt16 None)
  | PST_Int16 => Ok (SV_Int16 None)
  | PST_Uint32 => Ok (SV_UInt32 None)
  | PST_Int32 => Ok (SV_Int32 None)
  | PST_Uint64 => Ok (SV_UInt64 None)
  | PST_Int64 => Ok (SV_Int64 None)
  | PST_Float32 => Ok (SV_Float32 None)
  | PST_Float64 => Ok (SV_Float64 None)
  | PST_Utf8 => Ok (SV_Utf8 None)
  | PST_LargeUtf8 => Ok (SV_LargeUtf8 None)
  | PST_Date32 => Ok (SV_Date32 None)
  | PST_TimeMicrosecond => Ok (SV_TimeMicrosecond None)
  | PST_TimeNanosecond => Ok (SV_TimeNanosecond None)
  end.

(** [TryInto<ScalarValue> for &protobuf::ScalarValue]. *)
Fixpoint proto_to_scalar_value (self : PScalarValue) : Result ScalarValue :=
  match self with
  | mkPScalarValue None =>
      Err (proto_error "Protobuf deserialization error: missing required field 'value'")
  | mkPScalarValue (Some value) =>
    match value with
    | PV_BoolValue v => Ok (SV_Boolean (Some v))
    | PV_Utf8Value v => Ok (SV_Utf8 (Some v))
    | PV_LargeUtf8Value v => Ok (SV_LargeUtf8 (Some v))
    | PV_Int8Value v => Ok (SV_Int8 (Some (as_i8 v)))
    | PV_Int16Value v => Ok (SV_Int16 (Some (as_i16 v)))
    | PV_Int32Value v => Ok (SV_Int32 (Some v))
    | PV_Int64Value v => Ok (SV_Int64 (Some v))
    | PV_Uint8Value v => Ok (SV_UInt8 (Some (as_u8 v)))
    | PV_Uint16Value v => Ok (SV_UInt16 (Some (as_u16 v)))
    | PV_Uint32Value v => Ok (SV_UInt32 (Some v))
    | PV_Uint64Value v => Ok (SV_UInt64 (Some v))
    | PV_Float32Value v => Ok (SV_Float32 (Some v))
    | PV_Float64Value v => Ok (SV_Float64 (Some v))
    | PV_Date32Value v => Ok (SV_Date32 (Some v))
    | PV_TimeMicrosecondValue v => Ok (SV_TimeMicrosecond (Some v))
    | PV_TimeNanosecondValue v => Ok (SV_TimeNanosecond (Some v))
    | PV_ListValue opt_scalar_type values =>
        let? pb_scalar_type := ok_or (proto_error "Protobuf deserialization err: ScalaListValue missing required field 'datatype'") opt_scalar_type in
        let? typechecked_values := rmapM proto_to_scalar_value values in
        let? scalar_type := scalar_type_to_datatype pb_scalar_type in
        Ok (SV_List (Some typechecked_values) scalar_type)
    | PV_NullListValue v =>
        let? pb_datatype := ok_or (proto_error "Protobuf deserialization error: NullListValue message missing required field 'datatyp'") (pst_datatype v) in
        let? t := scalar_datatype_to_datatype pb_datatype in
        Ok (SV_List None t)
    | PV_NullValue v =>
        let? null_type_enum := ok_or (proto_error "Protobuf deserialization error found invalid enum variant for DatafusionScalar") (from_i32 v) in
        primitive_scalar_type_to_null null_type_enum
    end
  end.

Definition typechecked_scalar_value_conversion (tested_type : PValue)
    (required_type : PrimitiveScalarType) : Result ScalarValue :=
  match tested_type, required_type with
  | PV_BoolValue v, PST_Bool => Ok (SV_Boolean (Some v))
  | PV_Int8Value v, PST_Int8 => Ok (SV_Int8 (Some (as_i8 v)))
  | PV_Int16Value v, PST_Int16 => Ok (SV_Int16 (Some (as_i16 v)))
  | PV_Int32Value v, PST_Int32 => Ok (SV_Int32 (Some v))
  | PV_Int64Value v, PST_Int64 => Ok (SV_Int64 (Some v))
  | PV_Uint8Value v, PST_Uint8 => Ok (SV_UInt8 (Some (as_u8 v)))
  | PV_Uint16Value v, PST_Uint16 => Ok (SV_UInt16 (Some (as_u16 v)))
  | PV_Uint32Value v, PST_Uint32 => Ok (SV_UInt32 (Some v))
  | PV_Uint64Value v, PST_Uint64 => Ok (SV_UInt64 (Some v))
  | PV_Float32Value v, PST_Float32 => Ok (SV_Float32 (Some v))
  | PV_Float64Value v, PST_Float64 => Ok (SV_Float64 (Some v))
  | PV_Date32Value v, PST_Date32 => Ok (SV_Date32 (Some v))
  | PV_TimeMicrosecondValue v, PST_TimeMicrosecond => Ok (SV_TimeMicrosecond (Some v))
  | PV_TimeNanosecondValue v, PST_TimeMicrosecond => Ok (SV_TimeNanosecond (Some v))
  | PV_Utf8Value v, PST_Utf8 => Ok (SV_Utf8 (Some v))
  | PV_LargeUtf8Value v, PST_LargeUtf8 => Ok (SV_LargeUtf8 (Some v))
  | PV_NullValue i32_enum, required_scalar_type =>
      if (i32_enum =? to_i32 required_scalar_type)%Z then
        let? pb_scalar_type := ok_or (General "Invalid i32_enum={} when converting with PrimitiveScalarType::from_i32()")
          (from_i32 i32_enum) in
        match pb_scalar_type with
        | PST_Bool => Ok (SV_Boolean None)
        | PST_Uint8 => Ok (SV_UInt8 None)
        | PST_Int8 => Ok (SV_Int8 None)
        | PST_Uint16 => Ok (SV_UInt16 None)
        | PST_Int16 => Ok (SV_Int16 None)
        | PST_Uint32 => Ok (SV_UInt32 None)
        | PST_Int32 => Ok (SV_Int32 None)
        | PST_Uint64 => Ok (SV_UInt64 None)
        | PST_Int64 => Ok (SV_Int64 None)
        | PST_Float32 => Ok (SV_Float32 None)
        | PST_Float64 => Ok (SV_Float64 None)
        | PST_Utf8 => Ok (SV_Utf8 None)
        | PST_LargeUtf8 => Ok (SV_LargeUtf8 None)
        | PST_Date32 => Ok (SV_Date32 None)
        | PST_TimeMicrosecond => Ok (SV_TimeMicrosecond None)
        | PST_TimeNanosecond => Ok (SV_TimeNanosecond None)
        | PST_Null => Err (proto_error "Untyped scalar null is not a valid scalar value")
        end
      else Err (proto_error "Could not convert to the proper type")
  | _, _ => Err (proto_error "Could not convert to the proper type")
  end.

(** The elements of a list value, each read with [conv]. *)
Definition list_elements (conv : PValue → Result ScalarValue) (values : list PScalarValue)
    : Result (list ScalarValue) :=
  rmapM (λ sv, match sv with
    | mkPScalarValue None =>
        Err (proto_error "Protobuf deserialization error: missing required field 'value'")
    | mkPScalarValue (Some value) => conv value
    end) values.

(** [TryInto<ScalarValue> for &protobuf::ScalarListValue], the conversion of
    nested values given. *)
Definition scalar_list_value_with (value_try_into : PValue → Result ScalarValue)
    (datatype : option PScalarType) (values : list PScalarValue) : Result ScalarValue :=
  let? pb_scalar_type := ok_or (proto_error "Protobuf deserialization error: ScalarListValue messsage missing required field 'datatype'") datatype in
  let? scalar_type := ok_or (proto_error "Protobuf deserialization error: ScalarListValue.Datatype messsage missing required field 'datatype'") (pst_datatype pb_scalar_type) in
  match scalar_type with
  | PD_Scalar scalar_type_i32 =>
      let? leaf_scalar_type :=
        ok_or (proto_error "Error converting i32 to basic scalar type") (from_i32 scalar_type_i32) in
      let? typechecked_values :=
        list_elements (λ v, typechecked_scalar_value_conversion v leaf_scalar_type) values in
      Ok (SV_List (Some typechecked_values) (primitive_scalar_type_to_datatype leaf_scalar_type))
  | PD_List field_names deepest_type =>
      let? leaf_type :=
        ok_or (proto_error "Error converting i32 to basic scalar type") (from_i32 deepest_type) in
      let depth := length field_names in
      let? typechecked_values :=
        (if Nat.eqb depth 0 then
          Err (proto_error "Protobuf deserialization error, ScalarListType had no field names, requires at least one")
        else if Nat.eqb depth 1 then
          list_elements (λ v, typechecked_scalar_value_conversion v leaf_type) values
        else list_elements value_try_into values) in
      let? t := scalar_list_type_to_datatype field_names deepest_type in
      Ok (SV_List (match length typechecked_values with O => None | _ => Some typechecked_values end) t)
  end.

(** [TryInto<ScalarValue> for &scalar_value::Value]. *)
Fixpoint value_to_scalar_value (self : PValue) : Result ScalarValue :=
  match self with
  | PV_BoolValue v => Ok (SV_Boolean (Some v))
  | PV_Utf8Value v => Ok (SV_Utf8 (Some v))
  | PV_LargeUtf8Value v => Ok (SV_LargeUtf8 (Some v))
  | PV_Int8Value v => Ok (SV_Int8 (Some (as_i8 v)))
  | PV_Int16Value v => Ok (SV_Int16 (Some (as_i16 v)))
  | PV_Int32Value v => Ok (SV_Int32 (Some v))
  | PV_Int64Value v => Ok (SV_Int64 (Some v))
  | PV_Uint8Value v => Ok (SV_UInt8 (Some (as_u8 v)))
  | PV_Uint16Value v => Ok (SV_UInt16 (Some (as_u16 v)))
  | PV_Uint32Value v => Ok (SV_UInt32 (Some v))
  | PV_Uint64Value v => Ok (SV_UInt64 (Some v))
  | PV_Float32Value v => Ok (SV_Float32 (Some v))
  | PV_Float64Value v => Ok (SV_Float64 (Some v))
  | PV_Date32Value v => Ok (SV_Date32 (Some v))
  | PV_TimeMicrosecondValue v => Ok (SV_TimeMicrosecond (Some v))
  | PV_TimeNanosecondValue v => Ok (SV_TimeNanosecond (Some v))
  | PV_ListValue datatype values => scalar_list_value_with value_to_scalar_value datatype values
  | PV_NullListValue v => let? t := scalar_type_to_datatype v in Ok (SV_List None t)
  | PV_NullValue null_enum =>
      let? p := ok_or (proto_error "Invalid scalar type") (from_i32 null_enum) in
      primitive_scalar_type_to_null p
  end.

(** ** Specification of scalar types

    The scalar types are the lists, nested to any depth, over a primitive
    leaf.  The messages carry the names of the list items and the leaf; items
    come back nullable. *)
Fixpoint is_scalar_type (t : DataType) : bool :=
  match t with
  | DT_List (mkField _ item _ _ _ _) => is_scalar_type item
  | leaf => is_valid_scalar_type_no_list_check leaf
  end.

Fixpoint norm_scalar_type (t : DataType) : DataType :=
  match t with
  | DT_List (mkField name item _ _ _ _) => DT_List (Field_new name (norm_scalar_type item) true)
  | t => t
  end.

(** The list type with the given item names over a leaf. *)
Definition lists_over (names : list string) (leaf : DataType) : DataType :=
  foldr (λ name t, DT_List (Field_new name t true)) leaf names.

Fixpoint norm_scalar (v : ScalarValue) : ScalarValue :=
  match v with
  | SV_List value t => SV_List (List.map norm_scalar <$> value) (norm_scalar_type t)
  | v => v
  end.

(** The machine ranges of the integers that are widened in the messages. *)
Fixpoint wf_scalar (v : ScalarValue) : Prop :=
  match v with
  | SV_Int8 (Some x) => in_s 8 x
  | SV_Int16 (Some x) => in_s 16 x
  | SV_UInt8 (Some x) => in_u 8 x
  | SV_UInt16 (Some x) => in_u 16 x
  | SV_List (Some vs) _ => foldr (λ v acc, wf_scalar v ∧ acc) True vs
  | _ => True
  end.

(** ** Lemmas *)

Lemma wrap_in_lists_spec names name leaf :
  last names = Some name →
  wrap_in_lists names (DT_List (Field_new name leaf true)) = lists_over names leaf.
Proof.
  intros (l & ->)%last_Some. unfold wrap_in_lists, lists_over.
  rewrite reverse_app. simpl. rewrite foldr_app. simpl.
  unfold reverse. rewrite <-List.rev_alt.
  pose proof (List.fold_left_rev_right (λ name t, DT_List (Field_new name t true)) (List.rev l)
    (DT_List (Field_new name leaf true))) as Hf.
  by rewrite List.rev_involutive in Hf.
Qed.

Lemma last_cons_is_Some {A} (x : A) l : ∃ y, last (x :: l) = Some y.
Proof. destruct (last (x :: l)) eqn:E; [eauto|]. by apply last_None in E. Qed.

(** What the name-collecting loop computes. *)
Lemma nested_list_names_spec t names deepest :
  nested_list_names t = Ok (names, deepest) →
  norm_scalar_type t = lists_over names deepest ∧
  is_scalar_type t = is_scalar_type deepest ∧ norm_scalar_type deepest = deepest.
Proof.
  revert t names deepest. fix IH 1. intros t names deepest.
  destruct t as [| | | | | | | | | | | | | | | | | | | | | | | | |item| | | | | |];
    simpl; intros; simplify_eq; auto.
  destruct item as [name item ? ? ? ?].
  destruct (is_valid_scalar_type_no_list_check item); [|done].
  destruct (nested_list_names item) as [[ns d]| |] eqn:E; simplify_eq; simpl.
  by destruct (IH item ns deepest E) as (-> & -> & ?).
Qed.

Lemma deepest_primitive_type_sound d p :
  deepest_primitive_type d = Ok p → primitive_scalar_type_to_datatype p = d.
Proof. destruct d as [| | | | | | | | | | | | | | | | |[]| | | | | | | | | | | | | |]; simpl; intros; by simplify_eq. Qed.

Lemma deepest_primitive_type_ok d :
  norm_scalar_type d = d → (∀ f, d ≠ DT_List f) →
  is_valid_scalar_type_no_list_check d = is_scalar_type d ∧
  if is_scalar_type d then is_ok (deepest_primitive_type d) = true else True.
Proof.
  destruct d as [| | | | | | | | | | | | | | | | |[]| | | | | | | |item| | | | | |]; try done.
  intros _ Hd. by destruct (Hd item).
Qed.

(** The loop ends at a leaf, or at an item that is not a scalar type. *)
Lemma nested_list_names_cases t :
  (∃ names d, nested_list_names t = Ok (names, d) ∧ ∀ f, d ≠ DT_List f) ∨
  (∃ e, nested_list_names t = Err e) ∧ is_scalar_type t = false.
Proof.
  revert t. fix IH 1. intros t.
  destruct t as [| | | | | | | | | | | | | | | | | | | | | | | | |[name item ? ? ? ?]| | | | | |];
    simpl; eauto 6.
  destruct (is_valid_scalar_type_no_list_check item) eqn:Hv.
  - destruct (IH item) as [(names & d & -> & Hd)|[[e ->] Hs]]; simpl; eauto 6.
  - right. split; [eauto|]. by destruct item.
Qed.

Lemma scalar_datatype_roundtrip_aux t p :
  datatype_to_scalar_datatype t = Ok p → scalar_datatype_to_datatype p = Ok (norm_scalar_type t).
Proof.
  destruct t as [| | | | | | | | | | | | | | | | |[]| | | | | | | |[name item ? ? ? ?]| | | | | |];
    cbn -[to_i32]; intros; simplify_eq; try reflexivity.
  res_inv. destruct a as [names d]. simpl in *.
  destruct (nested_list_names_spec _ _ _ Hres) as (-> & _ & _).
  destruct (is_valid_scalar_type_no_list_check d); [|done]. res_inv.
  destruct (last_cons_is_Some name names) as [n Hn].
  unfold scalar_datatype_to_datatype. rewrite Hn, from_i32_to_i32. cbn [ok_or].
  by rewrite (wrap_in_lists_spec _ _ _ Hn), (deepest_primitive_type_sound _ _ Hres0).
Qed.

Lemma scalar_type_roundtrip_aux t p :
  datatype_to_scalar_type t = Ok p → scalar_type_to_datatype p = Ok (norm_scalar_type t).
Proof.
  unfold datatype_to_scalar_type, scalar_type_to_datatype. intros. res_inv. simpl.
  by apply scalar_datatype_roundtrip_aux.
Qed.

(** The elements of an encoded list are encoded, and checked against the list. *)
Lemma list_to_proto_inv f value t p :
  list_to_proto_with f value t = Ok p →
  ∃ dt, datatype_to_scalar_type t = Ok dt ∧
    match value with
    | None => p = mkPScalarValue (Some (PV_NullListValue dt))
    | Some vs => ∃ ps, rmapM f vs = Ok ps ∧ p = mkPScalarValue (Some (PV_ListValue (Some dt) ps))
    end.
Proof.
  destruct value as [[|v vs]|]; cbn [list_to_proto_with]; intros H; [res_inv; eauto| |res_inv; eauto].
  destruct t; try done. res_inv. eexists; split; [done|]. eexists; split; [|done].
  apply rmapM_Forall2. apply rmapM_Forall2 in Hres.
  eapply Forall2_impl; [exact Hres|]. simpl. intros x y Hxy. by res_inv.
Qed.

Scheme PScalarValue_mind := Induction for PScalarValue Sort Prop
with PValue_mind := Induction for PValue Sort Prop.
Combined Scheme scalar_message_ind from PScalarValue_mind, PValue_mind.

Lemma scalar_datatype_no_panic d : is_panic (scalar_datatype_to_datatype d) = false.
Proof. destruct d as [|names ?]; simpl; [|destruct (last names); [|done]]; no_panic. Qed.
Lemma null_no_panic t : is_panic (primitive_scalar_type_to_null t) = false.
Proof. by destruct t. Qed.
#[export] Hint Resolve scalar_datatype_no_panic null_no_panic : ballista.

(** Decoding a scalar never crashes, whatever the message. *)
Lemma scalar_decode_no_panic_aux :
  (∀ p, is_panic (proto_to_scalar_value p) = false) ∧
  (∀ v, is_panic (proto_to_scalar_value (mkPScalarValue (Some v))) = false).
Proof.
  apply scalar_message_ind; intros;
    repeat match goal with H : option_all _ _ _ |- _ => destruct H end;
    simpl; no_panic; auto with ballista.
Qed.

(** ** Properties *)

(** Reading back a scalar type that was written as protobuf gives the
    type with the same nesting, item names and leaf; only the nullability and
    metadata of list items are lost. *)
Theorem scalar_type_roundtrip t p :
  datatype_to_scalar_type t = Ok p → scalar_type_to_datatype p = Ok (norm_scalar_type t).
Proof. apply scalar_type_roundtrip_aux. Qed.

Definition sample_list_type : DataType :=
  DT_List (Field_new "outer" (DT_List (Field_new "inner" DT_Int16 true)) true).

Lemma scalar_type_roundtrip_witness :
  scalar_type_to_datatype
    (mkPScalarType (Some (PD_List ["outer"; "inner"] (to_i32 PST_Int16)))) = Ok sample_list_type.
Proof. apply (scalar_type_roundtrip sample_list_type). reflexivity. Defined.

(** The accepted scalar types are exactly the primitive leaves and the
    lists, nested to any depth, over one: every other type is an error, never
    a panic. *)
Theorem scalar_types_accepted t :
  if is_scalar_type t then is_ok (datatype_to_scalar_type t) = true
  else ∃ e, datatype_to_scalar_type t = Err e.
Proof.
  unfold datatype_to_scalar_type.
  destruct t as [| | | | | | | | | | | | | | | | |[]| | | | | | | |[name item ? ? ? ?]| | | | | |];
    simpl; eauto.
  destruct (nested_list_names_cases item) as [(names & d & E & Hd)|[[e ->] ->]]; [|eauto].
  rewrite E. destruct (nested_list_names_spec _ _ _ E) as (_ & -> & Hn). simpl.
  destruct (deepest_primitive_type_ok d Hn Hd) as [-> Hok].
  destruct (is_scalar_type d); [|eauto].
  by destruct (deepest_primitive_type d).
Qed.

(** The inductive core of the round trip of values. *)
Lemma scalar_roundtrip_aux v :
  wf_scalar v →
  ∀ p, scalar_value_to_proto v = Ok p → proto_to_scalar_value p = Ok (norm_scalar v).
Proof.
  induction v as [| | | | | | | | | | | | |value IH datatype| | | |]; intros Hwf p Hp;
    simpl in Hp; simplify_eq;
    try (destruct v as [x|]; unfold create_proto_scalar; simpl in *;
         rewrite ?from_i32_to_i32; simpl;
         rewrite ?wrap_u_widen, ?wrap_s_widen by (done || lia); done).
  destruct (list_to_proto_inv _ _ _ _ Hp) as (dt & Hdt & Hv).
  pose proof (scalar_type_roundtrip_aux _ _ Hdt) as Ht.
  destruct IH as [vs IH|]; simpl in *.
  - destruct Hv as (ps & Hps & ->). simpl.
    rewrite (rmapM_compose scalar_value_to_proto _ norm_scalar vs ps);
      [by rewrite Ht|by eapply Forall_impl_all|done].
  - subst p. simpl. unfold scalar_type_to_datatype, datatype_to_scalar_type in *.
    res_inv. simpl in *. by rewrite Ht.
Qed.

(** C21 — A scalar value that could be written as protobuf is read back as the
    same value, up to the nullability and metadata of list item types; the
    integers narrower than 32 bits survive the widening casts. *)
Theorem scalar_roundtrip v p :
  wf_scalar v → scalar_value_to_proto v = Ok p →
  proto_to_scalar_value p = Ok (norm_scalar v).
Proof. intros. by apply scalar_roundtrip_aux. Qed.

Definition sample_list : ScalarValue :=
  SV_List (Some [SV_List (Some [SV_Int16 (Some (-5)%Z); SV_Int16 None])
                         (DT_List (Field_new "inner" DT_Int16 true));
                 SV_List None (DT_List (Field_new "inner" DT_Int16 true))])
          sample_list_type.

Lemma scalar_roundtrip_witness :
  ∃ p, scalar_value_to_proto sample_list = Ok p ∧ proto_to_scalar_value p = Ok sample_list.
Proof.
  eexists. split; [vm_compute; reflexivity|].
  apply (scalar_roundtrip sample_list); [vm_compute; repeat split; congruence|vm_compute; reflexivity].
Defined.

(** ** The second decoder *)

Lemma list_type_decoders_agree names deepest :
  ok (scalar_list_type_to_datatype names deepest) =
  ok (scalar_datatype_to_datatype (PD_List names deepest)).
Proof.
  unfold scalar_list_type_to_datatype, scalar_datatype_to_datatype.
  destruct (last names); [|done]. by destruct (from_i32 deepest).
Qed.

(** The values without lists inside. *)
Definition is_list (v : ScalarValue) : bool :=
  match v with SV_List _ _ => true | _ => false end.

(** The primitive type of a scalar that is not a list. *)
Definition leaf_type (v : ScalarValue) : option PrimitiveScalarType :=
  match v with
  | SV_Boolean _ => Some PST_Bool
  | SV_Float32 _ => Some PST_Float32
  | SV_Float64 _ => Some PST_Float64
  | SV_Int8 _ => Some PST_Int8
  | SV_Int16 _ => Some PST_Int16
  | SV_Int32 _ => Some PST_Int32
  | SV_Int64 _ => Some PST_Int64
  | SV_UInt8 _ => Some PST_Uint8
  | SV_UInt16 _ => Some PST_Uint16
  | SV_UInt32 _ => Some PST_Uint32
  | SV_UInt64 _ => Some PST_Uint64
  | SV_Utf8 _ => Some PST_Utf8
  | SV_LargeUtf8 _ => Some PST_LargeUtf8
  | SV_Date32 _ => Some PST_Date32
  | SV_TimeMicrosecond _ => Some PST_TimeMicrosecond
  | SV_TimeNanosecond _ => Some PST_TimeNanosecond
  | SV_List _ _ | SV_Other _ => None
  end.

(** The type-checked conversion of a list element accepts an encoded
    scalar exactly if the required type is the scalar's own, with one
    exception: a non-null nanosecond time is accepted where microseconds are
    required and rejected where nanoseconds are. *)
Theorem typechecked_conversion_spec v required pv :
  wf_scalar v → is_list v = false →
  scalar_value_to_proto v = Ok (mkPScalarValue (Some pv)) →
  typechecked_scalar_value_conversion pv required =
    match v with
    | SV_TimeNanosecond (Some _) =>
        match required with
        | PST_TimeMicrosecond => Ok v
        | _ => Err (proto_error "Could not convert to the proper type")
        end
    | _ =>
        if bool_decide (to_i32 <$> leaf_type v = Some (to_i32 required)) then Ok v
        else Err (proto_error "Could not convert to the proper type")
    end.
Proof.
  intros Hwf Hl Hp.
  destruct v as [[]|[]|[]|[]|[]|[]|[]|[]|[]|[]|[]|[]|[]| |[]|[]|[]|]; try done;
    unfold create_proto_scalar in Hp; simpl in Hp; simplify_eq;
    destruct required; cbn -[wrap_u wrap_s]; try reflexivity;
    by rewrite ?wrap_u_widen, ?wrap_s_widen by (done || lia).
Qed.

Lemma typechecked_conversion_witness :
  typechecked_scalar_value_conversion (PV_Uint8Value 200) PST_Uint8 = Ok (SV_UInt8 (Some 200%Z)).
Proof.
  apply (typechecked_conversion_spec (SV_UInt8 (Some 200%Z)) PST_Uint8 (PV_Uint8Value 200));
    [split; reflexivity || discriminate|reflexivity|reflexivity].
Defined.

(** The encoder refuses every non-empty list whose element type is a date
    or a time, whatever the elements, although the type of the list is an
    accepted scalar type. *)
Theorem temporal_lists_refused name nullable v vs t :
  In t [DT_Date32; DT_Time64 Microsecond; DT_Time64 Nanosecond] →
  is_scalar_type (DT_List (Field_new name t nullable)) = true ∧
  scalar_value_to_proto (SV_List (Some (v :: vs)) (DT_List (Field_new name t nullable))) =
    Err (proto_error "Protobuf serialization error, {:?} was inconsistent with designated type {:?}").
Proof.
  intros Ht. simpl in Ht. destruct Ht as [<-|[<-|[<-|[]]]]; (split; [reflexivity|]);
    by destruct v as [| | | | | | | | | | | | |? []| | | |].
Qed.

Lemma temporal_lists_refused_witness :
  scalar_value_to_proto (SV_List (Some [SV_Date32 (Some 1%Z)]) (DT_List (Field_new "d" DT_Date32 true))) =
    Err (proto_error "Protobuf serialization error, {:?} was inconsistent with designated type {:?}").
Proof. apply (temporal_lists_refused "d" true (SV_Date32 (Some 1%Z)) [] DT_Date32). by left. Defined.
