(* ===== verification/Expr.v ===== *)
(** * Logical expressions and their protobuf form

    Models the expression part of src/rust/core/src/serde/logical_plan/
    to_proto.rs and from_proto.rs: DataFusion's [Expr], its encoding and
    decoding.  DataFusion's one-argument function builders ([sqrt(e)],
    [lower(e)], ...) are a parameter with their documented result.

    The theorems: decoding inverts encoding up to what the messages cannot
    carry, operators and functions survive the trip by name, and a message
    received over the network can crash the decoder in one way only. *)

From S2P Require Import Prelude Proto Arrow Scalar.

(** ** The native expressions *)

(** [datafusion::logical_plan::Operator]: the variants named in the sources;
    [Op_Other] stands for the rest, by name. *)
Inductive Operator :=
| Op_And | Op_Or | Op_Eq | Op_NotEq | Op_LtEq | Op_Lt | Op_Gt | Op_GtEq
| Op_Plus | Op_Minus | Op_Multiply | Op_Divide | Op_Like
| Op_Other (name : string).

Inductive AggregateFunction := AF_Min | AF_Max | AF_Sum | AF_Avg | AF_Count.

(** [BuiltinScalarFunction]: the variants named in the sources, and those only
    reached through the builders [log2] and [signum]. *)
Inductive BuiltinScalarFunction :=
| BF_Sqrt | BF_Sin | BF_Cos | BF_Tan | BF_Asin | BF_Acos | BF_Atan | BF_Exp | BF_Log | BF_Log2
| BF_Log10 | BF_Floor | BF_Ceil | BF_Round | BF_Trunc | BF_Abs | BF_Signum | BF_Length
| BF_Concat | BF_Lower | BF_Upper | BF_Trim | BF_Ltrim | BF_Rtrim | BF_ToTimestamp | BF_Array
| BF_NullIf | BF_DateTrunc | BF_MD5 | BF_SHA224 | BF_SHA256 | BF_SHA384 | BF_SHA512
| BF_Other (name : string).

Inductive Expr :=
| E_Column (name : string)
| E_Alias (expr : Expr) (alias : string)
| E_Literal (value : ScalarValue)
| E_BinaryExpr (left : Expr) (op : Operator) (right : Expr)
| E_AggregateFunction (fun_ : AggregateFunction) (args : list Expr) (distinct : bool)
| E_ScalarVariable (names : list string)
| E_ScalarFunction (fun_ : BuiltinScalarFunction) (args : list Expr)
| E_ScalarUDF (fun_ : string) (args : list Expr)
| E_AggregateUDF (fun_ : string) (args : list Expr)
| E_Not (expr : Expr)
| E_IsNull (expr : Expr)
| E_IsNotNull (expr : Expr)
| E_Between (expr : Expr) (negated : bool) (low high : Expr)
| E_Case (expr : option Expr) (when_then_expr : list (Expr * Expr)) (else_expr : option Expr)
| E_Cast (expr : Expr) (data_type : DataType)
| E_Sort (expr : Expr) (asc nulls_first : bool)
| E_Negative (expr : Expr)
| E_InList (expr : Expr) (list : list Expr) (negated : bool)
| E_Wildcard.

(** ** Encoding *)

(** [format!("{:?}", op)]: the derived [Debug] prints the variant's name. *)
Definition debug_operator (op : Operator) : string :=
  match op with
  | Op_And => "And" | Op_Or => "Or" | Op_Eq => "Eq" | Op_NotEq => "NotEq" | Op_LtEq => "LtEq"
  | Op_Lt => "Lt" | Op_Gt => "Gt" | Op_GtEq => "GtEq" | Op_Plus => "Plus"
  | Op_Minus => "Minus" | Op_Multiply => "Multiply" | Op_Divide => "Divide"
  | Op_Like => "Like" | Op_Other name => name
  end.

Definition aggregate_function_to_proto (fun_ : AggregateFunction) : PAggregateFunction :=
  match fun_ with
  | AF_Min => PAF_Min | AF_Max => PAF_Max | AF_Sum => PAF_Sum | AF_Avg => PAF_Avg
  | AF_Count => PAF_Count
  end.

(** [TryInto<protobuf::ScalarFunction> for &BuiltinScalarFunction]. *)
Definition scalar_function_to_proto (self : BuiltinScalarFunction) : Result PScalarFunction :=
  match self with
  | BF_Sqrt => Ok SF_Sqrt
  | BF_Sin => Ok SF_Sin
  | BF_Cos => Ok SF_Cos
  | BF_Tan => Ok SF_Tan
  | BF_Asin => Ok SF_Asin
  | BF_Acos => Ok SF_Acos
  | BF_Atan => Ok SF_Atan
  | BF_Exp => Ok SF_Exp
  | BF_Log => Ok SF_Log
  | BF_Log10 => Ok SF_Log10
  | BF_Floor => Ok SF_Floor
  | BF_Ceil => Ok SF_Ceil
  | BF_Round => Ok SF_Round
  | BF_Trunc => Ok SF_Trunc
  | BF_Abs => Ok SF_Abs
  | BF_Length => Ok SF_Length
  | BF_Concat => Ok SF_Concat
  | BF_Lower => Ok SF_Lower
  | BF_Upper => Ok SF_Upper
  | BF_Trim => Ok SF_Trim
  | BF_Ltrim => Ok SF_Ltrim
  | BF_Rtrim => Ok SF_Rtrim
  | BF_ToTimestamp => Ok SF_Totimestamp
  | BF_Array => Ok SF_Array
  | BF_NullIf => Ok SF_Nullif
  | BF_DateTrunc => Ok SF_Datetrunc
  | BF_MD5 => Ok SF_Md5
  | BF_SHA224 => Ok SF_Sha224
  | BF_SHA256 => Ok SF_Sha256
  | BF_SHA384 => Ok SF_Sha384
  | BF_SHA512 => Ok SF_Sha512
  | BF_Log2 | BF_Signum | BF_Other _ =>
      Err (General "logical_plan::to_proto() unsupported scalar function {:?}")
  end.

Abbreviation some_node e := (mkLogicalExprNode (Some e)).

(** [TryInto<protobuf::LogicalExprNode> for &Expr]. *)
Fixpoint expr_to_proto (self : Expr) : Result PLogicalExprNode :=
  match self with
  | E_Column name => Ok (some_node (ET_ColumnName name))
  | E_Alias expr alias =>
      let? e := expr_to_proto expr in Ok (some_node (ET_Alias (Some e) alias))
  | E_Literal value =>
      let? pb_value := scalar_value_to_proto value in Ok (some_node (ET_Literal pb_value))
  | E_BinaryExpr lhs op rhs =>
      let? l := expr_to_proto lhs in
      let? r := expr_to_proto rhs in
      Ok (some_node (ET_BinaryExpr (Some l) (Some r) (debug_operator op)))
  | E_AggregateFunction fun_ args _ =>
      let aggr_function := aggregate_function_to_proto fun_ in
      match args with
      | [] => Panic "index out of bounds: the len is 0 but the index is 0"
      | arg :: _ =>
          let? e := expr_to_proto arg in
          Ok (some_node (ET_AggregateExpr (to_i32 aggr_function) (Some e)))
      end
  | E_ScalarVariable _ => Panic "not implemented"
  | E_ScalarFunction fun_ args =>
      let? f := scalar_function_to_proto fun_ in
      let? expr := rmapM expr_to_proto args in
      Ok (some_node (ET_ScalarFunction (to_i32 f) expr))
  | E_ScalarUDF _ _ => Panic "not implemented"
  | E_AggregateUDF _ _ => Panic "not implemented"
  | E_Not expr => let? e := expr_to_proto expr in Ok (some_node (ET_NotExpr (Some e)))
  | E_IsNull expr => let? e := expr_to_proto expr in Ok (some_node (ET_IsNullExpr (Some e)))
  | E_IsNotNull expr =>
      let? e := expr_to_proto expr in Ok (some_node (ET_IsNotNullExpr (Some e)))
  | E_Between expr negated low high =>
      let? e := expr_to_proto expr in
      let? l := expr_to_proto low in
      let? h := expr_to_proto high in
      Ok (some_node (ET_Between (Some e) negated (Some l) (Some h)))
  | E_Case expr when_then_expr else_expr =>
      let? wt := rmapM (λ p, match p with (w, t) =>
        let? w' := expr_to_proto w in
        let? t' := expr_to_proto t in
        Ok (mkWhenThen (Some w') (Some t')) end) when_then_expr in
      let? e := match expr with
        | Some e => let? e' := expr_to_proto e in Ok (Some e') | None => Ok None end in
      let? els := match else_expr with
        | Some e => let? e' := expr_to_proto e in Ok (Some e') | None => Ok None end in
      Ok (some_node (ET_Case e wt els))
  | E_Cast expr data_type =>
      let? e := expr_to_proto expr in
      Ok (some_node (ET_Cast (Some e) (Some (datatype_to_arrow_type data_type))))
  | E_Sort expr asc nulls_first =>
      let? e := expr_to_proto expr in Ok (some_node (ET_Sort (Some e) asc nulls_first))
  | E_Negative expr => let? e := expr_to_proto expr in Ok (some_node (ET_Negative (Some e)))
  | E_InList expr list negated =>
      let? e := expr_to_proto expr in
      let? l := rmapM expr_to_proto list in
      Ok (some_node (ET_InList (Some e) l negated))
  | E_Wildcard => Ok (some_node (ET_Wildcard true))
  end.

(** ** Decoding *)

Definition from_proto_binary_op (op : string) : Result Operator :=
  if bool_decide (op = "And") then Ok Op_And
  else if bool_decide (op = "Or") then Ok Op_Or
  else if bool_decide (op = "Eq") then Ok Op_Eq
  else if bool_decide (op = "NotEq") then Ok Op_NotEq
  else if bool_decide (op = "LtEq") then Ok Op_LtEq
  else if bool_decide (op = "Lt") then Ok Op_Lt
  else if bool_decide (op = "Gt") then Ok Op_Gt
  else if bool_decide (op = "GtEq") then Ok Op_GtEq
  else if bool_decide (op = "Plus") then Ok Op_Plus
  else if bool_decide (op = "Minus") then Ok Op_Minus
  else if bool_decide (op = "Multiply") then Ok Op_Multiply
  else if bool_decide (op = "Divide") then Ok Op_Divide
  else if bool_decide (op = "Like") then Ok Op_Like
  else Err (proto_error "Unsupported binary operator '{:?}'").

Definition aggregate_function_from_proto (f : PAggregateFunction) : AggregateFunction :=
  match f with
  | PAF_Min => AF_Min | PAF_Max => AF_Max | PAF_Sum => AF_Sum | PAF_Avg => AF_Avg
  | PAF_Count => AF_Count
  end.

(** The arms of [match scalar_function]: the builder each supported function
    is decoded with, by the function it builds. *)
Definition decodable_function (f : PScalarFunction) : option BuiltinScalarFunction :=
  match f with
  | SF_Sqrt => Some BF_Sqrt
  | SF_Sin => Some BF_Sin
  | SF_Cos => Some BF_Cos
  | SF_Tan => Some BF_Tan
  | SF_Atan => Some BF_Atan
  | SF_Exp => Some BF_Exp
  | SF_Log2 => Some BF_Log2
  | SF_Log10 => Some BF_Log10
  | SF_Floor => Some BF_Floor
  | SF_Ceil => Some BF_Ceil
  | SF_Round => Some BF_Round
  | SF_Trunc => Some BF_Trunc
  | SF_Abs => Some BF_Abs
  | SF_Signum => Some BF_Signum
  | SF_Length => Some BF_Length
  | SF_Lower => Some BF_Lower
  | SF_Upper => Some BF_Upper
  | SF_Trim => Some BF_Trim
  | SF_Ltrim => Some BF_Ltrim
  | SF_Rtrim => Some BF_Rtrim
  | SF_Sha224 => Some BF_SHA224
  | SF_Sha256 => Some BF_SHA256
  | SF_Sha384 => Some BF_SHA384
  | SF_Sha512 => Some BF_SHA512
  | SF_Asin | SF_Acos | SF_Log | SF_Concat | SF_Totimestamp | SF_Array | SF_Nullif
  | SF_Datetrunc | SF_Md5 => None
  end.

(** DataFusion's builders: [unary_function BF_Sqrt e] is [sqrt(e)], and so on.
    They are documented to build a call of the function with one argument. *)
Class ExprBuilders := unary_function : BuiltinScalarFunction → Expr → Expr.
Class ExprBuildersOk `{ExprBuilders} :=
  unary_function_spec : ∀ f e, unary_function f e = E_ScalarFunction f [e].

(** [parse_required_expr], the conversion of a present node given. *)
Definition parse_required_expr_with (try_into : PLogicalExprNode → Result Expr)
    (p : option PLogicalExprNode) : Result Expr :=
  match p with
  | Some expr => try_into expr
  | None => Err (proto_error "Missing required expression")
  end.

(** [parse_optional_expr], likewise. *)
Definition parse_optional_expr_with (try_into : PLogicalExprNode → Result Expr)
    (p : option PLogicalExprNode) : Result (option Expr) :=
  match p with
  | Some expr => rmap Some (try_into expr)
  | None => Ok None
  end.

Section decode.
Context `{ExprBuilders}.

(** [TryInto<Expr> for &protobuf::LogicalExprNode]. *)
Fixpoint proto_to_expr (self : PLogicalExprNode) : Result Expr :=
  let parse_required_expr := parse_required_expr_with proto_to_expr in
  let parse_optional_expr := parse_optional_expr_with proto_to_expr in
  match self with
  | mkLogicalExprNode None => Err (proto_error "Unexpected empty logical expression")
  | mkLogicalExprNode (Some expr_type) =>
    match expr_type with
    | ET_BinaryExpr l r op =>
        let? lhs := parse_required_expr l in
        let? op' := from_proto_binary_op op in
        let? rhs := parse_required_expr r in
        Ok (E_BinaryExpr lhs op' rhs)
    | ET_ColumnName column_name => Ok (E_Column column_name)
    | ET_Literal literal =>
        let? scalar_value := proto_to_scalar_value literal in Ok (E_Literal scalar_value)
    | ET_AggregateExpr aggr_function expr =>
        let? f := ok_or (proto_error "Received an unknown aggregate function: {}")
          (from_i32 aggr_function) in
        let fun_ := aggregate_function_from_proto f in
        let? e := parse_required_expr expr in
        Ok (E_AggregateFunction fun_ [e] false)
    | ET_Alias expr alias => let? e := parse_required_expr expr in Ok (E_Alias e alias)
    | ET_IsNullExpr expr => let? e := parse_required_expr expr in Ok (E_IsNull e)
    | ET_IsNotNullExpr expr => let? e := parse_required_expr expr in Ok (E_IsNotNull e)
    | ET_NotExpr expr => let? e := parse_required_expr expr in Ok (E_Not e)
    | ET_Between expr negated low high =>
        let? e := parse_required_expr expr in
        let? l := parse_required_expr low in
        let? h := parse_required_expr high in
        Ok (E_Between e negated l h)
    | ET_Case expr when_then_expr else_expr =>
        let? wt := rmapM (λ e, match e with mkWhenThen w t =>
          let? w' := parse_required_expr w in
          let? t' := parse_required_expr t in
          Ok (w', t') end) when_then_expr in
        let? e := parse_optional_expr expr in
        let? els := parse_optional_expr else_expr in
        Ok (E_Case e wt els)
    | ET_Cast expr arrow_type =>
        let? e := parse_required_expr expr in
        let? t := ok_or (proto_error "Protobuf deserialization error: CastNode message missing required field 'arrow_type'") arrow_type in
        let? data_type := arrow_type_to_datatype t in
        Ok (E_Cast e data_type)
    | ET_Sort expr asc nulls_first =>
        let? e := parse_required_expr expr in Ok (E_Sort e asc nulls_first)
    | ET_Negative expr => let? e := parse_required_expr expr in Ok (E_Negative e)
    | ET_InList expr list negated =>
        let? e := parse_required_expr expr in
        let? l := rmapM proto_to_expr list in
        Ok (E_InList e l negated)
    | ET_Wildcard _ => Ok E_Wildcard
    | ET_ScalarFunction fun_ expr =>
        let? scalar_function := ok_or (proto_error "Received an unknown scalar function: {}")
          (from_i32 fun_) in
        match decodable_function scalar_function with
        | Some f =>
            match expr with
            | [] => Panic "index out of bounds: the len is 0 but the index is 0"
            | e :: _ => let? e' := proto_to_expr e in Ok (unary_function f e')
            end
        | None => Err (proto_error "Protobuf deserialization error: Unsupported scalar function")
        end
    end
  end.

Definition parse_required_expr : option PLogicalExprNode → Result Expr :=
  parse_required_expr_with proto_to_expr.
Definition parse_optional_expr : option PLogicalExprNode → Result (option Expr) :=
  parse_optional_expr_with proto_to_expr.
End decode.

(** ** What the messages carry

    [supported]: the expressions with a protobuf form that can be decoded; the
    machine ranges of the types and literals inside are part of it.
    [norm_expr]: what is left of an expression at the other end.  The messages
    drop [DISTINCT], the arguments of an aggregate after the first and what
    [norm_datatype] and [norm_scalar] drop; of a call of a scalar function they
    carry all arguments, but the decoder reads the first only. *)
Definition decodable_builtin (f : BuiltinScalarFunction) : bool :=
  match scalar_function_to_proto f with
  | Ok p => match decodable_function p with Some _ => true | None => false end
  | _ => false
  end.

Definition named_operator (op : Operator) : bool :=
  match op with Op_Other _ => false | _ => true end.

Fixpoint supported (e : Expr) : Prop :=
  match e with
  | E_Column _ | E_Wildcard => True
  | E_ScalarVariable _ | E_ScalarUDF _ _ | E_AggregateUDF _ _ => False
  | E_Literal v => wf_scalar v ∧ is_ok (scalar_value_to_proto v) = true
  | E_BinaryExpr l op r => supported l ∧ named_operator op = true ∧ supported r
  | E_AggregateFunction _ args _ => match args with [] => False | a :: _ => supported a end
  | E_ScalarFunction f args =>
      decodable_builtin f = true ∧ args ≠ [] ∧ foldr (λ x acc, supported x ∧ acc) True args
  | E_Alias e _ | E_Not e | E_IsNull e | E_IsNotNull e | E_Sort e _ _ | E_Negative e =>
      supported e
  | E_Between e _ l h => supported e ∧ supported l ∧ supported h
  | E_Case e wt els =>
      match e with Some e => supported e | None => True end ∧
      foldr (λ p acc, (match p with (w, t) => supported w ∧ supported t end) ∧ acc) True wt ∧
      match els with Some e => supported e | None => True end
  | E_Cast e t => supported e ∧ wf_datatype t
  | E_InList e l _ => supported e ∧ foldr (λ x acc, supported x ∧ acc) True l
  end.

Fixpoint norm_expr (e : Expr) : Expr :=
  match e with
  | E_Literal v => E_Literal (norm_scalar v)
  | E_Alias e a => E_Alias (norm_expr e) a
  | E_BinaryExpr l op r => E_BinaryExpr (norm_expr l) op (norm_expr r)
  | E_AggregateFunction f args _ => E_AggregateFunction f (take 1 (List.map norm_expr args)) false
  | E_ScalarFunction f args => E_ScalarFunction f (take 1 (List.map norm_expr args))
  | E_Not e => E_Not (norm_expr e)
  | E_IsNull e => E_IsNull (norm_expr e)
  | E_IsNotNull e => E_IsNotNull (norm_expr e)
  | E_Between e n l h => E_Between (norm_expr e) n (norm_expr l) (norm_expr h)
  | E_Case e wt els =>
      E_Case (match e with Some e => Some (norm_expr e) | None => None end)
        (List.map (λ p, match p with (w, t) => (norm_expr w, norm_expr t) end) wt)
        (match els with Some e => Some (norm_expr e) | None => None end)
  | E_Cast e t => E_Cast (norm_expr e) (norm_datatype t)
  | E_Sort e a n => E_Sort (norm_expr e) a n
  | E_Negative e => E_Negative (norm_expr e)
  | E_InList e l n => E_InList (norm_expr e) (List.map norm_expr l) n
  | e => e
  end.

(** ** Lemmas *)

Lemma binary_op_roundtrip op :
  named_operator op = true → from_proto_binary_op (debug_operator op) = Ok op.
Proof. by destruct op. Qed.

Lemma decodable_builtin_roundtrip f :
  decodable_builtin f = true →
  ∃ p, scalar_function_to_proto f = Ok p ∧ decodable_function p = Some f.
Proof. destruct f; try done; intros _; by eexists. Qed.

Lemma aggregate_function_roundtrip f :
  aggregate_function_from_proto (aggregate_function_to_proto f) = f.
Proof. by destruct f. Qed.

(** Encoding then decoding, as one step. *)
Definition trip `{ExprBuilders} (e : Expr) : Prop :=
  ∃ p, expr_to_proto e = Ok p ∧ proto_to_expr p = Ok (norm_expr e).

Lemma trip_list `{ExprBuilders} l :
  Forall trip l → ∃ ps, rmapM expr_to_proto l = Ok ps ∧ rmapM proto_to_expr ps = Ok (List.map norm_expr l).
Proof.
  induction 1 as [|e l (p & Hp & Hd) _ (ps & Hps & Hds)]; simpl; [by eexists|].
  exists (p :: ps). rewrite Hp, Hps. simpl. by rewrite Hd, Hds.
Qed.

(** Use the outcome of a sub-expression's trip. *)
Ltac use_trip :=
  match goal with
  | H : ?P → trip _, H' : ?P |- _ =>
      let p := fresh "p" in let H1 := fresh in let H2 := fresh in
      destruct (H H') as (p & H1 & H2); clear H
  | H : _ ∧ _ |- _ => destruct H
  end.
Ltac finish_trip :=
  eexists; simpl;
  repeat match goal with H : expr_to_proto _ = _ |- _ => rewrite H end;
  split; [reflexivity|]; simpl;
  repeat match goal with H : proto_to_expr _ = _ |- _ => rewrite H end; try reflexivity.

Lemma trip_option `{ExprBuilders} o :
  option_all Expr (λ e, supported e → trip e) o →
  match o with Some e => supported e | None => True end →
  ∃ q, match o with Some e => let? e' := expr_to_proto e in Ok (Some e') | None => Ok None end = Ok q ∧
    parse_optional_expr_with proto_to_expr q =
      Ok (match o with Some e => Some (norm_expr e) | None => None end).
Proof.
  intros [e Ht|] Hs; [|by exists None].
  destruct (Ht Hs) as (p & Hp & Hd). exists (Some p). rewrite Hp. simpl. by rewrite Hd.
Qed.

Lemma trip_when_then `{ExprBuilders} wt :
  list_all (Expr * Expr) (prod_all Expr (λ e, supported e → trip e) Expr (λ e, supported e → trip e)) wt →
  foldr (λ p acc, (match p with (w, t) => supported w ∧ supported t end) ∧ acc) True wt →
  ∃ q, rmapM (λ p, match p with (w, t) =>
        let? w' := expr_to_proto w in
        let? t' := expr_to_proto t in
        Ok (mkWhenThen (Some w') (Some t')) end) wt = Ok q ∧
    rmapM (λ e, match e with mkWhenThen w t =>
          let? w' := parse_required_expr_with proto_to_expr w in
          let? t' := parse_required_expr_with proto_to_expr t in
          Ok (w', t') end) q =
      Ok (List.map (λ p, match p with (w, t) => (norm_expr w, norm_expr t) end) wt).
Proof.
  induction 1 as [|? Hp l _ IH]; simpl; [by exists []|].
  intros [Hs Hl]. destruct (IH Hl) as (q & Hq & Hdq).
  destruct Hp as [w Hw t Ht]. repeat use_trip.
  eexists. rewrite Hq.
  repeat match goal with H : expr_to_proto _ = _ |- _ => rewrite H end.
  split; [reflexivity|]. simpl.
  repeat match goal with H : proto_to_expr _ = _ |- _ => rewrite H end. by rewrite Hdq.
Qed.

Lemma expr_trip `{ExprBuildersOk} e : supported e → trip e.
Proof.
  induction e as [| | | | |names| | | | | | | |oe IHe wt IHwt oels IHels| | | | |]; simpl; intros Hs; try done; repeat use_trip;
    try (by finish_trip).
  - destruct (scalar_value_to_proto value) as [p| |] eqn:Hp; [|done..].
    exists (some_node (ET_Literal p)). simpl. rewrite Hp. split; [done|].
    by rewrite (scalar_roundtrip_aux _ H1 _ Hp).
  - finish_trip. by rewrite (binary_op_roundtrip op).
  - destruct H1 as [|a Ha args _]; [done|]. repeat use_trip. finish_trip.
    rewrite from_i32_to_i32. simpl. by rewrite aggregate_function_roundtrip.
  - destruct (decodable_builtin_roundtrip fun_ H2) as (pf & Hf & Hd).
    destruct (trip_list args) as (ps & Hps & Hds); [by eapply Forall_impl_all|].
    exists (some_node (ET_ScalarFunction (to_i32 pf) ps)). simpl. rewrite Hf, Hps. split; [done|].
    rewrite from_i32_to_i32. simpl. rewrite Hd.
    destruct args as [|a args]; [done|].
    destruct ps as [|p ps]; simpl in Hds; [done|]. res_inv. by rewrite unary_function_spec.
  - destruct (trip_option oe IHe H1) as (q1 & E1 & D1).
    destruct (trip_when_then wt IHwt H2) as (q2 & E2 & D2).
    destruct (trip_option oels IHels H3) as (q3 & E3 & D3).
    exists (some_node (ET_Case q1 q2 q3)). simpl. rewrite E1, E2, E3. split; [done|].
    by rewrite D1, D2, D3.
  - pose proof (proj1 arrow_roundtrip_aux data_type H2) as R.
    unfold datatype_to_arrow_type in R. simpl in R. finish_trip. by rewrite R.
  - destruct (trip_list list) as (ps & Hps & Hds); [by eapply Forall_impl_all|].
    exists (some_node (ET_InList (Some p) ps negated)). simpl. rewrite H4, Hps. split; [done|].
    simpl. by rewrite H5, Hds.
Qed.

(** ** Crashes

    The call nodes without an argument, anywhere in a message, of a function
    the decoder supports. *)
Definition supported_call (fun_ : Z) : bool :=
  match from_i32 (A := PScalarFunction) fun_ with
  | Some f => match decodable_function f with Some _ => true | None => false end
  | None => false
  end.

Fixpoint has_empty_call (p : PLogicalExprNode) : bool :=
  match p with
  | mkLogicalExprNode (Some t) => et_has_empty_call t
  | mkLogicalExprNode None => false
  end
with et_has_empty_call (t : ExprType) : bool :=
  let opt o := match o with Some p => has_empty_call p | None => false end in
  match t with
  | ET_ColumnName _ | ET_Literal _ | ET_Wildcard _ => false
  | ET_Alias e _ | ET_AggregateExpr _ e | ET_IsNullExpr e | ET_IsNotNullExpr e | ET_NotExpr e
  | ET_Cast e _ | ET_Sort e _ _ | ET_Negative e => opt e
  | ET_BinaryExpr l r _ => opt l || opt r
  | ET_Between e _ l h => opt e || opt l || opt h
  | ET_Case e wt els => opt e || existsb wt_has_empty_call wt || opt els
  | ET_InList e l _ => opt e || existsb has_empty_call l
  | ET_ScalarFunction f l =>
      supported_call f && (match l with [] => true | _ => false end) || existsb has_empty_call l
  end
with wt_has_empty_call (w : PWhenThen) : bool :=
  let opt o := match o with Some p => has_empty_call p | None => false end in
  match w with mkWhenThen w t => opt w || opt t end.

Scheme PLogicalExprNode_mind := Induction for PLogicalExprNode Sort Prop
with ExprType_mind := Induction for ExprType Sort Prop
with PWhenThen_mind := Induction for PWhenThen Sort Prop.
Combined Scheme expr_message_ind from PLogicalExprNode_mind, ExprType_mind, PWhenThen_mind.

Lemma from_proto_binary_op_no_panic op : is_panic (from_proto_binary_op op) = false.
Proof. unfold from_proto_binary_op. by repeat case_bool_decide. Qed.

Lemma parse_required_no_panic f p :
  option_all _ (λ p, has_empty_call p = false → is_panic (f p) = false) p →
  match p with Some p => has_empty_call p | None => false end = false →
  is_panic (parse_required_expr_with f p) = false.
Proof. intros [q Hq|]; simpl; auto. Qed.

Lemma parse_optional_no_panic f p :
  option_all _ (λ p, has_empty_call p = false → is_panic (f p) = false) p →
  match p with Some p => has_empty_call p | None => false end = false →
  is_panic (parse_optional_expr_with f p) = false.
Proof. intros [q Hq|]; simpl; auto. by rewrite rmap_no_panic. Qed.

Lemma rmapM_no_panic_exists {A B} (b : A → bool) (f : A → Result B) l :
  list_all A (λ x, b x = false → is_panic (f x) = false) l →
  existsb b l = false → is_panic (rmapM f l) = false.
Proof.
  intros Hl Hb. apply rmapM_no_panic. induction Hl; [constructor|].
  simpl in Hb. apply orb_false_elim in Hb as [??]. constructor; auto.
Qed.
#[export] Hint Resolve parse_required_no_panic parse_optional_no_panic
  rmapM_no_panic_exists from_proto_binary_op_no_panic : ballista.

Lemma expr_decode_no_panic_aux `{ExprBuilders} :
  (∀ p, has_empty_call p = false → is_panic (proto_to_expr p) = false) ∧
  (∀ t, et_has_empty_call t = false → is_panic (proto_to_expr (some_node t)) = false) ∧
  (∀ w, wt_has_empty_call w = false →
     is_panic (match w with mkWhenThen w t =>
       let? w' := parse_required_expr_with proto_to_expr w in
       let? t' := parse_required_expr_with proto_to_expr t in
       Ok (w', t') end) = false).
Proof.
  apply expr_message_ind; simpl; intros;
    repeat match goal with H : _ || _ = false |- _ => apply orb_false_elim in H as [??] end;
    no_panic; eauto with ballista.
  - destruct H0; simpl; auto.
  - apply scalar_decode_no_panic_aux.
  - apply arrow_decode_no_panic_aux.
  - destruct (decodable_function a) eqn:Hd; [|done].
    unfold supported_call in H1. destruct (from_i32 fun_); simpl in Ha; simplify_eq.
    rewrite Hd in H1. destruct H0 as [|e He l _]; [done|].
    simpl in H2. apply orb_false_elim in H2 as [? _]. no_panic. auto.
Qed.

(** ** Properties *)

(** C20 — Every supported expression can be encoded, and decoding the message
    gives the expression back up to what is lost on the way: in the messages
    [DISTINCT], the arguments of an aggregate after the first, nullability and
    metadata inside types, and in the decoder the arguments of a function call
    after the first. *)
Theorem expr_roundtrip `{ExprBuildersOk} e :
  supported e → ∃ p, expr_to_proto e = Ok p ∧ proto_to_expr p = Ok (norm_expr e).
Proof. apply expr_trip. Qed.

(** The builders as documented, for the witnesses. *)
Definition direct_builders : ExprBuilders := λ f e, E_ScalarFunction f [e].
Lemma direct_builders_ok : @ExprBuildersOk direct_builders.
Proof. intros f e. reflexivity. Qed.

Definition sample_expr : Expr :=
  E_Case (Some (E_Column "a"))
    [(E_BinaryExpr (E_Column "b") Op_GtEq (E_Literal (SV_Int8 (Some 7%Z))),
      E_ScalarFunction BF_Sqrt [E_Negative (E_Column "c")])]
    (Some (E_Cast (E_AggregateFunction AF_Sum [E_Column "d"] false) (DT_Decimal 10 2))).

Lemma expr_roundtrip_witness :
  ∃ p, expr_to_proto sample_expr = Ok p ∧
    @proto_to_expr direct_builders p = Ok sample_expr.
Proof.
  apply (@expr_roundtrip direct_builders direct_builders_ok sample_expr).
  vm_compute. repeat split; congruence.
Defined.

(** A message decodes without a crash unless it contains a call of a
    supported scalar function with no argument: every other malformed message
    is reported as an error. *)
Theorem expr_decode_crash `{ExprBuilders} p :
  is_panic (proto_to_expr p) = true → has_empty_call p = true.
Proof.
  intros Hp. destruct (has_empty_call p) eqn:He; [done|].
  by rewrite (proj1 expr_decode_no_panic_aux p He) in Hp.
Qed.

Lemma expr_decode_crash_witness :
  has_empty_call (some_node (ET_NotExpr (Some (some_node
    (ET_ScalarFunction (to_i32 SF_Sqrt) []))))) = true.
Proof. apply (@expr_decode_crash direct_builders). reflexivity. Defined.

(** The functions the encoder writes and the decoder refuses: an encoded
    call is decoded to a call of the same function, except for nine functions
    whose calls are encoded and then always rejected. *)
Theorem function_calls_decoded `{ExprBuildersOk} f pf e :
  scalar_function_to_proto f = Ok pf → supported e →
  ∃ p, expr_to_proto (E_ScalarFunction f [e]) = Ok p ∧
    proto_to_expr p =
      match f with
      | BF_Asin | BF_Acos | BF_Log | BF_Concat | BF_ToTimestamp | BF_Array | BF_NullIf
      | BF_DateTrunc | BF_MD5 =>
          Err (proto_error "Protobuf deserialization error: Unsupported scalar function")
      | _ => Ok (E_ScalarFunction f [norm_expr e])
      end.
Proof.
  intros Hf Hs. destruct (expr_trip e Hs) as (p & Hp & Hd).
  exists (some_node (ET_ScalarFunction (to_i32 pf) [p])). simpl. rewrite Hf, Hp. split; [done|].
  rewrite from_i32_to_i32. simpl.
  destruct f; simpl in Hf; simplify_eq; simpl; try done; by rewrite Hd, unary_function_spec.
Qed.

Lemma function_calls_decoded_witness :
  ∃ p, expr_to_proto (E_ScalarFunction BF_Asin [E_Column "x"]) = Ok p ∧
    @proto_to_expr direct_builders p =
      Err (proto_error "Protobuf deserialization error: Unsupported scalar function").
Proof.
  apply (@function_calls_decoded direct_builders direct_builders_ok BF_Asin SF_Asin (E_Column "x"));
    [reflexivity|exact I].
Defined.
