(* ===== verification/LogicalPlan.v ===== *)
(** * Logical plans and their protobuf form

    Models [TryInto<protobuf::LogicalPlanNode> for &LogicalPlan] of
    src/rust/core/src/serde/logical_plan/to_proto.rs and
    [TryInto<LogicalPlan> for &protobuf::LogicalPlanNode] of from_proto.rs,
    with the table adapter of src/rust/core/src/datasource.rs.  DataFusion's
    [DFSchema], its [LogicalPlanBuilder] and Arrow's [Schema::index_of] are
    parameters.

    The theorems: what arrives of a plan ([received_plan]), plans the builder
    made arriving unchanged, the table adapter being transparent, and limits
    that are cut. *)

From S2P Require Import Prelude Proto Arrow Scalar Expr.

(** ** The native plans *)

Inductive JoinType := Join_Inner | Join_Left | Join_Right.
Inductive FileType := FT_NdJson | FT_Parquet | FT_CSV.
Inductive Partitioning :=
| RoundRobinBatch (batch_size : Z)
| Hash (exprs : list Expr) (batch_size : Z).

(** [datafusion::logical_plan::LogicalPlan], over DataFusion's schema type,
    and the table providers the sources downcast to: Ballista's
    [DFTableAdapter] (with the schema of the physical plan it wraps),
    [ParquetTable], [CsvFile] and any other. *)
Inductive LogicalPlan (DFSchema : Type) :=
| LP_TableScan (table_name : string) (source : TableSource DFSchema)
    (projected_schema : DFSchema) (filters : list Expr) (projection : option (list Z))
| LP_Projection (expr : list Expr) (input : LogicalPlan DFSchema) (schema : DFSchema)
| LP_Filter (predicate : Expr) (input : LogicalPlan DFSchema)
| LP_Aggregate (input : LogicalPlan DFSchema) (group_expr aggr_expr : list Expr)
    (schema : DFSchema)
| LP_Join (lhs rhs : LogicalPlan DFSchema) (on : list (string * string)) (join_type : JoinType)
    (schema : DFSchema)
| LP_Limit (input : LogicalPlan DFSchema) (n : Z)
| LP_Sort (input : LogicalPlan DFSchema) (expr : list Expr)
| LP_Repartition (input : LogicalPlan DFSchema) (partitioning_scheme : Partitioning)
| LP_EmptyRelation (produce_one_row : bool) (schema : DFSchema)
| LP_CreateExternalTable (schema : DFSchema) (name location : string) (file_type : FileType)
    (has_header : bool)
| LP_Explain (verbose : bool) (plan : LogicalPlan DFSchema) (schema : DFSchema)
| LP_Extension (node : string)
with TableSource (DFSchema : Type) :=
| Src_DFTableAdapter (logical_plan : LogicalPlan DFSchema) (plan_schema : Schema)
| Src_ParquetTable (path : string) (schema : Schema)
| Src_CsvFile (path : string) (schema : Schema) (has_header : bool) (delimiter : Z)
    (file_extension : string)
| Src_Other (schema : Schema).
Arguments LP_TableScan {DFSchema}.
Arguments LP_Projection {DFSchema}.
Arguments LP_Filter {DFSchema}.
Arguments LP_Aggregate {DFSchema}.
Arguments LP_Join {DFSchema}.
Arguments LP_Limit {DFSchema}.
Arguments LP_Sort {DFSchema}.
Arguments LP_Repartition {DFSchema}.
Arguments LP_EmptyRelation {DFSchema}.
Arguments LP_CreateExternalTable {DFSchema}.
Arguments LP_Explain {DFSchema}.
Arguments LP_Extension {DFSchema}.
Arguments Src_DFTableAdapter {DFSchema}.
Arguments Src_ParquetTable {DFSchema}.
Arguments Src_CsvFile {DFSchema}.
Arguments Src_Other {DFSchema}.

(** [TableProvider::schema]. *)
Definition source_schema {DFSchema} (s : TableSource DFSchema) : Schema :=
  match s with
  | Src_DFTableAdapter _ plan_schema => plan_schema
  | Src_ParquetTable _ schema => schema
  | Src_CsvFile _ schema _ _ _ => schema
  | Src_Other schema => schema
  end.

(** The options [from_proto] builds for a CSV scan. *)
Record CsvReadOptions := mkCsvReadOptions {
  csv_schema : Schema; csv_delimiter : Z; csv_file_extension : string; csv_has_header : bool }.

(** What the conversions use of DataFusion and Arrow: the schema conversions,
    [Schema::index_of], and the calls [LogicalPlanBuilder::from(..).op(..)?.build()]. *)
Class DataFusion (DFSchema : Type) := {
  dfschema_to_schema : DFSchema → Schema;
  schema_to_dfschema : Schema → DFResult DFSchema;
  schema_index_of : Schema → string → result string Z;
  builder_project : LogicalPlan DFSchema → list Expr → DFResult (LogicalPlan DFSchema);
  builder_filter : LogicalPlan DFSchema → Expr → DFResult (LogicalPlan DFSchema);
  builder_aggregate : LogicalPlan DFSchema → list Expr → list Expr →
    DFResult (LogicalPlan DFSchema);
  builder_scan_csv : string → CsvReadOptions → option (list Z) →
    DFResult (LogicalPlan DFSchema);
  builder_scan_parquet : string → option (list Z) → Z → DFResult (LogicalPlan DFSchema);
  builder_sort : LogicalPlan DFSchema → list Expr → DFResult (LogicalPlan DFSchema);
  builder_repartition : LogicalPlan DFSchema → Partitioning → DFResult (LogicalPlan DFSchema);
  builder_empty : bool → DFResult (LogicalPlan DFSchema);
  builder_explain : LogicalPlan DFSchema → bool → DFResult (LogicalPlan DFSchema);
  builder_limit : LogicalPlan DFSchema → Z → DFResult (LogicalPlan DFSchema);
  builder_join : LogicalPlan DFSchema → LogicalPlan DFSchema → JoinType → list string →
    list string → DFResult (LogicalPlan DFSchema);
}.

(** ** Encoding *)

(** [std::str::from_utf8] of a one-byte slice. *)
Definition str_from_utf8_byte (b : Z) : option string :=
  if (b <? 128)%Z then Some (String (Ascii.ascii_of_nat (Z.to_nat b)) EmptyString) else None.

(** [schema.field(i).name()]: indexes the fields, out of range panics. *)
Definition schema_field_name (schema : Schema) (i : Z) : Result string :=
  unwrap "index out of bounds" (field_name <$> schema_fields schema !! Z.to_nat i).

Definition join_type_to_proto (t : JoinType) : PJoinType :=
  match t with
  | Join_Inner => PJT_Inner | Join_Left => PJT_Left | Join_Right => PJT_Right
  end.

Definition file_type_to_proto (t : FileType) : PFileType :=
  match t with FT_NdJson => PFT_NdJson | FT_Parquet => PFT_Parquet | FT_CSV => PFT_Csv end.

Definition partitioning_to_proto (p : Partitioning) : Result PPartitionMethod :=
  match p with
  | Hash exprs batch_size =>
      let? hash_expr := rmapM expr_to_proto exprs in
      Ok (PM_Hash hash_expr (as_u64 batch_size))
  | RoundRobinBatch batch_size => Ok (PM_RoundRobin (as_u64 batch_size))
  end.

Abbreviation plan_node p := (mkLogicalPlanNode (Some p)).

Section encode.
Context {DFSchema : Type} `{DataFusion DFSchema}.

(** Unwraps the [DFTableAdapter] to get to the real table provider. *)
Definition unwrap_adapter (source : TableSource DFSchema) : Result (TableSource DFSchema) :=
  match source with
  | Src_DFTableAdapter logical_plan _ =>
      match logical_plan with
      | LP_TableScan _ source _ _ _ => Ok source
      | _ => Err (General "Invalid LogicalPlan::TableScan")
      end
  | source => Ok source
  end.

(** The [LogicalPlan::TableScan] arm. *)
Definition table_scan_to_proto (table_name : string) (source : TableSource DFSchema)
    (filters : list Expr) (projection : option (list Z)) : Result PLogicalPlanNode :=
  let schema := source_schema source in
  let? source := unwrap_adapter source in
  let? projection :=
    match projection with
    | None => Ok None
    | Some columns =>
        let? column_names := rmapM (schema_field_name schema) columns in Ok (Some column_names)
    end in
  let pb_schema := schema_to_proto schema in
  let? filters := rmapM expr_to_proto filters in
  match source with
  | Src_ParquetTable path _ =>
      Ok (plan_node (LPT_ParquetScan
        (mkParquetTableScanNode table_name path projection (Some pb_schema) filters)))
  | Src_CsvFile path _ has_header delimiter file_extension =>
      let? delimiter :=
        ok_or (General "Invalid CSV delimiter") (str_from_utf8_byte delimiter) in
      Ok (plan_node (LPT_CsvScan
        (mkCsvTableScanNode table_name path has_header delimiter file_extension projection
           (Some pb_schema) filters)))
  | Src_DFTableAdapter _ _ | Src_Other _ =>
      Err (General "logical plan to_proto unsupported table provider {:?}")
  end.

(** [TryInto<protobuf::LogicalPlanNode> for &LogicalPlan]. *)
Fixpoint plan_to_proto (self : LogicalPlan DFSchema) : Result PLogicalPlanNode :=
  match self with
  | LP_TableScan table_name source _ filters projection =>
      table_scan_to_proto table_name source filters projection
  | LP_Projection expr input _ =>
      let? i := plan_to_proto input in
      let? e := rmapM expr_to_proto expr in
      Ok (plan_node (LPT_Projection (Some i) e))
  | LP_Filter predicate input =>
      let? i := plan_to_proto input in
      let? e := expr_to_proto predicate in
      Ok (plan_node (LPT_Selection (Some i) (Some e)))
  | LP_Aggregate input group_expr aggr_expr _ =>
      let? i := plan_to_proto input in
      let? g := rmapM expr_to_proto group_expr in
      let? a := rmapM expr_to_proto aggr_expr in
      Ok (plan_node (LPT_Aggregate (Some i) g a))
  | LP_Join lhs rhs on join_type _ =>
      let? l := plan_to_proto lhs in
      let? r := plan_to_proto rhs in
      let join_type := join_type_to_proto join_type in
      let left_join_column := List.map fst on in
      let right_join_column := List.map snd on in
      Ok (plan_node (LPT_Join (Some l) (Some r) (to_i32 join_type)
                              left_join_column right_join_column))
  | LP_Limit input n =>
      let? i := plan_to_proto input in Ok (plan_node (LPT_Limit (Some i) (as_u32 n)))
  | LP_Sort input expr =>
      let? i := plan_to_proto input in
      let? selection_expr := rmapM expr_to_proto expr in
      Ok (plan_node (LPT_Sort (Some i) selection_expr))
  | LP_Repartition input partitioning_scheme =>
      let? i := plan_to_proto input in
      let? pb_partition_method := partitioning_to_proto partitioning_scheme in
      Ok (plan_node (LPT_Repartition (Some i) (Some pb_partition_method)))
  | LP_EmptyRelation produce_one_row _ => Ok (plan_node (LPT_EmptyRelation produce_one_row))
  | LP_CreateExternalTable df_schema name location file_type has_header =>
      let pb_schema := schema_to_proto (dfschema_to_schema df_schema) in
      let pb_file_type := file_type_to_proto file_type in
      Ok (plan_node (LPT_CreateExternalTable
        (mkCreateExternalTableNode name location (to_i32 pb_file_type) has_header
           (Some pb_schema))))
  | LP_Explain verbose plan _ =>
      let? i := plan_to_proto plan in Ok (plan_node (LPT_Explain (Some i) verbose))
  | LP_Extension _ => Panic "not implemented"
  end.
End encode.

(** ** Decoding *)

(** [TryFrom<i32> for protobuf::FileType]: compares with each variant. *)
Definition file_type_from_i32 (value : Z) : Result PFileType :=
  if (value =? to_i32 PFT_NdJson)%Z then Ok PFT_NdJson
  else if (value =? to_i32 PFT_Parquet)%Z then Ok PFT_Parquet
  else if (value =? to_i32 PFT_Csv)%Z then Ok PFT_Csv
  else Err (General "Attempted to convert invalid i32 to protobuf::Filetype: {}").

(** [Into<FileType> for protobuf::FileType]. *)
Definition file_type_from_proto (t : PFileType) : FileType :=
  match t with PFT_NdJson => FT_NdJson | PFT_Parquet => FT_Parquet | PFT_Csv => FT_CSV end.

Definition join_type_from_proto (t : PJoinType) : JoinType :=
  match t with PJT_Inner => Join_Inner | PJT_Left => Join_Left | PJT_Right => Join_Right end.

(** The macros [convert_required!] and [convert_box_required!]. *)
Definition convert_required {A B} (try_into : A → Result B) (o : option A) : Result B :=
  match o with
  | Some field => try_into field
  | None => Err (proto_error "Missing required field in protobuf")
  end.

Definition partitioning_from_proto `{ExprBuilders} (m : PPartitionMethod) : Result Partitioning :=
  match m with
  | PM_Hash pb_hash_expr batch_size =>
      let? e := rmapM proto_to_expr pb_hash_expr in Ok (Hash e (as_usize batch_size))
  | PM_RoundRobin batch_size => Ok (RoundRobinBatch (as_usize batch_size))
  end.

(** [schema.fields().iter().position(|field| field.name() == col_name)]. *)
Definition position_of (schema : Schema) (col_name : string) : option Z :=
  (λ p, Z.of_nat p.1) <$> list_find (λ f, field_name f = col_name) (schema_fields schema).

Section decode_plan.
Context {DFSchema : Type} `{DataFusion DFSchema} `{ExprBuilders}.

(** The [LogicalPlanType::CsvScan] arm. *)
Definition csv_scan_from_proto (scan : PCsvTableScanNode) : Result (LogicalPlan DFSchema) :=
  let? schema := convert_required schema_from_proto (cts_schema scan) in
  let? delimiter :=
    match cts_delimiter scan with
    | EmptyString => Panic "index out of bounds: the len is 0 but the index is 0"
    | String c _ => Ok (Z.of_nat (Ascii.nat_of_ascii c))
    end in
  let options := mkCsvReadOptions schema delimiter (cts_file_extension scan) (cts_has_header scan) in
  let? projection :=
    match cts_projection scan with
    | None => Ok None
    | Some column_names =>
        let? column_indices :=
          rmapM (λ name, map_err ArrowError (schema_index_of schema name)) column_names in
        Ok (Some column_indices)
    end in
  lift_df (builder_scan_csv (cts_path scan) options projection).

(** The [LogicalPlanType::ParquetScan] arm. *)
Definition parquet_scan_from_proto (scan : PParquetTableScanNode) : Result (LogicalPlan DFSchema) :=
  let? projection :=
    match pts_projection scan with
    | None => Ok None
    | Some columns =>
        let? schema := convert_required schema_from_proto (pts_schema scan) in
        let? r := rmapM (λ col_name,
          ok_or (proto_error "Parquet projection contains column name that is not present in schema. Column name: {}. Schema columns: {:?}")
            (position_of schema col_name)) columns in
        Ok (Some r)
    end in
  lift_df (builder_scan_parquet (pts_path scan) projection 24).

(** The [LogicalPlanType::CreateExternalTable] arm, with
    [TryInto<DFSchemaRef> for protobuf::Schema]. *)
Definition dfschema_from_proto (s : PSchema) : Result DFSchema :=
  let? schema := schema_from_proto s in lift_df (schema_to_dfschema schema).

Definition create_external_table_from_proto (c : PCreateExternalTableNode)
    : Result (LogicalPlan DFSchema) :=
  let? pb_schema := ok_or (General "Protobuf deserialization error, CreateExternalTableNode was missing required field schema.") (cet_schema c) in
  let? pb_file_type := file_type_from_i32 (cet_file_type c) in
  let? schema := dfschema_from_proto pb_schema in
  Ok (LP_CreateExternalTable schema (cet_name c) (cet_location c)
        (file_type_from_proto pb_file_type) (cet_has_header c)).

(** [TryInto<LogicalPlan> for &protobuf::LogicalPlanNode]. *)
Fixpoint proto_to_plan (self : PLogicalPlanNode) : Result (LogicalPlan DFSchema) :=
  let convert_box_required := convert_required proto_to_plan in
  match self with
  | mkLogicalPlanNode None =>
      Err (proto_error "logical_plan::from_proto() Unsupported logical plan '{:?}'")
  | mkLogicalPlanNode (Some plan) =>
    match plan with
    | LPT_Projection input expr =>
        let? i := convert_box_required input in
        let? e := rmapM proto_to_expr expr in
        lift_df (builder_project i e)
    | LPT_Selection input expr =>
        let? i := convert_box_required input in
        let? e := unwrap "expression required" expr in
        let? predicate := proto_to_expr e in
        lift_df (builder_filter i predicate)
    | LPT_Aggregate input group_expr aggr_expr =>
        let? i := convert_box_required input in
        let? g := rmapM proto_to_expr group_expr in
        let? a := rmapM proto_to_expr aggr_expr in
        lift_df (builder_aggregate i g a)
    | LPT_CsvScan scan => csv_scan_from_proto scan
    | LPT_ParquetScan scan => parquet_scan_from_proto scan
    | LPT_Sort input expr =>
        let? i := convert_box_required input in
        let? sort_expr := rmapM proto_to_expr expr in
        lift_df (builder_sort i sort_expr)
    | LPT_Repartition input partition_method =>
        let? i := convert_box_required input in
        let? m := ok_or (General "Protobuf deserialization error, RepartitionNode was missing required field 'partition_method'") partition_method in
        let? partitioning_scheme := partitioning_from_proto m in
        lift_df (builder_repartition i partitioning_scheme)
    | LPT_EmptyRelation produce_one_row => lift_df (builder_empty produce_one_row)
    | LPT_CreateExternalTable create_extern_table =>
        create_external_table_from_proto create_extern_table
    | LPT_Explain input verbose =>
        let? i := convert_box_required input in lift_df (builder_explain i verbose)
    | LPT_Limit input limit =>
        let? i := convert_box_required input in lift_df (builder_limit i (as_usize limit))
    | LPT_Join lhs rhs join_type left_join_column right_join_column =>
        let? t := ok_or (proto_error "Received a JoinNode message with unknown JoinType {}")
          (from_i32 join_type) in
        let join_type := join_type_from_proto t in
        let? l := convert_box_required lhs in
        let? r := convert_box_required rhs in
        lift_df (builder_join l r join_type left_join_column right_join_column)
    end
  end.
End decode_plan.

(** ** What arrives of a plan *)

(** A projection by position that can be sent by name: the field names are
    distinct and the positions in range. *)
Definition valid_projection (schema : Schema) (projection : option (list Z)) : Prop :=
  match projection with
  | None => True
  | Some columns =>
      NoDup (field_name <$> schema_fields schema) ∧
      Forall (λ i, 0 ≤ i < Z.of_nat (length (schema_fields schema)))%Z columns
  end.

Section received.
Context {DFSchema : Type} `{DataFusion DFSchema}.

(** The table provider of a scan, without its adapter. *)
Definition provider (source : TableSource DFSchema) : option (TableSource DFSchema) :=
  match source with
  | Src_DFTableAdapter (LP_TableScan _ source _ _ _) _ => Some source
  | Src_DFTableAdapter _ _ => None
  | source => Some source
  end.

(** A plan the messages carry: its expressions have a form that is decoded, its
    scans are of Parquet or CSV files, in an adapter or not, and there are no
    extensions. *)
Definition sendable_scan (source : TableSource DFSchema) (filters : list Expr) (projection : option (list Z)) : Prop :=
  wf_schema (source_schema source) ∧ valid_projection (source_schema source) projection ∧ Forall supported filters ∧
  match provider source with
  | Some (Src_ParquetTable _ _) => True
  | Some (Src_CsvFile _ _ _ delimiter _) => (0 ≤ delimiter < 128)%Z
  | _ => False
  end.
Fixpoint sendable_plan (p : LogicalPlan DFSchema) : Prop :=
  match p with
  | LP_TableScan _ source _ filters projection => sendable_scan source filters projection
  | LP_Projection es input _ | LP_Sort input es => sendable_plan input ∧ Forall supported es
  | LP_Filter e input => sendable_plan input ∧ supported e
  | LP_Aggregate input gs aggs _ => sendable_plan input ∧ Forall supported gs ∧ Forall supported aggs
  | LP_Join l r _ _ _ => sendable_plan l ∧ sendable_plan r
  | LP_Limit input _ | LP_Explain _ input _ => sendable_plan input
  | LP_Repartition input s => sendable_plan input ∧ match s with Hash es _ => Forall supported es | _ => True end
  | LP_EmptyRelation _ _ => True
  | LP_CreateExternalTable s _ _ _ _ => wf_schema (dfschema_to_schema s)
  | LP_Extension _ => False
  end.

(** What the plan is at the other end: what the builder makes of its parts, from
    the leaves on, with the expressions as they arrive ([norm_expr]), scans of
    the files themselves, without name and filters, and limits modulo 2^32. *)
Definition received_scan (source : TableSource DFSchema) (projection : option (list Z)) : Result (LogicalPlan DFSchema) :=
  match provider source with
  | Some (Src_ParquetTable path _) => lift_df (builder_scan_parquet path projection 24)
  | Some (Src_CsvFile path _ has_header delimiter ext) =>
      lift_df (builder_scan_csv path (mkCsvReadOptions (norm_schema (source_schema source)) delimiter ext has_header) projection)
  | _ => Err (General "logical plan to_proto unsupported table provider {:?}")
  end.
Definition received_partitioning (s : Partitioning) : Partitioning :=
  match s with
  | RoundRobinBatch b => RoundRobinBatch (as_u64 b)
  | Hash es b => Hash (List.map norm_expr es) (as_u64 b)
  end.
Fixpoint received_plan (p : LogicalPlan DFSchema) : Result (LogicalPlan DFSchema) :=
  match p with
  | LP_TableScan _ source _ _ projection => received_scan source projection
  | LP_Projection es input _ => let? i := received_plan input in lift_df (builder_project i (List.map norm_expr es))
  | LP_Filter e input => let? i := received_plan input in lift_df (builder_filter i (norm_expr e))
  | LP_Aggregate input gs aggs _ =>
      let? i := received_plan input in lift_df (builder_aggregate i (List.map norm_expr gs) (List.map norm_expr aggs))
  | LP_Join l r on t _ =>
      let? l := received_plan l in
      let? r := received_plan r in
      lift_df (builder_join l r t (List.map fst on) (List.map snd on))
  | LP_Limit input n => let? i := received_plan input in lift_df (builder_limit i (as_u32 n))
  | LP_Sort input es => let? i := received_plan input in lift_df (builder_sort i (List.map norm_expr es))
  | LP_Repartition input s => let? i := received_plan input in lift_df (builder_repartition i (received_partitioning s))
  | LP_EmptyRelation one _ => lift_df (builder_empty one)
  | LP_CreateExternalTable s name location file_type has_header =>
      let? s := lift_df (schema_to_dfschema (norm_schema (dfschema_to_schema s))) in
      Ok (LP_CreateExternalTable s name location file_type has_header)
  | LP_Explain v input _ => let? i := received_plan input in lift_df (builder_explain i v)
  | LP_Extension _ => Panic "not implemented"
  end.
End received.

(** ** The plans that survive *)

(** Arrow documents [index_of] to find the first field with the name. *)
Class DataFusionOk (DFSchema : Type) `{DataFusion DFSchema} :=
  schema_index_of_spec : ∀ s name i,
    position_of s name = Some i → schema_index_of s name = Ok i.

(** An expression the messages carry in full. *)
Definition exact_expr (e : Expr) : Prop := supported e ∧ norm_expr e = e.

Section built.
Context {DFSchema : Type} `{DataFusion DFSchema}.

(** Every node is what the builder makes of its parts, its expressions are
    carried in full and its integers fit the messages. *)
Fixpoint built (p : LogicalPlan DFSchema) : Prop :=
  match p with
  | LP_TableScan n src ps filters proj =>
      wf_schema (source_schema src) ∧ valid_projection (source_schema src) proj ∧
      Forall supported filters ∧
      match src with
      | Src_ParquetTable path _ => builder_scan_parquet path proj 24 = Ok p
      | Src_CsvFile path schema has_header delimiter ext =>
          norm_schema schema = schema ∧ (0 ≤ delimiter < 128)%Z ∧
          builder_scan_csv path (mkCsvReadOptions schema delimiter ext has_header) proj = Ok p
      | _ => False
      end
  | LP_Projection es input _ =>
      built input ∧ Forall exact_expr es ∧ builder_project input es = Ok p
  | LP_Filter e input => built input ∧ exact_expr e ∧ builder_filter input e = Ok p
  | LP_Aggregate input gs aggs _ =>
      built input ∧ Forall exact_expr gs ∧ Forall exact_expr aggs ∧
      builder_aggregate input gs aggs = Ok p
  | LP_Join l r on t _ =>
      built l ∧ built r ∧ builder_join l r t (List.map fst on) (List.map snd on) = Ok p
  | LP_Limit input n => built input ∧ in_u 32 n ∧ builder_limit input n = Ok p
  | LP_Sort input es => built input ∧ Forall exact_expr es ∧ builder_sort input es = Ok p
  | LP_Repartition input s =>
      built input ∧ builder_repartition input s = Ok p ∧
      match s with
      | RoundRobinBatch b => in_u 64 b
      | Hash es b => in_u 64 b ∧ Forall exact_expr es
      end
  | LP_EmptyRelation one _ => builder_empty one = Ok p
  | LP_CreateExternalTable s _ _ _ _ =>
      wf_schema (dfschema_to_schema s) ∧
      schema_to_dfschema (norm_schema (dfschema_to_schema s)) = Ok s
  | LP_Explain v input _ => built input ∧ builder_explain input v = Ok p
  | LP_Extension _ => False
  end.
End built.

(** ** Lemmas *)

Lemma exact_list es : Forall exact_expr es → Forall supported es ∧ List.map norm_expr es = es.
Proof.
  induction 1 as [|e es [Hs He] _ [IH1 IH2]]; [done|]. simpl. rewrite He, IH2. auto.
Qed.

Lemma supported_list_trip `{ExprBuildersOk} es :
  Forall supported es → ∃ ps, rmapM expr_to_proto es = Ok ps ∧ rmapM proto_to_expr ps = Ok (List.map norm_expr es).
Proof. intros Hes. apply trip_list. eapply Forall_impl; [exact Hes|]. apply expr_trip. Qed.

Lemma exact_trip `{ExprBuildersOk} e :
  exact_expr e → ∃ p, expr_to_proto e = Ok p ∧ proto_to_expr p = Ok e.
Proof. intros [Hs He]. destruct (expr_trip e Hs) as (p & ? & Hd). exists p. by rewrite He in Hd. Qed.

Lemma norm_field_name f : field_name (norm_field f) = field_name f.
Proof. by destruct f. Qed.

(** A column sent by name is found again at its position. *)
Lemma position_of_name s i f :
  NoDup (field_name <$> schema_fields s) → schema_fields s !! i = Some f →
  position_of s (field_name f) = Some (Z.of_nat i).
Proof.
  intros Hnd Hi. unfold position_of.
  rewrite (proj2 (list_find_Some _ _ i f)); [done|].
  split; [done|]. split; [done|]. intros j g Hj Hlt Hn.
  assert (i = j); [|lia].
  eapply (NoDup_lookup _ i j (field_name f) Hnd); rewrite list_lookup_fmap.
  - by rewrite Hi.
  - rewrite Hj. simpl. by rewrite Hn.
Qed.

Lemma position_of_norm s name : position_of (norm_schema s) name = position_of s name.
Proof.
  unfold position_of, norm_schema. simpl.
  induction (schema_fields s) as [|f l IH]; [done|]. simpl. rewrite norm_field_name.
  destruct (decide (field_name f = name)); [done|].
  revert IH. by destruct (list_find _ (List.map norm_field l)) as [[]|], (list_find _ l) as [[]|];
    simpl; intros; simplify_eq; rewrite ?H.
Qed.

(** The names a projection is sent as resolve to its positions. *)
Lemma projection_trip schema projection :
  valid_projection schema projection →
  ∃ names,
    match projection with
    | None => Ok None
    | Some columns =>
        let? column_names := rmapM (schema_field_name schema) columns in Ok (Some column_names)
    end = Ok names ∧
    match projection, names with
    | None, None => True
    | Some columns, Some names =>
        Forall2 (λ name i, position_of schema name = Some i) names columns
    | _, _ => False
    end.
Proof.
  destruct projection as [columns|]; [|by exists None]. intros [Hnd Hc].
  assert (∃ names, rmapM (schema_field_name schema) columns = Ok names ∧
    Forall2 (λ name i, position_of schema name = Some i) names columns) as (names & E & HF).
  { induction Hc as [|i l Hi _ IH]; [by exists []|]. destruct IH as (names & E & HF).
    destruct (lookup_lt_is_Some_2 (schema_fields schema) (Z.to_nat i)) as [f Hf]; [lia|].
    exists (field_name f :: names). simpl. unfold schema_field_name at 1. rewrite Hf. simpl.
    rewrite E. split; [done|]. constructor; [|done].
    rewrite (position_of_name _ _ _ Hnd Hf). f_equal. lia. }
  exists (Some names). by rewrite E.
Qed.

Lemma delimiter_trip d :
  (0 ≤ d < 128)%Z →
  ∃ c, str_from_utf8_byte d = Some (String c "") ∧ Z.of_nat (Ascii.nat_of_ascii c) = d.
Proof.
  intros Hd. unfold str_from_utf8_byte. rewrite (proj2 (Z.ltb_lt d 128)) by lia.
  eexists. split; [done|]. rewrite Ascii.nat_ascii_embedding; lia.
Qed.

Section trip.
Context {DFSchema : Type} `{DataFusionOk DFSchema} `{ExprBuildersOk}.
Implicit Types (p : LogicalPlan DFSchema).

Lemma scan_trip n src filters proj :
  sendable_scan src filters proj →
  ∃ m, table_scan_to_proto n src filters proj = Ok m ∧ proto_to_plan m = received_scan src proj.
Proof.
  intros (Hwf & Hproj & Hf & Hsrc).
  destruct (supported_list_trip filters Hf) as (fs & Hfs & _).
  destruct (projection_trip _ _ Hproj) as (names & Hn & Hnames).
  unfold table_scan_to_proto. assert (∃ src', unwrap_adapter src = Ok src' ∧ provider src = Some src') as (src' & E1 & E2).
  { destruct src as [[]| | |]; try done; simpl; eauto. }
  unfold received_scan. rewrite E1, Hn, Hfs. rewrite E2 in *.
  destruct src' as [|path schema|path schema hh d ext|]; try done.
  - eexists. split; [reflexivity|]. simpl. unfold parquet_scan_from_proto. simpl.
    destruct proj as [columns|], names as [names|]; try done.
    rewrite schema_roundtrip_aux by done. simpl.
    rewrite (proj2 (rmapM_Forall2 _ names columns)); [done|].
    eapply Forall2_impl; [exact Hnames|]. simpl. intros name i Hi.
    by rewrite position_of_norm, Hi.
  - destruct (delimiter_trip d Hsrc) as (c & -> & Hc).
    eexists. split; [reflexivity|]. simpl. unfold csv_scan_from_proto. simpl.
    rewrite schema_roundtrip_aux by done. simpl. rewrite Hc.
    destruct proj as [columns|], names as [names|]; try done.
    rewrite (proj2 (rmapM_Forall2 _ names columns)); [done|].
    eapply Forall2_impl; [exact Hnames|]. simpl. intros name i Hi.
    by rewrite (schema_index_of_spec _ _ i) by (by rewrite position_of_norm).
Qed.

Lemma partitioning_trip s :
  match s with Hash es _ => Forall supported es | _ => True end →
  ∃ m, partitioning_to_proto s = Ok m ∧ partitioning_from_proto m = Ok (received_partitioning s).
Proof.
  destruct s as [b|es b]; simpl; intros Hs.
  - eexists. split; [done|]. simpl. by rewrite wrap_u_id by (by apply wrap_u_range).
  - destruct (supported_list_trip es Hs) as (ps & -> & Hd).
    eexists. split; [done|]. simpl. rewrite Hd. by rewrite wrap_u_id by (by apply wrap_u_range).
Qed.

Lemma file_type_trip t :
  rmap file_type_from_proto (file_type_from_i32 (to_i32 (file_type_to_proto t))) = Ok t.
Proof. by destruct t. Qed.

Lemma limit_trip n : as_usize (as_u32 n) = as_u32 n.
Proof. apply wrap_u_id. apply (in_u_mono 32); [lia..|by apply wrap_u_range]. Qed.

Lemma join_type_trip t : join_type_from_proto (join_type_to_proto t) = t.
Proof. by destruct t. Qed.
End trip.

Lemma sent_plan_trip {DFSchema} `{DataFusionOk DFSchema} `{ExprBuildersOk} (p : LogicalPlan DFSchema) :
  sendable_plan p → ∃ m, plan_to_proto p = Ok m ∧ proto_to_plan m = received_plan p.
Proof.
  induction p as [n src ps filters proj|es input IH s|e input IH|input IH gs aggs s
    |l IHl r IHr on t s|input IH n|input IH es|input IH sch|one s|s name loc ft hh|v input IH s|node];
    intros Hb; [by apply scan_trip|..].
  all: cbn [sendable_plan plan_to_proto received_plan] in *; try done.
  - destruct Hb as (Hi & Hes). destruct (IH Hi) as (m & -> & <-). destruct (supported_list_trip es Hes) as (qs & -> & Hq).
    eexists; split; [done|]. simpl. by rewrite Hq.
  - destruct Hb as (Hi & He). destruct (IH Hi) as (m & -> & <-). destruct (expr_trip e He) as (q & -> & Hq).
    eexists; split; [done|]. simpl. by rewrite Hq.
  - destruct Hb as (Hi & Hg & Ha). destruct (IH Hi) as (m & -> & <-).
    destruct (supported_list_trip gs Hg) as (qs & -> & Hq). destruct (supported_list_trip aggs Ha) as (rs & -> & Hr).
    eexists; split; [done|]. simpl. by rewrite Hq, Hr.
  - destruct Hb as (Hl & Hr). destruct (IHl Hl) as (ml & -> & <-). destruct (IHr Hr) as (mr & -> & <-).
    eexists; split; [done|]. simpl. rewrite from_i32_to_i32. simpl. by rewrite join_type_trip.
  - destruct (IH Hb) as (m & -> & <-). eexists; split; [done|]. simpl. by rewrite limit_trip.
  - destruct Hb as (Hi & Hes). destruct (IH Hi) as (m & -> & <-). destruct (supported_list_trip es Hes) as (qs & -> & Hq).
    eexists; split; [done|]. simpl. by rewrite Hq.
  - destruct Hb as (Hi & Hs). destruct (IH Hi) as (m & -> & <-). destruct (partitioning_trip sch Hs) as (q & -> & Hq).
    eexists; split; [done|]. simpl. by rewrite Hq.
  - by eexists.
  - eexists; split; [done|]. simpl. unfold create_external_table_from_proto, dfschema_from_proto. simpl.
    pose proof (file_type_trip ft) as Hft. destruct (file_type_from_i32 _); simpl in *; simplify_eq.
    by rewrite schema_roundtrip_aux.
  - destruct (IH Hb) as (m & -> & <-). by eexists.
Qed.

(** A plan that is as the builder made it arrives as it is. *)
Lemma built_received {DFSchema} `{DataFusion DFSchema} (p : LogicalPlan DFSchema) :
  built p → sendable_plan p ∧ received_plan p = Ok p.
Proof.
  induction p as [n src ps filters proj|es input IH s|e input IH|input IH gs aggs s
    |l IHl r IHr on t s|input IH n|input IH es|input IH sch|one s|s name loc ft hh|v input IH s|node];
    cbn [built sendable_plan received_plan]; intros Hb; try done.
  - unfold sendable_scan, received_scan. destruct Hb as (Hwf & Hproj & Hf & Hsrc).
    destruct src as [| |path schema hh d ext|]; try done; simpl in *; [by rewrite Hsrc|].
    destruct Hsrc as (Hn & Hd & Hb). by rewrite Hn, Hb.
  - destruct Hb as (Hi & [Hs Hn]%exact_list & Hb). destruct (IH Hi) as [? ->]. simpl. by rewrite Hn, Hb.
  - destruct Hb as (Hi & [Hs Hn] & Hb). destruct (IH Hi) as [? ->]. simpl. by rewrite Hn, Hb.
  - destruct Hb as (Hi & [Hs Hn]%exact_list & [Hs' Hn']%exact_list & Hb). destruct (IH Hi) as [? ->]. simpl. by rewrite Hn, Hn', Hb.
  - destruct Hb as (Hl & Hr & Hb). destruct (IHl Hl) as [? ->], (IHr Hr) as [? ->]. simpl. by rewrite Hb.
  - destruct Hb as (Hi & Hn & Hb). destruct (IH Hi) as [? ->]. simpl. by rewrite wrap_u_id, Hb.
  - destruct Hb as (Hi & [Hs Hn]%exact_list & Hb). destruct (IH Hi) as [? ->]. simpl. by rewrite Hn, Hb.
  - destruct Hb as (Hi & Hb & Hs). destruct (IH Hi) as [? ->]. destruct sch as [b|es b]; simpl.
    + by rewrite wrap_u_id, Hb.
    + destruct Hs as (Hu & [Hs Hn]%exact_list). by rewrite wrap_u_id, Hn, Hb.
  - by rewrite Hb.
  - destruct Hb as [Hwf Hb]. by rewrite Hb.
  - destruct Hb as (Hi & Hb). destruct (IH Hi) as [? ->]. simpl. by rewrite Hb.
Qed.

Lemma plan_trip {DFSchema} `{DataFusionOk DFSchema} `{ExprBuildersOk} (p : LogicalPlan DFSchema) :
  built p → ∃ m, plan_to_proto p = Ok m ∧ proto_to_plan m = Ok p.
Proof. intros [Hs <-]%built_received. by apply sent_plan_trip. Qed.

(** ** Properties *)

(** C19 — A logical plan whose expressions have a form that is decoded, whose
    scans are of Parquet or CSV files (in a table adapter or not) with distinct
    column names, and that has no extension can be encoded, and decoding gives
    what the plan builder makes of its parts as they arrive: with the
    expressions up to what they lose on the way, scans of the files themselves,
    and limits modulo 2^32.  A plan that is as the builder made it, with
    expressions that lose nothing and limits of 32 bits, is given back
    exactly. *)
Theorem plan_roundtrip {DFSchema} `{DataFusionOk DFSchema} `{ExprBuildersOk} (p : LogicalPlan DFSchema) :
  sendable_plan p →
  ∃ m, plan_to_proto p = Ok m ∧ proto_to_plan m = received_plan p ∧ (built p → received_plan p = Ok p).
Proof.
  intros Hs. destruct (sent_plan_trip p Hs) as (m & ? & ?). exists m. split_and!; [done..|]. intros Hb. by apply built_received.
Qed.

(** A builder that makes each node of its parts, with the Arrow schema as
    DataFusion's, for the witnesses. *)
Definition direct_datafusion : DataFusion Schema := {|
  dfschema_to_schema s := s;
  schema_to_dfschema s := Ok s;
  schema_index_of s name := match position_of s name with Some i => Ok i | None => Err "" end;
  builder_project input es := Ok (LP_Projection es input (mkSchema []));
  builder_filter input e := Ok (LP_Filter e input);
  builder_aggregate input gs aggs := Ok (LP_Aggregate input gs aggs (mkSchema []));
  builder_scan_csv path o proj :=
    Ok (LP_TableScan "" (Src_CsvFile path (csv_schema o) (csv_has_header o) (csv_delimiter o)
          (csv_file_extension o)) (csv_schema o) [] proj);
  builder_scan_parquet path proj _ :=
    Ok (LP_TableScan "" (Src_ParquetTable path (mkSchema [])) (mkSchema []) [] proj);
  builder_sort input es := Ok (LP_Sort input es);
  builder_repartition input s := Ok (LP_Repartition input s);
  builder_empty one := Ok (LP_EmptyRelation one (mkSchema []));
  builder_explain input v := Ok (LP_Explain v input (mkSchema []));
  builder_limit input n := Ok (LP_Limit input n);
  builder_join l r t lk rk := Ok (LP_Join l r (zip lk rk) t (mkSchema []));
|}.
Lemma direct_datafusion_ok : @DataFusionOk Schema direct_datafusion.
Proof. intros s name i Hi. simpl. by rewrite Hi. Qed.

Definition sample_scan : LogicalPlan Schema :=
  let s := mkSchema [Field_new "id" DT_Int32 false; Field_new "name" DT_Utf8 true] in
  LP_TableScan "" (Src_CsvFile "/data/t.csv" s true 44 ".csv") s [] (Some [1; 0]%Z).
Definition sample_plan : LogicalPlan Schema :=
  LP_Limit (LP_Projection [E_Alias (E_Column "id") "x"]
    (LP_Filter (E_BinaryExpr (E_Column "id") Op_Gt (E_Literal (SV_Int32 (Some 5%Z))))
       sample_scan) (mkSchema [])) 100.

(** The scan is of a registered table, in its adapter; the limit is too large
    and [DISTINCT] is lost. *)
Definition registered_plan (distinct : bool) (limit : Z) (source : TableSource Schema) : LogicalPlan Schema :=
  let s := mkSchema [Field_new "id" DT_Int32 false; Field_new "name" DT_Utf8 true] in
  LP_Limit (LP_Aggregate (LP_TableScan (if distinct then "t" else "") source s [] (Some [1; 0]%Z)) []
    [E_AggregateFunction AF_Count [E_Column "id"] distinct] (mkSchema [])) limit.
Definition sample_file : TableSource Schema :=
  let s := mkSchema [Field_new "id" DT_Int32 false; Field_new "name" DT_Utf8 true] in
  Src_CsvFile "/data/t.csv" s true 44 ".csv".
Definition adapted_file : TableSource Schema :=
  let s := mkSchema [Field_new "id" DT_Int32 false; Field_new "name" DT_Utf8 true] in
  Src_DFTableAdapter (LP_TableScan "t" sample_file s [] None) s.

Lemma registered_sendable :
  @sendable_plan _ direct_datafusion (registered_plan true (2 ^ 32 + 7) adapted_file).
Proof.
  assert (NoDup ["id"; "name"]) as Hnd by (apply (bool_decide_unpack _); vm_compute; exact I).
  split; [|split; [constructor|repeat constructor]].
  split; [repeat constructor|]. split; [split; [exact Hnd|repeat constructor; simpl; lia]|].
  split; [constructor|]. simpl. lia.
Qed.

Lemma plan_roundtrip_witness :
  ∃ m, @plan_to_proto _ direct_datafusion (registered_plan true (2 ^ 32 + 7) adapted_file) = Ok m ∧
    @proto_to_plan _ direct_datafusion direct_builders m = Ok (registered_plan false 7 sample_file).
Proof.
  destruct (@plan_roundtrip _ direct_datafusion direct_datafusion_ok _ direct_builders_ok
    (registered_plan true (2 ^ 32 + 7) adapted_file) registered_sendable) as (m & Hm & Hd & _).
  exists m. split; [exact Hm|]. rewrite Hd. vm_compute. reflexivity.
Defined.

(** The table adapter is transparent: scanning an adapter around a scan of
    some provider is encoded like scanning that provider, if the adapter's
    physical plan has the provider's schema. *)
Theorem adapter_transparent {DFSchema} `{DataFusion DFSchema} n n' src ps ps' fs fs' proj proj' :
  match src with Src_DFTableAdapter _ _ => False | _ => True end →
  plan_to_proto (LP_TableScan n
    (Src_DFTableAdapter (LP_TableScan n' src ps' fs' proj') (source_schema src)) ps fs proj) =
  plan_to_proto (LP_TableScan (DFSchema := DFSchema) n src ps fs proj).
Proof. by destruct src. Qed.

Lemma adapter_transparent_witness :
  is_ok (@plan_to_proto _ direct_datafusion (LP_TableScan "t"
    (Src_DFTableAdapter sample_scan
       (mkSchema [Field_new "id" DT_Int32 false; Field_new "name" DT_Utf8 true]))
    (mkSchema []) [] None)) = true.
Proof.
  unfold sample_scan.
  rewrite (adapter_transparent (H := direct_datafusion) "t" ""
    (Src_CsvFile "/data/t.csv" (mkSchema [Field_new "id" DT_Int32 false; Field_new "name" DT_Utf8 true])
       true 44 ".csv")) by exact I.
  reflexivity.
Defined.

(** A limit of 2^32 rows or more is sent as its value modulo 2^32: the
    plan decoded at the other end limits the query to fewer rows. *)
Theorem limit_wraps {DFSchema} `{DataFusionOk DFSchema} `{ExprBuildersOk}
    (input : LogicalPlan DFSchema) n :
  built input → (2 ^ 32 ≤ n)%Z →
  ∃ m k, plan_to_proto (LP_Limit input n) = Ok m ∧
    proto_to_plan m = lift_df (builder_limit input k) ∧ k = (n mod 2 ^ 32)%Z ∧ (k < n)%Z.
Proof.
  intros Hi Hn. destruct (plan_trip input Hi) as (m & Hm & Hd).
  exists (plan_node (LPT_Limit (Some m) (as_u32 n))), (n mod 2 ^ 32)%Z.
  pose proof (Z.mod_pos_bound n (2 ^ 32) eq_refl) as Hb.
  cbn [plan_to_proto]. rewrite Hm. split; [done|]. split; [|lia].
  cbn [proto_to_plan convert_required]. rewrite Hd.
  rewrite wrap_u_id; [done|]. unfold in_u, wrap_u. lia.
Qed.

Lemma limit_wraps_witness :
  ∃ m k, @plan_to_proto _ direct_datafusion (LP_Limit (LP_EmptyRelation true (mkSchema [])) (2 ^ 32 + 7)) = Ok m ∧
    @proto_to_plan _ direct_datafusion direct_builders m =
      Ok (LP_Limit (LP_EmptyRelation true (mkSchema [])) k) ∧
    k = ((2 ^ 32 + 7) mod 2 ^ 32)%Z ∧ (k < 2 ^ 32 + 7)%Z.
Proof.
  apply (@limit_wraps _ direct_datafusion direct_datafusion_ok _ direct_builders_ok
    (LP_EmptyRelation true (mkSchema [])) (2 ^ 32 + 7)); [reflexivity|lia].
Defined.
