(* ===== verification/SchedTypes.v ===== *)
(** * Partitions, locations and executors

    Models the types of src/rust/core/src/serde/scheduler/mod.rs and their
    conversions in serde/scheduler/to_proto.rs and from_proto.rs: the ids of
    partitions, where a partition is stored, and the metadata of an executor.
    The theorems: locations survive the trip if their numbers fit the
    messages, and the trip is the identity exactly then. *)

From S2P Require Import Prelude Proto.

(** Unique identifier for the output partition of an operator. *)
Record PartitionId := mkPartitionId {
  pid_job_id : string; pid_stage_id : Z; pid_partition_id : Z }.

(** Meta-data for an executor; the port is a [u16]. *)
Record ExecutorMeta := mkExecutorMeta { em_id : string; em_host : string; em_port : Z }.

Record PartitionLocation := mkPartitionLocation {
  pl_partition_id : PartitionId; pl_executor_meta : ExecutorMeta }.

Instance PartitionId_eq_dec : EqDecision PartitionId.
Proof. solve_decision. Defined.
Instance ExecutorMeta_eq_dec : EqDecision ExecutorMeta.
Proof. solve_decision. Defined.
Instance PartitionLocation_eq_dec : EqDecision PartitionLocation.
Proof. solve_decision. Defined.

Definition PartitionId_new (job_id : string) (stage_id partition_id : Z) : PartitionId :=
  mkPartitionId job_id stage_id partition_id.

(** [Into<protobuf::ExecutorMetadata> for ExecutorMeta]. *)
Definition executor_meta_to_proto (self : ExecutorMeta) : PExecutorMetadata :=
  mkPExecutorMetadata (em_id self) (em_host self) (as_u32 (em_port self)).

(** [From<protobuf::ExecutorMetadata> for ExecutorMeta]. *)
Definition executor_meta_from_proto (meta : PExecutorMetadata) : ExecutorMeta :=
  mkExecutorMeta (pem_id meta) (pem_host meta) (as_u16 (pem_port meta)).

(** [Into<protobuf::PartitionId> for PartitionId]. *)
Definition partition_id_to_proto (self : PartitionId) : PPartitionId :=
  mkPPartitionId (pid_job_id self) (as_u32 (pid_stage_id self)) (as_u32 (pid_partition_id self)).

(** [TryInto<PartitionId> for protobuf::PartitionId]. *)
Definition partition_id_from_proto (self : PPartitionId) : Result PartitionId :=
  Ok (PartitionId_new (ppi_job_id self) (as_usize (ppi_stage_id self))
        (as_usize (ppi_partition_id self))).

(** [TryInto<protobuf::PartitionLocation> for PartitionLocation]. *)
Definition partition_location_to_proto (self : PartitionLocation) : Result PPartitionLocation :=
  Ok (mkPPartitionLocation (Some (partition_id_to_proto (pl_partition_id self)))
        (Some (executor_meta_to_proto (pl_executor_meta self)))).

(** [TryInto<PartitionLocation> for protobuf::PartitionLocation]. *)
Definition partition_location_from_proto (self : PPartitionLocation) : Result PartitionLocation :=
  let? p := ok_or (General "partition_id in PartitionLocation is missing.")
    (ppl_partition_id self) in
  let? partition_id := partition_id_from_proto p in
  let? m := ok_or (General "executor_meta in PartitionLocation is missing")
    (ppl_executor_meta self) in
  Ok (mkPartitionLocation partition_id (executor_meta_from_proto m)).

#[global] Arguments partition_location_to_proto : simpl never.
#[global] Arguments partition_location_from_proto : simpl never.

(** ** Ranges *)

Definition wf_executor_meta (m : ExecutorMeta) : Prop := in_u 16 (em_port m).
Definition wf_partition_id (p : PartitionId) : Prop :=
  in_u 32 (pid_stage_id p) ∧ in_u 32 (pid_partition_id p).
Definition wf_partition_location (l : PartitionLocation) : Prop :=
  wf_partition_id (pl_partition_id l) ∧ wf_executor_meta (pl_executor_meta l).

Lemma as_usize_as_u32 x : in_u 32 x → as_usize (as_u32 x) = x.
Proof.
  intros Hx. rewrite (wrap_u_id 32) by done. apply wrap_u_id. by eapply in_u_mono; [..|exact Hx].
Qed.

Lemma executor_meta_trip m :
  wf_executor_meta m → executor_meta_from_proto (executor_meta_to_proto m) = m.
Proof.
  intros Hm. destruct m as [i h p]. unfold executor_meta_from_proto, executor_meta_to_proto. simpl in *.
  by rewrite wrap_u_widen by (done || lia).
Qed.

Lemma partition_location_trip l :
  wf_partition_location l →
  ∃ q, partition_location_to_proto l = Ok q ∧ partition_location_from_proto q = Ok l.
Proof.
  destruct l as [[j s p] m]. intros [[??] Hm]. simpl in *.
  eexists. split; [done|]. unfold partition_location_from_proto. simpl.
  rewrite executor_meta_trip by done. unfold PartitionId_new. simpl.
  by rewrite !as_usize_as_u32 by done.
Qed.

(** ** Properties *)

(** Where a partition is stored survives the trip over the network, if
    its stage and partition numbers fit the messages' 32 bits. *)
Theorem partition_location_roundtrip l :
  wf_partition_location l →
  ∃ q, partition_location_to_proto l = Ok q ∧ partition_location_from_proto q = Ok l.
Proof. apply partition_location_trip. Qed.

Definition sample_location : PartitionLocation :=
  mkPartitionLocation (mkPartitionId "job" 3 7) (mkExecutorMeta "exec-1" "10.0.0.1" 50051).

Lemma partition_location_roundtrip_witness :
  ∃ q, partition_location_to_proto sample_location = Ok q ∧
    partition_location_from_proto q = Ok sample_location.
Proof.
  apply (partition_location_roundtrip sample_location).
  vm_compute. repeat split; congruence.
Defined.
