(* ===== verification/ExecPlan.v ===== *)
(** * Physical plans

    DataFusion's physical plans as Ballista sees them, and Ballista's own
    operators.  A plan is a tree of operators: the operators the sources
    downcast to ([X_] constructors, with the data their accessors return and,
    for the scans, the batch size and the pruning predicate that the messages
    do not carry) and [X_Other] for the rest.

    The methods of Ballista's own operators are translated from
    src/rust/core/src/execution_plans/{query_stage,unresolved_shuffle,
    shuffle_reader}.rs and src/rust/executor/src/collect.rs; those of
    DataFusion's operators are a parameter, with what DataFusion documents of
    them. *)

From S2P Require Import Prelude Proto Arrow Scalar Expr LogicalPlan SchedTypes.

(** ** Physical expressions *)

Inductive PhysicalExpr :=
| PE_Column (name : string)
| PE_BinaryExpr (lhs : PhysicalExpr) (op : Operator) (rhs : PhysicalExpr)
| PE_Case (expr : option PhysicalExpr) (when_then_expr : list (PhysicalExpr * PhysicalExpr))
          (else_expr : option PhysicalExpr)
| PE_Not (arg : PhysicalExpr)
| PE_IsNull (arg : PhysicalExpr)
| PE_IsNotNull (arg : PhysicalExpr)
| PE_InList (expr : PhysicalExpr) (list : list PhysicalExpr) (negated : bool)
| PE_Negative (arg : PhysicalExpr)
| PE_Literal (value : ScalarValue)
| PE_Cast (expr : PhysicalExpr) (cast_type : DataType)
| PE_ScalarFunction (name : string) (args : list PhysicalExpr)
| PE_Other (debug : string).

(** An aggregate expression: the concrete type it downcasts to, its
    arguments and the outcome of [field()]. *)
Inductive AggregateKind := AK_Avg | AK_Sum | AK_Count | AK_Other.
Record AggregateExpr := mkAggregateExpr {
  ae_kind : AggregateKind; ae_expressions : list PhysicalExpr; ae_field : DFResult Field }.

Record PhysicalSortExpr := mkPhysicalSortExpr {
  pse_expr : PhysicalExpr; pse_descending : bool; pse_nulls_first : bool }.

Inductive AggregateMode := Partial | Final.

(** ** Operators and plans *)

Inductive PlanOp :=
| X_Projection (expr : list (PhysicalExpr * string))
| X_Filter (predicate : PhysicalExpr)
| X_GlobalLimit (limit : Z)
| X_LocalLimit (limit : Z)
| X_HashJoin (on : list (string * string)) (join_type : JoinType)
| X_HashAggregate (mode : AggregateMode) (group_expr : list (PhysicalExpr * string))
    (aggr_expr : list AggregateExpr) (input_schema : Schema)
| X_Empty (produce_one_row : bool) (schema : Schema)
| X_CoalesceBatches (target_batch_size : Z)
| X_Csv (path : string) (filenames : list string) (projection : option (list Z))
    (file_extension : string) (file_schema : Schema) (has_header : bool) (delimiter : option Z)
    (batch_size : Z)
| X_Parquet (partitions : list (list string)) (projection : list Z) (batch_size : Z)
    (predicate : option Expr)
| X_Merge
| X_Sort (expr : list PhysicalSortExpr)
| X_Other (debug : string)
| X_QueryStage (job_id : string) (stage_id : Z)
| X_UnresolvedShuffle (query_stage_ids : list Z) (schema : Schema) (partition_count : Z)
| X_ShuffleReader (partition_location : list PartitionLocation) (schema : Schema)
| X_Collect.

Inductive ExecutionPlan :=
| Exec (op : PlanOp) (children : list ExecutionPlan).

Definition plan_op (p : ExecutionPlan) : PlanOp := let 'Exec op _ := p in op.
(** [ExecutionPlan::children]. *)
Definition plan_children (p : ExecutionPlan) : list ExecutionPlan := let 'Exec _ cs := p in cs.

(** The operators Ballista implements itself. *)
Definition is_ballista_op (op : PlanOp) : bool :=
  match op with
  | X_QueryStage _ _ | X_UnresolvedShuffle _ _ _ | X_ShuffleReader _ _ | X_Collect => true
  | _ => false
  end.

(** The methods of DataFusion's operators: [schema()],
    [output_partitioning().partition_count()] and [with_new_children(..)] of
    the operator with its children. *)
Class ExecutionPlanMethods := {
  df_schema : PlanOp → list ExecutionPlan → Schema;
  df_partition_count : PlanOp → list ExecutionPlan → Z;
  df_with_new_children : PlanOp → list ExecutionPlan → list ExecutionPlan →
    DFResult ExecutionPlan;
}.

(** What DataFusion documents: [with_new_children] returns the plan with all
    children replaced, the number of children being the same, or an error; a
    partition count is a [usize]. *)
Class ExecutionPlanMethodsOk `{ExecutionPlanMethods} := {
  df_with_new_children_spec op cs cs' :
    length cs' = length cs →
    df_with_new_children op cs cs' = Ok (Exec op cs') ∨
    ∃ e, df_with_new_children op cs cs' = Err e;
  df_partition_count_range op cs : in_u 64 (df_partition_count op cs);
}.

Section methods.
Context `{ExecutionPlanMethods}.

(** [ExecutionPlan::schema]. *)
Fixpoint plan_schema (p : ExecutionPlan) : Schema :=
  match p with
  | Exec op cs =>
    match op with
    | X_QueryStage _ _ | X_Collect =>
        match cs with child :: _ => plan_schema child | [] => mkSchema [] end
    | X_UnresolvedShuffle _ schema _ => schema
    | X_ShuffleReader _ schema => schema
    | op => df_schema op cs
    end
  end.

(** [ExecutionPlan::output_partitioning().partition_count()]. *)
Fixpoint partition_count (p : ExecutionPlan) : Z :=
  match p with
  | Exec op cs =>
    match op with
    | X_QueryStage _ _ => match cs with child :: _ => partition_count child | [] => 0 end
    | X_UnresolvedShuffle _ _ partition_count => partition_count
    | X_ShuffleReader partition_location _ => Z.of_nat (length partition_location)
    | X_Collect => 1
    | op => df_partition_count op cs
    end
  end.

(** [ExecutionPlan::with_new_children]. *)
Definition with_new_children (p : ExecutionPlan) (children : list ExecutionPlan)
    : DFResult ExecutionPlan :=
  match plan_op p with
  | X_QueryStage job_id stage_id =>
      match children with
      | [child] => Ok (Exec (X_QueryStage job_id stage_id) [child])
      | _ => Panic "assertion failed: children.len() == 1"
      end
  | X_UnresolvedShuffle _ _ _ =>
      Err (DF_Plan "Ballista UnresolvedShuffleExec does not support with_new_children()")
  | X_ShuffleReader _ _ =>
      Err (DF_Plan "Ballista ShuffleReaderExec does not support with_new_children()")
  | X_Collect => Panic "not implemented"
  | op => df_with_new_children op (plan_children p) children
  end.
End methods.

(** [QueryStageExec]: a stage is a plan whose operator is [X_QueryStage]; this
    is the struct. *)
Record QueryStageExec := mkQueryStageExec {
  qs_job_id : string; qs_stage_id : Z; qs_child : ExecutionPlan }.

(** [QueryStageExec::try_new]. *)
Definition QueryStageExec_try_new (job_id : string) (stage_id : Z) (child : ExecutionPlan)
    : DFResult QueryStageExec := Ok (mkQueryStageExec job_id stage_id child).

(** The stage as an execution plan. *)
Definition stage_plan (s : QueryStageExec) : ExecutionPlan :=
  Exec (X_QueryStage (qs_job_id s) (qs_stage_id s)) [qs_child s].

(** [UnresolvedShuffleExec::new] and [ShuffleReaderExec::try_new]. *)
Definition UnresolvedShuffleExec_new (query_stage_ids : list Z) (schema : Schema)
    (partition_count : Z) : ExecutionPlan :=
  Exec (X_UnresolvedShuffle query_stage_ids schema partition_count) [].
Definition ShuffleReaderExec_try_new (partition_meta : list PartitionLocation) (schema : Schema)
    : DFResult ExecutionPlan := Ok (Exec (X_ShuffleReader partition_meta schema) []).

(** ** Unresolved shuffles *)

(** One [UnresolvedShuffleExec]. *)
Record UnresolvedShuffle := mkUnresolvedShuffle {
  us_query_stage_ids : list Z; us_schema : Schema; us_partition_count : Z }.

(** The unresolved shuffles of a plan, in order. *)
Fixpoint unresolved_shuffles (p : ExecutionPlan) : list UnresolvedShuffle :=
  match p with
  | Exec (X_UnresolvedShuffle ids schema count) _ => [mkUnresolvedShuffle ids schema count]
  | Exec _ cs => flat_map unresolved_shuffles cs
  end.

(** Induction over plans, with the hypothesis for all children. *)
Lemma plan_ind (P : ExecutionPlan → Prop) :
  (∀ op cs, Forall P cs → P (Exec op cs)) → ∀ p, P p.
Proof. intros H. induction p as [op cs Hcs]. apply H. by apply list_all_Forall. Qed.
