(* ===== verification/Planner.v ===== *)
(** * The distributed planner

    Models the planning half of src/rust/scheduler/src/planner.rs: slicing a
    physical plan into query stages and resolving the shuffles between them.
    Distribute.v models the half that runs the stages on executors.

    The theorems: stages are numbered consecutively and depend on earlier
    stages only, with the partition count and schema of the stage they read;
    resolving replaces every unresolved shuffle and changes nothing else. *)

From S2P Require Import Prelude Proto Arrow Scalar Expr LogicalPlan SchedTypes ExecPlan.

(** [DistributedPlanner]. *)
Record DistributedPlanner := mkDistributedPlanner {
  dp_executors : list ExecutorMeta; dp_next_stage_id : Z }.

(** [DistributedPlanner::try_new]. *)
Definition DistributedPlanner_try_new (executors : list ExecutorMeta) : Result DistributedPlanner :=
  match executors with
  | [] => Err (General "DistributedPlanner requires at least one executor")
  | _ => Ok (mkDistributedPlanner executors 0)
  end.

(** [next_stage_id]: increments the counter and returns it; here the counter
    alone is threaded through the planner. *)
Definition next_stage_id (n : Z) : Z := n + 1.

(** [create_query_stage]. *)
Definition create_query_stage (job_id : string) (stage_id : Z) (plan : ExecutionPlan)
    : Result QueryStageExec :=
  lift_df (QueryStageExec_try_new job_id stage_id plan).

Section planner.
Context `{ExecutionPlanMethods}.

(** The [UnresolvedShuffleExec] that stands for the output of a stage. *)
Definition unresolved_for (stage : QueryStageExec) : ExecutionPlan :=
  UnresolvedShuffleExec_new [qs_stage_id stage] (plan_schema (stage_plan stage))
    (partition_count (stage_plan stage)).

(** The loop that makes one stage of every child. *)
Definition stage_per_child (job_id : string) (children : list ExecutionPlan) (n : Z)
    : Result (list QueryStageExec * Z) :=
  smapM (λ child n,
    let? new_stage := create_query_stage job_id (next_stage_id n) child in
    Ok (new_stage, next_stage_id n)) children n.

(** [Ok((execution_plan.with_new_children(children)?, stages))]. *)
Definition keep_children (execution_plan : ExecutionPlan) (children : list ExecutionPlan)
    (stages : list QueryStageExec) (n : Z) : Result (ExecutionPlan * list QueryStageExec * Z) :=
  let? p := lift_df (with_new_children execution_plan children) in Ok (p, stages, n).

(** Makes a stage of every child and reads them through unresolved shuffles. *)
Definition cut_children (job_id : string) (execution_plan : ExecutionPlan)
    (children : list ExecutionPlan) (stages : list QueryStageExec) (n : Z)
    : Result (ExecutionPlan * list QueryStageExec * Z) :=
  let? r := stage_per_child job_id children n in
  let? p := lift_df (with_new_children execution_plan (List.map unresolved_for r.1)) in
  Ok (p, stages ++ r.1, r.2).

(** The cases after the recursion: the operator decides whether its children
    become stages.  [original] are the children before the recursion,
    [children] and [stages] what the recursion made of them.  (An execution
    plan is never a [DFTableAdapter], so the first case of the source has no
    counterpart.) *)
Definition split_at_operator (job_id : string) (op : PlanOp) (original : list ExecutionPlan)
    (children : list ExecutionPlan) (stages : list QueryStageExec) (n : Z)
    : Result (ExecutionPlan * list QueryStageExec * Z) :=
  let execution_plan := Exec op original in
  let keep := keep_children execution_plan children stages n in
  let cut := cut_children job_id execution_plan children stages n in
  match op with
  | X_Merge =>
      let? child := unwrap "index out of bounds" (head original) in
      let? query_stage := create_query_stage job_id (next_stage_id n) child in
      let? p := lift_df (with_new_children execution_plan [unresolved_for query_stage]) in
      Ok (p, stages ++ [query_stage], next_stage_id n)
  | X_HashAggregate mode _ _ _ => match mode with Final => cut | Partial => keep end
  | X_HashJoin _ _ => keep
  | _ =>
      let? child0 := unwrap "index out of bounds" (head children) in
      if negb (partition_count execution_plan =? partition_count child0)%Z then cut else keep
  end.

(** [plan_query_stages_internal]. *)
Fixpoint plan_query_stages_internal (job_id : string) (execution_plan : ExecutionPlan) (n : Z)
    : Result (ExecutionPlan * list QueryStageExec * Z) :=
  match execution_plan with
  | Exec op cs =>
    match cs with
    | [] => Ok (execution_plan, [], n)
    | _ =>
        let? r := smapM (λ child n,
          let? q := plan_query_stages_internal job_id child n in Ok (q.1, q.2)) cs n in
        split_at_operator job_id op cs (List.map fst r.1) (List.concat (List.map snd r.1)) r.2
    end
  end.

(** [plan_query_stages]. *)
Definition plan_query_stages (planner : DistributedPlanner) (job_id : string)
    (execution_plan : ExecutionPlan) : Result (list QueryStageExec * DistributedPlanner) :=
  let? r := plan_query_stages_internal job_id execution_plan (dp_next_stage_id planner) in
  let id := next_stage_id r.2 in
  let? last_stage := create_query_stage job_id id r.1.1 in
  Ok (r.1.2 ++ [last_stage], mkDistributedPlanner (dp_executors planner) id).

(** [remove_unresolved_shuffles]. *)
Fixpoint remove_unresolved_shuffles (partition_locations : gmap Z (list PartitionLocation))
    (stage : ExecutionPlan) : Result ExecutionPlan :=
  match stage with
  | Exec op cs =>
      let? new_children := rmapM (λ child,
        match child with
        | Exec (X_UnresolvedShuffle query_stage_ids schema _) _ =>
            let? relevant_locations := rmapM (λ id,
              ok_or (General "Missing partition location. Could not remove unresolved shuffles")
                (partition_locations !! id)) query_stage_ids in
            lift_df (ShuffleReaderExec_try_new (List.concat relevant_locations) schema)
        | child => remove_unresolved_shuffles partition_locations child
        end) cs in
      lift_df (with_new_children stage new_children)
  end.
End planner.

(** ** What a list of stages promises *)

Section spec.
Context `{ExecutionPlanMethods}.

(** The shuffle [u] reads the output of one of the stages [st]: it names that
    stage and carries its schema and partition count. *)
Definition refers_to (st : list QueryStageExec) (u : UnresolvedShuffle) : Prop :=
  ∃ s, s ∈ st ∧ u = mkUnresolvedShuffle [qs_stage_id s] (plan_schema (stage_plan s))
                       (partition_count (stage_plan s)).

(** The plans of DataFusion's operators and unresolved shuffles. *)
Fixpoint resolvable (p : ExecutionPlan) : bool :=
  match p with
  | Exec (X_UnresolvedShuffle _ _ _) _ => true
  | Exec op cs => negb (is_ballista_op op) && forallb resolvable cs
  end.

(** A plan of DataFusion's operators in which every shuffle reads one of the
    stages [st]. *)
Definition reads (st : list QueryStageExec) (p : ExecutionPlan) : Prop :=
  resolvable p = true ∧ Forall (refers_to st) (unresolved_shuffles p).

(** Every stage reads stages before it only ([pre] come before all). *)
Fixpoint deps_ok (pre st : list QueryStageExec) : Prop :=
  match st with
  | [] => True
  | s :: st => reads pre (qs_child s) ∧ deps_ok (pre ++ [s]) st
  end.

(** The [k] stage ids after [n]. *)
Definition ids (n : Z) (k : nat) : list Z := (λ i, n + 1 + Z.of_nat i)%Z <$> seq 0 k.

(** The outcome of slicing a plan with the counter at [n]. *)
Definition sliced (n : Z) (st : list QueryStageExec) (n' : Z) : Prop :=
  qs_stage_id <$> st = ids n (length st) ∧ n' = (n + Z.of_nat (length st))%Z ∧ deps_ok [] st.

(** The plans DataFusion makes: none of Ballista's operators, and a merge has
    one input. *)
Fixpoint df_plan (p : ExecutionPlan) : bool :=
  match p with
  | Exec op cs =>
      negb (is_ballista_op op) &&
      (match op with X_Merge => Nat.eqb (length cs) 1 | _ => true end) && forallb df_plan cs
  end.

Lemma ids_app n a b : ids n (a + b) = ids n a ++ ids (n + Z.of_nat a) b.
Proof.
  unfold ids. rewrite seq_app, fmap_app. f_equal. simpl.
  assert (seq a b = Nat.add a <$> seq 0 b) as ->.
  { rewrite fmap_add_seq. f_equal. lia. }
  rewrite <-list_fmap_compose. apply list_fmap_ext. intros ? x _. simpl. lia.
Qed.

Lemma reads_mono st st' p : st ⊆ st' → reads st p → reads st' p.
Proof.
  intros Hsub [Hp Hr]. split; [done|]. eapply Forall_impl; [exact Hr|]. intros u (s & Hs & ->). exists s. auto.
Qed.

Lemma deps_ok_mono pre pre' st : pre ⊆ pre' → deps_ok pre st → deps_ok pre' st.
Proof.
  revert pre pre'. induction st as [|s st IH]; intros pre pre' Hsub; simpl; [done|].
  intros [Hr Hd]. split; [by eapply reads_mono|]. eapply IH; [|exact Hd]. set_solver.
Qed.

Lemma deps_ok_app pre st1 st2 :
  deps_ok pre (st1 ++ st2) ↔ deps_ok pre st1 ∧ deps_ok (pre ++ st1) st2.
Proof.
  revert pre. induction st1 as [|s st1 IH]; intros pre; simpl; [rewrite app_nil_r; tauto|].
  rewrite IH, <-app_assoc. simpl. tauto.
Qed.

Lemma sliced_app n st1 n1 st2 n2 :
  sliced n st1 n1 → qs_stage_id <$> st2 = ids n1 (length st2) →
  n2 = (n1 + Z.of_nat (length st2))%Z → deps_ok st1 st2 → sliced n (st1 ++ st2) n2.
Proof.
  intros (Hi & -> & Hd) Hi2 -> Hd2. split_and!.
  - by rewrite fmap_app, Hi, Hi2, length_app, ids_app.
  - rewrite length_app. lia.
  - by apply deps_ok_app.
Qed.

Lemma df_plan_reads st p : df_plan p = true → reads st p.
Proof.
  intros Hp. assert (resolvable p = true ∧ unresolved_shuffles p = []) as [Hr Hu];
    [|by split; [|rewrite Hu]].
  revert Hp.
  induction p as [op cs IH] using plan_ind. simpl. intros Hp.
  assert (forallb resolvable cs = true ∧ flat_map unresolved_shuffles cs = []) as [Hcs1 Hcs2].
  { apply andb_prop in Hp as [_ Hp]. induction IH as [|c cs Hc _ IHcs]; [done|]. simpl in *.
    apply andb_prop in Hp as [H1 H2]. destruct (Hc H1) as [-> ->]. by destruct (IHcs H2) as [-> ->]. }
  by destruct op.
Qed.

Lemma unresolved_for_reads s st : s ∈ st → reads st (unresolved_for s).
Proof. intros Hs. split; [done|]. constructor; [by exists s|constructor]. Qed.

(** The shuffles of an operator of DataFusion are those of its children. *)
Lemma reads_exec st op cs :
  is_ballista_op op = false → Forall (reads st) cs → reads st (Exec op cs).
Proof.
  intros Hop Hcs. assert (forallb resolvable cs = true ∧
    Forall (refers_to st) (flat_map unresolved_shuffles cs)) as [Hr Hf].
  { induction Hcs as [|c cs [Hc1 Hc2] _ [IH1 IH2]]; simpl; [by split|].
    rewrite Hc1, IH1. split; [done|]. by apply Forall_app. }
  split; [|by destruct op]. destruct op; simpl in *; by rewrite ?Hop, ?Hr.
Qed.

Lemma stage_per_child_spec job_id children n sts n' :
  stage_per_child job_id children n = Ok (sts, n') →
  qs_stage_id <$> sts = ids n (length sts) ∧ n' = (n + Z.of_nat (length sts))%Z ∧
  qs_child <$> sts = children ∧ Forall (λ s, qs_job_id s = job_id) sts.
Proof.
  unfold stage_per_child. revert n sts n'.
  induction children as [|c cs IH]; intros n sts n' Hs; simpl in Hs; simplify_eq.
  - split_and!; try done. simpl. lia.
  - destruct (smapM _ cs (next_stage_id n)) as [[sts2 n2]| |] eqn:E; simplify_eq.
    destruct (IH _ _ _ E) as (Hi & -> & Hc & Hj). csimpl. unfold next_stage_id in *.
    split_and!; [|lia|by rewrite Hc|by constructor].
    rewrite Hi. change (S (length sts2)) with (1 + length sts2)%nat. rewrite ids_app.
    unfold ids at 2. simpl. f_equal. lia.
Qed.

Lemma with_new_children_df `{!ExecutionPlanMethodsOk} op cs cs' p :
  is_ballista_op op = false → length cs' = length cs →
  lift_df (with_new_children (Exec op cs) cs') = Ok p → p = Exec op cs'.
Proof.
  intros Hop Hlen Hp.
  assert (lift_df (df_with_new_children op cs cs') = Ok p) as Hp' by (by destruct op).
  destruct (df_with_new_children_spec op cs cs' Hlen) as [E|[e E]]; rewrite E in Hp'; simpl in *;
    congruence.
Qed.

Lemma deps_ok_children pre sts :
  Forall (reads pre) (qs_child <$> sts) → deps_ok pre sts.
Proof.
  revert pre. induction sts as [|s sts IH]; intros pre Hs; csimpl; [done|].
  apply Forall_cons in Hs as [??]. split; [done|]. apply IH.
  eapply Forall_impl; [done|]. intros p. apply reads_mono. set_solver.
Qed.

(** The outcome of a step that starts from the sliced children [stages]. *)
Definition split_outcome (job_id : string) (n : Z) (stages : list QueryStageExec)
    (r : Result (ExecutionPlan * list QueryStageExec * Z)) : Prop :=
  ∀ p st n', r = Ok (p, st, n') → sliced n st n' ∧ reads st p ∧
    ∃ new, st = stages ++ new ∧ Forall (λ s, qs_job_id s = job_id) new.

Section split.
Context `{!ExecutionPlanMethodsOk}.
Context (job_id : string) (op : PlanOp) (cs children : list ExecutionPlan).
Context (stages : list QueryStageExec) (n n1 : Z).
Hypothesis Hop : is_ballista_op op = false.
Hypothesis Hlen : length children = length cs.
Hypothesis Hsl : sliced n stages n1.
Hypothesis Hreads : Forall (reads stages) children.

Lemma keep_children_spec :
  split_outcome job_id n stages (keep_children (Exec op cs) children stages n1).
Proof.
  intros p st n' Hk. unfold keep_children in Hk.
  destruct (lift_df _) as [p0| |] eqn:E; simplify_eq.
  apply with_new_children_df in E as ->; [|done..].
  split; [done|]. split; [by apply reads_exec|]. exists []. by rewrite app_nil_r.
Qed.

Lemma cut_children_spec :
  split_outcome job_id n stages (cut_children job_id (Exec op cs) children stages n1).
Proof.
  intros p st n' Hc. unfold cut_children in Hc.
  destruct (stage_per_child _ _ _) as [[sts n2]| |] eqn:Es; [|done..].
  destruct (lift_df _) as [p0| |] eqn:E; simplify_eq. simpl in *.
  destruct (stage_per_child_spec _ _ _ _ _ Es) as (Hi & -> & Hch & Hj).
  assert (length sts = length children) as Hl by (by rewrite <-Hch, length_fmap).
  apply with_new_children_df in E as ->; [|done|by rewrite length_map, Hl].
  split_and!; [|apply reads_exec; [done|]|by exists sts].
  - eapply sliced_app; eauto. apply deps_ok_children. by rewrite Hch.
  - apply Forall_forall. intros q (s & <- & Hs)%list_elem_of_In%in_map_iff.
    apply unresolved_for_reads, elem_of_app. right. by apply list_elem_of_In.
Qed.

Hypothesis Hmerge : op = X_Merge → length cs = 1%nat.
Hypothesis Hdf : forallb df_plan cs = true.

(** A merge makes a stage of its original child, which has no shuffle. *)
Lemma split_merge_spec :
  op = X_Merge → split_outcome job_id n stages (split_at_operator job_id op cs children stages n1).
Proof.
  intros -> p st n' Hsplit. destruct cs as [|c [|? ?]]; try (by specialize (Hmerge eq_refl)).
  simpl in Hsplit. destruct (lift_df _) as [p0| |] eqn:E; simplify_eq.
  apply with_new_children_df in E as ->; [|done..].
  set (s := mkQueryStageExec job_id (next_stage_id n1) c) in *.
  split_and!; [|apply reads_exec; [done|]|exists [s]; by repeat constructor].
  - eapply sliced_app; [exact Hsl|..].
    + unfold ids, next_stage_id. simpl. f_equal. unfold next_stage_id. lia.
    + unfold next_stage_id. simpl. lia.
    + simpl in *. split; [|done]. apply andb_prop in Hdf as [Hc _]. by apply df_plan_reads.
  - constructor; [|constructor]. apply unresolved_for_reads. set_solver.
Qed.

Lemma split_at_operator_spec :
  split_outcome job_id n stages (split_at_operator job_id op cs children stages n1).
Proof.
  pose proof keep_children_spec as Hkeep. pose proof cut_children_spec as Hcut.
  assert (split_outcome job_id n stages (let? child0 := unwrap "index out of bounds" (head children) in
    if negb (partition_count (Exec op cs) =? partition_count child0)%Z
    then cut_children job_id (Exec op cs) children stages n1
    else keep_children (Exec op cs) children stages n1)) as Hother.
  { intros p st n'. destruct (head children); [|done]. simpl. destruct (negb _); auto. }
  pose proof split_merge_spec as Hm.
  unfold split_at_operator in *. destruct op as [| | | | |[]| | | | | | | | | | |]; auto.
Qed.
End split.

(** The recursion over the children, given the claim for each. *)
Lemma slice_children (f : ExecutionPlan → Z → Result (ExecutionPlan * list QueryStageExec * Z))
    job_id cs n r n' :
  Forall (λ c, ∀ n p st n', f c n = Ok (p, st, n') →
    sliced n st n' ∧ reads st p ∧ Forall (λ s, qs_job_id s = job_id) st) cs →
  smapM (λ child n, let? q := f child n in Ok (q.1, q.2)) cs n = Ok (r, n') →
  let st := List.concat (List.map snd r) in
  length r = length cs ∧ sliced n st n' ∧ Forall (reads st) (List.map fst r) ∧
  Forall (λ s, qs_job_id s = job_id) st.
Proof.
  intros Hcs. revert n r n'. induction Hcs as [|c cs Hc _ IH]; intros n r n' Hr; simpl in Hr; simplify_eq.
  - simpl. split_and!; try constructor; try done. simpl. split; [lia|done].
  - destruct (f c n) as [[[p st1] n1]| |] eqn:Ef; simplify_eq.
    destruct (smapM _ cs _) as [[r2 n2]| |] eqn:Es; simplify_eq. simpl in *.
    destruct (Hc _ _ _ _ Ef) as (Hs1 & Hr1 & Hj1).
    destruct (IH _ _ _ Es) as (Hl & (Hi2 & -> & Hd2) & Hr2 & Hj2).
    split_and!; [lia| | |by apply Forall_app].
    + eapply sliced_app; eauto. eapply deps_ok_mono; [|exact Hd2]. set_solver.
    + constructor; [eapply reads_mono; [|exact Hr1]; set_solver|].
      eapply Forall_impl; [exact Hr2|]. intros q. apply reads_mono. set_solver.
Qed.

Lemma plan_internal_spec `{!ExecutionPlanMethodsOk} job_id p :
  df_plan p = true → ∀ n p' st n',
  plan_query_stages_internal job_id p n = Ok (p', st, n') →
  sliced n st n' ∧ reads st p' ∧ Forall (λ s, qs_job_id s = job_id) st.
Proof.
  induction p as [op cs IH] using plan_ind. intros Hdf n p' st n' Hp.
  simpl in Hp. destruct cs as [|c cs].
  { simplify_eq. split_and!; [| |constructor].
    - split; [done|]. split; [simpl; lia|done].
    - by apply df_plan_reads. }
  cbn [df_plan] in Hdf. apply andb_prop in Hdf as [Hdf Hcs]. apply andb_prop in Hdf as [Hop Hm].
  apply negb_true_iff in Hop.
  destruct (smapM _ (c :: cs) n) as [[r n1]| |] eqn:Es; [|done..]. simpl in Hp.
  apply (slice_children _ job_id) in Es as (Hl & Hsl & Hr & Hj).
  2: { pose proof (proj1 (List.forallb_forall _ _) Hcs) as Hall.
    apply Forall_forall. intros q Hq. rewrite Forall_forall in IH. apply IH; [done|].
    by apply Hall, list_elem_of_In. }
  eapply split_at_operator_spec in Hp as (? & ? & new & -> & Hjn); eauto.
  - split_and!; auto. by apply Forall_app.
  - by rewrite length_map.
  - intros ->. by apply Nat.eqb_eq in Hm.
Qed.

(** ** Resolving shuffles *)

(** The plan with every unresolved shuffle replaced by a reader of the known
    locations of its stages. *)
Fixpoint resolve (locs : gmap Z (list PartitionLocation)) (p : ExecutionPlan) : ExecutionPlan :=
  match p with
  | Exec (X_UnresolvedShuffle query_stage_ids schema _) _ =>
      Exec (X_ShuffleReader (List.concat (List.map (λ id, default [] (locs !! id)) query_stage_ids))
              schema) []
  | Exec op cs => Exec op (List.map (resolve locs) cs)
  end.

(** The locations of all stages a plan reads are known. *)
Definition known_shuffle (locs : gmap Z (list PartitionLocation)) (u : UnresolvedShuffle) : bool :=
  forallb (λ id, bool_decide (is_Some (locs !! id))) (us_query_stage_ids u).
Definition known (locs : gmap Z (list PartitionLocation)) (p : ExecutionPlan) : bool :=
  forallb (known_shuffle locs) (unresolved_shuffles p).

Definition missing_location : BallistaError :=
  General "Missing partition location. Could not remove unresolved shuffles".

Lemma rmapM_if {A B} (f : A → Result B) (b : A → bool) (g : A → B) e l :
  Forall (λ x, f x = if b x then Ok (g x) else Err e) l →
  rmapM f l = if forallb b l then Ok (List.map g l) else Err e.
Proof.
  induction 1 as [|x l Hx _ IH]; simpl; [done|]. rewrite Hx, IH.
  by destruct (b x), (forallb b l).
Qed.

Lemma forallb_flat_map {A B} (f : A → list B) (b : B → bool) l :
  forallb b (flat_map f l) = forallb (λ x, forallb b (f x)) l.
Proof. induction l as [|x l IH]; simpl; [done|]. by rewrite forallb_app, IH. Qed.

Lemma resolve_no_shuffles locs p : unresolved_shuffles (resolve locs p) = [].
Proof.
  induction p as [op cs IH] using plan_ind.
  assert (flat_map unresolved_shuffles (List.map (resolve locs) cs) = []) as Hcs.
  { induction IH as [|c cs Hc _ IHcs]; simpl; [done|]. by rewrite Hc, IHcs. }
  by destruct op.
Qed.
End spec.

(** DataFusion's operators accept replacement children; planning replaces
    children by plans of the same schema only. *)
Class WithNewChildrenOk `{ExecutionPlanMethods} :=
  with_new_children_ok op cs cs' :
    length cs' = length cs → df_with_new_children op cs cs' = Ok (Exec op cs').

Section resolving.
Context `{WithNewChildrenOk}.
Implicit Types locs : gmap Z (list PartitionLocation).

Lemma with_new_children_total op cs cs' :
  is_ballista_op op = false → length cs' = length cs →
  lift_df (with_new_children (Exec op cs) cs') = Ok (Exec op cs').
Proof.
  intros Hop Hlen.
  assert (lift_df (df_with_new_children op cs cs') = Ok (Exec op cs')) as Hp
    by (by rewrite with_new_children_ok).
  by destruct op.
Qed.

Lemma resolve_shuffle locs ids :
  rmapM (λ id, ok_or missing_location (locs !! id)) ids =
  if forallb (λ id, bool_decide (is_Some (locs !! id))) ids
  then Ok (List.map (λ id, default [] (locs !! id)) ids) else Err missing_location.
Proof.
  apply rmapM_if. apply Forall_forall. intros id _. by destruct (locs !! id).
Qed.

(** The conversion of one child, as in [remove_unresolved_shuffles]. *)
Definition remove_child locs (child : ExecutionPlan) : Result ExecutionPlan :=
  match child with
  | Exec (X_UnresolvedShuffle query_stage_ids schema _) _ =>
      let? relevant_locations :=
        rmapM (λ id, ok_or missing_location (locs !! id)) query_stage_ids in
      lift_df (ShuffleReaderExec_try_new (List.concat relevant_locations) schema)
  | child => remove_unresolved_shuffles locs child
  end.

Lemma remove_unfold locs op cs :
  remove_unresolved_shuffles locs (Exec op cs) =
  let? new_children := rmapM (remove_child locs) cs in
  lift_df (with_new_children (Exec op cs) new_children).
Proof. done. Qed.

Lemma remove_children locs op cs :
  is_ballista_op op = false →
  Forall (λ c, remove_child locs c = if known locs c then Ok (resolve locs c) else Err missing_location) cs →
  remove_unresolved_shuffles locs (Exec op cs) =
  if forallb (known locs) cs then Ok (Exec op (List.map (resolve locs) cs)) else Err missing_location.
Proof.
  intros Hop Hcs. rewrite remove_unfold, (rmapM_if _ (known locs) (resolve locs) missing_location) by done.
  destruct (forallb (known locs) cs); [|done]. apply with_new_children_total; [done|].
  apply length_map.
Qed.

Lemma remove_child_spec locs p :
  resolvable p = true →
  remove_child locs p = if known locs p then Ok (resolve locs p) else Err missing_location.
Proof.
  induction p as [op cs IH] using plan_ind. intros Hr.
  assert (is_ballista_op op = false → forallb resolvable cs = true →
    remove_unresolved_shuffles locs (Exec op cs) =
    if forallb (known locs) cs then Ok (Exec op (List.map (resolve locs) cs)) else Err missing_location) as Hdf.
  { intros Hop Hcs. apply remove_children; [done|].
    pose proof (proj1 (List.forallb_forall _ _) Hcs) as Hall. rewrite Forall_forall in IH |- *.
    intros c Hc. apply IH; [done|]. by apply Hall, list_elem_of_In. }
  change (forallb (known locs) cs) with
    (forallb (λ x, forallb (known_shuffle locs) (unresolved_shuffles x)) cs) in Hdf.
  rewrite <-forallb_flat_map in Hdf.
  destruct op; simpl in Hr; try discriminate Hr;
    try (apply Hdf; [reflexivity|exact Hr]).
  unfold remove_child. rewrite resolve_shuffle. unfold known, known_shuffle. simpl.
  clear. rewrite andb_true_r. by destruct (forallb _ _).
Qed.

(** Resolving the plan of a stage. *)
Lemma remove_stage locs s :
  resolvable (qs_child s) = true → known locs (qs_child s) = true →
  remove_unresolved_shuffles locs (stage_plan s) =
    Ok (Exec (X_QueryStage (qs_job_id s) (qs_stage_id s)) [resolve locs (qs_child s)]).
Proof.
  intros Hr Hk. unfold stage_plan. rewrite remove_unfold. simpl.
  by rewrite (remove_child_spec _ _ Hr), Hk.
Qed.
End resolving.

(** ** The stages of a plan *)

Lemma plan_query_stages_ok `{ExecutionPlanMethodsOk} planner job_id p stages planner' :
  df_plan p = true →
  plan_query_stages planner job_id p = Ok (stages, planner') →
  qs_stage_id <$> stages = ids (dp_next_stage_id planner) (length stages) ∧
  dp_next_stage_id planner' = (dp_next_stage_id planner + Z.of_nat (length stages))%Z ∧
  deps_ok [] stages ∧ Forall (λ s, qs_job_id s = job_id) stages ∧ stages ≠ [].
Proof.
  intros Hdf Hp. unfold plan_query_stages in Hp.
  destruct (plan_query_stages_internal _ _ _) as [[[p' st] n']| |] eqn:E; simpl in Hp; simplify_eq.
  destruct (plan_internal_spec job_id p Hdf _ _ _ _ E) as (Hsl & Hr & Hj).
  destruct (sliced_app _ st n' [mkQueryStageExec job_id (next_stage_id n') p'] (next_stage_id n') Hsl)
    as (Hi & Hn & Hd);
    [unfold ids, next_stage_id; simpl; f_equal; unfold next_stage_id; lia
    |unfold next_stage_id; simpl; lia|by split|].
  split_and!; [done|done|done| |by destruct st].
  apply Forall_app. split; [done|]. by repeat constructor.
Qed.

(** The plan of a stage starts with an operator of DataFusion. *)
Definition df_root (p : ExecutionPlan) : Prop := is_ballista_op (plan_op p) = false.

Section roots.
Context `{ExecutionPlanMethodsOk}.

Lemma df_plan_root p : df_plan p = true → df_root p.
Proof.
  destruct p as [op cs]. simpl. intros Hp. repeat apply andb_prop in Hp as [Hp _]. by apply negb_true_iff.
Qed.

Lemma split_roots job_id op cs children stages n p st n' :
  is_ballista_op op = false → length children = length cs → Forall df_root children →
  (op = X_Merge → length cs = 1%nat) → forallb df_plan cs = true →
  Forall (λ s, df_root (qs_child s)) stages →
  split_at_operator job_id op cs children stages n = Ok (p, st, n') →
  df_root p ∧ Forall (λ s, df_root (qs_child s)) st.
Proof.
  intros Hop Hlen Hch Hm Hdf Hst.
  assert (∀ p st n', keep_children (Exec op cs) children stages n = Ok (p, st, n') →
    df_root p ∧ Forall (λ s, df_root (qs_child s)) st) as Hkeep.
  { intros p1 st1 n1 Hk. unfold keep_children in Hk. destruct (lift_df _) eqn:E; simplify_eq.
    by apply with_new_children_df in E as ->. }
  assert (∀ p st n', cut_children job_id (Exec op cs) children stages n = Ok (p, st, n') →
    df_root p ∧ Forall (λ s, df_root (qs_child s)) st) as Hcut.
  { intros p1 st1 n1 Hk. unfold cut_children in Hk.
    destruct (stage_per_child _ _ _) as [[sts n2]| |] eqn:Es; [|done..].
    destruct (lift_df _) eqn:E; simplify_eq. simpl in *.
    destruct (stage_per_child_spec _ _ _ _ _ Es) as (_ & _ & Hq & _).
    apply with_new_children_df in E as ->; [|done|by rewrite length_map, <-Hlen, <-Hq, length_fmap].
    split; [done|]. apply Forall_app. split; [done|]. by rewrite <-Hq, Forall_fmap in Hch. }
  assert (∀ p st n', (let? child0 := unwrap "index out of bounds" (head children) in
    if negb (partition_count (Exec op cs) =? partition_count child0)%Z
    then cut_children job_id (Exec op cs) children stages n
    else keep_children (Exec op cs) children stages n) = Ok (p, st, n') →
    df_root p ∧ Forall (λ s, df_root (qs_child s)) st) as Hother.
  { intros p1 st1 n1. destruct (head children); [|done]. simpl. destruct (negb _); eauto. }
  intros Hs. assert (op = X_Merge → df_root p ∧ Forall (λ s, df_root (qs_child s)) st) as Hmerge.
  { intros ->. destruct cs as [|c [|? ?]]; try (by specialize (Hm eq_refl)). simpl in Hs.
    destruct (lift_df _) eqn:E; simplify_eq. apply with_new_children_df in E as ->; [|done..].
    split; [done|]. apply Forall_app. split; [done|]. repeat constructor. simpl.
    simpl in Hdf. apply andb_prop in Hdf as [Hc _]. by apply df_plan_root. }
  unfold split_at_operator in Hs. destruct op as [| | | | |[]| | | | | | | | | | |]; eauto; done.
Qed.

Lemma internal_roots job_id p :
  df_plan p = true → ∀ n p' st n', plan_query_stages_internal job_id p n = Ok (p', st, n') →
  df_root p' ∧ Forall (λ s, df_root (qs_child s)) st.
Proof.
  induction p as [op cs IH] using plan_ind. intros Hdf n p' st n' Hp.
  simpl in Hp. destruct cs as [|c cs]; [simplify_eq; split; [by apply df_plan_root|constructor]|].
  cbn [df_plan] in Hdf. apply andb_prop in Hdf as [Hdf Hcs]. apply andb_prop in Hdf as [Hop Hm].
  apply negb_true_iff in Hop.
  destruct (smapM _ (c :: cs) n) as [[r n1]| |] eqn:Es; [|done..]. simpl in Hp.
  assert (length r = length (c :: cs) ∧ Forall df_root (List.map fst r) ∧
    Forall (λ s, df_root (qs_child s)) (List.concat (List.map snd r))) as (Hl & Hr & Hst).
  { assert (Forall (λ q, df_plan q = true) (c :: cs)) as Hall.
    { apply Forall_forall. intros q Hq%list_elem_of_In. by apply (proj1 (List.forallb_forall _ _) Hcs). }
    clear Hp Hm Hop Hcs. revert n r n1 Es. induction IH as [|q qs Hq _ IHqs]; intros n r n1 Es; simpl in Es;
      simplify_eq; [done|]. apply Forall_cons in Hall as [Hq1 Hall].
    destruct (plan_query_stages_internal job_id q n) as [[[p1 st1] m1]| |] eqn:Ef; simplify_eq.
    destruct (smapM _ qs _) as [[r2 n2]| |] eqn:Es2; simplify_eq. simpl in *.
    destruct (Hq Hq1 _ _ _ _ Ef) as [H1 H2]. destruct (IHqs Hall _ _ _ Es2) as (H3 & H4 & H5).
    split_and!; [lia|by constructor|by apply Forall_app]. }
  eapply split_roots in Hp; eauto.
  - by rewrite length_map.
  - intros ->. by apply Nat.eqb_eq in Hm.
Qed.

Lemma plan_query_stages_roots planner job_id p stages planner' :
  df_plan p = true → plan_query_stages planner job_id p = Ok (stages, planner') →
  Forall (λ s, df_root (qs_child s)) stages.
Proof.
  intros Hdf Hp. unfold plan_query_stages in Hp.
  destruct (plan_query_stages_internal _ _ _) as [[[p' st] n']| |] eqn:E; simpl in Hp; simplify_eq.
  destruct (internal_roots job_id p Hdf _ _ _ _ E) as [Hr Hst].
  apply Forall_app. split; [done|]. by constructor.
Qed.
End roots.

Lemma last_Some_elem_of {A} (l : list A) x : last l = Some x → x ∈ l.
Proof. intros (l' & ->)%last_Some. set_solver. Qed.

Lemma Forall_nil_refers `{ExecutionPlanMethods} us : Forall (refers_to []) us → us = [].
Proof. destruct 1 as [|u us (s & Hs & _) _]; [done|]. by apply not_elem_of_nil in Hs. Qed.

(** ** Properties *)

(** C12 — Slicing a DataFusion plan gives at least one stage; the stages are
    numbered consecutively from the planner's counter, belong to the job, and
    every shuffle of a stage reads an earlier stage of the list, with that
    stage's schema and partition count. *)
Theorem planned_stages_ordered `{ExecutionPlanMethodsOk} planner job_id p stages planner' :
  df_plan p = true →
  plan_query_stages planner job_id p = Ok (stages, planner') →
  qs_stage_id <$> stages = ids (dp_next_stage_id planner) (length stages) ∧
  dp_next_stage_id planner' = (dp_next_stage_id planner + Z.of_nat (length stages))%Z ∧
  deps_ok [] stages ∧ Forall (λ s, qs_job_id s = job_id) stages ∧ stages ≠ [].
Proof. apply plan_query_stages_ok. Qed.

(** Methods that satisfy the documented laws, for the witnesses: a merge has
    one partition, any other operator as many as it has children, and a leaf
    four. *)
Definition sample_methods : ExecutionPlanMethods := {|
  df_schema op cs := mkSchema [];
  df_partition_count op cs :=
    match op, cs with X_Merge, _ => 1 | _, [] => 4 | _, _ => 2 end;
  df_with_new_children op cs cs' := Ok (Exec op cs');
|}%Z.
Lemma sample_methods_ok : @ExecutionPlanMethodsOk sample_methods.
Proof.
  split.
  - intros op cs cs' _. by left.
  - intros op cs. simpl. unfold in_u. by destruct op, cs; simpl.
Qed.
Lemma sample_methods_total : @WithNewChildrenOk sample_methods.
Proof. intros op cs cs' _. done. Qed.

Definition sample_physical : ExecutionPlan :=
  Exec (X_HashAggregate Final [] [] (mkSchema []))
    [Exec (X_HashAggregate Partial [] [] (mkSchema [])) [Exec (X_Empty true (mkSchema [])) []]].
Definition sample_planner : DistributedPlanner :=
  mkDistributedPlanner [mkExecutorMeta "e1" "h1" 1; mkExecutorMeta "e2" "h2" 2] 0.

Definition sample_stages : list QueryStageExec :=
  match @plan_query_stages sample_methods sample_planner "job" sample_physical with
  | Ok r => r.1 | _ => []
  end.

Lemma planned_stages_ordered_witness :
  @plan_query_stages sample_methods sample_planner "job" sample_physical =
    Ok (sample_stages, mkDistributedPlanner (dp_executors sample_planner) 2) ∧
  qs_stage_id <$> sample_stages = [1; 2]%Z ∧ deps_ok (H := sample_methods) [] sample_stages.
Proof.
  assert (@plan_query_stages sample_methods sample_planner "job" sample_physical =
    Ok (sample_stages, mkDistributedPlanner (dp_executors sample_planner) 2)) as E by reflexivity.
  split; [exact E|].
  destruct (@planned_stages_ordered sample_methods sample_methods_ok sample_planner "job"
    sample_physical sample_stages _ eq_refl E) as (Hi & _ & Hd & _).
  split; [exact Hi|exact Hd].
Defined.

(** C25 — Resolving replaces every unresolved shuffle of a plan by a reader of
    its stages' locations and changes nothing else; the result has no
    unresolved shuffle.  It fails only if the location of a stage the plan
    reads is not known. *)
Theorem remove_unresolved_shuffles_spec `{WithNewChildrenOk} locs op cs :
  is_ballista_op op = false → forallb resolvable cs = true →
  remove_unresolved_shuffles locs (Exec op cs) =
    (if known locs (Exec op cs) then Ok (resolve locs (Exec op cs)) else Err missing_location) ∧
  unresolved_shuffles (resolve locs (Exec op cs)) = [].
Proof.
  intros Hop Hcs. split; [|apply resolve_no_shuffles].
  assert (resolvable (Exec op cs) = true) as Hr.
  { destruct op; try discriminate Hop; exact Hcs. }
  rewrite <-(remove_child_spec locs (Exec op cs) Hr). by destruct op.
Qed.

Lemma remove_unresolved_shuffles_spec_witness :
  let loc := mkPartitionLocation (mkPartitionId "job" 1 0) (mkExecutorMeta "e1" "h1" 1) in
  @remove_unresolved_shuffles sample_methods {[1%Z := [loc]]}
    (Exec X_Merge [Exec (X_UnresolvedShuffle [1%Z] (mkSchema []) 1) []]) =
  Ok (Exec X_Merge [Exec (X_ShuffleReader [loc] (mkSchema [])) []]).
Proof.
  intros loc.
  destruct (@remove_unresolved_shuffles_spec sample_methods sample_methods_total {[1%Z := [loc]]}
    X_Merge [Exec (X_UnresolvedShuffle [1%Z] (mkSchema []) 1) []] eq_refl eq_refl) as [E _].
  rewrite E. reflexivity.
Defined.

(** A merge makes a stage of its input as it was before slicing: whatever
    stages the input was sliced into, the merge's own stage repeats the whole
    input, and no later stage reads the ones made below it. *)
Theorem merge_stage_repeats_input `{ExecutionPlanMethodsOk} job_id child n p st n' :
  df_plan child = true →
  plan_query_stages_internal job_id (Exec X_Merge [child]) n = Ok (p, st, n') →
  ∃ st', st = st' ++ [mkQueryStageExec job_id n' child] ∧ n' = (n + Z.of_nat (length st') + 1)%Z ∧
    p = Exec X_Merge [unresolved_for (mkQueryStageExec job_id n' child)] ∧
    unresolved_shuffles child = [].
Proof.
  intros Hdf Hp. cbn [plan_query_stages_internal smapM] in Hp.
  destruct (plan_query_stages_internal job_id child n) as [[[c' st1] n1]| |] eqn:E; [|done..].
  destruct (plan_internal_spec job_id child Hdf _ _ _ _ E) as ((_ & -> & _) & _).
  simpl in Hp. rewrite app_nil_r in Hp.
  destruct (lift_df _) as [p0| |] eqn:Ep; simplify_eq.
  apply with_new_children_df in Ep as ->; [|done..].
  exists st1. split_and!; [done|unfold next_stage_id; lia|done|].
  destruct (df_plan_reads [] child Hdf) as [_ Hu]. by apply Forall_nil_refers in Hu.
Qed.

Definition nested_merge : ExecutionPlan := Exec X_Merge [sample_physical].

Definition nested_merge_result : ExecutionPlan * list QueryStageExec :=
  match @plan_query_stages_internal sample_methods "job" nested_merge 0 with
  | Ok r => r.1 | _ => (nested_merge, [])
  end.

Lemma merge_stage_repeats_input_witness :
  length nested_merge_result.2 = 2%nat ∧
  last nested_merge_result.2 = Some (mkQueryStageExec "job" 2 sample_physical).
Proof.
  split; [reflexivity|].
  destruct (@merge_stage_repeats_input sample_methods sample_methods_ok "job" sample_physical 0
    nested_merge_result.1 nested_merge_result.2 2 eq_refl eq_refl) as (st' & -> & _).
  apply last_snoc.
Defined.
