(* ===== verification/Slicing.v ===== *)
(** * What the stages of a plan stand for

    The planner (Planner.v) cuts a physical plan into stages that read each
    other through shuffles.  Here the plan is put together again: every shuffle
    of a stage is replaced by what the stage it reads stands for.  The theorem:
    the last stage stands for the plan that was sliced, so slicing loses
    nothing and adds nothing; and every stage has the schema and the partition
    count of what it stands for. *)

From S2P Require Import Prelude Proto Arrow Scalar Expr LogicalPlan SchedTypes ExecPlan Planner.

(** ** Putting stages together *)

Implicit Types m : gmap Z ExecutionPlan.

(** The plan with every shuffle replaced by the plan [m] gives for its stage. *)
Fixpoint rebuild m (p : ExecutionPlan) : option ExecutionPlan :=
  match p with
  | Exec (X_UnresolvedShuffle query_stage_ids _ _) _ =>
      match query_stage_ids with [id] => m !! id | _ => None end
  | Exec op cs => Exec op <$> mapM (rebuild m) cs
  end.

(** The plans the stages stand for, in the order the stages are planned. *)
Definition rebuild_stage m (s : QueryStageExec) : gmap Z ExecutionPlan :=
  match rebuild m (qs_child s) with Some p => <[qs_stage_id s := p]> m | None => m end.
Definition rebuild_stages : gmap Z ExecutionPlan → list QueryStageExec → gmap Z ExecutionPlan :=
  foldl rebuild_stage.

Lemma rebuild_df m op cs :
  is_ballista_op op = false → rebuild m (Exec op cs) = Exec op <$> mapM (rebuild m) cs.
Proof. by destruct op. Qed.

Lemma mapM_Forall2 {A B} (f : A → option B) l l' : mapM f l = Some l' ↔ Forall2 (λ x y, f x = Some y) l l'.
Proof. apply mapM_Some. Qed.

Lemma rebuild_mono m m' p q : m ⊆ m' → rebuild m p = Some q → rebuild m' p = Some q.
Proof.
  intros Hsub. revert q. induction p as [op cs IH] using plan_ind. intros q.
  assert (∀ cs', mapM (rebuild m) cs = Some cs' → mapM (rebuild m') cs = Some cs') as Hcs.
  { intros cs'. rewrite !mapM_Forall2. intros HF. induction HF as [|c c' cs cs' Hc _ IHF]; [constructor|].
    apply Forall_cons in IH as [IHc IH]. constructor; [by apply IHc|by apply IHF]. }
  destruct op; simpl;
    try (destruct (mapM (rebuild m) cs) as [cs'|]; [|done]; intros [= <-]; by rewrite (Hcs cs')).
  destruct query_stage_ids as [|id [|? ?]]; try done. intros Hid. by apply (lookup_weaken m).
Qed.

(** A plan without shuffles stands for itself. *)
Lemma rebuild_whole m p : df_plan p = true → rebuild m p = Some p.
Proof.
  induction p as [op cs IH] using plan_ind. cbn [df_plan]. intros [[Hop _]%andb_prop Hcs]%andb_prop.
  apply negb_true_iff in Hop. rewrite rebuild_df by done.
  assert (mapM (rebuild m) cs = Some cs) as ->; [|done]. apply mapM_Forall2.
  induction IH as [|c cs Hc _ IHcs]; [constructor|]. simpl in Hcs. apply andb_prop in Hcs as [H1 H2].
  constructor; auto.
Qed.

(** The stages known so far have ids up to [n]. *)
Definition below (n : Z) m : Prop := ∀ id q, m !! id = Some q → (id ≤ n)%Z.

Lemma rebuild_stages_app m l1 l2 : rebuild_stages m (l1 ++ l2) = rebuild_stages (rebuild_stages m l1) l2.
Proof. apply foldl_app. Qed.

Lemma rebuild_stage_below m s n :
  below n m → (n < qs_stage_id s)%Z → m ⊆ rebuild_stage m s ∧ below (qs_stage_id s) (rebuild_stage m s).
Proof.
  intros Hb Hn. unfold rebuild_stage. destruct (rebuild m (qs_child s)) as [p|].
  - split.
    + apply insert_subseteq. destruct (m !! qs_stage_id s) as [q|] eqn:E; [|done]. apply Hb in E. lia.
    + intros id q [[<- _]|[_ E%Hb]]%lookup_insert_Some; lia.
  - split; [done|]. intros id q E%Hb. lia.
Qed.

(** ** Slicing and putting together *)

Lemma ids_NoDup n k : NoDup (ids n k).
Proof. apply NoDup_fmap; [intros ???; lia|apply NoDup_seq]. Qed.

Section slicing.
Context `{ExecutionPlanMethodsOk}.

(** [children], read with [m], stand for [cs]. *)
Definition stand_for m (children cs : list ExecutionPlan) : Prop :=
  Forall2 (λ c' c, rebuild m c' = Some c) children cs.

Lemma stand_for_mono m m' children cs : m ⊆ m' → stand_for m children cs → stand_for m' children cs.
Proof. intros Hs HF. eapply Forall2_impl; [exact HF|]. intros c' c. by apply rebuild_mono. Qed.

Lemma rebuild_exec m op children cs :
  is_ballista_op op = false → stand_for m children cs → rebuild m (Exec op children) = Some (Exec op cs).
Proof. intros Hop Hcs%mapM_Forall2. rewrite rebuild_df by done. by rewrite Hcs. Qed.

(** One stage per child. *)
Lemma rebuild_children job_id children n sts n' m cs :
  stage_per_child job_id children n = Ok (sts, n') → below n m → stand_for m children cs →
  let m' := rebuild_stages m sts in
  m ⊆ m' ∧ below n' m' ∧ stand_for m' (List.map unresolved_for sts) cs.
Proof.
  unfold stage_per_child. intros Hs Hb Hcs. revert n sts n' m cs Hs Hb Hcs.
  induction children as [|c children IH]; intros n sts n' m cs Hs Hb Hcs; simpl in Hs; simplify_eq.
  { apply Forall2_nil_inv_l in Hcs as ->. simpl. split_and!; [done|done|constructor]. }
  destruct (smapM _ children (next_stage_id n)) as [[sts2 n2]| |] eqn:E; simplify_eq.
  apply Forall2_cons_inv_l in Hcs as (c0 & cs0 & Hc & Hcs & ->). csimpl.
  set (s := mkQueryStageExec job_id (next_stage_id n) c).
  destruct (rebuild_stage_below m s n Hb) as [Hsub Hb1]; [unfold s, next_stage_id; simpl; lia|].
  destruct (IH _ _ _ (rebuild_stage m s) cs0 E Hb1) as (Hsub2 & Hb2 & Hst); [exact (stand_for_mono _ _ _ _ Hsub Hcs)|].
  split_and!; [by etrans|done|]. constructor; [|done].
  apply (rebuild_mono (rebuild_stage m s)); [done|].
  unfold rebuild_stage. simpl. rewrite Hc. apply lookup_insert_eq.
Qed.

(** The outcome of the planner's cases: read with the new stages, the plan
    stands for the operator on the original children. *)
Definition split_rebuilds (op : PlanOp) (cs : list ExecutionPlan) m (stages : list QueryStageExec)
    (r : Result (ExecutionPlan * list QueryStageExec * Z)) : Prop :=
  ∀ p st n', r = Ok (p, st, n') → ∃ new, st = stages ++ new ∧ m ⊆ rebuild_stages m new ∧
    below n' (rebuild_stages m new) ∧ rebuild (rebuild_stages m new) p = Some (Exec op cs).

Section split.
Context (job_id : string) (op : PlanOp) (cs children : list ExecutionPlan) (stages : list QueryStageExec) (n : Z) (m : gmap Z ExecutionPlan).
Hypothesis Hop : is_ballista_op op = false.
Hypothesis Hb : below n m.
Hypothesis Hcs : stand_for m children cs.

Lemma keep_rebuilds : split_rebuilds op cs m stages (keep_children (Exec op cs) children stages n).
Proof.
  intros p st n' Hk. unfold keep_children in Hk. destruct (lift_df _) as [p0| |] eqn:E; simplify_eq.
  apply with_new_children_df in E as ->; [|done|by apply Forall2_length in Hcs].
  exists []. rewrite app_nil_r. split_and!; try done. by apply rebuild_exec.
Qed.

Lemma cut_rebuilds : split_rebuilds op cs m stages (cut_children job_id (Exec op cs) children stages n).
Proof.
  intros p st n' Hk. unfold cut_children in Hk.
  destruct (stage_per_child _ _ _) as [[sts n2]| |] eqn:Es; [|done..].
  destruct (lift_df _) as [p0| |] eqn:E; simplify_eq. simpl in *.
  destruct (rebuild_children _ _ _ _ _ _ _ Es Hb Hcs) as (Hsub & Hb2 & Hst).
  apply with_new_children_df in E as ->; [|done|by apply Forall2_length in Hst].
  exists sts. split_and!; try done. by apply rebuild_exec.
Qed.

Hypothesis Hmerge : op = X_Merge → length cs = 1%nat.
Hypothesis Hdf : forallb df_plan cs = true.

Lemma merge_rebuilds :
  op = X_Merge → split_rebuilds op cs m stages (split_at_operator job_id op cs children stages n).
Proof.
  intros -> p st n' Hs. destruct cs as [|c [|? ?]]; try (by specialize (Hmerge eq_refl)).
  simpl in Hs. destruct (lift_df _) as [p0| |] eqn:E; simplify_eq.
  apply with_new_children_df in E as ->; [|done..]. simpl in Hdf. apply andb_prop in Hdf as [Hc _].
  set (s := mkQueryStageExec job_id (next_stage_id n) c) in *. exists [s].
  destruct (rebuild_stage_below m s n Hb) as [Hsub Hb1]; [unfold s, next_stage_id; simpl; lia|].
  split_and!; [done..|]. apply rebuild_exec; [done|]. constructor; [|constructor].
  simpl. unfold rebuild_stage. simpl. rewrite rebuild_whole by done. apply lookup_insert_eq.
Qed.

Lemma split_at_operator_rebuilds :
  split_rebuilds op cs m stages (split_at_operator job_id op cs children stages n).
Proof.
  pose proof keep_rebuilds as Hkeep. pose proof cut_rebuilds as Hcut. pose proof merge_rebuilds as Hm.
  assert (split_rebuilds op cs m stages (let? child0 := unwrap "index out of bounds" (head children) in
    if negb (partition_count (Exec op cs) =? partition_count child0)%Z
    then cut_children job_id (Exec op cs) children stages n
    else keep_children (Exec op cs) children stages n)) as Hother.
  { intros p st n'. destruct (head children); [|done]. simpl. destruct (negb _); auto. }
  unfold split_at_operator in *. destruct op as [| | | | |[]| | | | | | | | | | |]; auto.
Qed.
End split.

(** The recursion over the children, given the claim for each. *)
Lemma slice_children_rebuilds (f : ExecutionPlan → Z → Result (ExecutionPlan * list QueryStageExec * Z)) cs n r n' m :
  Forall (λ c, ∀ n p st n' m, f c n = Ok (p, st, n') → below n m →
    m ⊆ rebuild_stages m st ∧ below n' (rebuild_stages m st) ∧ rebuild (rebuild_stages m st) p = Some c) cs →
  smapM (λ child n, let? q := f child n in Ok (q.1, q.2)) cs n = Ok (r, n') → below n m →
  let m' := rebuild_stages m (List.concat (List.map snd r)) in
  m ⊆ m' ∧ below n' m' ∧ stand_for m' (List.map fst r) cs.
Proof.
  intros Hcs. revert n r n' m. induction Hcs as [|c cs Hc _ IH]; intros n r n' m Hr Hb; simpl in Hr; simplify_eq.
  { simpl. split_and!; [done|done|constructor]. }
  destruct (f c n) as [[[p st1] n1]| |] eqn:Ef; simplify_eq.
  destruct (smapM _ cs _) as [[r2 n2]| |] eqn:Es; simplify_eq. simpl in *.
  destruct (Hc _ _ _ _ m Ef Hb) as (Hs1 & Hb1 & Hp). rewrite rebuild_stages_app.
  destruct (IH _ _ _ _ Es Hb1) as (Hs2 & Hb2 & Hcs2).
  split_and!; [by etrans|done|]. constructor; [by eapply rebuild_mono|done].
Qed.

(** A claim about the plans of DataFusion, for the children of an operator. *)
Lemma df_children (P : ExecutionPlan → Prop) cs :
  forallb df_plan cs = true → Forall (λ c, df_plan c = true → P c) cs → Forall P cs.
Proof.
  intros Hcs HF. induction HF as [|c cs Hc _ IH]; [constructor|]. simpl in Hcs. apply andb_prop in Hcs as [? ?].
  constructor; auto.
Qed.

Lemma internal_rebuilds job_id p :
  df_plan p = true → ∀ n p' st n' m, plan_query_stages_internal job_id p n = Ok (p', st, n') → below n m →
  m ⊆ rebuild_stages m st ∧ below n' (rebuild_stages m st) ∧ rebuild (rebuild_stages m st) p' = Some p.
Proof.
  induction p as [op cs IH] using plan_ind. intros Hdf n p' st n' m Hp Hb.
  simpl in Hp. destruct cs as [|c cs]; [simplify_eq; simpl rebuild_stages; split_and!; [done..|by apply rebuild_whole]|].
  cbn [df_plan] in Hdf. apply andb_prop in Hdf as [[Hop Hm]%andb_prop Hcs]. apply negb_true_iff in Hop.
  destruct (smapM _ (c :: cs) n) as [[r n1]| |] eqn:Es; [|done..]. simpl in Hp.
  destruct (slice_children_rebuilds (plan_query_stages_internal job_id) _ _ _ _ m
    (df_children _ _ Hcs IH) Es Hb) as (Hs1 & Hb1 & Hst).
  assert (op = X_Merge → length (c :: cs) = 1%nat) as Hm1 by (intros ->; by apply Nat.eqb_eq in Hm).
  destruct (split_at_operator_rebuilds job_id op (c :: cs) _ _ _ _ Hop Hb1 Hst Hm1 Hcs _ _ _ Hp)
    as (new & -> & Hs2 & Hb2 & Hr).
  rewrite rebuild_stages_app. split_and!; [by etrans|done..].
Qed.

(** ** A stage is read once *)

(** The stages a plan reads, one entry per shuffle. *)
Definition shuffle_ids (p : ExecutionPlan) : list Z := flat_map us_query_stage_ids (unresolved_shuffles p).

(** The plans read different stages, with ids after [n] and up to [n']. *)
Definition distinct_between (n n' : Z) (ps : list ExecutionPlan) : Prop :=
  NoDup (flat_map shuffle_ids ps) ∧ Forall (λ id, n < id ≤ n')%Z (flat_map shuffle_ids ps).
Definition reads_once (s : QueryStageExec) : Prop := NoDup (shuffle_ids (qs_child s)).

Lemma shuffle_ids_df op cs : is_ballista_op op = false → shuffle_ids (Exec op cs) = flat_map shuffle_ids cs.
Proof.
  intros Hop. assert (shuffle_ids (Exec op cs) = flat_map us_query_stage_ids (flat_map unresolved_shuffles cs)) as ->
    by (by destruct op).
  induction cs as [|c cs IH]; [done|]. simpl. by rewrite flat_map_app, IH.
Qed.

Lemma distinct_exec n n' op cs :
  is_ballista_op op = false → distinct_between n n' cs → distinct_between n n' [Exec op cs].
Proof. intros Hop. unfold distinct_between. simpl. by rewrite app_nil_r, shuffle_ids_df. Qed.

Lemma distinct_app n n1 n' l1 l2 :
  (n ≤ n1 ≤ n')%Z → distinct_between n n1 l1 → distinct_between n1 n' l2 → distinct_between n n' (l1 ++ l2).
Proof.
  intros Hn [Hd1 Hf1] [Hd2 Hf2]. unfold distinct_between. rewrite flat_map_app, Forall_app. split_and!.
  - apply NoDup_app. split_and!; [done| |done]. intros id Hi1 Hi2. rewrite Forall_forall in Hf1, Hf2.
    specialize (Hf1 id Hi1). specialize (Hf2 id Hi2). lia.
  - eapply Forall_impl; [exact Hf1|]. simpl. lia.
  - eapply Forall_impl; [exact Hf2|]. simpl. lia.
Qed.

Lemma df_plan_ids p : df_plan p = true → shuffle_ids p = [].
Proof.
  intros Hp. destruct (df_plan_reads [] p Hp) as [_ Hu%Forall_nil_refers]. unfold shuffle_ids. by rewrite Hu.
Qed.

Lemma distinct_stages n sts :
  qs_stage_id <$> sts = ids n (length sts) →
  distinct_between n (n + Z.of_nat (length sts)) (List.map unresolved_for sts).
Proof.
  intros Hi. assert (flat_map shuffle_ids (List.map unresolved_for sts) = qs_stage_id <$> sts) as E.
  { clear Hi. induction sts as [|s sts IH]; [done|]. simpl. by rewrite IH. }
  unfold distinct_between. rewrite E, Hi. split; [apply ids_NoDup|].
  apply Forall_forall. intros id (i & -> & Hi')%list_elem_of_fmap. apply elem_of_seq in Hi'. lia.
Qed.

Lemma split_reads_once job_id op cs children stages n n1 p st n' :
  is_ballista_op op = false → (n ≤ n1)%Z → length children = length cs → forallb df_plan cs = true →
  (op = X_Merge → length cs = 1%nat) →
  distinct_between n n1 children → Forall reads_once stages →
  split_at_operator job_id op cs children stages n1 = Ok (p, st, n') →
  distinct_between n n' [p] ∧ Forall reads_once st.
Proof.
  intros Hop Hn Hlen Hdf Hm Hd Hst.
  assert (∀ p st n', keep_children (Exec op cs) children stages n1 = Ok (p, st, n') →
    distinct_between n n' [p] ∧ Forall reads_once st) as Hkeep.
  { intros p1 st1 n2 Hk. unfold keep_children in Hk. destruct (lift_df _) as [p0| |] eqn:E; simplify_eq.
    apply with_new_children_df in E as ->; [|done..]. split; [by apply distinct_exec|done]. }
  assert (∀ new p', (∀ c, c ∈ qs_child <$> new → NoDup (shuffle_ids c)) →
    qs_stage_id <$> new = ids n1 (length new) → p' = Exec op (List.map unresolved_for new) →
    distinct_between n (n1 + Z.of_nat (length new)) [p'] ∧ Forall reads_once (stages ++ new)) as Hnew.
  { intros new p' Hnew Hids ->. split.
    - apply distinct_exec; [done|]. apply (distinct_app n n1 _ []); [lia|by split; constructor|by apply distinct_stages].
    - apply Forall_app. split; [done|]. apply Forall_forall. intros s Hs. by apply Hnew, list_elem_of_fmap_2. }
  assert (∀ p st n', cut_children job_id (Exec op cs) children stages n1 = Ok (p, st, n') →
    distinct_between n n' [p] ∧ Forall reads_once st) as Hcut.
  { intros p1 st1 n2 Hk. unfold cut_children in Hk.
    destruct (stage_per_child _ _ _) as [[sts n3]| |] eqn:Es; [|done..].
    destruct (lift_df _) as [p0| |] eqn:E; simplify_eq. simpl in *.
    destruct (stage_per_child_spec _ _ _ _ _ Es) as (Hids & -> & Hch & _).
    apply with_new_children_df in E as ->; [|done|by rewrite length_map, <-Hlen, <-Hch, length_fmap].
    apply Hnew; [|done..]. rewrite Hch. intros c Hc. destruct Hd as [Hd _].
    clear -Hd Hc. induction children as [|x l IH]; [by apply not_elem_of_nil in Hc|].
    simpl in Hd. apply NoDup_app in Hd as (H1 & _ & H2). apply elem_of_cons in Hc as [->|Hc]; auto. }
  assert (∀ p st n', (let? child0 := unwrap "index out of bounds" (head children) in
    if negb (partition_count (Exec op cs) =? partition_count child0)%Z
    then cut_children job_id (Exec op cs) children stages n1
    else keep_children (Exec op cs) children stages n1) = Ok (p, st, n') →
    distinct_between n n' [p] ∧ Forall reads_once st) as Hother.
  { intros p1 st1 n2. destruct (head children); [|done]. simpl. destruct (negb _); eauto. }
  intros Hs. assert (op = X_Merge → distinct_between n n' [p] ∧ Forall reads_once st) as Hmerge.
  { intros ->. destruct cs as [|c [|? ?]]; try (by specialize (Hm eq_refl)). simpl in Hs.
    destruct (lift_df _) eqn:E; simplify_eq. apply with_new_children_df in E as ->; [|done..].
    simpl in Hdf. apply andb_prop in Hdf as [Hc _].
    apply (Hnew [mkQueryStageExec job_id (next_stage_id n1) c]); [|unfold ids, next_stage_id; simpl; f_equal; lia|done].
    intros x ->%list_elem_of_singleton. simpl. rewrite df_plan_ids by done. constructor. }
  unfold split_at_operator in Hs. destruct op as [| | | | |[]| | | | | | | | | | |]; eauto; done.
Qed.

Lemma internal_reads_once job_id p :
  df_plan p = true → ∀ n p' st n', plan_query_stages_internal job_id p n = Ok (p', st, n') →
  (n ≤ n')%Z ∧ distinct_between n n' [p'] ∧ Forall reads_once st.
Proof.
  induction p as [op cs IH] using plan_ind. intros Hdf n p' st n' Hp.
  destruct (plan_internal_spec job_id _ Hdf _ _ _ _ Hp) as ((_ & Hn' & _) & _). split; [lia|].
  simpl in Hp. destruct cs as [|c cs].
  { simplify_eq. split; [|constructor]. unfold distinct_between. simpl.
    change (flat_map us_query_stage_ids (unresolved_shuffles ?q)) with (shuffle_ids q).
    rewrite df_plan_ids by done. by split; constructor. }
  cbn [df_plan] in Hdf. apply andb_prop in Hdf as [[Hop Hm]%andb_prop Hcs]. apply negb_true_iff in Hop.
  destruct (smapM _ (c :: cs) n) as [[r n1]| |] eqn:Es; [|done..]. simpl in Hp.
  apply (df_children _ _ Hcs) in IH as HF.
  assert (length r = length (c :: cs) ∧ (n ≤ n1)%Z ∧ distinct_between n n1 (List.map fst r) ∧
    Forall reads_once (List.concat (List.map snd r))) as (Hl & Hn & Hd & Hst).
  { clear -HF Es. revert n r n1 Es. induction HF as [|q qs Hq _ IHqs]; intros n r n1 Es; simpl in Es; simplify_eq.
    { split_and!; [done|done|by split; constructor|constructor]. }
    destruct (plan_query_stages_internal job_id q n) as [[[p1 st1] m1]| |] eqn:Ef; simplify_eq.
    destruct (smapM _ qs _) as [[r2 n2]| |] eqn:Es2; simplify_eq. simpl in *.
    destruct (Hq _ _ _ _ Ef) as (Hn1 & Hd1 & Hs1). destruct (IHqs _ _ _ Es2) as (Hl2 & Hn2 & Hd2 & Hs2).
    split_and!; [lia|lia|by apply (distinct_app n m1 _ [p1])|by apply Forall_app]. }
  eapply split_reads_once in Hp; eauto; [by rewrite length_map|]. intros ->. by apply Nat.eqb_eq in Hm.
Qed.

(** ** The stages and what they stand for *)

(** Two plans that an operator above them cannot tell apart. *)
Definition same_interface (p q : ExecutionPlan) : Prop :=
  plan_schema p = plan_schema q ∧ partition_count p = partition_count q.

(** Every stage stands for a plan with its schema and partition count, which
    is what its own plan stands for. *)
Definition stages_mean (st : list QueryStageExec) m : Prop :=
  ∀ s, s ∈ st → ∃ q, m !! qs_stage_id s = Some q ∧ rebuild m (qs_child s) = Some q ∧
    same_interface (qs_child s) q.
End slicing.

(** The schema of DataFusion's operators is computed from the schemas of their
    children, and the partitioning from theirs. *)
Class InterfaceOk `{ExecutionPlanMethods} := {
  interface_schema op cs cs' : plan_schema <$> cs = plan_schema <$> cs' → df_schema op cs = df_schema op cs';
  interface_count op cs cs' : partition_count <$> cs = partition_count <$> cs' →
    df_partition_count op cs = df_partition_count op cs';
}.

Section meaning.
Context `{ExecutionPlanMethodsOk} `{!InterfaceOk}.

Lemma interface_df op cs cs' :
  is_ballista_op op = false → Forall2 same_interface cs cs' → same_interface (Exec op cs) (Exec op cs').
Proof.
  intros Hop HF. assert (plan_schema <$> cs = plan_schema <$> cs' ∧ partition_count <$> cs = partition_count <$> cs')
    as [Hs%(interface_schema op) Hc%(interface_count op)]; [|by destruct op].
  induction HF as [|c c' cs cs' [Hs Hc] _ [IH1 IH2]]; [done|]. csimpl. by rewrite Hs, Hc, IH1, IH2.
Qed.

(** What a plan over known stages stands for. *)
Lemma reads_rebuilds st m p :
  stages_mean st m → reads st p → ∃ q, rebuild m p = Some q ∧ same_interface p q.
Proof.
  intros Hm. induction p as [op cs IH] using plan_ind. intros [Hr Hf].
  destruct (is_ballista_op op) eqn:Hop.
  { destruct op; try discriminate. simpl in Hf. apply Forall_cons in Hf as [(s & Hs & E) _].
    injection E as -> -> ->. destruct (Hm s Hs) as (q & Hq & _ & Hi). by exists q. }
  assert (forallb resolvable cs = true ∧ Forall (refers_to st) (flat_map unresolved_shuffles cs)) as [Hr' Hf']
    by (by destruct op).
  assert (∃ cs', stand_for m cs cs' ∧ Forall2 same_interface cs cs') as (cs' & Hcs & Hi).
  { clear Hr Hf. induction IH as [|c cs Hc _ IHcs]; [exists []; by split; constructor|].
    simpl in Hr', Hf'. apply andb_prop in Hr' as [Hr1 Hr2]. apply Forall_app in Hf' as [Hf1 Hf2].
    destruct (Hc (conj Hr1 Hf1)) as (q & Hq & Hiq). destruct (IHcs Hr2 Hf2) as (cs' & ? & ?).
    exists (q :: cs'). by split; constructor. }
  exists (Exec op cs'). split; [by apply rebuild_exec|by apply interface_df].
Qed.

Lemma stages_mean_mono st m m' : m ⊆ m' → stages_mean st m → stages_mean st m'.
Proof.
  intros Hs Hm s Hst. destruct (Hm s Hst) as (q & ? & ? & ?). exists q.
  split_and!; [by eapply lookup_weaken|by eapply rebuild_mono|done].
Qed.

(** The stages of a list stand for plans, if each reads earlier stages only
    and the ids increase. *)
Lemma stages_mean_all pre st m n :
  stages_mean pre m → deps_ok pre st → below n m → qs_stage_id <$> st = ids n (length st) →
  stages_mean (pre ++ st) (rebuild_stages m st).
Proof.
  revert pre m n. induction st as [|s st IH]; intros pre m n Hm Hd Hb Hids; [by rewrite app_nil_r|].
  simpl in Hd. destruct Hd as [Hr Hd]. csimpl in Hids.
  change (S (length st)) with (1 + length st)%nat in Hids. rewrite ids_app in Hids. unfold ids at 1 in Hids.
  injection Hids as Hid Hids. rewrite Z.add_0_r in Hid.
  destruct (rebuild_stage_below m s n Hb) as [Hsub Hb1]; [lia|].
  simpl. rewrite (app_assoc pre [s] st : pre ++ s :: st = _).
  apply (IH _ _ (qs_stage_id s)); [|done|done|by rewrite Hid].
  intros x [Hx| ->%list_elem_of_singleton]%elem_of_app; [by apply (stages_mean_mono pre m)|].
  destruct (reads_rebuilds pre m (qs_child s) Hm Hr) as (q & Hq & Hi). exists q.
  split_and!; [|by eapply rebuild_mono|done]. unfold rebuild_stage. rewrite Hq. apply lookup_insert_eq.
Qed.

(** A stage of a list reads stages of the list. *)
Lemma deps_reads st s : deps_ok [] st → s ∈ st → reads st (qs_child s).
Proof.
  intros Hd (l1 & l2 & ->)%list_elem_of_split. apply deps_ok_app in Hd as [_ [Hr _]].
  eapply reads_mono; [|exact Hr]. set_solver.
Qed.

(** The stages of a query, with the plans they stand for. *)
Definition query_stages (p : ExecutionPlan) (stages : list QueryStageExec) m : Prop :=
  m = rebuild_stages ∅ stages ∧ deps_ok [] stages ∧ stages_mean stages m ∧ NoDup (qs_stage_id <$> stages) ∧
  Forall reads_once stages ∧
  ∃ s, last stages = Some s ∧ m !! qs_stage_id s = Some p.

Lemma plan_query_stages_rebuilds planner job_id p stages planner' :
  df_plan p = true → plan_query_stages planner job_id p = Ok (stages, planner') →
  query_stages p stages (rebuild_stages ∅ stages).
Proof.
  intros Hdf Hp. destruct (plan_query_stages_ok _ _ _ _ _ Hdf Hp) as (Hids & _ & Hd & _ & _).
  split; [done|]. split; [done|]. split_and!.
  - apply (stages_mean_all [] stages ∅ (dp_next_stage_id planner)); try done.
    by intros s ?%not_elem_of_nil.
  - rewrite Hids. apply ids_NoDup.
  - unfold plan_query_stages in Hp.
    destruct (plan_query_stages_internal _ _ _) as [[[p' st] n']| |] eqn:E; simpl in Hp; simplify_eq.
    destruct (internal_reads_once job_id p Hdf _ _ _ _ E) as (_ & [Hnd _] & Hst).
    apply Forall_app. split; [done|]. constructor; [|constructor]. unfold reads_once. simpl in *.
    by rewrite app_nil_r in Hnd.
  - unfold plan_query_stages in Hp.
    destruct (plan_query_stages_internal _ _ _) as [[[p' st] n']| |] eqn:E; simpl in Hp; simplify_eq.
    destruct (internal_rebuilds job_id p Hdf _ _ _ _ ∅ E) as (_ & _ & Hr); [by intros id q|].
    eexists. split; [apply last_snoc|]. rewrite rebuild_stages_app. simpl. unfold rebuild_stage. simpl.
    rewrite Hr. apply lookup_insert_eq.
Qed.
End meaning.

(** ** Properties *)

(** C7 — Slicing loses nothing and adds nothing: if every shuffle of a stage is
    replaced by what the stage it reads stands for, the last stage stands for
    the plan that was sliced; every stage stands for a plan of its own schema
    and partition count, and reads no stage through two shuffles. *)
Theorem sliced_plan_rebuilt `{ExecutionPlanMethodsOk} `{!InterfaceOk} planner job_id p stages planner' :
  df_plan p = true → plan_query_stages planner job_id p = Ok (stages, planner') →
  (∃ s, last stages = Some s ∧ rebuild_stages ∅ stages !! qs_stage_id s = Some p) ∧
  ∀ s, s ∈ stages → ∃ q, rebuild_stages ∅ stages !! qs_stage_id s = Some q ∧
    rebuild (rebuild_stages ∅ stages) (qs_child s) = Some q ∧
    plan_schema (qs_child s) = plan_schema q ∧ partition_count (qs_child s) = partition_count q ∧
    NoDup (shuffle_ids (qs_child s)).
Proof.
  intros Hdf Hp. destruct (plan_query_stages_rebuilds _ _ _ _ _ Hdf Hp) as (_ & _ & Hm & _ & Ho & Hs).
  split; [done|]. intros s Hst. destruct (Hm s Hst) as (q & Hq & Hr & Hi & Hc). rewrite Forall_forall in Ho.
  exists q. split_and!; try done. by apply Ho.
Qed.

Lemma sample_methods_interface : @InterfaceOk sample_methods.
Proof. split; [done|]. by intros op [|c cs] [|c0 cs0] E. Qed.

(** An aggregation over a merge of an aggregation: four stages. *)
Definition sliced_sample : ExecutionPlan :=
  Exec (X_HashAggregate Final [] [] (mkSchema [])) [Exec X_Merge [sample_physical]].
Definition sliced_sample_stages : list QueryStageExec :=
  match @plan_query_stages sample_methods sample_planner "job" sliced_sample with Ok r => r.1 | _ => [] end.

Lemma sliced_plan_rebuilt_witness :
  qs_stage_id <$> sliced_sample_stages = [1; 2; 3; 4]%Z ∧
  ∃ s, last sliced_sample_stages = Some s ∧
    rebuild_stages ∅ sliced_sample_stages !! qs_stage_id s = Some sliced_sample.
Proof.
  split; [reflexivity|].
  exact (proj1 (@sliced_plan_rebuilt sample_methods sample_methods_ok sample_methods_interface sample_planner "job"
    sliced_sample sliced_sample_stages (mkDistributedPlanner (dp_executors sample_planner) 4) eq_refl eq_refl)).
Defined.
