(* ===== verification/Physical.v ===== *)
(** * Physical plans and their protobuf form

    Models src/rust/core/src/serde/physical_plan/to_proto.rs and
    from_proto.rs.  The constructors of DataFusion's operators that can fail,
    its expression compiler ([create_physical_expr], [create_aggregate_expr])
    and [BuiltinScalarFunction::from_str] are parameters.

    The theorems: a physical expression is encoded as the logical expression
    it computes, and a plan whose operators DataFusion can rebuild survives
    the trip unchanged, shuffle readers and unresolved shuffles included. *)

From S2P Require Import Prelude Proto Arrow Scalar Expr LogicalPlan SchedTypes ExecPlan.

(** What the conversions use of DataFusion. *)
Class PhysicalPlanner := {
  builtin_from_str : string → DFResult BuiltinScalarFunction;
  create_physical_expr : Expr → Schema → DFResult PhysicalExpr;
  create_aggregate_expr : AggregateFunction → bool → list PhysicalExpr → Schema → string →
    DFResult AggregateExpr;
  ProjectionExec_try_new : list (PhysicalExpr * string) → ExecutionPlan → DFResult ExecutionPlan;
  FilterExec_try_new : PhysicalExpr → ExecutionPlan → DFResult ExecutionPlan;
  CsvExec_try_new : string → CsvReadOptions → option (list Z) → Z → DFResult ExecutionPlan;
  ParquetExec_try_from_files : list string → option (list Z) → option Expr → Z → Z → DFResult ExecutionPlan;
  HashAggregateExec_try_new : AggregateMode → list (PhysicalExpr * string) → list AggregateExpr →
    ExecutionPlan → Schema → DFResult ExecutionPlan;
  HashJoinExec_try_new : ExecutionPlan → ExecutionPlan → list (string * string) → JoinType →
    DFResult ExecutionPlan;
  SortExec_try_new : list PhysicalSortExpr → ExecutionPlan → DFResult ExecutionPlan;
}.

(** ** Encoding *)

Section encode.
Context `{PhysicalPlanner}.

(** [try_parse_when_then_expr], the conversion of expressions given. *)
Definition try_parse_when_then_expr_with (try_into : PhysicalExpr → Result PLogicalExprNode)
    (when_expr then_expr : PhysicalExpr) : Result PWhenThen :=
  let? w := try_into when_expr in
  let? t := try_into then_expr in
  Ok (mkWhenThen (Some w) (Some t)).

(** [.map(|e| e.try_into()).transpose()]. *)
Definition transpose_with {A B} (try_into : A → Result B) (o : option A) : Result (option B) :=
  match o with Some a => rmap Some (try_into a) | None => Ok None end.

(** [TryFrom<Arc<dyn PhysicalExpr>> for protobuf::LogicalExprNode]. *)
Fixpoint physical_expr_to_proto (value : PhysicalExpr) : Result PLogicalExprNode :=
  match value with
  | PE_Column name => Ok (some_node (ET_ColumnName name))
  | PE_BinaryExpr lhs op rhs =>
      let? l := physical_expr_to_proto lhs in
      let? r := physical_expr_to_proto rhs in
      Ok (some_node (ET_BinaryExpr (Some l) (Some r) (debug_operator op)))
  | PE_Case expr when_then_expr else_expr =>
      let? e := transpose_with physical_expr_to_proto expr in
      let? wt := rmapM (λ p, match p with (w, t) =>
        try_parse_when_then_expr_with physical_expr_to_proto w t end) when_then_expr in
      let? els := transpose_with physical_expr_to_proto else_expr in
      Ok (some_node (ET_Case e wt els))
  | PE_Not arg => let? e := physical_expr_to_proto arg in Ok (some_node (ET_NotExpr (Some e)))
  | PE_IsNull arg => let? e := physical_expr_to_proto arg in Ok (some_node (ET_IsNullExpr (Some e)))
  | PE_IsNotNull arg =>
      let? e := physical_expr_to_proto arg in Ok (some_node (ET_IsNotNullExpr (Some e)))
  | PE_InList expr list negated =>
      let? e := physical_expr_to_proto expr in
      let? l := rmapM physical_expr_to_proto list in
      Ok (some_node (ET_InList (Some e) l negated))
  | PE_Negative arg =>
      let? e := physical_expr_to_proto arg in Ok (some_node (ET_Negative (Some e)))
  | PE_Literal value =>
      let? v := scalar_value_to_proto value in Ok (some_node (ET_Literal v))
  | PE_Cast expr cast_type =>
      let? e := physical_expr_to_proto expr in
      Ok (some_node (ET_Cast (Some e) (Some (datatype_to_arrow_type cast_type))))
  | PE_ScalarFunction name args =>
      let? fun_ := lift_df (builtin_from_str name) in
      let? f := scalar_function_to_proto fun_ in
      let? expr := rmapM physical_expr_to_proto args in
      Ok (some_node (ET_ScalarFunction (to_i32 f) expr))
  | PE_Other _ => Err (General "physical_plan::to_proto() unsupported expression {:?}")
  end.

(** [TryInto<protobuf::LogicalExprNode> for Arc<dyn AggregateExpr>]. *)
Definition aggregate_expr_to_proto (self : AggregateExpr) : Result PLogicalExprNode :=
  let? aggr_function :=
    match ae_kind self with
    | AK_Avg => Ok (to_i32 PAF_Avg)
    | AK_Sum => Ok (to_i32 PAF_Sum)
    | AK_Count => Ok (to_i32 PAF_Count)
    | AK_Other => Err (NotImplemented "Aggregate function not supported: {:?}")
    end in
  let? expressions := rmapM physical_expr_to_proto (ae_expressions self) in
  match expressions with
  | [] => Panic "index out of bounds: the len is 0 but the index is 0"
  | e :: _ => Ok (some_node (ET_AggregateExpr aggr_function (Some e)))
  end.

Definition aggregate_mode_to_proto (m : AggregateMode) : PAggregateMode :=
  match m with Partial => PAM_Partial | Final => PAM_Final end.

Definition sort_expr_to_proto (expr : PhysicalSortExpr) : Result PLogicalExprNode :=
  let? e := physical_expr_to_proto (pse_expr expr) in
  Ok (some_node (ET_Sort (Some e) (negb (pse_descending expr)) (pse_nulls_first expr))).

(** The [CsvExec] arm. *)
Definition csv_exec_to_proto (path : string) (filenames : list string)
    (projection : option (list Z)) (file_extension : string) (file_schema : Schema)
    (has_header : bool) (delimiter : option Z) : Result PhysicalPlanType :=
  let? d := ok_or (General "Delimeter is not set for CsvExec") delimiter in
  let? delimiter := ok_or (General "Invalid CSV delimiter") (str_from_utf8_byte d) in
  let? proj := ok_or (General "projection in CsvExec dosn not exist.") projection in
  Ok (PPT_CsvScan path (List.map (λ n, as_u32 n) proj) (Some (schema_to_proto file_schema))
        file_extension has_header 32768 delimiter filenames).

(** The [HashAggregateExec] arm, before its input is converted. *)
Definition hash_aggregate_to_proto (mode : AggregateMode) (group_expr : list (PhysicalExpr * string))
    (aggr_expr : list AggregateExpr) (input_schema : Schema)
    (input : Result PPhysicalPlanNode) : Result PhysicalPlanType :=
  let? groups := rmapM (λ e, physical_expr_to_proto e.1) group_expr in
  let group_names := List.map snd group_expr in
  let? agg := rmapM aggregate_expr_to_proto aggr_expr in
  let? agg_names := rmapM (λ e, lift_df (rmap field_name (ae_field e))) aggr_expr in
  let agg_mode := aggregate_mode_to_proto mode in
  let? i := input in
  Ok (PPT_HashAggregate groups agg (to_i32 agg_mode) (Some i) group_names agg_names
        (Some (schema_to_proto input_schema))).

Abbreviation exec_node p := (mkPhysicalPlanNode (Some p)).

(** [TryInto<protobuf::PhysicalPlanNode> for Arc<dyn ExecutionPlan>].  An
    operator's [input()] is its first child, [left()] and [right()] its two
    children. *)
Fixpoint exec_to_proto (self : ExecutionPlan) : Result PPhysicalPlanNode :=
  match self with
  | Exec op cs =>
    let input :=
      match cs with c :: _ => exec_to_proto c | [] => Panic "operator without input" end in
    match op with
    | X_Projection exprs =>
        let? i := input in
        let? expr := rmapM (λ e, physical_expr_to_proto e.1) exprs in
        let expr_name := List.map snd exprs in
        Ok (exec_node (PPT_Projection (Some i) expr expr_name))
    | X_Filter predicate =>
        let? i := input in
        let? e := physical_expr_to_proto predicate in
        Ok (exec_node (PPT_Filter (Some i) (Some e)))
    | X_GlobalLimit limit =>
        let? i := input in Ok (exec_node (PPT_GlobalLimit (Some i) (as_u32 limit)))
    | X_LocalLimit limit =>
        let? i := input in Ok (exec_node (PPT_LocalLimit (Some i) (as_u32 limit)))
    | X_HashJoin on join_type =>
        match cs with
        | [lhs; rhs] =>
            let? l := exec_to_proto lhs in
            let? r := exec_to_proto rhs in
            Ok (exec_node (PPT_HashJoin (Some l) (Some r) on
                             (to_i32 (join_type_to_proto join_type))))
        | _ => Panic "join without two inputs"
        end
    | X_HashAggregate mode group_expr aggr_expr input_schema =>
        let? t := hash_aggregate_to_proto mode group_expr aggr_expr input_schema input in
        Ok (exec_node t)
    | X_Empty produce_one_row schema =>
        Ok (exec_node (PPT_Empty produce_one_row (Some (schema_to_proto schema))))
    | X_CoalesceBatches target_batch_size =>
        let? i := input in
        Ok (exec_node (PPT_CoalesceBatches (Some i) (as_u32 target_batch_size)))
    | X_Csv path filenames projection file_extension file_schema has_header delimiter _ =>
        let? t := csv_exec_to_proto path filenames projection file_extension file_schema
                    has_header delimiter in
        Ok (exec_node t)
    | X_Parquet partitions projection batch_size _ =>
        let filenames := List.concat partitions in
        Ok (exec_node (PPT_ParquetScan filenames (List.map (λ n, as_u32 n) projection)
              (as_u32 (Z.of_nat (length partitions))) (as_u32 batch_size)))
    | X_ShuffleReader partition_location schema =>
        let? l := rmapM partition_location_to_proto partition_location in
        Ok (exec_node (PPT_ShuffleReader l (Some (schema_to_proto schema))))
    | X_Merge => let? i := input in Ok (exec_node (PPT_Merge (Some i)))
    | X_Sort exprs =>
        let? i := input in
        let? expr := rmapM sort_expr_to_proto exprs in
        Ok (exec_node (PPT_Sort (Some i) expr))
    | X_UnresolvedShuffle query_stage_ids schema partition_count =>
        Ok (exec_node (PPT_Unresolved (List.map (λ id, as_u32 id) query_stage_ids)
              (Some (schema_to_proto schema)) (as_u32 partition_count)))
    | X_QueryStage _ _ | X_Collect | X_Other _ =>
        Err (General "physical plan to_proto unsupported plan {:?}")
    end
  end.
End encode.

(** ** Decoding *)

Section decode.
Context `{PhysicalPlanner} `{ExprBuilders} `{ExecutionPlanMethods}.

(** [compile_expr]. *)
Definition compile_expr (expr : PLogicalExprNode) (schema : Schema) : Result PhysicalExpr :=
  let? e := proto_to_expr expr in
  map_err (λ _, General "{:?}") (create_physical_expr e schema).

(** The expressions of a projection or a grouping, zipped with their names. *)
Definition compile_named (schema : Schema) (exprs : list PLogicalExprNode) (names : list string)
    : Result (list (PhysicalExpr * string)) :=
  rmapM (λ p, rmap (λ e, (e, p.2)) (compile_expr p.1 schema)) (zip exprs names).

Definition aggregate_mode_from_proto (m : PAggregateMode) : AggregateMode :=
  match m with PAM_Partial => Partial | PAM_Final => Final end.

(** One iteration of the loop over the logical aggregates. *)
Definition compile_aggregate (physical_schema : Schema) (p : Expr * string) : Result AggregateExpr :=
  match p.1 with
  | E_AggregateFunction fun_ args _ =>
      let? a := unwrap "index out of bounds: the len is 0 but the index is 0" (head args) in
      let? arg := map_err (λ _, General "{:?}") (create_physical_expr a physical_schema) in
      lift_df (create_aggregate_expr fun_ false [arg] physical_schema p.2)
  | _ => Err (General "Invalid expression for HashAggregateExec")
  end.

(** The [PhysicalPlanType::HashAggregate] arm, after its input is converted. *)
Definition hash_aggregate_from_proto (input : ExecutionPlan) (mode : Z)
    (group_expr aggr_expr : list PLogicalExprNode) (group_expr_name aggr_expr_name : list string)
    (input_schema : option PSchema) : Result ExecutionPlan :=
  let? m := ok_or (proto_error "Received a HashAggregateNode message with unknown AggregateMode {}")
    (from_i32 mode) in
  let agg_mode := aggregate_mode_from_proto m in
  let? group := compile_named (plan_schema input) group_expr group_expr_name in
  let? logical_agg_expr := rmapM (λ p, rmap (λ e, (e, p.2)) (proto_to_expr p.1))
    (zip aggr_expr aggr_expr_name) in
  let? input_schema := ok_or (General "input_schema in HashAggregateNode is missing.") input_schema in
  let? physical_schema := schema_from_proto input_schema in
  let? physical_aggr_expr := rmapM (compile_aggregate physical_schema) logical_agg_expr in
  let? s := schema_from_proto input_schema in
  lift_df (HashAggregateExec_try_new agg_mode group physical_aggr_expr input s).

(** One sort expression of the [PhysicalPlanType::Sort] arm. *)
Definition sort_expr_from_proto (schema : Schema) (expr : PLogicalExprNode)
    : Result PhysicalSortExpr :=
  match expr with
  | mkLogicalExprNode None => Err (proto_error "physical_plan::from_proto() Unexpected expr {:?}")
  | mkLogicalExprNode (Some (ET_Sort e asc nulls_first)) =>
      let? e := ok_or (proto_error "physical_plan::from_proto() Unexpected sort expr {:?}") e in
      let? e' := compile_expr e schema in
      Ok (mkPhysicalSortExpr e' (negb asc) nulls_first)
  | _ => Err (General "physical_plan::from_proto() {:?}")
  end.

(** The [PhysicalPlanType::CsvScan] arm. *)
Definition csv_exec_from_proto (path : string) (projection : list Z) (schema : option PSchema)
    (file_extension : string) (has_header : bool) (delimiter : string) : Result ExecutionPlan :=
  let? schema := convert_required schema_from_proto schema in
  let? d :=
    match delimiter with
    | EmptyString => Panic "index out of bounds: the len is 0 but the index is 0"
    | String c _ => Ok (Z.of_nat (Ascii.nat_of_ascii c))
    end in
  let options := mkCsvReadOptions schema d file_extension has_header in
  let batch_size := 32768%Z in
  let projection := List.map (λ i, as_usize i) projection in
  lift_df (CsvExec_try_new path options (Some projection) batch_size).

(** [TryInto<Arc<dyn ExecutionPlan>> for &protobuf::PhysicalPlanNode]. *)
Fixpoint proto_to_exec (self : PPhysicalPlanNode) : Result ExecutionPlan :=
  let convert_box_required := convert_required proto_to_exec in
  match self with
  | mkPhysicalPlanNode None =>
      Err (proto_error "physical_plan::from_proto() Unsupported physical plan '{:?}'")
  | mkPhysicalPlanNode (Some plan) =>
    match plan with
    | PPT_Projection input expr expr_name =>
        let? i := convert_box_required input in
        let? exprs := compile_named (plan_schema i) expr expr_name in
        lift_df (ProjectionExec_try_new exprs i)
    | PPT_Filter input expr =>
        let? i := convert_box_required input in
        let? e := ok_or (General "filter (FilterExecNode) in PhysicalPlanNode is missing.") expr in
        let? predicate := compile_expr e (plan_schema i) in
        lift_df (FilterExec_try_new predicate i)
    | PPT_CsvScan path projection schema file_extension has_header _ delimiter _ =>
        csv_exec_from_proto path projection schema file_extension has_header delimiter
    | PPT_ParquetScan filename projection num_partitions batch_size =>
        let projection := List.map (λ i, as_usize i) projection in
        lift_df (ParquetExec_try_from_files filename (Some projection) None (as_usize batch_size)
                   (as_usize num_partitions))
    | PPT_CoalesceBatches input target_batch_size =>
        let? i := convert_box_required input in
        Ok (Exec (X_CoalesceBatches (as_usize target_batch_size)) [i])
    | PPT_Merge input => let? i := convert_box_required input in Ok (Exec X_Merge [i])
    | PPT_GlobalLimit input limit =>
        let? i := convert_box_required input in Ok (Exec (X_GlobalLimit (as_usize limit)) [i])
    | PPT_LocalLimit input limit =>
        let? i := convert_box_required input in Ok (Exec (X_LocalLimit (as_usize limit)) [i])
    | PPT_HashAggregate group_expr aggr_expr mode input group_expr_name aggr_expr_name input_schema =>
        let? i := convert_box_required input in
        hash_aggregate_from_proto i mode group_expr aggr_expr group_expr_name aggr_expr_name
          input_schema
    | PPT_HashJoin lhs rhs on join_type =>
        let? l := convert_box_required lhs in
        let? r := convert_box_required rhs in
        let? t := ok_or (proto_error "Received a HashJoinNode message with unknown JoinType {}")
          (from_i32 join_type) in
        lift_df (HashJoinExec_try_new l r on (join_type_from_proto t))
    | PPT_ShuffleReader partition_location schema =>
        let? s := convert_required schema_from_proto schema in
        let? l := rmapM partition_location_from_proto partition_location in
        lift_df (ShuffleReaderExec_try_new l s)
    | PPT_Empty produce_one_row schema =>
        let? s := convert_required schema_from_proto schema in
        Ok (Exec (X_Empty produce_one_row s) [])
    | PPT_Sort input expr =>
        let? i := convert_box_required input in
        let? exprs := rmapM (sort_expr_from_proto (plan_schema i)) expr in
        lift_df (SortExec_try_new exprs i)
    | PPT_Unresolved query_stage_ids schema partition_count =>
        let? s := convert_required schema_from_proto schema in
        Ok (UnresolvedShuffleExec_new (List.map (λ id, as_usize id) query_stage_ids) s
              (as_usize partition_count))
    end
  end.
End decode.
Abbreviation exec_node p := (mkPhysicalPlanNode (Some p)).

(** ** The logical expression a physical expression computes *)

Section decompile.
Context `{PhysicalPlanner}.

Fixpoint decompile (e : PhysicalExpr) : option Expr :=
  let opt o := match o with
    | Some e => match decompile e with Some l => Some (Some l) | None => None end
    | None => Some None end in
  let lst := fix lst es := match es with
    | [] => Some []
    | e :: es => match decompile e, lst es with Some l, Some ls => Some (l :: ls) | _, _ => None end
    end in
  match e with
  | PE_Column n => Some (E_Column n)
  | PE_BinaryExpr l op r =>
      match decompile l, decompile r with
      | Some l, Some r => Some (E_BinaryExpr l op r) | _, _ => None end
  | PE_Case e wt els =>
      let pairs := fix pairs wt := match wt with
        | [] => Some []
        | (w, t) :: wt =>
            match decompile w, decompile t, pairs wt with
            | Some w, Some t, Some wt => Some ((w, t) :: wt) | _, _, _ => None end
        end in
      match opt e, pairs wt, opt els with
      | Some e, Some wt, Some els => Some (E_Case e wt els) | _, _, _ => None end
  | PE_Not a => option_map E_Not (decompile a)
  | PE_IsNull a => option_map E_IsNull (decompile a)
  | PE_IsNotNull a => option_map E_IsNotNull (decompile a)
  | PE_InList e l negated =>
      match decompile e, lst l with Some e, Some l => Some (E_InList e l negated) | _, _ => None end
  | PE_Negative a => option_map E_Negative (decompile a)
  | PE_Literal v => Some (E_Literal v)
  | PE_Cast e t => option_map (λ e, E_Cast e t) (decompile e)
  | PE_ScalarFunction name args =>
      match builtin_from_str name, lst args with
      | Ok f, Some args => Some (E_ScalarFunction f args) | _, _ => None end
  | PE_Other _ => None
  end.

(** The list and pair recursions of [decompile]. *)
Definition decompile_list := fix lst (es : list PhysicalExpr) : option (list Expr) :=
  match es with
  | [] => Some []
  | e :: es => match decompile e, lst es with Some l, Some ls => Some (l :: ls) | _, _ => None end
  end.
Definition decompile_pairs := fix pairs (wt : list (PhysicalExpr * PhysicalExpr))
    : option (list (Expr * Expr)) :=
  match wt with
  | [] => Some []
  | (w, t) :: wt =>
      match decompile w, decompile t, pairs wt with
      | Some w, Some t, Some wt => Some ((w, t) :: wt) | _, _, _ => None end
  end.
Definition decompile_option (o : option PhysicalExpr) : option (option Expr) :=
  match o with
  | Some e => match decompile e with Some l => Some (Some l) | None => None end
  | None => Some None
  end.

(** The physical and the logical expression have the same message, or
    neither has one. *)
Definition encodes_as (e : PhysicalExpr) : Prop :=
  ∀ l, decompile e = Some l → ok (physical_expr_to_proto e) = ok (expr_to_proto l).

Lemma encodes_list es ls :
  list_all _ encodes_as es → decompile_list es = Some ls →
  ok (rmapM physical_expr_to_proto es) = ok (rmapM expr_to_proto ls).
Proof.
  intros Hes. revert ls. induction Hes as [|e He es _ IH]; intros ls Hl; simpl in Hl; simplify_eq; [done|].
  destruct (decompile e) as [l|] eqn:E; [|done].
  destruct (decompile_list es) eqn:E2; [|done]. simplify_eq.
  simpl. rewrite !ok_bind, (He _ E). destruct (ok (expr_to_proto l)); [|done].
  by rewrite !ok_bind, (IH _ eq_refl).
Qed.

Lemma encodes_pairs wt ls :
  list_all _ (prod_all _ encodes_as _ encodes_as) wt → decompile_pairs wt = Some ls →
  ok (rmapM (λ p, match p with (w, t) =>
        try_parse_when_then_expr_with physical_expr_to_proto w t end) wt) =
  ok (rmapM (λ p, match p with (w, t) =>
        let? w' := expr_to_proto w in
        let? t' := expr_to_proto t in
        Ok (mkWhenThen (Some w') (Some t')) end) ls).
Proof.
  intros Hwt. revert ls. induction Hwt as [|? Hp wt _ IH]; intros ls Hl; [simpl in Hl; by simplify_eq|].
  destruct Hp as [w Hw t Ht]. simpl in Hl.
  destruct (decompile w) eqn:E1, (decompile t) eqn:E2, (decompile_pairs wt) eqn:E3; simplify_eq.
  simpl. unfold try_parse_when_then_expr_with at 1.
  rewrite !ok_bind, (Hw _ E1). destruct (ok (expr_to_proto e)); [|done].
  rewrite !ok_bind, (Ht _ E2). destruct (ok (expr_to_proto e0)); [|done]. simpl.
  by rewrite !ok_bind, (IH _ eq_refl).
Qed.

Lemma encodes_option o l :
  option_all _ encodes_as o → decompile_option o = Some l →
  ok (transpose_with physical_expr_to_proto o) =
  ok match l with Some e => let? e' := expr_to_proto e in Ok (Some e') | None => Ok None end.
Proof.
  intros [e He|] Hl; simpl in Hl; [|by simplify_eq].
  destruct (decompile e) as [l'|] eqn:E; simplify_eq. simpl. specialize (He _ E).
  destruct (physical_expr_to_proto e), (expr_to_proto l'); simpl in *; congruence.
Qed.

Lemma encodes_all e : encodes_as e.
Proof.
  induction e as [| |oe IHe wt IHwt oels IHels| | | |e IHe list IHl neg| | | |name args IHl|];
    intros l Hl; simpl in Hl;
    repeat match type of Hl with
    | option_map _ (decompile ?e) = Some _ => destruct (decompile e) eqn:?; simpl in Hl
    | match decompile ?e with _ => _ end = Some _ => destruct (decompile e) eqn:?; try done
    end; simplify_eq; simpl; try done;
    try (repeat match goal with
      | H : encodes_as ?e, H' : decompile ?e = Some _ |- _ => specialize (H _ H'); clear H'
      end; rewrite !ok_bind; repeat case_match; simplify_eq; rewrite ?ok_bind;
      repeat case_match; simplify_eq; done).
  - destruct (decompile_option oe) as [le|] eqn:E1; unfold decompile_option in E1; rewrite E1 in Hl; [|done].
    change (match decompile_pairs wt with
      | Some wt0 => match decompile_option oels with
        | Some els => Some (E_Case le wt0 els) | None => None end
      | None => None end = Some l) in Hl.
    destruct (decompile_pairs wt) as [lwt|] eqn:E2; [|done].
    destruct (decompile_option oels) as [lels|] eqn:E3; [|done]. simplify_eq. simpl.
    pose proof (encodes_option _ _ IHe E1) as H1. pose proof (encodes_pairs _ _ IHwt E2) as H2.
    pose proof (encodes_option _ _ IHels E3) as H3.
    rewrite (ok_swap (rmapM _ lwt)).
    apply ok_cong; [exact H1|intros ?]. apply ok_cong; [exact H2|intros ?].
    by apply ok_cong.
  - change (match decompile_list list with Some l => Some (E_InList e0 l neg) | None => None end = Some l) in Hl.
    destruct (decompile_list list) eqn:E; simplify_eq. simpl.
    apply ok_cong; [by apply IHe|intros ?]. by apply ok_cong; [apply encodes_list|].
  - change (match builtin_from_str name, decompile_list args with
      | Ok f, Some args => Some (E_ScalarFunction f args) | _, _ => None end = Some l) in Hl.
    destruct (builtin_from_str name); [|done..].
    destruct (decompile_list args) eqn:E; simplify_eq. simpl.
    destruct (scalar_function_to_proto _); [|done..].
    by rewrite !ok_bind, (encodes_list _ _ IHl E).
Qed.
End decompile.

(** ** The plans that survive *)

Section built.
Context `{PhysicalPlanner} `{ExprBuilders} `{ExecutionPlanMethods}.

(** The expression computes a logical expression that the messages carry in
    full, and DataFusion compiles that to the expression. *)
Definition recompiles (schema : Schema) (e : PhysicalExpr) : Prop :=
  ∃ l, decompile e = Some l ∧ exact_expr l ∧ create_physical_expr l schema = Ok e.

Definition exact_schema (s : Schema) : Prop := wf_schema s ∧ norm_schema s = s.

Definition aggregate_function_of (k : AggregateKind) : option AggregateFunction :=
  match k with AK_Avg => Some AF_Avg | AK_Sum => Some AF_Sum | AK_Count => Some AF_Count
  | AK_Other => None end.

Definition aggregate_recompiles (schema : Schema) (a : AggregateExpr) : Prop :=
  ∃ fun_ e f, aggregate_function_of (ae_kind a) = Some fun_ ∧ ae_expressions a = [e] ∧
    recompiles schema e ∧ ae_field a = Ok f ∧
    create_aggregate_expr fun_ false [e] schema (field_name f) = Ok a.

(** Every operator is what DataFusion's constructor makes of its parts, its
    expressions can be recompiled and its integers fit the messages. *)
Fixpoint built_exec (p : ExecutionPlan) : Prop :=
  match p with
  | Exec op cs =>
    match op, cs with
    | X_Projection exprs, [i] =>
        built_exec i ∧ Forall (λ e, recompiles (plan_schema i) e.1) exprs ∧
        ProjectionExec_try_new exprs i = Ok p
    | X_Filter e, [i] =>
        built_exec i ∧ recompiles (plan_schema i) e ∧ FilterExec_try_new e i = Ok p
    | X_GlobalLimit n, [i] | X_LocalLimit n, [i] | X_CoalesceBatches n, [i] =>
        built_exec i ∧ in_u 32 n
    | X_HashJoin on t, [l; r] =>
        built_exec l ∧ built_exec r ∧ HashJoinExec_try_new l r on t = Ok p
    | X_HashAggregate mode groups aggs schema, [i] =>
        built_exec i ∧ Forall (λ e, recompiles (plan_schema i) e.1) groups ∧
        Forall (aggregate_recompiles schema) aggs ∧ exact_schema schema ∧
        HashAggregateExec_try_new mode groups aggs i schema = Ok p
    | X_Empty _ schema, [] => exact_schema schema
    | X_Csv path _ projection ext schema hh delimiter _, [] =>
        ∃ proj d, projection = Some proj ∧ delimiter = Some d ∧ Forall (in_u 32) proj ∧
          (0 ≤ d < 128)%Z ∧ exact_schema schema ∧
          CsvExec_try_new path (mkCsvReadOptions schema d ext hh) (Some proj) 32768 = Ok p
    | X_Parquet parts proj batch_size _, [] =>
        Forall (in_u 32) proj ∧ in_u 32 batch_size ∧ in_u 32 (Z.of_nat (length parts)) ∧
        ParquetExec_try_from_files (List.concat parts) (Some proj) None batch_size
          (Z.of_nat (length parts)) = Ok p
    | X_Merge, [i] => built_exec i
    | X_Sort exprs, [i] =>
        built_exec i ∧ Forall (λ e, recompiles (plan_schema i) (pse_expr e)) exprs ∧
        SortExec_try_new exprs i = Ok p
    | X_UnresolvedShuffle ids schema count, [] =>
        Forall (in_u 32) ids ∧ in_u 32 count ∧ exact_schema schema
    | X_ShuffleReader locs schema, [] => Forall wf_partition_location locs ∧ exact_schema schema
    | _, _ => False
    end
  end.
End built.

(** ** Lemmas *)

Section trip.
Context `{PhysicalPlanner} `{ExprBuildersOk} `{ExecutionPlanMethods}.

Lemma recompiles_trip schema e :
  recompiles schema e →
  ∃ q, physical_expr_to_proto e = Ok q ∧ compile_expr q schema = Ok e.
Proof.
  intros (l & Hl & Hx & Hc). destruct (exact_trip l Hx) as (q & Hq & Hd).
  exists q. split; [apply ok_Some; by rewrite (encodes_all e l Hl), Hq|].
  unfold compile_expr. by rewrite Hd, Hc.
Qed.

Lemma named_trip schema exprs :
  Forall (λ e, recompiles schema e.1) exprs →
  ∃ qs, rmapM (λ e, physical_expr_to_proto e.1) exprs = Ok qs ∧
    compile_named schema qs (List.map snd exprs) = Ok exprs.
Proof.
  unfold compile_named.
  induction 1 as [|[e n] exprs He _ (qs & Hq & Hd)]; simpl; [by exists []|].
  destruct (recompiles_trip _ _ He) as (q & Hp & Hc). simpl in Hp. rewrite Hp, Hq.
  exists (q :: qs). split; [done|]. simpl in *. by rewrite Hc, Hd.
Qed.

Lemma sort_trip schema exprs :
  Forall (λ e, recompiles schema (pse_expr e)) exprs →
  ∃ qs, rmapM sort_expr_to_proto exprs = Ok qs ∧
    rmapM (sort_expr_from_proto schema) qs = Ok exprs.
Proof.
  induction 1 as [|[e d nf] exprs He _ (qs & Hq & Hd)]; simpl; [by exists []|].
  destruct (recompiles_trip _ _ He) as (q & Hp & Hc). unfold sort_expr_to_proto at 1. simpl in *.
  rewrite Hp, Hq. eexists. split; [done|]. simpl. rewrite Hc, Hd. by rewrite negb_involutive.
Qed.

(** An aggregate and its name survive, in the three steps of the source. *)
Lemma aggregates_trip schema aggs :
  Forall (aggregate_recompiles schema) aggs →
  ∃ qs names ls,
    rmapM aggregate_expr_to_proto aggs = Ok qs ∧
    rmapM (λ e, lift_df (rmap field_name (ae_field e))) aggs = Ok names ∧
    rmapM (λ p, rmap (λ e, (e, p.2)) (proto_to_expr p.1)) (zip qs names) = Ok ls ∧
    rmapM (compile_aggregate schema) ls = Ok aggs.
Proof.
  induction 1 as [|a aggs Ha _ (qs & names & ls & R1 & R2 & R3 & R4)]; [by exists [], [], []|].
  destruct Ha as (fun_ & e & f & Hk & He & (l & Hl & Hx & Hc) & Hf & Hca).
  destruct (exact_trip l Hx) as (q & Hq & Hd).
  exists (some_node (ET_AggregateExpr (to_i32 (aggregate_function_to_proto fun_)) (Some q)) :: qs),
    (field_name f :: names), ((E_AggregateFunction fun_ [l] false, field_name f) :: ls).
  split_and!.
  - simpl. unfold aggregate_expr_to_proto at 1. rewrite He. simpl.
    assert (physical_expr_to_proto e = Ok q) as ->
      by (apply ok_Some; by rewrite (encodes_all e l Hl), Hq).
    destruct (ae_kind a); simpl in *; simplify_eq; by rewrite R1.
  - simpl. by rewrite Hf, R2.
  - simpl. rewrite from_i32_to_i32. simpl. rewrite Hd. simpl. rewrite R3.
    by rewrite aggregate_function_roundtrip.
  - simpl. unfold compile_aggregate at 1. simpl. rewrite Hc. simpl. by rewrite Hca, R4.
Qed.

Lemma u32_list_trip l :
  Forall (in_u 32) l → List.map (λ i, as_usize i) (List.map (λ n, as_u32 n) l) = l.
Proof.
  induction 1 as [|x l Hx _ IH]; [done|]. cbn [List.map]. by rewrite as_usize_as_u32, IH.
Qed.

Lemma exact_schema_trip s :
  exact_schema s → convert_required schema_from_proto (Some (schema_to_proto s)) = Ok s.
Proof. intros [Hw Hn]. simpl. rewrite schema_roundtrip_aux by done. by rewrite Hn. Qed.

Lemma locations_trip locs :
  Forall wf_partition_location locs →
  ∃ qs, rmapM partition_location_to_proto locs = Ok qs ∧
    rmapM partition_location_from_proto qs = Ok locs.
Proof.
  induction 1 as [|l locs Hl _ (qs & Hq & Hd)]; [by exists []|].
  destruct (partition_location_trip l Hl) as (q & Hp & Hf). exists (q :: qs).
  cbn [rmapM]. by rewrite Hp, Hq, Hf, Hd.
Qed.

Lemma hash_aggregate_trip mode groups aggs schema i q p :
  proto_to_exec q = Ok i →
  Forall (λ e, recompiles (plan_schema i) e.1) groups →
  Forall (aggregate_recompiles schema) aggs → exact_schema schema →
  HashAggregateExec_try_new mode groups aggs i schema = Ok p →
  ∃ t, hash_aggregate_to_proto mode groups aggs schema (Ok q) = Ok t ∧
    proto_to_exec (exec_node t) = Ok p.
Proof.
  intros Hi Hg Ha Hs Hb. destruct (named_trip _ _ Hg) as (qs & Hq & Hc).
  destruct (aggregates_trip _ _ Ha) as (as_ & names & ls & A1 & A2 & A3 & A4).
  pose proof (exact_schema_trip _ Hs) as Hsc. cbn [convert_required] in Hsc.
  unfold hash_aggregate_to_proto. rewrite Hq, A1, A2. eexists. split; [done|].
  cbn [proto_to_exec convert_required]. rewrite Hi. unfold hash_aggregate_from_proto.
  rewrite from_i32_to_i32. cbn [ok_or]. rewrite Hc, A3, Hsc, A4.
  replace (aggregate_mode_from_proto (aggregate_mode_to_proto mode)) with mode by (by destruct mode).
  by rewrite Hb.
Qed.
End trip.

Section trip_plan.
Context `{PhysicalPlanner} `{ExprBuildersOk} `{ExecutionPlanMethods}.

(** The operators with inputs. *)
Definition trips (p : ExecutionPlan) : Prop :=
  ∃ q, exec_to_proto p = Ok q ∧ proto_to_exec q = Ok p.

Lemma unary_trip op i :
  trips i → built_exec (Exec op [i]) → trips (Exec op [i]).
Proof.
  intros (q & Hq & Hi) Hb.
  destruct op as [exprs|e|n|n| |mode groups aggs schema| |n| | | |exprs| | | | |]; simpl in Hb; try done;
    unfold trips; cbn [exec_to_proto].
  - destruct Hb as (_ & He & Hb). destruct (named_trip _ _ He) as (qs & Hqs & Hc).
    rewrite Hq, Hqs. eexists. split; [done|]. cbn [proto_to_exec convert_required]. by rewrite Hi, Hc, Hb.
  - destruct Hb as (_ & He & Hb). destruct (recompiles_trip _ _ He) as (qe & Hqe & Hc).
    rewrite Hq, Hqe. eexists. split; [done|]. cbn [proto_to_exec convert_required ok_or]. by rewrite Hi, Hc, Hb.
  - destruct Hb as (_ & Hn). rewrite Hq. eexists. split; [done|].
    cbn [proto_to_exec convert_required]. by rewrite Hi, as_usize_as_u32.
  - destruct Hb as (_ & Hn). rewrite Hq. eexists. split; [done|].
    cbn [proto_to_exec convert_required]. by rewrite Hi, as_usize_as_u32.
  - destruct Hb as (_ & Hg & Ha & Hs & Hb). rewrite Hq.
    destruct (hash_aggregate_trip _ _ _ _ _ _ _ Hi Hg Ha Hs Hb) as (t & -> & Hd). by eexists.
  - destruct Hb as (_ & Hn). rewrite Hq. eexists. split; [done|].
    cbn [proto_to_exec convert_required]. by rewrite Hi, as_usize_as_u32.
  - rewrite Hq. eexists. split; [done|]. cbn [proto_to_exec convert_required]. by rewrite Hi.
  - destruct Hb as (_ & He & Hb). destruct (sort_trip _ _ He) as (qs & Hqs & Hc).
    rewrite Hq, Hqs. eexists. split; [done|]. cbn [proto_to_exec convert_required]. by rewrite Hi, Hc, Hb.
Qed.

(** The leaves. *)
Lemma leaf_trip op : built_exec (Exec op []) → trips (Exec op []).
Proof.
  intros Hb. destruct op as [| | | | | |one schema| |path fn projection ext schema hh delimiter
    |parts proj bs| | | | |ids schema count|locs schema|]; simpl in Hb; try done;
    unfold trips; cbn [exec_to_proto].
  - eexists. split; [done|]. cbn [proto_to_exec]. by rewrite exact_schema_trip.
  - destruct Hb as (proj & d & -> & -> & Hp & Hd & Hs & Hb).
    destruct (delimiter_trip d Hd) as (c & Hc & Hd'). unfold csv_exec_to_proto. cbn [ok_or]. rewrite Hc.
    eexists. split; [done|]. cbn [proto_to_exec]. unfold csv_exec_from_proto.
    rewrite exact_schema_trip by done. by rewrite Hd', u32_list_trip, Hb.
  - destruct Hb as (Hp & Hbs & Hn & Hb). eexists. split; [done|]. cbn [proto_to_exec].
    by rewrite u32_list_trip, !as_usize_as_u32, Hb.
  - destruct Hb as (Hi & Hn & Hs). eexists. split; [done|]. cbn [proto_to_exec].
    rewrite exact_schema_trip by done. by rewrite u32_list_trip, as_usize_as_u32.
  - destruct Hb as (Hl & Hs). destruct (locations_trip _ Hl) as (qs & -> & Hd). eexists. split; [done|].
    cbn [proto_to_exec]. rewrite exact_schema_trip by done. by rewrite Hd.
Qed.

Lemma exec_trip p : built_exec p → trips p.
Proof.
  induction p as [op cs IH] using plan_ind. intros Hb.
  destruct cs as [|c [|r [|? ?]]].
  - by apply leaf_trip.
  - apply unary_trip; [|done]. apply Forall_cons in IH as [IH _]. apply IH.
    by destruct op; simpl in Hb; try done; destruct Hb.
  - destruct op as [| | | |on t| | | | | | | | | | | |]; try done. simpl in Hb.
    destruct Hb as (Hl & Hr & Hb).
    apply Forall_cons in IH as [IHl IH]. apply Forall_cons in IH as [IHr _].
    destruct (IHl Hl) as (ql & El & Dl), (IHr Hr) as (qr & Er & Dr).
    unfold trips. cbn [exec_to_proto]. rewrite El, Er. eexists. split; [done|].
    cbn [proto_to_exec convert_required]. rewrite Dl, Dr, from_i32_to_i32. cbn [ok_or].
    by rewrite join_type_trip, Hb.
  - by destruct op.
Qed.
End trip_plan.

(** ** Properties *)

(** A physical expression is encoded exactly as the logical expression it
    computes: the two have the same message, or neither has one. *)
Theorem physical_expr_encoding `{PhysicalPlanner} e l :
  decompile e = Some l → ok (physical_expr_to_proto e) = ok (expr_to_proto l).
Proof. apply encodes_all. Qed.

(** A compiler for columns, literals and binary expressions and constructors
    that build the operator, for the witnesses. *)
Fixpoint sample_compile (e : Expr) : DFResult PhysicalExpr :=
  match e with
  | E_Column n => Ok (PE_Column n)
  | E_Literal v => Ok (PE_Literal v)
  | E_BinaryExpr l op r =>
      let? l := sample_compile l in let? r := sample_compile r in Ok (PE_BinaryExpr l op r)
  | _ => Err (DF_Other "unsupported")
  end.
Definition sample_physical_planner : PhysicalPlanner := {|
  builtin_from_str name :=
    if bool_decide (name = "sqrt") then Ok BF_Sqrt
    else if bool_decide (name = "asin") then Ok BF_Asin else Err (DF_Plan name);
  create_physical_expr e _ := sample_compile e;
  create_aggregate_expr f _ args _ name :=
    Ok (mkAggregateExpr (match f with AF_Avg => AK_Avg | AF_Sum => AK_Sum | AF_Count => AK_Count
      | _ => AK_Other end) args (Ok (Field_new name DT_Float64 true)));
  ProjectionExec_try_new es i := Ok (Exec (X_Projection es) [i]);
  FilterExec_try_new e i := Ok (Exec (X_Filter e) [i]);
  CsvExec_try_new path o proj bs :=
    Ok (Exec (X_Csv path [] proj (csv_file_extension o) (csv_schema o) (csv_has_header o)
          (Some (csv_delimiter o)) bs) []);
  ParquetExec_try_from_files files proj predicate bs n :=
    Ok (Exec (X_Parquet [files] (default [] proj) bs predicate) []);
  HashAggregateExec_try_new m g a i s := Ok (Exec (X_HashAggregate m g a s) [i]);
  HashJoinExec_try_new l r on t := Ok (Exec (X_HashJoin on t) [l; r]);
  SortExec_try_new es i := Ok (Exec (X_Sort es) [i]);
|}.
Definition sample_exec_methods : ExecutionPlanMethods := {|
  df_schema op cs := mkSchema [];
  df_partition_count op cs := 1;
  df_with_new_children op cs cs' := Ok (Exec op cs');
|}%Z.

Lemma physical_expr_encoding_witness :
  ok (@physical_expr_to_proto sample_physical_planner
        (PE_Not (PE_ScalarFunction "sqrt" [PE_Column "x"]))) =
  ok (expr_to_proto (E_Not (E_ScalarFunction BF_Sqrt [E_Column "x"]))).
Proof. apply (@physical_expr_encoding sample_physical_planner). reflexivity. Defined.

(** C18 — A physical plan whose operators DataFusion rebuilds from their parts,
    whose expressions DataFusion recompiles and whose integers fit the
    messages can be encoded, and decoding gives back exactly the plan:
    shuffle readers keep all their locations in order, unresolved shuffles
    their stage ids and partition count.  (The decoder makes Parquet scans
    without a pruning predicate and CSV scans with batches of 32768 rows, so a
    scan that has another is not rebuilt from its parts.) *)
Theorem exec_plan_roundtrip `{PhysicalPlanner} `{ExprBuildersOk} `{ExecutionPlanMethods} p :
  built_exec p → ∃ q, exec_to_proto p = Ok q ∧ proto_to_exec q = Ok p.
Proof. apply exec_trip. Qed.

Definition sample_exec_plan : ExecutionPlan :=
  Exec (X_HashAggregate Final [(PE_Column "k", "k")]
         [mkAggregateExpr AK_Sum [PE_Column "v"] (Ok (Field_new "SUM(v)" DT_Float64 true))]
         (mkSchema [Field_new "v" DT_Int64 false]))
    [Exec (X_Filter (PE_BinaryExpr (PE_Column "v") Op_Lt (PE_Literal (SV_Int64 (Some 9%Z)))))
       [Exec (X_UnresolvedShuffle [1; 4]%Z (mkSchema [Field_new "v" DT_Int64 false]) 8) []]].

Lemma exec_plan_roundtrip_witness :
  ∃ q, @exec_to_proto sample_physical_planner sample_exec_plan = Ok q ∧
    @proto_to_exec sample_physical_planner direct_builders sample_exec_methods q = Ok sample_exec_plan.
Proof.
  apply (@exec_plan_roundtrip sample_physical_planner direct_builders direct_builders_ok
    sample_exec_methods sample_exec_plan).
  assert (exact_schema (mkSchema [Field_new "v" DT_Int64 false])) as Hs by (split; repeat constructor).
  assert (∀ n s, @recompiles sample_physical_planner s (PE_Column n)) as Hc.
  { intros n s. exists (E_Column n). split; [reflexivity|]. split; [split; [exact I|reflexivity]|reflexivity]. }
  unfold sample_exec_plan. cbn [built_exec]. split_and!.
  - repeat constructor; discriminate.
  - split; [discriminate|reflexivity].
  - exact Hs.
  - exists (E_BinaryExpr (E_Column "v") Op_Lt (E_Literal (SV_Int64 (Some 9%Z)))).
    split; [reflexivity|]. split; [|reflexivity]. split; [vm_compute; repeat split|reflexivity].
  - reflexivity.
  - constructor; [apply Hc|constructor].
  - constructor; [|constructor].
    exists AF_Sum, (PE_Column "v"), (Field_new "SUM(v)" DT_Float64 true). split_and!; try reflexivity. apply Hc.
  - exact Hs.
  - reflexivity.
Defined.
