(* ===== verification/SerdeTests.v ===== *)
(** * The round-trip tests of the serde layer

    The unit tests of src/rust/core/src/serde/logical_plan/mod.rs and
    physical_plan/mod.rs as functions of the model, and that they pass: for
    every DataFusion whose builders and constructors make the nodes they are
    asked for, and for every [Debug] text, which is all the tests compare. *)

From S2P Require Import Prelude Proto Arrow Scalar Expr LogicalPlan SchedTypes ExecPlan Physical.

(** ** What the tests use of the language *)

(** [format!("{:?}", x)] of a value of DataFusion or Arrow. *)
Class Debug (A : Type) := debug : A → string.

(** [assert_eq!]. *)
Definition assert_eq {A} `{EqDecision A} (a b : A) : Result unit :=
  if decide (a = b) then Ok () else Panic "assertion failed: `(left == right)`".

(** A [for] loop over a body that may fail. *)
Definition for_each {A} (l : list A) (f : A → Result unit) : Result unit :=
  rmap (λ _, ()) (rmapM f l).

Lemma for_each_ok {A} (l : list A) f : Forall (λ x, f x = Ok ()) l → for_each l f = Ok ().
Proof. unfold for_each. induction 1 as [|x l Hx _ IH]; [done|]. simpl. rewrite Hx. by destruct (rmapM f l). Qed.

(** The macro [roundtrip_test!]. *)
Definition roundtrip_test {A B} `{Debug A} (to_proto : A → Result B) (from_proto : B → Result A)
    (initial_struct : A) : Result unit :=
  let? proto := to_proto initial_struct in
  let? round_trip := from_proto proto in
  assert_eq (debug initial_struct) (debug round_trip).

(** It passes for a value that survives, whatever its text. *)
Definition survives {A B} (to_proto : A → Result B) (from_proto : B → Result A) (x : A) : Prop :=
  ∃ m, to_proto x = Ok m ∧ from_proto m = Ok x.

Lemma assert_eq_refl {A} `{EqDecision A} (a : A) : assert_eq a a = Ok ().
Proof. unfold assert_eq. by rewrite decide_True. Qed.

Lemma roundtrip_test_passes {A B} `{Debug A} to_proto (from_proto : B → Result A) x :
  survives to_proto from_proto x → roundtrip_test to_proto from_proto x = Ok ().
Proof. intros (m & Hm & Hx). unfold roundtrip_test. rewrite Hm, Hx. apply assert_eq_refl. Qed.

Lemma roundtrip_tests_pass {A B} `{Debug A} to_proto (from_proto : B → Result A) l :
  Forall (survives to_proto from_proto) l → for_each l (roundtrip_test to_proto from_proto) = Ok ().
Proof. intros Hl. apply for_each_ok. eapply Forall_impl; [exact Hl|]. intros x. apply roundtrip_test_passes. Qed.

(** A test that builds its plan first. *)
Lemma built_test {A} (make : DFResult A) (body : A → Result unit) :
  is_ok make = true → (∀ p, make = Ok p → body p = Ok ()) → (let? plan := lift_df make in body plan) = Ok ().
Proof. destruct make as [p| |]; [|done..]. intros _ Hp. by apply Hp. Qed.

(** Closed values are tried out. *)
Ltac survive := eexists; split; [vm_compute; reflexivity|vm_compute; reflexivity].
Ltac survive_all := repeat (apply Forall_cons; split; [survive|]); constructor.

(** ** Types and scalar values *)

Module scalar_tests.

Definition new_box_field (name : string) (dt : DataType) (nullable : bool) : Field := Field_new name dt nullable.

(** The floats of the tests, as bits. *)
Definition f32_32_0 : Z := 0x42000000.
Definition f32_m213_1 : Z := 3277134234.
Definition f32_5_5 : Z := 0x40B00000.
Definition f32_2_0 : Z := 0x40000000.
Definition f32_1_0 : Z := 0x3F800000.
Definition f64_1_0 : Z := 0x3FF0000000000000.

Definition floats : list ScalarValue :=
  [SV_Float32 (Some f32_m213_1); SV_Float32 None; SV_Float32 (Some f32_5_5);
   SV_Float32 (Some f32_2_0); SV_Float32 (Some f32_1_0)].

Definition should_fail_on_seralize : list ScalarValue :=
  [SV_List (Some [SV_Int16 None; SV_Float32 (Some f32_32_0)]) (DT_List (new_box_field "item" DT_Int16 true));
   SV_List (Some [SV_Float32 None; SV_Float32 (Some f32_32_0)]) (DT_List (new_box_field "item" DT_Int16 true));
   SV_List (Some [
      SV_List None (DT_List (new_box_field "level2" DT_Float32 true));
      SV_List (Some floats) (DT_List (new_box_field "level2" DT_Float32 true));
      SV_List None (DT_List (new_box_field "lists are typed inconsistently" DT_Int16 true))])
    (DT_List (new_box_field "level1" (DT_List (new_box_field "level2" DT_Float32 true)) true))].

Definition scalar_values_error_serialization : Result unit :=
  for_each should_fail_on_seralize (λ test_case,
    match scalar_value_to_proto test_case with
    | Ok _ => Err (General "The value {:?} should not have been able to serialize. Serialized to :{:?}")
    | Err _ => Ok ()
    | Panic m => Panic m
    end).

Definition scalar_values_should_pass : list ScalarValue :=
  [SV_Boolean None; SV_Float32 None; SV_Float64 None; SV_Int8 None; SV_Int16 None; SV_Int32 None; SV_Int64 None;
   SV_UInt8 None; SV_UInt16 None; SV_UInt32 None; SV_UInt64 None; SV_Utf8 None; SV_LargeUtf8 None;
   SV_List None DT_Boolean; SV_Date32 None; SV_TimeMicrosecond None; SV_TimeNanosecond None;
   SV_Boolean (Some true); SV_Boolean (Some false);
   SV_Float32 (Some f32_1_0); SV_Float32 (Some 0x7F7FFFFF); SV_Float32 (Some 0xFF7FFFFF); SV_Float32 (Some 0xC4FA0000);
   SV_Float64 (Some f64_1_0); SV_Float64 (Some 0x7FEFFFFFFFFFFFFF); SV_Float64 (Some 0xFFEFFFFFFFFFFFFF);
   SV_Float64 (Some 0xC09F400000000000);
   SV_Int8 (Some (- 2 ^ 7)); SV_Int8 (Some (2 ^ 7 - 1)); SV_Int8 (Some 0); SV_Int8 (Some (-15));
   SV_Int16 (Some (- 2 ^ 15)); SV_Int16 (Some (2 ^ 15 - 1)); SV_Int16 (Some 0); SV_Int16 (Some (-15));
   SV_Int32 (Some (- 2 ^ 31)); SV_Int32 (Some (2 ^ 31 - 1)); SV_Int32 (Some 0); SV_Int32 (Some (-15));
   SV_Int64 (Some (- 2 ^ 63)); SV_Int64 (Some (2 ^ 63 - 1)); SV_Int64 (Some 0); SV_Int64 (Some (-15));
   SV_UInt8 (Some (2 ^ 8 - 1)); SV_UInt8 (Some 0); SV_UInt16 (Some (2 ^ 16 - 1)); SV_UInt16 (Some 0);
   SV_UInt32 (Some (2 ^ 32 - 1)); SV_UInt32 (Some 0); SV_UInt64 (Some (2 ^ 64 - 1)); SV_UInt64 (Some 0);
   SV_Utf8 (Some "Test string   "); SV_LargeUtf8 (Some "Test Large utf8");
   SV_Date32 (Some 0); SV_Date32 (Some (2 ^ 31 - 1));
   SV_TimeNanosecond (Some 0); SV_TimeNanosecond (Some (2 ^ 63 - 1));
   SV_TimeMicrosecond (Some 0); SV_TimeMicrosecond (Some (2 ^ 63 - 1)); SV_TimeMicrosecond None;
   SV_List (Some floats) (DT_List (new_box_field "level1" DT_Float32 true));
   SV_List (Some [
      SV_List None (DT_List (new_box_field "level2" DT_Float32 true));
      SV_List (Some floats) (DT_List (new_box_field "level2" DT_Float32 true))])
    (DT_List (new_box_field "level1" (DT_List (new_box_field "level2" DT_Float32 true)) true))]%Z.

Definition round_trip_scalar_values : Result unit :=
  for_each scalar_values_should_pass (λ test_case,
    let? proto := scalar_value_to_proto test_case in
    let? _ := proto_to_scalar_value proto in
    Ok ()).

(** The values of the test [roundtrip_null_scalar_values]. *)
Definition null_scalars : list ScalarValue :=
  [SV_Boolean None; SV_Float32 None; SV_Float64 None; SV_Int8 None; SV_Int16 None; SV_Int32 None; SV_Int64 None;
   SV_UInt8 None; SV_UInt16 None; SV_UInt32 None; SV_UInt64 None; SV_Utf8 None; SV_LargeUtf8 None;
   SV_Date32 None; SV_TimeMicrosecond None; SV_TimeNanosecond None].

Definition roundtrip_null_scalar_values `{Debug ScalarValue} : Result unit :=
  for_each null_scalars (roundtrip_test scalar_value_to_proto proto_to_scalar_value).
End scalar_tests.

(** The tests of scalar values pass; their tables reach the ends of every
    integer range and nest lists two deep. *)
Theorem scalar_value_tests_pass `{Debug ScalarValue} :
  scalar_tests.scalar_values_error_serialization = Ok () ∧
  scalar_tests.round_trip_scalar_values = Ok () ∧
  scalar_tests.roundtrip_null_scalar_values = Ok ().
Proof.
  split; [vm_compute; reflexivity|]. split; [vm_compute; reflexivity|].
  apply roundtrip_tests_pass. survive_all.
Qed.

Module type_tests.
Import scalar_tests.

Definition types_should_pass : list DataType :=
  [DT_Boolean; DT_Int8; DT_Int16; DT_Int32; DT_Int64; DT_UInt8; DT_UInt16; DT_UInt32; DT_UInt64;
   DT_Float32; DT_Float64; DT_Date32; DT_Time64 Microsecond; DT_Time64 Nanosecond; DT_Utf8; DT_LargeUtf8;
   DT_List (new_box_field "Level1" DT_Boolean true);
   DT_List (new_box_field "Level1" (DT_List (new_box_field "Level2" DT_Date32 true)) true)].

(** The structs of the tests. *)
Definition plain_fields : list Field :=
  [Field_new "nullable" DT_Boolean false; Field_new "name" DT_Utf8 false; Field_new "datatype" DT_Binary false].
Definition nested_fields : list Field :=
  plain_fields ++ [Field_new "nested_struct" (DT_Struct plain_fields) true].

(** The nested types both tests end with. *)
Definition nested_types : list DataType :=
  [DT_List (new_box_field "Level1" DT_Binary true);
   DT_List (new_box_field "Level1" (DT_List (new_box_field "Level2" (DT_FixedSizeBinary 53) false)) true);
   DT_FixedSizeList (new_box_field "Level1" DT_Binary true) 4;
   DT_FixedSizeList
     (new_box_field "Level1" (DT_List (new_box_field "Level2" (DT_FixedSizeBinary 53) false)) true) 41;
   DT_Struct plain_fields; DT_Struct nested_fields; DT_Union plain_fields; DT_Union nested_fields;
   DT_Dictionary DT_Utf8 (DT_Struct plain_fields);
   DT_Dictionary (DT_Decimal 10 50) (DT_FixedSizeList (new_box_field "Level1" DT_Binary true) 4)].

Definition types_should_fail : list DataType :=
  [DT_Null; DT_Float16; DT_Timestamp Millisecond None; DT_Date64;
   DT_Time32 Second; DT_Time32 Millisecond; DT_Time32 Microsecond; DT_Time32 Nanosecond;
   DT_Time64 Second; DT_Time64 Millisecond;
   DT_Duration Second; DT_Duration Millisecond; DT_Duration Microsecond; DT_Duration Nanosecond;
   DT_Interval YearMonth; DT_Interval DayTime; DT_Binary;
   DT_FixedSizeBinary 0; DT_FixedSizeBinary 1234; DT_FixedSizeBinary (-432); DT_LargeBinary; DT_Decimal 1345 5431]
  ++ nested_types.

Definition round_trip_scalar_types `{Debug DataType} : Result unit :=
  let? _ := for_each types_should_pass (roundtrip_test datatype_to_scalar_type scalar_type_to_datatype) in
  match List.filter (λ test_case, is_ok (datatype_to_scalar_type test_case)) types_should_fail with
  | [] => Ok ()
  | _ => Err (General "The following items which should have ressulted in an error completed successfully: {:?}")
  end.

Definition datatype_test_cases : list DataType :=
  [DT_Null; DT_Boolean; DT_Int8; DT_Int16; DT_Int32; DT_Int64; DT_UInt8; DT_UInt16; DT_UInt32; DT_UInt64;
   DT_Float16; DT_Float32; DT_Float64; DT_Timestamp Millisecond None; DT_Date32; DT_Date64;
   DT_Time32 Second; DT_Time32 Millisecond; DT_Time32 Microsecond; DT_Time32 Nanosecond;
   DT_Time64 Second; DT_Time64 Millisecond; DT_Time64 Microsecond; DT_Time64 Nanosecond;
   DT_Duration Second; DT_Duration Millisecond; DT_Duration Microsecond; DT_Duration Nanosecond;
   DT_Interval YearMonth; DT_Interval DayTime; DT_Binary;
   DT_FixedSizeBinary 0; DT_FixedSizeBinary 1234; DT_FixedSizeBinary (-432); DT_LargeBinary;
   DT_Utf8; DT_LargeUtf8; DT_Decimal 1345 5431]
  ++ nested_types.

Definition round_trip_datatype `{Debug DataType} : Result unit :=
  for_each datatype_test_cases (roundtrip_test (λ t, Ok (datatype_to_arrow_type t)) arrow_type_to_datatype).
End type_tests.

(** The tests of the types pass: those that scalars may have survive as scalar
    types and the others are refused, and all of them survive as Arrow types. *)
Theorem type_tests_pass `{Debug DataType} :
  type_tests.round_trip_scalar_types = Ok () ∧ type_tests.round_trip_datatype = Ok ().
Proof.
  split.
  - unfold type_tests.round_trip_scalar_types. rewrite roundtrip_tests_pass; [vm_compute; reflexivity|].
    unfold type_tests.types_should_pass. survive_all.
  - apply roundtrip_tests_pass. unfold type_tests.datatype_test_cases, type_tests.nested_types. simpl. survive_all.
Qed.

(** ** Expressions *)

Module expr_tests.
Section tests.
Context `{ExprBuilders} `{Debug Expr}.

(** [Expr::Literal((x).into())] of an [f64], by its bits. *)
Definition literal (bits : Z) : Expr := E_Literal (SV_Float64 (Some bits)).
Definition f64_2_0 : Z := 0x4000000000000000.
Definition f64_3_0 : Z := 0x4008000000000000.
Definition f64_4_0 : Z := 0x4010000000000000.

Definition roundtrip_expr : Expr → Result unit := roundtrip_test expr_to_proto proto_to_expr.

Definition roundtrip_not : Result unit := roundtrip_expr (E_Not (literal scalar_tests.f64_1_0)).
Definition roundtrip_is_null : Result unit := roundtrip_expr (E_IsNull (E_Column "id")).
Definition roundtrip_is_not_null : Result unit := roundtrip_expr (E_IsNotNull (E_Column "id")).
Definition roundtrip_between : Result unit :=
  roundtrip_expr (E_Between (literal scalar_tests.f64_1_0) true (literal f64_2_0) (literal f64_3_0)).
Definition roundtrip_case : Result unit :=
  roundtrip_expr (E_Case (Some (literal scalar_tests.f64_1_0)) [(literal f64_2_0, literal f64_3_0)]
    (Some (literal f64_4_0))).
Definition roundtrip_cast : Result unit := roundtrip_expr (E_Cast (literal scalar_tests.f64_1_0) DT_Boolean).
Definition roundtrip_sort_expr : Result unit := roundtrip_expr (E_Sort (literal scalar_tests.f64_1_0) true true).
Definition roundtrip_negative : Result unit := roundtrip_expr (E_Negative (literal scalar_tests.f64_1_0)).
Definition roundtrip_inlist : Result unit :=
  roundtrip_expr (E_InList (literal scalar_tests.f64_1_0) [literal f64_2_0] true).
Definition roundtrip_wildcard : Result unit := roundtrip_expr E_Wildcard.
Definition roundtrip_sqrt : Result unit := roundtrip_expr (E_ScalarFunction BF_Sqrt [E_Column "col"]).

Definition all : list (Result unit) :=
  [roundtrip_not; roundtrip_is_null; roundtrip_is_not_null; roundtrip_between; roundtrip_case; roundtrip_cast;
   roundtrip_sort_expr; roundtrip_negative; roundtrip_inlist; roundtrip_wildcard; roundtrip_sqrt].
End tests.
End expr_tests.

(** An expression without nested lists is carried in full if it computes. *)
Lemma exact_survives `{ExprBuildersOk} e : exact_expr e → survives expr_to_proto proto_to_expr e.
Proof. apply exact_trip. Qed.

(** The tests of expressions pass. *)
Theorem expr_tests_pass `{ExprBuildersOk} `{Debug Expr} : Forall (λ test, test = Ok ()) expr_tests.all.
Proof.
  repeat (apply Forall_cons; split; [apply roundtrip_test_passes, exact_survives; split; [|reflexivity];
    vm_compute; repeat split; done|]). constructor.
Qed.

(** ** Logical plans *)

(** The plan builder makes the nodes it is asked for, with schemas of its own,
    or refuses; a schema of DataFusion made from one of Arrow has its fields. *)
Class BuilderNodes (DFSchema : Type) `{DataFusion DFSchema} := {
  scan_csv_node path o proj p : builder_scan_csv path o proj = Ok p → ∃ name schema,
    p = LP_TableScan name (Src_CsvFile path (csv_schema o) (csv_has_header o) (csv_delimiter o)
          (csv_file_extension o)) schema [] proj;
  sort_node input es p : builder_sort input es = Ok p → p = LP_Sort input es;
  repartition_node input scheme : builder_repartition input scheme = Ok (LP_Repartition input scheme);
  aggregate_node input gs aggs p : builder_aggregate input gs aggs = Ok p → ∃ schema, p = LP_Aggregate input gs aggs schema;
  explain_node input verbose p : builder_explain input verbose = Ok p → ∃ schema, p = LP_Explain verbose input schema;
  empty_node one p : builder_empty one = Ok p → ∃ schema, p = LP_EmptyRelation one schema;
  join_node l r t lk rk p : length lk = length rk → builder_join l r t lk rk = Ok p →
    ∃ schema, p = LP_Join l r (zip lk rk) t schema;
  dfschema_fields s d : schema_to_dfschema s = Ok d → dfschema_to_schema d = s;
}.

Module plan_tests.
Section tests.
Context {DFSchema : Type} `{DataFusion DFSchema} `{ExprBuilders} `{Debug (LogicalPlan DFSchema)}.

Definition roundtrip_plan : LogicalPlan DFSchema → Result unit := roundtrip_test plan_to_proto proto_to_plan.

Definition employee_schema : Schema := mkSchema
  [Field_new "id" DT_Int32 false; Field_new "first_name" DT_Utf8 false; Field_new "last_name" DT_Utf8 false;
   Field_new "state" DT_Utf8 false; Field_new "salary" DT_Int32 false].
(** [CsvReadOptions::new().schema(&schema).has_header(true)]. *)
Definition employee_options : CsvReadOptions := mkCsvReadOptions employee_schema 44 ".csv" true.
Definition scan_employees : DFResult (LogicalPlan DFSchema) :=
  builder_scan_csv "employee.csv" employee_options (Some [3; 4]%Z).
Definition sorted_employees : DFResult (LogicalPlan DFSchema) :=
  let? plan := scan_employees in builder_sort plan [E_Column "salary"].

Definition test_batch_sizes : list Z := [0; 2 ^ 64 - 1; 43256]%Z.
Definition test_expr : list Expr :=
  [E_BinaryExpr (E_Column "c1") Op_Plus (E_Column "c2"); expr_tests.literal expr_tests.f64_4_0].
Definition roundtrip_repartition : Result unit :=
  let? plan := lift_df sorted_employees in
  for_each test_batch_sizes (λ batch_size,
    let? _ := roundtrip_plan (LP_Repartition plan (RoundRobinBatch batch_size)) in
    let? _ := roundtrip_plan (LP_Repartition plan (Hash test_expr batch_size)) in
    roundtrip_plan (LP_Repartition plan (Hash [] batch_size))).

Definition roundtrip_create_external_table : Result unit :=
  let? df_schema_ref := lift_df (schema_to_dfschema employee_schema) in
  for_each [FT_NdJson; FT_Parquet; FT_CSV] (λ file,
    roundtrip_plan (LP_CreateExternalTable df_schema_ref "TestName" "employee.csv" file true)).

Definition explained (verbose : bool) : DFResult (LogicalPlan DFSchema) :=
  let? plan := sorted_employees in builder_explain plan verbose.
Definition roundtrip_explain : Result unit :=
  let? verbose_plan := lift_df (explained true) in
  let? plan := lift_df (explained false) in
  let? _ := roundtrip_plan plan in
  roundtrip_plan verbose_plan.

Definition joined (scan_plan : LogicalPlan DFSchema) : DFResult (LogicalPlan DFSchema) :=
  let? plan := scan_employees in builder_join plan scan_plan Join_Inner ["id"] ["id"].
Definition roundtrip_join : Result unit :=
  let? scan_plan := lift_df (builder_empty false) in
  let? plan := lift_df (joined scan_plan) in
  roundtrip_plan plan.

Definition roundtrip_sort : Result unit :=
  let? plan := lift_df sorted_employees in roundtrip_plan plan.

Definition roundtrip_empty_relation : Result unit :=
  let? plan_false := lift_df (builder_empty false) in
  let? _ := roundtrip_plan plan_false in
  let? plan_true := lift_df (builder_empty true) in
  roundtrip_plan plan_true.

Definition aggregated : DFResult (LogicalPlan DFSchema) :=
  let? plan := scan_employees in
  builder_aggregate plan [E_Column "state"] [E_AggregateFunction AF_Max [E_Column "salary"] false].
Definition roundtrip_logical_plan : Result unit :=
  let? plan := lift_df aggregated in roundtrip_plan plan.

Definition all : list (Result unit) :=
  [roundtrip_repartition; roundtrip_create_external_table; roundtrip_explain; roundtrip_join; roundtrip_sort;
   roundtrip_empty_relation; roundtrip_logical_plan].
End tests.
End plan_tests.

Section plan_tests.
Context {DFSchema : Type} `{DataFusionOk DFSchema} `{!BuilderNodes DFSchema} `{ExprBuildersOk}.
Context `{Debug (LogicalPlan DFSchema)}.
Import plan_tests.
Implicit Types p : LogicalPlan DFSchema.

Lemma built_passes p : built p → roundtrip_plan p = Ok ().
Proof. intros Hp. apply roundtrip_test_passes, plan_trip, Hp. Qed.

Lemma employees_built p : scan_employees = Ok p → built p.
Proof.
  intros E. destruct (scan_csv_node _ _ _ _ E) as (name & schema & ->). split_and!; [repeat constructor| |constructor|done|done|done|done].
  split; [apply (bool_decide_unpack _); vm_compute; exact I|]. repeat constructor; simpl; lia.
Qed.
Lemma sorted_built p : sorted_employees = Ok p → built p.
Proof.
  unfold sorted_employees. destruct scan_employees as [plan| |] eqn:E; intros Hs; try discriminate.
  pose proof (employees_built _ E). pose proof (sort_node _ _ _ Hs) as ->. split_and!; [done|by repeat constructor|done].
Qed.

Lemma repartition_built p scheme :
  built p → match scheme with RoundRobinBatch b => in_u 64 b | Hash es b => in_u 64 b ∧ Forall exact_expr es end →
  built (LP_Repartition p scheme).
Proof. intros Hp Hs. split_and!; [done|apply repartition_node|done]. Qed.
Lemma explained_built p v : explained v = Ok p → built p.
Proof.
  unfold explained. destruct sorted_employees as [plan| |] eqn:E; intros Hs; try discriminate.
  destruct (explain_node _ _ _ Hs) as [schema ->]. split; [by apply sorted_built|done].
Qed.
Lemma empty_built p one : builder_empty one = Ok p → built p.
Proof. intros E. by destruct (empty_node _ _ E) as [schema ->]. Qed.
Lemma joined_built p l : built l → joined l = Ok p → built p.
Proof.
  unfold joined. destruct scan_employees as [plan| |] eqn:E; intros Hl Hs; try discriminate.
  destruct (join_node _ _ _ _ _ _ eq_refl Hs) as [schema ->]. split_and!; [by apply employees_built|done|exact Hs].
Qed.
Lemma aggregated_built p : aggregated = Ok p → built p.
Proof.
  unfold aggregated. destruct scan_employees as [plan| |] eqn:E; intros Hs; try discriminate.
  destruct (aggregate_node _ _ _ _ Hs) as [schema ->]. split_and!; [by apply employees_built|by repeat constructor..|exact Hs].
Qed.

(** DataFusion builds the plans of the tests. *)
Definition plans_build : Prop :=
  is_ok sorted_employees = true ∧ is_ok (schema_to_dfschema employee_schema) = true ∧
  (∀ v, is_ok (explained v) = true) ∧ (∀ one, is_ok (builder_empty one) = true) ∧
  (∀ l, builder_empty false = Ok l → is_ok (joined l) = true) ∧ is_ok aggregated = true.

(** The tests of logical plans pass, whatever schemas DataFusion gives their
    plans: repartitionings by every batch size up to the largest [usize],
    external tables of every file type, explanations, joins, sorts, empty
    relations and aggregations of a projected scan survive the messages. *)
Theorem plan_tests_pass : plans_build → Forall (λ test, test = Ok ()) all.
Proof.
  intros (Hsort & Hschema & Hexp & Hempty & Hjoin & Hagg). unfold all.
  repeat (apply Forall_cons; split); [..|constructor].
  - apply built_test; [done|]. intros p Hp%sorted_built. apply for_each_ok.
    assert (Forall exact_expr test_expr) by (repeat constructor).
    repeat (apply Forall_cons; split); [..|constructor];
      rewrite !built_passes; try done; by apply repartition_built.
  - unfold roundtrip_create_external_table. destruct (schema_to_dfschema employee_schema) as [d| |] eqn:E; [|done..].
    apply for_each_ok, Forall_forall. intros file _. apply built_passes.
    simpl. rewrite (dfschema_fields _ _ E). split; [by repeat constructor|exact E].
  - unfold roundtrip_explain. apply built_test; [done|]. intros pv Hv%explained_built.
    apply built_test; [done|]. intros p Hp%explained_built. by rewrite !built_passes.
  - apply built_test; [done|]. intros l Hl. apply built_test; [by apply Hjoin|]. intros p Hp.
    by eapply built_passes, joined_built, Hp; eapply empty_built.
  - apply built_test; [done|]. intros p Hp%sorted_built. by apply built_passes.
  - apply built_test; [done|]. intros p Hp%empty_built. rewrite built_passes by done.
    apply built_test; [done|]. intros p' Hp'%empty_built. by apply built_passes.
  - apply built_test; [done|]. intros p Hp%aggregated_built. by apply built_passes.
Qed.
End plan_tests.

Lemma direct_builder_nodes : @BuilderNodes Schema direct_datafusion.
Proof. split; intros; simplify_eq/=; eauto. Qed.

Lemma plan_tests_pass_witness : @plan_tests.all Schema direct_datafusion direct_builders (λ _, "") = repeat (Ok ()) 7.
Proof.
  pose proof (@plan_tests_pass Schema direct_datafusion direct_datafusion_ok direct_builder_nodes direct_builders
    direct_builders_ok (λ _, "")) as Hpass.
  assert (Forall (λ test, test = Ok ()) (@plan_tests.all Schema direct_datafusion direct_builders (λ _, ""))) as Hall.
  { apply Hpass. by split_and!. }
  clear Hpass. repeat (apply Forall_cons in Hall as [-> Hall]). reflexivity.
Defined.

(** ** Physical plans *)

(** [expressions::binary], which checks the types of its operands. *)
Class BinaryBuilder := binary : PhysicalExpr → Operator → PhysicalExpr → Schema → DFResult PhysicalExpr.

Module physical_tests.
Section tests.
Context `{PhysicalPlanner} `{BinaryBuilder} `{ExprBuilders} `{ExecutionPlanMethods} `{Debug ExecutionPlan}.

Definition roundtrip_exec (exec_plan : ExecutionPlan) : Result unit :=
  let? proto := exec_to_proto exec_plan in
  let? result_exec_plan := proto_to_exec proto in
  assert_eq (debug exec_plan) (debug result_exec_plan).

(** [EmptyExec::new(false, schema)]. *)
Definition empty_exec (schema : Schema) : ExecutionPlan := Exec (X_Empty false schema) [].
Definition column (name : string) : PhysicalExpr := PE_Column name.
(** [Avg::new]. *)
Definition avg_of (e : PhysicalExpr) (name : string) (data_type : DataType) : AggregateExpr :=
  mkAggregateExpr AK_Avg [e] (Ok (Field_new name data_type true)).

Definition roundtrip_empty : Result unit := roundtrip_exec (empty_exec (mkSchema [])).
Definition roundtrip_local_limit : Result unit :=
  roundtrip_exec (Exec (X_LocalLimit 25) [empty_exec (mkSchema [])]).
Definition roundtrip_global_limit : Result unit :=
  roundtrip_exec (Exec (X_GlobalLimit 25) [empty_exec (mkSchema [])]).

Definition join_schema : Schema := mkSchema [Field_new "col" DT_Int64 false].
Definition hash_join : DFResult ExecutionPlan :=
  HashJoinExec_try_new (empty_exec join_schema) (empty_exec join_schema) [("col", "col")] Join_Inner.
Definition roundtrip_hash_join : Result unit :=
  let? plan := lift_df hash_join in roundtrip_exec plan.

Definition aggregate_schema : Schema := mkSchema [Field_new "a" DT_Int64 false; Field_new "b" DT_Int64 false].
Definition hash_aggregate : DFResult ExecutionPlan :=
  let groups := [(column "a", "unused")] in
  let aggregates := [avg_of (column "b") "AVG(b)" DT_Float64] in
  HashAggregateExec_try_new Final groups aggregates (empty_exec aggregate_schema) aggregate_schema.
Definition rountrip_hash_aggregate : Result unit :=
  let? plan := lift_df hash_aggregate in roundtrip_exec plan.

Definition filter_schema : Schema :=
  mkSchema [Field_new "a" DT_Boolean false; Field_new "b" DT_Int64 false; Field_new "c" DT_Int64 false].
Definition not_a : PhysicalExpr := PE_Not (column "a").
Definition b_in_list : PhysicalExpr :=
  PE_InList (column "b") [PE_Literal (SV_Int64 (Some 1%Z)); PE_Literal (SV_Int64 (Some 2%Z))] false.
Definition filter_with_not_and_in_list : DFResult ExecutionPlan :=
  let? and := binary not_a Op_And b_in_list filter_schema in
  FilterExec_try_new and (empty_exec filter_schema).
Definition roundtrip_filter_with_not_and_in_list : Result unit :=
  let? plan := lift_df filter_with_not_and_in_list in roundtrip_exec plan.

Definition sort_schema : Schema := mkSchema [Field_new "a" DT_Boolean false; Field_new "b" DT_Int64 false].
Definition sort_exprs : list PhysicalSortExpr :=
  [mkPhysicalSortExpr (column "a") true false; mkPhysicalSortExpr (column "b") false true].
Definition sort_exec : DFResult ExecutionPlan := SortExec_try_new sort_exprs (empty_exec sort_schema).
Definition roundtrip_sort_exec : Result unit :=
  let? plan := lift_df sort_exec in roundtrip_exec plan.

Definition all : list (Result unit) :=
  [roundtrip_empty; roundtrip_local_limit; roundtrip_global_limit; roundtrip_hash_join; rountrip_hash_aggregate;
   roundtrip_filter_with_not_and_in_list; roundtrip_sort_exec].
End tests.
End physical_tests.

(** The constructors make the operators they are asked for or refuse, and an
    empty relation has the schema it is given. *)
Class ConstructorNodes `{PhysicalPlanner} `{ExecutionPlanMethods} := {
  empty_schema one s : df_schema (X_Empty one s) [] = s;
  filter_node e i p : FilterExec_try_new e i = Ok p → p = Exec (X_Filter e) [i];
  hash_aggregate_node m gs aggs i s p :
    HashAggregateExec_try_new m gs aggs i s = Ok p → p = Exec (X_HashAggregate m gs aggs s) [i];
  hash_join_node l r on t p : HashJoinExec_try_new l r on t = Ok p → p = Exec (X_HashJoin on t) [l; r];
  sort_exec_node es i p : SortExec_try_new es i = Ok p → p = Exec (X_Sort es) [i];
}.

(** DataFusion compiles a column that exists, an average and the conjunction of
    the test to what the tests write down. *)
Class TestCompiler `{PhysicalPlanner} `{BinaryBuilder} := {
  compile_column name s : name ∈ field_name <$> schema_fields s → create_physical_expr (E_Column name) s = Ok (PE_Column name);
  compile_avg name s : create_aggregate_expr AF_Avg false [PE_Column name] s ("AVG(" +:+ name +:+ ")") =
    Ok (physical_tests.avg_of (PE_Column name) ("AVG(" +:+ name +:+ ")") DT_Float64);
  binary_and l r s e : binary l Op_And r s = Ok e → e = PE_BinaryExpr l Op_And r;
  compile_conjunction e : binary physical_tests.not_a Op_And physical_tests.b_in_list physical_tests.filter_schema = Ok e →
    create_physical_expr (E_BinaryExpr (E_Not (E_Column "a")) Op_And (E_InList (E_Column "b")
      [E_Literal (SV_Int64 (Some 1%Z)); E_Literal (SV_Int64 (Some 2%Z))] false)) physical_tests.filter_schema = Ok e;
}.

Section physical_tests.
Context `{PhysicalPlanner} `{BinaryBuilder} `{ExprBuildersOk} `{ExecutionPlanMethods}.
Context `{!ConstructorNodes} `{!TestCompiler} `{Debug ExecutionPlan}.
Import physical_tests.

Lemma built_exec_passes p : built_exec p → roundtrip_exec p = Ok ().
Proof. intros Hp. apply (roundtrip_test_passes exec_to_proto proto_to_exec), exec_trip, Hp. Qed.

Lemma empty_exec_built s : exact_schema s → built_exec (empty_exec s).
Proof. done. Qed.
Lemma column_recompiles name s :
  name ∈ field_name <$> schema_fields s → recompiles s (PE_Column name).
Proof. intros Hn. exists (E_Column name). split_and!; [done|done|by apply compile_column]. Qed.

(** DataFusion's constructors accept the plans of the tests. *)
Definition tests_construct : Prop :=
  is_ok hash_join = true ∧ is_ok hash_aggregate = true ∧
  is_ok filter_with_not_and_in_list = true ∧ is_ok sort_exec = true.

Lemma hash_join_built p : hash_join = Ok p → built_exec p.
Proof. intros E. pose proof (hash_join_node _ _ _ _ _ E) as ->. by split_and!; [apply empty_exec_built; repeat constructor..|]. Qed.

Lemma hash_aggregate_built p : hash_aggregate = Ok p → built_exec p.
Proof.
  intros E. pose proof (hash_aggregate_node _ _ _ _ _ _ E) as ->.
  assert (exact_schema aggregate_schema) as Hs by repeat constructor.
  split_and!; [by apply empty_exec_built| | |done|exact E]; (constructor; [|constructor]); simpl.
  - rewrite empty_schema. apply column_recompiles. by left.
  - exists AF_Avg, (PE_Column "b"), (Field_new "AVG(b)" DT_Float64 true).
    split_and!; [done|done|apply column_recompiles; by right; left|done|apply (compile_avg "b")].
Qed.

Lemma filter_built p : filter_with_not_and_in_list = Ok p → built_exec p.
Proof.
  unfold filter_with_not_and_in_list. destruct (binary _ _ _ _) as [e| |] eqn:E; intros Hf; try discriminate.
  pose proof (compile_conjunction _ E) as Hc. pose proof (binary_and _ _ _ _ E) as ->.
  pose proof (filter_node _ _ _ Hf) as ->.
  split_and!; [apply empty_exec_built; repeat constructor| |exact Hf].
  simpl. rewrite empty_schema. eexists. split_and!; [reflexivity| |exact Hc]. split; [vm_compute; repeat split; done|done].
Qed.

Lemma sort_exec_built p : sort_exec = Ok p → built_exec p.
Proof.
  intros E. pose proof (sort_exec_node _ _ _ E) as ->.
  split_and!; [apply empty_exec_built; repeat constructor| |exact E].
  simpl. rewrite empty_schema. repeat constructor; apply column_recompiles; set_solver.
Qed.

(** The tests of physical plans pass: empty relations, limits, a join, an
    aggregation, a filter and a sort survive the messages. *)
Theorem physical_tests_pass : tests_construct → Forall (λ test, test = Ok ()) all.
Proof.
  intros (Hjoin & Hagg & Hfilter & Hsort). assert (built_exec (empty_exec (mkSchema []))) as Hempty by repeat constructor.
  repeat (apply Forall_cons; split); [..|constructor].
  - by apply built_exec_passes.
  - by apply built_exec_passes.
  - by apply built_exec_passes.
  - apply built_test; [done|]. intros p Hp. by apply built_exec_passes, hash_join_built.
  - apply built_test; [done|]. intros p Hp. by apply built_exec_passes, hash_aggregate_built.
  - apply built_test; [done|]. intros p Hp. by apply built_exec_passes, filter_built.
  - apply built_test; [done|]. intros p Hp. by apply built_exec_passes, sort_exec_built.
Qed.
End physical_tests.

(** A compiler that knows the expressions of the tests. *)
Definition tests_compile (e : Expr) : DFResult PhysicalExpr :=
  match e with
  | E_Column name => Ok (PE_Column name)
  | E_BinaryExpr _ Op_And _ => Ok (PE_BinaryExpr physical_tests.not_a Op_And physical_tests.b_in_list)
  | _ => Err (DF_Other "unsupported")
  end.
Definition tests_planner : PhysicalPlanner := {|
  builtin_from_str := @builtin_from_str sample_physical_planner;
  create_physical_expr e _ := tests_compile e;
  create_aggregate_expr := @create_aggregate_expr sample_physical_planner;
  ProjectionExec_try_new := @ProjectionExec_try_new sample_physical_planner;
  FilterExec_try_new := @FilterExec_try_new sample_physical_planner;
  CsvExec_try_new := @CsvExec_try_new sample_physical_planner;
  ParquetExec_try_from_files := @ParquetExec_try_from_files sample_physical_planner;
  HashAggregateExec_try_new := @HashAggregateExec_try_new sample_physical_planner;
  HashJoinExec_try_new := @HashJoinExec_try_new sample_physical_planner;
  SortExec_try_new := @SortExec_try_new sample_physical_planner;
|}.
Definition tests_methods : ExecutionPlanMethods := {|
  df_schema op cs := match op with X_Empty _ s => s | _ => mkSchema [] end;
  df_partition_count op cs := 1;
  df_with_new_children op cs cs' := Ok (Exec op cs');
|}%Z.
Definition tests_binary : BinaryBuilder := λ l op r _, Ok (PE_BinaryExpr l op r).
Lemma tests_constructor_nodes : @ConstructorNodes tests_planner tests_methods.
Proof. split; intros; by simplify_eq/=. Qed.
Lemma tests_compiler : @TestCompiler tests_planner tests_binary.
Proof.
  split; [done|done| |].
  - intros l r s e E. by injection E as <-.
  - intros e E. by injection E as <-.
Qed.

Lemma physical_tests_pass_witness :
  @physical_tests.all tests_planner tests_binary direct_builders tests_methods (λ _, "") = repeat (Ok ()) 7.
Proof.
  pose proof (@physical_tests_pass tests_planner tests_binary direct_builders direct_builders_ok tests_methods
    tests_constructor_nodes tests_compiler (λ _, "")) as Hpass.
  assert (Forall (λ test, test = Ok ())
    (@physical_tests.all tests_planner tests_binary direct_builders tests_methods (λ _, ""))) as Hall.
  { apply Hpass. by split_and!. }
  clear Hpass. repeat (apply Forall_cons in Hall as [-> Hall]). reflexivity.
Defined.
