(* ===== verification/Backend.v ===== *)
(** * The configuration backend

    Models the trait [ConfigBackendClient] of
    src/rust/scheduler/src/state/mod.rs with its two implementations,
    [StandaloneClient] (state/standalone.rs, over the embedded database sled)
    and [EtcdClient] (state/etcd.rs), and the message codec helpers of
    state/mod.rs.

    The trait is a class of state-passing operations; what it promises to the
    scheduler is [BackendOk], stated over an abstract map of the stored
    entries.  Both implementations are proved to keep the promise, from the
    documented behaviour of the database each is built on. *)

From S2P Require Import Prelude Keys.
From Stdlib Require Import Strings.Byte.

(** ** Operations with effects

    An operation reads and changes a store; what it changed before an error
    or a panic stays changed. *)
Definition MR (S E A : Type) : Type := S → result E A * S.
Definition M (S A : Type) : Type := MR S BallistaError A.

Definition ret {S E A} (a : A) : MR S E A := λ s, (Ok a, s).
Definition lift {S E A} (r : result E A) : MR S E A := λ s, (r, s).
Definition bindM {S E A B} (m : MR S E A) (k : A → MR S E B) : MR S E B := λ s,
  match m s with
  | (Ok a, s') => k a s'
  | (Err e, s') => (Err e, s')
  | (Panic msg, s') => (Panic msg, s')
  end.
Notation "'let!' x ':=' e 'in' k" := (bindM e (λ x, k))
  (at level 10, x pattern, e at level 100, k at level 200) : ballista_scope.

(** [map_err] on the outcome of an operation. *)
Definition map_errM {S E F A} (f : E → F) (m : MR S E A) : MR S F A := λ s,
  let '(r, s') := m s in (map_err f r, s').

(** A loop of effects, up to the first error. *)
Definition mfor {S E A} (f : A → MR S E unit) : list A → MR S E unit :=
  fix go l := match l with [] => ret () | x :: xs => let! _ := f x in go xs end.

Lemma bindM_lift {S E A B} (r : result E A) (k : A → MR S E B) (s : S) :
  (let! a := lift r in k a) s =
  match r with Ok a => k a s | Err e => (Err e, s) | Panic m => (Panic m, s) end.
Proof. by destruct r. Qed.

Lemma bindM_ok {S E A B} (m : MR S E A) (k : A → MR S E B) (s s' : S) a :
  m s = (Ok a, s') → (let! x := m in k x) s = k a s'.
Proof. intros Hm. unfold bindM. by rewrite Hm. Qed.

Lemma bindM_inv {S E A B} (m : MR S E A) (k : A → MR S E B) (s s' : S) b :
  (let! x := m in k x) s = (Ok b, s') → ∃ a s1, m s = (Ok a, s1) ∧ k a s1 = (Ok b, s').
Proof. unfold bindM. destruct (m s) as [[a|e|msg] s1]; [|done..]. eauto. Qed.
Lemma bindM_lift_inv {S E A B} (r : result E A) (k : A → MR S E B) (s s' : S) b :
  (let! x := lift r in k x) s = (Ok b, s') → ∃ a, r = Ok a ∧ k a s = (Ok b, s').
Proof. rewrite bindM_lift. destruct r; [|done..]. eauto. Qed.
Lemma map_err_ok {E F A} (f : E → F) (r : result E A) a : map_err f r = Ok a ↔ r = Ok a.
Proof. split; [by destruct r; simpl; intros [= ->]|by intros ->]. Qed.

Definition bytes : Type := list byte.

(** ** The trait *)

Class ConfigBackendClient (S : Type) := {
  backend_get : string → M S bytes;
  backend_get_from_prefix : string → M S (list (string * bytes));
  backend_put : string → bytes → option Z → M S unit;
}.

(** What the scheduler relies on: the store holds a map of entries; [get]
    gives the value at the key, or nothing if there is none; a prefix scan
    gives every entry whose key has the prefix, once; [put] replaces the value
    at the key. *)
Class BackendOk (S : Type) `{ConfigBackendClient S} := {
  contents : S → gmap string bytes;
  backend_get_spec key s : backend_get key s = (Ok (default [] (contents s !! key)), s);
  backend_prefix_spec prefix s : ∃ kvs,
    backend_get_from_prefix prefix s = (Ok kvs, s) ∧
    kvs ≡ₚ map_to_list (filter (λ kv, starts_with prefix kv.1 = true) (contents s));
  backend_put_spec key value lease s : ∃ s',
    backend_put key value lease s = (Ok (), s') ∧ contents s' = <[key := value]> (contents s);
}.

(** The scan's result as a set of entries. *)
Lemma elem_of_prefix_scan {S} `{BackendOk S} prefix (s : S) kvs :
  backend_get_from_prefix prefix s = (Ok kvs, s) →
  ∀ k v, (k, v) ∈ kvs ↔ contents s !! k = Some v ∧ starts_with prefix k = true.
Proof.
  intros E k v. destruct (backend_prefix_spec prefix s) as (kvs' & E' & Hp).
  rewrite E in E'. injection E' as <-.
  rewrite Hp, elem_of_map_to_list, map_lookup_filter_Some. done.
Qed.

(** ** StandaloneClient

    sled's [Tree]: [get], [insert] and [scan_prefix]. *)
Class Sled (D : Type) := {
  sled_get : D → string → result string (option bytes);
  sled_insert : D → string → bytes → result string unit * D;
  sled_scan_prefix : D → string → result string (list (string * bytes));
}.

(** sled documents an ordered map that returns what was inserted last. *)
Class SledOk (D : Type) `{Sled D} := {
  sled_contents : D → gmap string bytes;
  sled_get_spec d k : sled_get d k = Ok (sled_contents d !! k);
  sled_insert_spec d k v : ∃ d',
    sled_insert d k v = (Ok (), d') ∧ sled_contents d' = <[k := v]> (sled_contents d);
  sled_scan_prefix_spec d p : ∃ kvs, sled_scan_prefix d p = Ok kvs ∧
    kvs ≡ₚ map_to_list (filter (λ kv, starts_with p kv.1 = true) (sled_contents d));
}.

Module StandaloneClient.
Section client.
Context {D : Type} `{Sled D}.

(** [StandaloneClient::get]. *)
Definition get (key : string) : M D bytes := λ db,
  (rmap (default []) (map_err (λ _, ballista_error "sled error {:?}") (sled_get db key)), db).

(** [StandaloneClient::get_from_prefix]. *)
Definition get_from_prefix (prefix : string) : M D (list (string * bytes)) := λ db,
  (map_err (λ _, ballista_error "sled error {:?}") (sled_scan_prefix db prefix), db).

(** [StandaloneClient::put]: the lease time is not used. *)
Definition put (key : string) (value : bytes) (_lease_time : option Z) : M D unit := λ db,
  let '(r, db') := sled_insert db key value in
  (map_err (λ _, ballista_error "sled insert failed") r, db').
End client.
End StandaloneClient.

#[export] Instance standalone_client (D : Type) `{Sled D} : ConfigBackendClient D := {
  backend_get := StandaloneClient.get;
  backend_get_from_prefix := StandaloneClient.get_from_prefix;
  backend_put := StandaloneClient.put;
}.

#[export] Instance standalone_client_ok (D : Type) `{SledOk D} : BackendOk D.
Proof.
  refine {| contents := sled_contents |}.
  - intros key s. simpl. unfold StandaloneClient.get. by rewrite sled_get_spec.
  - intros prefix s. simpl. unfold StandaloneClient.get_from_prefix.
    destruct (sled_scan_prefix_spec s prefix) as (kvs & -> & Hp). by exists kvs.
  - intros key value lease s. simpl. unfold StandaloneClient.put.
    destruct (sled_insert_spec s key value) as (d' & -> & Hd). by exists d'.
Defined.

(** ** EtcdClient

    The calls of the etcd client: a range read, a lease, a put with an
    optional lease. *)
Class Etcd (D : Type) := {
  etcd_get : D → string → result string (list (string * bytes));
  etcd_get_with_prefix : D → string → result string (list (string * bytes));
  etcd_lease_grant : D → Z → result string Z * D;
  etcd_put : D → string → bytes → option Z → result string unit * D;
}.

Class EtcdOk (D : Type) `{Etcd D} := {
  etcd_contents : D → gmap string bytes;
  etcd_get_spec d k :
    etcd_get d k = Ok (match etcd_contents d !! k with Some v => [(k, v)] | None => [] end);
  etcd_get_with_prefix_spec d p : ∃ kvs, etcd_get_with_prefix d p = Ok kvs ∧
    kvs ≡ₚ map_to_list (filter (λ kv, starts_with p kv.1 = true) (etcd_contents d));
  etcd_lease_grant_spec d ttl : ∃ id d',
    etcd_lease_grant d ttl = (Ok id, d') ∧ etcd_contents d' = etcd_contents d;
  etcd_put_spec d k v lease : ∃ d',
    etcd_put d k v lease = (Ok (), d') ∧ etcd_contents d' = <[k := v]> (etcd_contents d);
}.

Module EtcdClient.
Section client.
Context {D : Type} `{Etcd D}.

(** [EtcdClient::get]: the value of the first pair returned. *)
Definition get (key : string) : M D bytes := λ etcd,
  (let? kvs := map_err (λ _, ballista_error "etcd error {:?}") (etcd_get etcd key) in
   Ok (default [] (snd <$> head kvs)), etcd).

(** [EtcdClient::get_from_prefix]. *)
Definition get_from_prefix (prefix : string) : M D (list (string * bytes)) := λ etcd,
  (map_err (λ _, ballista_error "etcd error {:?}") (etcd_get_with_prefix etcd prefix), etcd).

(** [EtcdClient::put]: with a lease time, a lease is granted first. *)
Definition put (key : string) (value : bytes) (lease_time : option Z) : M D unit :=
  let! put_options :=
    match lease_time with
    | Some secs => λ etcd,
        let '(r, etcd') := etcd_lease_grant etcd secs in
        (rmap Some (map_err (λ _, ballista_error "etcd lease grant failed") r), etcd')
    | None => ret None
    end in
  λ etcd,
    let '(r, etcd') := etcd_put etcd key value put_options in
    (map_err (λ _, ballista_error "etcd put failed") r, etcd').
End client.
End EtcdClient.

Definition etcd_client (D : Type) `{Etcd D} : ConfigBackendClient D := {|
  backend_get := EtcdClient.get;
  backend_get_from_prefix := EtcdClient.get_from_prefix;
  backend_put := EtcdClient.put;
|}.

Definition etcd_client_ok (D : Type) `{EtcdOk D} : @BackendOk D (etcd_client D).
Proof.
  refine {| contents := etcd_contents : D → gmap string bytes |}.
  - intros key s. simpl. unfold EtcdClient.get. rewrite etcd_get_spec. simpl.
    by destruct (etcd_contents s !! key).
  - intros prefix s. simpl. unfold EtcdClient.get_from_prefix.
    destruct (etcd_get_with_prefix_spec s prefix) as (kvs & -> & Hp). by exists kvs.
  - intros key value lease s. simpl. unfold EtcdClient.put, bindM.
    destruct lease as [secs|].
    + destruct (etcd_lease_grant_spec s secs) as (id & d1 & -> & Hd1). simpl.
      destruct (etcd_put_spec d1 key value (Some id)) as (d2 & -> & Hd2).
      exists d2. by rewrite Hd2, Hd1.
    + simpl. destruct (etcd_put_spec s key value None) as (d2 & -> & Hd2). by exists d2.
Defined.

(** ** A store in memory, for the witnesses *)

Definition Memory : Type := gmap string bytes.
Definition memory_sled : Sled Memory := {|
  sled_get d k := Ok (d !! k);
  sled_insert d k v := (Ok (), <[k := v]> d);
  sled_scan_prefix d p := Ok (map_to_list (filter (λ kv, starts_with p kv.1 = true) d));
|}.
Definition memory_sled_ok : @SledOk Memory memory_sled.
Proof.
  refine {| sled_contents := (λ d, d) : Memory → gmap string bytes |}; simpl; intros; eauto.
Defined.
