(* ===== verification/Utils.v ===== *)
(** * Plans as text and as diagrams

    Models [format_plan], [format_expr], [format_agg_expr], [produce_diagram]
    and [build_exec_plan_diagram] of src/rust/core/src/utils.rs.

    The texts of DataFusion's [Debug] and [Display] implementations are a
    parameter.  The lines of a diagram are data with their rendering; the
    outcome of a write to the file is a parameter, too.

    The theorems: the text of a plan is the indented lines of its operators in
    preorder, and which plans have none; what a diagram draws is a tree per
    stage, and where the edges between the stages start. *)

From S2P Require Import Prelude Keys Proto Arrow Scalar Expr LogicalPlan SchedTypes ExecPlan Backend.
From Stdlib Require Import Strings.Ascii.

(** ** Text of the standard library *)

Definition quote : ascii := Ascii.ascii_of_nat 34.
Definition newline : string := String (Ascii.ascii_of_nat 10) "".
Definition tab : string := String (Ascii.ascii_of_nat 9) "".

Definition hex_digit (n : nat) : string :=
  String (Ascii.ascii_of_nat (if n <? 10 then 48 + n else 87 + n)%nat) "".

(** [char::escape_debug], on ASCII; the bytes of other characters are kept. *)
Definition escape_char (a : ascii) : string :=
  match Ascii.nat_of_ascii a with
  | 0 => "\0" | 9 => "\t" | 10 => "\n" | 13 => "\r" | 92 => "\\"
  | 34 => String (Ascii.ascii_of_nat 92) (String quote "")
  | n =>
      if ((n <? 32) || (n =? 127))%nat then
        "\u{" +:+ (if n <? 16 then "" else hex_digit (n / 16))%nat +:+ hex_digit (n mod 16) +:+ "}"
      else String a ""
  end%nat.
Fixpoint escape (s : string) : string :=
  match s with EmptyString => "" | String a s => escape_char a +:+ escape s end.

(** [join] of a vector of strings. *)
Fixpoint join (sep : string) (l : list string) : string :=
  match l with
  | [] => ""
  | [s] => s
  | s :: l => s +:+ sep +:+ join sep l
  end.

(** [{:?}] of strings, pairs and vectors. *)
Definition debug_str (s : string) : string := String quote (escape s +:+ String quote "").
Definition debug_pair (p : string * string) : string :=
  "(" +:+ debug_str p.1 +:+ ", " +:+ debug_str p.2 +:+ ")".
Definition debug_vec {A} (debug : A → string) (l : list A) : string :=
  "[" +:+ join ", " (List.map debug l) +:+ "]".
Definition debug_join_type (t : JoinType) : string :=
  match t with Join_Inner => "Inner" | Join_Left => "Left" | Join_Right => "Right" end.

(** [str::repeat]. *)
Fixpoint repeat_str (s : string) (n : nat) : string :=
  match n with 0%nat => "" | S n => s +:+ repeat_str s n end.

(** [&s[0..n]]: there must be as many bytes, and no character may be cut. *)
Definition continuation (a : ascii) : bool :=
  let n := Ascii.nat_of_ascii a in ((128 <=? n) && (n <? 192))%nat.
Definition slice_to (s : string) (n : nat) : Result string :=
  if (String.length s <? n)%nat then Panic "byte index is out of bounds"
  else if match String.get n s with Some a => continuation a | None => false end then
    Panic "byte index is not a char boundary"
  else Ok (String.substring 0 n s).

(** DataFusion's texts. *)
Class PlanText := {
  debug_plan : ExecutionPlan → string;
  display_expr : PhysicalExpr → string;
  display_operator : Operator → string;
}.

(** ** The text of a plan *)

Section format.
Context `{PlanText} `{ExecutionPlanMethods}.

(** [format_expr]. *)
Definition format_expr (expr : PhysicalExpr) : string :=
  match expr with
  | PE_Column name => name
  | PE_Literal _ => display_expr expr
  | PE_BinaryExpr lhs op rhs =>
      display_expr lhs +:+ " " +:+ display_operator op +:+ " " +:+ display_expr rhs
  | _ => display_expr expr
  end.

(** [format_agg_expr]. *)
Definition format_agg_expr (expr : AggregateExpr) : Result string :=
  let? field := lift_df (ae_field expr) in
  Ok (field_name field +:+ " " +:+ debug_vec debug_str (List.map format_expr (ae_expressions expr))).

(** The text of the operator itself. *)
Definition operator_str (plan : ExecutionPlan) : Result string :=
  match plan_op plan with
  | X_HashAggregate _ group_expr aggr_expr _ =>
      let? aggrs := rmapM format_agg_expr aggr_expr in
      Ok ("HashAggregateExec: groupBy=" +:+
          debug_vec debug_str (List.map (λ e, format_expr e.1) group_expr) +:+
          ", aggrExpr=" +:+ debug_vec debug_str aggrs)
  | X_HashJoin on join_type =>
      Ok ("HashJoinExec: joinType=" +:+ debug_join_type join_type +:+ ", on=" +:+ debug_vec debug_pair on)
  | X_Parquet partitions _ _ _ =>
      let num_files := foldl (λ n part, (n + length part)%nat) 0%nat partitions in
      Ok ("ParquetExec: partitions=" +:+ pretty (length partitions) +:+ ", files=" +:+ pretty num_files)
  | X_Csv path _ _ _ _ _ _ _ =>
      Ok ("CsvExec: " +:+ path +:+ "; partitions=" +:+ pretty (partition_count plan))
  | X_Filter predicate => Ok ("FilterExec: " +:+ format_expr predicate)
  | X_QueryStage job_id stage_id =>
      Ok ("QueryStageExec: job=" +:+ job_id +:+ ", stage=" +:+ pretty stage_id)
  | X_UnresolvedShuffle query_stage_ids _ _ =>
      Ok ("UnresolvedShuffleExec: stages=" +:+ debug_vec (λ y : Z, pretty y) query_stage_ids)
  | X_CoalesceBatches target_batch_size =>
      Ok ("CoalesceBatchesExec: batchSize=" +:+ pretty target_batch_size)
  | X_Merge => Ok "MergeExec"
  | _ => slice_to (debug_plan plan) 120
  end.

(** [format_plan]. *)
Fixpoint format_plan (plan : ExecutionPlan) (indent : nat) : Result string :=
  match plan with
  | Exec _ children =>
      let? operator_str := operator_str plan in
      let? children_strs := rmapM (λ c, format_plan c (S indent)) children in
      let children_str := join newline children_strs in
      let indent_str := repeat_str "  " indent in
      match children with
      | [] => Ok (indent_str +:+ operator_str +:+ children_str)
      | _ => Ok (indent_str +:+ operator_str +:+ newline +:+ children_str)
      end
  end.
End format.

(** ** The lines of a plan *)

Section lines.
Context `{PlanText} `{ExecutionPlanMethods}.

(** The operators of a plan in preorder, with their depth. *)
Fixpoint plan_nodes (indent : nat) (p : ExecutionPlan) : list (nat * ExecutionPlan) :=
  match p with Exec _ cs => (indent, p) :: flat_map (plan_nodes (S indent)) cs end.
Definition node_line (node : nat * ExecutionPlan) : Result string :=
  let? t := operator_str node.2 in Ok (repeat_str "  " node.1 +:+ t).

(** The operators with a text of their own; the others have 120 bytes of their
    debug text. *)
Definition described (op : PlanOp) : bool :=
  match op with
  | X_HashAggregate _ _ _ _ | X_HashJoin _ _ | X_Parquet _ _ _ _ | X_Csv _ _ _ _ _ _ _ _ | X_Filter _
  | X_QueryStage _ _ | X_UnresolvedShuffle _ _ _ | X_CoalesceBatches _ | X_Merge => true
  | _ => false
  end.
Lemma operator_str_debug p :
  described (plan_op p) = false → operator_str p = slice_to (debug_plan p) 120.
Proof. unfold operator_str. by destruct (plan_op p). Qed.

(** What follows the first element of a [join]. *)
Definition tails (sep : string) (l : list string) : string :=
  foldr (λ s acc, sep +:+ s +:+ acc) "" l.

Lemma join_tails sep s l : join sep (s :: l) = s +:+ tails sep l.
Proof.
  revert s. induction l as [|s' l IH]; intros s; [simpl; by rewrite string_app_nil_r|].
  change (join sep (s :: s' :: l)) with (s +:+ sep +:+ join sep (s' :: l)). by rewrite IH.
Qed.

Lemma tails_app sep l1 l2 : tails sep (l1 ++ l2) = tails sep l1 +:+ tails sep l2.
Proof. induction l1 as [|s l1 IH]; [done|]. simpl. by rewrite IH, !string_app_assoc. Qed.

Lemma rmapM_app {E A B} (f : A → result E B) l1 l2 :
  rmapM f (l1 ++ l2) = let? a := rmapM f l1 in let? b := rmapM f l2 in Ok (a ++ b).
Proof.
  induction l1 as [|x l1 IH]; simpl; [by destruct (rmapM f l2)|].
  destruct (f x); try done. rewrite IH. by destruct (rmapM f l1), (rmapM f l2).
Qed.

Lemma format_plan_eq op cs i :
  format_plan (Exec op cs) i =
    let? t := operator_str (Exec op cs) in
    let? strs := rmapM (λ c, format_plan c (S i)) cs in
    Ok (repeat_str "  " i +:+ t +:+ tails newline strs).
Proof.
  cbn [format_plan]. destruct (operator_str (Exec op cs)) as [t| |]; try done.
  destruct cs as [|c cs]; [done|]. cbn [rmapM]. destruct (format_plan c (S i)); try done.
  fold (rmapM (λ c, format_plan c (S i))). destruct (rmapM _ cs) as [strs| |]; try done.
  by rewrite join_tails.
Qed.

(** The children's texts are the lines of the children. *)
Lemma children_lines j cs :
  Forall (λ c, ∀ i, format_plan c i = let? ls := rmapM node_line (plan_nodes i c) in Ok (join newline ls)) cs →
  rmap (tails newline) (rmapM (λ c, format_plan c j) cs) =
  rmap (tails newline) (rmapM node_line (flat_map (plan_nodes j) cs)).
Proof.
  induction 1 as [|c cs Hc _ IH]; [done|]. cbn [rmapM flat_map]. fold (rmapM (λ c, format_plan c j)).
  rewrite rmapM_app, Hc. destruct c as [op ccs]. cbn [plan_nodes rmapM]. fold (rmapM node_line).
  destruct (node_line (j, _)) as [s| |]; try done. destruct (rmapM node_line (flat_map _ ccs)) as [ls| |]; try done.
  destruct (rmapM (λ c, format_plan c j) cs) as [strs| |],
    (rmapM node_line (flat_map (plan_nodes j) cs)) as [ls'| |]; cbn [rmap] in IH |- *; try discriminate IH; injection IH as IH;
    [|by rewrite IH..].
  f_equal. change (tails newline (?x :: ?l)) with (newline +:+ x +:+ tails newline l).
  rewrite join_tails, <-app_comm_cons. change (tails newline (s :: ls ++ ls')) with (newline +:+ s +:+ tails newline (ls ++ ls')).
  by rewrite tails_app, IH, !string_app_assoc.
Qed.

Lemma format_plan_lines p i :
  format_plan p i = let? ls := rmapM node_line (plan_nodes i p) in Ok (join newline ls).
Proof.
  revert i. induction p as [op cs IH] using plan_ind. intros i. rewrite format_plan_eq.
  apply (children_lines (S i)) in IH. cbn [plan_nodes rmapM]. fold (rmapM node_line).
  unfold node_line at 1. cbn [fst snd]. destruct (operator_str (Exec op cs)) as [t| |]; try done.
  destruct (rmapM (λ c, format_plan c (S i)) cs) as [strs| |],
    (rmapM node_line (flat_map (plan_nodes (S i)) cs)) as [ls| |];
    cbn [rmap] in IH |- *; try discriminate IH; injection IH as IH; [|by rewrite IH..].
  by rewrite IH, join_tails, string_app_assoc.
Qed.

Lemma rmapM_is_ok {E A B} (f : A → result E B) l :
  is_ok (rmapM f l) = forallb (λ x, is_ok (f x)) l.
Proof.
  induction l as [|x l IH]; [done|]. cbn [rmapM forallb]. fold (rmapM f).
  destruct (f x); try done. simpl. rewrite <-IH. by destruct (rmapM f l).
Qed.

Lemma format_plan_is_ok p i :
  is_ok (format_plan p i) = true ↔ ∀ d q, (d, q) ∈ plan_nodes i p → is_ok (operator_str q) = true.
Proof.
  rewrite format_plan_lines. transitivity (forallb (λ x, is_ok (node_line x)) (plan_nodes i p) = true).
  { rewrite <-rmapM_is_ok. by destruct (rmapM _ _). }
  rewrite forallb_forall. split.
  - intros Hall d q Hin%list_elem_of_In. specialize (Hall _ Hin). unfold node_line in Hall. simpl in Hall.
    by destruct (operator_str q).
  - intros Hall [d q] Hin%list_elem_of_In. specialize (Hall _ _ Hin). unfold node_line. simpl.
    by destruct (operator_str q).
Qed.

Lemma short_text_fails p i d q :
  (d, q) ∈ plan_nodes i p → described (plan_op q) = false → (String.length (debug_plan q) < 120)%nat →
  is_ok (format_plan p i) = false.
Proof.
  intros Hin Hop Hlen. apply not_true_is_false. rewrite format_plan_is_ok. intros Hall. specialize (Hall _ _ Hin).
  rewrite operator_str_debug in Hall by done. unfold slice_to in Hall.
  apply Nat.ltb_lt in Hlen. by rewrite Hlen in Hall.
Qed.
End lines.

(** ** Diagrams *)

(** The lines of a diagram: an edge between the stages starts at the operator
    [1] of its source. *)
Inductive DiagramLine :=
| DL_Open
| DL_Cluster (stage_id : Z)
| DL_Label (stage_id : Z)
| DL_Node (stage_id : Z) (node_id : nat) (operator_str : string)
| DL_Edge (stage_id : Z) (child_id node_id : nat)
| DL_EndCluster
| DL_ShuffleEdge (y stage_id : Z) (node_id : nat)
| DL_Close.

Definition exec_name (stage_id : Z) (node_id : nat) : string :=
  "stage_" +:+ pretty stage_id +:+ "_exec_" +:+ pretty node_id.
Definition quoted (s : string) : string := String quote (s +:+ String quote "").

(** The text of a line. *)
Definition render (l : DiagramLine) : string :=
  match l with
  | DL_Open => "digraph G {" +:+ newline
  | DL_Cluster stage_id => tab +:+ "subgraph cluster" +:+ pretty stage_id +:+ " {" +:+ newline
  | DL_Label stage_id =>
      tab +:+ tab +:+ "label = " +:+ quoted ("Stage " +:+ pretty stage_id) +:+ ";" +:+ newline
  | DL_Node stage_id node_id operator_str =>
      tab +:+ tab +:+ exec_name stage_id node_id +:+ " [shape=box, label=" +:+ quoted operator_str +:+
      "];" +:+ newline
  | DL_Edge stage_id child_id node_id =>
      tab +:+ tab +:+ exec_name stage_id child_id +:+ " -> " +:+ exec_name stage_id node_id +:+ ";" +:+ newline
  | DL_EndCluster => tab +:+ "}" +:+ newline
  | DL_ShuffleEdge y stage_id node_id =>
      tab +:+ exec_name y 1 +:+ " -> " +:+ exec_name stage_id node_id +:+ ";" +:+ newline
  | DL_Close => "}"
  end.

(** The label of an operator. *)
Definition operator_label (op : PlanOp) : string :=
  match op with
  | X_HashAggregate _ _ _ _ => "HashAggregateExec"
  | X_Sort _ => "SortExec"
  | X_Projection _ => "ProjectionExec"
  | X_HashJoin _ _ => "HashJoinExec"
  | X_Parquet _ _ _ _ => "ParquetExec"
  | X_Csv _ _ _ _ _ _ _ _ => "CsvExec"
  | X_Filter _ => "FilterExec"
  | X_QueryStage _ _ => "QueryStageExec"
  | X_UnresolvedShuffle _ _ _ => "UnresolvedShuffleExec"
  | X_CoalesceBatches _ => "CoalesceBatchesExec"
  | X_Merge => "MergeExec"
  | _ => "Unknown"
  end.

(** [downcast_ref::<UnresolvedShuffleExec>()], with the [query_stage_ids]. *)
Definition downcast_shuffle (p : ExecutionPlan) : option (list Z) :=
  match plan_op p with X_UnresolvedShuffle query_stage_ids _ _ => Some query_stage_ids | _ => None end.

Section diagram.
(** The outcome of a write, given the text up to and with it; and that of
    creating the file. *)
Context (io_write : string → result string unit) (io_create : string → result string unit).

Definition file_text (ls : list DiagramLine) : string := foldr (λ l acc, render l +:+ acc) "" ls.

(** [writeln!] to the file of a diagram, next to the counter of the nodes. *)
Definition writeln {I} (l : DiagramLine) : M (list DiagramLine * I) unit := λ s,
  match io_write (file_text (s.1 ++ [l])) with
  | Ok _ => (Ok (), (s.1 ++ [l], s.2))
  | Err e => (Err (IoError e), s)
  | Panic m => (Panic m, s)
  end.

Definition fetch_id : M (list DiagramLine * nat) nat := λ s, (Ok s.2, s).
Definition store_id (n : nat) : M (list DiagramLine * nat) unit := λ s, (Ok (), (s.1, n)).

(** [build_exec_plan_diagram]. *)
Fixpoint build_exec_plan_diagram (plan : ExecutionPlan) (stage_id : Z) (draw_entity : bool)
    : M (list DiagramLine * nat) nat :=
  match plan with
  | Exec op children =>
      let! node_id := fetch_id in
      let! _ := store_id (S node_id) in
      let! _ := if draw_entity then writeln (DL_Node stage_id node_id (operator_label op)) else ret () in
      let! _ := mfor (λ child,
          match downcast_shuffle child with
          | Some query_stage_ids =>
              if draw_entity then ret ()
              else mfor (λ y, writeln (DL_ShuffleEdge y stage_id node_id)) query_stage_ids
          | None =>
              let! child_id := build_exec_plan_diagram child stage_id draw_entity in
              if draw_entity then writeln (DL_Edge stage_id child_id node_id) else ret ()
          end) children in
      ret node_id
  end.

(** A walk over the plan of a stage with a counter of its own. *)
Definition draw_stage (stage : QueryStageExec) (draw_entity : bool) : M (list DiagramLine * unit) nat := λ s,
  let '(r, s') := build_exec_plan_diagram (qs_child stage) (qs_stage_id stage) draw_entity (s.1, 0%nat) in
  (r, (s'.1, ())).

(** [produce_diagram], on what the file held before. *)
Definition produce_diagram (filename : string) (stages : list QueryStageExec)
    : M (list DiagramLine * unit) unit :=
  let! _ := (λ s, match io_create filename with
    | Ok _ => (Ok (), ([], ()))
    | Err e => (Err (IoError e), s)
    | Panic m => (Panic m, s)
    end) in
  let! _ := writeln DL_Open in
  let! _ := mfor (λ stage,
      let! _ := writeln (DL_Cluster (qs_stage_id stage)) in
      let! _ := writeln (DL_Label (qs_stage_id stage)) in
      let! _ := draw_stage stage true in
      writeln DL_EndCluster) stages in
  let! _ := mfor (λ stage, let! _ := draw_stage stage false in ret ()) stages in
  writeln DL_Close.
End diagram.

(** ** What a diagram shows *)

(** The operators that are drawn: all but the shuffles below the root. *)
Fixpoint drawn (p : ExecutionPlan) : nat :=
  match p with Exec _ cs => S (sum_list_with (λ c, if downcast_shuffle c is Some _ then 0%nat else drawn c) cs) end.

(** The drawing of a plan whose root is the node [n]. *)
Fixpoint entity_lines (stage : Z) (p : ExecutionPlan) (n : nat) : list DiagramLine :=
  match p with
  | Exec op cs =>
      DL_Node stage n (operator_label op) ::
      (fix go cs k :=
         match cs with
         | [] => []
         | c :: cs =>
             if downcast_shuffle c is Some _ then go cs k
             else entity_lines stage c k ++ DL_Edge stage k n :: go cs (k + drawn c)%nat
         end) cs (S n)
  end.
Definition child_lines (stage : Z) (n : nat) := fix go cs k :=
  match cs with
  | [] => []
  | c :: cs =>
      if downcast_shuffle c is Some _ then go cs k
      else entity_lines stage c k ++ DL_Edge stage k n :: go cs (k + drawn c)%nat
  end.

(** The edges into a plan whose root is the node [n]. *)
Fixpoint shuffle_lines (stage : Z) (p : ExecutionPlan) (n : nat) : list DiagramLine :=
  match p with
  | Exec op cs =>
      (fix go cs k :=
         match cs with
         | [] => []
         | c :: cs =>
             match downcast_shuffle c with
             | Some ids => ((λ y, DL_ShuffleEdge y stage n) <$> ids) ++ go cs k
             | None => shuffle_lines stage c k ++ go cs (k + drawn c)%nat
             end
         end) cs (S n)
  end.
Definition child_shuffles (stage : Z) (n : nat) := fix go cs k :=
  match cs with
  | [] => []
  | c :: cs =>
      match downcast_shuffle c with
      | Some ids => ((λ y, DL_ShuffleEdge y stage n) <$> ids) ++ go cs k
      | None => shuffle_lines stage c k ++ go cs (k + drawn c)%nat
      end
  end.

Section drawing.
Context (io_write : string → result string unit) (io_create : string → result string unit).
Hypothesis writes_succeed : ∀ text, io_write text = Ok ().

Lemma writeln_ok {I} l (s : list DiagramLine * I) : writeln io_write l s = (Ok (), (s.1 ++ [l], s.2)).
Proof. unfold writeln. by rewrite writes_succeed. Qed.

Lemma shuffle_edges_written stage n ids k ls :
  mfor (λ y, writeln (I := nat) io_write (DL_ShuffleEdge y stage n)) ids (ls, k) =
    (Ok (), (ls ++ ((λ y, DL_ShuffleEdge y stage n) <$> ids), k)).
Proof.
  revert ls. induction ids as [|y ids IH]; intros ls; csimpl; [by rewrite app_nil_r|].
  unfold bindM. rewrite writeln_ok. cbn [fst snd]. by rewrite IH, <-app_assoc.
Qed.

(** The children of a node, given what their walks do. *)
Lemma build_children stage n draw cs (k : nat) ls :
  Forall (λ c, ∀ m ls, build_exec_plan_diagram io_write c stage draw (ls, m) =
    (Ok m, (ls ++ (if draw then entity_lines stage c m else shuffle_lines stage c m), m + drawn c)%nat)) cs →
  mfor (λ child,
      match downcast_shuffle child with
      | Some query_stage_ids =>
          if draw then ret ()
          else mfor (λ y, writeln (I := nat) io_write (DL_ShuffleEdge y stage n)) query_stage_ids
      | None =>
          let! child_id := build_exec_plan_diagram io_write child stage draw in
          if draw then writeln io_write (DL_Edge stage child_id n) else ret ()
      end) cs (ls, k) =
  (Ok (), (ls ++ (if draw then child_lines stage n cs k else child_shuffles stage n cs k),
    k + sum_list_with (λ c, if downcast_shuffle c is Some _ then 0 else drawn c) cs)%nat).
Proof.
  intros Hcs. revert k ls. induction Hcs as [|c cs Hc _ IH]; intros k ls.
  { simpl. rewrite Nat.add_0_r. by destruct draw; rewrite app_nil_r. }
  cbn [mfor sum_list_with child_lines child_shuffles]. destruct (downcast_shuffle c) as [ids|].
  - unfold bindM at 1. destruct draw; [apply IH|].
    rewrite shuffle_edges_written. etransitivity; [apply IH|]. by rewrite <-app_assoc.
  - unfold bindM at 1 2. rewrite Hc. destruct draw.
    + rewrite writeln_ok. etransitivity; [apply IH|]. cbn [fst snd]. by rewrite <-!app_assoc, Nat.add_assoc.
    + etransitivity; [apply IH|]. by rewrite <-!app_assoc, Nat.add_assoc.
Qed.

(** The walk numbers the operators and draws them. *)
Lemma build_lines p stage draw n ls :
  build_exec_plan_diagram io_write p stage draw (ls, n) =
    (Ok n, (ls ++ (if draw then entity_lines stage p n else shuffle_lines stage p n), n + drawn p)%nat).
Proof.
  revert n ls. induction p as [op cs IH] using plan_ind. intros n ls. cbn [build_exec_plan_diagram].
  rewrite (bindM_ok _ _ _ (ls, n) n) by done. rewrite (bindM_ok _ _ _ (ls, S n) ()) by done.
  rewrite (bindM_ok _ _ _ (ls ++ (if draw then [DL_Node stage n (operator_label op)] else []), S n) ()).
  2: { destruct draw; [apply writeln_ok|]. by rewrite app_nil_r. }
  rewrite (bindM_ok _ _ _ _ _ (build_children stage n draw cs (S n) _ IH)). unfold ret. cbn [drawn].
  rewrite <-app_assoc, Nat.add_succ_comm. by destruct draw.
Qed.

(** The whole file. *)
Definition cluster_lines (stage : QueryStageExec) : list DiagramLine :=
  [DL_Cluster (qs_stage_id stage); DL_Label (qs_stage_id stage)] ++
  entity_lines (qs_stage_id stage) (qs_child stage) 0 ++ [DL_EndCluster].
Definition diagram_lines (stages : list QueryStageExec) : list DiagramLine :=
  DL_Open :: flat_map cluster_lines stages ++
  flat_map (λ stage, shuffle_lines (qs_stage_id stage) (qs_child stage) 0) stages ++ [DL_Close].

Lemma mfor_lines {A} (f : A → M (list DiagramLine * unit) unit) (g : A → list DiagramLine) l ls :
  (∀ x ls, f x (ls, ()) = (Ok (), (ls ++ g x, ()))) →
  mfor f l (ls, ()) = (Ok (), (ls ++ flat_map g l, ())).
Proof.
  intros Hf. revert ls. induction l as [|x l IH]; intros ls; cbn [mfor flat_map]; [by rewrite app_nil_r|].
  rewrite (bindM_ok _ _ _ _ _ (Hf x ls)). etransitivity; [apply IH|]. by rewrite <-app_assoc.
Qed.

Lemma draw_stage_ok stage draw ls :
  draw_stage io_write stage draw (ls, ()) =
    (Ok 0%nat, (ls ++ (if draw then entity_lines (qs_stage_id stage) (qs_child stage) 0
      else shuffle_lines (qs_stage_id stage) (qs_child stage) 0), ())).
Proof. unfold draw_stage. cbn [fst]. by rewrite build_lines. Qed.

Lemma produce_diagram_lines filename stages before :
  io_create filename = Ok () →
  produce_diagram io_write io_create filename stages before = (Ok (), (diagram_lines stages, ())).
Proof.
  intros Hc. unfold produce_diagram. rewrite (bindM_ok _ _ _ ([], ()) ()) by (by rewrite Hc).
  rewrite (bindM_ok _ _ _ _ _ (writeln_ok _ _)). cbn [fst snd app].
  rewrite (bindM_ok _ _ _ ([DL_Open] ++ flat_map cluster_lines stages, ()) ()).
  2: { apply mfor_lines. intros stage ls. do 2 rewrite (bindM_ok _ _ _ _ _ (writeln_ok _ _)). cbn [fst snd].
       rewrite (bindM_ok _ _ _ _ _ (draw_stage_ok stage true _)), writeln_ok. cbn [fst snd].
       unfold cluster_lines. by rewrite <-!app_assoc. }
  rewrite (bindM_ok _ _ _ (([DL_Open] ++ flat_map cluster_lines stages) ++
    flat_map (λ stage, shuffle_lines (qs_stage_id stage) (qs_child stage) 0) stages, ()) ()).
  2: { apply mfor_lines. intros stage ls. by rewrite (bindM_ok _ _ _ _ _ (draw_stage_ok stage false _)). }
  rewrite writeln_ok. cbn [fst snd]. unfold diagram_lines. by rewrite <-!app_assoc.
Qed.
End drawing.

Lemma omap_cons {A B} (f : A → option B) x l :
  omap f (x :: l) = match f x with Some y => y :: omap f l | None => omap f l end.
Proof. done. Qed.

(** *** Nodes and edges *)

Definition node_of (l : DiagramLine) : option (Z * nat) :=
  match l with DL_Node stage n _ => Some (stage, n) | _ => None end.
Definition edge_of (l : DiagramLine) : option (nat * nat) :=
  match l with DL_Edge _ child parent => Some (child, parent) | _ => None end.
Definition source_of (l : DiagramLine) : option Z :=
  match l with DL_ShuffleEdge y _ _ => Some y | _ => None end.

(** What the drawing of a plan from node [n] shows: its nodes in order, an
    edge from every node but the root, to a node drawn before. *)
Definition draws_tree (stage : Z) (p : ExecutionPlan) (n : nat) (ls : list DiagramLine) : Prop :=
  omap node_of ls = pair stage <$> seq n (drawn p) ∧
  (omap edge_of ls).*1 ≡ₚ seq (S n) (drawn p - 1) ∧
  Forall (λ e, n ≤ e.2 < e.1)%nat (omap edge_of ls).

Lemma children_drawn stage n cs k :
  Forall (λ c, ∀ m, draws_tree stage c m (entity_lines stage c m)) cs → (n < k)%nat →
  let count := sum_list_with (λ c, if downcast_shuffle c is Some _ then 0 else drawn c)%nat cs in
  omap node_of (child_lines stage n cs k) = pair stage <$> seq k count ∧
  (omap edge_of (child_lines stage n cs k)).*1 ≡ₚ seq k count ∧
  Forall (λ e, n ≤ e.2 < e.1)%nat (omap edge_of (child_lines stage n cs k)).
Proof.
  intros Hcs. revert k. induction Hcs as [|c cs Hc _ IH]; intros k Hk; [done|].
  cbn [child_lines sum_list_with]. destruct (downcast_shuffle c) as [ids|]; [by apply IH|].
  destruct (Hc k) as (Hn & He & Hf). destruct (IH (k + drawn c)%nat ltac:(lia)) as (Hn' & He' & Hf').
  rewrite !omap_app, !omap_cons. cbn [node_of edge_of].
  rewrite Hn, Hn', seq_app, fmap_app. split; [done|split].
  - rewrite fmap_app, fmap_cons, He, He'. destruct (drawn c) as [|d] eqn:Hd; [by destruct c|].
    rewrite Nat.sub_succ, Nat.sub_0_r. cbn [seq fst]. by rewrite <-Permutation_middle.
  - apply Forall_app. split; [|constructor; [simpl; lia|exact Hf']].
    eapply Forall_impl; [exact Hf|]. simpl. lia.
Qed.

Lemma tree_drawn stage p n : draws_tree stage p n (entity_lines stage p n).
Proof.
  revert n. induction p as [op cs IH] using plan_ind. intros n.
  destruct (children_drawn stage n cs (S n) IH ltac:(lia)) as (Hn & He & Hf). unfold draws_tree.
  cbn [entity_lines drawn]. fold (child_lines stage n). rewrite !omap_cons. cbn [node_of edge_of].
  rewrite Hn, Nat.sub_succ, Nat.sub_0_r. done.
Qed.

(** The edges between stages: one per stage a shuffle reads, into a node of
    the plan. *)
Definition shows_shuffles (stage : Z) (p : ExecutionPlan) (n : nat) (ls : list DiagramLine) : Prop :=
  omap source_of ls = flat_map us_query_stage_ids (flat_map unresolved_shuffles (plan_children p)) ∧
  Forall (λ l, ∃ y m, l = DL_ShuffleEdge y stage m ∧ n ≤ m < n + drawn p)%nat ls.

Lemma shuffle_sources stage n (ids : list Z) :
  omap source_of ((λ y, DL_ShuffleEdge y stage n) <$> ids) = ids.
Proof. induction ids as [|y ids IH]; [done|]. rewrite fmap_cons, omap_cons. cbn [source_of]. by rewrite IH. Qed.

Lemma children_shuffles stage n cs k :
  Forall (λ c, ∀ m, shows_shuffles stage c m (shuffle_lines stage c m)) cs → (n < k)%nat →
  omap source_of (child_shuffles stage n cs k) = flat_map us_query_stage_ids (flat_map unresolved_shuffles cs) ∧
  Forall (λ l, ∃ y m, l = DL_ShuffleEdge y stage m ∧
    n ≤ m < k + sum_list_with (λ c, if downcast_shuffle c is Some _ then 0 else drawn c) cs)%nat
    (child_shuffles stage n cs k).
Proof.
  intros Hcs. revert k. induction Hcs as [|c cs Hc _ IH]; intros k Hk; [done|].
  cbn [child_shuffles sum_list_with flat_map]. destruct (Hc k) as [Hs Hf].
  destruct (downcast_shuffle c) as [ids|] eqn:Ec.
  - destruct (IH k Hk) as [Hs' Hf']. rewrite omap_app, Hs', shuffle_sources, flat_map_app. split.
    + destruct c as [[] ccs]; try discriminate Ec. injection Ec as ->. simpl. by rewrite app_nil_r.
    + apply Forall_app. split; [|done]. apply Forall_fmap, Forall_forall. intros y _. eexists y, n. split; [done|lia].
  - destruct (IH (k + drawn c)%nat ltac:(lia)) as [Hs' Hf']. rewrite omap_app, Hs', Hs, flat_map_app. split.
    + destruct c as [[] ccs]; by try discriminate Ec.
    + apply Forall_app. split; (eapply Forall_impl; [eassumption|]); intros l (y & m & -> & Hm);
        exists y, m; (split; [done|lia]).
Qed.

Lemma shuffles_shown stage p n : shows_shuffles stage p n (shuffle_lines stage p n).
Proof.
  revert n. induction p as [op cs IH] using plan_ind. intros n.
  destruct (children_shuffles stage n cs (S n) IH ltac:(lia)) as [Hs Hf].
  unfold shows_shuffles. cbn [shuffle_lines drawn plan_children]. fold (child_shuffles stage n).
  split; [done|]. eapply Forall_impl; [exact Hf|]. intros l (y & m & -> & Hm). exists y, m. split; [done|lia].
Qed.

Lemma omap_flat_map {A B C} (f : B → option C) (g : A → list B) l :
  omap f (flat_map g l) = flat_map (λ x, omap f (g x)) l.
Proof. induction l as [|x l IH]; [done|]. simpl. by rewrite omap_app, IH. Qed.

Lemma flat_map_nil {A B} (f : A → list B) l : (∀ x, x ∈ l → f x = []) → flat_map f l = [].
Proof.
  induction l as [|x l IH]; intros Hf; [done|]. simpl. rewrite Hf by (by left).
  apply IH. intros y Hy. apply Hf. by right.
Qed.

Lemma shuffles_no_nodes stage p n : omap node_of (shuffle_lines stage p n) = [].
Proof.
  destruct (shuffles_shown stage p n) as [_ Hf]. induction Hf as [|l ls (y & m & -> & _) _ IH]; [done|].
  by rewrite omap_cons.
Qed.

(** The nodes of a whole diagram. *)
Definition stage_nodes (stages : list QueryStageExec) : list (Z * nat) :=
  flat_map (λ s, pair (qs_stage_id s) <$> seq 0 (drawn (qs_child s))) stages.

Lemma diagram_nodes stages : omap node_of (diagram_lines stages) = stage_nodes stages.
Proof.
  unfold diagram_lines. rewrite omap_cons, !omap_app, !omap_flat_map. cbn [node_of].
  rewrite (flat_map_nil (λ s, omap node_of (shuffle_lines _ _ _))) by (intros; apply shuffles_no_nodes).
  rewrite app_nil_l, omap_cons. cbn [node_of]. change (omap node_of []) with ([] : list (Z * nat)).
  rewrite app_nil_r. apply flat_map_ext. intros s. unfold cluster_lines.
  rewrite !omap_app, (proj1 (tree_drawn _ _ _)). cbn. by rewrite app_nil_r.
Qed.

Lemma elem_of_stage_nodes stages st n :
  (st, n) ∈ stage_nodes stages ↔ ∃ s, s ∈ stages ∧ qs_stage_id s = st ∧ (n < drawn (qs_child s))%nat.
Proof.
  unfold stage_nodes. rewrite list_elem_of_In, in_flat_map. split.
  - intros (s & Hs%list_elem_of_In & Hin%list_elem_of_In). apply list_elem_of_fmap in Hin as (m & E & Hm).
    apply elem_of_seq in Hm. simplify_eq. exists s. split_and!; [done|done|lia].
  - intros (s & Hs & <- & Hn). exists s. rewrite <-!list_elem_of_In. split; [done|].
    apply list_elem_of_fmap_2, elem_of_seq. lia.
Qed.

Lemma entities_no_sources stage p n : omap source_of (entity_lines stage p n) = [].
Proof.
  revert n. induction p as [op cs IH] using plan_ind. intros n. cbn [entity_lines]. fold (child_lines stage n).
  rewrite omap_cons. cbn [source_of]. generalize (S n). induction IH as [|c cs Hc _ IHc]; intros k; [done|].
  cbn [child_lines]. destruct (downcast_shuffle c); [done|]. by rewrite omap_app, Hc, omap_cons, IHc.
Qed.

Lemma diagram_sources stages :
  omap source_of (diagram_lines stages) =
    flat_map (λ s, flat_map us_query_stage_ids (flat_map unresolved_shuffles (plan_children (qs_child s)))) stages.
Proof.
  unfold diagram_lines. rewrite omap_cons, !omap_app, !omap_flat_map. cbn [source_of].
  rewrite (flat_map_nil (λ s, omap source_of (cluster_lines s))).
  - rewrite app_nil_l, omap_cons. cbn [source_of]. change (omap source_of []) with ([] : list Z).
    rewrite app_nil_r. apply flat_map_ext. intros s. apply shuffles_shown.
  - intros s _. unfold cluster_lines. by rewrite !omap_app, entities_no_sources.
Qed.

Lemma diagram_edges stages y st n :
  DL_ShuffleEdge y st n ∈ diagram_lines stages → (st, n) ∈ stage_nodes stages.
Proof.
  intros Hin. unfold diagram_lines in Hin. rewrite elem_of_cons, !elem_of_app in Hin.
  destruct Hin as [?|[Hin|[Hin|Hin]]]; [done|..|by apply list_elem_of_singleton in Hin].
  - assert (y ∈ omap source_of (flat_map cluster_lines stages)) as Hs by (apply list_elem_of_omap; eauto).
    rewrite omap_flat_map, flat_map_nil in Hs; [by apply not_elem_of_nil in Hs|].
    intros s _. unfold cluster_lines. by rewrite !omap_app, entities_no_sources.
  - apply list_elem_of_In, in_flat_map in Hin as (s & Hs & Hin). apply list_elem_of_In in Hs, Hin.
    destruct (shuffles_shown (qs_stage_id s) (qs_child s) 0) as [_ Hf].
    rewrite Forall_forall in Hf. destruct (Hf _ Hin) as (? & ? & ? & ?). simplify_eq.
    apply elem_of_stage_nodes. exists s. split_and!; [done|done|lia].
Qed.

(** ** Properties *)

(** The text of a plan is the lines of its operators in preorder, each
    indented by its depth, joined by newlines; if an operator has no text the
    outcome is that of the first such operator.  So a plan has a text exactly
    if all its operators have: an operator that is not among those with a
    text of their own crashes the formatter when its debug text has less than
    120 bytes. *)
Theorem format_plan_spec `{PlanText} `{ExecutionPlanMethods} p :
  format_plan p 0 = (let? ls := rmapM node_line (plan_nodes 0 p) in Ok (join newline ls)) ∧
  (is_ok (format_plan p 0) = true ↔ ∀ d q, (d, q) ∈ plan_nodes 0 p → is_ok (operator_str q) = true) ∧
  (∀ d q, (d, q) ∈ plan_nodes 0 p → described (plan_op q) = false →
    (String.length (debug_plan q) < 120)%nat → is_ok (format_plan p 0) = false).
Proof.
  split_and!; [apply format_plan_lines|apply format_plan_is_ok|]. intros d q. apply short_text_fails.
Qed.

(** A diagram shows a tree for every stage and one edge into it per stage
    that a shuffle below its root reads: the operators of a stage are its
    nodes, numbered from the root as 0, every other node has one edge, to a
    node with a smaller number, and an edge from another stage ends at a node
    that is drawn.  Such an edge starts at node 1 of its source, which is drawn
    only if that stage has a second operator. *)
Theorem produce_diagram_spec io_write io_create filename stages before :
  (∀ text, io_write text = Ok ()) → io_create filename = Ok () →
  ∃ ls, produce_diagram io_write io_create filename stages before = (Ok (), (ls, ())) ∧
    omap node_of ls = stage_nodes stages ∧
    (∀ s, s ∈ stages → ∃ l1 l2, ls = l1 ++ cluster_lines s ++ l2 ∧
      draws_tree (qs_stage_id s) (qs_child s) 0 (entity_lines (qs_stage_id s) (qs_child s) 0)) ∧
    omap source_of ls =
      flat_map (λ s, flat_map us_query_stage_ids (flat_map unresolved_shuffles (plan_children (qs_child s)))) stages ∧
    (∀ y st n, DL_ShuffleEdge y st n ∈ ls → (st, n) ∈ omap node_of ls) ∧
    (∀ y, (y, 1%nat) ∈ omap node_of ls ↔ ∃ s, s ∈ stages ∧ qs_stage_id s = y ∧ (1 < drawn (qs_child s))%nat).
Proof.
  intros Hw Hc. exists (diagram_lines stages). rewrite diagram_nodes. split_and!.
  - by apply produce_diagram_lines.
  - done.
  - intros s (l1 & l2 & ->)%list_elem_of_split. unfold diagram_lines.
    eexists (DL_Open :: flat_map cluster_lines l1), _. split; [|apply tree_drawn].
    rewrite flat_map_app. cbn [flat_map]. rewrite <-!app_assoc. cbn [app]. reflexivity.
  - apply diagram_sources.
  - apply diagram_edges.
  - intros y. apply elem_of_stage_nodes.
Qed.

(** ** Witnesses *)

Definition sample_stages : list QueryStageExec :=
  [mkQueryStageExec "job" 1 (Exec (X_Csv "/data" ["/data"] None ".csv" (mkSchema []) true (Some 44%Z) 32768) []);
   mkQueryStageExec "job" 2 (Exec X_Merge [UnresolvedShuffleExec_new [1%Z] (mkSchema []) 1])].

(** The edge starts at a node that is not there. *)
Lemma produce_diagram_spec_witness :
  ∃ ls, produce_diagram (λ _, Ok ()) (λ _, Ok ()) "plan.dot" sample_stages ([], ()) = (Ok (), (ls, ())) ∧
    DL_ShuffleEdge 1 2 0 ∈ ls ∧ ¬ (1%Z, 1%nat) ∈ omap node_of ls.
Proof.
  destruct (produce_diagram_spec (λ _, Ok ()) (λ _, Ok ()) "plan.dot" sample_stages ([], ()))
    as (ls & E & _ & _ & _ & _ & H1); [done..|].
  exists ls. split; [exact E|]. split.
  - vm_compute in E. injection E as <-. do 9 apply list_elem_of_further. apply list_elem_of_here.
  - rewrite H1. intros (s & Hs & Hy & Hd). unfold sample_stages in Hs; rewrite !elem_of_cons in Hs.
    destruct Hs as [->|[->|Hs]]; [|discriminate Hy|by apply not_elem_of_nil in Hs].
    vm_compute in Hd. lia.
Defined.
