(* ===== verification/Distribute.v ===== *)
(** * Running the stages of a query on executors

    Models the running half of src/rust/scheduler/src/planner.rs:
    [execute_distributed_query], [execute] and [execute_query_stage], which
    send the partitions of every stage to the executors and keep where they
    are.

    The requests that are sent are part of the state: an operation has the
    list of the requests so far and extends it.  What an executor answers is a
    parameter, and so is whether the [info!] and [debug!] lines are recorded:
    their arguments are evaluated only then, and formatting a plan can fail or
    panic (Utils.v).

    The theorems: every partition of a stage is in exactly one request that is
    sent, the executors take turns, and the locations of the result are those
    of the requests; the outcome is the first answer that is not a success; and
    a query whose requests all succeed runs all its stages in order, each with
    the shuffles it reads resolved to the requests sent before, up to a reader
    of all partitions of the query. *)

From S2P Require Import Prelude Keys Proto Arrow Scalar Expr LogicalPlan SchedTypes ExecPlan Planner.
From S2P Require Import Slicing Backend Utils.

(** ** Executing a stage *)

(** [slice::chunks]: consecutive runs of [n] elements, the last one shorter;
    the fuel is the length. *)
Fixpoint chunks_fuel {A} (fuel n : nat) (l : list A) : list (list A) :=
  match fuel, l with
  | _, [] => []
  | O, _ => []
  | S fuel, l => take n l :: chunks_fuel fuel n (drop n l)
  end.
Definition chunks {A} (n : nat) (l : list A) : list (list A) := chunks_fuel (length l) n l.

(** [num_chunks]: the number of partitions per request; the division panics
    when there is no executor. *)
Definition num_chunks (count : Z) (executors : list ExecutorMeta) : Result Z :=
  match executors with
  | [] => Panic "attempt to divide by zero"
  | _ => Ok (Z.max (count / Z.of_nat (length executors)) 1)
  end.

(** The chunks of partitions of a stage, each with the executor it is sent
    to: [executors[i % executors.len()]]. *)
Definition assign_chunks (executors : list ExecutorMeta) (partition_chunks : list (list Z))
    : list (option ExecutorMeta * list Z) :=
  imap (λ i c, (executors !! (i mod length executors)%nat, c)) partition_chunks.

(** One request of [execute_query_stage] to an executor. *)
Record StageRequest := mkStageRequest {
  sr_executor : ExecutorMeta; sr_job_id : string; sr_stage_id : Z; sr_partition_id : list Z;
  sr_plan : ExecutionPlan }.

(** The locations recorded for one chunk. *)
Definition chunk_locations (job_id : string) (stage_id : Z) (a : option ExecutorMeta * list Z)
    : Result (list PartitionLocation) :=
  let? executor_meta := unwrap "index out of bounds" a.1 in
  Ok (List.map (λ part, mkPartitionLocation (PartitionId_new job_id stage_id part) executor_meta) a.2).

(** The outcome of a spawned request: an error of the request is returned, a
    request that panicked is reported. *)
Definition check_result (r : Result unit) : Result unit :=
  match r with
  | Ok _ => Ok ()
  | Err e => Err e
  | Panic _ => Err (General "Query stage {} failed: {:?}")
  end.

Section distribute.
Context `{ExecutionPlanMethods} `{PlanText}.
(** Whether the log records these lines, and the outcome of a request: of
    connecting to the executor and of its answer. *)
Context (info_enabled debug_enabled : bool) (run : StageRequest → Result unit).

(** [tokio::spawn] of a request. *)
Definition spawn (r : StageRequest) : M (list StageRequest) (Result unit) := λ sent, (Ok (run r), sent ++ [r]).

(** The loop that spawns the requests of a stage: [executions]. *)
Fixpoint spawn_chunks (job_id : string) (stage_id : Z) (plan : ExecutionPlan)
    (assigned : list (option ExecutorMeta * list Z)) : M (list StageRequest) (list (Result unit)) :=
  match assigned with
  | [] => ret []
  | (executor, partition_ids) :: assigned =>
      let! executor_meta := lift (unwrap "index out of bounds" executor) in
      let! execution := spawn (mkStageRequest executor_meta job_id stage_id partition_ids plan) in
      let! executions := spawn_chunks job_id stage_id plan assigned in
      ret (execution :: executions)
  end.

(** [info!] of the text of a plan. *)
Definition info_plan (plan : ExecutionPlan) : Result unit :=
  if info_enabled then let? _ := format_plan plan 0 in Ok () else Ok ().

(** [execute_query_stage]. *)
Definition execute_query_stage (job_id : string) (stage_id : Z) (plan : ExecutionPlan)
    (executors : list ExecutorMeta) : M (list StageRequest) (list PartitionLocation) :=
  let! _ := lift (info_plan plan) in
  let partition_count := partition_count plan in
  let! num_chunks := lift (num_chunks partition_count executors) in
  let partition_chunks := chunks (Z.to_nat num_chunks) (zrange partition_count) in
  let assigned := assign_chunks executors partition_chunks in
  let! meta := lift (rmapM (chunk_locations job_id stage_id) assigned) in
  let! results := spawn_chunks job_id stage_id plan assigned in
  let! _ := lift (rmapM check_result results) in
  ret (List.concat meta).

(** [debug!] of the first bytes of the debug text of a stage. *)
Definition debug_stage (stage : QueryStageExec) : Result unit :=
  if debug_enabled then let? _ := slice_to (debug_plan (stage_plan stage)) 60 in Ok () else Ok ().

(** The loop of [execute] over the stages: the locations known so far and the
    locations of the last stage. *)
Fixpoint execute_stages (executors : list ExecutorMeta) (stages : list QueryStageExec)
    (partition_locations : gmap Z (list PartitionLocation))
    (result_partition_locations : list PartitionLocation)
    : M (list StageRequest) (list PartitionLocation) :=
  match stages with
  | [] => ret result_partition_locations
  | stage :: rest =>
      let! _ := lift (debug_stage stage) in
      let! p := lift (remove_unresolved_shuffles partition_locations (stage_plan stage)) in
      match p with
      | Exec (X_QueryStage job_id stage_id) (child :: _) =>
          let! locations := execute_query_stage job_id stage_id child executors in
          execute_stages executors rest (<[stage_id := locations]> partition_locations) locations
      | _ => lift (Panic "called `Option::unwrap()` on a `None` value")
      end
  end.

(** [execute]. *)
Definition execute (stages : list QueryStageExec) (executors : list ExecutorMeta)
    : M (list StageRequest) ExecutionPlan :=
  let! locations := execute_stages executors stages ∅ [] in
  let! last_stage := lift (unwrap "called `Option::unwrap()` on a `None` value" (last stages)) in
  lift (lift_df (ShuffleReaderExec_try_new locations (plan_schema (stage_plan last_stage)))).

(** [execute_distributed_query]; the planner is returned with its counter. *)
Definition execute_distributed_query (planner : DistributedPlanner) (job_id : string)
    (execution_plan : ExecutionPlan) : M (list StageRequest) (ExecutionPlan * DistributedPlanner) :=
  let! r := lift (plan_query_stages planner job_id execution_plan) in
  let! _ := lift (rmapM (λ stage, info_plan (stage_plan stage)) r.1) in
  let! plan := execute r.1 (dp_executors planner) in
  ret (plan, r.2).
End distribute.

(** ** Chunks *)

Lemma chunks_fuel_concat {A} (n fuel : nat) (l : list A) :
  (0 < n)%nat → (length l ≤ fuel)%nat → List.concat (chunks_fuel fuel n l) = l.
Proof.
  intros Hn. revert l. induction fuel as [|fuel IH]; intros [|x l] Hl; simpl in *; try done; [lia|].
  destruct n as [|n]; [lia|]. simpl. rewrite IH; [by rewrite take_drop|].
  rewrite length_drop. lia.
Qed.

Lemma chunks_concat {A} (n : nat) (l : list A) : (0 < n)%nat → List.concat (chunks n l) = l.
Proof. intros. by apply chunks_fuel_concat. Qed.

Lemma chunks_fuel_sizes {A} (n fuel : nat) (l : list A) :
  (0 < n)%nat → Forall (λ c, 0 < length c ≤ n)%nat (chunks_fuel fuel n l).
Proof.
  intros Hn. revert l. induction fuel as [|fuel IH]; intros [|x l]; simpl; try constructor; [|done].
  rewrite length_take. simpl. lia.
Qed.

(** The requests made for the chunks of a stage. *)
Lemma assigned_requests executors parts k job_id stage_id plan :
  executors ≠ [] →
  ∃ reqs, length reqs = length parts ∧
    imap (λ i c, (executors !! ((k + i) mod length executors)%nat, c)) parts =
      ((λ r, (Some (sr_executor r), sr_partition_id r)) <$> reqs) ∧
    Forall (λ r, sr_job_id r = job_id ∧ sr_stage_id r = stage_id ∧ sr_plan r = plan) reqs.
Proof.
  intros He. revert k. induction parts as [|c parts IH]; intros k; [by exists []|].
  destruct (lookup_lt_is_Some_2 executors ((k + 0) mod length executors)%nat) as [m Hm].
  { apply Nat.mod_upper_bound. by destruct executors. }
  destruct (IH (S k)) as (reqs & Hl & Hr & HF). exists (mkStageRequest m job_id stage_id c plan :: reqs).
  split_and!; [by simpl; rewrite Hl| |by constructor]. csimpl. rewrite Hm. f_equal. rewrite <-Hr.
  apply imap_ext. intros i x _. simpl. by replace (k + S i)%nat with (S k + i)%nat by lia.
Qed.

(** ** The requests of a stage *)

(** The locations a request stands for. *)
Definition request_locations (r : StageRequest) : list PartitionLocation :=
  (λ part, mkPartitionLocation (PartitionId_new (sr_job_id r) (sr_stage_id r) part) (sr_executor r)) <$>
    sr_partition_id r.

(** The requests [reqs] send every partition of a stage of [count] partitions
    exactly once, in order; all are for the plan [plan] of the stage, and the
    executors take turns. *)
Record covers (executors : list ExecutorMeta) (job_id : string) (stage_id count : Z) (plan : ExecutionPlan)
    (reqs : list StageRequest) : Prop := {
  cov_partitions : List.concat (sr_partition_id <$> reqs) = zrange count;
  cov_requests : Forall (λ r, sr_job_id r = job_id ∧ sr_stage_id r = stage_id ∧ sr_plan r = plan) reqs;
  cov_executors i r : reqs !! i = Some r → executors !! (i mod length executors)%nat = Some (sr_executor r);
  cov_sizes : Forall (λ r, 0 < Z.of_nat (length (sr_partition_id r)) ≤
    Z.max (count / Z.of_nat (length executors)) 1)%Z reqs;
}.

Lemma rmapM_chunk_locations job_id stage_id plan reqs :
  Forall (λ r, sr_job_id r = job_id ∧ sr_stage_id r = stage_id ∧ sr_plan r = plan) reqs →
  rmapM (chunk_locations job_id stage_id) ((λ r, (Some (sr_executor r), sr_partition_id r)) <$> reqs) =
    Ok (request_locations <$> reqs).
Proof.
  induction 1 as [|r reqs (<- & <- & _) _ IH]; [done|]. rewrite !fmap_cons. cbn [rmapM].
  fold (rmapM (chunk_locations (sr_job_id r) (sr_stage_id r))). by rewrite IH.
Qed.

Lemma spawn_chunks_ok run job_id stage_id plan reqs sent :
  Forall (λ r, sr_job_id r = job_id ∧ sr_stage_id r = stage_id ∧ sr_plan r = plan) reqs →
  spawn_chunks run job_id stage_id plan ((λ r, (Some (sr_executor r), sr_partition_id r)) <$> reqs) sent =
    (Ok (run <$> reqs), sent ++ reqs).
Proof.
  intros HF. revert sent. induction HF as [|r reqs (<- & <- & <-) _ IH]; intros sent;
    [by csimpl; rewrite app_nil_r|]. rewrite !fmap_cons. cbn [spawn_chunks].
  fold (spawn_chunks run (sr_job_id r) (sr_stage_id r) (sr_plan r)).
  unfold bindM, spawn, lift, unwrap. cbv beta iota. rewrite IH. destruct r. simpl. by rewrite <-app_assoc.
Qed.

Section stage.
Context `{ExecutionPlanMethods} `{PlanText}.
Context (info_enabled debug_enabled : bool) (run : StageRequest → Result unit).

(** The log can be written: the lines that are recorded can be formatted. *)
Definition info_ok (plan : ExecutionPlan) : Prop := info_plan info_enabled plan = Ok ().
Definition debug_ok (stage : QueryStageExec) : Prop := debug_stage debug_enabled stage = Ok ().

Lemma execute_query_stage_sends job_id stage_id plan executors :
  executors ≠ [] → info_ok plan →
  ∃ reqs, covers executors job_id stage_id (partition_count plan) plan reqs ∧
    ∀ sent, execute_query_stage info_enabled run job_id stage_id plan executors sent =
      ((let? _ := rmapM check_result (run <$> reqs) in Ok (List.concat (request_locations <$> reqs))),
       sent ++ reqs).
Proof.
  intros He Hlog. set (n := Z.max (partition_count plan / Z.of_nat (length executors)) 1).
  destruct (assigned_requests executors (chunks (Z.to_nat n) (zrange (partition_count plan))) 0
    job_id stage_id plan He) as (reqs & Hlen & Ha & HF). exists reqs. split.
  - assert (sr_partition_id <$> reqs = chunks (Z.to_nat n) (zrange (partition_count plan))) as Hp.
    { apply (f_equal (fmap (M := list) snd)) in Ha. rewrite fmap_imap, <-list_fmap_compose in Ha.
      etransitivity; [exact (eq_sym Ha)|]. rewrite <-(list_fmap_id (chunks _ _)) at 2. apply (imap_const id). }
    split; [|done| |].
    + rewrite Hp. apply chunks_concat. lia.
    + intros i r Hi. apply (f_equal (.!! i)) in Ha. rewrite list_lookup_fmap, Hi, list_lookup_imap in Ha.
      destruct (chunks _ _ !! i); simpl in Ha; [|done]. injection Ha as Ha _. done.
    + pose proof (chunks_fuel_sizes (Z.to_nat n) (length (zrange (partition_count plan)))
        (zrange (partition_count plan)) ltac:(lia)) as Hs.
      unfold chunks in Hp. rewrite <-Hp, Forall_fmap in Hs. eapply Forall_impl; [exact Hs|].
      intros r Hr. unfold compose in Hr. fold n. lia.
  - intros sent. unfold execute_query_stage. rewrite Hlog. unfold bindM at 1. simpl.
    assert (num_chunks (partition_count plan) executors = Ok n) as -> by (by destruct executors).
    unfold bindM at 1, lift at 1. cbv beta iota zeta. unfold assign_chunks. cbn [Nat.add] in Ha.
    rewrite Ha, (rmapM_chunk_locations _ _ _ _ HF). unfold bindM at 1, lift at 1. cbv beta iota.
    unfold bindM at 1. rewrite (spawn_chunks_ok run _ _ _ _ sent HF). unfold bindM, lift.
    by destruct (rmapM check_result _).
Qed.

Lemma check_results_ok (answers : list (Result unit)) :
  Forall (λ r, r = Ok ()) answers → is_ok (rmapM check_result answers) = true.
Proof. induction 1 as [|r l -> _ IH]; simpl in *; [done|]. by destruct (rmapM check_result l). Qed.

(** The first answer that is not a success decides. *)
Lemma check_results_first (oks rest : list (Result unit)) a :
  Forall (λ r, r = Ok ()) oks → a ≠ Ok () →
  rmapM check_result (oks ++ a :: rest) = let? u := check_result a in Ok [u].
Proof.
  intros Hok Ha. induction Hok as [|r l -> _ IH]; simpl; [by destruct a as [[]| |]|].
  rewrite IH. by destruct a as [[]| |].
Qed.
End stage.

(** ** The requests of a query *)

(** The requests of the stages, list by list: those of a stage cover its
    partitions, for its plan with every shuffle resolved to the locations
    [locs] of the requests sent before. *)
Fixpoint stages_sent `{ExecutionPlanMethods} (executors : list ExecutorMeta)
    (locs : gmap Z (list PartitionLocation)) (stages : list QueryStageExec)
    (sent : list (list StageRequest)) : Prop :=
  match stages, sent with
  | [], [] => True
  | s :: stages, reqs :: sent =>
      known locs (qs_child s) = true ∧
      covers executors (qs_job_id s) (qs_stage_id s) (partition_count (qs_child s))
        (resolve locs (qs_child s)) reqs ∧
      stages_sent executors (<[qs_stage_id s := List.concat (request_locations <$> reqs)]> locs) stages sent
  | _, _ => False
  end.

Lemma covers_locations executors job_id stage_id count plan reqs :
  covers executors job_id stage_id count plan reqs →
  pl_partition_id <$> List.concat (request_locations <$> reqs) = PartitionId_new job_id stage_id <$> zrange count.
Proof.
  intros [<- HF _ _]. induction HF as [|r reqs (<- & <- & _) _ IH]; [done|]. csimpl.
  rewrite !fmap_app, IH. f_equal. unfold request_locations. by rewrite <-list_fmap_compose.
Qed.

Lemma covers_length executors job_id stage_id count plan reqs :
  covers executors job_id stage_id count plan reqs →
  length (List.concat (request_locations <$> reqs)) = Z.to_nat count.
Proof.
  intros Hc%covers_locations%(f_equal length). by rewrite !length_fmap, length_zrange in Hc.
Qed.

Lemma stages_sent_last `{ExecutionPlanMethods} executors locs stages sent s :
  stages_sent executors locs stages sent → last stages = Some s →
  ∃ reqs plan, last sent = Some reqs ∧
    covers executors (qs_job_id s) (qs_stage_id s) (partition_count (qs_child s)) plan reqs.
Proof.
  revert locs sent. induction stages as [|x stages IH]; intros locs [|reqs sent] Hs Hl; try done.
  destruct Hs as (_ & Hc & Hs). destruct stages as [|y stages].
  - destruct sent; [|done]. injection Hl as ->. eauto.
  - destruct (IH _ _ Hs Hl) as (l & plan & Hl' & Hc'). exists l, plan. split; [|done].
    destruct sent; done.
Qed.

Section running.
Context `{ExecutionPlanMethodsOk} `{!WithNewChildrenOk} `{!InterfaceOk}.
Context `{PlanText}.
Context (info_enabled debug_enabled : bool) (run : StageRequest → Result unit) (executors : list ExecutorMeta).
Hypothesis Hexecutors : executors ≠ [].
Hypothesis Hrun : ∀ r, run r = Ok ().

(** The locations known for the stages [pre]: one per partition. *)
Definition located (pre : list QueryStageExec) (locs : gmap Z (list PartitionLocation)) : Prop :=
  ∀ s, s ∈ pre → ∃ l, locs !! qs_stage_id s = Some l ∧ Z.of_nat (length l) = partition_count (qs_child s).

(** The locations of the stages are complete: as many as the partitions. *)
Definition locations_full (stages : list QueryStageExec) (locs : gmap Z (list PartitionLocation)) : Prop :=
  ∀ s l, s ∈ stages → locs !! qs_stage_id s = Some l → Z.of_nat (length l) = partition_count (qs_child s).

(** The plans of a stage that the log records can be formatted: its own, and
    those in which its shuffles are resolved to complete locations. *)
Definition loggable (all : list QueryStageExec) (s : QueryStageExec) : Prop :=
  info_ok info_enabled (stage_plan s) ∧ debug_ok debug_enabled s ∧
  ∀ locs, locations_full all locs → known locs (qs_child s) = true → info_ok info_enabled (resolve locs (qs_child s)).

Lemma locations_full_insert all s l locs :
  NoDup (qs_stage_id <$> all) → s ∈ all → Z.of_nat (length l) = partition_count (qs_child s) →
  locations_full all locs → locations_full all (<[qs_stage_id s := l]> locs).
Proof.
  intros Hnd Hs Hl Hf x lx Hx [[Hid <-]|[_ Hlx]]%lookup_insert_Some; [|by apply (Hf x)].
  apply list_elem_of_lookup in Hs as [i Hi]. apply list_elem_of_lookup in Hx as [j Hj].
  assert (i = j) as ->; [|congruence].
  eapply NoDup_lookup; [exact Hnd|by rewrite list_lookup_fmap, Hi|by rewrite list_lookup_fmap, Hj; simpl; rewrite Hid].
Qed.

(** A stage that reads stages with known locations only can be resolved. *)
Lemma reads_known pre locs p : located pre locs → reads pre p → known locs p = true.
Proof.
  intros Hpre [_ Hr]. unfold known. apply List.forallb_forall. intros u Hu.
  rewrite Forall_forall in Hr. destruct (Hr u) as (s & Hs & ->); [by apply list_elem_of_In|].
  unfold known_shuffle. simpl. rewrite andb_true_r. apply bool_decide_eq_true_2.
  destruct (Hpre s Hs) as (l & -> & _). done.
Qed.

(** The reader of a stage has the partitions of the stage. *)
Lemma resolve_interface pre locs p :
  located pre locs → reads pre p →
  same_interface (resolve locs p) p ∧ (0 ≤ partition_count (resolve locs p))%Z.
Proof.
  intros Hpre. induction p as [op cs IH] using plan_ind. intros [Hr Hf].
  destruct (is_ballista_op op) eqn:Hop.
  { destruct op; try discriminate. simpl in Hf. apply Forall_cons in Hf as [(s & Hs & E) _].
    injection E as -> -> ->. destruct (Hpre s Hs) as (l & Hl & Hn). cbn [resolve].
    unfold same_interface. cbn. rewrite Hl. cbn. rewrite app_nil_r. split_and!; [done|done|lia]. }
  assert (forallb resolvable cs = true ∧ Forall (refers_to pre) (flat_map unresolved_shuffles cs)) as [Hr' Hf']
    by (by destruct op).
  assert (resolve locs (Exec op cs) = Exec op (List.map (resolve locs) cs)) as -> by (by destruct op).
  split.
  - apply interface_df; [done|]. clear Hr Hf. induction IH as [|c cs Hc _ IHcs]; [constructor|].
    simpl in Hr', Hf'. apply andb_prop in Hr' as [Hr1 Hr2]. apply Forall_app in Hf' as [Hf1 Hf2].
    constructor; [by apply Hc|by apply IHcs].
  - pose proof (df_partition_count_range op (List.map (resolve locs) cs)) as Hrange. unfold in_u in Hrange.
    destruct op; try discriminate Hop; cbn [partition_count]; lia.
Qed.

Lemma execute_stages_ok pre stages locs res sent :
  located pre locs → locations_full (pre ++ stages) locs → deps_ok pre stages →
  NoDup (qs_stage_id <$> (pre ++ stages)) → Forall (loggable (pre ++ stages)) stages →
  ∃ reqs, stages_sent executors locs stages reqs ∧
    execute_stages info_enabled debug_enabled run executors stages locs res sent =
      (Ok (default res ((λ l, List.concat (request_locations <$> l)) <$> last reqs)), sent ++ List.concat reqs).
Proof.
  revert pre locs res sent. induction stages as [|s stages IH]; intros pre locs res sent Hpre Hfull Hd Hnd Hlog.
  { exists []. split; [done|]. by rewrite app_nil_r. }
  destruct Hd as [Hr Hd]. apply Forall_cons in Hlog as [(_ & Hdebug & Hinfo) Hlog].
  pose proof (reads_known _ _ _ Hpre Hr) as Hk. destruct (resolve_interface _ _ _ Hpre Hr) as [[_ Hcount] Hpos].
  destruct (execute_query_stage_sends info_enabled run (qs_job_id s) (qs_stage_id s)
    (resolve locs (qs_child s)) executors Hexecutors (Hinfo locs Hfull Hk)) as (reqs & Hc & Hex).
  assert (is_ok (rmapM check_result (run <$> reqs)) = true) as Hok
    by (apply check_results_ok, Forall_fmap, Forall_true; exact Hrun).
  destruct (rmapM check_result (run <$> reqs)) as [us| |]; [clear Hok|discriminate Hok..].
  rewrite Hcount in Hc.
  destruct (IH (pre ++ [s]) (<[qs_stage_id s := List.concat (request_locations <$> reqs)]> locs)
    (List.concat (request_locations <$> reqs)) (sent ++ reqs)) as (rest & Hsent & Hrest);
    [| |done|by rewrite <-app_assoc|by rewrite <-app_assoc|].
  { intros x [Hx| ->%list_elem_of_singleton]%elem_of_app.
    - rewrite lookup_insert_ne; [by apply Hpre|]. intros E. rewrite fmap_app, NoDup_app in Hnd.
      destruct Hnd as (_ & Hnd & _). apply (Hnd (qs_stage_id x)); [by apply list_elem_of_fmap_2|].
      rewrite <-E. apply list_elem_of_here.
    - rewrite lookup_insert_eq. eexists. split; [done|]. rewrite (covers_length _ _ _ _ _ _ Hc). lia. }
  { rewrite <-app_assoc. apply locations_full_insert; [done|set_solver| |done].
    rewrite (covers_length _ _ _ _ _ _ Hc). lia. }
  exists (reqs :: rest). split; [done|]. cbn [execute_stages]. unfold debug_ok in Hdebug.
  unfold bindM at 1, lift at 1. rewrite Hdebug. unfold bindM at 1, lift at 1.
  rewrite remove_stage; [|by destruct Hr|done]. unfold bindM. rewrite Hex. cbv beta iota.
  rewrite Hrest. rewrite <-app_assoc. f_equal. f_equal. destruct rest as [|l rest]; [done|].
  change (last (reqs :: l :: rest)) with (last (l :: rest)). by destruct (last_cons_is_Some l rest) as [y ->].
Qed.
End running.

(** ** Properties *)

(** C24 — Executing a stage, with the answers of the executors any, sends
    requests that hold every partition of the stage exactly once and in order,
    all for the plan and the stage; the executors of the cluster take turns, and
    no request has more partitions than one executor's share.  If all answers
    are successes, the result is the location of every partition, in order, on
    the executor its request was sent to; otherwise the error of the first
    answer that is not, with all requests sent nevertheless.  There must be an
    executor, and the text of the plan must exist if the log records it. *)
Theorem execute_query_stage_covers `{ExecutionPlanMethods} `{PlanText} info_enabled run job_id stage_id plan
    executors sent :
  executors ≠ [] → info_ok info_enabled plan →
  ∃ reqs result,
    execute_query_stage info_enabled run job_id stage_id plan executors sent = (result, sent ++ reqs) ∧
    covers executors job_id stage_id (partition_count plan) plan reqs ∧
    (Forall (λ r, run r = Ok ()) reqs →
      ∃ locs, result = Ok locs ∧ locs = List.concat (request_locations <$> reqs) ∧
        pl_partition_id <$> locs = PartitionId_new job_id stage_id <$> zrange (partition_count plan)) ∧
    (∀ oks r rest, reqs = oks ++ r :: rest → Forall (λ r, run r = Ok ()) oks →
      (∀ e, run r = Err e → result = Err e) ∧
      (∀ m, run r = Panic m → result = Err (General "Query stage {} failed: {:?}"))).
Proof.
  intros He Hlog. destruct (execute_query_stage_sends info_enabled run job_id stage_id plan executors He Hlog)
    as (reqs & Hc & Hex). eexists reqs, _. split; [apply Hex|]. split; [done|]. split.
  - intros Hok. eexists. split; [|split; [reflexivity|by eapply covers_locations]].
    assert (is_ok (rmapM check_result (run <$> reqs)) = true) as Ho
      by (by apply check_results_ok, Forall_fmap). by destruct (rmapM check_result _).
  - intros oks r rest -> Hoks. rewrite fmap_app, fmap_cons.
    split; intros ? E; (rewrite check_results_first; [|by apply Forall_fmap|by rewrite E]); by rewrite E.
Qed.

(** Texts for the witnesses, long enough for the log. *)
Definition sample_text : PlanText := {|
  debug_plan _ := repeat_str "plan" 40; display_expr _ := "e"; display_operator _ := "+" |}.

Lemma execute_query_stage_covers_witness :
  let plan := Exec (X_Empty true (mkSchema [])) [] in
  let answer r := if bool_decide (2%Z ∈ sr_partition_id r) then Err (General "full") else Ok () in
  (∃ reqs locs, @execute_query_stage sample_methods sample_text true (λ _, Ok ()) "job" 1 plan
      (dp_executors sample_planner) [] = (Ok locs, reqs) ∧
    pl_partition_id <$> locs = PartitionId_new "job" 1 <$> [0; 1; 2; 3]%Z) ∧
  ∃ reqs, @execute_query_stage sample_methods sample_text true answer "job" 1 plan
      (dp_executors sample_planner) [] = (Err (General "full"), reqs) ∧
    sr_partition_id <$> reqs = [[0; 1]; [2; 3]]%Z.
Proof.
  intros plan answer. split.
  - destruct (@execute_query_stage_covers sample_methods sample_text true (λ _, Ok ()) "job" 1 plan
      (dp_executors sample_planner) []) as (reqs & result & E & Hc & Hok & _); [discriminate|reflexivity|].
    destruct Hok as (locs & -> & _ & Hl); [by apply Forall_true|]. exists reqs, locs. split; [exact E|exact Hl].
  - destruct (@execute_query_stage_covers sample_methods sample_text true answer "job" 1 plan
      (dp_executors sample_planner) []) as (reqs & result & E & _ & _ & Hbad); [discriminate|reflexivity|].
    assert (reqs = (@execute_query_stage sample_methods sample_text true answer "job" 1 plan
      (dp_executors sample_planner) []).2) as Hreqs by (by rewrite E).
    exists reqs. split; [|by rewrite Hreqs]. rewrite E. f_equal.
    refine (proj1 (Hbad [mkStageRequest (mkExecutorMeta "e1" "h1" 1) "job" 1 [0; 1]%Z plan]
      (mkStageRequest (mkExecutorMeta "e2" "h2" 2) "job" 1 [2; 3]%Z plan) [] _ _) _ _);
      [by rewrite Hreqs|by repeat constructor|reflexivity].
Defined.

(** C23 — A distributed query runs to its end.  If every executor serves its
    requests, and the plans that the log records have a text, the stages of the
    sliced plan are executed in order: every partition of every stage is sent
    exactly once, for the plan of the stage in which every shuffle reads the
    locations of the requests sent for the stage it names.  The result is a
    reader of exactly as many partitions as the query has, in order, on the
    executors the requests of the last stage were sent to, with the schema of
    the query. *)
Theorem distributed_query_completes `{ExecutionPlanMethodsOk, !WithNewChildrenOk, !InterfaceOk} `{PlanText}
    info_enabled debug_enabled run planner job_id p stages planner' sent :
  df_plan p = true → dp_executors planner ≠ [] → (∀ r, run r = Ok ()) →
  plan_query_stages planner job_id p = Ok (stages, planner') →
  Forall (loggable info_enabled debug_enabled stages) stages →
  ∃ s requests reqs locs,
    execute_distributed_query info_enabled debug_enabled run planner job_id p sent =
      (Ok (Exec (X_ShuffleReader locs (plan_schema p)) [], planner'), sent ++ List.concat requests) ∧
    stages_sent (dp_executors planner) ∅ stages requests ∧
    last stages = Some s ∧ last requests = Some reqs ∧ locs = List.concat (request_locations <$> reqs) ∧
    pl_partition_id <$> locs = PartitionId_new job_id (qs_stage_id s) <$> zrange (partition_count p).
Proof.
  intros Hdf He Hrun Hp Hlog.
  destruct (plan_query_stages_ok _ _ _ _ _ Hdf Hp) as (Hids & _ & Hd & Hj & Hne).
  destruct (plan_query_stages_rebuilds _ _ _ _ _ Hdf Hp) as (_ & _ & Hm & Hnd & _ & s & Hlast & Hs).
  destruct (execute_stages_ok info_enabled debug_enabled run (dp_executors planner) He Hrun [] stages ∅ [] sent)
    as (requests & Hsent & Hex); [by intros x ?%not_elem_of_nil|done|done|done|done|].
  pose proof (last_Some_elem_of _ _ Hlast) as Hin.
  destruct (Hm s Hin) as (q & Hq & _ & Hschema & Hcount). rewrite Hs in Hq. injection Hq as <-.
  destruct (stages_sent_last _ _ _ _ _ Hsent Hlast) as (reqs & plan & Hr & Hc).
  assert (qs_job_id s = job_id) as Hjs by (by rewrite Forall_forall in Hj; apply Hj).
  exists s, requests, reqs, (List.concat (request_locations <$> reqs)). split_and!; try done.
  - unfold execute_distributed_query. unfold bindM at 1, lift at 1. rewrite Hp. cbn [fst snd].
    unfold bindM at 1, lift at 1.
    assert (is_ok (rmapM (λ stage, info_plan info_enabled (stage_plan stage)) stages) = true) as Hi.
    { rewrite rmapM_is_ok. apply List.forallb_forall. intros x Hx%list_elem_of_In.
      rewrite Forall_forall in Hlog. destruct (Hlog x Hx) as [Hx1 _]. by rewrite Hx1. }
    destruct (rmapM _ stages) as [us| |]; [|discriminate Hi..]. unfold execute, bindM at 1 2. rewrite Hex.
    unfold bindM, lift. rewrite Hlast, Hr. simpl. unfold stage_plan. simpl. by rewrite Hschema.
  - rewrite (covers_locations _ _ _ _ _ _ Hc), Hjs. by rewrite Hcount.
Qed.

Lemma distributed_query_completes_witness :
  ∃ requests locs, @execute_distributed_query sample_methods sample_text true true (λ _, Ok ()) sample_planner
      "job" sample_physical [] =
      (Ok (Exec (X_ShuffleReader locs (mkSchema [])) [], mkDistributedPlanner (dp_executors sample_planner) 2),
       List.concat requests) ∧
    @stages_sent sample_methods (dp_executors sample_planner) ∅ Planner.sample_stages requests ∧
    pl_partition_id <$> locs = PartitionId_new "job" 2 <$> [0; 1]%Z.
Proof.
  destruct (@distributed_query_completes sample_methods sample_methods_ok sample_methods_total
    sample_methods_interface sample_text true true (λ _, Ok ()) sample_planner "job" sample_physical
    Planner.sample_stages (mkDistributedPlanner (dp_executors sample_planner) 2) [])
    as (s & requests & reqs & locs & E & Hsent & Hs & _ & _ & Hl); [reflexivity|discriminate|reflexivity|reflexivity| |].
  - repeat constructor; intros locs _ _; reflexivity.
  - exists requests, locs. split; [exact E|]. split; [exact Hsent|].
    injection Hs as <-. exact Hl.
Defined.
