(* ===== verification/Batch.v ===== *)
(** * Record batches and the streams of them

    Arrow's record batches as Ballista uses them, the statistics of a partition
    (src/rust/core/src/utils.rs), the stream over batches in memory
    (memory_stream.rs), the operator that merges the partitions of a plan
    (src/rust/executor/src/collect.rs) and the client's columnar batches
    (src/rust/client/src/columnar_batch.rs).

    Arrow's arrays are values with a few methods, which are parameters.  What
    [futures::stream::select_all] makes of streams is a parameter of
    Execution.v.

    The theorems: the statistics survive their encoding as arrays; a stream in
    memory delivers its batches in order, once; which streams are merged; a columnar
    batch converts back to the record batch it was made of, if its column names
    are distinct. *)

From S2P Require Import Prelude Proto Arrow Scalar Expr LogicalPlan SchedTypes ExecPlan Backend.

(** ** Batches *)

(** Arrow's arrays, as far as the summary of a partition is made of them. *)
Inductive Column :=
| C_Utf8 (values : list string)
| C_UInt64 (values : list Z)
| C_Struct (columns : list (string * Column))
| C_Other (id : Z).

Record RecordBatch := mkRecordBatch {
  rb_schema : Schema; rb_columns : list Column; rb_num_rows : Z }.

(** [SendableRecordBatchStream]: the schema and the items, some of which may
    be errors. *)
Definition BatchStream : Type := Schema * list (result string RecordBatch).

(** Arrow's arrays, the constructor of batches and DataFusion's [collect] of a
    stream. *)
Class Arrays := {
  array_len : Column → Z;
  array_data_type : Column → DataType;
  array_memory_size : Column → Z;
  array_null_count : Column → Z;
  scalar_to_array_of_size : ScalarValue → Z → Column;
  record_batch_try_new : Schema → list Column → result string RecordBatch;
  df_collect : BatchStream → DFResult (list RecordBatch);
}.

(** A batch has the schema and the columns it is made of, one per field;
    collecting a stream without errors gives its batches. *)
Class ArraysOk `{Arrays} := {
  record_batch_spec schema columns b : record_batch_try_new schema columns = Ok b →
    rb_schema b = schema ∧ rb_columns b = columns ∧ length columns = length (schema_fields schema);
  df_collect_ok schema bs : df_collect (schema, Ok <$> bs) = Ok bs;
}.

(** [collect_stream]: the items up to the first error. *)
Fixpoint collect_stream (stream : list (result string RecordBatch)) : Result (list RecordBatch) :=
  match stream with
  | [] => Ok []
  | batch :: rest =>
      let? b := map_err ArrowError batch in
      let? batches := collect_stream rest in Ok (b :: batches)
  end.

(** ** The statistics of a partition *)

Record PartitionStats := mkPartitionStats {
  ps_num_rows : Z; ps_num_batches : Z; ps_num_bytes : Z; ps_null_count : Z }.
Definition PartitionStats_default : PartitionStats := mkPartitionStats 0 0 0 0.

Definition arrow_struct_fields : list Field :=
  [Field_new "num_rows" DT_UInt64 false; Field_new "num_batches" DT_UInt64 false;
   Field_new "num_bytes" DT_UInt64 false; Field_new "null_count" DT_UInt64 false].
Definition arrow_struct_repr : Field :=
  Field_new "partition_stats" (DT_Struct arrow_struct_fields) false.

(** [to_arrow_arrayref]: the builders are paired with the fields in order. *)
Definition to_arrow_arrayref (self : PartitionStats) : Column :=
  C_Struct [("num_rows", C_UInt64 [ps_num_rows self]);
            ("num_batches", C_UInt64 [ps_num_batches self]);
            ("num_bytes", C_UInt64 [ps_num_bytes self]);
            ("null_count", C_UInt64 [ps_null_count self])].

(** [column_by_name]. *)
Fixpoint column_by_name (columns : list (string * Column)) (name : string) : option Column :=
  match columns with
  | [] => None
  | (n, c) :: rest => if bool_decide (n = name) then Some c else column_by_name rest name
  end.

(** A field of [from_arrow_struct_array]: the column must exist, be a
    [UInt64Array] and have a first value. *)
Definition stats_field (columns : list (string * Column)) (name : string) : Result Z :=
  let? c := unwrap ("from_arrow_struct_array expected a field " +:+ name)
    (column_by_name columns name) in
  match c with
  | C_UInt64 (v :: _) => Ok v
  | C_UInt64 [] => Panic "index out of bounds"
  | _ => Panic ("from_arrow_struct_array expected " +:+ name +:+ " to be a UInt64Array")
  end.
Definition from_arrow_struct_array (columns : list (string * Column)) : Result PartitionStats :=
  let? num_rows := stats_field columns "num_rows" in
  let? num_batches := stats_field columns "num_batches" in
  let? num_bytes := stats_field columns "num_bytes" in
  let? null_count := stats_field columns "null_count" in
  Ok (mkPartitionStats num_rows num_batches num_bytes null_count).

Lemma stats_roundtrip stats : ∃ columns,
  to_arrow_arrayref stats = C_Struct columns ∧ from_arrow_struct_array columns = Ok stats.
Proof. eexists. split; [reflexivity|]. by destruct stats. Qed.

(** ** Batches in memory *)

Module MemoryStream.
Section stream.
Context `{Arrays}.

Record MemoryStream := mkMemoryStream {
  data : list RecordBatch; schema : Schema; projection : option (list Z); index : nat }.

Definition try_new (data : list RecordBatch) (schema : Schema) (projection : option (list Z))
    : result string MemoryStream := Ok (mkMemoryStream data schema projection 0).

(** [batch.column(i)]: the index must be in range. *)
Definition column (batch : RecordBatch) (i : Z) : result string Column :=
  unwrap "index out of bounds" (rb_columns batch !! Z.to_nat i).

(** The item of a batch: a projection makes a batch of the schema with the
    columns it names. *)
Definition project (self : MemoryStream) (batch : RecordBatch) : result string RecordBatch :=
  match projection self with
  | Some columns => let? cs := rmapM (column batch) columns in record_batch_try_new (schema self) cs
  | None => Ok batch
  end.

(** [poll_next], which is always ready: an item, or the end. *)
Definition poll_next (self : MemoryStream) : option (result string RecordBatch) * MemoryStream :=
  match data self !! index self with
  | Some batch =>
      (Some (project self batch),
       mkMemoryStream (data self) (schema self) (projection self) (S (index self)))
  | None => (None, self)
  end.

(** [size_hint]: at least and at most. *)
Definition size_hint (self : MemoryStream) : nat * option nat :=
  (length (data self), Some (length (data self))).

(** What [n] polls deliver. *)
Fixpoint polls (n : nat) (self : MemoryStream) : list (option (result string RecordBatch)) * MemoryStream :=
  match n with
  | 0%nat => ([], self)
  | S n => let '(item, self1) := poll_next self in let '(items, self2) := polls n self1 in (item :: items, self2)
  end.

Lemma polls_from n bs sch proj i :
  (polls n (mkMemoryStream bs sch proj i)).1 =
    (λ k, project (mkMemoryStream bs sch proj 0) <$> bs !! k) <$> seq i n ∧
  ∃ j, (polls n (mkMemoryStream bs sch proj i)).2 = mkMemoryStream bs sch proj j.
Proof.
  revert i. induction n as [|n IH]; intros i; [by eauto|]. cbn [polls seq]. unfold poll_next. cbn [data index].
  destruct (bs !! i) as [b|] eqn:Eb.
  - cbn [schema projection]. destruct (IH (S i)) as [Hi Hj]. rewrite fmap_cons, Eb.
    destruct (polls n _) as [items s]. cbn [fst snd] in *. by rewrite Hi.
  - destruct (IH i) as [Hi Hj]. rewrite fmap_cons, Eb. destruct (polls n _) as [items s]. cbn [fst snd] in *.
    split; [|done]. rewrite Hi. simpl. f_equal.
    assert (∀ k, i ≤ k → bs !! k = None)%nat as Hnone.
    { intros k Hk. apply lookup_ge_None. apply lookup_ge_None in Eb. lia. }
    clear -Hnone. revert i Hnone. induction n as [|n IH]; intros i Hnone; [done|]. cbn [seq].
    rewrite !fmap_cons, !Hnone by lia. f_equal. apply IH. intros. apply Hnone. lia.
Qed.
End stream.
End MemoryStream.

(** ** The collect operator *)

Section collect.
Context `{ExecutionPlanMethods} (plan_execute : ExecutionPlan → Z → DFResult BatchStream).

(** [CollectExec::execute]: the schema and the streams of the merged stream. *)
Definition collect_execute (plan : ExecutionPlan) (partition : Z)
    : DFResult (Schema * list (list (result string RecordBatch))) :=
  if bool_decide (partition ≠ 0%Z) then Panic "assertion failed: `(left == right)`"
  else
    let num_partitions := partition_count plan in
    let? streams := rmapM (λ i, map_err (λ _, DF_Execution "BallistaError: {:?}") (plan_execute plan i))
      (zrange num_partitions) in
    Ok (plan_schema plan, List.map snd streams).
End collect.

(** ** Columnar batches of the client *)

Inductive ColumnarValue :=
| CV_Scalar (value : ScalarValue) (n : Z)
| CV_Columnar (array : Column).

Record ColumnarBatch := mkColumnarBatch {
  cb_schema : Schema; cb_columns : gmap string ColumnarValue }.

(** [collect] into a [HashMap]: the last value of a key stays. *)
Definition collect_map {A} (kvs : list (string * A)) : gmap string A :=
  foldl (λ m kv, <[kv.1 := kv.2]> m) ∅ kvs.

Section columnar.
Context `{Arrays}.

Definition value_len (self : ColumnarValue) : Z :=
  match self with CV_Scalar _ n => n | CV_Columnar array => array_len array end.
Definition value_is_empty (self : ColumnarValue) : bool := bool_decide (value_len self = 0%Z).

(** [data_type]: not for every scalar. *)
Definition value_data_type (self : ColumnarValue) : Result DataType :=
  match self with
  | CV_Columnar array => Ok (array_data_type array)
  | CV_Scalar value _ =>
      match value with
      | SV_UInt8 _ => Ok DT_UInt8
      | SV_UInt16 _ => Ok DT_UInt16
      | SV_UInt32 _ => Ok DT_UInt32
      | SV_UInt64 _ => Ok DT_UInt64
      | SV_Int8 _ => Ok DT_Int8
      | SV_Int16 _ => Ok DT_Int16
      | SV_Int32 _ => Ok DT_Int32
      | SV_Int64 _ => Ok DT_Int64
      | SV_Float32 _ => Ok DT_Float32
      | SV_Float64 _ => Ok DT_Float64
      | _ => Panic "not implemented"
      end
  end.
Definition value_to_arrow (self : ColumnarValue) : Column :=
  match self with
  | CV_Columnar array => array
  | CV_Scalar value n => scalar_to_array_of_size value n
  end.
Definition value_memory_size (self : ColumnarValue) : Z :=
  match self with CV_Columnar array => array_memory_size array | _ => 0 end.

(** [from_arrow]: a field for every column. *)
Definition from_arrow (batch : RecordBatch) : Result ColumnarBatch :=
  let? columns := rmapM (λ '(i, array),
      let? field := unwrap "index out of bounds" (schema_fields (rb_schema batch) !! i) in
      Ok (field_name field, CV_Columnar array)) (imap pair (rb_columns batch)) in
  Ok (mkColumnarBatch (rb_schema batch) (collect_map columns)).

(** [from_values]: a value for every field. *)
Definition from_values (values : list ColumnarValue) (schema : Schema) : Result ColumnarBatch :=
  let? columns := rmapM (λ '(i, f),
      let? value := unwrap "index out of bounds" (values !! i) in
      Ok (field_name f, value)) (imap pair (schema_fields schema)) in
  Ok (mkColumnarBatch schema (collect_map columns)).

(** [column]: the index operator of the map. *)
Definition batch_column (self : ColumnarBatch) (name : string) : Result ColumnarValue :=
  unwrap "no entry found for key" (cb_columns self !! name).

(** [to_arrow]. *)
Definition to_arrow (self : ColumnarBatch) : Result RecordBatch :=
  let? arrays := rmapM (λ c,
      let? value := batch_column self (field_name c) in
      match value with
      | CV_Columnar array => Ok array
      | CV_Scalar _ _ => Err (ballista_error "Cannot convert scalar value to Arrow array")
      end) (schema_fields (cb_schema self)) in
  map_err ArrowError (record_batch_try_new (cb_schema self) arrays).

Definition num_columns (self : ColumnarBatch) : Z := Z.of_nat (size (cb_columns self)).
Definition num_rows (self : ColumnarBatch) : Result Z :=
  let? f := unwrap "index out of bounds" (schema_fields (cb_schema self) !! 0%nat) in
  let? value := batch_column self (field_name f) in Ok (value_len value).
Definition memory_size (self : ColumnarBatch) : Z :=
  map_fold (λ _ c n, as_usize (value_memory_size c + n)%Z) 0%Z (cb_columns self).
End columnar.

(** The last value of a key. *)
Fixpoint last_of {A} (kvs : list (string * A)) (name : string) : option A :=
  match kvs with
  | [] => None
  | (k, v) :: kvs =>
      match last_of kvs name with
      | Some w => Some w
      | None => if bool_decide (k = name) then Some v else None
      end
  end.

Lemma collect_map_lookup {A} (kvs : list (string * A)) name : collect_map kvs !! name = last_of kvs name.
Proof.
  assert (∀ m : gmap string A, foldl (λ m kv, <[kv.1 := kv.2]> m) m kvs !! name =
    match last_of kvs name with Some v => Some v | None => m !! name end) as Hm.
  { induction kvs as [|[k v] kvs IH]; intros m; [done|]. simpl. rewrite IH.
    destruct (last_of kvs name); [done|]. case_bool_decide as Hk.
    - subst. by rewrite lookup_insert_eq.
    - by rewrite lookup_insert_ne. }
  unfold collect_map. rewrite Hm, lookup_empty. by destruct (last_of kvs name).
Qed.

Lemma last_of_nodup {A} (names : list string) (vs : list A) i name v :
  NoDup names → length names = length vs → names !! i = Some name → vs !! i = Some v →
  last_of (zip names vs) name = Some v.
Proof.
  intros Hnd. revert vs i. induction Hnd as [|x names Hx Hnd IH]; intros [|w vs] i Hlen Hn Hv; try done.
  simpl. destruct i as [|i]; simpl in *; simplify_eq.
  - assert (last_of (zip names vs) name = None) as ->.
    { clear -Hx. revert vs. induction names as [|y names IH]; intros [|w vs]; try done. simpl.
      apply not_elem_of_cons in Hx as [Hne Hx]. rewrite IH by done. by rewrite bool_decide_false. }
    by rewrite bool_decide_true.
  - by rewrite (IH vs i).
Qed.

Lemma zip_prod_map {A B} (f : A → B) (names : list string) (vs : list A) :
  zip names (f <$> vs) = prod_map id f <$> zip names vs.
Proof. revert vs. induction names as [|n names IH]; intros [|v vs]; [done..|]. csimpl. by rewrite IH. Qed.

Lemma last_of_fmap {A B} (f : A → B) kvs name :
  last_of (prod_map id f <$> kvs) name = f <$> last_of kvs name.
Proof.
  induction kvs as [|[k v] kvs IH]; [done|]. csimpl. rewrite IH.
  destruct (last_of kvs name); [done|]. simpl. by case_bool_decide.
Qed.

Section columnar_facts.
Context `{ArraysOk}.

(** The columns of a batch by name. *)
Lemma from_arrow_eq b :
  length (rb_columns b) = length (schema_fields (rb_schema b)) →
  from_arrow b = Ok (mkColumnarBatch (rb_schema b)
    (collect_map (zip (field_name <$> schema_fields (rb_schema b)) (CV_Columnar <$> rb_columns b)))).
Proof.
  intros Hlen. unfold from_arrow. set (fields := schema_fields (rb_schema b)) in *.
  assert (∀ cs fs fs', fields = fs ++ fs' → length cs = length fs' →
    rmapM (λ '(i, array), let? field := unwrap (E := BallistaError) "index out of bounds" (fields !! i) in
        Ok (field_name field, CV_Columnar array)) (imap (λ i, pair (length fs + i)%nat) cs) =
      Ok (zip (field_name <$> fs') (CV_Columnar <$> cs))) as Hgo.
  { induction cs as [|c cs IH]; intros fs [|f fs'] Hf Hl; try done. cbn [imap rmapM].
    rewrite Hf, list_lookup_middle by lia. cbn [unwrap]. rewrite <-Hf.
    specialize (IH (fs ++ [f]) fs'). rewrite length_app in IH. simpl in IH.
    assert (imap ((λ i, pair (length fs + i)%nat) ∘ S) cs = imap (λ i, pair (length fs + 1 + i)%nat) cs) as ->.
    { apply imap_ext. intros. simpl. f_equal. lia. }
    rewrite IH; [done|by rewrite <-app_assoc|by injection Hl]. }
  specialize (Hgo (rb_columns b) [] fields eq_refl Hlen). cbn [length] in Hgo.
  change (imap pair (rb_columns b)) with (imap (λ i, pair (0 + i)%nat) (rb_columns b)). by rewrite Hgo.
Qed.

(** The array of a field after the trip: the last column with its name. *)
Definition array_named (b : RecordBatch) (name : string) : option Column :=
  last_of (zip (field_name <$> schema_fields (rb_schema b)) (rb_columns b)) name.

Lemma to_from_arrow b arrays :
  length (rb_columns b) = length (schema_fields (rb_schema b)) →
  Forall2 (λ f a, array_named b (field_name f) = Some a) (schema_fields (rb_schema b)) arrays →
  (let? cb := from_arrow b in to_arrow cb) = map_err ArrowError (record_batch_try_new (rb_schema b) arrays).
Proof.
  intros Hlen Harr. rewrite from_arrow_eq by done. unfold to_arrow. cbn [cb_schema].
  match goal with |- context [rmapM ?f _] => set (get := f) end.
  assert (∀ f a, array_named b (field_name f) = Some a → get f = Ok a) as Hget.
  { intros f a Hf. unfold get, batch_column. cbn [cb_columns]. rewrite collect_map_lookup.
    unfold array_named in Hf. by rewrite zip_prod_map, last_of_fmap, Hf. }
  assert (rmapM get (schema_fields (rb_schema b)) = Ok arrays) as ->; [|done].
  clearbody get. clear -Harr Hget. induction Harr as [|f a fs arrays Hf _ IH]; [done|]. cbn [rmapM].
  by rewrite (Hget _ _ Hf), IH.
Qed.
End columnar_facts.

(** ** Properties *)

(** A stream over batches in memory delivers them in order, projected, and
    then the end, however often it is polled.  Its [size_hint] stays the
    number of all batches, whatever was delivered. *)
Theorem memory_stream_delivers `{Arrays} bs schema proj n :
  ∃ s, MemoryStream.try_new bs schema proj = Ok s ∧
    (MemoryStream.polls n s).1 = (λ k, MemoryStream.project s <$> bs !! k) <$> seq 0 n ∧
    MemoryStream.size_hint (MemoryStream.polls n s).2 = (length bs, Some (length bs)).
Proof.
  eexists. split; [reflexivity|]. destruct (MemoryStream.polls_from n bs schema proj 0) as (Hi & j & Hj).
  split; [done|]. by rewrite Hj.
Qed.

(** The operator that collects a plan, as an operator of one partition: all
    partitions of the plan are executed, in order; if all succeed, their streams
    are merged, all of them and no other, else the operator fails with the first
    that does not. *)
Theorem collect_execute_partitions `{ExecutionPlanMethods} plan_execute plan :
  (∀ (items : Z → BatchStream), (∀ i, i ∈ zrange (partition_count plan) → plan_execute plan i = Ok (items i)) →
    collect_execute plan_execute plan 0 = Ok (plan_schema plan, (λ i, (items i).2) <$> zrange (partition_count plan))) ∧
  (∀ i e, i ∈ zrange (partition_count plan) → plan_execute plan i = Err e →
    is_ok (collect_execute plan_execute plan 0) = false).
Proof.
  split.
  - intros items Hall. unfold collect_execute. simpl.
    assert (rmapM (λ i, map_err (λ _, DF_Execution "BallistaError: {:?}") (plan_execute plan i))
      (zrange (partition_count plan)) = Ok (items <$> zrange (partition_count plan))) as ->.
    { revert Hall. generalize (zrange (partition_count plan)). induction l as [|i l IH]; intros Hall; [done|].
      csimpl. rewrite Hall by (by left). simpl. rewrite IH; [done|]. intros j Hj. apply Hall. by right. }
    by rewrite map_map.
  - intros i e Hin He. unfold collect_execute. simpl.
    assert (is_ok (rmapM (λ i, map_err (λ _, DF_Execution "BallistaError: {:?}") (plan_execute plan i))
      (zrange (partition_count plan))) = false) as Hf.
    { revert Hin. generalize (zrange (partition_count plan)). induction l as [|j l IH]; intros Hin;
        [by apply not_elem_of_nil in Hin|]. cbn [rmapM].
      apply elem_of_cons in Hin as [<-|Hin]; [by rewrite He|].
      destruct (plan_execute plan j); try done. simpl. specialize (IH Hin). by destruct (rmapM _ l). }
    by destruct (rmapM _ _).
Qed.

(** A record batch that is made columnar and converted back is the same
    batch if its column names are distinct.  In any case the array of a field
    is then the last one of its name: of two columns with the same name the
    first is lost. *)
Theorem columnar_roundtrip `{ArraysOk} schema columns b :
  record_batch_try_new schema columns = Ok b →
  (NoDup (field_name <$> schema_fields schema) → (let? cb := from_arrow b in to_arrow cb) = Ok b) ∧
  (∀ arrays, Forall2 (λ f a, array_named b (field_name f) = Some a) (schema_fields schema) arrays →
    (let? cb := from_arrow b in to_arrow cb) = map_err ArrowError (record_batch_try_new schema arrays)).
Proof.
  intros E. destruct (record_batch_spec _ _ _ E) as (<- & <- & Hlen). split; [|intros arrays; by apply to_from_arrow].
  intros Hnd. rewrite (to_from_arrow b (rb_columns b)); [by rewrite E|done|].
  apply Forall2_same_length_lookup. split; [done|]. intros i f a Hf Ha. unfold array_named.
  apply (last_of_nodup _ _ i); [done|by rewrite length_fmap|by rewrite list_lookup_fmap, Hf|done].
Qed.

(** ** Witnesses *)

Module SampleBatch.
(** Arrays of one row; a batch is made if there is a column per field. *)
#[export] Instance arrays : Arrays := {|
  array_len _ := 1%Z; array_data_type _ := DT_UInt64; array_memory_size _ := 8%Z; array_null_count _ := 0%Z;
  scalar_to_array_of_size _ n := C_Other n;
  record_batch_try_new schema columns :=
    if bool_decide (length columns = length (schema_fields schema)) then Ok (mkRecordBatch schema columns 1)
    else Err "number of columns";
  df_collect stream := map_err DF_Other (rmapM id stream.2) |}.
#[export] Instance arrays_ok : ArraysOk.
Proof.
  split.
  - intros schema columns b. simpl. case_bool_decide; [|done]. by intros [= <-].
  - intros schema bs. simpl. assert (rmapM id (Ok (E := string) <$> bs) = Ok bs) as ->; [|done].
    induction bs as [|b bs IH]; [done|]. csimpl. by rewrite IH.
Qed.

Definition sample_schema (a b : string) : Schema :=
  mkSchema [Field_new a DT_UInt64 false; Field_new b DT_UInt64 false].
End SampleBatch.
Import SampleBatch.

(** Distinct names keep the batch; the same name twice does not. *)
Lemma columnar_roundtrip_witness :
  (let? cb := from_arrow (mkRecordBatch (sample_schema "a" "b") [C_UInt64 [1%Z]; C_UInt64 [2%Z]] 1) in to_arrow cb) =
    Ok (mkRecordBatch (sample_schema "a" "b") [C_UInt64 [1%Z]; C_UInt64 [2%Z]] 1) ∧
  (let? cb := from_arrow (mkRecordBatch (sample_schema "a" "a") [C_UInt64 [1%Z]; C_UInt64 [2%Z]] 1) in to_arrow cb) =
    Ok (mkRecordBatch (sample_schema "a" "a") [C_UInt64 [2%Z]; C_UInt64 [2%Z]] 1).
Proof.
  split.
  - apply (columnar_roundtrip (sample_schema "a" "b") [C_UInt64 [1%Z]; C_UInt64 [2%Z]]); [reflexivity|].
    apply (bool_decide_unpack _). vm_compute. exact I.
  - refine (proj2 (columnar_roundtrip (sample_schema "a" "a") [C_UInt64 [1%Z]; C_UInt64 [2%Z]]
      (mkRecordBatch (sample_schema "a" "a") [C_UInt64 [1%Z]; C_UInt64 [2%Z]] 1) _) [C_UInt64 [2%Z]; C_UInt64 [2%Z]] _).
    + reflexivity.
    + repeat constructor.
Defined.
