(* ===== verification/State.v ===== *)
(** * The scheduler's state

    Models [SchedulerState] of src/rust/scheduler/src/state/mod.rs: the
    metadata of executors and jobs, the status of tasks and the plans of
    stages, all kept as protobuf messages in the configuration backend; the
    assignment of the next task that can run; and the status of a job from
    the status of its tasks.

    The state is the backend's store, reached through the interface
    [BackendOk]; prost's encoder and decoder and the iteration order of
    [HashMap] are parameters. *)

From S2P Require Import Prelude Keys Proto Arrow Scalar Expr LogicalPlan SchedTypes ExecPlan.
From S2P Require Import Planner Physical Backend.

(** ** Parameters *)

(** prost's [Message]: encoding, decoding, the default message and the
    messages the wire format represents (its integers fit their fields, its
    strings are text). *)
Class Message (T : Type) := {
  prost_encode : T → result string bytes;
  prost_decode : bytes → result string T;
  message_default : T;
  valid_message : T → Prop;
}.

(** What the protocol buffer format guarantees: decoding inverts encoding, and
    only the default message has an empty encoding. *)
Class MessageOk (T : Type) `{Message T} :=
  message_roundtrip m : valid_message m → ∃ b,
    prost_encode m = Ok b ∧ prost_decode b = Ok m ∧ (b = [] → m = message_default).

(** The iteration order of a [HashMap]: any order of its entries. *)
Class HashOrder := hash_iter : gmap string bytes → list (string * bytes).
Class HashOrderOk `{HashOrder} := hash_iter_spec m : hash_iter m ≡ₚ map_to_list m.

Definition LEASE_TIME : Z := 60.

(** [decode_protobuf] and [encode_protobuf]. *)
Definition decode_protobuf {T} `{Message T} (b : bytes) : Result T :=
  map_err (λ _, Internal "Could not deserialize {}: {}") (prost_decode b).
Definition encode_protobuf {T} `{Message T} (msg : T) : Result bytes :=
  map_err (λ _, Internal "Could not serialize {}: {}") (prost_encode msg).

(** [find_unresolved_shuffles]. *)
Fixpoint find_unresolved_shuffles (plan : ExecutionPlan) : Result (list UnresolvedShuffle) :=
  match plan with
  | Exec (X_UnresolvedShuffle ids schema count) _ => Ok [mkUnresolvedShuffle ids schema count]
  | Exec _ cs => let? l := rmapM find_unresolved_shuffles cs in Ok (List.concat l)
  end.

(** ** Jobs from tasks

    The last part of [get_job_status_from_tasks], on the decoded statuses. *)
Section job_status.
Context (executors : gmap string ExecutorMeta).

(** [iter().map(completed?).collect::<Result<Vec<_>>>().ok()]. *)
Definition completed_task (status : TaskStatus) : Result (TaskStatus * string) :=
  match ts_status status with
  | Some (TS_Completed executor_id) => Ok (status, executor_id)
  | _ => Err (General "Task not completed")
  end.

Definition location_of (info : TaskStatus * string) : PPartitionLocation :=
  mkPPartitionLocation (ts_partition_id info.1)
    (executor_meta_to_proto <$> executors !! info.2).

(** The loop over the statuses of an incomplete job. *)
Fixpoint scan_statuses (statuses : list TaskStatus) (job_status : option JobStatusStatus)
    : option JobStatusStatus :=
  match statuses with
  | [] => job_status
  | status :: rest =>
      match ts_status status with
      | Some (TS_Failed error) => Some (JS_Failed error)
      | Some (TS_Running _) =>
          scan_statuses rest (if bool_decide (job_status = None) then Some JS_Running else job_status)
      | _ => scan_statuses rest job_status
      end
  end.

Definition job_status_from_tasks (statuses : list TaskStatus) : option JobStatus :=
  match statuses with
  | [] => None
  | _ =>
      let job_status :=
        (λ info, JS_Completed (List.map location_of info)) <$> ok (rmapM completed_task statuses) in
      let job_status :=
        match job_status with
        | None => scan_statuses statuses None
        | Some s => Some s
        end in
      (λ status, mkJobStatus (Some status)) <$> job_status
  end.
End job_status.

(** ** SchedulerState *)

Section scheduler_state.
Context {S : Type} `{ConfigBackendClient S}.
Context `{Message PExecutorMetadata} `{Message JobStatus} `{Message TaskStatus}
  `{Message PPhysicalPlanNode}.
Context `{PhysicalPlanner} `{ExprBuilders} `{ExecutionPlanMethods} `{HashOrder}.

Definition get_executors_metadata (namespace : string) : M S (list ExecutorMeta) :=
  let! entries := backend_get_from_prefix (get_executors_prefix namespace) in
  lift (rmapM (λ kv, rmap executor_meta_from_proto (decode_protobuf kv.2)) entries).

Definition save_executor_metadata (namespace : string) (meta : ExecutorMeta) : M S unit :=
  let key := get_executor_key namespace (em_id meta) in
  let! value := lift (encode_protobuf (executor_meta_to_proto meta)) in
  backend_put key value (Some LEASE_TIME).

Definition save_job_metadata (namespace job_id : string) (status : JobStatus) : M S unit :=
  let key := get_job_key namespace job_id in
  let! value := lift (encode_protobuf status) in
  backend_put key value None.

Definition get_job_metadata (namespace job_id : string) : M S JobStatus :=
  let key := get_job_key namespace job_id in
  let! value := backend_get key in
  match value with
  | [] => lift (Err (General ("No job metadata found for " +:+ key)))
  | _ => lift (decode_protobuf value)
  end.

Definition save_task_status (namespace : string) (status : TaskStatus) : M S unit :=
  let! partition_id := lift (unwrap "called `Option::unwrap()` on a `None` value" (ts_partition_id status)) in
  let key := get_task_status_key namespace (ppi_job_id partition_id)
    (as_usize (ppi_stage_id partition_id)) (as_usize (ppi_partition_id partition_id)) in
  let! value := lift (encode_protobuf status) in
  backend_put key value None.

Definition get_task_status (namespace job_id : string) (stage_id partition_id : Z) : M S TaskStatus :=
  let key := get_task_status_key namespace job_id stage_id partition_id in
  let! value := backend_get key in
  match value with
  | [] => lift (Err (General ("No task status found for " +:+ key)))
  | _ => lift (decode_protobuf value)
  end.

Definition save_stage_plan (namespace job_id : string) (stage_id : Z) (plan : ExecutionPlan)
    : M S unit :=
  let key := get_stage_plan_key namespace job_id stage_id in
  let! proto := lift (exec_to_proto plan) in
  let! value := lift (encode_protobuf proto) in
  backend_put key value None.

Definition get_stage_plan (namespace job_id : string) (stage_id : Z) : M S ExecutionPlan :=
  let key := get_stage_plan_key namespace job_id stage_id in
  let! value := backend_get key in
  match value with
  | [] => lift (Err (General ("No stage plan found for " +:+ key)))
  | _ =>
      let! v := lift (decode_protobuf value) in
      lift (proto_to_exec v)
  end.

(** The inputs the unresolved shuffles of a plan wait for, in the order of the
    three nested loops. *)
Definition shuffle_inputs (us : list UnresolvedShuffle) : list (Z * Z) :=
  flat_map (λ u,
    flat_map (λ stage_id,
      List.map (λ partition_id, (stage_id, partition_id)) (zrange (us_partition_count u)))
      (us_query_stage_ids u)) us.

(** The body of the loops: [None] is [continue 'tasks], a panic is a failed
    [unwrap]. *)
Fixpoint locate_inputs (namespace job_id : string) (kvs : gmap string bytes)
    (executors : list ExecutorMeta) (inputs : list (Z * Z))
    (partition_locations : gmap Z (list PartitionLocation))
    : Result (option (gmap Z (list PartitionLocation))) :=
  match inputs with
  | [] => Ok (Some partition_locations)
  | (stage_id, partition_id) :: rest =>
      let? value := unwrap "called `Option::unwrap()` on a `None` value"
        (kvs !! get_task_status_key namespace job_id stage_id partition_id) in
      let? referenced_task := decode_protobuf (T := TaskStatus) value in
      match ts_status referenced_task with
      | Some (TS_Completed executor_id) =>
          let? executor_meta := unwrap "called `Option::unwrap()` on a `None` value"
            (List.find (λ exec, bool_decide (em_id exec = executor_id)) executors) in
          let location :=
            mkPartitionLocation (mkPartitionId job_id stage_id partition_id) executor_meta in
          locate_inputs namespace job_id kvs executors rest
            (<[stage_id := default [] (partition_locations !! stage_id) ++ [location]]>
               partition_locations)
      | _ => Ok None
      end
  end.

(** One iteration of the loop over the tasks: [None] goes on to the next. *)
Definition try_task (namespace executor_id : string) (kvs : gmap string bytes)
    (executors : list ExecutorMeta) (value : bytes) : M S (option (TaskStatus * ExecutionPlan)) :=
  let! status := lift (decode_protobuf (T := TaskStatus) value) in
  match ts_status status with
  | Some _ => ret None
  | None =>
      let! partition :=
        lift (unwrap "called `Option::unwrap()` on a `None` value" (ts_partition_id status)) in
      let! plan := get_stage_plan namespace (ppi_job_id partition) (as_usize (ppi_stage_id partition)) in
      let! unresolved_shuffles := lift (find_unresolved_shuffles plan) in
      let! located := lift (locate_inputs namespace (ppi_job_id partition) kvs executors
        (shuffle_inputs unresolved_shuffles) ∅) in
      match located with
      | None => ret None
      | Some partition_locations =>
          let! plan := lift (remove_unresolved_shuffles partition_locations plan) in
          let status := mkTaskStatus (ts_partition_id status) (Some (TS_Running executor_id)) in
          let! _ := save_task_status namespace status in
          ret (Some (status, plan))
      end
  end.

Definition try_tasks (namespace executor_id : string) (kvs : gmap string bytes)
    (executors : list ExecutorMeta)
    : list (string * bytes) → M S (option (TaskStatus * ExecutionPlan)) :=
  fix go entries :=
    match entries with
    | [] => ret None
    | kv :: rest =>
        let! r := try_task namespace executor_id kvs executors kv.2 in
        match r with Some x => ret (Some x) | None => go rest end
    end.

(** [assign_next_schedulable_task]. *)
Definition assign_next_schedulable_task (namespace executor_id : string)
    : M S (option (TaskStatus * ExecutionPlan)) :=
  let! entries := backend_get_from_prefix (get_task_prefix namespace) in
  let kvs : gmap string bytes := list_to_map (reverse entries) in
  let! executors := get_executors_metadata namespace in
  try_tasks namespace executor_id kvs executors (hash_iter kvs).

(** [get_job_status_from_tasks]. *)
Definition get_job_status_from_tasks (namespace job_id : string)
    (executors : gmap string ExecutorMeta) : M S (option JobStatus) :=
  let! entries := backend_get_from_prefix (get_task_prefix_for_job namespace job_id) in
  let! statuses := lift (rmapM (λ kv, decode_protobuf (T := TaskStatus) kv.2) entries) in
  ret (job_status_from_tasks executors statuses).

(** One iteration of the loop of [synchronize_job_status]. *)
Definition synchronize_job (namespace : string) (executors : gmap string ExecutorMeta)
    (kv : string * bytes) : M S unit :=
  let! job_id := lift (extract_job_id_from_key kv.1) in
  let! status := lift (decode_protobuf (T := JobStatus) kv.2) in
  let! new_status := get_job_status_from_tasks namespace job_id executors in
  match new_status with
  | Some new_status =>
      if bool_decide (status = new_status) then ret ()
      else save_job_metadata namespace job_id new_status
  | None => ret ()
  end.

(** [synchronize_job_status]. *)
Definition synchronize_job_status (namespace : string) : M S unit :=
  let! kvs := backend_get_from_prefix (get_job_prefix namespace) in
  let! metas := get_executors_metadata namespace in
  let executors : gmap string ExecutorMeta :=
    list_to_map (reverse (List.map (λ meta, (em_id meta, meta)) metas)) in
  mfor (synchronize_job namespace executors) kvs.
End scheduler_state.

(** ** Job status: lemmas *)

Definition task_executor (t : TaskStatus) : option string :=
  match ts_status t with Some (TS_Completed e) => Some e | _ => None end.
Definition task_completed (t : TaskStatus) : bool :=
  match ts_status t with Some (TS_Completed _) => true | _ => false end.
Definition task_error (t : TaskStatus) : option string :=
  match ts_status t with Some (TS_Failed e) => Some e | _ => None end.
Definition task_running (t : TaskStatus) : bool :=
  match ts_status t with Some (TS_Running _) => true | _ => false end.

(** The first error among the tasks. *)
Definition first_error (ts : list TaskStatus) : option string := head (omap task_error ts).

Lemma completed_tasks_spec ts :
  ok (rmapM completed_task ts) =
  if forallb task_completed ts
  then Some (List.map (λ t, (t, default "" (task_executor t))) ts) else None.
Proof.
  induction ts as [|t ts IH]; simpl; [done|]. unfold completed_task at 1, task_completed at 1, task_executor at 1.
  destruct (ts_status t) as [[]|]; simpl; try done.
  destruct (rmapM completed_task ts); simpl in *; by destruct (forallb _ ts); simplify_eq.
Qed.

Lemma scan_statuses_spec ts js :
  scan_statuses ts js =
  match first_error ts with
  | Some e => Some (JS_Failed e)
  | None => match js with
    | Some s => Some s
    | None => if existsb task_running ts then Some JS_Running else None
    end
  end.
Proof.
  revert js. induction ts as [|t ts IH]; intros js; simpl; [by destruct js|].
  unfold first_error, task_error, task_running in *. simpl.
  destruct (ts_status t) as [[e|e|e]|]; simpl; rewrite ?IH; try done.
  destruct (head _); [done|]. by destruct js.
Qed.

Lemma job_status_eq executors ts :
  ts ≠ [] →
  js_status <$> job_status_from_tasks executors ts =
  if forallb task_completed ts then
    Some (Some (JS_Completed (List.map (λ t,
      location_of executors (t, default "" (task_executor t))) ts)))
  else match first_error ts with
    | Some e => Some (Some (JS_Failed e))
    | None => if existsb task_running ts then Some (Some JS_Running) else None
    end.
Proof.
  intros Hne. unfold job_status_from_tasks. destruct ts as [|t ts]; [done|].
  rewrite completed_tasks_spec. destruct (forallb _ _).
  - simpl. by rewrite List.map_map.
  - cbn [fmap option_fmap option_map]. rewrite scan_statuses_spec.
    destruct (first_error _); [done|]. by destruct (existsb _ _).
Qed.

Lemma Forall_forallb {A} (f : A → bool) l : Forall (λ x, f x = true) l ↔ forallb f l = true.
Proof. rewrite List.forallb_forall, Forall_forall. by setoid_rewrite list_elem_of_In. Qed.
Lemma Exists_existsb {A} (f : A → bool) l : Exists (λ x, f x = true) l ↔ existsb f l = true.
Proof. rewrite List.existsb_exists, Exists_exists. by setoid_rewrite list_elem_of_In. Qed.

Lemma all_completed ts :
  forallb task_completed ts = true → first_error ts = None ∧ existsb task_running ts = false.
Proof.
  intros Hf. unfold first_error. induction ts as [|t ts IH]; [done|]. simpl in *.
  apply andb_prop in Hf as [H1 H2]. unfold task_completed, task_error, task_running in *.
  destruct (ts_status t) as [[]|]; try done. simpl. auto.
Qed.

(** ** Properties of the job status *)

(** C27 — The status of a job follows its tasks: nothing is concluded from no
    tasks; the job is completed when all tasks are, failed with the error of
    the first failed task when one has failed, running when one is running and
    none has failed, and otherwise nothing is concluded. *)
Theorem job_status_from_tasks_spec executors ts :
  job_status_from_tasks executors [] = None ∧
  (ts ≠ [] → Forall (λ t, task_completed t = true) ts →
     job_status_from_tasks executors ts = Some (mkJobStatus (Some (JS_Completed
       (List.map (λ t, mkPPartitionLocation (ts_partition_id t)
          (executor_meta_to_proto <$> executors !! default "" (task_executor t))) ts))))) ∧
  (∀ e, first_error ts = Some e →
     job_status_from_tasks executors ts = Some (mkJobStatus (Some (JS_Failed e)))) ∧
  (first_error ts = None → Exists (λ t, task_running t = true) ts →
     job_status_from_tasks executors ts = Some (mkJobStatus (Some JS_Running))) ∧
  (first_error ts = None → Forall (λ t, task_running t = false) ts →
     ¬ Forall (λ t, task_completed t = true) ts → job_status_from_tasks executors ts = None).
Proof.
  assert (∀ js, js_status <$> job_status_from_tasks executors ts = Some js →
    job_status_from_tasks executors ts = Some (mkJobStatus js)) as Hjs.
  { intros js. destruct (job_status_from_tasks executors ts) as [[]|]; simpl; congruence. }
  pose proof (all_completed ts) as Hall.
  split; [done|]. split_and!.
  - intros Hne Hf%Forall_forallb. apply Hjs. by rewrite job_status_eq, Hf.
  - intros e He. assert (ts ≠ []) by (by intros ->). apply Hjs. rewrite job_status_eq by done.
    destruct (forallb _ _); [destruct (Hall eq_refl); congruence|]. by rewrite He.
  - intros He Hr%Exists_existsb. assert (ts ≠ []) by (by intros ->). apply Hjs.
    rewrite job_status_eq by done.
    destruct (forallb _ _); [destruct (Hall eq_refl); congruence|]. by rewrite He, Hr.
  - intros He Hr Hn. destruct (decide (ts = [])) as [->|Hne]; [by destruct Hn|].
    pose proof (job_status_eq executors ts Hne) as E. rewrite He in E.
    rewrite Forall_forallb in Hn. apply not_true_is_false in Hn.
    assert (existsb task_running ts = false) as Hx.
    { apply not_true_is_false. rewrite <-Exists_existsb. intros (t & Ht & Hrt)%Exists_exists.
      rewrite Forall_forall in Hr. by rewrite (Hr t Ht) in Hrt. }
    rewrite Hn, Hx in E. by destruct (job_status_from_tasks executors ts).
Qed.

(** A completed job lists a location for every task of every stage, in
    the order of the tasks: the outputs of its intermediate stages are listed
    among the results. *)
Theorem completed_job_lists_all_tasks executors ts locs :
  job_status_from_tasks executors ts = Some (mkJobStatus (Some (JS_Completed locs))) →
  List.map ppl_partition_id locs = List.map ts_partition_id ts ∧
  Forall (λ t, task_completed t = true) ts.
Proof.
  intros E. assert (ts ≠ []) as Hne by (by intros ->).
  pose proof (job_status_eq executors ts Hne) as E'. rewrite E in E'. simpl in E'.
  destruct (forallb task_completed ts) eqn:Hf.
  - simplify_eq. rewrite List.map_map. by rewrite Forall_forallb.
  - destruct (first_error ts); [done|]. by destruct (existsb _ _).
Qed.

Definition sample_task (stage part : Z) (e : string) : TaskStatus :=
  mkTaskStatus (Some (mkPPartitionId "job" stage part)) (Some (TS_Completed e)).

Lemma completed_job_lists_all_tasks_witness :
  let locs := List.map (λ t, mkPPartitionLocation (ts_partition_id t) None)
    [sample_task 1 0 "e"; sample_task 2 0 "e"] in
  List.map ppl_partition_id locs =
    [Some (mkPPartitionId "job" 1 0); Some (mkPPartitionId "job" 2 0)].
Proof.
  intros locs. destruct (completed_job_lists_all_tasks ∅
    [sample_task 1 0 "e"; sample_task 2 0 "e"] locs) as [E _]; [reflexivity|]. exact E.
Defined.

Lemma job_status_from_tasks_witness :
  job_status_from_tasks ∅ [sample_task 1 0 "e"] =
    Some (mkJobStatus (Some (JS_Completed
      [mkPPartitionLocation (Some (mkPPartitionId "job" 1 0)) None]))).
Proof.
  destruct (job_status_from_tasks_spec ∅ [sample_task 1 0 "e"]) as (_ & Hc & _).
  apply Hc; [discriminate|repeat constructor].
Defined.

(** ** The store: lemmas *)

Section store.
Context {S : Type} `{BackendOk S}.

(** A write of an encoded message: the store afterwards. *)
Lemma put_message {T} `{MessageOk T} (m : T) key lease (s : S) :
  valid_message m → ∃ b s',
    (let! value := lift (encode_protobuf m) in backend_put key value lease) s = (Ok (), s') ∧
    contents s' = <[key := b]> (contents s) ∧ decode_protobuf b = Ok m ∧
    (b = [] → m = message_default).
Proof.
  intros Hm. destruct (message_roundtrip m Hm) as (b & He & Hd & Hn).
  destruct (backend_put_spec key b lease s) as (s' & Hp & Hc).
  exists b, s'. unfold bindM, lift, encode_protobuf, decode_protobuf.
  rewrite He, Hd. simpl. by rewrite Hp.
Qed.

Lemma bindM_get {A} key (k : bytes → M S A) (s : S) :
  (let! value := backend_get key in k value) s = k (default [] (contents s !! key)) s.
Proof. unfold bindM. by rewrite backend_get_spec. Qed.

Lemma bindM_get_some {A} key (k : bytes → M S A) (s : S) (b : bytes) :
  contents s !! key = Some b → (let! value := backend_get key in k value) s = k b s.
Proof.
  intros E. rewrite bindM_get. exact (f_equal (λ o : option bytes, k (default [] o) s) E).
Qed.

Lemma key_ne k1 k2 : wf_key k1 → wf_key k2 → k1 ≠ k2 → key_of k1 ≠ key_of k2.
Proof. intros H1 H2 Hne He. apply Hne. by apply key_of_inj. Qed.

(** The entries a scan delivers, as the map of the matching entries. *)
Lemma scan_map prefix (s : S) :
  ∃ kvs, backend_get_from_prefix prefix s = (Ok kvs, s) ∧
    kvs ≡ₚ map_to_list (filter (λ kv, starts_with prefix kv.1 = true) (contents s)) ∧
    (list_to_map (reverse kvs) : gmap string bytes) =
      filter (λ kv, starts_with prefix kv.1 = true) (contents s).
Proof.
  destruct (backend_prefix_spec prefix s) as (kvs & E & Hp). exists kvs. split_and!; [done..|].
  assert (reverse kvs ≡ₚ map_to_list (filter (λ kv, starts_with prefix kv.1 = true) (contents s))) as Hr
    by (by rewrite reverse_Permutation).
  assert (NoDup (reverse kvs).*1) as Hnd by (rewrite Hr; apply NoDup_fst_map_to_list).
  by rewrite (list_to_map_proper _ _ Hnd Hr), list_to_map_to_list.
Qed.
End store.

(** ** Properties of the records *)

Section records.
Context {S : Type} `{BackendOk S}.

(** The status saved for a job is the status read back for it, and saving
    it changes what is read for no other job. *)
Theorem job_metadata_roundtrip `{MessageOk JobStatus} ns job status (s : S) :
  slash_free ns → slash_free job → valid_message status → status ≠ message_default →
  ∃ s', save_job_metadata ns job status s = (Ok (), s') ∧
    get_job_metadata ns job s' = (Ok status, s') ∧
    ∀ ns' job', slash_free ns' → slash_free job' → (ns', job') ≠ (ns, job) →
      (get_job_metadata ns' job' s').1 = (get_job_metadata ns' job' s).1.
Proof.
  intros Hns Hjob Hv Hd. unfold save_job_metadata.
  destruct (put_message status (get_job_key ns job) None s Hv) as (b & s' & E & Hc & Hdec & Hb).
  exists s'. split_and!; [done| |].
  - unfold get_job_metadata. rewrite bindM_get, Hc, lookup_insert_eq. simpl.
    destruct b; [by destruct Hd, Hb|]. unfold lift. by rewrite Hdec.
  - intros ns' job' Hns' Hjob' Hne. unfold get_job_metadata. rewrite !bindM_get, Hc.
    rewrite lookup_insert_ne; [by destruct (default _ _)|].
    apply (key_ne (KJob ns job) (KJob ns' job')); [done..|]. congruence.
Qed.

(** The status saved for a task is the status read back for its partition,
    and saving it changes neither another task nor any job. *)
Theorem task_status_roundtrip `{MessageOk TaskStatus} `{Message JobStatus} ns job st pt ts_st (s : S) :
  slash_free ns → slash_free job → in_u 32 st → in_u 32 pt →
  let status := mkTaskStatus (Some (mkPPartitionId job st pt)) ts_st in
  valid_message status → status ≠ message_default →
  ∃ s', save_task_status ns status s = (Ok (), s') ∧
    get_task_status ns job st pt s' = (Ok status, s') ∧
    (∀ job' st' pt', slash_free job' → (job', st', pt') ≠ (job, st, pt) →
      (get_task_status ns job' st' pt' s').1 = (get_task_status ns job' st' pt' s).1) ∧
    (∀ job', slash_free job' → (get_job_metadata ns job' s').1 = (get_job_metadata ns job' s).1).
Proof.
  intros Hns Hjob Hst Hpt status Hv Hd. unfold save_task_status.
  assert (as_usize st = st ∧ as_usize pt = pt) as [Est Ept].
  { split; apply wrap_u_id; by eapply in_u_mono; [| |done]. }
  unfold status. rewrite bindM_lift. cbn [unwrap ts_partition_id ppi_job_id ppi_stage_id ppi_partition_id].
  rewrite Est, Ept.
  destruct (put_message status (get_task_status_key ns job st pt) None s Hv) as (b & s' & E & Hc & Hdec & Hb).
  exists s'. split_and!; [done| | |].
  - unfold get_task_status. rewrite bindM_get, Hc, lookup_insert_eq. simpl.
    destruct b; [by destruct Hd, Hb|]. unfold lift. by rewrite Hdec.
  - intros job' st' pt' Hjob' Hne. unfold get_task_status. rewrite !bindM_get, Hc.
    rewrite lookup_insert_ne; [by destruct (default _ _)|].
    apply (key_ne (KTask ns job st pt) (KTask ns job' st' pt')); [done..|]. congruence.
  - intros job' Hjob'. unfold get_job_metadata. rewrite !bindM_get, Hc.
    rewrite lookup_insert_ne; [by destruct (default _ _)|].
    by apply (key_ne (KTask ns job st pt) (KJob ns job')).
Qed.

(** The plan saved for a stage is the plan read back for it, if the plan
    is one the messages carry. *)
Theorem stage_plan_roundtrip `{MessageOk PPhysicalPlanNode} `{PhysicalPlanner} `{ExprBuildersOk}
    `{ExecutionPlanMethods} ns job st p (s : S) :
  built_exec p → (∀ q, exec_to_proto p = Ok q → valid_message q ∧ q ≠ message_default) →
  ∃ s', save_stage_plan ns job st p s = (Ok (), s') ∧ get_stage_plan ns job st s' = (Ok p, s').
Proof.
  intros Hp Hv. destruct (exec_trip p Hp) as (q & Hq & Hd). destruct (Hv q Hq) as [Hq1 Hq2].
  unfold save_stage_plan. rewrite bindM_lift, Hq.
  destruct (put_message q (get_stage_plan_key ns job st) None s Hq1) as (b & s' & E & Hc & Hdec & Hb).
  exists s'. split; [done|]. unfold get_stage_plan. rewrite bindM_get, Hc, lookup_insert_eq. simpl.
  destruct b; [by destruct Hq2, Hb|]. rewrite bindM_lift, Hdec. unfold lift. by rewrite Hd.
Qed.
End records.

(** ** A codec, for the witnesses

    Any countable type can be encoded: here by the binary digits of the
    number of a message, one byte per digit. *)
Fixpoint digits (p : positive) : bytes :=
  match p with
  | xH => [Byte.x00]
  | xO p => Byte.x01 :: digits p
  | xI p => Byte.x02 :: digits p
  end.
Fixpoint from_digits (b : bytes) : option positive :=
  match b with
  | [] => None
  | Byte.x01 :: b => xO <$> from_digits b
  | Byte.x02 :: b => xI <$> from_digits b
  | _ => Some xH
  end.
Lemma from_digits_digits p : from_digits (digits p) = Some p.
Proof. induction p as [p IH|p IH|]; simpl; [by rewrite IH..|done]. Qed.

Definition countable_message (T : Type) `{Countable T} (default_message : T) : Message T := {|
  prost_encode m := Ok (digits (encode m));
  prost_decode b := match from_digits b ≫= decode with Some m => Ok m | None => Err "" end;
  message_default := default_message;
  valid_message _ := True;
|}.
Lemma countable_message_ok (T : Type) `{Countable T} (d : T) : @MessageOk T (countable_message T d).
Proof.
  intros m _. exists (digits (encode m)). simpl.
  rewrite from_digits_digits. simpl. rewrite decode_encode. split_and!; [done..|].
  by destruct (encode m).
Qed.

(** A codec for one message only. *)
Definition single_message (T : Type) (d m : T) : Message T := {|
  prost_encode _ := Ok [Byte.x00];
  prost_decode _ := Ok m;
  message_default := d;
  valid_message m' := m' = m;
|}.
Lemma single_message_ok (T : Type) (d m : T) : @MessageOk T (single_message T d m).
Proof. intros m' ->. by exists [Byte.x00]. Qed.

#[export] Instance PPartitionId_countable : Countable PPartitionId.
Proof.
  apply (inj_countable' (λ p, (ppi_job_id p, ppi_stage_id p, ppi_partition_id p))
    (λ x, mkPPartitionId x.1.1 x.1.2 x.2)). by intros [].
Defined.
#[export] Instance PExecutorMetadata_countable : Countable PExecutorMetadata.
Proof.
  apply (inj_countable' (λ p, (pem_id p, pem_host p, pem_port p))
    (λ x, mkPExecutorMetadata x.1.1 x.1.2 x.2)). by intros [].
Defined.
#[export] Instance PPartitionLocation_countable : Countable PPartitionLocation.
Proof.
  apply (inj_countable' (λ p, (ppl_partition_id p, ppl_executor_meta p))
    (λ x, mkPPartitionLocation x.1 x.2)). by intros [].
Defined.
#[export] Instance TaskStatusStatus_countable : Countable TaskStatusStatus.
Proof.
  apply (inj_countable' (λ t, match t with
      | TS_Running e => inl e | TS_Failed e => inr (inl e) | TS_Completed e => inr (inr e) end)
    (λ x, match x with
      | inl e => TS_Running e | inr (inl e) => TS_Failed e | inr (inr e) => TS_Completed e end)).
  by intros [].
Defined.
#[export] Instance TaskStatus_countable : Countable TaskStatus.
Proof.
  apply (inj_countable' (λ t, (ts_partition_id t, ts_status t)) (λ x, mkTaskStatus x.1 x.2)).
  by intros [].
Defined.
#[export] Instance JobStatusStatus_countable : Countable JobStatusStatus.
Proof.
  apply (inj_countable' (λ t, match t with
      | JS_Queued => inl (inl tt) | JS_Running => inl (inr tt)
      | JS_Failed e => inr (inl e) | JS_Completed l => inr (inr l) end)
    (λ x, match x with
      | inl (inl _) => JS_Queued | inl (inr _) => JS_Running
      | inr (inl e) => JS_Failed e | inr (inr l) => JS_Completed l end)).
  by intros [].
Defined.
#[export] Instance JobStatus_countable : Countable JobStatus.
Proof.
  apply (inj_countable' js_status mkJobStatus). by intros [].
Defined.

Module Sample.
Definition backend : ConfigBackendClient Memory := @standalone_client Memory memory_sled.
Definition backend_ok : @BackendOk Memory backend :=
  @standalone_client_ok Memory memory_sled memory_sled_ok.
Definition job_message : Message JobStatus := countable_message JobStatus (mkJobStatus None).
Definition task_message : Message TaskStatus := countable_message TaskStatus (mkTaskStatus None None).
Definition executor_message : Message PExecutorMetadata :=
  countable_message PExecutorMetadata (mkPExecutorMetadata "" "" 0).
Definition plan_message (q : PPhysicalPlanNode) : Message PPhysicalPlanNode :=
  single_message PPhysicalPlanNode (mkPhysicalPlanNode None) q.
End Sample.

Lemma job_metadata_roundtrip_witness :
  ∃ s', @save_job_metadata Memory Sample.backend Sample.job_message "default" "abc"
      (mkJobStatus (Some JS_Queued)) ∅ = (Ok (), s') ∧
    @get_job_metadata Memory Sample.backend Sample.job_message "default" "abc" s' =
      (Ok (mkJobStatus (Some JS_Queued)), s').
Proof.
  destruct (@job_metadata_roundtrip Memory Sample.backend Sample.backend_ok Sample.job_message
    (countable_message_ok _ _) "default" "abc" (mkJobStatus (Some JS_Queued)) ∅) as (s' & E & G & _);
    [reflexivity|reflexivity|exact I|discriminate|].
  exists s'. split; [exact E|exact G].
Defined.

Lemma task_status_roundtrip_witness :
  ∃ s', @save_task_status Memory Sample.backend Sample.task_message "default"
      (mkTaskStatus (Some (mkPPartitionId "abc" 1 0)) None) ∅ = (Ok (), s') ∧
    @get_task_status Memory Sample.backend Sample.task_message "default" "abc" 1 0 s' =
      (Ok (mkTaskStatus (Some (mkPPartitionId "abc" 1 0)) None), s').
Proof.
  destruct (@task_status_roundtrip Memory Sample.backend Sample.backend_ok Sample.task_message
    (countable_message_ok _ _) Sample.job_message "default" "abc" 1 0 None ∅) as (s' & E & G & _);
    [reflexivity|reflexivity|split; [discriminate|reflexivity]|split; [discriminate|reflexivity]
    |exact I|discriminate|].
  exists s'. split; [exact E|exact G].
Defined.

Lemma stage_plan_roundtrip_witness :
  let p := Exec X_Merge [Exec (X_UnresolvedShuffle [1%Z] (mkSchema []) 2) []] in
  let q := exec_node (PPT_Merge (Some (exec_node (PPT_Unresolved [1%Z] (Some (mkPSchema [])) 2)))) in
  ∃ s', @save_stage_plan Memory Sample.backend (Sample.plan_message q) sample_physical_planner
      "default" "abc" 2 p ∅ = (Ok (), s') ∧
    @get_stage_plan Memory Sample.backend (Sample.plan_message q) sample_physical_planner
      direct_builders sample_exec_methods "default" "abc" 2 s' = (Ok p, s').
Proof.
  intros p q.
  apply (@stage_plan_roundtrip Memory Sample.backend Sample.backend_ok (Sample.plan_message q)
    (single_message_ok _ _ _) sample_physical_planner direct_builders direct_builders_ok
    sample_exec_methods "default" "abc" 2 p ∅).
  - split; [|split; [split; [discriminate|reflexivity]|]].
    + repeat constructor; discriminate.
    + split; [constructor|reflexivity].
  - intros q' [= <-]. split; [reflexivity|discriminate].
Defined.
