(* ===== verification/Assign.v ===== *)
(** * Assigning tasks

    The theorems on [assign_next_schedulable_task] and
    [synchronize_job_status] of src/rust/scheduler/src/state/mod.rs, whose
    definitions are in State.v: a task that is handed out was pending, all
    its inputs are complete, its plan has no unresolved shuffle left, and the
    store records it as running and changes nowhere else; when nothing is
    handed out every pending task waits for an incomplete input; and on a
    consistent store the assignment always returns. *)

From S2P Require Import Prelude Keys Proto Arrow Scalar Expr LogicalPlan SchedTypes ExecPlan.
From S2P Require Import Planner Physical Backend State.

(** ** Lemmas on plans *)

Lemma find_unresolved_shuffles_eq p : find_unresolved_shuffles p = Ok (unresolved_shuffles p).
Proof.
  induction p as [op cs IH] using plan_ind.
  assert ((let? l := rmapM find_unresolved_shuffles cs in Ok (List.concat l)) =
    Ok (flat_map unresolved_shuffles cs)) as Hcs.
  { rewrite (rmapM_ok _ unresolved_shuffles) by done. by rewrite List.flat_map_concat_map. }
  by destruct op.
Qed.

Section resolved.
Context `{ExecutionPlanMethodsOk}.

(** A successful resolution leaves no unresolved shuffle. *)
Lemma remove_unresolved_shuffles_resolved locs p p' :
  remove_unresolved_shuffles locs p = Ok p' → unresolved_shuffles p' = [].
Proof.
  revert p'. induction p as [op cs IH] using plan_ind. intros p' Hp.
  rewrite remove_unfold in Hp.
  destruct (rmapM (remove_child locs) cs) as [cs'| |] eqn:Ecs; [|done..].
  assert (Forall (λ c, unresolved_shuffles c = []) cs') as Hcs'.
  { apply rmapM_Forall2 in Ecs. clear Hp. induction Ecs as [|c c' cs cs' Hc _ IH']; [constructor|].
    apply Forall_cons in IH as [IHc IH]. constructor; [|by apply IH'].
    destruct c as [cop ccs]. destruct cop; try (by apply IHc).
    simpl in Hc. destruct (rmapM _ _); simpl in *; by simplify_eq. }
  assert (flat_map unresolved_shuffles cs' = []) as Hf.
  { clear -Hcs'. induction Hcs' as [|c cs' Hc _ IH]; simpl; [done|]. by rewrite Hc, IH. }
  assert (length cs' = length cs) as Hlen by (by eapply rmapM_length).
  destruct (is_ballista_op op) eqn:Hop.
  - destruct op; try done. simpl in Hp. destruct cs' as [|c [|? ?]]; simpl in Hp; simplify_eq. done.
  - apply with_new_children_df in Hp as ->; [|done..]. by destruct op.
Qed.
End resolved.

(** ** The inputs of a task *)

Section inputs.
Context `{Message TaskStatus}.
Implicit Types kvs c : gmap string bytes.

(** The task of a partition, as a map of entries records it. *)
Definition task_at c (ns job : string) (stage part : Z) (t : TaskStatus) : Prop :=
  ∃ b, c !! get_task_status_key ns job stage part = Some b ∧ decode_protobuf b = Ok t.

Lemma locate_inputs_some ns job kvs executors inputs acc locs :
  locate_inputs ns job kvs executors inputs acc = Ok (Some locs) →
  (∀ stage part, (stage, part) ∈ inputs →
    ∃ t, task_at kvs ns job stage part t ∧ task_completed t = true) ∧
  (∀ stage, is_Some (acc !! stage) ∨ stage ∈ inputs.*1 → is_Some (locs !! stage)).
Proof.
  revert acc. induction inputs as [|[st pt] inputs IH]; intros acc Hl; simpl in Hl.
  { simplify_eq. split; [by intros ?? ?%not_elem_of_nil|].
    intros stage [?|?%not_elem_of_nil]; done. }
  destruct (kvs !! _) as [b|] eqn:Eb; [|done]. simpl in Hl.
  destruct (decode_protobuf b) as [t| |] eqn:Et; [|done..].
  destruct (ts_status t) as [[]|] eqn:Es; try done.
  destruct (List.find _ _) as [m|]; [|done]. simpl in Hl.
  destruct (IH _ Hl) as [IH1 IH2]. split.
  - intros stage part [[= -> ->]|Hin]%elem_of_cons; [|auto].
    exists t. split; [by exists b|]. unfold task_completed. by rewrite Es.
  - intros stage Hst. apply IH2. destruct (decide (st = stage)) as [->|Hne].
    + left. rewrite lookup_insert_eq. eauto.
    + destruct Hst as [Hst|Hst]; [left; by rewrite lookup_insert_ne|right].
      apply elem_of_cons in Hst as [->|Hst]; done.
Qed.

(** The partitions of a stage among the inputs, in order. *)
Definition parts_of (stage : Z) (inputs : list (Z * Z)) : list Z :=
  omap (λ i, if (i.1 =? stage)%Z then Some i.2 else None) inputs.

(** The locations name the partitions of the stage, each at the executor that
    is recorded to have completed it, one of [executors]. *)
Definition located kvs (executors : list ExecutorMeta) (ns job : string) (stage : Z) (parts : list Z)
    (locations : list PartitionLocation) : Prop :=
  Forall2 (λ part l, pl_partition_id l = mkPartitionId job stage part ∧ pl_executor_meta l ∈ executors ∧
    ∃ t, task_at kvs ns job stage part t ∧ task_executor t = Some (em_id (pl_executor_meta l)))
    parts locations.

Lemma locate_inputs_located ns job kvs executors inputs acc locs :
  locate_inputs ns job kvs executors inputs acc = Ok (Some locs) →
  ∀ stage, ∃ l, default [] (locs !! stage) = default [] (acc !! stage) ++ l ∧
    located kvs executors ns job stage (parts_of stage inputs) l.
Proof.
  revert acc. induction inputs as [|[st pt] inputs IH]; intros acc Hl stage; simpl in Hl.
  { simplify_eq. exists []. split; [by rewrite app_nil_r|constructor]. }
  destruct (kvs !! _) as [b|] eqn:Eb; [|done]. simpl in Hl.
  destruct (decode_protobuf b) as [t| |] eqn:Et; [|done..].
  destruct (ts_status t) as [[| |e]|] eqn:Es; try done.
  destruct (List.find _ _) as [m|] eqn:Ef; [|done]. simpl in Hl.
  destruct (IH _ Hl stage) as (l & Hs & Hloc). unfold parts_of. simpl.
  destruct (Z.eqb_spec st stage) as [->|Hne].
  - rewrite lookup_insert_eq in Hs. simpl in Hs. eexists (_ :: l).
    split; [by rewrite Hs, <-app_assoc|]. constructor; [|exact Hloc]. apply List.find_some in Ef as [Hin Hf%bool_decide_eq_true].
    split_and!; [done|by apply list_elem_of_In|]. exists t. split; [by exists b|]. unfold task_executor. rewrite Es. simpl. by rewrite Hf.
  - rewrite lookup_insert_ne in Hs by done. by exists l.
Qed.

Lemma locate_inputs_none ns job kvs executors inputs acc :
  locate_inputs ns job kvs executors inputs acc = Ok None →
  ∃ stage part t, (stage, part) ∈ inputs ∧ task_at kvs ns job stage part t ∧
    task_completed t = false.
Proof.
  revert acc. induction inputs as [|[st pt] inputs IH]; intros acc Hl; simpl in Hl; [done|].
  destruct (kvs !! _) as [b|] eqn:Eb; [|done]. simpl in Hl.
  destruct (decode_protobuf b) as [t| |] eqn:Et; [|done..].
  destruct (task_completed t) eqn:Ec; unfold task_completed in Ec;
    [|exists st, pt, t; split_and!; [by left|by exists b|done]].
  destruct (ts_status t) as [[]|]; try done.
  destruct (List.find _ _) as [m|]; [|done]. simpl in Hl.
  destruct (IH _ Hl) as (stage & part & t' & Hin & Ht & Hc).
  exists stage, part, t'. split_and!; [by right|done..].
Qed.

(** The search returns if every input is recorded and every executor that
    completed one is registered. *)
Lemma locate_inputs_returns ns job kvs executors inputs acc :
  (∀ stage part, (stage, part) ∈ inputs → ∃ t, task_at kvs ns job stage part t ∧
    ∀ e, task_executor t = Some e → ∃ m, m ∈ executors ∧ em_id m = e) →
  ∃ r, locate_inputs ns job kvs executors inputs acc = Ok r.
Proof.
  revert acc. induction inputs as [|[st pt] inputs IH]; intros acc Hin; simpl; [by eexists|].
  destruct (Hin st pt) as (t & (b & -> & Hd) & He); [by left|]. simpl. rewrite Hd.
  unfold task_executor in He. destruct (ts_status t) as [[e|e|e]|]; try by eexists.
  destruct (He e eq_refl) as (m & Hm & Hid).
  destruct (List.find _ executors) as [m'|] eqn:Ef.
  - apply IH. intros stage part Hp. apply Hin. by right.
  - apply list_elem_of_In in Hm. apply (List.find_none _ _ Ef) in Hm.
    by apply bool_decide_eq_false in Hm.
Qed.
End inputs.

(** ** One task *)

(** [pending c ns k pid]: the store records, under the task key [k] of the
    namespace, the task of partition [pid] as not yet started. *)
Definition pending `{Message TaskStatus} (c : gmap string bytes) (ns k : string)
    (pid : PPartitionId) : Prop :=
  ∃ b, c !! k = Some b ∧ starts_with (get_task_prefix ns) k = true ∧
    decode_protobuf b = Ok (mkTaskStatus (Some pid) None).

Section assign.
Context {S : Type} `{BackendOk S}.
Context `{Message PExecutorMetadata} `{MessageOk TaskStatus} `{Message PPhysicalPlanNode}.
Context `{PhysicalPlanner} `{ExprBuilders} `{ExecutionPlanMethodsOk} `{HashOrderOk}.
Implicit Types s : S.

Lemma get_stage_plan_pure ns job stage s : (get_stage_plan ns job stage s).2 = s.
Proof.
  unfold get_stage_plan. rewrite bindM_get. destruct (default _ _); [done|].
  rewrite bindM_lift. by destruct (decode_protobuf _).
Qed.

(** The plan of a task's stage, as the store records it. *)
Definition task_plan s ns (pid : PPartitionId) (p : ExecutionPlan) : Prop :=
  get_stage_plan ns (ppi_job_id pid) (as_usize (ppi_stage_id pid)) s = (Ok p, s).

(** The inputs the task of a plan waits for. *)
Definition inputs_of (p : ExecutionPlan) : list (Z * Z) := shuffle_inputs (unresolved_shuffles p).

Lemma try_task_none ns ex kvs executors b t s s' :
  decode_protobuf b = Ok t → try_task ns ex kvs executors b s = (Ok None, s') →
  s' = s ∧ (ts_status t = None → ∃ pid p stage part t', t = mkTaskStatus (Some pid) None ∧
    task_plan s ns pid p ∧ (stage, part) ∈ inputs_of p ∧
    task_at kvs ns (ppi_job_id pid) stage part t' ∧ task_completed t' = false).
Proof.
  intros Hb E. unfold try_task in E. rewrite bindM_lift, Hb in E.
  destruct t as [opid [st|]]; simpl in E; [unfold ret in E; by simplify_eq|].
  destruct opid as [pid|]; [|by simplify_eq]. rewrite bindM_lift in E. simpl in E. unfold bindM at 1 in E.
  pose proof (get_stage_plan_pure ns (ppi_job_id pid) (as_usize (ppi_stage_id pid)) s) as Hpure.
  destruct (get_stage_plan _ _ _ s) as [[p| |] s1] eqn:Ep; simpl in *; subst; [|by simplify_eq..].
  rewrite bindM_lift, find_unresolved_shuffles_eq, bindM_lift in E.
  destruct (locate_inputs _ _ _ _ _ _) as [[locs|]| |] eqn:El; try by simplify_eq.
  - exfalso. rewrite bindM_lift in E. destruct (remove_unresolved_shuffles _ _); try by simplify_eq.
    unfold bindM in E. by destruct (save_task_status _ _ s) as [[]].
  - unfold ret in E. simplify_eq. split; [done|]. intros _.
    destruct (locate_inputs_none _ _ _ _ _ _ El) as (stage & part & t' & Hin & Ht & Hc).
    by exists pid, p, stage, part, t'.
Qed.

(** What handing out the task of partition [pid] to the executor [ex] means:
    its inputs are complete; the plan sent is the plan of its stage with the
    shuffles resolved to the recorded locations of the inputs, with the
    addresses of [executors], and has no unresolved shuffle left; the store records the task as running and is
    otherwise unchanged. *)
Definition handed_out ns ex (kvs : gmap string bytes) (executors : list ExecutorMeta) (pid : PPartitionId) s
    (status : TaskStatus) (plan : ExecutionPlan) s' : Prop :=
  ∃ p locs b', status = mkTaskStatus (Some pid) (Some (TS_Running ex)) ∧ task_plan s ns pid p ∧
    (∀ stage part, (stage, part) ∈ inputs_of p →
      ∃ t, task_at kvs ns (ppi_job_id pid) stage part t ∧ task_completed t = true) ∧
    remove_unresolved_shuffles locs p = Ok plan ∧
    (∀ stage, located kvs executors ns (ppi_job_id pid) stage (parts_of stage (inputs_of p))
                (default [] (locs !! stage))) ∧
    unresolved_shuffles plan = [] ∧
    contents s' = <[get_task_status_key ns (ppi_job_id pid) (as_usize (ppi_stage_id pid))
                      (as_usize (ppi_partition_id pid)) := b']> (contents s) ∧
    decode_protobuf b' = Ok status.

(** Messages that were decoded are representable, and stay so when the status
    is set to running. *)
Hypothesis decoded_valid : ∀ b (t : TaskStatus), decode_protobuf b = Ok t → valid_message t.
Hypothesis running_valid : ∀ (pid : option PPartitionId) ex,
  valid_message (mkTaskStatus pid None) → valid_message (mkTaskStatus pid (Some (TS_Running ex))).

Lemma save_task_status_ok ns pid st s :
  valid_message (mkTaskStatus (Some pid) st) →
  ∃ b s', save_task_status ns (mkTaskStatus (Some pid) st) s = (Ok (), s') ∧
    contents s' = <[get_task_status_key ns (ppi_job_id pid) (as_usize (ppi_stage_id pid))
                      (as_usize (ppi_partition_id pid)) := b]> (contents s) ∧
    decode_protobuf b = Ok (mkTaskStatus (Some pid) st).
Proof.
  intros Hv. unfold save_task_status. rewrite bindM_lift. cbn [unwrap ts_partition_id].
  destruct (put_message _ (get_task_status_key ns (ppi_job_id pid) (as_usize (ppi_stage_id pid))
    (as_usize (ppi_partition_id pid))) None s Hv) as (b & s' & E & Hc & Hd & _). by exists b, s'.
Qed.

Lemma try_task_some ns ex kvs executors b t s status plan s' :
  decode_protobuf b = Ok t → try_task ns ex kvs executors b s = (Ok (Some (status, plan)), s') →
  ∃ pid, t = mkTaskStatus (Some pid) None ∧ handed_out ns ex kvs executors pid s status plan s'.
Proof.
  intros Hb E. unfold try_task in E. rewrite bindM_lift, Hb in E.
  destruct t as [opid [st|]]; simpl in E; [unfold ret in E; by simplify_eq|].
  destruct opid as [pid|]; [|by simplify_eq]. rewrite bindM_lift in E. simpl in E. unfold bindM at 1 in E.
  pose proof (get_stage_plan_pure ns (ppi_job_id pid) (as_usize (ppi_stage_id pid)) s) as Hpure.
  destruct (get_stage_plan _ _ _ s) as [[p| |] s1] eqn:Ep; simpl in *; subst; [|by simplify_eq..].
  rewrite bindM_lift, find_unresolved_shuffles_eq, bindM_lift in E.
  destruct (locate_inputs _ _ _ _ _ _) as [[locs|]| |] eqn:El; try (unfold ret in E; by simplify_eq).
  rewrite bindM_lift in E. destruct (remove_unresolved_shuffles _ _) as [plan'| |] eqn:Er; try by simplify_eq.
  destruct (save_task_status_ok ns pid (Some (TS_Running ex)) s) as (b' & s2 & Es & Hc & Hd).
  { apply running_valid. by eapply decoded_valid. }
  unfold bindM in E. rewrite Es in E. unfold ret in E. simplify_eq.
  exists pid. split; [done|]. exists p, locs, b'.
  destruct (locate_inputs_some _ _ _ _ _ _ _ El) as [Hin _].
  split_and!; try done; [|by eapply remove_unresolved_shuffles_resolved].
  intros stage. destruct (locate_inputs_located _ _ _ _ _ _ _ El stage) as (l & Hs & Hloc).
  rewrite lookup_empty in Hs. simpl in Hs. by rewrite Hs.
Qed.

(** ** All tasks *)

Lemma try_task_none_pure ns ex kvs executors b s s' :
  try_task ns ex kvs executors b s = (Ok None, s') → s' = s.
Proof.
  intros Et. destruct (decode_protobuf (T := TaskStatus) b) as [t| |] eqn:Ed.
  - by destruct (try_task_none _ _ _ _ _ _ _ _ Ed Et).
  - unfold try_task in Et. rewrite bindM_lift, Ed in Et. by simplify_eq.
  - unfold try_task in Et. rewrite bindM_lift, Ed in Et. by simplify_eq.
Qed.

Lemma try_tasks_none ns ex kvs executors entries s s' :
  try_tasks ns ex kvs executors entries s = (Ok None, s') →
  s' = s ∧ ∀ kv, kv ∈ entries → try_task ns ex kvs executors kv.2 s = (Ok None, s).
Proof.
  revert s. induction entries as [|kv entries IH]; intros s E; simpl in E.
  { unfold ret in E. simplify_eq. split; [done|]. by intros kv ?%not_elem_of_nil. }
  unfold bindM in E. destruct (try_task _ _ _ _ _ s) as [[[x|]| |] s1] eqn:Et; try by simplify_eq.
  apply try_task_none_pure in Et as Hs1. subst s1.
  destruct (IH _ E) as [-> Hall]. split; [done|]. intros kv' [->|?]%elem_of_cons; auto.
Qed.

Lemma try_tasks_some ns ex kvs executors entries s x s' :
  try_tasks ns ex kvs executors entries s = (Ok (Some x), s') →
  ∃ kv, kv ∈ entries ∧ try_task ns ex kvs executors kv.2 s = (Ok (Some x), s').
Proof.
  revert s. induction entries as [|kv entries IH]; intros s E; simpl in E.
  { unfold ret in E. by simplify_eq. }
  unfold bindM in E. destruct (try_task _ _ _ _ _ s) as [[[y|]| |] s1] eqn:Et; try by simplify_eq.
  - unfold ret in E. simplify_eq. exists kv. split; [by left|done].
  - apply try_task_none_pure in Et as ->.
    destruct (IH _ E) as (kv' & ? & ?). exists kv'. split; [by right|done].
Qed.

Lemma task_key_prefix ns job st pt :
  starts_with (get_task_prefix ns) (get_task_status_key ns job st pt) = true.
Proof.
  unfold get_task_status_key, get_task_prefix_for_job. rewrite <-string_app_assoc.
  apply starts_with_app.
Qed.

(** The entries of the task scan. *)
Definition task_entries ns s : gmap string bytes :=
  filter (λ kv, starts_with (get_task_prefix ns) kv.1 = true) (contents s).

Lemma task_at_entries ns s job st pt t :
  task_at (task_entries ns s) ns job st pt t ↔ task_at (contents s) ns job st pt t.
Proof.
  unfold task_at, task_entries. split; intros (b & Hb & Hd); exists b; (split; [|done]).
  - by apply map_lookup_filter_Some in Hb as [??].
  - apply map_lookup_filter_Some. split; [done|]. apply task_key_prefix.
Qed.

Lemma elem_of_hash_iter (m : gmap string bytes) k b : (k, b) ∈ hash_iter m ↔ m !! k = Some b.
Proof. by rewrite hash_iter_spec, elem_of_map_to_list. Qed.

Lemma elem_of_task_entries ns s k b :
  (k, b) ∈ hash_iter (task_entries ns s) ↔
  contents s !! k = Some b ∧ starts_with (get_task_prefix ns) k = true.
Proof. rewrite elem_of_hash_iter. apply map_lookup_filter_Some. Qed.

(** The executors a scan finds. *)
Lemma get_executors_metadata_eq ns s :
  ∃ kvs, get_executors_metadata ns s =
    (rmapM (λ kv, rmap executor_meta_from_proto (decode_protobuf kv.2)) kvs, s) ∧
    ∀ k v, (k, v) ∈ kvs ↔ contents s !! k = Some v ∧ starts_with (get_executors_prefix ns) k = true.
Proof.
  destruct (backend_prefix_spec (get_executors_prefix ns) s) as (kvs & E & _).
  exists kvs. split; [|by apply elem_of_prefix_scan].
  unfold get_executors_metadata, bindM. by rewrite E.
Qed.

Lemma assign_unfold ns ex s :
  assign_next_schedulable_task ns ex s =
  match get_executors_metadata ns s with
  | (Ok executors, s') =>
      try_tasks ns ex (task_entries ns s) executors (hash_iter (task_entries ns s)) s'
  | (Err e, s') => (Err e, s')
  | (Panic m, s') => (Panic m, s')
  end.
Proof.
  unfold assign_next_schedulable_task. destruct (scan_map (get_task_prefix ns) s) as (kvs & E & _ & Hm).
  unfold bindM at 1. rewrite E, Hm. done.
Qed.

(** ** Properties *)

Lemma assign_some_outcome ns ex s status plan s' :
  assign_next_schedulable_task ns ex s = (Ok (Some (status, plan)), s') →
  ∃ k pid executors, pending (contents s) ns k pid ∧ get_executors_metadata ns s = (Ok executors, s) ∧
    handed_out ns ex (contents s) executors pid s status plan s'.
Proof.
  rewrite assign_unfold. destruct (get_executors_metadata_eq ns s) as (kvs & -> & _).
  destruct (rmapM _ kvs) as [executors| |]; try by intros.
  intros ([k b] & Hin & Ht)%try_tasks_some. simpl in Ht. apply elem_of_task_entries in Hin as [Hk Hp].
  destruct (decode_protobuf (T := TaskStatus) b) as [t| |] eqn:Ed.
  2,3: unfold try_task in Ht; rewrite bindM_lift, Ed in Ht; by simplify_eq.
  destruct (try_task_some _ _ _ _ _ _ _ _ _ _ Ed Ht) 
    as (pid & -> & p & locs & b' & R1 & R2 & R3 & R4 & R5 & R6 & R7 & R8).
  exists k, pid, executors. split_and!; [by exists b|done|]. exists p, locs, b'. split_and!; try done.
  - intros stage part Hi. destruct (R3 stage part Hi) as (t & Hat & Hc).
    exists t. split; [|done]. by apply task_at_entries.
  - intros stage. eapply Forall2_impl; [exact (R5 stage)|]. intros part l (Hl & Hm & t & Hat & He).
    split_and!; [done..|]. exists t. split; [|done]. by apply task_at_entries.
Qed.

(** C10 — A task that is handed out was recorded as pending; every input its
    stage plan waits for is recorded as completed; the plan sent is the stage
    plan reading each input partition, in order, at the executor that
    completed it, with the address it is registered with, and with no unresolved
    shuffle left; and the store records
    exactly this task as running on the executor that asked, with no other
    entry changed. *)
Theorem assign_sound ns ex s status plan s' :
  assign_next_schedulable_task ns ex s = (Ok (Some (status, plan)), s') →
  ∃ k pid executors, pending (contents s) ns k pid ∧ get_executors_metadata ns s = (Ok executors, s) ∧
    handed_out ns ex (contents s) executors pid s status plan s'.
Proof. apply assign_some_outcome. Qed.

Lemma assign_none_outcome ns ex s s' :
  assign_next_schedulable_task ns ex s = (Ok None, s') →
  s' = s ∧ ∀ k pid, pending (contents s) ns k pid →
    ∃ p stage part t, task_plan s ns pid p ∧ (stage, part) ∈ inputs_of p ∧
      task_at (contents s) ns (ppi_job_id pid) stage part t ∧ task_completed t = false.
Proof.
  rewrite assign_unfold. destruct (get_executors_metadata_eq ns s) as (kvs & -> & _).
  destruct (rmapM _ kvs) as [executors| |]; try by intros.
  intros [-> Hall]%try_tasks_none. split; [done|]. intros k pid (b & Hb & Hp & Hd).
  specialize (Hall (k, b)). simpl in Hall.
  destruct (try_task_none _ _ _ _ _ _ _ _ Hd (Hall (proj2 (elem_of_task_entries _ _ _ _) (conj Hb Hp))))
    as [_ Hw].
  destruct (Hw eq_refl) as (pid' & p & stage & part & t' & [= <-] & R1 & R2 & R3 & R4).
  exists p, stage, part, t'. split_and!; try done. by apply task_at_entries.
Qed.

(** When no task is handed out, the store is unchanged and every pending
    task waits: one of the inputs of its stage plan is recorded and not
    completed. *)
Theorem assign_none ns ex s s' :
  assign_next_schedulable_task ns ex s = (Ok None, s') →
  s' = s ∧ ∀ k pid, pending (contents s) ns k pid →
    ∃ p stage part t, task_plan s ns pid p ∧ (stage, part) ∈ inputs_of p ∧
      task_at (contents s) ns (ppi_job_id pid) stage part t ∧ task_completed t = false.
Proof. apply assign_none_outcome. Qed.

(** A store the scheduler keeps: its executors and tasks can be read, the
    stage plan of every pending task is recorded and made of DataFusion's
    operators and shuffles of at least one partition, the inputs of pending
    tasks are recorded, and the executors that completed them are registered. *)
Record consistent (ns : string) (s : S) : Prop := {
  cs_executors : ∀ k b, contents s !! k = Some b → starts_with (get_executors_prefix ns) k = true →
    ∃ m : PExecutorMetadata, decode_protobuf b = Ok m;
  cs_tasks : ∀ k b, contents s !! k = Some b → starts_with (get_task_prefix ns) k = true →
    ∃ pid st, decode_protobuf b = Ok (mkTaskStatus (Some pid) st);
  cs_plans : ∀ k pid, pending (contents s) ns k pid → ∃ op cs, task_plan s ns pid (Exec op cs) ∧
    is_ballista_op op = false ∧ forallb resolvable cs = true ∧
    Forall (λ u, 0 < us_partition_count u)%Z (unresolved_shuffles (Exec op cs));
  cs_inputs : ∀ k pid p, pending (contents s) ns k pid → task_plan s ns pid p →
    ∀ stage part, (stage, part) ∈ inputs_of p →
    ∃ t, task_at (contents s) ns (ppi_job_id pid) stage part t ∧
      ∀ e, task_executor t = Some e → ∃ k b m, contents s !! k = Some b ∧
        starts_with (get_executors_prefix ns) k = true ∧
        decode_protobuf b = Ok m ∧ pem_id m = e;
}.

Lemma executors_readable ns s :
  consistent ns s →
  ∃ executors, get_executors_metadata ns s = (Ok executors, s) ∧
    ∀ k b m, contents s !! k = Some b → starts_with (get_executors_prefix ns) k = true →
      decode_protobuf b = Ok m → ∃ em, em ∈ executors ∧ em_id em = pem_id m.
Proof.
  intros Hc. destruct (get_executors_metadata_eq ns s) as (kvs & -> & Hkvs).
  assert (∃ l, rmapM (λ kv, rmap executor_meta_from_proto (decode_protobuf kv.2)) kvs = Ok l ∧
    ∀ k b m, (k, b) ∈ kvs → decode_protobuf b = Ok m → ∃ em, em ∈ l ∧ em_id em = pem_id m)
    as (l & -> & Hl).
  { assert (∀ k b, (k, b) ∈ kvs → ∃ m : PExecutorMetadata, decode_protobuf b = Ok m) as Hd.
    { intros k b [??]%Hkvs. by eapply cs_executors. }
    clear Hkvs. induction kvs as [|[k b] kvs IH]; simpl.
    { exists []. split; [done|]. by intros ??? ?%not_elem_of_nil. }
    destruct (Hd k b) as [m Hm]; [by left|]. rewrite Hm.
    destruct IH as (l & -> & Hl); [intros k' b' ?; apply (Hd k' b'); by right|].
    eexists. split; [done|]. intros k' b' m' [[= -> ->]|Hin]%elem_of_cons Hm'.
    - exists (executor_meta_from_proto m). split; [by left|]. simpl. congruence.
    - destruct (Hl _ _ _ Hin Hm') as (em & ? & ?). exists em. split; [by right|done]. }
  exists l. split; [done|]. intros k b m Hk Hp Hm. eapply Hl; [|done]. by apply Hkvs.
Qed.

(** Every stage read by a shuffle with a partition has an input. *)
Lemma inputs_of_stage p u stage :
  u ∈ unresolved_shuffles p → stage ∈ us_query_stage_ids u → (0 < us_partition_count u)%Z →
  stage ∈ (inputs_of p).*1.
Proof.
  intros Hu Hs Hc. apply list_elem_of_fmap. exists (stage, 0%Z). split; [done|].
  unfold inputs_of, shuffle_inputs. apply list_elem_of_In, in_flat_map. exists u.
  split; [by apply list_elem_of_In|]. apply in_flat_map. exists stage.
  split; [by apply list_elem_of_In|]. apply in_map. apply list_elem_of_In, elem_of_zrange. lia.
Qed.

Lemma try_task_returns `{!WithNewChildrenOk} ns ex executors k b s :
  consistent ns s → (k, b) ∈ hash_iter (task_entries ns s) →
  (∀ k b m, contents s !! k = Some b → starts_with (get_executors_prefix ns) k = true →
      decode_protobuf b = Ok m → ∃ em, em ∈ executors ∧ em_id em = pem_id m) →
  ∃ r s', try_task ns ex (task_entries ns s) executors b s = (Ok r, s').
Proof.
  intros Hc [Hk Hp]%elem_of_task_entries Hex.
  destruct (cs_tasks _ _ Hc k b Hk Hp) as (pid & st & Hd).
  unfold try_task. rewrite bindM_lift, Hd. destruct st as [st|]; [by eexists _, _|].
  simpl. rewrite bindM_lift. simpl.
  assert (pending (contents s) ns k pid) as Hpend by (by exists b).
  destruct (cs_plans _ _ Hc k pid Hpend) as (op & cs & Hplan & Hop & Hres & Hcount).
  unfold bindM at 1. rewrite Hplan. rewrite bindM_lift, find_unresolved_shuffles_eq, bindM_lift.
  destruct (locate_inputs_returns ns (ppi_job_id pid) (task_entries ns s) executors
    (inputs_of (Exec op cs)) ∅) as [r Hr].
  { intros stage part Hin. destruct (cs_inputs _ _ Hc k pid _ Hpend Hplan stage part Hin) as (t & Ht & He).
    exists t. split; [by apply task_at_entries|]. intros e Hte.
    destruct (He e Hte) as (k' & b' & m & Hk' & Hp' & Hm & <-). by eapply Hex. }
  unfold inputs_of in Hr. rewrite Hr. destruct r as [locs|]; [|by eexists _, _].
  rewrite bindM_lift.
  assert (known locs (Exec op cs) = true) as Hkn.
  { apply List.forallb_forall. intros u Hu%list_elem_of_In. apply List.forallb_forall.
    intros stage Hs%list_elem_of_In. apply bool_decide_eq_true_2.
    destruct (locate_inputs_some _ _ _ _ _ _ _ Hr) as [_ Hl]. apply Hl. right.
    rewrite Forall_forall in Hcount. eapply inputs_of_stage; eauto. }
  rewrite remove_children; [|done|].
  2: { apply Forall_forall. intros c Hin. apply remove_child_spec.
    pose proof (proj1 (List.forallb_forall _ _) Hres) as Hall. by apply Hall, list_elem_of_In. }
  replace (forallb (known locs) cs) with true; [|symmetry].
  - destruct (save_task_status_ok ns pid (Some (TS_Running ex)) s) as (b' & s' & Es & _).
    { apply running_valid. by eapply decoded_valid. }
    unfold bindM. rewrite Es. by eexists _, _.
  - change (forallb (known locs) cs) with
      (forallb (λ x, forallb (known_shuffle locs) (unresolved_shuffles x)) cs).
    rewrite <-forallb_flat_map. clear -Hkn Hop. by destruct op.
Qed.

Lemma assign_total `{!WithNewChildrenOk} ns ex s :
  consistent ns s → ∃ r s', assign_next_schedulable_task ns ex s = (Ok r, s').
Proof.
  intros Hc. rewrite assign_unfold. destruct (executors_readable ns s Hc) as (executors & -> & Hex).
  assert (∀ k b, (k, b) ∈ hash_iter (task_entries ns s) →
    (k, b) ∈ hash_iter (task_entries ns s)) as Hsub by done.
  revert Hsub. generalize (hash_iter (task_entries ns s)) at 1 3 as entries.
  induction entries as [|[k b] entries IH]; intros Hsub; [by eexists _, _|].
  cbn [try_tasks]. unfold bindM.
  destruct (try_task_returns ns ex executors k b s Hc) as (r & s1 & Et); [apply Hsub; by left|done|].
  cbn [snd]. rewrite Et. destruct r as [x|]; [by eexists _, _|].
  apply try_task_none_pure in Et as ->. apply IH. intros k' b' Hin. apply Hsub. by right.
Qed.

(** On a consistent store the assignment returns: it neither fails nor
    crashes, whatever the order in which the tasks are visited. *)
Theorem assign_returns `{!WithNewChildrenOk} ns ex s :
  consistent ns s → ∃ r s', assign_next_schedulable_task ns ex s = (Ok r, s').
Proof. apply assign_total. Qed.
End assign.

(** ** Witnesses

    A store with one executor and one job of two stages: the only task of the
    first stage is completed, that of the second is pending. *)
Module SampleStore.
Definition ns : string := "default".
Definition job : string := "abc".
Definition plan : ExecutionPlan :=
  Exec X_Merge [Exec (X_UnresolvedShuffle [1%Z] (mkSchema []) 1) []].
Definition plan_node : PPhysicalPlanNode :=
  exec_node (PPT_Merge (Some (exec_node (PPT_Unresolved [1%Z] (Some (mkPSchema [])) 1)))).
Definition pid (stage : Z) : PPartitionId := mkPPartitionId job stage 0.
Definition task (stage : Z) (st : option TaskStatusStatus) : TaskStatus :=
  mkTaskStatus (Some (pid stage)) st.

#[export] Existing Instance Sample.backend.
#[export] Existing Instance Sample.backend_ok.
#[export] Existing Instance Sample.task_message.
#[export] Existing Instance Sample.executor_message.
#[export] Instance plan_message : Message PPhysicalPlanNode := Sample.plan_message plan_node.
#[export] Instance order : HashOrder := map_to_list.
#[export] Existing Instance sample_physical_planner.
#[export] Existing Instance direct_builders.
#[export] Existing Instance sample_exec_methods.

Lemma order_ok : HashOrderOk.
Proof. intros m. done. Qed.
Lemma task_message_ok : MessageOk TaskStatus.
Proof. apply countable_message_ok. Qed.
Lemma task_valid (t : TaskStatus) : valid_message t.
Proof. exact I. Qed.
Lemma methods_ok : ExecutionPlanMethodsOk.
Proof.
  split; [intros; by left|]. intros op cs. split; [discriminate|reflexivity].
Qed.
Lemma methods_total : WithNewChildrenOk.
Proof. by intros op cs cs' _. Qed.

Definition encoded {T} `{Message T} (m : T) : bytes :=
  match prost_encode m with Ok b => b | _ => [] end.

Definition store (first second : option TaskStatusStatus) : Memory :=
  <[get_executor_key ns "e1" := encoded (mkPExecutorMetadata "e1" "localhost" 50051)]>
  (<[get_stage_plan_key ns job 2 := encoded plan_node]>
  (<[get_task_status_key ns job 1 0 := encoded (task 1 first)]>
  (<[get_task_status_key ns job 2 0 := encoded (task 2 second)]> ∅))).

Definition ready : Memory := store (Some (TS_Completed "e1")) None.
Definition waiting : Memory := store (Some (TS_Running "e1")) None.
Definition after : Memory := store (Some (TS_Completed "e1")) (Some (TS_Running "e9")).

Definition resolved_plan : ExecutionPlan :=
  Exec X_Merge [Exec (X_ShuffleReader [mkPartitionLocation (mkPartitionId job 1 0)
    (mkExecutorMeta "e1" "localhost" 50051)] (mkSchema [])) []].
End SampleStore.
Import SampleStore.

Lemma assign_sound_witness :
  ∃ k pid executors, pending (contents ready) "default" k pid ∧
    get_executors_metadata "default" ready = (Ok executors, ready) ∧
    handed_out "default" "e9" (contents ready) executors pid ready
      (task 2 (Some (TS_Running "e9"))) resolved_plan after.
Proof.
  pose proof task_message_ok. pose proof methods_ok. pose proof order_ok.
  apply (assign_sound (S := Memory) (λ _ t _, task_valid t) (λ _ _ _, task_valid _) "default" "e9" ready
    (task 2 (Some (TS_Running "e9"))) resolved_plan after).
  vm_compute. reflexivity.
Defined.

Lemma assign_none_witness :
  waiting = waiting ∧ ∀ k pid, pending (contents waiting) "default" k pid →
    ∃ p stage part t, task_plan waiting "default" pid p ∧ (stage, part) ∈ inputs_of p ∧
      task_at (contents waiting) "default" (ppi_job_id pid) stage part t ∧ task_completed t = false.
Proof.
  pose proof task_message_ok. pose proof methods_ok. pose proof order_ok.
  apply (assign_none (S := Memory) "default" "e9" waiting waiting).
  vm_compute. reflexivity.
Defined.

(** A check of the entries of the sample store, one by one. *)
Lemma check_entries (m : gmap string bytes) (f : string → bytes → bool) :
  forallb (λ kb, f kb.1 kb.2) (map_to_list m) = true →
  ∀ k b, m !! k = Some b → f k b = true.
Proof.
  intros HF k b Hk. rewrite List.forallb_forall in HF. apply (HF (k, b)).
  by apply list_elem_of_In, elem_of_map_to_list.
Qed.
Definition pending_check (_ : string) (b : bytes) : bool :=
  match decode_protobuf (T := TaskStatus) b with
  | Ok t => match ts_partition_id t, ts_status t with
            | Some p, None => String.eqb (ppi_job_id p) job && (ppi_stage_id p =? 2)%Z &&
                              (ppi_partition_id p =? 0)%Z
            | _, _ => true
            end
  | _ => true
  end.
Definition executor_check (k : string) (b : bytes) : bool :=
  negb (starts_with (get_executors_prefix "default") k) ||
  match decode_protobuf (T := PExecutorMetadata) b with Ok _ => true | _ => false end.
Definition task_check (k : string) (b : bytes) : bool :=
  negb (starts_with (get_task_prefix "default") k) ||
  match decode_protobuf (T := TaskStatus) b with
  | Ok t => bool_decide (is_Some (ts_partition_id t)) | _ => false
  end.

Lemma ready_checked :
  forallb (λ kb, pending_check kb.1 kb.2 && executor_check kb.1 kb.2 && task_check kb.1 kb.2)
    (map_to_list ready) = true.
Proof. vm_compute. reflexivity. Qed.

Lemma ready_entry k b : contents ready !! k = Some b →
  pending_check k b = true ∧ executor_check k b = true ∧ task_check k b = true.
Proof.
  intros Hb. pose proof (check_entries ready
    (λ k b, pending_check k b && executor_check k b && task_check k b) ready_checked k b Hb) as Hf.
  by apply andb_prop in Hf as [[]%andb_prop ?].
Qed.

Lemma ready_pending k pid : pending (contents ready) "default" k pid → pid = SampleStore.pid 2.
Proof.
  intros (b & Hb & _ & Hd). apply ready_entry in Hb as (Hf & _).
  unfold pending_check in Hf. rewrite Hd in Hf. destruct pid as [j st pt]. simpl in Hf.
  apply andb_prop in Hf as [[Hj%String.eqb_eq Hst]%andb_prop Hpt].
  unfold SampleStore.pid. f_equal; [done|lia..].
Qed.

Lemma ready_plan p : task_plan ready "default" (SampleStore.pid 2) p → p = plan.
Proof.
  assert ((get_stage_plan "default" job (as_usize 2) ready).1 = Ok plan) as E
    by (vm_compute; reflexivity).
  intros Hp%(f_equal fst). cut (Ok p = Ok plan :> Result ExecutionPlan); [by intros [= ->]|].
  by rewrite <-E.
Qed.

Lemma ready_consistent : consistent "default" ready.
Proof.
  split.
  - intros k b Hk Hp. apply ready_entry in Hk as (_ & Hf & _). unfold executor_check in Hf.
    rewrite Hp in Hf. destruct (decode_protobuf b); [by eexists|done..].
  - intros k b Hk Hp. apply ready_entry in Hk as (_ & _ & Hf). unfold task_check in Hf.
    rewrite Hp in Hf. destruct (decode_protobuf b) as [[opid st]| |]; [|done..]. simpl in Hf.
    apply bool_decide_eq_true in Hf as [pid ?]. simplify_eq. by eexists _, _.
  - intros k pid ->%ready_pending. exists X_Merge, (plan_children plan).
    split_and!; [vm_compute; reflexivity|done|done|repeat constructor].
  - intros k pid p ->%ready_pending ->%ready_plan stage part Hin.
    vm_compute in Hin. apply list_elem_of_singleton in Hin as [= -> ->].
    exists (task 1 (Some (TS_Completed "e1"))). split.
    + eexists. split; vm_compute; reflexivity.
    + intros e [= <-]. eexists (get_executor_key "default" "e1"), _, (mkPExecutorMetadata "e1" "localhost" 50051).
      split; [vm_compute; reflexivity|]. split; [reflexivity|]. split; reflexivity.
Qed.

Lemma assign_returns_witness :
  ∃ r s', assign_next_schedulable_task "default" "e9" ready = (Ok r, s').
Proof.
  pose proof task_message_ok. pose proof methods_ok. pose proof order_ok. pose proof methods_total.
  apply (assign_returns (S := Memory) (λ _ t _, task_valid t) (λ _ _ _, task_valid _) "default" "e9" ready).
  apply ready_consistent.
Defined.
