(* ===== verification/Server.v ===== *)
(** * The scheduler service

    Models src/rust/scheduler/src/lib.rs: the handlers of the gRPC service
    [SchedulerGrpc] ([get_executors_metadata], [poll_work],
    [get_file_metadata], [execute_query] with the planning task it spawns,
    [get_job_status]) over the scheduler's state, and the global lock of
    [poll_work] with its two implementations (state/mod.rs, state/etcd.rs).

    A handler returns a response or a [tonic::Status].  DataFusion's SQL
    front end, optimizer and physical planner, its Parquet reader and the
    texts of foreign errors are parameters. *)

From S2P Require Import Prelude Keys Proto Arrow Scalar Expr LogicalPlan SchedTypes ExecPlan.
From S2P Require Import Planner Physical Backend State.

(** ** Messages of the service *)

Record PollWorkParams := mkPollWorkParams {
  pw_metadata : option PExecutorMetadata; pw_can_accept_task : bool;
  pw_task_status : list TaskStatus }.
Record TaskDefinition := mkTaskDefinition {
  td_task_id : option PPartitionId; td_plan : option PPhysicalPlanNode }.
Record PollWorkResult := mkPollWorkResult { pwr_task : option TaskDefinition }.
Inductive ExecuteQuery :=
| EQ_LogicalPlan (logical_plan : PLogicalPlanNode)
| EQ_Sql (sql : string).
Record ExecuteQueryParams := mkExecuteQueryParams { eq_query : option ExecuteQuery }.
Record GetFileMetadataParams := mkGetFileMetadataParams { gf_path : string; gf_file_type : Z }.
Record GetFileMetadataResult := mkGetFileMetadataResult {
  gf_schema : option PSchema; gf_partitions : list (list string) }.
Record GetJobStatusResult := mkGetJobStatusResult { gj_status : option JobStatus }.

(** [tonic::Status], with the constructors the handlers use. *)
Inductive Status :=
| Status_internal (msg : string)
| Status_invalid_argument (msg : string)
| Status_unimplemented (msg : string).

(** ** Parameters *)

(** The texts of errors of third-party crates. *)
Class ErrorText := {
  datafusion_debug : DataFusionError → string;
  datafusion_display : DataFusionError → string;
  status_display : Status → string;
}.

(** DataFusion's [ExecutionContext] and [ParquetExec]. *)
Class QueryContext (DFSchema : Type) := {
  ctx_sql : string → DFResult (LogicalPlan DFSchema);
  ctx_optimize : LogicalPlan DFSchema → DFResult (LogicalPlan DFSchema);
  ctx_create_physical_plan : LogicalPlan DFSchema → DFResult ExecutionPlan;
  parquet_try_from_path : string → DFResult (Schema * list (list string));
}.

(** [Display for BallistaError]. *)
Definition display_error `{ErrorText} (e : BallistaError) : string :=
  match e with
  | NotImplemented desc => "Not implemented: " +:+ desc
  | General desc => "General error: " +:+ desc
  | ArrowError desc => "Arrow error: " +:+ desc
  | BE_DataFusionError desc => "DataFusion error: " +:+ datafusion_debug desc
  | SqlError desc => "SQL error: " +:+ desc
  | IoError desc => "IO error: " +:+ desc
  | TonicError desc => "Tonic error: " +:+ desc
  | GrpcError desc => "Grpc error: " +:+ desc
  | Internal desc => "Internal Ballista error: " +:+ desc
  | TokioError desc => "Tokio join error: " +:+ desc
  end.

(** ** The global lock *)

(** The guards [lock] returns: tokio's [OwnedMutexGuard] for the standalone
    backend, [EtcdLockGuard] for etcd, with the answer of etcd to the request
    to unlock. *)
Inductive LockGuard :=
| OwnedMutexGuard
| EtcdLockGuard (unlock_answer : result string unit).

(** [Lock::unlock]: nothing for the mutex; for etcd a request whose answer is
    unwrapped.  The [bool] says whether the lock is held. *)
Definition lock_unlock (g : LockGuard) (held : bool) : result Status unit * bool :=
  match g with
  | OwnedMutexGuard => (Ok (), held)
  | EtcdLockGuard (Ok _) => (Ok (), false)
  | EtcdLockGuard _ => (Panic "called `Result::unwrap()` on an `Err` value", held)
  end.

(** Dropping the guard: the mutex is released.  The guard of etcd has no
    [Drop] ("Cannot use Drop because we need this to be async"): nothing is sent
    to etcd, whose lock stays as it is.  It is etcd that ends it, when the lease
    of the session that took it runs out: a step of the environment (System.v),
    not of a handler. *)
Definition lock_drop (g : LockGuard) (held : bool) : bool :=
  match g with OwnedMutexGuard => false | EtcdLockGuard _ => held end.

(** ** Handlers *)

Section server.
Context {S : Type} `{ConfigBackendClient S}.
Context `{Message PExecutorMetadata} `{Message JobStatus} `{Message TaskStatus}
  `{Message PPhysicalPlanNode}.
Context `{PhysicalPlanner} `{ExprBuilders} `{ExecutionPlanMethods} `{HashOrder} `{ErrorText}.
Context {DFSchema : Type} `{DataFusion DFSchema} `{QueryContext DFSchema}.
Context (namespace : string).

Abbreviation G A := (MR S Status A).

(** [.map_err(|e| tonic::Status::internal(format!("<context>{}", e)))]. *)
Definition internal_error (context : string) (e : BallistaError) : Status :=
  Status_internal (context +:+ display_error e).
Definition df_internal_error (context : string) (e : DataFusionError) : Status :=
  Status_internal (context +:+ datafusion_display e).
Definition or_internal {A} (context : string) (m : M S A) : G A :=
  map_errM (internal_error context) m.

(** [SchedulerGrpc::get_executors_metadata]. *)
Definition handle_get_executors_metadata : G (list PExecutorMetadata) :=
  let! metas := or_internal "Error reading executors metadata: " (get_executors_metadata namespace) in
  ret (List.map executor_meta_to_proto metas).

(** The task of a poll: the assigned plan is encoded, and its encoding
    unwrapped. *)
Definition next_task (can_accept_task : bool) (executor_id : string) : G (option TaskDefinition) :=
  if can_accept_task then
    let! plan := or_internal "Error finding next assignable task: "
      (assign_next_schedulable_task namespace executor_id) in
    match plan with
    | None => ret None
    | Some (status, plan) =>
        let! _ := lift (unwrap "called `Option::unwrap()` on a `None` value" (ts_partition_id status)) in
        match exec_to_proto plan with
        | Ok p => ret (Some (mkTaskDefinition (ts_partition_id status) (Some p)))
        | Err _ => lift (Panic "called `Result::unwrap()` on an `Err` value")
        | Panic m => lift (Panic m)
        end
    end
  else ret None.

(** An error of the synchronization is only logged. *)
Definition log_error (m : M S unit) : G unit := λ s,
  match m s with
  | (Panic msg, s') => (Panic msg, s')
  | (_, s') => (Ok (), s')
  end.

(** The body of [poll_work] between [lock] and [unlock]. *)
Definition poll_work_locked (metadata : ExecutorMeta) (can_accept_task : bool)
    (task_status : list TaskStatus) : G (option TaskDefinition) :=
  let! _ := or_internal "Could not save executor metadata: "
    (save_executor_metadata namespace metadata) in
  let! _ := mfor (λ t, or_internal "Could not save task status: " (save_task_status namespace t))
    task_status in
  let! task := next_task can_accept_task (em_id metadata) in
  let! _ :=
    match task_status with
    | [] => ret ()
    | _ => log_error (synchronize_job_status namespace)
    end in
  ret task.

(** [SchedulerGrpc::poll_work] on the store and the lock; [None] is a handler
    that has no answer yet because the lock is taken at this moment.
    [lock_answer] is what the backend answers to the request for the lock when
    nobody holds it, [g] the guard it gives. *)
Definition poll_work (lock_answer : Result unit) (g : LockGuard) (request : PollWorkParams)
    (state : bool * S) : option (result Status PollWorkResult * (bool * S)) :=
  let '(held, s) := state in
  match pw_metadata request with
  | None => Some (Err (Status_invalid_argument "Missing metadata in request"), (held, s))
  | Some metadata =>
      let metadata := executor_meta_from_proto metadata in
      if held then None
      else match map_err (internal_error "Could not lock the state: ") lock_answer with
      | Err e => Some (Err e, (held, s))
      | Panic m => Some (Panic m, (held, s))
      | Ok _ =>
          let '(r, s') := poll_work_locked metadata (pw_can_accept_task request)
                            (pw_task_status request) s in
          match r with
          | Ok task =>
              let '(u, held') := lock_unlock g true in
              Some (rmap (λ _, mkPollWorkResult task) u, (lock_drop g held', s'))
          | Err e => Some (Err e, (lock_drop g true, s'))
          | Panic m => Some (Panic m, (lock_drop g true, s'))
          end
      end
  end.

(** [SchedulerGrpc::get_file_metadata]. *)
Definition get_file_metadata (request : GetFileMetadataParams)
    : result Status GetFileMetadataResult :=
  let? file_type := map_err (internal_error "Error reading request: ")
    (file_type_from_i32 (gf_file_type request)) in
  match file_type with
  | PFT_Parquet =>
      let? parquet_exec := map_err (df_internal_error "Error opening parquet files: ")
        (parquet_try_from_path (gf_path request)) in
      Ok (mkGetFileMetadataResult (Some (schema_to_proto parquet_exec.1)) parquet_exec.2)
  | _ => Err (Status_unimplemented "get_file_metadata unsupported file type")
  end.

(** The plan and the tasks of one stage are saved. *)
Definition pending_status (job_id : string) (stage_id partition_id : Z) : TaskStatus :=
  mkTaskStatus (Some (mkPPartitionId job_id (as_u32 stage_id) (as_u32 partition_id))) None.
Definition save_stage (job_id : string) (stage : QueryStageExec) : G unit :=
  let! _ := or_internal "Could not save stage plan: "
    (save_stage_plan namespace job_id (qs_stage_id stage) (qs_child stage)) in
  let num_partitions := partition_count (stage_plan stage) in
  mfor (λ partition_id, or_internal "Could not save task status: "
    (save_task_status namespace (pending_status job_id (qs_stage_id stage) partition_id)))
    (zrange num_partitions).

(** The body of the spawned planning task; an error is what [fail_job!] gets. *)
Definition plan_job_body (job_id : string) (plan : LogicalPlan DFSchema)
    (executors : list ExecutorMeta) : G unit :=
  let! optimized_plan := lift (map_err (df_internal_error "Could not create optimized logical plan: ")
    (ctx_optimize plan)) in
  let! plan := lift (map_err (df_internal_error "Could not create physical plan: ")
    (ctx_create_physical_plan optimized_plan)) in
  let! _ := log_error (save_job_metadata namespace job_id (mkJobStatus (Some JS_Running))) in
  let! planner := lift (map_err (internal_error "Could not create distributed planner: ")
    (DistributedPlanner_try_new executors)) in
  let! stages := lift (map_err (internal_error "Could not plan query stages: ")
    (plan_query_stages planner job_id plan)) in
  mfor (save_stage job_id) stages.1.

(** The spawned task: [fail_job!] records the error as the status of the job
    (and unwraps the outcome of that), then returns. *)
Definition plan_job (job_id : string) (plan : LogicalPlan DFSchema) (executors : list ExecutorMeta)
    : M S unit := λ s,
  match plan_job_body job_id plan executors s with
  | (Err error, s') =>
      match save_job_metadata namespace job_id
              (mkJobStatus (Some (JS_Failed (status_display error)))) s' with
      | (Err _, s'') => (Panic "called `Result::unwrap()` on an `Err` value", s'')
      | r => r
      end
  | (Ok _, s') => (Ok (), s')
  | (Panic m, s') => (Panic m, s')
  end.

(** The plan of a query. *)
Definition parse_query (query : ExecuteQuery) : result Status (LogicalPlan DFSchema) :=
  match query with
  | EQ_LogicalPlan logical_plan =>
      map_err (internal_error "Could not parse logical plan protobuf: ") (proto_to_plan logical_plan)
  | EQ_Sql sql => map_err (df_internal_error "Error parsing SQL: ") (ctx_sql sql)
  end.

(** [SchedulerGrpc::execute_query]: the answer is the job's id, and the task
    that plans the job, which runs on its own.  [job_id] is the string of
    seven alphanumeric characters the handler draws at random. *)
Definition execute_query (job_id : string) (request : ExecuteQueryParams)
    : G (string * M S unit) :=
  match eq_query request with
  | None => lift (Err (Status_internal "Error parsing request"))
  | Some query =>
      let! plan := lift (parse_query query) in
      let! executors := or_internal "Error reading executors metadata: "
        (get_executors_metadata namespace) in
      let! _ := or_internal "Could not save job metadata: "
        (save_job_metadata namespace job_id (mkJobStatus (Some JS_Queued))) in
      ret (job_id, plan_job job_id plan executors)
  end.

(** [SchedulerGrpc::get_job_status]. *)
Definition get_job_status (job_id : string) : G GetJobStatusResult :=
  let! job_meta := or_internal "Error reading job metadata: " (get_job_metadata namespace job_id) in
  ret (mkGetJobStatusResult (Some job_meta)).

(** ** The lock *)

(** C29 — Which polls give the lock back.  After a poll that took the lock of
    the standalone backend, the mutex is free, whatever the answer is.  With
    etcd the handler gives the lock back exactly when it answers with success:
    an error or a crash after the lock was taken, one of the unlock request
    included, leaves the lock taken when the handler is done. *)
Theorem poll_releases_lock g request s answer held' s' :
  is_Some (pw_metadata request) →
  poll_work (Ok ()) g request (false, s) = Some (answer, (held', s')) →
  held' = match g with OwnedMutexGuard => false | EtcdLockGuard _ => negb (is_ok answer) end.
Proof.
  intros [m Hm] E. unfold poll_work in E. rewrite Hm in E. simpl in E.
  destruct (poll_work_locked _ _ _ s) as [[task|e|msg] s1], g as [|[u|u|u]]; simpl in E;
    by simplify_eq.
Qed.
End server.
