(* ===== verification/Flight.v ===== *)
(** * The data plane

    Models the executor's Arrow Flight service
    (src/rust/executor/src/flight_service.rs), the client that talks to it
    (src/rust/core/src/client.rs), the actions they exchange
    (serde/scheduler/mod.rs, to_proto.rs, from_proto.rs), the partition files
    and their statistics (src/rust/core/src/utils.rs) and the read of a shuffle
    partition (execution_plans/shuffle_reader.rs).

    Running a plan, the IPC file format and the Flight encoding of batches are
    third-party code and parameters.  The disk is a map from paths to files.

    The theorems: actions survive the trip; what a partition's plan produces is
    what is fetched for it afterwards, with the statistics of it; a file that
    cannot be read to its end is cut off silently; a plan that the log cannot
    format is not run. *)

From S2P Require Import Prelude Keys Proto Arrow Scalar Expr LogicalPlan SchedTypes ExecPlan.
From S2P Require Import Planner Physical Backend Utils Batch State Server.

(** ** Actions *)

(** A task that can be sent to an executor. *)
Record ExecutePartition := mkExecutePartition {
  ep_job_id : string;
  ep_stage_id : Z;
  ep_partition_id : list Z;
  ep_plan : ExecutionPlan;
  ep_shuffle_locations : list (PartitionId * ExecutorMeta) }.

Definition ExecutePartition_new (job_id : string) (stage_id : Z) (partition_id : list Z)
    (plan : ExecutionPlan) (shuffle_locations : list (PartitionId * ExecutorMeta)) : ExecutePartition :=
  mkExecutePartition job_id stage_id partition_id plan shuffle_locations.

Inductive Action :=
| A_ExecutePartition (p : ExecutePartition)
| A_FetchPartition (p : PartitionId).

Section actions.
Context `{PhysicalPlanner} `{ExprBuilders} `{ExecutionPlanMethods} `{Message PAction}.

(** [TryInto<protobuf::ExecutePartition> for ExecutePartition]: the shuffle
    locations are not sent. *)
Definition execute_partition_to_proto (self : ExecutePartition) : Result PExecutePartition :=
  let? plan := exec_to_proto (ep_plan self) in
  Ok (mkPExecutePartition (ep_job_id self) (as_u32 (ep_stage_id self))
        (List.map as_u32 (ep_partition_id self)) (Some plan) []).

(** [TryInto<protobuf::Action> for Action]. *)
Definition action_to_proto (self : Action) : Result PAction :=
  match self with
  | A_ExecutePartition partition =>
      let? p := execute_partition_to_proto partition in
      Ok (mkPAction (Some (AT_ExecutePartition p)) [])
  | A_FetchPartition partition_id =>
      Ok (mkPAction (Some (AT_FetchPartition (partition_id_to_proto partition_id))) [])
  end.

(** [TryInto<Action> for protobuf::Action]. *)
Definition action_from_proto (self : PAction) : Result Action :=
  match pa_action_type self with
  | Some (AT_ExecutePartition partition) =>
      let? node := ok_or (General "PhysicalPlanNode in ExecutePartition is missing")
        (pep_plan partition) in
      let? plan := proto_to_exec node in
      Ok (A_ExecutePartition (ExecutePartition_new (pep_job_id partition)
            (as_usize (pep_stage_id partition)) (List.map as_usize (pep_partition_id partition))
            plan []))
  | Some (AT_FetchPartition partition) =>
      let? p := partition_id_from_proto partition in Ok (A_FetchPartition p)
  | _ => Err (General "scheduler::from_proto(Action) invalid or missing action")
  end.

(** [decode_protobuf] of serde/mod.rs. *)
Definition decode_action (b : bytes) : Result Action :=
  let? node := map_err (λ _, Internal "{:?}") (prost_decode b) in action_from_proto node.
End actions.

(** ** Third-party code *)

(** Whether the log records the level of [info!], DataFusion's [execute],
    Arrow's IPC files and Flight encoding, and the outcome of creating
    directories and files and of starting and finishing a file at a path.  A
    file that is created is empty. *)
Class DataPlane (FlightData File : Type) := {
  info_enabled : bool;
  plan_execute : ExecutionPlan → Z → DFResult BatchStream;
  ipc_start : string → Schema → result string unit;
  ipc_write : Schema → RecordBatch → result string unit;
  ipc_finish : string → result string unit;
  ipc_file : Schema → list RecordBatch → bool → File;
  ipc_read : File → result string BatchStream;
  flight_of_schema : Schema → FlightData;
  flight_of_batch : RecordBatch → list FlightData * FlightData;
  schema_of_flight : FlightData → result string Schema;
  flight_to_batch : FlightData → Schema → result string RecordBatch;
  fs_create_dir_all : string → result string unit;
  fs_create : string → result string unit;
  empty_file : File;
}.

(** What the formats guarantee: a batch of the file's schema can be written, a
    finished file is read back, schemas and batches survive the Flight
    encoding, and a batch without dictionary columns has no dictionaries. *)
Class DataPlaneOk (FlightData File : Type) `{DataPlane FlightData File} := {
  ipc_write_ok schema b : rb_schema b = schema → ipc_write schema b = Ok ();
  ipc_read_ok schema bs : ipc_read (ipc_file schema bs true) = Ok (schema, Ok <$> bs);
  flight_schema_ok schema : schema_of_flight (flight_of_schema schema) = Ok schema;
  dictionary_free : RecordBatch → Prop;
  flight_batch_ok b : dictionary_free b → (flight_of_batch b).1 = [] ∧
    flight_to_batch (flight_of_batch b).2 (rb_schema b) = Ok b;
}.

(** ** Files *)

Abbreviation Disk File := (gmap string File).
(** The executors that can be reached: at a host and port, the working
    directory and the disk. *)
Abbreviation Network File := (gmap (string * Z) (string * Disk File)).

(** [PathBuf::push]: an absolute path replaces, else a separator is added
    unless there is one. *)
Fixpoint ends_with_slash (s : string) : bool :=
  match s with
  | EmptyString => false
  | String a EmptyString => bool_decide (a = slash)
  | String _ s => ends_with_slash s
  end.
Definition path_push (path component : string) : string :=
  if starts_with "/" component then component
  else if bool_decide (path = "") || ends_with_slash path then path +:+ component
  else path +:+ "/" +:+ component.

Definition partition_dir (work_dir job_id : string) (stage_id part : Z) : string :=
  path_push (path_push (path_push work_dir job_id) (pretty stage_id)) (pretty part).
Definition partition_file (work_dir job_id : string) (stage_id part : Z) : string :=
  path_push (partition_dir work_dir job_id stage_id part) "data.arrow".

Section plane.
Context `{PhysicalPlanner} `{ExprBuilders} `{ExecutionPlanMethods} `{Message PAction} `{ErrorText}.
Context `{PlanText} `{Arrays} {FlightData File : Type} `{DataPlane FlightData File}.

Definition write_file (path : string) (content : File) : M (Disk File) unit := λ d,
  (Ok (), <[path := content]> d).

(** The sums of [usize] counts wrap around, as in a release build. *)
Definition count_batch (stats : PartitionStats) (batch : RecordBatch) : PartitionStats :=
  mkPartitionStats
    (as_usize (ps_num_rows stats + rb_num_rows batch)%Z)
    (as_usize (ps_num_batches stats + 1)%Z)
    (as_usize (ps_num_bytes stats + foldr Z.add 0 (List.map array_memory_size (rb_columns batch)))%Z)
    (as_usize (ps_null_count stats + foldr Z.add 0 (List.map array_null_count (rb_columns batch)))%Z).

(** The loop of [write_stream_to_disk]: [written] is in the file so far. *)
Fixpoint write_items (path : string) (schema : Schema) (items : list (result string RecordBatch))
    (written : list RecordBatch) (stats : PartitionStats) : M (Disk File) PartitionStats :=
  match items with
  | [] =>
      let! _ := lift (map_err ArrowError (ipc_finish path)) in
      let! _ := write_file path (ipc_file schema written true) in ret stats
  | item :: rest =>
      let! batch := lift (map_err ArrowError item) in
      let! _ := lift (map_err ArrowError (ipc_write schema batch)) in
      let! _ := write_file path (ipc_file schema (written ++ [batch]) false) in
      write_items path schema rest (written ++ [batch]) (count_batch stats batch)
  end.

(** [write_stream_to_disk]. *)
Definition write_stream_to_disk (stream : BatchStream) (path : string) : M (Disk File) PartitionStats :=
  let! _ := lift (map_err (λ _, General ("Failed to create partition file at " +:+ path +:+ ": {:?}"))
    (fs_create path)) in
  let! _ := write_file path empty_file in
  let! _ := lift (map_err ArrowError (ipc_start path stream.1)) in
  let! _ := write_file path (ipc_file stream.1 [] false) in
  write_items path stream.1 stream.2 [] PartitionStats_default.

(** ** The service *)

Definition from_arrow_err : Status := Status_internal "ArrowError: {:?}".
Definition from_ballista_err (e : BallistaError) : Status := Status_internal "Ballista Error: {:?}".
Definition from_datafusion_err (e : DataFusionError) : Status :=
  Status_internal "DataFusion Error: {:?}".
Definition grpc_error (s : Status) : BallistaError := GrpcError (status_display s).

(** [create_flight_iter]. *)
Definition create_flight_iter (batch : RecordBatch) : list FlightData :=
  (flight_of_batch batch).1 ++ [(flight_of_batch batch).2].

Definition summary_schema : Schema := mkSchema [Field_new "path" DT_Utf8 false; arrow_struct_repr].
Definition summary_batch (path : string) (stats : PartitionStats) : RecordBatch :=
  mkRecordBatch summary_schema [C_Utf8 [path]; to_arrow_arrayref stats] 1.

(** The task spawned for one partition of [ExecutePartition]. *)
Definition run_partition (work_dir : string) (partition : ExecutePartition) (part : Z)
    : M (Disk File) (list FlightData) :=
  let dir := partition_dir work_dir (ep_job_id partition) (ep_stage_id partition) part in
  let! _ := lift (map_err IoError (fs_create_dir_all dir)) in
  let path := path_push dir "data.arrow" in
  let! stream := lift (map_err (λ e, grpc_error (from_datafusion_err e))
    (plan_execute (ep_plan partition) part)) in
  let! stats := map_errM (λ e, grpc_error (from_ballista_err e)) (write_stream_to_disk stream path) in
  ret (create_flight_iter (summary_batch path stats)).

(** The spawned tasks all run, each on a file of its own (if no partition is
    named twice); here one after the other. *)
Fixpoint run_partitions (work_dir : string) (partition : ExecutePartition) (parts : list Z) (d : Disk File)
    : list (Result (list FlightData)) * Disk File :=
  match parts with
  | [] => ([], d)
  | part :: rest =>
      let '(r, d1) := run_partition work_dir partition part d in
      let '(rs, d2) := run_partitions work_dir partition rest d1 in
      (r :: rs, d2)
  end.

(** A task that panics is a [JoinError], an error like the others. *)
Definition join_result {A} (r : Result A) : result Status A :=
  match r with
  | Ok a => Ok a
  | _ => Err (Status_internal "Ballista Error: {:?}")
  end.

(** The arm of [ExecutePartition]: the plan is formatted for the log, if it
    is recorded. *)
Definition log_plan (plan : ExecutionPlan) : result Status string :=
  if info_enabled then map_err from_ballista_err (format_plan plan 0) else Ok "".
Definition do_execute (work_dir : string) (partition : ExecutePartition)
    : MR (Disk File) Status (list FlightData) :=
  let! _ := lift (log_plan (ep_plan partition)) in
  λ d,
    let '(results, d') := run_partitions work_dir partition (ep_partition_id partition) d in
    (let? batches := rmapM join_result results in
     Ok (flight_of_schema summary_schema :: List.concat batches), d').

(** [stream_flight_data]: an error of the reader ends the stream; the caller
    only logs it. *)
Fixpoint stream_batches (items : list (result string RecordBatch)) : list FlightData :=
  match items with
  | Ok b :: rest => create_flight_iter b ++ stream_batches rest
  | _ => []
  end.
Definition stream_flight_data (reader : BatchStream) : list FlightData :=
  flight_of_schema reader.1 :: stream_batches reader.2.

Definition do_fetch (work_dir : string) (partition_id : PartitionId)
    : MR (Disk File) Status (list FlightData) := λ d,
  let path := partition_file work_dir (pid_job_id partition_id) (pid_stage_id partition_id)
    (pid_partition_id partition_id) in
  (let? file := ok_or (from_ballista_err
      (General ("Failed to open partition file at " +:+ path +:+ ": {:?}"))) (d !! path) in
   let? reader := map_err (λ _, from_arrow_err) (ipc_read file) in
   Ok (stream_flight_data reader), d).

(** [do_get]. *)
Definition do_get (work_dir : string) (ticket : bytes) : MR (Disk File) Status (list FlightData) :=
  let! action := lift (map_err from_ballista_err (decode_action ticket)) in
  match action with
  | A_ExecutePartition partition => do_execute work_dir partition
  | A_FetchPartition partition_id => do_fetch work_dir partition_id
  end.

(** [do_put] reads the request to its end, [do_action] decodes it; then they
    fail like the other methods of the protocol. *)
Definition do_put (request : list (result Status FlightData)) : result Status unit :=
  let? _ := rmapM id request in Err (Status_unimplemented "do_put").
Definition do_action (body : bytes) : result Status unit :=
  let? _ := map_err from_ballista_err (decode_action body) in Err (Status_unimplemented "do_action").
(** The other methods of the protocol. *)
Definition get_schema : result Status unit := Err (Status_unimplemented "get_schema").
Definition get_flight_info : result Status unit := Err (Status_unimplemented "get_flight_info").
Definition handshake : result Status unit := Err (Status_unimplemented "handshake").
Definition list_flights : result Status unit := Err (Status_unimplemented "list_flights").
Definition list_actions : result Status unit := Err (Status_unimplemented "list_actions").
Definition do_exchange : result Status unit := Err (Status_unimplemented "do_exchange").

(** ** The client *)

(** A call of the service: a handler that panics closes the connection, an
    error for the caller like the others. *)
Definition caught {A} (m : MR (Disk File) Status A) : M (Disk File) A := λ d,
  match m d with
  | (Ok a, d') => (Ok a, d')
  | (_, d') => (Err (General "{:?}"), d')
  end.

(** [FlightDataStream::poll_next] on an item of the stream of messages: a message
    is converted with the schema of the stream, an error of the transport is
    an error of the item. *)
Definition flight_stream_next (schema : Schema) (item : result string FlightData) : result string RecordBatch :=
  match item with
  | Ok flight_data_chunk => flight_to_batch flight_data_chunk schema
  | Err e => Err e
  | Panic msg => Panic msg
  end.
(** [FlightDataStream::new] on the messages the service sent. *)
Definition flight_data_stream (stream : list FlightData) (schema : Schema) : BatchStream :=
  (schema, List.map (λ m, flight_stream_next schema (Ok m)) stream).

(** [execute_action], against the service of an executor: the first message is
    the schema, the others are converted one by one. *)
Definition execute_action (work_dir : string) (action : Action) : M (Disk File) BatchStream :=
  let! serialized_action := lift (action_to_proto action) in
  let! buf := lift (map_err (λ _, General "{:?}") (prost_encode serialized_action)) in
  let! stream := caught (do_get work_dir buf) in
  match stream with
  | [] => lift (Err (General "Did not receive schema batch from flight server"))
  | flight_data :: rest =>
      let! schema := lift (map_err ArrowError (schema_of_flight flight_data)) in
      ret (flight_data_stream rest schema)
  end.

(** The result of one partition; the [expect]s panic. *)
Definition read_summary (batch : RecordBatch) : Result (string * PartitionStats) :=
  if bool_decide (rb_num_rows batch ≠ 1%Z) then
    Err (General "execute_partition received wrong number of rows")
  else
    let? path :=
      match rb_columns batch with
      | C_Utf8 (path :: _) :: _ => Ok path
      | [] | C_Utf8 [] :: _ => Panic "index out of bounds"
      | _ => Panic "execute_partition expected column 0 to be a StringArray"
      end in
    let? stats :=
      match rb_columns batch with
      | _ :: C_Struct columns :: _ => from_arrow_struct_array columns
      | _ :: _ :: _ => Panic "execute_partition expected column 1 to be a StructArray"
      | _ => Panic "index out of bounds"
      end in
    Ok (path, stats).

(** [execute_partition]. *)
Definition execute_partition (work_dir job_id : string) (stage_id : Z) (partition_id : list Z)
    (plan : ExecutionPlan) : M (Disk File) (list (string * PartitionStats)) :=
  let action := A_ExecutePartition (mkExecutePartition job_id stage_id partition_id plan []) in
  let! stream := execute_action work_dir action in
  let! batches := lift (lift_df (df_collect stream)) in
  lift (rmapM read_summary batches).

(** [fetch_partition]. *)
Definition fetch_partition (work_dir job_id : string) (stage_id partition_id : Z) : M (Disk File) BatchStream :=
  execute_action work_dir (A_FetchPartition (PartitionId_new job_id stage_id partition_id)).

(** [BallistaClient::try_new], and a fetch with the client. *)
Definition BallistaClient_try_new (network : Network File) (host : string) (port : Z) : Result (string * Disk File) :=
  ok_or (General ("Error connecting to Ballista scheduler or executor at http://" +:+ host +:+ ":" +:+
    pretty port +:+ ": {:?}")) (network !! (host, port)).
Definition fetch_from (network : Network File) (host : string) (port : Z) (job_id : string)
    (stage_id partition_id : Z) : Result BatchStream :=
  let? client := BallistaClient_try_new network host port in
  (fetch_partition client.1 job_id stage_id partition_id client.2).1.
End plane.

(** ** The read of a shuffle partition *)

(** [ShuffleReaderExec::execute]; [fetch] connects to the executor at a host
    and port and calls [fetch_partition]. *)
Definition shuffle_reader_execute (fetch : string → Z → string → Z → Z → Result BatchStream)
    (partition_location : list PartitionLocation) (partition : Z) : DFResult BatchStream :=
  let? l := unwrap "index out of bounds" (partition_location !! Z.to_nat partition) in
  map_err (λ _, DF_Execution "Ballista Error: {:?}")
    (fetch (em_host (pl_executor_meta l)) (em_port (pl_executor_meta l))
       (pid_job_id (pl_partition_id l)) (pid_stage_id (pl_partition_id l)) partition).

Lemma rmapM_fmap_ok {E A B C} (f : B → result E C) (h : A → B) (g : A → C) l :
  (∀ x, f (h x) = Ok (g x)) → rmapM f (h <$> l) = Ok (g <$> l).
Proof. intros Hf. induction l as [|x l IH]; csimpl; [done|]. by rewrite Hf, IH. Qed.

(** ** Actions: lemmas *)

(** An action the messages carry. *)
Definition wf_action `{PhysicalPlanner} `{ExecutionPlanMethods} (a : Action) : Prop :=
  match a with
  | A_ExecutePartition p => in_u 32 (ep_stage_id p) ∧ Forall (in_u 32) (ep_partition_id p) ∧
      built_exec (ep_plan p) ∧ ep_shuffle_locations p = []
  | A_FetchPartition p => wf_partition_id p
  end.

Lemma map_usize_u32 l : Forall (in_u 32) l → List.map as_usize (List.map as_u32 l) = l.
Proof. induction 1 as [|x l Hx _ IH]; [done|]. simpl. by rewrite IH, as_usize_as_u32. Qed.

Lemma action_trip `{PhysicalPlanner} `{ExprBuildersOk} `{ExecutionPlanMethods} a :
  wf_action a → ∃ q, action_to_proto a = Ok q ∧ action_from_proto q = Ok a.
Proof.
  destruct a as [[job st parts plan locs]|[job st part]]; simpl.
  - intros (Hst & Hparts & Hb & ->). destruct (exec_trip plan Hb) as (node & Ep & Ed).
    unfold execute_partition_to_proto. simpl. rewrite Ep. simpl. eexists. split; [done|].
    unfold action_from_proto. simpl. rewrite Ed. simpl.
    by rewrite as_usize_as_u32, map_usize_u32.
  - intros [Hst Hpt]. simpl in *. eexists. split; [done|]. unfold action_from_proto. simpl.
    unfold PartitionId_new. by rewrite !as_usize_as_u32.
Qed.

(** ** Paths: lemmas *)

Lemma ends_with_app w c : c ≠ "" → ends_with_slash (w +:+ c) = ends_with_slash c.
Proof.
  intros Hc. induction w as [|a w IH]; [done|]. simpl.
  destruct (w +:+ c) eqn:E; [by destruct w, c|]. done.
Qed.
Lemma ends_with_slash_free c : slash_free c → ends_with_slash c = false.
Proof.
  unfold slash_free. induction c as [|a c IH]; [done|]. simpl. intros [Ha Hc]%orb_false_iff.
  destruct c; [|by apply IH]. apply bool_decide_eq_false in Ha. by apply bool_decide_eq_false.
Qed.
Lemma starts_with_slash_free c : slash_free c → starts_with "/" c = false.
Proof.
  destruct c as [|a c]; [done|]. unfold slash_free. simpl. intros [Ha _]%orb_false_iff.
  apply bool_decide_eq_false in Ha. rewrite bool_decide_false; [done|]. intros <-. done.
Qed.
Lemma pretty_N_go_ne x s : s ≠ "" → pretty_N_go x s ≠ "".
Proof.
  revert s. induction (N.lt_wf_0 x) as [x _ IH]; intros s Hs.
  destruct (decide (x = 0)%N) as [->|]; [done|].
  rewrite pretty_N_go_step by lia. by apply IH; [apply N.div_lt; lia|].
Qed.
Lemma pretty_Z_ne (z : Z) : pretty z ≠ "".
Proof.
  assert (∀ n : N, pretty n ≠ "") as HN.
  { intros n. unfold pretty, pretty_N. case_decide; [done|]. rewrite pretty_N_go_step by lia.
    by apply pretty_N_go_ne. }
  destruct z as [|p|p]; [done|apply (HN (Npos p))|done].
Qed.

(** The directory a path stands for, with its separator. *)
Definition path_base (w : string) : string :=
  if bool_decide (w = "") || ends_with_slash w then w else w +:+ "/".

Lemma push_first w c : slash_free c → path_push w c = path_base w +:+ c.
Proof.
  intros Hc. unfold path_push, path_base. rewrite starts_with_slash_free by done.
  destruct (_ || _); [done|]. by rewrite string_app_assoc.
Qed.
Lemma push_next w c c' :
  slash_free c → c ≠ "" → slash_free c' → path_push (w +:+ c) c' = (w +:+ c +:+ "/") +:+ c'.
Proof.
  intros Hc Hne Hc'. unfold path_push. rewrite starts_with_slash_free, ends_with_app by done.
  rewrite ends_with_slash_free, bool_decide_false by (done || by destruct w, c).
  simpl. by rewrite <-!string_app_assoc.
Qed.

Lemma push_base w c : slash_free c → path_push (path_base w) c = path_base w +:+ c.
Proof.
  intros Hc. rewrite push_first by done. f_equal. unfold path_base.
  destruct (bool_decide_reflect (w = "")) as [->|]; [done|]. simpl.
  destruct (ends_with_slash w) eqn:E; [by rewrite E, orb_true_r|].
  rewrite ends_with_app by done. by rewrite orb_true_r.
Qed.

(** The components of the file of a partition below the working directory; an
    empty job id leaves none. *)
Definition path_parts (job : string) (st pt : Z) : list string :=
  (if bool_decide (job = "") then [] else [job]) ++ [pretty st; pretty pt; "data.arrow"].

Lemma partition_file_parts w job st pt :
  slash_free job → ∃ tail, partition_file w job st pt = path_base w +:+ tail ∧ split slash tail = path_parts job st pt.
Proof.
  intros Hj. pose proof (pretty_Z_slash_free st). pose proof (pretty_Z_slash_free pt).
  pose proof (pretty_Z_ne st). pose proof (pretty_Z_ne pt).
  unfold partition_file, partition_dir, path_parts. rewrite (push_first w job) by done.
  case_bool_decide as Hne.
  - subst job. rewrite string_app_nil_r, push_base by done. rewrite (push_next _ (pretty st)) by done.
    rewrite (push_next _ (pretty pt)) by done. eexists. rewrite <-!string_app_assoc. split; [reflexivity|].
    by rewrite !split_sep_cons by done.
  - rewrite (push_next _ job) by done. rewrite (push_next _ (pretty st)) by done.
    rewrite (push_next _ (pretty pt)) by done. eexists. rewrite <-!string_app_assoc. split; [reflexivity|].
    by rewrite !split_sep_cons by done.
Qed.

(** Different partitions have different files. *)
Lemma partition_file_inj w job st pt job' st' pt' :
  slash_free job → slash_free job' →
  partition_file w job st pt = partition_file w job' st' pt' → (job, st, pt) = (job', st', pt').
Proof.
  intros Hj Hj' E. destruct (partition_file_parts w job st pt Hj) as (tl & Et & Es).
  destruct (partition_file_parts w job' st' pt' Hj') as (tl' & Et' & Es').
  rewrite Et, Et' in E. apply string_app_inj_l in E as ->. rewrite Es' in Es. unfold path_parts in Es.
  assert (pretty st = pretty st' ∧ pretty pt = pretty pt' ∧ job = job') as (E1 & E2 & ->).
  { repeat case_bool_decide; simplify_eq/=; by split_and!. }
  apply (inj pretty) in E1. apply (inj pretty) in E2. by subst.
Qed.

(** ** The service: lemmas *)

Section service.
Context `{PhysicalPlanner} `{ExprBuildersOk} `{ExecutionPlanMethods} `{MessageOk PAction} `{ErrorText}.
Context `{PlanText} `{ArraysOk} {FlightData File : Type} `{DataPlaneOk FlightData File}.
Implicit Types (d : Disk File) (b : RecordBatch).

(** Directories and files can be created and written. *)
Record disk_works : Prop := {
  dirs_created path : fs_create_dir_all path = Ok ();
  files_created path : fs_create path = Ok ();
  files_started path schema : ipc_start path schema = Ok ();
  files_finished path : ipc_finish path = Ok ();
}.

(** Batches that a file of the schema and the network carry. *)
Definition plain_batches (schema : Schema) (bs : list RecordBatch) : Prop :=
  Forall (λ b, rb_schema b = schema ∧ dictionary_free b) bs.

Definition stats_of (bs : list RecordBatch) : PartitionStats := foldl count_batch PartitionStats_default bs.

Lemma write_items_ok path schema bs written stats d :
  disk_works → plain_batches schema bs →
  write_items path schema (Ok <$> bs) written stats d =
    (Ok (foldl count_batch stats bs), <[path := ipc_file schema (written ++ bs) true]> d).
Proof.
  intros Hdisk Hbs. revert written stats d.
  induction Hbs as [|b bs [Hb _] _ IH]; intros written stats d; csimpl.
  - unfold bindM. simpl. rewrite (files_finished Hdisk). by rewrite app_nil_r.
  - unfold bindM. simpl. rewrite ipc_write_ok by done. simpl. rewrite IH.
    by rewrite insert_insert_eq, <-app_assoc.
Qed.

Lemma write_stream_ok path schema bs d :
  disk_works → plain_batches schema bs →
  write_stream_to_disk (schema, Ok <$> bs) path d =
    (Ok (stats_of bs), <[path := ipc_file schema bs true]> d).
Proof.
  intros Hdisk Hbs. unfold write_stream_to_disk. rewrite bindM_lift, (files_created Hdisk). cbn [map_err].
  unfold bindM. cbn [write_file lift fst snd]. rewrite (files_started Hdisk). cbn [map_err].
  rewrite write_items_ok by done. by rewrite !insert_insert_eq.
Qed.

(** The statistics are sums of machine integers. *)
Lemma stats_of_eq bs :
  let total f := foldr Z.add 0%Z (List.map f bs) in
  stats_of bs = mkPartitionStats (as_usize (total rb_num_rows)) (as_usize (Z.of_nat (length bs)))
    (as_usize (total (λ b, foldr Z.add 0%Z (List.map array_memory_size (rb_columns b)))))
    (as_usize (total (λ b, foldr Z.add 0%Z (List.map array_null_count (rb_columns b))))).
Proof.
  simpl. unfold stats_of, PartitionStats_default.
  assert (∀ a n c e, foldl count_batch (mkPartitionStats (as_usize a) (as_usize n) (as_usize c) (as_usize e)) bs =
    mkPartitionStats (as_usize (a + foldr Z.add 0%Z (List.map rb_num_rows bs))) (as_usize (n + Z.of_nat (length bs)))
      (as_usize (c + foldr Z.add 0%Z (List.map (λ b, foldr Z.add 0%Z (List.map array_memory_size (rb_columns b))) bs)))
      (as_usize (e + foldr Z.add 0%Z (List.map (λ b, foldr Z.add 0%Z (List.map array_null_count (rb_columns b))) bs)))) as Hgo.
  { induction bs as [|b bs IH]; intros a n c e; [by rewrite !Z.add_0_r|]. cbn [foldl]. unfold count_batch at 2.
    cbn [ps_num_rows ps_num_batches ps_num_bytes ps_null_count]. unfold wrap_u.
    rewrite !Zplus_mod_idemp_l. etransitivity; [apply IH|]. cbn [List.map foldr length]. unfold wrap_u.
    f_equal; f_equal; lia. }
  exact (Hgo 0 0 0 0)%Z.
Qed.

(** The disk after the partitions [parts] were written. *)
Definition disk_after (file : Z → string) (content : Z → File) : Disk File → list Z → Disk File :=
  foldl (λ d part, <[file part := content part]> d).

Lemma disk_after_lookup file content d parts part :
  (∀ p q, file p = file q → p = q) → part ∈ parts →
  disk_after file content d parts !! file part = Some (content part).
Proof.
  intros Hinj. revert d. induction parts as [|q parts IH] using rev_ind; intros d Hin; [by apply not_elem_of_nil in Hin|].
  unfold disk_after in *. rewrite foldl_snoc. destruct (decide (part = q)) as [->|Hne]; [by rewrite lookup_insert_eq|].
  rewrite lookup_insert_ne by (intros ?%Hinj; congruence). apply IH.
  by apply elem_of_app in Hin as [?|?%list_elem_of_singleton].
Qed.

Lemma disk_after_other file content d parts path :
  (∀ part, part ∈ parts → path ≠ file part) → disk_after file content d parts !! path = d !! path.
Proof.
  revert d. induction parts as [|q parts IH] using rev_ind; intros d Hne; [done|].
  unfold disk_after in *. rewrite foldl_snoc, lookup_insert_ne.
  - apply IH. intros part Hp. apply Hne. apply elem_of_app. by left.
  - intros E. apply (Hne q); [|done]. apply elem_of_app. right. by left.
Qed.

Section run.
Context (work_dir job : string) (stage : Z) (plan : ExecutionPlan) (output : Z → Schema * list RecordBatch).
Hypothesis Hdisk : disk_works.

Definition file_of (part : Z) : string := partition_file work_dir job stage part.
Definition content_of (part : Z) : File := ipc_file (output part).1 (output part).2 true.
Definition summary_of (part : Z) : string * PartitionStats := (file_of part, stats_of (output part).2).

(** The plan produces the output of the partition. *)
Definition produces (part : Z) : Prop :=
  plan_execute plan part = Ok ((output part).1, Ok <$> (output part).2) ∧
  plain_batches (output part).1 (output part).2.

Lemma run_partition_ok parts locs part d :
  produces part →
  run_partition work_dir (mkExecutePartition job stage parts plan locs) part d =
    (Ok (create_flight_iter (summary_batch (file_of part) (stats_of (output part).2))),
     <[file_of part := content_of part]> d).
Proof.
  intros [Hp Hb]. unfold run_partition. simpl. rewrite bindM_lift, (dirs_created Hdisk). cbn [map_err].
  rewrite bindM_lift, Hp. cbn [map_err]. unfold bindM, map_errM.
  rewrite write_stream_ok by auto. done.
Qed.

Lemma run_partitions_ok all locs parts d :
  Forall produces parts →
  run_partitions work_dir (mkExecutePartition job stage all plan locs) parts d =
    ((λ part, Ok (create_flight_iter (summary_batch (file_of part) (stats_of (output part).2)))) <$> parts,
     disk_after file_of content_of d parts).
Proof.
  intros Hp. revert d. induction Hp as [|part parts Hpart _ IH]; intros d; [done|].
  cbn [run_partitions]. rewrite run_partition_ok by done. rewrite IH. done.
Qed.
End run.

(** *** Requests *)

(** A request whose message survives the codec. *)
Definition message_ok (a : Action) : Prop := ∀ q, action_to_proto a = Ok q → valid_message q.

(** An action that reaches the service as it was sent. *)
Definition sendable (a : Action) : Prop :=
  wf_action a ∧ message_ok a.

Lemma sent_action a :
  sendable a → ∃ q buf, action_to_proto a = Ok q ∧ prost_encode q = Ok buf ∧ decode_action buf = Ok a.
Proof.
  intros [Hwf Hv]. destruct (action_trip a Hwf) as (q & Eq & Ed).
  destruct (message_roundtrip q (Hv q Eq)) as (buf & Eb & Edec & _).
  exists q, buf. split_and!; [done..|]. unfold decode_action. rewrite Edec. done.
Qed.

Lemma execute_action_ok work_dir a d schema msgs d' :
  sendable a →
  match a with
  | A_ExecutePartition p => do_execute work_dir p
  | A_FetchPartition p => do_fetch work_dir p
  end d = (Ok (flight_of_schema schema :: msgs), d') →
  execute_action work_dir a d = (Ok (schema, List.map (λ m, flight_to_batch m schema) msgs), d').
Proof.
  intros Hs E. destruct (sent_action a Hs) as (q & buf & Eq & Eb & Edec).
  unfold execute_action. rewrite bindM_lift, Eq. rewrite bindM_lift, Eb. cbn [map_err].
  unfold bindM at 1, caught, do_get. rewrite bindM_lift, Edec. cbn [map_err]. rewrite E.
  rewrite bindM_lift, flight_schema_ok. done.
Qed.

(** The messages of plain batches are converted back. *)
Lemma stream_plain schema bs rest :
  plain_batches schema bs → (∀ b, hd_error rest ≠ Some (Ok b)) →
  List.map (λ m, flight_to_batch m schema) (stream_batches ((Ok <$> bs) ++ rest)) = Ok <$> bs.
Proof.
  intros Hbs Hrest. induction Hbs as [|b bs [Hb Hd] _ IH]; csimpl.
  - destruct rest as [|[] rest]; try done. by destruct (Hrest a).
  - destruct (flight_batch_ok b Hd) as [Hdict Hback]. unfold create_flight_iter. rewrite Hdict. simpl.
    rewrite <-Hb at 1. rewrite Hback. by rewrite IH.
Qed.

(** Reading a partition whose file is readable up to [rest]. *)
Lemma fetch_ok work_dir job stage part d file schema bs rest :
  sendable (A_FetchPartition (PartitionId_new job stage part)) →
  d !! partition_file work_dir job stage part = Some file →
  ipc_read file = Ok (schema, (Ok <$> bs) ++ rest) → (∀ b, hd_error rest ≠ Some (Ok b)) →
  plain_batches schema bs →
  fetch_partition work_dir job stage part d = (Ok (schema, Ok <$> bs), d).
Proof.
  intros Hs Hf Hr Hrest Hbs. unfold fetch_partition.
  rewrite (execute_action_ok work_dir _ d schema (stream_batches ((Ok <$> bs) ++ rest)) d Hs).
  - by rewrite stream_plain.
  - unfold do_fetch. cbn [pid_job_id pid_stage_id pid_partition_id PartitionId_new]. rewrite Hf. simpl. rewrite Hr. done.
Qed.

(** The summaries of the executed partitions are read back. *)
Lemma read_summary_batch path stats : read_summary (summary_batch path stats) = Ok (path, stats).
Proof. by destruct stats. Qed.

Lemma execute_partition_ok work_dir job stage parts plan output d :
  disk_works → is_ok (log_plan plan) = true → (∀ path stats, dictionary_free (summary_batch path stats)) →
  sendable (A_ExecutePartition (mkExecutePartition job stage parts plan [])) →
  Forall (produces plan output) parts →
  execute_partition work_dir job stage parts plan d =
    (Ok (summary_of work_dir job stage output <$> parts),
     disk_after (file_of work_dir job stage) (content_of output) d parts).
Proof.
  intros Hdisk Hlog Hdict Hs Hall. set (d' := disk_after _ _ _ _).
  set (batch part := summary_batch (file_of work_dir job stage part) (stats_of (output part).2)).
  assert (do_execute work_dir (mkExecutePartition job stage parts plan []) d =
    (Ok (flight_of_schema summary_schema :: ((λ part, (flight_of_batch (batch part)).2) <$> parts)), d')) as E.
  { unfold do_execute. cbn [ep_partition_id ep_plan]. rewrite bindM_lift.
    destruct (log_plan plan); [|discriminate Hlog..]. rewrite (run_partitions_ok _ _ _ _ output) by done.
    rewrite (rmapM_fmap_ok join_result _ (λ part, create_flight_iter (batch part))) by done.
    simpl. do 3 f_equal. clear -Hdict.
    induction parts as [|part parts IH]; [done|]. csimpl. rewrite IH. unfold create_flight_iter.
    by destruct (flight_batch_ok (batch part) (Hdict _ _)) as [-> _]. }
  unfold execute_partition. rewrite (bindM_ok _ _ _ _ _ (execute_action_ok work_dir _ d _ _ _ Hs E)).
  rewrite bindM_lift.
  assert (List.map (λ m, flight_to_batch m summary_schema) ((λ part, (flight_of_batch (batch part)).2) <$> parts) =
    (λ part, Ok (batch part)) <$> parts) as ->.
  { clear -Hdict. induction parts as [|part parts IH]; [done|]. csimpl. rewrite IH.
    destruct (flight_batch_ok (batch part) (Hdict _ _)) as [_ Hb].
    change (rb_schema (batch part)) with summary_schema in Hb. by rewrite Hb. }
  change ((λ part, Ok (E := string) (batch part)) <$> parts) with ((Ok (E := string) ∘ batch) <$> parts).
  rewrite list_fmap_compose, df_collect_ok. unfold lift_df. cbn [map_err]. unfold lift. f_equal.
  apply rmapM_fmap_ok. intros part. apply read_summary_batch.
Qed.
(** *** What an execution leaves on the disk *)

(** A computation that changes at most the file at [path]. *)
Definition touches {E A} (path : string) (m : MR (Disk File) E A) : Prop :=
  ∀ d p, p ≠ path → (m d).2 !! p = d !! p.

Lemma touches_lift {E A} path (r : result E A) : touches path (lift r).
Proof. done. Qed.
Lemma touches_bind {E A B} path (m : MR (Disk File) E A) (k : A → MR (Disk File) E B) :
  touches path m → (∀ a, touches path (k a)) → touches path (let! a := m in k a).
Proof.
  intros Hm Hk d p Hp. specialize (Hm d p Hp). unfold bindM.
  destruct (m d) as [[a|e|msg] d1]; simpl in *; [|done..]. by rewrite Hk.
Qed.
Lemma touches_map_errM {E F A} path (f : E → F) (m : MR (Disk File) E A) :
  touches path m → touches path (map_errM f m).
Proof. intros Hm d p Hp. specialize (Hm d p Hp). unfold map_errM. by destruct (m d). Qed.
Lemma touches_write path content : touches path (write_file path content).
Proof. intros d p Hp. simpl. by rewrite lookup_insert_ne. Qed.
Ltac touch := repeat first [done | apply touches_write | apply touches_map_errM | apply touches_bind; [|intros ?]].

Lemma touches_items path schema items written stats : touches path (write_items path schema items written stats).
Proof. revert written stats. induction items as [|item items IH]; intros written stats; cbn [write_items]; by touch. Qed.
Lemma touches_stream path stream : touches path (write_stream_to_disk stream path).
Proof. unfold write_stream_to_disk. touch. apply touches_items. Qed.
Lemma touches_run work_dir p part :
  touches (partition_file work_dir (ep_job_id p) (ep_stage_id p) part) (run_partition work_dir p part).
Proof.
  unfold run_partition. do 2 (apply touches_bind; [done|intros ?]). apply touches_bind; [|done].
  exact (touches_map_errM _ _ _ (touches_stream _ _)).
Qed.

(** A file that was written without an error holds the whole stream. *)
Lemma write_items_inv path schema items written stats d r d' :
  write_items path schema items written stats d = (Ok r, d') →
  ∃ bs, items = Ok <$> bs ∧ d' = <[path := ipc_file schema (written ++ bs) true]> d.
Proof.
  revert written stats d. induction items as [|item items IH]; intros written stats d E; cbn [write_items] in E.
  - apply bindM_lift_inv in E as (? & _ & E). injection E as _ <-. exists []. by rewrite app_nil_r.
  - apply bindM_lift_inv in E as (b & Hb%map_err_ok & E). apply bindM_lift_inv in E as (? & _ & E).
    apply IH in E as (bs & -> & ->). exists (b :: bs). rewrite Hb. split; [done|].
    by rewrite insert_insert_eq, <-app_assoc.
Qed.
Lemma write_stream_inv path stream d r d' :
  write_stream_to_disk stream path d = (Ok r, d') →
  ∃ bs, stream = (stream.1, Ok <$> bs) ∧ d' = <[path := ipc_file stream.1 bs true]> d.
Proof.
  unfold write_stream_to_disk. intros E. apply bindM_lift_inv in E as (? & _ & E).
  apply bindM_inv in E as (? & d1 & [= _ <-] & E). apply bindM_lift_inv in E as (? & _ & E).
  apply bindM_inv in E as (? & d2 & [= _ <-] & E). apply write_items_inv in E as (bs & Hs & ->).
  exists bs. split; [by destruct stream; simpl in *; subst|]. by rewrite !insert_insert_eq.
Qed.
Lemma run_partition_inv work_dir p part d r d' :
  run_partition work_dir p part d = (Ok r, d') →
  ∃ schema bs, plan_execute (ep_plan p) part = Ok (schema, Ok <$> bs) ∧
    d' = <[partition_file work_dir (ep_job_id p) (ep_stage_id p) part := ipc_file schema bs true]> d.
Proof.
  unfold run_partition. intros E. apply bindM_lift_inv in E as (? & _ & E).
  apply bindM_lift_inv in E as ([schema items] & Hp%map_err_ok & E). apply bindM_inv in E as (st & d1 & E & [= _ <-]).
  unfold map_errM in E. destruct (write_stream_to_disk _ _ d) as [r' d2] eqn:Ew. injection E as Er%map_err_ok ->. subst r'.
  apply write_stream_inv in Ew as (bs & Hs & ->). injection Hs as ->. by exists schema, bs.
Qed.

(** The plan a service decodes when it is sent [plan]. *)
Definition resent (plan : ExecutionPlan) : Result ExecutionPlan :=
  let? node := exec_to_proto plan in proto_to_exec node.

(** The request for one partition: either it ends before the service runs
    anything, or the service runs the partition of the plan it decodes. *)
Lemma execute_partition_runs work_dir job st part plan d r d' :
  message_ok (A_ExecutePartition (mkExecutePartition job st [part] plan [])) → in_u 32 st → in_u 32 part →
  execute_partition work_dir job st [part] plan d = (r, d') →
  (is_ok r = false ∧ d' = d) ∨
  ∃ plan' r', resent plan = Ok plan' ∧
    run_partition work_dir (mkExecutePartition job st [part] plan' []) part d = (r', d') ∧
    (is_ok r = true → is_ok r' = true).
Proof.
  intros Hvalid Hst Hpt E. unfold execute_partition, execute_action in E.
  unfold bindM at 1 in E. rewrite bindM_lift in E.
  destruct (action_to_proto _) as [q| |] eqn:Eq; [|injection E as <- <-; by left..].
  assert (valid_message q) as (buf & Eb & Ed & _)%message_roundtrip.
  { by apply Hvalid. }
  rewrite bindM_lift, Eb in E. cbn [map_err] in E.
  assert (decode_action buf = let? plan' := resent plan in
    Ok (A_ExecutePartition (mkExecutePartition job st [part] plan' []))) as Edec.
  { unfold decode_action. rewrite Ed. cbn [map_err]. unfold action_to_proto, execute_partition_to_proto in Eq.
    cbn [ep_plan ep_job_id ep_stage_id ep_partition_id] in Eq. unfold resent.
    destruct (exec_to_proto plan) as [node| |]; [|done..]. injection Eq as <-. unfold action_from_proto.
    cbn [pa_action_type pep_plan ok_or]. destruct (proto_to_exec node); [|done..].
    unfold ExecutePartition_new. cbn [pep_job_id pep_stage_id pep_partition_id List.map].
    by rewrite !as_usize_as_u32 by done. }
  unfold bindM at 1, caught, do_get in E. rewrite bindM_lift, Edec in E.
  destruct (resent plan) as [plan'| |]; [|injection E as <- <-; by left..]. cbn [map_err] in E.
  unfold do_execute in E. rewrite bindM_lift in E. cbn [ep_plan ep_partition_id] in E.
  destruct (log_plan plan') as [text| |]; [|injection E as <- <-; by left..]. cbn [run_partitions] in E.
  destruct (run_partition work_dir _ part d) as [r' d1] eqn:Er. right. exists plan', r'.
  destruct r' as [msgs|e|m]; cbn [rmapM join_result] in E;
    [|injection E as <- <-; by split_and!..].
  assert (d' = d1) as ->; [|by split_and!].
  cbn [List.concat] in E. rewrite bindM_lift in E.
  destruct (map_err ArrowError _); [|by injection E..].
  unfold ret in E. rewrite bindM_lift in E. destruct (lift_df _); by injection E.
Qed.

Lemma execute_partition_touches work_dir job st part plan :
  message_ok (A_ExecutePartition (mkExecutePartition job st [part] plan [])) → in_u 32 st → in_u 32 part →
  touches (partition_file work_dir job st part) (execute_partition work_dir job st [part] plan).
Proof.
  intros Hvalid Hst Hpt d p Hp. destruct (execute_partition _ _ _ _ _ d) as [r d'] eqn:E.
  apply execute_partition_runs in E as [[_ ->]|(plan' & r' & _ & E & _)]; [done| |done..].
  pose proof (touches_run work_dir (mkExecutePartition job st [part] plan' []) part d p Hp) as Ht.
  by rewrite E in Ht.
Qed.

Lemma execute_partition_inv work_dir job st part plan d r d' :
  message_ok (A_ExecutePartition (mkExecutePartition job st [part] plan [])) → in_u 32 st → in_u 32 part →
  execute_partition work_dir job st [part] plan d = (Ok r, d') →
  ∃ plan' schema bs, resent plan = Ok plan' ∧ plan_execute plan' part = Ok (schema, Ok <$> bs) ∧
    d' = <[partition_file work_dir job st part := ipc_file schema bs true]> d.
Proof.
  intros Hvalid Hst Hpt E. apply execute_partition_runs in E as [[? _]|(plan' & r' & Hs & E & Hr)]; [done| |done..].
  destruct r' as [msgs| |]; [|by discriminate (Hr eq_refl)..].
  apply run_partition_inv in E as (schema & bs & Hp & ->). by exists plan', schema, bs.
Qed.
End service.

(** ** Properties *)

(** What is sent to an executor arrives: an action whose numbers fit the
    messages and whose plan survives encoding is decoded by the service as the
    action that was sent. *)
Theorem action_roundtrip `{PhysicalPlanner} `{ExprBuildersOk} `{ExecutionPlanMethods} `{MessageOk PAction} a :
  wf_action a → (∀ q, action_to_proto a = Ok q → valid_message q) →
  ∃ q buf, action_to_proto a = Ok q ∧ prost_encode q = Ok buf ∧ decode_action buf = Ok a.
Proof. intros Hw Hv. by apply sent_action. Qed.

(** C13 — Executing a stage's partitions and fetching them: every partition is
    answered with the path of its file and the statistics of the batches the
    plan produced; afterwards a fetch of any of these partitions returns
    exactly these batches with their schema, and no other file of the executor
    has changed. *)
Theorem execute_then_fetch `{PhysicalPlanner} `{ExprBuildersOk} `{ExecutionPlanMethods} `{MessageOk PAction}
    `{ErrorText} `{PlanText} `{ArraysOk} {FlightData File} `{DataPlaneOk FlightData File}
    work_dir job stage parts plan (output : Z → Schema * list RecordBatch) (d : Disk File) :
  disk_works → is_ok (log_plan plan) = true → (∀ path stats, dictionary_free (summary_batch path stats)) →
  slash_free job →
  sendable (A_ExecutePartition (mkExecutePartition job stage parts plan [])) →
  (∀ part, part ∈ parts → sendable (A_FetchPartition (PartitionId_new job stage part))) →
  (∀ part, part ∈ parts → produces plan output part) →
  ∃ d', execute_partition work_dir job stage parts plan d =
      (Ok (summary_of work_dir job stage output <$> parts), d') ∧
    (∀ part, part ∈ parts →
      fetch_partition work_dir job stage part d' = (Ok ((output part).1, Ok <$> (output part).2), d')) ∧
    (∀ path, (∀ part, part ∈ parts → path ≠ partition_file work_dir job stage part) → d' !! path = d !! path).
Proof.
  intros Hdisk Hlog Hdict Hjob Hs Hf Hp.
  exists (disk_after (file_of work_dir job stage) (content_of output) d parts). split_and!.
  - apply execute_partition_ok; try done. by apply Forall_forall.
  - intros part Hin. destruct (Hp part Hin) as [_ Hb].
    eapply (fetch_ok work_dir job stage part _ (content_of output part) _ (output part).2 []); [by apply Hf| |..].
    + apply (disk_after_lookup (file_of work_dir job stage) (content_of output)); [|done].
      intros p q E. apply partition_file_inj in E; [|done..]. by injection E.
    + rewrite app_nil_r. apply ipc_read_ok.
    + done.
    + done.
  - intros path Hpath. by apply disk_after_other.
Qed.

(** C36 — The statistics of a partition that is written are the sums over its
    batches modulo 2^64, and so exact as long as the sums fit. *)
Theorem partition_stats_exact `{ErrorText} `{ArraysOk} {FlightData File} `{DataPlaneOk FlightData File}
    path schema bs (d : Disk File) :
  disk_works → plain_batches schema bs →
  let total f := foldr Z.add 0%Z (List.map f bs) in
  let bytes b := foldr Z.add 0%Z (List.map array_memory_size (rb_columns b)) in
  let nulls b := foldr Z.add 0%Z (List.map array_null_count (rb_columns b)) in
  ∃ stats, write_stream_to_disk (schema, Ok <$> bs) path d = (Ok stats, <[path := ipc_file schema bs true]> d) ∧
    stats = mkPartitionStats (as_usize (total rb_num_rows)) (as_usize (Z.of_nat (length bs)))
      (as_usize (total bytes)) (as_usize (total nulls)) ∧
    (Forall (in_u 64) [total rb_num_rows; Z.of_nat (length bs); total bytes; total nulls] →
     stats = mkPartitionStats (total rb_num_rows) (Z.of_nat (length bs)) (total bytes) (total nulls)).
Proof.
  intros Hd Hb total bytes nulls. eexists. split; [by apply write_stream_ok|]. rewrite stats_of_eq. split; [done|].
  intros Hin. rewrite !Forall_cons in Hin. destruct Hin as (H1' & H2' & H3' & H4' & _). by rewrite !wrap_u_id.
Qed.

(** C38 — A plan with an operator that has no text of its own and whose debug
    text has less than 120 bytes cannot be executed when the log records the
    execution: the service crashes when it formats the plan, before any
    partition is run, and the caller is told of an error. *)
Theorem unformatted_plan_fails `{PhysicalPlanner} `{ExprBuildersOk} `{ExecutionPlanMethods} `{MessageOk PAction}
    `{ErrorText} `{PlanText} `{ArraysOk} {FlightData File} `{DataPlaneOk FlightData File}
    work_dir job stage parts plan (d : Disk File) depth q :
  info_enabled = true → sendable (A_ExecutePartition (mkExecutePartition job stage parts plan [])) →
  (depth, q) ∈ plan_nodes 0 plan → described (plan_op q) = false → (String.length (debug_plan q) < 120)%nat →
  execute_partition work_dir job stage parts plan d = (Err (General "{:?}"), d).
Proof.
  intros Hinfo Hs Hq Hop Hlen. destruct (sent_action _ Hs) as (m & buf & Em & Eb & Ed).
  unfold execute_partition, execute_action. unfold bindM at 1. rewrite bindM_lift, Em. rewrite bindM_lift, Eb.
  cbn [map_err]. unfold bindM at 1, caught, do_get. rewrite bindM_lift, Ed. cbn [map_err].
  unfold do_execute. rewrite bindM_lift. cbn [ep_plan]. unfold log_plan. rewrite Hinfo.
  assert (is_ok (format_plan plan 0) = false) as Hf by (by eapply short_text_fails).
  by destruct (format_plan plan 0).
Qed.

(** C37 — A partition file that cannot be read to its end: the service logs the
    error and ends the stream, so the client receives the batches before the
    error and no error. *)
Theorem fetch_truncates `{PhysicalPlanner} `{ExprBuildersOk} `{ExecutionPlanMethods} `{MessageOk PAction}
    `{ErrorText} `{PlanText} `{ArraysOk} {FlightData File} `{DataPlaneOk FlightData File}
    work_dir job stage part (d : Disk File) file schema bs e rest :
  sendable (A_FetchPartition (PartitionId_new job stage part)) →
  d !! partition_file work_dir job stage part = Some file →
  ipc_read file = Ok (schema, (Ok <$> bs) ++ Err e :: rest) → plain_batches schema bs →
  fetch_partition work_dir job stage part d = (Ok (schema, Ok <$> bs), d).
Proof. intros Hs Hf Hr Hb. by eapply fetch_ok. Qed.

(** ** Witnesses

    Files and messages that hold what they stand for, and a plan whose every
    partition produces one batch of as many rows as its number. *)
Module SamplePlane.
#[export] Existing Instance sample_physical_planner.
#[export] Existing Instance direct_builders.
#[export] Existing Instance direct_builders_ok.
#[export] Existing Instance sample_exec_methods.

Definition plan : ExecutionPlan := Exec (X_Empty true (mkSchema [])) [].
Definition batch (part : Z) : RecordBatch := mkRecordBatch (mkSchema []) [C_Other part] part.
Definition output (part : Z) : Schema * list RecordBatch := (mkSchema [], [batch part]).

#[export] Instance texts : ErrorText := {|
  datafusion_debug _ := "error"; datafusion_display _ := "error"; status_display _ := "status" |}.

(** A codec for the actions of the job: partitions 0 and 1 of stage 3. *)
Definition execute_action_message : PAction :=
  mkPAction (Some (AT_ExecutePartition (mkPExecutePartition "abc" 3 [0; 1]%Z
    (Some (exec_node (PPT_Empty true (Some (mkPSchema []))))) []))) [].
Definition fetch_message (part : Z) : PAction :=
  mkPAction (Some (AT_FetchPartition (mkPPartitionId "abc" 3 part))) [].
#[export] Instance action_message : Message PAction := {|
  prost_encode a := match pa_action_type a with
    | Some (AT_FetchPartition p) => Ok [if (ppi_partition_id p =? 0)%Z then Byte.x00 else Byte.x01]
    | _ => Ok [Byte.x02] end;
  prost_decode b := match b with
    | [Byte.x00] => Ok (fetch_message 0) | [Byte.x01] => Ok (fetch_message 1)
    | _ => Ok execute_action_message end;
  message_default := mkPAction None [];
  valid_message a := a = execute_action_message ∨ a = fetch_message 0 ∨ a = fetch_message 1;
|}.
#[export] Instance action_message_ok : MessageOk PAction.
Proof. intros q [-> |[-> | ->]]; eexists; split_and!; done. Qed.

#[export] Existing Instance SampleBatch.arrays.
#[export] Existing Instance SampleBatch.arrays_ok.
#[export] Instance plan_text : PlanText := {|
  debug_plan _ := "EmptyExec { produce_one_row: true, schema: Schema { fields: [], metadata: {} } }";
  display_expr _ := "expr"; display_operator _ := "op" |}.

Definition plane (info : bool) : DataPlane (Schema + RecordBatch) (BatchStream) := {|
  info_enabled := info;
  plan_execute _ part := Ok (mkSchema [], [Ok (batch part)]);
  ipc_start _ _ := Ok ();
  ipc_write _ _ := Ok ();
  ipc_finish _ := Ok ();
  ipc_file schema bs finished := (schema, (Ok <$> bs) ++ if finished then [] else [Err "end of file"]);
  ipc_read f := Ok f;
  flight_of_schema schema := inl schema;
  flight_of_batch b := ([], inr b);
  schema_of_flight m := match m with inl schema => Ok schema | inr _ => Err "schema" end;
  flight_to_batch m _ := match m with inr b => Ok b | inl _ => Err "batch" end;
  fs_create_dir_all _ := Ok ();
  fs_create _ := Ok ();
  empty_file := (mkSchema [], [Err "end of file"]);
|}%Z.
Definition plane_ok (info : bool) : @DataPlaneOk (Schema + RecordBatch) BatchStream (plane info).
Proof.
  refine {| dictionary_free _ := True |}; try done. intros schema bs. simpl. by rewrite app_nil_r.
Defined.
(** The log does not record [info!]. *)
#[export] Instance quiet_plane : DataPlane (Schema + RecordBatch) BatchStream := plane false.
#[export] Instance quiet_plane_ok : DataPlaneOk (Schema + RecordBatch) BatchStream := plane_ok false.

Lemma sendable_execute : sendable (A_ExecutePartition (mkExecutePartition "abc" 3 [0; 1]%Z plan [])).
Proof.
  split.
  - split; [by split|]. split; [repeat constructor; done|]. split; [split; [constructor|reflexivity]|done].
  - intros q Hq. left. vm_compute in Hq. by injection Hq as <-.
Qed.
Lemma sendable_fetch part :
  part ∈ [0; 1]%Z → sendable (A_FetchPartition (PartitionId_new "abc" 3 part)).
Proof.
  intros Hp. assert (part = 0 ∨ part = 1)%Z as [-> | ->] by set_solver;
    (split; [by split|]); intros q [= <-]; by right; auto.
Qed.
End SamplePlane.
Import SamplePlane.

Lemma action_roundtrip_witness :
  ∃ q buf, action_to_proto (A_FetchPartition (mkPartitionId "abc" 3 1)) = Ok q ∧
    prost_encode q = Ok buf ∧ decode_action buf = Ok (A_FetchPartition (mkPartitionId "abc" 3 1)).
Proof.
  apply (action_roundtrip (A_FetchPartition (mkPartitionId "abc" 3 1))).
  - by split.
  - intros q [= <-]. right. by right.
Defined.

Lemma execute_then_fetch_witness :
  ∃ d' : Disk BatchStream, execute_partition "/tmp/work" "abc" 3 [0; 1]%Z plan ∅ =
      (Ok [("/tmp/work/abc/3/0/data.arrow", mkPartitionStats 0 1 8 0);
           ("/tmp/work/abc/3/1/data.arrow", mkPartitionStats 1 1 8 0)], d') ∧
    fetch_partition "/tmp/work" "abc" 3 1 d' = (Ok (mkSchema [], [Ok (batch 1)]), d').
Proof.
  destruct (execute_then_fetch "/tmp/work" "abc" 3 [0; 1]%Z plan output (∅ : Disk BatchStream))
    as (d' & E & Hf & _); try done.
  - apply sendable_execute.
  - apply sendable_fetch.
  - intros part _. split; [done|]. repeat constructor.
  - exists d'. split; [exact E|]. apply (Hf 1%Z). right. left.
Defined.

(** A file whose writer did not finish. *)
Lemma fetch_truncates_witness :
  let file : BatchStream := ipc_file (mkSchema []) [batch 1] false in
  let d : Disk BatchStream := {[partition_file "/tmp/work" "abc" 3 1 := file]} in
  fetch_partition "/tmp/work" "abc" 3 1 d = (Ok (mkSchema [], [Ok (batch 1)]), d).
Proof.
  intros file d.
  apply (fetch_truncates "/tmp/work" "abc" 3 1 d file (mkSchema []) [batch 1] "end of file" []).
  - apply sendable_fetch. right. left.
  - reflexivity.
  - reflexivity.
  - repeat constructor.
Defined.

Lemma partition_stats_exact_witness :
  ∃ stats, write_stream_to_disk (mkSchema [], [Ok (batch 3); Ok (batch 4)]) "/tmp/f" (∅ : Disk BatchStream) =
    (Ok stats, <["/tmp/f" := ipc_file (mkSchema []) [batch 3; batch 4] true]> ∅) ∧ stats = mkPartitionStats 7 2 16 0.
Proof.
  destruct (partition_stats_exact "/tmp/f" (mkSchema []) [batch 3; batch 4] (∅ : Disk BatchStream))
    as (stats & E & _ & Hx); [done|repeat constructor|].
  exists stats. split; [exact E|]. apply Hx. repeat constructor; done.
Defined.

(** A query without a table: its plan has an empty relation. *)
Lemma unformatted_plan_fails_witness :
  execute_partition (H6 := plane true) "/tmp/work" "abc" 3 [0; 1]%Z plan (∅ : Disk BatchStream) =
    (Err (General "{:?}"), ∅).
Proof.
  apply (unformatted_plan_fails (H10 := plane_ok true) "/tmp/work" "abc" 3 [0; 1]%Z plan ∅ 0 plan).
  - reflexivity.
  - apply sendable_execute.
  - left.
  - reflexivity.
  - vm_compute. lia.
Defined.

(** The second stage's first location is asked for partition 1. *)
