(* ===== verification/Execution.v ===== *)
(** * Running a plan

    [ExecutionPlan::execute] of a whole plan: Ballista's own operators run as in
    src/rust/core/src/execution_plans/ and src/rust/executor/src/collect.rs.
    DataFusion's operators give a result that depends on what their children
    produced in this run and on a choice (the order in which batches of merged
    or hashed inputs arrive, for one), so that executing a partition of a plan
    has a set of results ([plan_runs]).  A shuffle reader fetches from other
    executors, so a plan runs in a network; in one process ([local_runs]) there
    is nothing to fetch from.

    The theorem: a stage whose shuffles are resolved to locations that deliver
    an output of the stages it reads produces only what the plan it stands for
    can produce in one process. *)

From S2P Require Import Prelude Proto Arrow Scalar Expr LogicalPlan SchedTypes ExecPlan Planner.
From S2P Require Import Slicing Physical Backend Utils Batch State Assign Flight.

(** What a child of an operator offers: its schema and, for each partition,
    what executing it gives. *)
Abbreviation Produced := (Schema * list (DFResult BatchStream))%type.

(** DataFusion's operators, and the streams [futures::stream::select_all] makes,
    as functions of their inputs and of a choice. *)
Class Operators := {
  op_choice : Type;
  op_execute : PlanOp → list Produced → op_choice → Z → DFResult BatchStream;
  merge_streams : op_choice → list (list (result string RecordBatch)) → list (result string RecordBatch);
}.

Abbreviation Fetch := (string → Z → string → Z → Z → Result BatchStream).

(** An unresolved shuffle cannot be run. *)
Definition unresolved_shuffle_execute (_ : Z) : DFResult BatchStream :=
  Err (DF_Plan "Ballista UnresolvedShuffleExec does not support execution").

Section run.
Context `{ExecutionPlanMethods} `{Operators} (fetch : Fetch).

(** The stream of a [CollectExec] whose input executes as [run]. *)
Definition collect_run (choice : op_choice) (run : Z → DFResult BatchStream) (child : ExecutionPlan) (partition : Z)
    : DFResult BatchStream :=
  let? merged := collect_execute (λ _, run) child partition in Ok (merged.1, merge_streams choice merged.2).

(** The results of [execute] of a partition of a plan; [fetch] connects to the
    executor at a host and port and fetches a partition. *)
#[warnings="-register-all"]
Inductive plan_runs : ExecutionPlan → Z → DFResult BatchStream → Prop :=
| runs_stage job_id stage_id child cs partition r :
    plan_runs child partition r → plan_runs (Exec (X_QueryStage job_id stage_id) (child :: cs)) partition r
| runs_unresolved ids schema count cs partition :
    plan_runs (Exec (X_UnresolvedShuffle ids schema count) cs) partition (unresolved_shuffle_execute partition)
| runs_reader partition_location schema cs partition :
    plan_runs (Exec (X_ShuffleReader partition_location schema) cs) partition
      (shuffle_reader_execute fetch partition_location partition)
| runs_collect choice run child cs partition :
    (∀ i, plan_runs child i (run i)) →
    plan_runs (Exec X_Collect (child :: cs)) partition (collect_run choice run child partition)
| runs_no_child op partition m :
    (op = X_Collect ∨ ∃ job_id stage_id, op = X_QueryStage job_id stage_id) → plan_runs (Exec op []) partition (Panic m)
| runs_operator choice op cs inputs partition :
    is_ballista_op op = false →
    Forall2 (λ c x, x.1 = plan_schema c ∧ Forall2 (λ i r, plan_runs c i r) (zrange (partition_count c)) x.2) cs inputs →
    plan_runs (Exec op cs) partition (op_execute op inputs choice partition).

(** One of these results, with all choices the same. *)
Fixpoint plan_run (choice : op_choice) (p : ExecutionPlan) (partition : Z) : DFResult BatchStream :=
  match p with
  | Exec op cs =>
    match op with
    | X_QueryStage _ _ =>
        match cs with
        | child :: _ => plan_run choice child partition
        | [] => Panic "index out of bounds"
        end
    | X_UnresolvedShuffle _ _ _ => unresolved_shuffle_execute partition
    | X_ShuffleReader partition_location _ => shuffle_reader_execute fetch partition_location partition
    | X_Collect =>
        match cs with
        | child :: _ => collect_run choice (plan_run choice child) child partition
        | [] => Panic "index out of bounds"
        end
    | op => op_execute op
        (List.map (λ c, (plan_schema c, List.map (plan_run choice c) (zrange (partition_count c)))) cs) choice partition
    end
  end.

Lemma plan_run_df choice op cs i :
  is_ballista_op op = false → plan_run choice (Exec op cs) i = op_execute op
    (List.map (λ c, (plan_schema c, List.map (plan_run choice c) (zrange (partition_count c)))) cs) choice i.
Proof. by destruct op. Qed.

Lemma plan_run_runs choice p i : plan_runs p i (plan_run choice p i).
Proof.
  revert i. induction p as [op cs IH] using plan_ind. intros i. destruct (is_ballista_op op) eqn:Hop.
  - destruct op; try discriminate; simpl; [|apply runs_unresolved|apply runs_reader|];
      (destruct cs as [|c cs]; [apply runs_no_child; eauto|apply Forall_cons in IH as [IH _]]);
      [by apply runs_stage|by apply runs_collect].
  - rewrite plan_run_df by done. apply runs_operator; [done|]. clear Hop.
    induction IH as [|c cs Hc _ IHcs]; [constructor|]. simpl. constructor; [|done]. simpl. split; [done|].
    induction (zrange (partition_count c)); simpl; by constructor.
Qed.

Lemma runs_operator_inv op cs i r :
  is_ballista_op op = false → plan_runs (Exec op cs) i r → ∃ choice inputs, r = op_execute op inputs choice i ∧
    Forall2 (λ c x, x.1 = plan_schema c ∧ Forall2 (λ i r, plan_runs c i r) (zrange (partition_count c)) x.2) cs inputs.
Proof.
  intros Hop Hr. inversion Hr; subst; try discriminate; [|by eauto].
  by match goal with H : _ ∨ _ |- _ => destruct H as [->|(? & ? & ->)] end.
Qed.
End run.

(** In one process there is nothing to fetch from. *)
Definition no_fetch : Fetch := λ _ _ _ _ _, Err (General "no executor").
Definition local_runs `{ExecutionPlanMethods} `{Operators} : ExecutionPlan → Z → DFResult BatchStream → Prop :=
  plan_runs no_fetch.

(** ** A stage with its shuffles resolved *)

Lemma Forall2_impl_elem {A B} (P Q : A → B → Prop) l k :
  Forall2 P l k → (∀ x y, x ∈ l → P x y → Q x y) → Forall2 Q l k.
Proof. induction 1 as [|x y l k Hxy _ IH]; intros HPQ; constructor; [by apply HPQ; [left|]|]. apply IH. intros. apply HPQ; [by right|done]. Qed.

Section stages.
Context `{ExecutionPlanMethodsOk} `{!InterfaceOk} `{Operators} (fetch : Fetch).

(** The reader of the locations of a stage delivers what the stage stands for:
    as many partitions, each with a stream that [execute] can give in one
    process. *)
Definition delivers (locations : list PartitionLocation) (q : ExecutionPlan) : Prop :=
  Z.of_nat (length locations) = partition_count q ∧
  ∀ i, i ∈ zrange (partition_count q) → local_runs q i (shuffle_reader_execute fetch locations i).

(** [locs] gives, for every shuffle of [p], locations that deliver the stage it
    reads. *)
Definition inputs_deliver (locs : gmap Z (list PartitionLocation)) (m : gmap Z ExecutionPlan) (p : ExecutionPlan) : Prop :=
  ∀ id q, id ∈ shuffle_ids p → m !! id = Some q → delivers (default [] (locs !! id)) q.

Lemma resolve_df locs op cs :
  is_ballista_op op = false → resolve locs (Exec op cs) = Exec op (List.map (resolve locs) cs).
Proof. by destruct op. Qed.

(** The resolved plan gives only what the plan it stands for can give. *)
Lemma resolve_runs st m locs p q :
  stages_mean st m → reads st p → rebuild m p = Some q → inputs_deliver locs m p →
  same_interface (resolve locs p) q ∧
  ∀ i r, is_ballista_op (plan_op p) = false ∨ i ∈ zrange (partition_count q) →
    plan_runs fetch (resolve locs p) i r → local_runs q i r.
Proof.
  intros Hm. revert q. induction p as [op cs IH] using plan_ind. intros q [Hr Hf] Hq Hin.
  destruct (is_ballista_op op) eqn:Hop.
  { destruct op; try discriminate. simpl in Hf. apply Forall_cons in Hf as [(s & Hs & E) _]. injection E as -> -> ->.
    destruct (Hm s Hs) as (q' & Hq' & _ & Hsch & Hcnt). simpl in Hq. rewrite Hq' in Hq. injection Hq as ->.
    destruct (Hin (qs_stage_id s) q) as [Hlen Hrun]; [by left|done|].
    simpl. rewrite app_nil_r. split; [by split|]. intros i r [?|?] Hruns; [done|]. inversion Hruns; subst; [by auto|..|done].
    by match goal with H : _ ∨ _ |- _ => destruct H as [?|(? & ? & ?)] end. }
  assert (forallb resolvable cs = true ∧ Forall (refers_to st) (flat_map unresolved_shuffles cs)) as [Hr' Hf']
    by (by destruct op).
  rewrite rebuild_df in Hq by done. destruct (mapM (rebuild m) cs) as [cs'|] eqn:Ecs; [|done]. injection Hq as <-.
  apply mapM_Forall2 in Ecs. unfold inputs_deliver in Hin. rewrite shuffle_ids_df in Hin by done.
  assert (Forall2 (λ c c', same_interface (resolve locs c) c' ∧
    ∀ i r, i ∈ zrange (partition_count c') → plan_runs fetch (resolve locs c) i r → local_runs c' i r) cs cs') as HF.
  { clear Hr Hf. induction Ecs as [|c c' cs cs' Hc _ IHcs]; [constructor|].
    apply Forall_cons in IH as [IHc IH]. simpl in Hr', Hf', Hin. apply andb_prop in Hr' as [Hr1 Hr2].
    apply Forall_app in Hf' as [Hf1 Hf2]. constructor.
    - destruct (IHc c') as [Hi Hrun]; [done|done| |split; [done|by eauto]]. intros id q Hid. apply Hin, elem_of_app. by left.
    - apply IHcs; try done. intros id q Hid. apply Hin, elem_of_app. by right. }
  rewrite resolve_df by done. split.
  - apply interface_df; [done|]. rewrite Forall2_fmap_l. eapply Forall2_impl; [exact HF|]. by intros c c' [Hi _].
  - intros i r _ (choice & inputs & -> & Hinp)%runs_operator_inv; [|done]. apply runs_operator; [done|].
    rewrite Forall2_fmap_l in Hinp. clear -HF Hinp. revert inputs Hinp.
    induction HF as [|c c' cs cs' [[Hs Hc] Hrun] _ IH]; intros inputs Hinp; [apply Forall2_nil_inv_l in Hinp as ->; constructor|].
    apply Forall2_cons_inv_l in Hinp as (x & xs & [Hx1 Hx2] & Hxs & ->). constructor; [|by apply IH].
    rewrite Hx1, Hs. split; [done|]. rewrite Hc in Hx2. eapply Forall2_impl_elem; [exact Hx2|].
    intros j r Hj. by apply Hrun.
Qed.
End stages.

(** ** A resolved stage on the wire *)

(** The operator is what DataFusion's constructor makes of its parts. *)
Definition constructs `{PhysicalPlanner} (op : PlanOp) (cs : list ExecutionPlan) : Prop :=
  match op, cs with
  | X_Projection exprs, [i] => ProjectionExec_try_new exprs i = Ok (Exec op cs)
  | X_Filter e, [i] => FilterExec_try_new e i = Ok (Exec op cs)
  | X_HashJoin on t, [l; r] => HashJoinExec_try_new l r on t = Ok (Exec op cs)
  | X_HashAggregate mode groups aggs schema, [i] =>
      HashAggregateExec_try_new mode groups aggs i schema = Ok (Exec op cs)
  | X_Sort exprs, [i] => SortExec_try_new exprs i = Ok (Exec op cs)
  | _, _ => True
  end.

(** The constructors check their inputs by the schema. *)
Class ConstructorsOk `{PhysicalPlanner} `{ExecutionPlanMethods} :=
  constructs_schema op cs cs' : plan_schema <$> cs = plan_schema <$> cs' → constructs op cs → constructs op cs'.

Section wire.
Context `{PhysicalPlanner} `{ExprBuildersOk} `{ExecutionPlanMethods} `{!InterfaceOk} `{!ConstructorsOk}.
Context (locs : gmap Z (list PartitionLocation)).

Lemma resolve_schema p : plan_schema (resolve locs p) = plan_schema p.
Proof.
  induction p as [op cs IH] using plan_ind.
  assert (plan_schema <$> (resolve locs <$> cs) = plan_schema <$> cs) as Hcs.
  { induction IH as [|c cs Hc _ IHcs]; [done|]. csimpl. by rewrite Hc, IHcs. }
  destruct op; simpl; try (by apply interface_schema); try done.
  all: destruct cs as [|c cs]; [done|]; csimpl in Hcs; simpl; congruence.
Qed.

(** The locations that are read fit the messages. *)
Definition locations_fit (p : ExecutionPlan) : Prop :=
  ∀ id, id ∈ shuffle_ids p → Forall wf_partition_location (default [] (locs !! id)).

Lemma resolve_built p :
  built_exec p → resolvable p = true → locations_fit p → built_exec (resolve locs p).
Proof.
  induction p as [op cs IH] using plan_ind. intros Hb Hr Hl.
  destruct (is_ballista_op op) eqn:Hop.
  { destruct op; try discriminate. destruct cs; [|done]. destruct Hb as (_ & _ & Hs). simpl. split; [|done].
    apply Forall_concat, Forall_forall. intros ls (id & <- & Hid)%list_elem_of_In%in_map_iff.
    apply Hl. unfold shuffle_ids. simpl. rewrite app_nil_r. by apply list_elem_of_In. }
  assert (forallb resolvable cs = true) as Hr' by (by destruct op).
  unfold locations_fit in Hl. rewrite shuffle_ids_df in Hl by done.
  assert (constructs op cs → constructs op (resolve locs <$> cs)) as Hc.
  { apply constructs_schema. rewrite <-list_fmap_compose. apply list_fmap_ext. intros _ c _. simpl. by rewrite resolve_schema. }
  assert (∀ i, i ∈ cs → built_exec i → built_exec (resolve locs i)) as IHc.
  { intros i Hi Hbi. rewrite Forall_forall in IH. apply IH; [done|done| |].
    - rewrite List.forallb_forall in Hr'. by apply Hr', list_elem_of_In.
    - intros id Hid. apply Hl. apply list_elem_of_In, in_flat_map. exists i. by rewrite <-!list_elem_of_In. }
  clear IH Hl Hr Hr'. rewrite resolve_df by done.
  destruct op; try discriminate Hop; destruct cs as [|i [|j [|k cs]]]; try done; cbn [List.map fmap list_fmap] in *;
    cbn [built_exec] in Hb |- *; rewrite ?resolve_schema.
  all: destruct_and?; split_and?; try done; try (by apply Hc); apply IHc; set_solver.
Qed.

(** The resolved plan arrives at an executor, and at its flight service, as it
    was sent. *)
Lemma resolve_sent p :
  built_exec p → resolvable p = true → locations_fit p →
  ∃ q, exec_to_proto (resolve locs p) = Ok q ∧ proto_to_exec q = Ok (resolve locs p) ∧
    resent (resolve locs p) = Ok (resolve locs p).
Proof.
  intros Hb Hr Hl. destruct (exec_trip _ (resolve_built p Hb Hr Hl)) as (q & Hq & Hp).
  exists q. split_and!; [done..|]. unfold resent. by rewrite Hq.
Qed.
End wire.

(** ** The inputs of a stage *)

(** A stage is read by one shuffle: its inputs are the partitions of it. *)
Lemma parts_of_app stage l1 l2 : parts_of stage (l1 ++ l2) = parts_of stage l1 ++ parts_of stage l2.
Proof. apply omap_app. Qed.

Lemma parts_of_other stage id l : stage ≠ id → parts_of stage (List.map (λ part, (id, part)) l) = [].
Proof.
  intros Hne. induction l as [|x l IH]; [done|]. unfold parts_of in *. simpl. by rewrite (proj2 (Z.eqb_neq id stage)).
Qed.
Lemma parts_of_same stage l : parts_of stage (List.map (λ part, (stage, part)) l) = l.
Proof. induction l as [|x l IH]; [done|]. unfold parts_of in *. simpl. rewrite Z.eqb_refl. f_equal. exact IH. Qed.

Lemma parts_of_shuffles stage us :
  stage ∉ flat_map us_query_stage_ids us → parts_of stage (shuffle_inputs us) = [].
Proof.
  induction us as [|u us IH]; [done|]. simpl. intros [Hu Hus]%not_elem_of_app.
  unfold shuffle_inputs. simpl. rewrite parts_of_app. fold (shuffle_inputs us). rewrite IH, app_nil_r by done.
  induction (us_query_stage_ids u) as [|id ids IHi]; [done|]. apply not_elem_of_cons in Hu as [Hne Hu].
  simpl. by rewrite parts_of_app, parts_of_other, IHi.
Qed.

Lemma parts_of_input us u stage :
  NoDup (flat_map us_query_stage_ids us) → u ∈ us → us_query_stage_ids u = [stage] →
  parts_of stage (shuffle_inputs us) = zrange (us_partition_count u).
Proof.
  induction us as [|x us IH]; intros Hnd Hu Hids; [by apply not_elem_of_nil in Hu|].
  simpl in Hnd. apply NoDup_app in Hnd as (_ & Hd & Hnd).
  unfold shuffle_inputs. simpl. rewrite parts_of_app. apply elem_of_cons in Hu as [<-|Hu].
  - rewrite Hids. simpl. rewrite app_nil_r, parts_of_same. fold (shuffle_inputs us).
    rewrite parts_of_shuffles; [by rewrite app_nil_r|]. apply Hd. rewrite Hids. by left.
  - fold (shuffle_inputs us). rewrite IH by done.
    assert (stage ∉ us_query_stage_ids x) as Hni.
    { intros Hs. apply (Hd stage Hs). apply list_elem_of_In, in_flat_map. exists u.
      rewrite <-!list_elem_of_In, Hids. split; [done|by left]. }
    induction (us_query_stage_ids x) as [|id ids IHi]; [done|]. apply not_elem_of_cons in Hni as [Hne Hni].
    simpl. rewrite parts_of_app, parts_of_other by done. apply IHi; [|done].
    intros y Hy. apply Hd. by right.
Qed.

(** The stage a shuffle reads. *)
Lemma shuffle_stage `{ExecutionPlanMethods} st p id :
  reads st p → id ∈ shuffle_ids p → ∃ s, s ∈ st ∧ id = qs_stage_id s ∧
    mkUnresolvedShuffle [id] (plan_schema (stage_plan s)) (partition_count (stage_plan s)) ∈ unresolved_shuffles p.
Proof.
  intros [_ Hf] Hid. apply list_elem_of_In, in_flat_map in Hid as (u & Hu & Hid). apply list_elem_of_In in Hu, Hid.
  rewrite Forall_forall in Hf. destruct (Hf u Hu) as (s & Hs & ->). simpl in Hid.
  apply list_elem_of_singleton in Hid as ->. by exists s.
Qed.

(** The partitions a plan reads of a stage are all partitions of what the stage
    stands for. *)
Lemma input_partitions `{ExecutionPlanMethods} st m p id q :
  stages_mean st m → reads st p → NoDup (shuffle_ids p) → id ∈ shuffle_ids p → m !! id = Some q →
  parts_of id (inputs_of p) = zrange (partition_count q) ∧
  ∃ s, s ∈ st ∧ partition_count (stage_plan s) = partition_count q.
Proof.
  intros Hm Hr Hnd Hid Hq. destruct (shuffle_stage _ _ _ Hr Hid) as (s & Hs & -> & Hu).
  destruct (Hm s Hs) as (q' & Hq' & _ & _ & Hc). simplify_eq. split; [|by exists s].
  unfold inputs_of. rewrite (parts_of_input _ _ _ Hnd Hu); [|done]. simpl. by rewrite Hc.
Qed.

(** ** Executors that run plans *)

(** The data plane of an executor whose plans run as [execute] says. *)
Definition executing {FlightData File} `{DataPlane FlightData File}
    (execute : ExecutionPlan → Z → DFResult BatchStream) : DataPlane FlightData File := {|
  info_enabled := info_enabled;
  plan_execute := execute;
  ipc_start := ipc_start;
  ipc_write := ipc_write;
  ipc_finish := ipc_finish;
  ipc_file := ipc_file;
  ipc_read := ipc_read;
  flight_of_schema := flight_of_schema;
  flight_of_batch := flight_of_batch;
  schema_of_flight := schema_of_flight;
  flight_to_batch := flight_to_batch;
  fs_create_dir_all := fs_create_dir_all;
  fs_create := fs_create;
  empty_file := empty_file;
|}.
