(* ===== verification/Client.v ===== *)
(** * The client

    Models the client's context and data frames
    (src/rust/client/src/context.rs): the tables that are registered with a
    context, SQL statements over them, and [collect], which submits the plan of
    a data frame to the scheduler, waits for the job and fetches its results.

    DataFusion's local context and data frames are parameters.  The scheduler
    is what it answers: the id of the job and the successive answers to the
    requests for its status; [collect] has no result as long as all answers
    say that the job is not done.  The service behind these answers is that of
    Server.v, the fetch of a partition that of Flight.v.

    The theorems: the scheduler plans the plan of the data frame; a completed
    job gives the batches of all its tasks, of intermediate stages, too, in
    order; what is returned when the job fails or an answer is incomplete; a
    statement sees every registered table. *)

From S2P Require Import Prelude Keys Proto Arrow Scalar Expr LogicalPlan SchedTypes ExecPlan.
From S2P Require Import Planner Physical Backend Utils Batch State Server Flight.

(** DataFusion's [CsvReadOptions]. *)
Record CsvScanOptions := mkCsvScanOptions {
  co_has_header : bool; co_delimiter : Z; co_schema : option Schema;
  co_schema_infer_max_records : Z; co_file_extension : string }.

(** DataFusion's [ExecutionContext] of the client's process and its data
    frames (as the plans they build), the file system, and the iteration over
    the tables. *)
Class LocalContext (DFSchema : Type) := {
  fs_canonicalize : string → result string string;
  local_read_parquet : string → DFResult (LogicalPlan DFSchema);
  local_read_csv : string → CsvScanOptions → DFResult (LogicalPlan DFSchema);
  local_sql : gmap string (TableSource DFSchema) → string → DFResult (LogicalPlan DFSchema);
  logical_plan_schema : LogicalPlan DFSchema → DFSchema;
  df_select_columns : LogicalPlan DFSchema → list string → DFResult (LogicalPlan DFSchema);
  df_select : LogicalPlan DFSchema → list Expr → DFResult (LogicalPlan DFSchema);
  df_filter : LogicalPlan DFSchema → Expr → DFResult (LogicalPlan DFSchema);
  df_aggregate : LogicalPlan DFSchema → list Expr → list Expr → DFResult (LogicalPlan DFSchema);
  df_limit : LogicalPlan DFSchema → Z → DFResult (LogicalPlan DFSchema);
  df_sort : LogicalPlan DFSchema → list Expr → DFResult (LogicalPlan DFSchema);
  df_repartition : LogicalPlan DFSchema → Partitioning → DFResult (LogicalPlan DFSchema);
  df_explain : LogicalPlan DFSchema → bool → DFResult (LogicalPlan DFSchema);
  tables_iter : gmap string (LogicalPlan DFSchema) → list (string * LogicalPlan DFSchema);
}.
Class LocalContextOk (DFSchema : Type) `{LocalContext DFSchema} :=
  tables_iter_spec m : tables_iter m ≡ₚ map_to_list m.

Section client.
Context {DFSchema : Type} `{DataFusion DFSchema} `{QueryContext DFSchema} `{LocalContext DFSchema}.
Context `{ExecutionPlanMethods} `{ErrorText} `{Arrays}.
Abbreviation Plan := (LogicalPlan DFSchema).

(** The state that a context shares with its data frames. *)
Record BallistaContextState := mkBallistaContextState {
  scheduler_host : string;
  scheduler_port : Z;
  tables : gmap string Plan;
  settings : gmap string string }.

(** [BallistaContext::remote]. *)
Definition remote (host : string) (port : Z) (settings : gmap string string) : BallistaContextState :=
  mkBallistaContextState host port ∅ settings.

(** A data frame; its context is the state the operations run on. *)
Record BallistaDataFrame := mkBallistaDataFrame { df : Plan }.

Definition to_logical_plan (self : BallistaDataFrame) : Plan := df self.

(** The wrappers of DataFusion's operations. *)
Definition select_columns (self : BallistaDataFrame) (columns : list string) : Result BallistaDataFrame :=
  rmap mkBallistaDataFrame (lift_df (df_select_columns (df self) columns)).
Definition select (self : BallistaDataFrame) (expr : list Expr) : Result BallistaDataFrame :=
  rmap mkBallistaDataFrame (lift_df (df_select (df self) expr)).
Definition filter (self : BallistaDataFrame) (expr : Expr) : Result BallistaDataFrame :=
  rmap mkBallistaDataFrame (lift_df (df_filter (df self) expr)).
Definition aggregate (self : BallistaDataFrame) (group_expr aggr_expr : list Expr) : Result BallistaDataFrame :=
  rmap mkBallistaDataFrame (lift_df (df_aggregate (df self) group_expr aggr_expr)).
Definition limit (self : BallistaDataFrame) (n : Z) : Result BallistaDataFrame :=
  rmap mkBallistaDataFrame (lift_df (df_limit (df self) n)).
Definition sort (self : BallistaDataFrame) (expr : list Expr) : Result BallistaDataFrame :=
  rmap mkBallistaDataFrame (lift_df (df_sort (df self) expr)).
Definition repartition (self : BallistaDataFrame) (partitioning_scheme : Partitioning)
    : Result BallistaDataFrame :=
  rmap mkBallistaDataFrame (lift_df (df_repartition (df self) partitioning_scheme)).
Definition explain (self : BallistaDataFrame) (verbose : bool) : Result BallistaDataFrame :=
  rmap mkBallistaDataFrame (lift_df (df_explain (df self) verbose)).
Definition schema (self : BallistaDataFrame) : DFSchema := logical_plan_schema (df self).

(** ** Tables *)

Abbreviation C A := (M BallistaContextState A).

(** [read_parquet] and [read_csv]. *)
Definition read_parquet (path : string) : C BallistaDataFrame :=
  let! path := lift (map_err IoError (fs_canonicalize path)) in
  let! df := lift (lift_df (local_read_parquet path)) in
  ret (mkBallistaDataFrame df).
Definition read_csv (path : string) (options : CsvScanOptions) : C BallistaDataFrame :=
  let! path := lift (map_err IoError (fs_canonicalize path)) in
  let! df := lift (lift_df (local_read_csv path options)) in
  ret (mkBallistaDataFrame df).

(** [register_table]. *)
Definition register_table (name : string) (table : BallistaDataFrame) : C unit := λ state,
  (Ok (), mkBallistaContextState (scheduler_host state) (scheduler_port state)
            (<[name := to_logical_plan table]> (tables state)) (settings state)).
Definition register_csv (name path : string) (options : CsvScanOptions) : C unit :=
  let! df := read_csv path options in register_table name df.
Definition register_parquet (name path : string) : C unit :=
  let! df := read_parquet path in register_table name df.

(** The table provider of a registered plan: [DFTableAdapter::new]. *)
Definition table_adapter (plan : Plan) : Result (TableSource DFSchema) :=
  let? plan := lift_df (ctx_optimize plan) in
  let? execution_plan := lift_df (ctx_create_physical_plan plan) in
  Ok (Src_DFTableAdapter plan (plan_schema execution_plan)).

(** The loop of [sql] over the tables, with the tables of the local context. *)
Fixpoint register_tables (entries : list (string * Plan)) (ctx : gmap string (TableSource DFSchema))
    : Result (gmap string (TableSource DFSchema)) :=
  match entries with
  | [] => Ok ctx
  | (name, plan) :: rest =>
      let? table := table_adapter plan in register_tables rest (<[name := table]> ctx)
  end.

(** [sql]. *)
Definition sql (statement : string) : C BallistaDataFrame := λ state,
  (let? ctx := register_tables (tables_iter (tables state)) ∅ in
   let? df := lift_df (local_sql ctx statement) in Ok (mkBallistaDataFrame df), state).

(** ** Collecting a data frame *)

Section collect.
(** Connecting to the scheduler and submitting a query there; connecting to an
    executor and fetching a partition from it. *)
Context (scheduler_connect : string → result string unit)
        (scheduler_execute_query : ExecuteQueryParams → result Status string)
        (fetch : string → Z → string → Z → Z → Result BatchStream).

(** The batches of one location of a completed job. *)
Definition fetch_location (location : PPartitionLocation) : Result (list RecordBatch) :=
  let? metadata := ok_or (Internal "Received empty executor metadata") (ppl_executor_meta location) in
  let? partition_id := ok_or (Internal "Received empty partition id") (ppl_partition_id location) in
  let? stream := fetch (pem_host metadata) (as_u16 (pem_port metadata)) (ppi_job_id partition_id)
    (as_usize (ppi_stage_id partition_id)) (as_usize (ppi_partition_id partition_id)) in
  lift_df (df_collect stream).

(** The loop of [collect], on the answers to the requests for the status. *)
Fixpoint wait_for_job (schema : Schema) (job_id : string) (answers : list (result Status GetJobStatusResult))
    : option (Result MemoryStream.MemoryStream) :=
  match answers with
  | [] => None
  | answer :: rest =>
      match map_err grpc_error answer with
      | Err e => Some (Err e)
      | Panic m => Some (Panic m)
      | Ok result =>
          match gj_status result ≫= js_status with
          | None => Some (Err (Internal "Received empty status message"))
          | Some JS_Queued | Some JS_Running => wait_for_job schema job_id rest
          | Some (JS_Failed error) =>
              Some (Err (General ("Job " +:+ job_id +:+ " failed: " +:+ error)))
          | Some (JS_Completed partition_location) =>
              Some (let? result := rmapM fetch_location partition_location in
                    map_err ArrowError (MemoryStream.try_new (List.concat result) schema None))
          end
      end
  end.

(** [BallistaDataFrame::collect]. *)
Definition collect (self : BallistaDataFrame) (state : BallistaContextState)
    (answers : list (result Status GetJobStatusResult)) : option (Result MemoryStream.MemoryStream) :=
  let scheduler_url := "http://" +:+ scheduler_host state +:+ ":" +:+ pretty (scheduler_port state) in
  match map_err TonicError (scheduler_connect scheduler_url) with
  | Err e => Some (Err e)
  | Panic m => Some (Panic m)
  | Ok _ =>
      let plan := to_logical_plan self in
      let schema := dfschema_to_schema (logical_plan_schema plan) in
      match let? query := plan_to_proto plan in
            map_err grpc_error
              (scheduler_execute_query (mkExecuteQueryParams (Some (EQ_LogicalPlan query)))) with
      | Err e => Some (Err e)
      | Panic m => Some (Panic m)
      | Ok job_id => wait_for_job schema job_id answers
      end
  end.
End collect.
End client.

(** ** Lemmas *)

Section facts.
Context {DFSchema : Type} `{DataFusion DFSchema} `{QueryContext DFSchema} `{LocalContextOk DFSchema}.
Context `{ExecutionPlanMethods} `{ErrorText} `{Arrays}.

(** The tables of the local context after the loop. *)
Lemma register_tables_ok (l : list (string * LogicalPlan DFSchema)) ctx :
  NoDup l.*1 → Forall (λ e, is_ok (table_adapter e.2) = true) l →
  ∃ ctx', register_tables l ctx = Ok ctx' ∧
    (∀ name plan, (name, plan) ∈ l → ctx' !! name = ok (table_adapter plan)) ∧
    (∀ name, name ∉ l.*1 → ctx' !! name = ctx !! name).
Proof.
  revert ctx. induction l as [|[name plan] l IH]; intros ctx Hnd Hok; csimpl.
  { exists ctx. split_and!; [done| |done]. by intros ? ? ?%not_elem_of_nil. }
  csimpl in Hnd. apply NoDup_cons in Hnd as [Hni Hnd]. apply Forall_cons in Hok as [Hok Hl]. csimpl in Hok.
  destruct (table_adapter plan) as [t| |] eqn:Et; [|discriminate Hok..].
  destruct (IH (<[name := t]> ctx) Hnd Hl) as (ctx' & E & Hin & Hout). exists ctx'. split_and!; [done| |].
  - intros n p [[= -> ->]|Hp]%elem_of_cons; [|by apply Hin].
    rewrite Hout by done. by rewrite lookup_insert_eq, Et.
  - intros n [Hne Hn]%not_elem_of_cons. by rewrite Hout, lookup_insert_ne.
Qed.

Lemma register_tables_fails l (ctx : gmap string (TableSource DFSchema)) name plan :
  (name, plan) ∈ l → is_ok (table_adapter plan) = false → is_ok (register_tables l ctx) = false.
Proof.
  revert ctx. induction l as [|[n p] l IH]; intros ctx Hin Hf; [by apply not_elem_of_nil in Hin|]. cbn [register_tables].
  apply elem_of_cons in Hin as [[= <- <-]|Hin]; [by destruct (table_adapter plan)|].
  destruct (table_adapter p); [by apply IH|done..].
Qed.

Lemma elem_of_tables_iter (m : gmap string (LogicalPlan DFSchema)) name plan :
  (name, plan) ∈ tables_iter m ↔ m !! name = Some plan.
Proof. rewrite (tables_iter_spec m). apply elem_of_map_to_list. Qed.

Lemma sql_tables state statement :
  (∀ name plan, tables state !! name = Some plan → is_ok (table_adapter plan) = true) →
  sql statement state =
    (rmap mkBallistaDataFrame (lift_df (local_sql
      (omap (λ plan, ok (table_adapter plan)) (tables state)) statement)), state).
Proof.
  intros Hall. unfold sql.
  destruct (register_tables_ok (tables_iter (tables state)) ∅) as (ctx & E & Hin & Hout).
  - rewrite (tables_iter_spec (tables state)). apply NoDup_fst_map_to_list.
  - apply Forall_forall. intros [n p] Hp%elem_of_tables_iter. by eapply Hall.
  - rewrite E. assert (ctx = omap (λ plan, ok (table_adapter plan)) (tables state)) as <-.
    { apply map_eq. intros name. rewrite lookup_omap. destruct (tables state !! name) as [plan|] eqn:Ep.
      - by rewrite (Hin name plan) by (by apply elem_of_tables_iter).
      - rewrite Hout; [done|]. intros ([n p] & -> & Hp%elem_of_tables_iter)%list_elem_of_fmap. simpl in Ep. congruence. }
    by destruct (lift_df _).
Qed.

(** The answers after which [collect] asks again. *)
Definition waiting (answer : result Status GetJobStatusResult) : Prop :=
  ∃ js, answer = Ok (mkGetJobStatusResult (Some (mkJobStatus (Some js)))) ∧ (js = JS_Queued ∨ js = JS_Running).

Lemma wait_skip fetch schema job waits answers :
  Forall waiting waits → wait_for_job fetch schema job (waits ++ answers) = wait_for_job fetch schema job answers.
Proof. induction 1 as [|answer waits (js & -> & [-> | ->]) _ IH]; done. Qed.

(** The client reached the scheduler, which accepted its query. *)
Record submitted (connect : string → result string unit) (execute_query : ExecuteQueryParams → result Status string)
    (frame : BallistaDataFrame) (state : BallistaContextState (DFSchema := DFSchema)) (job : string) : Prop := {
  sub_connect : connect ("http://" +:+ scheduler_host state +:+ ":" +:+ pretty (scheduler_port state)) = Ok ();
  sub_query : ∃ query, plan_to_proto (df frame) = Ok query ∧
    execute_query (mkExecuteQueryParams (Some (EQ_LogicalPlan query))) = Ok job;
}.

Lemma collect_waits connect execute_query fetch frame state job waits answers :
  submitted connect execute_query frame state job → Forall waiting waits →
  collect connect execute_query fetch frame state (waits ++ answers) =
    wait_for_job fetch (dfschema_to_schema (logical_plan_schema (df frame))) job answers.
Proof.
  intros [Hc (query & Hq & Hj)] Hw. unfold collect, to_logical_plan. rewrite Hc, Hq. cbn [map_err].
  rewrite Hj. cbn [map_err]. by apply wait_skip.
Qed.
End facts.

(** The result of a task: its partition, the executor that completed it, with
    its address, and the batches that executor has for it. *)
Record TaskResult := mkTaskResult {
  tr_partition : PPartitionId; tr_executor : string; tr_meta : ExecutorMeta;
  tr_schema : Schema; tr_batches : list RecordBatch }.
Definition result_status (r : TaskResult) : TaskStatus :=
  mkTaskStatus (Some (tr_partition r)) (Some (TS_Completed (tr_executor r))).

Section results.
Context `{ArraysOk} (executors : gmap string ExecutorMeta) (fetch : string → Z → string → Z → Z → Result BatchStream).

(** The executor is known and serves the batches. *)
Record served (r : TaskResult) : Prop := {
  served_executor : executors !! tr_executor r = Some (tr_meta r);
  served_port : in_u 16 (em_port (tr_meta r));
  served_ids : in_u 32 (ppi_stage_id (tr_partition r)) ∧ in_u 32 (ppi_partition_id (tr_partition r));
  served_batches :
    fetch (em_host (tr_meta r)) (em_port (tr_meta r)) (ppi_job_id (tr_partition r))
      (ppi_stage_id (tr_partition r)) (ppi_partition_id (tr_partition r)) =
      Ok (tr_schema r, Ok <$> tr_batches r);
}.

Lemma fetch_location_ok r :
  served r → fetch_location fetch (location_of executors (result_status r, tr_executor r)) = Ok (tr_batches r).
Proof.
  intros [He Hp [Hs Hn] Hb]. unfold fetch_location, location_of. cbn [fst snd ppl_executor_meta ppl_partition_id
    result_status ts_partition_id]. rewrite He. cbn [fmap option_fmap option_map ok_or executor_meta_to_proto pem_host pem_port].
  rewrite (wrap_u_id 32) by (unfold in_u in *; lia). rewrite (wrap_u_id 16) by done.
  rewrite !(wrap_u_id 64) by (unfold in_u in *; lia). rewrite Hb. by rewrite df_collect_ok.
Qed.

Lemma completed_status_of results :
  results ≠ [] →
  js_status <$> job_status_from_tasks executors (result_status <$> results) =
    Some (Some (JS_Completed ((λ r, location_of executors (result_status r, tr_executor r)) <$> results))).
Proof.
  intros Hne. rewrite job_status_eq by (by destruct results).
  assert (forallb task_completed (result_status <$> results) = true) as ->.
  { apply forallb_forall. intros t Ht%list_elem_of_In. by apply list_elem_of_fmap in Ht as (r & -> & _). }
  do 3 f_equal. unfold fmap at 1. rewrite List.map_map. done.
Qed.

Lemma fetch_all results :
  Forall served results →
  rmapM (fetch_location fetch) ((λ r, location_of executors (result_status r, tr_executor r)) <$> results) =
    Ok (tr_batches <$> results).
Proof.
  induction 1 as [|r results Hr _ IH]; [done|]. csimpl. by rewrite fetch_location_ok, IH.
Qed.
End results.

(** The executor of a task can be reached and has the file of its partition. *)
Section stored.
Context `{PhysicalPlanner} `{ExprBuildersOk} `{ExecutionPlanMethods} `{MessageOk PAction} `{ErrorText}.
Context `{PlanText} `{ArraysOk} {FlightData File : Type} `{DataPlaneOk FlightData File}.

Record stored (executors : gmap string ExecutorMeta) (network : Network File) (r : TaskResult) : Prop := {
  stored_executor : executors !! tr_executor r = Some (tr_meta r);
  stored_port : in_u 16 (em_port (tr_meta r));
  stored_request : sendable (A_FetchPartition (PartitionId_new (ppi_job_id (tr_partition r))
    (ppi_stage_id (tr_partition r)) (ppi_partition_id (tr_partition r))));
  stored_file : ∃ work_dir d, network !! (em_host (tr_meta r), em_port (tr_meta r)) = Some (work_dir, d) ∧
    d !! partition_file work_dir (ppi_job_id (tr_partition r)) (ppi_stage_id (tr_partition r))
      (ppi_partition_id (tr_partition r)) = Some (ipc_file (tr_schema r) (tr_batches r) true);
  stored_plain : plain_batches (tr_schema r) (tr_batches r);
}.

Lemma stored_served executors network r : stored executors network r → served executors (fetch_from network) r.
Proof.
  intros [He Hp Hs (wd & d & Hn & Hf) Hb]. split; [done|done|exact (proj1 Hs)|].
  unfold fetch_from, BallistaClient_try_new. rewrite Hn. cbn [ok_or fst snd].
  rewrite (fetch_ok wd _ _ _ d (ipc_file (tr_schema r) (tr_batches r) true) (tr_schema r) (tr_batches r) []); try done.
  rewrite app_nil_r. apply ipc_read_ok.
Qed.
End stored.

(** ** Properties *)

Section properties.
Context `{PhysicalPlanner} `{MessageOk PAction} `{PlanText} `{ArraysOk} {FlightData File : Type} `{DataPlaneOk FlightData File}.
Context {DFSchema : Type} `{DataFusionOk DFSchema} `{QueryContext DFSchema} `{LocalContextOk DFSchema}.
Context `{ExprBuildersOk} `{ExecutionPlanMethods} `{ErrorText}.
Context (connect : string → result string unit) (execute_query : ExecuteQueryParams → result Status string).
Implicit Types (frame : BallistaDataFrame (DFSchema := DFSchema)) (state : BallistaContextState (DFSchema := DFSchema)).

(** C15 — A data frame whose job completes: however often the client is told to
    wait, it fetches and returns the batches of all tasks of the job, of every
    stage, in the order of the tasks, with the schema of its own plan, if the
    executors of the tasks can be reached and have the files of their
    partitions. *)
Theorem collect_completed_job (network : Network File) frame state job waits rest
    executors results js :
  submitted connect execute_query frame state job → Forall waiting waits →
  results ≠ [] → Forall (stored executors network) results →
  job_status_from_tasks executors (result_status <$> results) = Some js →
  collect connect execute_query (fetch_from network) frame state
      (waits ++ Ok (mkGetJobStatusResult (Some js)) :: rest) =
    Some (Ok (MemoryStream.mkMemoryStream (flat_map tr_batches results)
      (dfschema_to_schema (logical_plan_schema (df frame))) None 0)).
Proof.
  intros Hs Hw Hne Hall Hjs. rewrite (collect_waits _ _ _ _ _ _ _ _ Hs Hw).
  eapply Forall_impl in Hall; [|apply stored_served].
  pose proof (completed_status_of executors results Hne) as Hc. rewrite Hjs in Hc. injection Hc as Hc.
  cbn [wait_for_job map_err gj_status mbind option_bind]. rewrite Hc, (fetch_all _ _ _ Hall).
  unfold MemoryStream.try_new. cbn [map_err]. by rewrite flat_map_concat_map.
Qed.

(** C16 — A data frame whose job does not complete: as long as the client is
    told to wait it has no result; a job that failed gives an error with the
    job's message, an answer without a status and an answer that is an error
    give an error, and so does a completed job one of whose locations cannot be
    fetched: part of the results is never returned as the whole. *)
Theorem collect_incomplete_job fetch frame state job waits rest :
  submitted connect execute_query frame state job → Forall waiting waits →
  let outcome answer := collect connect execute_query fetch frame state (waits ++ answer :: rest) in
  collect connect execute_query fetch frame state waits = None ∧
  (∀ error, outcome (Ok (mkGetJobStatusResult (Some (mkJobStatus (Some (JS_Failed error)))))) =
    Some (Err (General ("Job " +:+ job +:+ " failed: " +:+ error)))) ∧
  outcome (Ok (mkGetJobStatusResult None)) = Some (Err (Internal "Received empty status message")) ∧
  (∀ s, outcome (Err s) = Some (Err (grpc_error s))) ∧
  (∀ locs l, l ∈ locs → is_ok (fetch_location fetch l) = false →
    is_ok <$> outcome (Ok (mkGetJobStatusResult (Some (mkJobStatus (Some (JS_Completed locs)))))) = Some false).
Proof.
  intros Hs Hw outcome. subst outcome.
  assert (∀ answers, collect connect execute_query fetch frame state (waits ++ answers) =
    wait_for_job fetch (dfschema_to_schema (logical_plan_schema (df frame))) job answers) as E
    by (intros; by apply collect_waits).
  split_and!; intros; rewrite ?E; try done.
  - by rewrite <-(app_nil_r waits), E.
  - cbn [wait_for_job map_err gj_status js_status mbind option_bind fmap option_fmap option_map]. f_equal.
    assert (is_ok (rmapM (fetch_location fetch) locs) = false) as Hf.
    { rewrite rmapM_is_ok. apply not_true_is_false. rewrite forallb_forall. intros Hall.
      match goal with Hbad : is_ok (fetch_location _ l) = false |- _ => rewrite Hall in Hbad end; [done|].
      by apply list_elem_of_In. }
    by destruct (rmapM _ locs).
Qed.

(** A statement sees every registered table: if all tables can be planned,
    the statement is evaluated over exactly the registered tables, each as an
    adapter of its optimised plan, in whatever order the map gives them, and a
    table registered again replaces the one of its name.  One table that
    cannot be planned makes every statement fail. *)
Theorem sql_sees_tables state name frame statement :
  let state' := (register_table name frame state).2 in
  tables state' !! name = Some (df frame) ∧
  (∀ other, other ≠ name → tables state' !! other = tables state !! other) ∧
  ((∀ n plan, tables state' !! n = Some plan → is_ok (table_adapter plan) = true) →
    sql statement state' =
      (rmap mkBallistaDataFrame (lift_df (local_sql
        (omap (λ plan, ok (table_adapter plan)) (tables state')) statement)), state')) ∧
  (is_ok (table_adapter (df frame)) = false → is_ok (sql statement state').1 = false).
Proof.
  intros state'. assert (tables state' !! name = Some (df frame)) as Ht by (simpl; by rewrite lookup_insert_eq).
  split_and!; [done| |by apply sql_tables|].
  - intros other Hne. simpl. by rewrite lookup_insert_ne.
  - intros Hf. unfold sql. cbn [fst]. pose proof (register_tables_fails (tables_iter (tables state')) ∅ name (df frame)) as Hr.
    rewrite elem_of_tables_iter in Hr. specialize (Hr Ht Hf). by destruct (register_tables _ _).
Qed.
End properties.

Section submission.
Context {S : Type} `{ConfigBackendClient S} `{Message PExecutorMetadata} `{Message JobStatus}
  `{Message TaskStatus} `{Message PPhysicalPlanNode} `{PhysicalPlanner} `{ExprBuildersOk}
  `{ExecutionPlanMethods} `{HashOrder} `{ErrorText}.
Context {DFSchema : Type} `{DataFusionOk DFSchema} `{QueryContext DFSchema} `{LocalContext DFSchema}.

(** C14 — The scheduler plans what the client asks for: the query of a data frame
    whose plan can be sent (supported expressions over Parquet or CSV files,
    registered tables included) is decoded by the scheduler's handler as what the
    plan builder makes of the plan as it arrives ([received_plan]), provided the
    builder accepts that; the job is recorded as queued, the task that plans it
    is that of the decoded plan, and the client waits for this job.  If the plan
    is as the builder made it and loses nothing on the way, the plan that is
    planned is exactly that of the data frame. *)
Theorem collect_submits_plan ns job (frame : BallistaDataFrame (DFSchema := DFSchema)) state connect (s s' : S) executors plan :
  sendable_plan (df frame) → received_plan (df frame) = Ok plan →
  connect ("http://" +:+ scheduler_host state +:+ ":" +:+ pretty (scheduler_port state)) = Ok () →
  get_executors_metadata ns s = (Ok executors, s) →
  save_job_metadata ns job (mkJobStatus (Some JS_Queued)) s = (Ok (), s') →
  submitted connect (λ q, rmap fst (execute_query ns job q s).1) frame state job ∧
  (∃ query, plan_to_proto (df frame) = Ok query ∧
    execute_query ns job (mkExecuteQueryParams (Some (EQ_LogicalPlan query))) s =
      (Ok (job, plan_job ns job plan executors), s')) ∧
  (built (df frame) → plan = df frame).
Proof.
  intros Hs Hp Hc Hex Hsave. destruct (sent_plan_trip (df frame) Hs) as (query & Hq & Hd). rewrite Hp in Hd.
  assert (execute_query ns job (mkExecuteQueryParams (Some (EQ_LogicalPlan query))) s =
    (Ok (job, plan_job ns job plan executors), s')) as E.
  { unfold execute_query, parse_query. cbn [eq_query]. rewrite bindM_lift, Hd. cbn [map_err].
    unfold or_internal, map_errM. unfold bindM at 1. rewrite Hex. cbn [map_err]. unfold bindM. by rewrite Hsave. }
  split_and!; [split; [done|exists query; by rewrite E]|by exists query|].
  intros Hb. destruct (built_received _ Hb) as [_ E']. congruence.
Qed.
End submission.

(** ** Witnesses *)

Import SamplePlane.
Module SampleClient.
#[export] Existing Instance direct_datafusion.
#[export] Existing Instance direct_datafusion_ok.

#[export] Instance context : QueryContext Schema := {|
  ctx_sql _ := Ok (LP_EmptyRelation true (mkSchema []));
  ctx_optimize p := Ok p;
  ctx_create_physical_plan _ := Ok plan;
  parquet_try_from_path _ := Ok (mkSchema [], []);
|}.
#[export] Instance local : LocalContext Schema := {|
  fs_canonicalize p := Ok p;
  local_read_parquet _ := Ok (LP_EmptyRelation true (mkSchema []));
  local_read_csv _ _ := Ok (LP_EmptyRelation true (mkSchema []));
  local_sql _ _ := Ok (LP_EmptyRelation true (mkSchema []));
  logical_plan_schema _ := mkSchema [];
  df_select_columns p _ := Ok p; df_select p _ := Ok p; df_filter p _ := Ok p; df_aggregate p _ _ := Ok p;
  df_limit p _ := Ok p; df_sort p _ := Ok p; df_repartition p _ := Ok p; df_explain p _ := Ok p;
  tables_iter m := map_to_list m;
|}.
#[export] Instance local_ok : LocalContextOk Schema.
Proof. by intros m. Qed.

Definition frame : BallistaDataFrame (DFSchema := Schema) := mkBallistaDataFrame (LP_EmptyRelation true (mkSchema [])).
Definition state : BallistaContextState (DFSchema := Schema) := remote "localhost" 50050 ∅.
Definition connect (_ : string) : result string unit := Ok ().
Definition answer_query (_ : ExecuteQueryParams) : result Status string := Ok "abc".
Lemma frame_submitted : submitted connect answer_query frame state "abc".
Proof. split; [done|]. by eexists. Qed.

(** Partition 1 of a first stage, at an executor that has its file. *)
Definition meta : ExecutorMeta := mkExecutorMeta "e" "host" 50051.
Definition task_result : TaskResult :=
  mkTaskResult (mkPPartitionId "abc" 3 1) "e" meta (mkSchema []) [batch 1].
Definition disk : Disk BatchStream :=
  {[partition_file "/tmp/work" "abc" 3 1 :=
      ipc_file (FlightData := Schema + RecordBatch) (mkSchema []) [batch 1] true]}.
Definition network : Network BatchStream := {[("host", 50051%Z) := ("/tmp/work", disk)]}.
Lemma result_stored : stored {["e" := meta]} network task_result.
Proof.
  split; [reflexivity|by vm_compute|apply sendable_fetch; right; left| |repeat constructor].
  eexists _, _. split; [reflexivity|]. apply lookup_singleton_eq.
Qed.
Definition queued : result Status GetJobStatusResult :=
  Ok (mkGetJobStatusResult (Some (mkJobStatus (Some JS_Queued)))).
End SampleClient.
Import SampleClient.

Lemma collect_completed_job_witness :
  collect connect answer_query (fetch_from network) frame state
    [queued; Ok (mkGetJobStatusResult (Some (mkJobStatus (Some (JS_Completed
      [mkPPartitionLocation (Some (mkPPartitionId "abc" 3 1)) (Some (executor_meta_to_proto meta))])))))] =
  Some (Ok (MemoryStream.mkMemoryStream [batch 1] (mkSchema []) None 0)).
Proof.
  refine (collect_completed_job connect answer_query network frame state "abc" [queued] []
    {["e" := meta]} [task_result] (mkJobStatus (Some (JS_Completed
      [mkPPartitionLocation (Some (mkPPartitionId "abc" 3 1)) (Some (executor_meta_to_proto meta))]))) _ _ _ _ _).
  - apply frame_submitted.
  - constructor; [|constructor]. eexists. split; [reflexivity|]. by left.
  - discriminate.
  - constructor; [apply result_stored|constructor].
  - reflexivity.
Defined.

Lemma collect_incomplete_job_witness :
  collect connect answer_query (fetch_from network) frame state
    [queued; Ok (mkGetJobStatusResult (Some (mkJobStatus (Some (JS_Failed "no space left")))))] =
  Some (Err (General "Job abc failed: no space left")).
Proof.
  apply (collect_incomplete_job connect answer_query (fetch_from network) frame state "abc" [queued] []).
  - apply frame_submitted.
  - constructor; [|constructor]. eexists. split; [reflexivity|]. by left.
Defined.

Lemma sql_sees_tables_witness :
  let state' := (register_table "t" frame state).2 in
  tables state' !! "t" = Some (df frame) ∧
  is_ok (sql "SELECT * FROM t" state').1 = true.
Proof.
  destruct (sql_sees_tables state "t" frame "SELECT * FROM t") as (Ht & _ & Hsql & _).
  split; [exact Ht|]. rewrite Hsql; [reflexivity|]. intros n p _. reflexivity.
Defined.
