(* ===== verification/PyTypes.v ===== *)
(** * Types, fields and literals from Python

    Models the part of the Python bindings that turns Python objects into
    Arrow types, fields, schemas and scalar values: src/python/src/datatypes.rs,
    field.rs, schema.rs, dfschema.rs, scalar.rs and util.rs.

    PyO3 is a parameter: an object is known by what it can be extracted as and
    by the names of its class.  An error is the text of the Python exception.

    The theorems: a literal's integer fits the type it is given, so that the
    literal can be sent to the scheduler, and what happens for a class that
    calls itself [ballista.Scalar]; which of the module's constants are the
    types of their names. *)

From S2P Require Import Prelude Proto Arrow Scalar Expr.

Abbreviation PyResult A := (result string A).

(** [BPyField]. *)
Record BPyField := mkBPyField { arrow_field : Field; qualifier : option string }.

(** PyO3: [extract::<T>()], [get_item], [str()] and the names of the class;
    integers are extracted at a width, signed or not. *)
Class Python (PyAny : Type) := {
  extract_datatype : PyAny → PyResult DataType;
  extract_time_unit : PyAny → PyResult TimeUnit;
  extract_interval_unit : PyAny → PyResult IntervalUnit;
  extract_field : PyAny → PyResult BPyField;
  extract_expr : PyAny → PyResult Expr;
  extract_str : PyAny → PyResult string;
  extract_bool : PyAny → PyResult bool;
  extract_signed : Z → PyAny → PyResult Z;
  extract_unsigned : Z → PyAny → PyResult Z;
  extract_float : Z → PyAny → PyResult Z;
  extract_dict : PyAny → PyResult (list (string * PyAny));
  extract_tuple : PyAny → PyResult (list PyAny);
  getattr : PyAny → string → PyResult PyAny;
  any_str : PyAny → PyResult PyAny;
  any_to_string : PyAny → string;
  type_str : PyAny → PyResult string;
  err_to_string : string → string;
}.

(** What an integer type promises. *)
Class PythonOk (PyAny : Type) `{Python PyAny} := {
  extract_signed_range w o n : extract_signed w o = Ok n → in_s w n;
  extract_unsigned_range w o n : extract_unsigned w o = Ok n → in_u w n;
}.

Section python.
Context {PyAny : Type} `{Python PyAny}.

(** ** util.rs *)

Definition class_name (ob : PyAny) (attr : string) : PyResult string :=
  let? c := getattr ob "__class__" in let? n := getattr c attr in extract_str n.

(** [object_class_name]. *)
Definition object_class_name (ob : PyAny) : PyResult string :=
  let? qual_name := class_name ob "__qualname__" in
  let? module_name := class_name ob "__module__" in
  Ok (module_name +:+ "." +:+ qual_name).

(** [missing_key]. *)
Definition missing_key (key_name from_name : string) : string :=
  "The required key " +:+ key_name +:+ " was not present in " +:+ from_name +:+ ".".

(** [tuple_to_uniform_type] and [transform_tuple_to_uniform_type]. *)
Definition tuple_to_uniform_type {T} (extract : PyAny → PyResult T) (tuple : list PyAny) : PyResult (list T) :=
  rmapM extract tuple.
Definition transform_tuple_to_uniform_type {T U} (extract : PyAny → PyResult T) (tuple : list PyAny)
    (transform : T → U) : PyResult (list U) :=
  rmapM (λ item, let? t := extract item in Ok (transform t)) tuple.

(** [kwargs_to_string_map]: the last value of a key stays. *)
Definition kwargs_to_string_map (kwargs : option (list (PyAny * PyAny))) : PyResult (gmap string string) :=
  match kwargs with
  | Some kwargs =>
      let? kvs := rmapM (λ '(k, v),
          let? py_key := map_err (λ err, "kwargs keys must be convertible to a string using str(): " +:+ err_to_string err)
            (any_str k) in
          let? py_val := map_err (λ err, "kwargs values must be convertible to a string using str(): " +:+ err_to_string err)
            (any_str v) in
          let? key := extract_str py_key in let? value := extract_str py_val in
          Ok (key, value)) kwargs in
      Ok (foldl (λ m kv, <[kv.1 := kv.2]> m) ∅ kvs)
  | None => Ok ∅
  end.

(** ** datatypes.rs *)

(** The class name in the message of an error. *)
Definition class_name_or (ob : PyAny) : string :=
  match object_class_name ob with Ok name => name | _ => "<Could not get class name>" end.

Definition time_unit_of_str (s : string) : option TimeUnit :=
  if bool_decide (s ∈ ["Second"; "second"; "s"]) then Some Second
  else if bool_decide (s ∈ ["Millisecond"; "MilliSecond"; "ms"; "milli"; "Milli"]) then Some Millisecond
  else if bool_decide (s ∈ ["Microsecond"; "MicroSecond"; "us"; "micro"; "Micro"]) then Some Microsecond
  else if bool_decide (s ∈ ["Nanosecond"; "NanoSecond"; "ns"; "nano"; "Nano"]) then Some Nanosecond
  else None.

(** [any_to_time_unit]. *)
Definition any_to_time_unit (any : PyAny) : PyResult TimeUnit :=
  match extract_time_unit any with
  | Ok native_time_unit => Ok native_time_unit
  | _ =>
      match extract_str any with
      | Ok time_unit_str =>
          ok_or ("Could not convert '" +:+ time_unit_str +:+ "' to a valid time unit") (time_unit_of_str time_unit_str)
      | _ => Err ("Could not convert " +:+ class_name_or any +:+ " to a valid time unit")
      end
  end.

Definition interval_unit_of_str (s : string) : option IntervalUnit :=
  if bool_decide (s ∈ ["YearMonth"; "ym"; "y"]) then Some YearMonth
  else if bool_decide (s ∈ ["DayTime"; "dt"; "d"]) then Some DayTime
  else None.

(** [any_to_interval_unit]. *)
Definition any_to_interval_unit (any : PyAny) : PyResult IntervalUnit :=
  match extract_interval_unit any with
  | Ok native_interval_unit => Ok native_interval_unit
  | _ =>
      match extract_str any with
      | Ok interval_unit_str =>
          ok_or ("Could not convert '" +:+ interval_unit_str +:+ "' to a valid interval unit")
            (interval_unit_of_str interval_unit_str)
      | _ => Err ("Could not convert " +:+ class_name_or any +:+ " to a valid interval unit")
      end
  end.

(** The names of types, in the order of the arms. *)
Definition datatype_names : list (string * DataType) :=
  [("int8", DT_Int8); ("i8", DT_Int8); ("int16", DT_Int16); ("i16", DT_Int16);
   ("int32", DT_Int32); ("int", DT_Int32); ("i32", DT_Int32); ("int64", DT_Int64); ("i64", DT_Int64);
   ("uint8", DT_UInt8); ("u8", DT_UInt8); ("uint16", DT_UInt16); ("u16", DT_UInt16);
   ("uint32", DT_UInt32); ("uint", DT_UInt32); ("u32", DT_UInt32); ("uint64", DT_UInt64); ("u64", DT_UInt64);
   ("str", DT_Utf8); ("utf8", DT_Utf8); ("float32", DT_Float32); ("f32", DT_Float32);
   ("float", DT_Float64); ("f64", DT_Float64); ("bool", DT_Boolean);
   ("date32", DT_Date32); ("date64", DT_Date64)].
Fixpoint find_name {A} (l : list (string * A)) (s : string) : option A :=
  match l with
  | [] => None
  | (k, v) :: l => if bool_decide (k = s) then Some v else find_name l s
  end.

(** [any_to_datatype]. *)
Definition any_to_datatype (any : PyAny) : PyResult DataType :=
  match extract_datatype any with
  | Ok datatype => Ok datatype
  | _ =>
      match extract_str any with
      | Ok datatype_str =>
          ok_or ("The type string " +:+ datatype_str +:+ " is invalid") (find_name datatype_names datatype_str)
      | _ =>
          Err ("Could not convert type " +:+
            match type_str any with Ok name => name | _ => "<Failed to get type name>" end)
      end
  end.

(** The functions that make types. *)
Definition List (item_type : BPyField) : DataType := DT_List (arrow_field item_type).
Definition LargeList (item_type : BPyField) : DataType := DT_List (arrow_field item_type).
Definition FixedSizeList (item_type : BPyField) (list_size : Z) : PyResult DataType :=
  if (list_size <? 0)%Z then Err ("list_size must be postive, found :" +:+ pretty list_size)
  else Ok (DT_FixedSizeList (arrow_field item_type) list_size).
Definition FixedSizeBinary (binary_size : Z) : PyResult DataType :=
  if (binary_size <? 0)%Z then Err ("binary_size must be postive, found :" +:+ pretty binary_size)
  else Ok (DT_FixedSizeBinary binary_size).
Definition Interval (interval_unit : option PyAny) : PyResult DataType :=
  let? native := match interval_unit with Some any => any_to_interval_unit any | None => Ok DayTime end in
  Ok (DT_Interval native).
Definition Date (date32 : bool) : PyResult DataType := Ok (if date32 then DT_Date32 else DT_Date64).
Definition Time (time_unit : option PyAny) (time32 : bool) : PyResult DataType :=
  let? native := match time_unit with Some any => any_to_time_unit any | None => Ok Millisecond end in
  Ok (if time32 then DT_Time32 native else DT_Time64 native).
Definition Duration (time_unit : option PyAny) : PyResult DataType :=
  let? native := match time_unit with Some any => any_to_time_unit any | None => Ok Millisecond end in
  Ok (DT_Duration native).
Definition fields_of (what : string) (fields : list PyAny) : PyResult (list Field) :=
  match fields with
  | [] => Err ("To construct a " +:+ what +:+ " at least a single Field must be provided")
  | _ => rmapM (λ any, let? f := extract_field any in Ok (arrow_field f)) fields
  end.
Definition Union (fields : list PyAny) : PyResult DataType :=
  let? union_fields := fields_of "Union" fields in Ok (DT_Union union_fields).
Definition Struct (members : list PyAny) : PyResult DataType :=
  let? struct_members := fields_of "Struct" members in Ok (DT_Struct struct_members).
Definition Dictionary (key_type value_type : DataType) : DataType := DT_Dictionary key_type value_type.
Definition Decimal (whole fractional : Z) : DataType := DT_Decimal whole fractional.
Definition Timestamp (time_unit : PyAny) (timezone : option string) : PyResult DataType :=
  let? native_tu := any_to_time_unit time_unit in Ok (DT_Timestamp native_tu timezone).

(** The constants [init] adds to the module. *)
Definition module_constants : list (string * DataType) :=
  [("Null", DT_Float32); ("Bool", DT_Float64); ("Int8", DT_Int8); ("Int16", DT_Int16);
   ("Int32", DT_Int32); ("Int64", DT_Int64); ("UInt8", DT_UInt8); ("UInt16", DT_UInt16);
   ("UInt32", DT_UInt32); ("UInt64", DT_UInt64); ("Float16", DT_Float16); ("Float32", DT_Float32);
   ("Float64", DT_Float64); ("Binary", DT_Binary); ("LargeBinary", DT_Binary); ("Utf8", DT_Binary);
   ("LargeUtf8", DT_Binary)].

(** ** field.rs, schema.rs, dfschema.rs *)

(** [Field::new_dict]. *)
Definition Field_new_dict (name : string) (t : DataType) (nullable : bool) (dict_id : Z)
    (dict_is_ordered : bool) : Field := mkField name t nullable dict_id dict_is_ordered None.

(** An optional key of a dictionary. *)
Definition optional_key {A} (dict : list (string * PyAny)) (key : string) (extract : PyAny → PyResult A)
    : PyResult (option A) :=
  match find_name dict key with Some o => rmap Some (extract o) | None => Ok None end.

(** [any_to_bpyfield]. *)
Definition any_to_bpyfield (any : PyAny) : PyResult BPyField :=
  match extract_field any with
  | Ok native_field => Ok native_field
  | _ =>
      match extract_dict any with
      | Ok py_dict =>
          let? name := ok_or (missing_key "name" "field dictionary") (find_name py_dict "name") in
          let? datatype := ok_or (missing_key "datatype" "field dictionary") (find_name py_dict "datatype") in
          let? nullable := optional_key py_dict "nullable" extract_bool in
          let? dict_id := optional_key py_dict "dict_id" (extract_signed 64) in
          let? dict_is_ordered := optional_key py_dict "dict_is_ordered" extract_bool in
          let qualifier := any_to_string <$> find_name py_dict "qualifier" in
          let field_name := any_to_string name in
          let? field_datatype := any_to_datatype datatype in
          Ok (mkBPyField
            match dict_id with
            | Some id => Field_new_dict field_name field_datatype (default false nullable) id (default false dict_is_ordered)
            | None => Field_new field_name field_datatype (default false nullable)
            end qualifier)
      | _ => Err "Could not convert to Field class"
      end
  end.

(** [BPyField::new]. *)
Definition BPyField_new (name : string) (datatype : PyAny) (nullable : bool) (qualifier : option string)
    : PyResult BPyField :=
  let? native_datatype := any_to_datatype datatype in
  Ok (mkBPyField (Field_new name native_datatype nullable) qualifier).

(** [BPySchema::new], with the metadata of the schema. *)
Definition BPySchema_new (args : list PyAny) (kwargs : option (list (PyAny * PyAny)))
    : PyResult (Schema * gmap string string) :=
  let? arrow_fields := rmapM (λ arg, let? field := extract_field arg in Ok (arrow_field field)) args in
  let? metadata := kwargs_to_string_map kwargs in
  Ok (mkSchema arrow_fields, metadata).

(** DataFusion's schemas, and the text of its errors. *)
Class DFSchemas (DFSchema : Type) := {
  dfschema_try_from_qualified : string → Schema → DFResult DFSchema;
  dfschema_empty : DFSchema;
  dfschema_new : list (option string * string * DataType * bool) → DFResult DFSchema;
  dfschema_join : DFSchema → DFSchema → DFResult DFSchema;
  df_error_to_string : DataFusionError → string;
}.

(** [BPyDFSchema::new]: a schema with its qualifier, or fields. *)
Definition BPyDFSchema_new {DFSchema} `{DFSchemas DFSchema} (qualifier : option string) (schema : option Schema)
    (args : list PyAny) : PyResult DFSchema :=
  match qualifier, schema with
  | Some qual, Some sch =>
      match args with
      | [] => map_err df_error_to_string (dfschema_try_from_qualified qual sch)
      | _ => Err "When a qualifier and schema are supplied no additional fields are allowd in *args"
      end
  | Some _, None => Err "When passing a qualifier a schema must also be supplied"
  | None, Some _ => Err "When passing a schema a qualifier must also be supplied"
  | None, None =>
      match args with
      | [] => Ok dfschema_empty
      | _ =>
          let? py_fields := rmapM any_to_bpyfield args in
          map_err df_error_to_string (dfschema_new (List.map (λ f,
            (PyTypes.qualifier f, field_name (arrow_field f), field_data_type (arrow_field f),
             field_nullable (arrow_field f))) py_fields))
      end
  end.
Definition BPyDFSchema_join {DFSchema} `{DFSchemas DFSchema} (self schema : DFSchema) : PyResult DFSchema :=
  map_err df_error_to_string (dfschema_join self schema).

(** ** scalar.rs *)

(** A scalar of a numpy class. *)
Definition numpy_scalar (qual_name : string) (ob : PyAny) : PyResult ScalarValue :=
  let named s := bool_decide (qual_name = s) in
  if named "int8" then let? x := extract_signed 8 ob in Ok (SV_Int8 (Some x))
  else if named "int32" then let? x := extract_signed 32 ob in Ok (SV_Int32 (Some x))
  else if named "int16" then let? x := extract_signed 16 ob in Ok (SV_Int16 (Some x))
  else if named "int64" then let? x := extract_signed 64 ob in Ok (SV_Int64 (Some x))
  else if named "uint8" then let? x := extract_unsigned 8 ob in Ok (SV_UInt8 (Some x))
  else if named "uint16" then let? x := extract_unsigned 16 ob in Ok (SV_UInt16 (Some x))
  else if named "uint32" then let? x := extract_unsigned 32 ob in Ok (SV_UInt32 (Some x))
  else if named "uint64" then let? x := extract_unsigned 64 ob in Ok (SV_UInt64 (Some x))
  else if named "float64" || named "float_" then let? x := extract_float 64 ob in Ok (SV_Float64 (Some x))
  else if named "float32" then let? x := extract_float 32 ob in Ok (SV_Float32 (Some x))
  else if named "bool_" then let? x := extract_bool ob in Ok (SV_Boolean (Some x))
  else if named "str_" then let? x := extract_str ob in Ok (SV_Utf8 (Some x))
  else if named "ndarray" then
    let? np_dtype := getattr ob "dtype" in
    let? name := getattr np_dtype "name" in
    let? _ := extract_str name in
    let? shape := getattr ob "shape" in
    let? items := extract_tuple shape in
    let? _ := rmapM (extract_signed 64) items in
    Err "numpy.ndarray is unimplemented"
  else Err ("Numpy type '" +:+ qual_name +:+ "' not yet implemented").

(** A scalar of a builtin class. *)
Definition builtin_scalar (qual_name : string) (ob : PyAny) : PyResult ScalarValue :=
  let named s := bool_decide (qual_name = s) in
  if named "int" then let? x := extract_signed 64 ob in Ok (SV_Int64 (Some x))
  else if named "float" then let? x := extract_float 64 ob in Ok (SV_Float64 (Some x))
  else if named "str" then let? x := extract_str ob in Ok (SV_Utf8 (Some x))
  else Err ("Builtin type '" +:+ qual_name +:+ "' not yet implemented").

(** [FromPyObject for Scalar], on a stack of some depth: for the class
    [ballista.Scalar] it calls itself on the same object. *)
Fixpoint extract_scalar (stack : nat) (ob : PyAny) : PyResult ScalarValue :=
  match stack with
  | 0%nat => Panic "stack overflow"
  | S stack =>
      let? qual_name := class_name ob "__qualname__" in
      let? module_name := class_name ob "__module__" in
      if bool_decide (module_name = "numpy") then numpy_scalar qual_name ob
      else if bool_decide (module_name = "builtins") then builtin_scalar qual_name ob
      else if bool_decide (module_name = "ballista") then
        if bool_decide (qual_name = "Scalar") then extract_scalar stack ob
        else Err ("Ballista type '" +:+ qual_name +:+ "' is not supported as a literal scalar value")
      else Err ("Types from the module '" +:+ module_name +:+ "' are not supported. If you would like to have support added please file an issue at https://github.com/ballista-compute/ballista")
  end.
End python.

(** ** Facts *)

(** A value whose integer fits its type; no nulls and no lists. *)
Definition literal_value (v : ScalarValue) : Prop :=
  match v with
  | SV_Int8 (Some x) => in_s 8 x | SV_Int16 (Some x) => in_s 16 x
  | SV_Int32 (Some x) => in_s 32 x | SV_Int64 (Some x) => in_s 64 x
  | SV_UInt8 (Some x) => in_u 8 x | SV_UInt16 (Some x) => in_u 16 x
  | SV_UInt32 (Some x) => in_u 32 x | SV_UInt64 (Some x) => in_u 64 x
  | SV_Float32 (Some _) | SV_Float64 (Some _) | SV_Boolean (Some _) | SV_Utf8 (Some _) => True
  | _ => False
  end.

Section facts.
Context {PyAny : Type} `{PythonOk PyAny}.

(** Decides the conditional that is evaluated next. *)
Ltac arm := match goal with H : (if ?b then _ else _) = Ok _ |- _ => destruct b end.

Lemma numpy_literal qual ob v : numpy_scalar qual ob = Ok v → literal_value v.
Proof.
  unfold numpy_scalar. cbv zeta. intros E.
  repeat (arm; [res_inv; simpl; eauto using extract_signed_range, extract_unsigned_range|]). done.
Qed.

Lemma builtin_literal qual ob v : builtin_scalar qual ob = Ok v → literal_value v.
Proof.
  unfold builtin_scalar. cbv zeta. intros E.
  repeat (arm; [res_inv; simpl; eauto using extract_signed_range|]). done.
Qed.

Lemma extract_literal stack ob v : extract_scalar stack ob = Ok v → literal_value v.
Proof.
  induction stack as [|stack IH]; [done|]. cbn [extract_scalar]. intros E. res_inv.
  repeat case_bool_decide; eauto using numpy_literal, builtin_literal; done.
Qed.

Lemma literal_wf v : literal_value v → wf_scalar v ∧ is_ok (scalar_value_to_proto v) = true.
Proof. destruct v as [[]|[]|[]|[]|[]|[]|[]|[]|[]|[]|[]|[]| | | | | |]; simpl; try done; by split. Qed.
End facts.

(** ** Properties *)

(** C39 — The literals of Python are typed: a value that is extracted from an
    object has an integer that fits the type it is given, whatever the object
    and the depth of the stack, and it can be sent: encoding it gives a message
    that decodes to the value. *)
Theorem python_literals_typed {PyAny} `{PythonOk PyAny} stack (ob : PyAny) v :
  extract_scalar stack ob = Ok v →
  literal_value v ∧ ∃ p, scalar_value_to_proto v = Ok p ∧ proto_to_scalar_value p = Ok v.
Proof.
  intros Hl%extract_literal. split; [done|]. destruct (literal_wf v Hl) as [Hw Hp].
  destruct (scalar_value_to_proto v) as [p| |] eqn:Ep; [|done..]. exists p. split; [done|].
  rewrite (scalar_roundtrip_aux _ Hw _ Ep). by destruct v as [[]|[]|[]|[]|[]|[]|[]|[]|[]|[]|[]|[]| | | | | |].
Qed.

(** The extraction of a literal needs one call only, and its outcome does
    not depend on the depth of the stack, unless the class of the object is
    called [ballista.Scalar]: then it calls itself on the same object until
    the stack is exhausted. *)
Theorem scalar_extraction_recursion {PyAny} `{Python PyAny} (ob : PyAny) qual module :
  class_name ob "__qualname__" = Ok qual → class_name ob "__module__" = Ok module →
  (module = "ballista" ∧ qual = "Scalar" → ∀ stack, extract_scalar stack ob = Panic "stack overflow") ∧
  (¬ (module = "ballista" ∧ qual = "Scalar") → ∀ stack, extract_scalar (S stack) ob = extract_scalar 1 ob).
Proof.
  intros Hq Hm. split.
  - intros [-> ->]. induction stack as [|stack IH]; [done|]. cbn [extract_scalar]. by rewrite Hq, Hm.
  - intros Hn stack. cbn [extract_scalar]. rewrite Hq, Hm. repeat case_bool_decide; try done. by destruct Hn.
Qed.

(** The types the module's constants are named after. *)
Definition constant_types : list (string * DataType) :=
  [("Null", DT_Null); ("Bool", DT_Boolean); ("Int8", DT_Int8); ("Int16", DT_Int16);
   ("Int32", DT_Int32); ("Int64", DT_Int64); ("UInt8", DT_UInt8); ("UInt16", DT_UInt16);
   ("UInt32", DT_UInt32); ("UInt64", DT_UInt64); ("Float16", DT_Float16); ("Float32", DT_Float32);
   ("Float64", DT_Float64); ("Binary", DT_Binary); ("LargeBinary", DT_LargeBinary); ("Utf8", DT_Utf8);
   ("LargeUtf8", DT_LargeUtf8)].

(** The constants of the module are the types of their names but for five:
    [Null] and [Bool] are floats, and [LargeBinary], [Utf8] and [LargeUtf8] are
    [Binary]; and the function [LargeList] makes an ordinary list. *)
Theorem datatype_constants f :
  Forall2 (λ c n, c.1 = n.1 ∧ (c.2 = n.2 ↔ c.1 ∉ ["Null"; "Bool"; "LargeBinary"; "Utf8"; "LargeUtf8"]))
    module_constants constant_types ∧
  LargeList f = List f.
Proof.
  split; [|done]. unfold module_constants, constant_types.
  repeat (constructor; [split; [done|];
    split; [intros E; first [discriminate E|apply (bool_decide_unpack _); vm_compute; exact I]
           |intros E; first [reflexivity|exfalso; apply E, (bool_decide_unpack _); vm_compute; exact I]]|]).
  constructor.
Qed.

(** ** Witnesses

    Objects that are integers and strings, with the names of their class. *)
Module SamplePython.
Inductive Obj := O_Int (n : Z) | O_Str (s : string) | O_Class (module qual : string).
Definition class_of (o : Obj) : Obj :=
  match o with
  | O_Int _ => O_Class "builtins" "int"
  | O_Str _ => O_Class "builtins" "str"
  | O_Class m q => O_Class m q
  end.
#[export] Instance python : Python Obj := {|
  extract_datatype _ := Err "TypeError"; extract_time_unit _ := Err "TypeError";
  extract_interval_unit _ := Err "TypeError"; extract_field _ := Err "TypeError"; extract_expr _ := Err "TypeError";
  extract_str o := match o with O_Str s => Ok s | _ => Err "TypeError" end;
  extract_bool _ := Err "TypeError";
  extract_signed w o := match o with
    | O_Int n => if bool_decide (in_s w n) then Ok n else Err "OverflowError" | _ => Err "TypeError" end;
  extract_unsigned w o := match o with
    | O_Int n => if bool_decide (in_u w n) then Ok n else Err "OverflowError" | _ => Err "TypeError" end;
  extract_float _ _ := Err "TypeError"; extract_dict _ := Err "TypeError"; extract_tuple _ := Err "TypeError";
  getattr o a := match o with
    | O_Class m q => Ok (if bool_decide (a = "__module__") then O_Str m
                         else if bool_decide (a = "__qualname__") then O_Str q else o)
    | o => Ok (class_of o) end;
  any_str _ := Err "TypeError"; any_to_string _ := ""; type_str _ := Err "TypeError"; err_to_string s := s |}.
#[export] Instance python_ok : PythonOk Obj.
Proof. split; intros w [m| |] n; simpl; try done; case_bool_decide; try done; by intros [= <-]. Qed.
End SamplePython.
Import SamplePython.

Lemma python_literals_typed_witness :
  literal_value (SV_Int64 (Some 42%Z)) ∧
  ∃ p, scalar_value_to_proto (SV_Int64 (Some 42%Z)) = Ok p ∧ proto_to_scalar_value p = Ok (SV_Int64 (Some 42%Z)).
Proof. apply (python_literals_typed 1 (O_Int 42)). vm_compute. reflexivity. Defined.

Lemma scalar_extraction_recursion_witness :
  extract_scalar 1000 (O_Class "ballista" "Scalar") = Panic "stack overflow".
Proof.
  apply (scalar_extraction_recursion (O_Class "ballista" "Scalar") "Scalar" "ballista"); try reflexivity. by split.
Defined.
