(* ===== verification/PyExpr.v ===== *)
(** * Expressions from Python

    Models the expressions of the Python bindings: src/python/src/expression.rs
    with its [CaseBuilder], functions.rs and partition.rs.

    PyO3 is the parameter of PyTypes.v; the constructors of DataFusion's
    expressions and its own case builder are parameters with what they are
    documented to build.  The builder's methods change its state also when they
    fail.

    The theorems: an expression that is built from Python is decoded by the
    scheduler as it was built, but for [DISTINCT], and which functions the
    scheduler refuses; what a case builder builds, and what it keeps of calls
    that failed. *)

From S2P Require Import Prelude Keys Proto Arrow Scalar Expr LogicalPlan Backend PyTypes.

(** ** DataFusion's constructors *)

(** The operators ([+], [and], [lt], ...) by the [Operator] they are for, and
    the functions of [logical_plan]. *)
Class ExprApi := {
  expr_op : Operator → Expr → Expr → Expr;
  expr_not : Expr → Expr;
  expr_alias : Expr → string → Expr;
  lp_col : string → Expr;
  lp_aggregate : AggregateFunction → Expr → Expr;
  lp_count_distinct : Expr → Expr;
  lp_call : BuiltinScalarFunction → list Expr → Expr;
}.
Class ExprApiOk `{ExprApi} := {
  expr_op_spec op l r : expr_op op l r = E_BinaryExpr l op r;
  expr_not_spec e : expr_not e = E_Not e;
  expr_alias_spec e n : expr_alias e n = E_Alias e n;
  lp_col_spec n : lp_col n = E_Column n;
  lp_aggregate_spec f e : lp_aggregate f e = E_AggregateFunction f [e] false;
  lp_count_distinct_spec e : lp_count_distinct e = E_AggregateFunction AF_Count [e] true;
  lp_call_spec f es : lp_call f es = E_ScalarFunction f es;
}.

(** [case(expr).when(..)] or [when(..)], further [when]s, and the two ends. *)
Class CaseApi (B : Type) := {
  case_start : option Expr → Expr → Expr → B;
  case_when : B → Expr → Expr → B;
  case_otherwise : B → Expr → DFResult Expr;
  case_end : B → DFResult Expr;
}.
Class CaseApiOk (B : Type) `{CaseApi B} := {
  case_parts : B → option Expr * list (Expr * Expr);
  case_start_parts c w t : case_parts (case_start c w t) = (c, [(w, t)]);
  case_when_parts b w t : case_parts (case_when b w t) = ((case_parts b).1, (case_parts b).2 ++ [(w, t)]);
  case_otherwise_spec b e r : case_otherwise b e = Ok r → r = E_Case (case_parts b).1 (case_parts b).2 (Some e);
  case_end_spec b r : case_end b = Ok r → r = E_Case (case_parts b).1 (case_parts b).2 None;
}.

Section expressions.
Context {PyAny : Type} `{Python PyAny} `{ExprApi} `{ExprBuilders} {B : Type} `{CaseApi B}.
(** The depth of the stack, and the texts of DataFusion's errors. *)
Context (stack : nat) (df_text : DataFusionError → string).

(** ** expression.rs *)

(** [from_tuple]. *)
Definition from_tuple (value : list PyAny) : PyResult (list Expr) := rmapM extract_expr value.

(** [any_to_expression]. *)
Definition any_to_expression (any : PyAny) : PyResult Expr :=
  match extract_expr any with
  | Ok expr => Ok expr
  | _ =>
      match extract_scalar stack any with
      | Ok scalar_value => Ok (E_Literal scalar_value)
      | Panic m => Panic m
      | Err _ =>
          let type_name :=
            match object_class_name any with
            | Ok name => name
            | Err err => "<Could not get class name:" +:+ err_to_string err +:+ ">"
            | Panic m => m
            end in
          Err ("The rhs type " +:+ type_name +:+ " could not be converted to an expression.")
      end
  end.

(** The number protocol: the operator of each method. *)
Definition number_method (op : Operator) (lhs : Expr) (rhs : PyAny) : PyResult Expr :=
  let? rhs_expr := any_to_expression rhs in Ok (expr_op op lhs rhs_expr).
Definition py_add := number_method Op_Plus.
Definition py_sub := number_method Op_Minus.
Definition py_truediv := number_method Op_Divide.
Definition py_mul := number_method Op_Multiply.
Definition py_and := number_method Op_And.
Definition py_or := number_method Op_Or.
Definition py_invert (self : Expr) : PyResult Expr := Ok (expr_not self).

(** [__richcmp__]. *)
Inductive CompareOp := Cmp_Lt | Cmp_Le | Cmp_Eq | Cmp_Ne | Cmp_Gt | Cmp_Ge.
Definition compare_operator (op : CompareOp) : Operator :=
  match op with
  | Cmp_Lt => Op_Lt | Cmp_Le => Op_LtEq | Cmp_Eq => Op_Eq | Cmp_Ne => Op_NotEq | Cmp_Gt => Op_Gt | Cmp_Ge => Op_GtEq
  end.
Definition richcmp (self : Expr) (other : PyAny) (op : CompareOp) : PyResult Expr :=
  let? other_expr := any_to_expression other in Ok (expr_op (compare_operator op) self other_expr).

(** [BPyExpr::new], [alias] and [between]. *)
Definition BPyExpr_new (expr : PyAny) : PyResult Expr := any_to_expression expr.
Definition alias (self : Expr) (name : string) : PyResult Expr := Ok (expr_alias self name).
Definition between (self : Expr) (low high : PyAny) (negated : bool) : PyResult Expr :=
  let? low_expr := any_to_expression low in
  let? high_expr := any_to_expression high in
  Ok (E_Between self negated low_expr high_expr).

(** *** CaseBuilder *)

Record CaseBuilder := mkCaseBuilder {
  case_expr : option Expr; when_expr : list Expr; then_expr : list Expr;
  else_expr : option Expr; built_expr : option Expr }.

Definition CaseBuilder_new (case_expr : option Expr) : CaseBuilder := mkCaseBuilder case_expr [] [] None None.

Abbreviation CM A := (MR CaseBuilder string A).

Definition is_built (self : CaseBuilder) : bool := bool_decide (is_Some (built_expr self)).
Definition already_used : string :=
  "This case builder has already been used, use 'expr' attribute to access expression or create a new builder using case function".
Definition is_built_error : CM unit := λ self, (if is_built self then Err already_used else Ok (), self).

(** [when_impl]. *)
Definition when_impl (when_ then_ : Expr) : CM unit :=
  let! _ := is_built_error in
  λ self, (Ok (), mkCaseBuilder (case_expr self) (when_expr self ++ [when_]) (then_expr self ++ [then_])
                    (else_expr self) (built_expr self)).

(** [when]. *)
Definition when_method (when_ then_ : PyAny) : CM unit :=
  let! when_expr := lift (any_to_expression when_) in
  let! then_expr := lift (any_to_expression then_) in
  when_impl when_expr then_expr.

(** [private_build]: the fields are taken out of the builder before DataFusion
    is asked for the expression. *)
Definition private_build : CM Expr := λ self,
  match when_expr self, then_expr self with
  | [], _ => (Err "The builder must have at least one when then clause added before building", self)
  | _ :: whens, [] =>
      (Panic "removal index (is 0) should be < len (is 0)",
       mkCaseBuilder None whens [] (else_expr self) (built_expr self))
  | w :: whens, t :: thens =>
      let builder := foldl (λ b p, case_when b p.1 p.2) (case_start (case_expr self) w t) (zip whens thens) in
      let build_result := match else_expr self with Some e => case_otherwise builder e | None => case_end builder end in
      match build_result with
      | Ok expr => (Ok expr, mkCaseBuilder None [] [] None (Some expr))
      | Err e => (Err (df_text e), mkCaseBuilder None [] [] None (built_expr self))
      | Panic m => (Panic m, mkCaseBuilder None [] [] None (built_expr self))
      end
  end.

(** [otherwise]. *)
Definition otherwise (else_ : PyAny) : CM Expr :=
  let! other_size_expr := lift (any_to_expression else_) in
  let! _ := is_built_error in
  let! _ := λ self, (Ok (), mkCaseBuilder (case_expr self) (when_expr self) (then_expr self)
                              (Some other_size_expr) (built_expr self)) in
  private_build.

(** [build]. *)
Definition build : CM Expr := λ self,
  match built_expr self with
  | Some expr => (Ok expr, self)
  | None => private_build self
  end.

(** ** functions.rs and partition.rs *)

Definition col (name : string) : Expr := lp_col name.
Definition lit (literal : PyAny) : PyResult Expr :=
  let? literal_value := extract_scalar stack literal in Ok (E_Literal literal_value).
Definition sum (value : Expr) : Expr := lp_aggregate AF_Sum value.
Definition avg (value : Expr) : Expr := lp_aggregate AF_Avg value.
Definition min (value : Expr) : Expr := lp_aggregate AF_Min value.
Definition max (value : Expr) : Expr := lp_aggregate AF_Max value.
Definition count (value : Expr) : Expr := lp_aggregate AF_Count value.
Definition count_distinct (expr : Expr) : Expr := lp_count_distinct expr.
Definition concat (expr : list PyAny) : PyResult Expr :=
  let? expressions := transform_tuple_to_uniform_type extract_expr expr id in Ok (lp_call BF_Concat expressions).
Definition array (args : list PyAny) : PyResult Expr :=
  let? args := transform_tuple_to_uniform_type extract_expr args id in Ok (lp_call BF_Array args).

(** [when] and [case]. *)
Definition when (when_ then_ : PyAny) : PyResult CaseBuilder :=
  let builder := CaseBuilder_new None in
  let? when_expr := any_to_expression when_ in
  let? then_expr := any_to_expression then_ in
  match when_impl when_expr then_expr builder with
  | (Ok _, builder) => Ok builder
  | _ => Panic "called `Result::unwrap()` on an `Err` value"
  end.
Definition case (case_ : PyAny) : PyResult CaseBuilder :=
  let? case_expr := any_to_expression case_ in Ok (CaseBuilder_new (Some case_expr)).

(** The functions [unary_scalar_expr_pyfunction!] generates. *)
Definition unary_functions : list (string * BuiltinScalarFunction) :=
  [("sqrt", BF_Sqrt); ("sin", BF_Sin); ("cos", BF_Cos); ("tan", BF_Tan); ("asin", BF_Asin); ("acos", BF_Acos);
   ("atan", BF_Atan); ("floor", BF_Floor); ("ceil", BF_Ceil); ("round", BF_Round); ("trunc", BF_Trunc);
   ("abs", BF_Abs); ("signum", BF_Signum); ("exp", BF_Exp); ("ln", BF_Log); ("log2", BF_Log2);
   ("log10", BF_Log10); ("lower", BF_Lower); ("trim", BF_Trim); ("upper", BF_Upper)].
Definition unary_scalar_expr (f : BuiltinScalarFunction) (e : Expr) : Expr := unary_function f e.

(** [BPyPartitioning]. *)
Definition hash (n : Z) (exprs : list PyAny) : PyResult Partitioning :=
  let? hash_exprs := transform_tuple_to_uniform_type extract_expr exprs id in Ok (Hash hash_exprs n).
Definition round_robin (n : Z) : Partitioning := RoundRobinBatch n.
End expressions.

(** ** Facts *)

Section facts.
Context {PyAny : Type} `{PythonOk PyAny} `{ExprApiOk} `{ExprBuildersOk} {B : Type} `{CaseApiOk B}.
Context (stack : nat) (df_text : DataFusionError → string).

(** An object that is no expression or one that can be sent. *)
Definition argument (o : PyAny) : Prop := ∀ e, extract_expr o = Ok e → supported e.

Lemma any_supported o e : argument o → any_to_expression stack o = Ok e → supported e.
Proof.
  intros Ha. unfold any_to_expression. destruct (extract_expr o) as [x| |] eqn:Ex.
  - intros [= <-]. by apply Ha.
  - destruct (extract_scalar stack o) as [v| |] eqn:Es; try done. intros [= <-].
    by apply literal_wf, (extract_literal stack o).
  - destruct (extract_scalar stack o) as [v| |] eqn:Es; try done. intros [= <-].
    by apply literal_wf, (extract_literal stack o).
Qed.

Lemma number_supported op l o e :
  named_operator op = true → supported l → argument o → number_method stack op l o = Ok e → supported e.
Proof.
  intros Hop Hl Ho. unfold number_method. destruct (any_to_expression stack o) as [r| |] eqn:Er; try done.
  intros [= <-]. rewrite expr_op_spec. split_and!; [done|done|]. by eapply any_supported.
Qed.

(** The expressions in a builder can be sent. *)
Record builder_supported (b : CaseBuilder) : Prop := {
  bs_case e : case_expr b = Some e → supported e;
  bs_when : Forall supported (when_expr b);
  bs_then : Forall supported (then_expr b);
  bs_else e : else_expr b = Some e → supported e;
  bs_built e : built_expr b = Some e → supported e;
}.

Lemma fold_parts b l :
  case_parts (foldl (λ b p, case_when b p.1 p.2) b l) = ((case_parts b).1, (case_parts b).2 ++ l).
Proof.
  revert b. induction l as [|[w t] l IH]; intros b; simpl; [rewrite app_nil_r; by destruct (case_parts b)|].
  rewrite IH, case_when_parts. simpl. by rewrite <-app_assoc.
Qed.

(** What [private_build] builds, and what is left of the builder. *)
Lemma private_build_ok b e b' :
  private_build df_text b = (Ok e, b') →
  e = E_Case (case_expr b) (zip (when_expr b) (then_expr b)) (else_expr b) ∧
  b' = mkCaseBuilder None [] [] None (Some e).
Proof.
  unfold private_build. destruct (when_expr b) as [|w ws], (then_expr b) as [|t ts]; try done.
  destruct (else_expr b) as [els|].
  - destruct (case_otherwise _ els) as [r| |] eqn:Er; try done. intros [= <- <-]. split; [|done].
    apply case_otherwise_spec in Er. by rewrite fold_parts, case_start_parts in Er.
  - destruct (case_end _) as [r| |] eqn:Er; try done. intros [= <- <-]. split; [|done].
    apply case_end_spec in Er. by rewrite fold_parts, case_start_parts in Er.
Qed.

Lemma foldr_supported_pairs ws ts :
  Forall supported ws → Forall supported ts →
  foldr (λ p acc, (match p with (w, t) => supported w ∧ supported t end) ∧ acc) True (zip ws ts).
Proof.
  intros Hw. revert ts. induction Hw as [|w ws Hw _ IH]; intros [|t ts] Ht; try done.
  apply Forall_cons in Ht as [Ht Hts]. simpl. auto.
Qed.

Lemma private_build_supported b r b' :
  builder_supported b → private_build df_text b = (r, b') →
  builder_supported b' ∧ ∀ e, r = Ok e → supported e.
Proof.
  intros Hb E. assert (∀ e, r = Ok e → supported e) as Hr.
  { intros e ->. apply private_build_ok in E as [-> _]. split_and!.
    - destruct (case_expr b) eqn:Ec; [by apply (bs_case b Hb)|done].
    - by apply foldr_supported_pairs; apply Hb.
    - destruct (else_expr b) eqn:Ec; [by apply (bs_else b Hb)|done]. }
  split; [|done]. unfold private_build in E.
  destruct (when_expr b) as [|w ws] eqn:Ew, (then_expr b) as [|t ts] eqn:Et; simplify_eq; try done.
  - split; simpl; [done| |constructor|apply Hb|apply Hb]. pose proof (bs_when b Hb) as Hw. rewrite Ew in Hw.
    by apply Forall_cons in Hw as [_ ?].
  - destruct (match else_expr b with Some _ => _ | None => _ end); simplify_eq;
      (split; simpl; [done|constructor|constructor|done|]); try apply Hb. intros e [= <-]. by apply Hr.
Qed.

Lemma when_supported w t b :
  builder_supported b → argument w → argument t → builder_supported (when_method stack w t b).2.
Proof.
  intros Hb Hw Ht. unfold when_method. rewrite bindM_lift.
  destruct (any_to_expression stack w) as [we| |] eqn:Ew; try done. rewrite bindM_lift.
  destruct (any_to_expression stack t) as [te| |] eqn:Et; try done.
  unfold when_impl, bindM, is_built_error. destruct (is_built b); [done|].
  destruct Hb as [Hc Hws Hts He Hbu]. split; simpl; try done;
    (apply Forall_app; split; [done|constructor; [eauto using any_supported|constructor]]).
Qed.

Lemma otherwise_supported o b r b' :
  builder_supported b → argument o → otherwise stack df_text o b = (r, b') →
  builder_supported b' ∧ ∀ e, r = Ok e → supported e.
Proof.
  intros Hb Ho. unfold otherwise. rewrite bindM_lift.
  destruct (any_to_expression stack o) as [x| |] eqn:Ex; [|by intros [= <- <-]..].
  unfold bindM at 1, is_built_error. destruct (is_built b); [by intros [= <- <-]|].
  intros E. apply private_build_supported in E; [done|]. destruct Hb. split; try done. simpl.
  intros e [= <-]. by eapply any_supported.
Qed.

Lemma build_supported b r b' :
  builder_supported b → build df_text b = (r, b') → builder_supported b' ∧ ∀ e, r = Ok e → supported e.
Proof.
  intros Hb. unfold build. destruct (built_expr b) as [x|] eqn:Ex; [|by apply private_build_supported].
  intros [= <- <-]. split; [done|]. intros e [= <-]. by apply (bs_built b Hb).
Qed.
End facts.

(** ** Properties *)

Section properties.
Context {PyAny : Type} `{PythonOk PyAny} `{ExprApiOk} `{ExprBuildersOk} {B : Type} `{CaseApiOk B}.
Context (stack : nat) (df_text : DataFusionError → string).

(** C40 — What is built from Python can be sent: the operators, comparisons,
    [alias], [between], the case builder and the aggregates give expressions
    that the messages carry, if they are given such; a literal always is one.
    Of the scalar functions, [asin], [acos], [signum], [ln], [log2], [concat]
    and [array] never give one, the others do.  The scheduler decodes such an expression as it
    was built, up to what the messages drop; so it takes [count_distinct] for
    [count]. *)
Theorem python_expressions_sent :
  (∀ name, supported (col name)) ∧
  (∀ o e, argument o → any_to_expression stack o = Ok e → supported e) ∧
  (∀ op l o e, op ∈ [Op_Plus; Op_Minus; Op_Divide; Op_Multiply; Op_And; Op_Or] → supported l → argument o →
    number_method stack op l o = Ok e → supported e) ∧
  (∀ op l o e, supported l → argument o → richcmp stack l o op = Ok e → supported e) ∧
  (∀ l e, supported l → (py_invert l = Ok e ∨ ∃ name, alias l name = Ok e) → supported e) ∧
  (∀ l lo hi neg e, supported l → argument lo → argument hi → between stack l lo hi neg = Ok e → supported e) ∧
  (∀ b, builder_supported b →
    (∀ w t, argument w → argument t → builder_supported (when_method stack w t b).2) ∧
    (∀ o r b', argument o → otherwise stack df_text o b = (r, b') →
      builder_supported b' ∧ ∀ e, r = Ok e → supported e) ∧
    (∀ r b', build df_text b = (r, b') → builder_supported b' ∧ ∀ e, r = Ok e → supported e)) ∧
  (∀ e, supported e → Forall supported [sum e; avg e; min e; max e; count e; count_distinct e]) ∧
  (∀ name f e, (name, f) ∈ unary_functions → supported e →
    (supported (unary_scalar_expr f e) ↔ name ∉ ["asin"; "acos"; "signum"; "ln"; "log2"])) ∧
  (∀ os e, concat os = Ok e ∨ array os = Ok e → ¬ supported e) ∧
  (∀ e, supported e → ∃ p, expr_to_proto e = Ok p ∧ proto_to_expr p = Ok (norm_expr e)) ∧
  (∀ e, norm_expr (count_distinct e) = norm_expr (count e)).
Proof.
  split_and!.
  - intros name. unfold col. by rewrite lp_col_spec.
  - apply any_supported.
  - intros op l o e Hop. apply number_supported. clear -Hop. rewrite !elem_of_cons, elem_of_nil in Hop.
    by destruct Hop as [->|[->|[->|[->|[->|[->|[]]]]]]].
  - intros op l o e Hl Ho E. apply (number_supported stack (compare_operator op) l o e); try done. by destruct op.
  - intros l e Hl [[= <-]|(name & [= <-])]; [by rewrite expr_not_spec|by rewrite expr_alias_spec].
  - intros l lo hi neg e Hl Hlo Hhi. unfold between.
    destruct (any_to_expression stack lo) as [x| |] eqn:Ex; try done.
    destruct (any_to_expression stack hi) as [y| |] eqn:Ey; try done.
    intros [= <-]. split_and!; eauto using any_supported.
  - intros b Hb. split_and!; intros; [by apply when_supported|by eapply otherwise_supported|by eapply build_supported].
  - intros e He. unfold sum, avg, min, max, count, count_distinct. rewrite !lp_aggregate_spec, lp_count_distinct_spec.
    by repeat constructor.
  - intros name f e Hin He. unfold unary_scalar_expr. rewrite unary_function_spec. unfold unary_functions in Hin.
    rewrite !elem_of_cons, elem_of_nil in Hin.
    repeat (destruct Hin as [[= -> ->]|Hin]; [split; [intros (Hd & _); first [discriminate Hd|apply (bool_decide_unpack _); vm_compute; exact I]
      |intros Hn; first [split; [reflexivity|split; [discriminate|by split]]|exfalso; apply Hn, (bool_decide_unpack _); vm_compute; exact I]]|]).
    done.
  - intros os e [E|E]; unfold concat, array in E; destruct (transform_tuple_to_uniform_type _ _ _); try done;
      injection E as <-; rewrite lp_call_spec; intros (Hd & _); discriminate Hd.
  - apply expr_trip.
  - intros e. unfold count_distinct, count. by rewrite lp_count_distinct_spec, lp_aggregate_spec.
Qed.

(** The operations of a builder, with their outcome dropped. *)
Inductive builder_op := Op_when (w t : PyAny) | Op_otherwise (o : PyAny) | Op_build.
Definition run_op (op : builder_op) (b : CaseBuilder) : CaseBuilder :=
  match op with
  | Op_when w t => (when_method stack w t b).2
  | Op_otherwise o => (otherwise stack df_text o b).2
  | Op_build => (build df_text b).2
  end.

Lemma built_locked b e op : built_expr b = Some e → run_op op b = b.
Proof.
  intros Hb. assert (is_built b = true) as Hi by (unfold is_built; rewrite Hb; by apply bool_decide_eq_true_2).
  destruct op as [w t|o|]; simpl.
  - unfold when_method. rewrite bindM_lift. destruct (any_to_expression stack w); try done.
    rewrite bindM_lift. destruct (any_to_expression stack t); try done.
    unfold when_impl, bindM, is_built_error. by rewrite Hi.
  - unfold otherwise. rewrite bindM_lift. destruct (any_to_expression stack o); try done.
    unfold bindM, is_built_error. by rewrite Hi.
  - unfold build. by rewrite Hb.
Qed.

(** A builder to which the clauses were added. *)
Definition with_clauses (case_ : option Expr) (clauses : list (Expr * Expr)) : CaseBuilder :=
  foldl (λ b c, (when_impl c.1 c.2 b).2) (CaseBuilder_new case_) clauses.

Lemma with_clauses_eq case_ clauses :
  with_clauses case_ clauses = mkCaseBuilder case_ clauses.*1 clauses.*2 None None.
Proof.
  unfold with_clauses, CaseBuilder_new.
  assert (∀ ws ts, foldl (λ b c, (when_impl c.1 c.2 b).2) (mkCaseBuilder case_ ws ts None None) clauses =
    mkCaseBuilder case_ (ws ++ clauses.*1) (ts ++ clauses.*2) None None) as Hgo; [|apply (Hgo [] [])].
  induction clauses as [|[w t] clauses IH]; intros ws ts; csimpl; [by rewrite !app_nil_r|].
  rewrite IH. by rewrite <-!app_assoc.
Qed.

Lemma zip_fst_snd {A C} (l : list (A * C)) : zip l.*1 l.*2 = l.
Proof. induction l as [|[x y] l IH]; [done|]. csimpl. by rewrite IH. Qed.

(** A case builder builds the expression of its clauses: whatever clauses
    were added, [build] gives, if DataFusion accepts it, the case expression
    with these clauses in their order and without an else branch.  From then on
    no operation changes the builder, and [build] gives the same expression
    again. *)
Theorem case_builder_builds case_ clauses e b :
  build df_text (with_clauses case_ clauses) = (Ok e, b) →
  e = E_Case case_ clauses None ∧
  ∀ ops, foldl (flip run_op) b ops = b ∧ build df_text b = (Ok e, b).
Proof.
  rewrite with_clauses_eq. unfold build at 1. cbn [built_expr]. intros E.
  apply private_build_ok in E as [He ->]. cbn [case_expr when_expr then_expr else_expr] in He.
  rewrite zip_fst_snd in He. split; [done|]. intros ops. split; [|done].
  induction ops as [|op ops IH]; [done|]. cbn [foldl]. unfold flip at 2. by rewrite (built_locked _ e).
Qed.

(** What a builder keeps of a call that failed: [otherwise] on a builder
    without clauses is refused but its argument stays, and an expression that
    is built later has it as its else branch; and an expression that DataFusion
    refuses is forgotten with all its clauses, while the builder can be used
    again as if it were new. *)
Theorem case_builder_failures case_ o x clauses :
  any_to_expression stack o = Ok x →
  (∃ m, otherwise stack df_text o (CaseBuilder_new case_) = (Err m, mkCaseBuilder case_ [] [] (Some x) None) ∧
    ∀ e b, build df_text (foldl (λ b c, (when_impl c.1 c.2 b).2) (mkCaseBuilder case_ [] [] (Some x) None) clauses) = (Ok e, b) →
      e = E_Case case_ clauses (Some x)) ∧
  (∀ m b, clauses ≠ [] → build df_text (with_clauses case_ clauses) = (Err m, b) → b = CaseBuilder_new None).
Proof.
  intros Hx. split.
  - eexists. split.
    + unfold otherwise. rewrite bindM_lift, Hx. done.
    + intros e b E.
      assert (∀ ws ts, foldl (λ b c, (when_impl c.1 c.2 b).2) (mkCaseBuilder case_ ws ts (Some x) None) clauses =
        mkCaseBuilder case_ (ws ++ clauses.*1) (ts ++ clauses.*2) (Some x) None) as Hgo.
      { clear E. induction clauses as [|[w t] clauses IH]; intros ws ts; csimpl; [by rewrite !app_nil_r|].
        rewrite IH. by rewrite <-!app_assoc. }
      rewrite Hgo in E. unfold build in E. cbn [built_expr] in E. apply private_build_ok in E as [He _].
      cbn [case_expr when_expr then_expr else_expr app] in He. by rewrite zip_fst_snd in He.
  - intros m b Hne. rewrite with_clauses_eq. unfold build, private_build. cbn [built_expr when_expr then_expr else_expr].
    destruct clauses as [|[w t] clauses]; [done|]. csimpl. destruct (case_end _); try done. by intros [= <- <-].
Qed.
End properties.

(** ** Witnesses *)

Module SampleExpr.
#[export] Existing Instance SamplePython.python.
#[export] Existing Instance SamplePython.python_ok.
#[export] Existing Instance direct_builders.
#[export] Existing Instance direct_builders_ok.
#[export] Instance api : ExprApi := {|
  expr_op op l r := E_BinaryExpr l op r; expr_not := E_Not; expr_alias := E_Alias; lp_col := E_Column;
  lp_aggregate f e := E_AggregateFunction f [e] false; lp_count_distinct e := E_AggregateFunction AF_Count [e] true;
  lp_call := E_ScalarFunction |}.
#[export] Instance api_ok : ExprApiOk.
Proof. by split. Qed.
(** A builder that refuses more than two clauses. *)
#[export] Instance case_api : CaseApi (option Expr * list (Expr * Expr)) := {|
  case_start c w t := (c, [(w, t)]);
  case_when b w t := (b.1, b.2 ++ [(w, t)]);
  case_otherwise b e := Ok (E_Case b.1 b.2 (Some e));
  case_end b := if (length b.2 <=? 2)%nat then Ok (E_Case b.1 b.2 None) else Err (DF_Other "too many clauses") |}.
#[export] Instance case_api_ok : CaseApiOk (option Expr * list (Expr * Expr)).
Proof.
  refine {| case_parts := id |}; try done.
  - intros b e r [= <-]. done.
  - intros b r. simpl. destruct (_ <=? _)%nat; [|done]. by intros [= <-].
Defined.
End SampleExpr.
Import SampleExpr.

Definition sample_text (_ : DataFusionError) : string := "error".

Lemma case_builder_builds_witness :
  ∃ e b, build sample_text (with_clauses (Some (E_Column "a")) [(E_Column "x", E_Column "y")]) = (Ok e, b) ∧
    e = E_Case (Some (E_Column "a")) [(E_Column "x", E_Column "y")] None ∧
    build sample_text b = (Ok e, b).
Proof.
  eexists _, _. split; [reflexivity|].
  destruct (case_builder_builds 1 sample_text (Some (E_Column "a")) [(E_Column "x", E_Column "y")]
    (E_Case (Some (E_Column "a")) [(E_Column "x", E_Column "y")] None)
    (mkCaseBuilder None [] [] None (Some (E_Case (Some (E_Column "a")) [(E_Column "x", E_Column "y")] None))))
    as [He Hl]; [reflexivity|].
  split; [exact He|]. apply (Hl []).
Defined.

Lemma case_builder_failures_witness :
  ∃ m, otherwise 1 sample_text (SamplePython.O_Int 7) (CaseBuilder_new None) =
      (Err m, mkCaseBuilder None [] [] (Some (E_Literal (SV_Int64 (Some 7%Z)))) None) ∧
    ∀ e b, build sample_text (when_impl (E_Column "x") (E_Column "y")
        (mkCaseBuilder None [] [] (Some (E_Literal (SV_Int64 (Some 7%Z)))) None)).2 = (Ok e, b) →
      e = E_Case None [(E_Column "x", E_Column "y")] (Some (E_Literal (SV_Int64 (Some 7%Z)))).
Proof.
  apply (case_builder_failures 1 sample_text None (SamplePython.O_Int 7) (E_Literal (SV_Int64 (Some 7%Z)))
    [(E_Column "x", E_Column "y")]).
  reflexivity.
Defined.

Lemma python_expressions_sent_witness :
  ∃ e, number_method 1 Op_Plus (col "a") (SamplePython.O_Int 7) = Ok e ∧ supported e ∧
    ∃ p, expr_to_proto e = Ok p ∧ proto_to_expr p = Ok (norm_expr e).
Proof.
  eexists. split; [reflexivity|].
  destruct (python_expressions_sent 1 sample_text)
    as (Hcol & _ & Hop & _ & _ & _ & _ & _ & _ & _ & Hsent & _).
  assert (supported (E_BinaryExpr (E_Column "a") Op_Plus (E_Literal (SV_Int64 (Some 7%Z))))) as Hs.
  { apply (Hop Op_Plus (col "a") (SamplePython.O_Int 7)); [by left|apply Hcol|by intros ? ?|reflexivity]. }
  split; [exact Hs|]. apply (Hsent _ Hs).
Defined.
