(* ===== verification/PyClient.v ===== *)
(** * The client from Python

    Models the data frames and the context of the Python bindings
    (src/python/src/dataframe.rs and context.rs): wrappers of the client of
    Client.v that convert their arguments and turn errors into exceptions.

    The foreign interface of Arrow and the classes of pyarrow are parameters.

    The theorems: a CSV table is registered only under a name and with an ASCII
    delimiter, and with the options that were given; collecting gives a list of
    the batches of the client's stream, column by column, or an exception. *)

From S2P Require Import Prelude Keys Proto Arrow Scalar Expr LogicalPlan SchedTypes ExecPlan.
From S2P Require Import Planner Physical Backend Utils Batch State Server Flight Client PyTypes PyExpr.

(** Arrow's export of an array, the modules of Python, pyarrow's
    [Array._import_from_c] and [RecordBatch.from_arrays], and [list]. *)
Class PyArrow (PyAny : Type) := {
  py_import : string → PyResult unit;
  array_to_raw : Column → result string (Z * Z);
  import_from_c : Z * Z → PyResult PyAny;
  from_arrays : list PyAny → list string → PyResult PyAny;
  builtin_list : list PyAny → PyResult PyAny;
}.

Section py_client.
Context {PyAny : Type} `{Python PyAny} `{ExprApi} {DFSchema : Type} `{DataFusion DFSchema} `{QueryContext DFSchema}.
Context `{LocalContext DFSchema} `{ExecutionPlanMethods} `{ErrorText} `{Arrays}.
(** The depth of the stack, and the number of records DataFusion infers a
    schema from if it is not told. *)
Context (stack : nat) (default_infer_max_records : Z).
Abbreviation Frame := (BallistaDataFrame (DFSchema := DFSchema)).
Abbreviation State := (BallistaContextState (DFSchema := DFSchema)).
Abbreviation PC A := (MR State string A).

(** [wrap_err]. *)
Definition wrap_err {A} (r : Result A) : PyResult A := map_err display_error r.
Definition wrapped {A} (m : M State A) : PC A := map_errM display_error m.

(** ** dataframe.rs *)

Definition py_select_columns (self : Frame) (columns : list PyAny) : PyResult Frame :=
  let? col_vec := tuple_to_uniform_type extract_str columns in wrap_err (select_columns self col_vec).
Definition py_select (self : Frame) (expr : list PyAny) : PyResult Frame :=
  let? expressions := transform_tuple_to_uniform_type extract_expr expr id in
  wrap_err (Client.select self expressions).
Definition py_filter (self : Frame) (expr : PyAny) : PyResult Frame :=
  let? filter_expr := any_to_expression stack expr in wrap_err (Client.filter self filter_expr).
Definition py_aggregate (self : Frame) (group_expr aggr_expr : list PyAny) : PyResult Frame :=
  let? group_by := rmapM (any_to_expression stack) group_expr in
  let? aggr_by := rmapM (any_to_expression stack) aggr_expr in
  wrap_err (Client.aggregate self group_by aggr_by).
Definition py_limit (self : Frame) (n : Z) : PyResult Frame := wrap_err (Client.limit self n).
Definition py_sort (self : Frame) (expr : list PyAny) : PyResult Frame :=
  let? expressions := transform_tuple_to_uniform_type extract_expr expr id in
  wrap_err (Client.sort self expressions).
Definition py_join (self right : Frame) (left_cols right_cols : list PyAny) (join_type : string) : PyResult Frame :=
  Err "Not implemented on ballista dataframe yet".
Definition py_repartition (self : Frame) (partitioning_scheme : Partitioning) : PyResult Frame :=
  wrap_err (Client.repartition self partitioning_scheme).
Definition py_explain (self : Frame) (verbose : bool) : PyResult Frame := wrap_err (Client.explain self verbose).

(** The loop of [async_collect] over the stream, in at most [polls] turns. *)
Fixpoint drain (polls : nat) (stream : MemoryStream.MemoryStream) : option (PyResult (list RecordBatch)) :=
  match polls with
  | 0%nat => None
  | S polls =>
      match MemoryStream.poll_next stream with
      | (None, _) => Some (Ok [])
      | (Some (Ok batch), stream) => rmap (cons batch) <$> drain polls stream
      | (Some (Err e), _) => Some (Err e)
      | (Some (Panic m), _) => Some (Panic m)
      end
  end.

(** [async_collect], on the outcome of the client's [collect]. *)
Definition async_collect (stream : Result MemoryStream.MemoryStream) (polls : nat)
    : option (PyResult (list RecordBatch)) :=
  match wrap_err stream with
  | Ok stream => drain polls stream
  | Err e => Some (Err e)
  | Panic m => Some (Panic m)
  end.

(** [to_py_array], [to_py_batch] and [to_py]. *)
Definition to_py_array `{PyArrow PyAny} (array : Column) : PyResult PyAny :=
  let? pointers := array_to_raw array in
  let? _ := py_import "pyarrow" in
  import_from_c pointers.
Definition to_py_batch `{PyArrow PyAny} (batch : RecordBatch) : PyResult PyAny :=
  let columns := zip (rb_columns batch) (schema_fields (rb_schema batch)) in
  let? py_arrays := rmapM (λ '(array, _), to_py_array array) columns in
  from_arrays py_arrays (List.map (λ '(_, field), field_name field) columns).
Definition to_py `{PyArrow PyAny} (batches : list RecordBatch) : PyResult PyAny :=
  let? _ := py_import "pyarrow" in
  let? _ := py_import "builtins" in
  let? py_batches := rmapM to_py_batch batches in
  builtin_list py_batches.

(** [BPyDataFrame::collect], with the outcome of making a runtime; the
    exception of [async_collect] is wrapped once more. *)
Definition py_collect `{PyArrow PyAny} (runtime : result string unit) (stream : Result MemoryStream.MemoryStream)
    (polls : nat) : option (PyResult PyAny) :=
  match runtime with
  | Ok _ => (λ r, let? batches := map_err err_to_string r in to_py batches) <$> async_collect stream polls
  | Err e => Some (Err e)
  | Panic m => Some (Panic m)
  end.
Definition py_schema (self : Frame) : DFSchema := Client.schema self.

(** ** context.rs *)

(** [BPyBallistaContext::new]. *)
Definition py_context_new (host : string) (port : Z) (kwds : option (list (PyAny * PyAny))) : PyResult State :=
  let? settings :=
    match kwds with
    | Some kwargs =>
        let? kvs := rmapM (λ '(k, v),
            let? py_key := map_err (λ err, "kwargs keys must be convertible to a string using __str__: " +:+
              err_to_string err) (any_str k) in
            let? py_val := map_err (λ err, "kwargs values must be convertible to a string using __str__: " +:+
              err_to_string err) (any_str v) in
            let? key := extract_str py_key in let? value := extract_str py_val in
            Ok (key, value)) kwargs in
        Ok (foldl (λ m kv, <[kv.1 := kv.2]> m) ∅ kvs)
    | None => Ok ∅
    end in
  Ok (remote host port settings).

(** A character as the byte of a delimiter: its code point must be ASCII. *)
Definition delimiter_byte (delimiter : Z) : PyResult Z :=
  if (delimiter <? 128)%Z then Ok delimiter
  else Err "Invalid delimiter {}, currently ballista only accepts ascii as csv delimiters".

Definition py_read_parquet (path : string) : PC Frame := wrapped (read_parquet path).
Definition py_read_csv (path : string) (has_header : bool) (delimiter : Z) (file_extension : string)
    (schema : option Schema) (schema_infer_max_records : Z) : PC Frame :=
  let! byte := lift (delimiter_byte delimiter) in
  wrapped (read_csv path (mkCsvScanOptions has_header byte schema schema_infer_max_records file_extension)).
Definition py_register_table (name : string) (table : Frame) : PC unit := wrapped (register_table name table).

(** [register_csv]: a schema that is given replaces the inference. *)
Definition py_register_csv (name path : string) (has_header : bool) (delimiter : Z) (file_extension : string)
    (schema : option Schema) (schema_infer_max_records : Z) : PC unit :=
  if bool_decide (name = "") then lift (Err "Must provide table name")
  else
    let! byte := lift (delimiter_byte delimiter) in
    let options := mkCsvScanOptions has_header byte schema
      match schema with Some _ => default_infer_max_records | None => schema_infer_max_records end file_extension in
    wrapped (register_csv name path options).
Definition py_register_parquet (name path : string) : PC unit := wrapped (register_parquet name path).
Definition py_sql (statement : string) : PC Frame := wrapped (sql statement).

(** ** Facts *)

(** Collecting ends and gives the batches of the stream in order. *)
Lemma drain_all bs schema i polls :
  (length bs - i < polls)%nat →
  drain polls (MemoryStream.mkMemoryStream bs schema None i) = Some (Ok (drop i bs)).
Proof.
  revert i. induction polls as [|polls IH]; intros i Hp; [lia|]. cbn [drain]. unfold MemoryStream.poll_next.
  cbn [MemoryStream.data MemoryStream.index]. destruct (bs !! i) as [b|] eqn:Eb.
  - unfold MemoryStream.project. cbn [MemoryStream.projection MemoryStream.schema].
    apply lookup_lt_Some in Eb as Hlt. rewrite IH by lia. simpl. by rewrite (drop_S _ _ _ Eb).
  - apply lookup_ge_None in Eb. by rewrite drop_ge.
Qed.

(** Collecting the stream that a completed job gives returns its batches, after
    one poll more than there are batches. *)
Lemma async_collect_returns bs schema :
  async_collect (Ok (MemoryStream.mkMemoryStream bs schema None 0)) (S (length bs)) = Some (Ok bs).
Proof. unfold async_collect, wrap_err. cbn [map_err]. rewrite drain_all by lia. done. Qed.

Lemma to_py_batch_ok `{PyArrow PyAny} batch (object : Column → PyAny) :
  length (rb_columns batch) = length (schema_fields (rb_schema batch)) →
  (∀ c, c ∈ rb_columns batch → to_py_array c = Ok (object c)) →
  to_py_batch batch = from_arrays (object <$> rb_columns batch) (field_name <$> schema_fields (rb_schema batch)).
Proof.
  unfold to_py_batch. intros Hlen Hobj.
  assert (∀ cs fs, length cs = length fs → (∀ c, c ∈ cs → to_py_array c = Ok (object c)) →
    rmapM (λ '(array, _), to_py_array array) (zip cs fs) = Ok (object <$> cs) ∧
    List.map (λ '(_, field), field_name field) (zip cs fs) = field_name <$> fs) as Hgo.
  { clear. induction cs as [|c cs IH]; intros [|f fs] Hl Ho; try done.
    destruct (IH fs) as [IH1 IH2]; [by injection Hl|intros c' Hc; apply Ho; by right|].
    csimpl. rewrite Ho by (by left). rewrite IH1. split; [done|]. by rewrite IH2. }
  destruct (Hgo _ _ Hlen Hobj) as [-> ->]. done.
Qed.

(** What Python gets of a completed job: a list with one pyarrow batch per
    batch, made of its columns and their names in order; if a column cannot be
    handed over, an exception and no list. *)
Theorem py_collect_spec `{PyArrow PyAny} bs schema (object : Column → PyAny) (batch : RecordBatch → PyAny) :
  py_import "pyarrow" = Ok () → py_import "builtins" = Ok () →
  let collected := py_collect (Ok ()) (Ok (MemoryStream.mkMemoryStream bs schema None 0)) (S (length bs)) in
  ((∀ b, b ∈ bs → length (rb_columns b) = length (schema_fields (rb_schema b)) ∧
      (∀ c, c ∈ rb_columns b → to_py_array c = Ok (object c)) ∧
      from_arrays (object <$> rb_columns b) (field_name <$> schema_fields (rb_schema b)) = Ok (batch b)) →
    collected = Some (builtin_list (batch <$> bs))) ∧
  (∀ b, b ∈ bs → is_ok (to_py_batch b) = false → is_ok <$> collected = Some false).
Proof.
  intros Hpa Hbi. unfold py_collect. rewrite async_collect_returns. simpl. unfold to_py. rewrite Hpa, Hbi.
  split.
  - intros Hb. f_equal. rewrite (rmapM_ok _ batch); [done|]. apply Forall_forall. intros b Hin. destruct (Hb b Hin) as (Hl & Hc & Hf).
    by rewrite (to_py_batch_ok _ _ Hl Hc).
  - intros b Hin Hb. f_equal. destruct (rmapM to_py_batch bs) eqn:E; [exfalso|done|done].
    apply rmapM_Forall2 in E. apply list_elem_of_lookup in Hin as [i Hi].
    destruct (Forall2_lookup_l _ _ _ _ _ E Hi) as (y & _ & Hy). by rewrite Hy in Hb.
Qed.

(** A CSV table that is registered from Python is the one that is read with the
    given header flag, delimiter and extension; a table without a name or with
    a delimiter outside ASCII is refused and nothing is registered. *)
Theorem py_register_csv_spec name path has_header delimiter extension schema records state :
  let m := py_register_csv name path has_header delimiter extension schema records in
  (name = "" ∨ (128 ≤ delimiter)%Z → is_ok (m state).1 = false ∧ (m state).2 = state) ∧
  (∀ full plan, name ≠ "" → (delimiter < 128)%Z → fs_canonicalize path = Ok full →
    local_read_csv full (mkCsvScanOptions has_header delimiter schema
      match schema with Some _ => default_infer_max_records | None => records end extension) = Ok plan →
    (m state).1 = Ok () ∧ tables (m state).2 = <[name := plan]> (tables state)).
Proof.
  intros m. subst m. unfold py_register_csv. split.
  - intros Hbad. case_bool_decide as Hn; [done|]. destruct Hbad as [?|Hd]; [done|].
    rewrite bindM_lift. unfold delimiter_byte. by rewrite (proj2 (Z.ltb_ge _ _)).
  - intros full plan Hn Hd Hf Hr. rewrite bool_decide_false by done. rewrite bindM_lift. unfold delimiter_byte.
    rewrite (proj2 (Z.ltb_lt _ _)) by done. unfold wrapped, map_errM, register_csv, read_csv, bindM. simpl.
    rewrite Hf. simpl. rewrite Hr. done.
Qed.
End py_client.
