(* ===== verification/PyModule.v ===== *)
(** * The Python module

    What the Python binding registers (src/python/src/lib.rs, and [init] of
    functions.rs and datatypes.rs), the texts of its objects and their JSON
    ([__str__], [to_json] and [from_json] of datatypes.rs, field.rs, schema.rs,
    partition.rs and expression.rs).  JSON and the texts of Arrow and DataFusion
    values are parameters.

    The theorems: nothing the module registers hides anything else, its names
    are those of its stub, and the text of a schema is the list of its fields. *)

From S2P Require Import Prelude Keys Proto Arrow Scalar Expr LogicalPlan SchedTypes ExecPlan Utils PyTypes PyExpr.

(** ** Registration *)

(** An attribute of a module: a class, a function or a type. *)
Inductive Attribute :=
| At_Class
| At_Function
| At_Constant (t : DataType).

(** [PyModule]: its attributes in the order they were added. *)
Abbreviation PyModule := (list (string * Attribute)).
Definition add_functions (names : list string) (m : PyModule) : PyModule :=
  m ++ List.map (λ name, (name, At_Function)) names.
Definition add_classes (names : list string) (m : PyModule) : PyModule :=
  m ++ List.map (λ name, (name, At_Class)) names.

(** [functions::init]. *)
Definition functions_init (module : PyModule) : PyModule :=
  add_functions ["col"; "lit"; "sum"; "avg"; "min"; "max"; "count"; "count_distinct"; "concat"; "when"; "case"; "array";
    "sqrt"; "sin"; "cos"; "tan"; "asin"; "acos"; "atan"; "floor"; "ceil"; "round"; "trunc"; "abs"; "signum"; "exp"; "ln";
    "log2"; "log10"; "lower"; "trim"; "upper"] module.

(** [datatypes::init]. *)
Definition datatypes_init (m : PyModule) : PyModule :=
  let m := add_functions ["Date"; "Decimal"; "Duration"; "Dictionary"; "FixedSizeBinary"; "FixedSizeList"; "Interval";
    "LargeList"; "List"; "Struct"; "Time"; "Timestamp"; "Union"] m in
  let m := add_classes ["DataType"; "TimeUnit"; "IntervalUnit"] m in
  m ++ List.map (λ c, (c.1, At_Constant c.2)) module_constants.

(** The module [ballista]; the names of the classes are those of their
    [pyclass] attribute. *)
Definition ballista_module : PyModule :=
  let m := add_classes ["BallistaContext"; "Expression"; "DataFrame"; "CaseBuilder"; "Schema"; "Field"; "Partitioning";
    "DFSchema"] [] in
  datatypes_init (functions_init m).

(** The names that the stub of the module declares
    (src/python/ballista/__init__.pyi). *)
Definition stub_names : list string :=
  ["TimeUnit"; "IntervalUnit"; "Expression"; "Field"; "DataType";
   "Null"; "Bool"; "Int8"; "Int16"; "Int32"; "Int64"; "UInt8"; "UInt16"; "UInt32"; "UInt64"; "Float16"; "Float32"; "Float64";
   "Binary"; "LargeBinary"; "Utf8"; "LargeUtf8";
   "List"; "LargeList"; "FixedSizeList"; "FixedSizeBinary"; "Interval"; "Date"; "Time"; "Duration"; "Timestamp"; "Union";
   "Struct"; "Dictionary"; "Decimal"; "CaseBuilder";
   "col"; "lit"; "sum"; "min"; "max"; "count"; "count_distinct"; "concat"; "when"; "avg"; "case"; "array";
   "sqrt"; "sin"; "cos"; "tan"; "asin"; "acos"; "atan"; "floor"; "ceil"; "round"; "trunc"; "abs"; "signum"; "exp"; "ln";
   "log2"; "log10"; "lower"; "trim"; "upper";
   "Partitioning"; "Schema"; "DFSchema"; "DataFrame"; "BallistaContext"].

(** ** Texts and JSON *)

(** The texts of Arrow and DataFusion values, and [serde_json]. *)
Class PyText := {
  display_datatype : DataType → string;
  is_numeric : DataType → bool;
  debug_expr : Expr → string;
  debug_partitioning : Partitioning → string;
}.
Class Json (T : Type) := {
  to_string : T → result string string;
  from_str : string → result string T;
}.

Section texts.
Context `{PyText}.

Definition display_bool (b : bool) : string := if b then "true" else "false".

(** The text of an Arrow field, in [__str__] of fields and schemas. *)
Definition arrow_field_str (f : Field) : string :=
  "Field{ name: " +:+ field_name f +:+ ", datatype: " +:+ display_datatype (field_data_type f) +:+
  ", nullable: " +:+ display_bool (field_nullable f) +:+ "}".
Definition field_str (self : BPyField) : string := arrow_field_str (arrow_field self).

(** The loop of [BPySchema::__str__]. *)
Fixpoint schema_str_loop (fields : list Field) (msg : string) (first : bool) : string :=
  match fields with
  | [] => msg
  | field :: rest =>
      let msg := if first then msg else msg +:+ ", " +:+ newline in
      schema_str_loop rest (msg +:+ arrow_field_str field) false
  end.
Definition schema_str (schema : Schema) : string :=
  schema_str_loop (schema_fields schema) ("Schema: [" +:+ newline) true +:+ newline +:+ "]".

Definition datatype_str (self : DataType) : string := display_datatype self.
Definition expr_str (self : Expr) : string := debug_expr self.
Definition partitioning_str (self : Partitioning) : string := debug_partitioning self.

(** The accessors of a field. *)
Definition field_is_nullable (self : BPyField) : bool := field_nullable (arrow_field self).
Definition field_datatype (self : BPyField) : DataType := field_data_type (arrow_field self).
(** [Into<DFField>]: the parts of [DFField::new]. *)
Definition field_into_dffield (self : BPyField) : option string * string * DataType * bool :=
  (qualifier self, field_name (arrow_field self), field_data_type (arrow_field self), field_nullable (arrow_field self)).

(** [BPyDataType]. *)
Definition datatype_new {PyAny} `{Python PyAny} (primitive : PyAny) : PyResult DataType := any_to_datatype primitive.
Definition datatype_is_numeric (self : DataType) : bool := is_numeric self.
End texts.

(** [to_json] and [from_json]: of types, fields and schemas. *)
Definition datatype_to_json `{Json DataType} (self : DataType) : PyResult string := to_string self.
Definition datatype_from_json `{Json DataType} (json : string) : PyResult DataType := from_str json.
Definition field_to_json `{Json BPyField} (self : BPyField) : PyResult string := to_string self.
Definition field_from_json `{Json BPyField} (json : string) : PyResult BPyField := from_str json.
Definition schema_to_json `{Json Schema} (self : Schema) : PyResult string := to_string self.
Definition schema_from_json `{Json Schema} (json : string) : PyResult Schema := from_str json.

(** The loop after the first field. *)
Lemma schema_str_rest `{PyText} fields msg :
  schema_str_loop fields msg false =
    msg +:+ match fields with [] => "" | _ => (", " +:+ newline) +:+ join (", " +:+ newline) (List.map arrow_field_str fields) end.
Proof.
  revert msg. induction fields as [|f fields IH]; intros msg; [by rewrite string_app_nil_r|]. simpl schema_str_loop.
  rewrite IH. destruct fields as [|f' fields]; cbn [List.map join].
  - rewrite string_app_nil_r, <-!string_app_assoc. done.
  - by rewrite <-!string_app_assoc.
Qed.

(** ** Properties *)

(** The names a module registers are distinct, so that no attribute hides
    another, and they are exactly those the stub declares; every function of
    one expression that the binding defines is among them. *)
Theorem module_complete :
  NoDup ballista_module.*1 ∧ ballista_module.*1 ≡ₚ stub_names ∧
  ∀ name f, (name, f) ∈ unary_functions → (name, At_Function) ∈ ballista_module.
Proof.
  assert (NoDup ballista_module.*1) as Hnd by (apply (bool_decide_unpack _); vm_compute; exact I).
  split_and!; [done| |].
  - apply NoDup_Permutation; [done|apply (bool_decide_unpack _); vm_compute; exact I|].
    assert (Forall (λ x, x ∈ stub_names) ballista_module.*1 ∧ Forall (λ x, x ∈ ballista_module.*1) stub_names) as [H1 H2].
    { split; apply (bool_decide_unpack _); vm_compute; exact I. }
    rewrite !Forall_forall in H1, H2. split; auto.
  - assert (Forall (λ x, x ∈ ballista_module.*1) unary_functions.*1) as Hin by (apply (bool_decide_unpack _); vm_compute; exact I).
    assert (∀ name, name ∈ unary_functions.*1 → (name, At_Function) ∈ ballista_module) as Hf.
    { intros name. unfold unary_functions. csimpl. rewrite !elem_of_cons, elem_of_nil. intros Hname.
      apply list_elem_of_In. repeat (destruct Hname as [->|Hname]; [vm_compute; tauto|]). done. }
    intros name f Hnf. apply Hf. apply list_elem_of_fmap. by exists (name, f).
Qed.

(** The text of a schema is that of its fields, separated. *)
Theorem schema_str_spec `{PyText} schema :
  schema_str schema =
    "Schema: [" +:+ newline +:+ join (", " +:+ newline) (List.map arrow_field_str (schema_fields schema)) +:+ newline +:+ "]".
Proof.
  unfold schema_str. destruct (schema_fields schema) as [|f fields]; [reflexivity|]. simpl schema_str_loop.
  rewrite schema_str_rest. destruct fields as [|f' fields]; cbn [List.map join].
  - by rewrite string_app_nil_r, <-!string_app_assoc.
  - by rewrite <-!string_app_assoc.
Qed.
