(* ===== verification/Cluster.v ===== *)
(** * The cluster the scheduler's state stands for

    The specification of [SchedulerState]: what the entries of a namespace
    mean.  A cluster is a set of registered executors, the recorded tasks
    with their status, the plans of the stages and the status of the jobs.
    [rep ns s c] says that the store [s] represents the cluster [c] in the
    namespace [ns]; the operations of state/mod.rs are proved to act on the
    cluster as they should, each on the table it concerns. *)

From S2P Require Import Prelude Keys Proto Arrow Scalar Expr LogicalPlan SchedTypes ExecPlan.
From S2P Require Import Planner Physical Backend State Assign.

(** A task: the job, the stage and the partition. *)
Abbreviation TaskId := (string * Z * Z)%type.

Record Cluster := mkCluster {
  cl_executors : gmap string ExecutorMeta;
  cl_tasks : gmap TaskId (option TaskStatusStatus);
  cl_plans : gmap (string * Z) ExecutionPlan;
  cl_jobs : gmap string JobStatus }.

Definition set_executor (m : ExecutorMeta) (c : Cluster) : Cluster :=
  mkCluster (<[em_id m := m]> (cl_executors c)) (cl_tasks c) (cl_plans c) (cl_jobs c).
Definition set_task (t : TaskId) (o : option TaskStatusStatus) (c : Cluster) : Cluster :=
  mkCluster (cl_executors c) (<[t := o]> (cl_tasks c)) (cl_plans c) (cl_jobs c).
Definition set_plan (st : string * Z) (p : ExecutionPlan) (c : Cluster) : Cluster :=
  mkCluster (cl_executors c) (cl_tasks c) (<[st := p]> (cl_plans c)) (cl_jobs c).
Definition set_job (job : string) (js : JobStatus) (c : Cluster) : Cluster :=
  mkCluster (cl_executors c) (cl_tasks c) (cl_plans c) (<[job := js]> (cl_jobs c)).

(** ** Tables

    The entries under a prefix form a table: every entry belongs to one
    element of the map, stored at its key as [good] says. *)
Section table.
Context {K V : Type} `{Countable K} (prefix : string) (key : K → string) (good : K → V → bytes → Prop).

Record table (entries : gmap string bytes) (m : gmap K V) : Prop := {
  table_scan k b : entries !! k = Some b → starts_with prefix k = true →
    ∃ x v, k = key x ∧ m !! x = Some v ∧ good x v b;
  table_read x v : m !! x = Some v → ∃ b, entries !! key x = Some b ∧ good x v b;
}.

Lemma table_insert entries m x v b :
  (∀ y w b', good y w b' → key x = key y → x = y) →
  good x v b → table entries m → table (<[key x := b]> entries) (<[x := v]> m).
Proof.
  intros Hinj Hg [Hs Hr]. split.
  - intros k b' Hk Hp. destruct (decide (k = key x)) as [->|Hne].
    + rewrite lookup_insert_eq in Hk. simplify_eq. exists x, v. by rewrite lookup_insert_eq.
    + rewrite lookup_insert_ne in Hk by done.
      destruct (Hs k b' Hk Hp) as (y & w & -> & Hy & Hgy). exists y, w. split_and!; [done| |done].
      by rewrite lookup_insert_ne by congruence.
  - intros y w Hy. destruct (decide (x = y)) as [<-|Hne].
    + rewrite lookup_insert_eq in Hy. simplify_eq. exists b. by rewrite lookup_insert_eq.
    + rewrite lookup_insert_ne in Hy by done. destruct (Hr y w Hy) as (b' & Hb' & Hgy).
      exists b'. split; [|done]. rewrite lookup_insert_ne; [done|].
      intros He. by eapply Hne, Hinj.
Qed.

Lemma table_frame entries m k b :
  (∀ x, starts_with prefix (key x) = true) → starts_with prefix k = false →
  table entries m → table (<[k := b]> entries) m.
Proof.
  intros Hpre Hk [Hs Hr]. split.
  - intros k' b' Hk' Hp. apply Hs; [|done]. by rewrite lookup_insert_ne in Hk' by congruence.
  - intros x v Hx. destruct (Hr x v Hx) as (b' & Hb' & Hg). exists b'. split; [|done].
    rewrite lookup_insert_ne; [done|]. intros ->. by rewrite Hpre in Hk.
Qed.
End table.

(** ** What the messages carry *)

(** The protocol buffer messages of the values the scheduler stores: integers
    within the width of their fields make a valid message, a message that was
    decoded is valid, the default message has no variant set. *)
Definition task_message (t : TaskId) (o : option TaskStatusStatus) : TaskStatus :=
  let '(job, st, pt) := t in mkTaskStatus (Some (mkPPartitionId job st pt)) o.
Definition task_in_range (t : TaskId) : Prop :=
  let '(job, st, pt) := t in slash_free job ∧ in_u 32 st ∧ in_u 32 pt.
Definition wf_location (l : PPartitionLocation) : Prop :=
  match ppl_partition_id l with
  | Some pid => in_u 32 (ppi_stage_id pid) ∧ in_u 32 (ppi_partition_id pid)
  | None => True
  end ∧
  match ppl_executor_meta l with Some m => in_u 16 (pem_port m) | None => True end.
Definition wf_job_status (js : JobStatus) : Prop :=
  match js_status js with
  | Some (JS_Completed locations) => Forall wf_location locations
  | Some _ => True
  | None => False
  end.

Class Codec `{MessageOk PExecutorMetadata} `{MessageOk JobStatus} `{MessageOk TaskStatus}
    `{Message PPhysicalPlanNode} : Prop := {
  executor_valid m : wf_executor_meta m → valid_message (executor_meta_to_proto m);
  task_valid t o : task_in_range t → valid_message (task_message t o);
  task_decoded_valid b (t : TaskStatus) : decode_protobuf b = Ok t → valid_message t;
  task_running_valid (pid : option PPartitionId) ex :
    valid_message (mkTaskStatus pid None) → valid_message (mkTaskStatus pid (Some (TS_Running ex)));
  job_valid js : wf_job_status js → valid_message js;
  job_default : message_default (T := JobStatus) = mkJobStatus None;
  plan_default : message_default (T := PPhysicalPlanNode) = mkPhysicalPlanNode None;
}.

(** ** Representation *)

Section rep.
Context {S : Type} `{BackendOk S}.
Context `{Codec} `{!MessageOk PPhysicalPlanNode}.
Context `{PhysicalPlanner} `{ExprBuildersOk} `{ExecutionPlanMethodsOk} `{HashOrderOk}.
Context (ns : string) (ns_slash_free : slash_free ns).
Implicit Types (s : S) (c : Cluster).

Definition executor_good (id : string) (m : ExecutorMeta) (b : bytes) : Prop :=
  slash_free id ∧ wf_executor_meta m ∧ em_id m = id ∧
  ∃ q, decode_protobuf b = Ok q ∧ executor_meta_from_proto q = m.
Definition task_good (t : TaskId) (o : option TaskStatusStatus) (b : bytes) : Prop :=
  task_in_range t ∧ decode_protobuf b = Ok (task_message t o).
Definition plan_good (st : string * Z) (p : ExecutionPlan) (b : bytes) : Prop :=
  slash_free st.1 ∧ b ≠ [] ∧ ∃ q, decode_protobuf b = Ok q ∧ proto_to_exec q = Ok p.
Definition job_good (job : string) (js : JobStatus) (b : bytes) : Prop :=
  slash_free job ∧ b ≠ [] ∧ decode_protobuf b = Ok js.

Definition task_key (t : TaskId) : string :=
  let '(job, st, pt) := t in get_task_status_key ns job st pt.
Definition stage_key (st : string * Z) : string := get_stage_plan_key ns st.1 st.2.
Definition stages_prefix : string := "/ballista/" +:+ ns +:+ "/stages".

Record rep s c : Prop := {
  rep_executors : table (get_executors_prefix ns) (get_executor_key ns) executor_good
    (contents s) (cl_executors c);
  rep_tasks : table (get_task_prefix ns) task_key task_good (contents s) (cl_tasks c);
  rep_plans : table stages_prefix stage_key plan_good (contents s) (cl_plans c);
  rep_jobs : table (get_job_prefix ns) (get_job_key ns) job_good (contents s) (cl_jobs c);
}.

(** *** Prefixes *)

Lemma executor_key_prefix id :
  starts_with (get_executors_prefix ns) (get_executor_key ns id) = true.
Proof. apply starts_with_app. Qed.
Lemma job_key_prefix job : starts_with (get_job_prefix ns) (get_job_key ns job) = true.
Proof. apply starts_with_app. Qed.
Lemma task_id_prefix t : starts_with (get_task_prefix ns) (task_key t) = true.
Proof. destruct t as [[job st] pt]. apply task_key_prefix. Qed.
Lemma stage_key_prefix st : starts_with stages_prefix (stage_key st) = true.
Proof.
  destruct st as [job st]. apply starts_with_spec. exists ("/" +:+ job +:+ "/" +:+ pretty st).
  unfold stages_prefix, stage_key. simpl. rewrite <-!string_app_assoc. done.
Qed.

(** An entry of another kind leaves a table alone. *)
Lemma other_kind prefix k (P : Prop) :
  (starts_with prefix (key_of k) = true ↔ P) → ¬ P → starts_with prefix (key_of k) = false.
Proof. intros Hiff Hn. apply not_true_is_false. by rewrite Hiff. Qed.

Lemma rep_frame k b s s' c c' :
  wf_key k → contents s' = <[key_of k := b]> (contents s) → rep s c →
  ((∀ id, k ≠ KExecutor ns id) → cl_executors c' = cl_executors c) →
  ((∀ job st pt, k ≠ KTask ns job st pt) → cl_tasks c' = cl_tasks c) →
  ((∀ job st, k ≠ KStage ns job st) → cl_plans c' = cl_plans c) →
  ((∀ job, k ≠ KJob ns job) → cl_jobs c' = cl_jobs c) →
  ((∃ id, k = KExecutor ns id) →
    table (get_executors_prefix ns) (get_executor_key ns) executor_good (contents s') (cl_executors c')) →
  ((∃ job st pt, k = KTask ns job st pt) →
    table (get_task_prefix ns) task_key task_good (contents s') (cl_tasks c')) →
  ((∃ job st, k = KStage ns job st) →
    table stages_prefix stage_key plan_good (contents s') (cl_plans c')) →
  ((∃ job, k = KJob ns job) →
    table (get_job_prefix ns) (get_job_key ns) job_good (contents s') (cl_jobs c')) →
  rep s' c'.
Proof.
  intros Hwf Hc [Re Rt Rp Rj] Fe Ft Fp Fj Ue Ut Up Uj. split.
  - destruct (decide (starts_with (get_executors_prefix ns) (key_of k) = true)) as [Hk|Hk%not_true_is_false].
    { apply Ue. by apply scan_executors_spec. }
    rewrite Hc, Fe by (intros id ->; cbn [key_of] in Hk; by rewrite executor_key_prefix in Hk).
    apply table_frame; [apply executor_key_prefix|done..].
  - destruct (decide (starts_with (get_task_prefix ns) (key_of k) = true)) as [Hk|Hk%not_true_is_false].
    { apply Ut. by apply scan_tasks_spec. }
    rewrite Hc, Ft by (intros job st pt ->; by rewrite (task_id_prefix (job, st, pt) : starts_with _ (key_of (KTask _ _ _ _)) = _) in Hk).
    apply table_frame; [apply task_id_prefix|done..].
  - destruct (decide (starts_with stages_prefix (key_of k) = true)) as [Hk|Hk%not_true_is_false].
    { apply Up. by apply scan_stages_spec. }
    rewrite Hc, Fp by (intros job st ->; pose proof (stage_key_prefix (job, st)) as X;
      unfold stage_key in X; cbn [key_of fst snd] in *; congruence).
    apply table_frame; [apply stage_key_prefix|done..].
  - destruct (decide (starts_with (get_job_prefix ns) (key_of k) = true)) as [Hk|Hk%not_true_is_false].
    { apply Uj. by apply scan_jobs_spec. }
    rewrite Hc, Fj by (intros job ->; cbn [key_of] in Hk; by rewrite job_key_prefix in Hk).
    apply table_frame; [apply job_key_prefix|done..].
Qed.

Lemma as_usize_u32 x : in_u 32 x → as_usize x = x.
Proof. intros Hx. apply wrap_u_id. by eapply in_u_mono; [..|exact Hx]. Qed.

(** *** The operations *)

(** Only the table of the key's kind changes. *)
Ltac other_tables := try (intros (? & ?); congruence); try (intros (? & ? & ?); congruence);
  try (intros (? & ? & ? & ?); congruence); try (intros; done).

Lemma rep_save_executor m s c :
  wf_executor_meta m → slash_free (em_id m) → rep s c →
  ∃ s', save_executor_metadata ns m s = (Ok (), s') ∧ rep s' (set_executor m c).
Proof.
  intros Hm Hid Hr. unfold save_executor_metadata.
  destruct (put_message _ (get_executor_key ns (em_id m)) (Some LEASE_TIME) s (executor_valid m Hm))
    as (b & s' & E & Hc & Hd & _).
  exists s'. split; [done|].
  apply (rep_frame (KExecutor ns (em_id m)) b s s' c); try done; other_tables.
  - intros Hn. by destruct (Hn (em_id m)).
  - intros _. rewrite Hc. apply table_insert; [|split_and!; try done|by apply rep_executors].
    + intros id m' b' (Hs & _) He.
      assert (KExecutor ns (em_id m) = KExecutor ns id) as [= ->]; [|done].
      by apply key_of_inj.
    + exists (executor_meta_to_proto m). split; [done|]. by apply executor_meta_trip.
Qed.

Lemma rep_put_task t o b s s' c :
  task_in_range t → decode_protobuf b = Ok (task_message t o) →
  contents s' = <[task_key t := b]> (contents s) → rep s c → rep s' (set_task t o c).
Proof.
  intros Ht Hd Hc Hr. destruct t as [[job st] pt]. pose proof Ht as (Hjob & _).
  apply (rep_frame (KTask ns job st pt) b s s' c); try done; other_tables.
  - intros Hn. by destruct (Hn job st pt).
  - intros _. rewrite Hc. apply table_insert; [|done|by apply rep_tasks].
    intros [[job' st'] pt'] o' b' [(Hj & _) _] He.
    assert (KTask ns job st pt = KTask ns job' st' pt') as [= -> -> ->]; [|done].
    by apply key_of_inj.
Qed.

Lemma rep_save_task t o s c :
  task_in_range t → rep s c →
  ∃ s', save_task_status ns (task_message t o) s = (Ok (), s') ∧ rep s' (set_task t o c).
Proof.
  intros Ht Hr. pose proof (task_valid t o Ht) as Hv. destruct t as [[job st] pt].
  pose proof Ht as (Hjob & Hst & Hpt).
  destruct (save_task_status_ok ns (mkPPartitionId job st pt) o s Hv) as (b & s' & E & Hc & Hd).
  exists s'. split; [done|]. simpl in Hc. rewrite !as_usize_u32 in Hc by done.
  by apply (rep_put_task _ o b s s' c).
Qed.

(** A plan the store can hold: the messages carry it. *)
Definition storable (p : ExecutionPlan) : Prop :=
  built_exec p ∧ ∀ q, exec_to_proto p = Ok q → valid_message q.

Lemma exec_to_proto_variant p q : exec_to_proto p = Ok q → q ≠ mkPhysicalPlanNode None.
Proof.
  destruct p as [op cs]. cbn [exec_to_proto]. intros Hq ->. revert Hq.
  destruct op; repeat (case_match || (intros; discriminate)); simplify_eq;
    unfold csv_exec_to_proto, hash_aggregate_to_proto in *;
    repeat match goal with
    | |- context [let? _ := ?r in _] => destruct r; try discriminate
    end.
Qed.

Lemma rep_save_plan job st p s c :
  slash_free job → storable p → rep s c →
  ∃ s', save_stage_plan ns job st p s = (Ok (), s') ∧ rep s' (set_plan (job, st) p c).
Proof.
  intros Hjob [Hb Hv] Hr. destruct (exec_trip p Hb) as (q & Hq & Hp). unfold save_stage_plan.
  rewrite bindM_lift, Hq.
  destruct (put_message q (get_stage_plan_key ns job st) None s (Hv q Hq)) as (b & s' & E & Hc & Hd & Hne).
  exists s'. split; [done|].
  apply (rep_frame (KStage ns job st) b s s' c); try done; other_tables.
  - intros Hn. by destruct (Hn job st).
  - intros _. rewrite Hc. apply (table_insert _ stage_key _ _ _ (job, st)); [|split_and!; [done| |]|by apply rep_plans].
    + intros [job' st'] p' b' (Hj & _) He.
      assert (KStage ns job st = KStage ns job' st') as [= -> ->]; [|done]. by apply key_of_inj.
    + intros Hb0. apply (exec_to_proto_variant p q Hq). rewrite <-plan_default. auto.
    + by exists q.
Qed.

Lemma rep_save_job job js s c :
  slash_free job → wf_job_status js → rep s c →
  ∃ s', save_job_metadata ns job js s = (Ok (), s') ∧ rep s' (set_job job js c).
Proof.
  intros Hjob Hjs Hr. unfold save_job_metadata.
  destruct (put_message js (get_job_key ns job) None s (job_valid js Hjs)) as (b & s' & E & Hc & Hd & Hne).
  exists s'. split; [done|].
  apply (rep_frame (KJob ns job) b s s' c); try done; other_tables.
  - intros Hn. by destruct (Hn job).
  - intros _. rewrite Hc. apply table_insert; [|split_and!; [done| |done]|by apply rep_jobs].
    + intros job' js' b' (Hj & _) He.
      assert (KJob ns job = KJob ns job') as [= ->]; [|done]. by apply key_of_inj.
    + intros Hb0. rewrite (Hne Hb0), job_default in Hjs. done.
Qed.

(** *** Reading *)

Lemma rep_get_plan job st p s c :
  rep s c → cl_plans c !! (job, st) = Some p → get_stage_plan ns job st s = (Ok p, s).
Proof.
  intros Hr Hp. destruct (table_read _ _ _ _ _ (rep_plans _ _ Hr) _ _ Hp) as (b & Hb & _ & Hne & q & Hd & Hq).
  unfold get_stage_plan. unfold stage_key in Hb. simpl in Hb. rewrite (bindM_get_some _ _ _ _ Hb).
  destruct b; [done|]. rewrite bindM_lift, Hd. unfold lift. by rewrite Hq.
Qed.

Lemma rep_get_job job js s c :
  rep s c → cl_jobs c !! job = Some js → get_job_metadata ns job s = (Ok js, s).
Proof.
  intros Hr Hp. destruct (table_read _ _ _ _ _ (rep_jobs _ _ Hr) _ _ Hp) as (b & Hb & _ & Hne & Hd).
  unfold get_job_metadata. rewrite (bindM_get_some _ _ _ _ Hb). destruct b; [done|]. unfold lift. by rewrite Hd.
Qed.

(** What is read for a job is its status. *)
Lemma rep_job_read job js s s' c :
  rep s c → get_job_metadata ns job s = (Ok js, s') → cl_jobs c !! job = Some js.
Proof.
  intros Hr E. unfold get_job_metadata in E. rewrite bindM_get in E.
  destruct (contents s !! get_job_key ns job) as [b|] eqn:Eb; [|done]. simpl in E.
  assert (starts_with (get_job_prefix ns) (get_job_key ns job) = true) as Hp
    by (unfold get_job_key; apply starts_with_app).
  destruct (table_scan _ _ _ _ _ (rep_jobs _ _ Hr) _ _ Eb Hp) as (x & v & Hk & Hx & (_ & Hne & Hd)).
  unfold get_job_key in Hk. do 2 apply string_app_inj_l in Hk. subst x.
  destruct b; [done|]. unfold lift in E. rewrite Hd in E. by injection E as ->.
Qed.

Lemma rep_task_at t o s c :
  rep s c → cl_tasks c !! t = Some o →
  task_in_range t ∧ ∃ b, contents s !! task_key t = Some b ∧ decode_protobuf b = Ok (task_message t o).
Proof.
  intros Hr Ht. destruct (table_read _ _ _ _ _ (rep_tasks _ _ Hr) _ _ Ht) as (b & Hb & Hrange & Hd). eauto.
Qed.

(** The pending tasks of the store are those of the cluster. *)
Lemma rep_pending k pid s c :
  rep s c → pending (contents s) ns k pid →
  ∃ job st pt, pid = mkPPartitionId job st pt ∧ task_in_range (job, st, pt) ∧
    cl_tasks c !! (job, st, pt) = Some None.
Proof.
  intros Hr (b & Hb & Hp & Hd).
  destruct (table_scan _ _ _ _ _ (rep_tasks _ _ Hr) _ _ Hb Hp) as ([[job st] pt] & o & -> & Ht & Hrange & Hd').
  rewrite Hd in Hd'. simpl in Hd'. simplify_eq. exists job, st, pt. done.
Qed.

(** A recorded task is the task of the cluster. *)
Lemma rep_task_unique job st pt t s c :
  rep s c → slash_free job → task_at (contents s) ns job st pt t →
  ∃ o, t = task_message (job, st, pt) o ∧ cl_tasks c !! (job, st, pt) = Some o.
Proof.
  intros Hr Hjob (b & Hb & Hd).
  destruct (table_scan _ _ _ _ _ (rep_tasks _ _ Hr) _ _ Hb (task_key_prefix ns job st pt))
    as ([[job' st'] pt'] & o & Hk & Ht & (Hj' & _) & Hd').
  assert (KTask ns job st pt = KTask ns job' st' pt') as [= -> -> ->] by (by apply key_of_inj).
  rewrite Hd in Hd'. simplify_eq. eauto.
Qed.

(** *** A cluster the scheduler can work on

    Every task has a plan that can be resolved and sent; its inputs are
    recorded tasks of earlier stages; an executor that completed a task is
    registered. *)
Definition stage_ok (p : ExecutionPlan) : Prop :=
  is_ballista_op (plan_op p) = false ∧ forallb resolvable (plan_children p) = true ∧
  Forall (λ u, 0 < us_partition_count u)%Z (unresolved_shuffles p) ∧ is_ok (exec_to_proto p) = true.

Record cluster_ok c : Prop := {
  ok_plan job st pt o : cl_tasks c !! (job, st, pt) = Some o →
    ∃ p, cl_plans c !! (job, st) = Some p ∧ stage_ok p;
  ok_inputs job st pt o p st' pt' : cl_tasks c !! (job, st, pt) = Some o →
    cl_plans c !! (job, st) = Some p → (st', pt') ∈ inputs_of p →
    (st' < st)%Z ∧ is_Some (cl_tasks c !! (job, st', pt'));
  ok_executors t e : cl_tasks c !! t = Some (Some (TS_Completed e)) → is_Some (cl_executors c !! e);
}.

(** A pending task whose inputs are complete. *)
Definition runnable c (t : TaskId) : Prop :=
  let '(job, st, pt) := t in
  cl_tasks c !! t = Some None ∧ ∃ p, cl_plans c !! (job, st) = Some p ∧
    ∀ st' pt', (st', pt') ∈ inputs_of p →
      ∃ e, cl_tasks c !! (job, st', pt') = Some (Some (TS_Completed e)).

Lemma rep_task_plan job st pt p s c :
  rep s c → cluster_ok c → cl_tasks c !! (job, st, pt) = Some None →
  task_plan s ns (mkPPartitionId job st pt) p ↔ cl_plans c !! (job, st) = Some p.
Proof.
  intros Hr Hok Ht. destruct (rep_task_at _ _ _ _ Hr Ht) as ((_ & Hst & _) & _).
  destruct (ok_plan _ Hok _ _ _ _ Ht) as (p' & Hp' & _).
  unfold task_plan. simpl. rewrite as_usize_u32, (rep_get_plan _ _ _ _ _ Hr Hp') by done.
  split; [by intros [= <-]|]. by intros; simplify_eq.
Qed.

Lemma rep_consistent s c : rep s c → cluster_ok c → consistent ns s.
Proof.
  intros Hr Hok. split.
  - intros k b Hk Hp.
    destruct (table_scan _ _ _ _ _ (rep_executors _ _ Hr) _ _ Hk Hp) as (id & m & -> & _ & _ & _ & _ & q & Hd & _).
    by exists q.
  - intros k b Hk Hp.
    destruct (table_scan _ _ _ _ _ (rep_tasks _ _ Hr) _ _ Hk Hp) as ([[job st] pt] & o & -> & _ & _ & Hd).
    by eexists _, _.
  - intros k pid Hp. destruct (rep_pending _ _ _ _ Hr Hp) as (job & st & pt & -> & Hrange & Ht).
    destruct (ok_plan _ Hok _ _ _ _ Ht) as ([op cs] & Hpl & Hop & Hres & Hpos & _).
    exists op, cs. split_and!; try done. by apply (rep_task_plan job st pt _ s c).
  - intros k pid p Hp Hpl st' pt' Hin.
    destruct (rep_pending _ _ _ _ Hr Hp) as (job & st & pt & -> & Hrange & Ht).
    apply (rep_task_plan job st pt p s c) in Hpl; [|done..].
    destruct (ok_inputs _ Hok _ _ _ _ _ _ _ Ht Hpl Hin) as [_ [o Ho]].
    destruct (rep_task_at _ _ _ _ Hr Ho) as (Hrange' & b & Hb & Hd).
    exists (task_message (job, st', pt') o). split; [by exists b|].
    intros e He. unfold task_executor in He. destruct o as [[| |e']|]; simpl in He; try done. simplify_eq.
    destruct (ok_executors _ Hok _ _ Ho) as [m Hm].
    destruct (table_read _ _ _ _ _ (rep_executors _ _ Hr) _ _ Hm) as (b' & Hb' & _ & _ & Hid & q & Hq & Hm').
    eexists _, b', q. split_and!; [exact Hb'|apply executor_key_prefix|done|].
    by rewrite <-Hm' in Hid.
Qed.

(** The plan sent for the task of a stage: the inputs are read where they were
    completed, at the address of the executor. *)
Definition sent_plan c (t : TaskId) (plan : ExecutionPlan) : Prop :=
  let '(job, st, pt) := t in
  ∃ p locs, cl_plans c !! (job, st) = Some p ∧ remove_unresolved_shuffles locs p = Ok plan ∧
    unresolved_shuffles plan = [] ∧
    ∀ stage, Forall2 (λ part l, pl_partition_id l = mkPartitionId job stage part ∧
        cl_tasks c !! (job, stage, part) = Some (Some (TS_Completed (em_id (pl_executor_meta l)))) ∧
        cl_executors c !! em_id (pl_executor_meta l) = Some (pl_executor_meta l))
      (parts_of stage (inputs_of p)) (default [] (locs !! stage)).

(** An executor that is read is registered. *)
Lemma rep_executor_read s c executors m :
  rep s c → get_executors_metadata ns s = (Ok executors, s) → m ∈ executors → cl_executors c !! em_id m = Some m.
Proof.
  intros Hr E Hm. destruct (get_executors_metadata_eq ns s) as (kvs & E' & Hkvs). rewrite E in E'.
  injection E' as E'. symmetry in E'. apply rmapM_Forall2 in E'.
  apply list_elem_of_lookup in Hm as [i Hi].
  destruct (Forall2_lookup_r _ _ _ _ _ E' Hi) as ([k b] & Hin%list_elem_of_lookup_2 & Hb).
  apply Hkvs in Hin as [Hk Hp].
  destruct (table_scan _ _ _ _ _ (rep_executors _ _ Hr) _ _ Hk Hp) as (id & m' & -> & Hid & _ & _ & Hm' & q & Hd & Hq).
  simpl in Hb. rewrite Hd in Hb. simpl in Hb. by simplify_eq.
Qed.

(** [assign_next_schedulable_task] on the cluster. *)
Lemma rep_assign `{!WithNewChildrenOk} ex s c :
  rep s c → cluster_ok c →
  (assign_next_schedulable_task ns ex s = (Ok None, s) ∧ ∀ t, ¬ runnable c t) ∨
  (∃ t plan s', assign_next_schedulable_task ns ex s =
      (Ok (Some (task_message t (Some (TS_Running ex)), plan)), s') ∧
    runnable c t ∧ sent_plan c t plan ∧ rep s' (set_task t (Some (TS_Running ex)) c)).
Proof.
  intros Hr Hok.
  destruct (assign_total task_decoded_valid task_running_valid ns ex s) as (r & s' & E).
  { by apply (rep_consistent s c). }
  destruct r as [[status plan]|].
  - right. destruct (assign_some_outcome task_decoded_valid task_running_valid _ _ _ _ _ _ E)
      as (k & pid & executors & Hp & Hexs & p & locs & b & -> & Hpl & Hin & Hres & Hloc & Hun & Hc & Hd).
    destruct (rep_pending _ _ _ _ Hr Hp) as (job & st & pt & -> & (Hjob & Hst & Hpt) & Ht).
    apply (rep_task_plan job st pt p s c) in Hpl; [|done..]. simpl in *.
    exists (job, st, pt), plan, s'. split_and!; [done| | |].
    + split; [done|]. exists p. split; [done|]. intros st' pt' Hi. destruct (Hin _ _ Hi) as (t & Hat & Hcomp).
      destruct (rep_task_unique _ _ _ _ _ _ Hr Hjob Hat) as (o & -> & Ho).
      destruct o as [[| |e]|]; try done. by exists e.
    + exists p, locs. split_and!; try done. intros stage. eapply Forall2_impl; [exact (Hloc stage)|].
      intros part l (Hl & Hm & t & Hat & He). split_and!; [done| |by eapply rep_executor_read].
      destruct (rep_task_unique _ _ _ _ _ _ Hr Hjob Hat) as (o & -> & Ho).
      unfold task_executor in He. simpl in He. destruct o as [[| |e]|]; by simplify_eq.
    + rewrite !as_usize_u32 in Hc by done.
      by apply (rep_put_task _ _ b s s' c).
  - left. destruct (assign_none_outcome _ _ _ _ E) as [-> Hwait]. split; [done|].
    intros [[job st] pt] (Ht & p & Hp & Hin).
    destruct (rep_task_at _ _ _ _ Hr Ht) as ((Hjob & Hst & Hpt) & b & Hb & Hd).
    destruct (Hwait (task_key (job, st, pt)) (mkPPartitionId job st pt)) as (p' & st' & pt' & t & Hp' & Hi & Hat & Hn).
    { exists b. split_and!; [done|apply task_id_prefix|done]. }
    apply (rep_task_plan job st pt p' s c) in Hp'; [|done..]. simplify_eq.
    destruct (Hin _ _ Hi) as (e & He). simpl in Hat.
    destruct (rep_task_unique _ _ _ _ _ _ Hr Hjob Hat) as (o & -> & Ho). by simplify_eq.
Qed.
End rep.
