(* ===== verification/Refine.v ===== *)
(** * The service refines the cluster

    The handlers of Server.v, proved to act on the cluster a store represents
    (Cluster.v): the synchronization of the jobs with their tasks, a poll of
    an executor, and the planning of a job.  The invariant [cluster_ok] is
    kept by all of them, so a poll never fails or crashes. *)

From S2P Require Import Prelude Keys Proto Arrow Scalar Expr LogicalPlan SchedTypes ExecPlan.
From S2P Require Import Planner Physical Backend State Assign Server Cluster.
From stdpp Require Import sorting.

(** ** Lists *)

Lemma list_choice {A B} (R : A → B → Prop) (l : list A) :
  (∀ x, x ∈ l → ∃ y, R x y) → ∃ l', Forall2 R l l'.
Proof.
  induction l as [|x l IH]; intros Hl; [by exists []|].
  destruct (Hl x) as [y Hy]; [by left|]. destruct IH as [l' Hl']; [intros; apply Hl; by right|].
  exists (y :: l'). by constructor.
Qed.

Lemma rmapM_Forall2_ok {E A B} (f : A → result E B) l l' :
  Forall2 (λ x y, f x = Ok y) l l' → rmapM f l = Ok l'.
Proof. induction 1 as [|x y l l' Hx _ IH]; [done|]. cbn [rmapM]. by rewrite Hx, IH. Qed.

Lemma Forall2_fmap_eq {A B C} (f : A → C) (g : B → C) l l' :
  Forall2 (λ x y, f x = g y) l l' → f <$> l = g <$> l'.
Proof. induction 1; simpl; by f_equal. Qed.

(** ** Sending a plan *)

Section encodable.
Context `{PhysicalPlanner}.
Implicit Types locs : gmap Z (list PartitionLocation).

Lemma locations_encodable l : is_ok (rmapM partition_location_to_proto l) = true.
Proof. induction l as [|x l IH]; [done|]. cbn [rmapM]. unfold partition_location_to_proto at 1. by destruct (rmapM _ l). Qed.

Lemma resolve_encodable locs p :
  is_ok (exec_to_proto p) = true → is_ok (exec_to_proto (resolve locs p)) = true.
Proof.
  induction p as [op cs IH] using plan_ind. intros Hp.
  destruct op; simpl in *; try done;
    try (destruct cs as [|x cs]; [done|]; apply Forall_cons in IH as [IHx IH]; simpl in *;
      unfold hash_aggregate_to_proto in *;
      repeat match goal with
      | H : context [let? _ := ?r in _] |- _ => destruct r eqn:?; try discriminate H; simpl in H
      end;
      repeat match goal with
      | H : is_ok (exec_to_proto ?y) = true → _, E : exec_to_proto ?y = _ |- _ => rewrite E in H
      | H : is_ok _ = true → _ |- _ => specialize (H eq_refl)
      end;
      destruct (exec_to_proto (resolve locs x)); [done|discriminate IHx|discriminate IHx]).
  - destruct cs as [|x [|y [|z cs]]]; try done. apply Forall_cons in IH as [IHx IH].
    apply Forall_cons in IH as [IHy _]. simpl in *.
    destruct (exec_to_proto x), (exec_to_proto y); try discriminate Hp.
    specialize (IHx eq_refl). specialize (IHy eq_refl).
    by destruct (exec_to_proto (resolve locs x)), (exec_to_proto (resolve locs y)).
  - pose proof (locations_encodable (concat (map (λ id, default [] (locs !! id)) query_stage_ids))) as Hl.
    by destruct (rmapM _ _).
Qed.

(** Resolving the plan of a stage. *)
Lemma stage_resolved `{!ExecutionPlanMethods} `{!WithNewChildrenOk} locs p plan :
  stage_ok p → remove_unresolved_shuffles locs p = Ok plan →
  plan = resolve locs p ∧ ∃ q, exec_to_proto plan = Ok q.
Proof.
  destruct p as [op cs]. intros (Hop & Hres & _ & Henc) Hp. cbn [plan_op plan_children] in *.
  assert (plan = resolve locs (Exec op cs)) as ->.
  { rewrite remove_children in Hp; [|done|].
    - destruct (forallb (known locs) cs); [|discriminate Hp]. injection Hp as <-. by destruct op.
    - apply Forall_forall. intros x Hx. apply remove_child_spec.
      rewrite List.forallb_forall in Hres. by apply Hres, list_elem_of_In. }
  split; [done|]. pose proof (resolve_encodable locs _ Henc) as He.
  destruct (exec_to_proto (resolve locs (Exec op cs))) as [q| |]; try done. by exists q.
Qed.
End encodable.

Section refine.
Context {S : Type} `{BackendOk S}.
Context `{Codec} `{!MessageOk PPhysicalPlanNode}.
Context `{PhysicalPlanner} `{ExprBuildersOk} `{ExecutionPlanMethodsOk} `{HashOrderOk}.
Context (ns : string) (ns_slash_free : slash_free ns).
Implicit Types (s : S) (c : Cluster).

(** ** Scans

    The entries of a scan correspond to the elements of the table, one to
    one. *)
Lemma table_entries {K V} `{Countable K} (prefix : string) (key : K → string)
    (good : K → V → bytes → Prop) (P : K → Prop) `{∀ x, Decision (P x)} p' kvs
    (entries : gmap string bytes) (m : gmap K V) :
  table prefix key good entries m →
  (∀ x v b y w b', good x v b → good y w b' → key x = key y → x = y) →
  (∀ k, starts_with p' k = true → starts_with prefix k = true) →
  (∀ x v b, good x v b → starts_with p' (key x) = true ↔ P x) →
  kvs ≡ₚ map_to_list (filter (λ kv, starts_with p' kv.1 = true) entries) →
  ∃ l, Forall2 (λ kv xv, kv.1 = key xv.1 ∧ good xv.1 xv.2 kv.2) kvs l ∧
    l ≡ₚ map_to_list (filter (λ xv, P xv.1) m).
Proof.
  intros [Hs Hr] Hinj Hpre HP Hkvs.
  assert (∀ k b, (k, b) ∈ kvs ↔ entries !! k = Some b ∧ starts_with p' k = true) as Hin.
  { intros k b. rewrite Hkvs, elem_of_map_to_list. apply map_lookup_filter_Some. }
  destruct (list_choice (λ kv (xv : K * V), kv.1 = key xv.1 ∧ m !! xv.1 = Some xv.2 ∧
    good xv.1 xv.2 kv.2) kvs) as [l Hl].
  { intros [k b] [Hk Hp]%Hin. destruct (Hs k b Hk (Hpre _ Hp)) as (x & v & -> & Hm & Hg). by exists (x, v). }
  exists l. split; [eapply Forall2_impl; [exact Hl|]; by intros ?? (? & ? & ?)|].
  assert (NoDup kvs.*1) as Hnd by (rewrite Hkvs; apply NoDup_fst_map_to_list).
  assert (kvs.*1 = (λ xv, key xv.1) <$> l) as Heq.
  { apply Forall2_fmap_eq. eapply Forall2_impl; [exact Hl|]. by intros ?? (? & ? & ?). }
  rewrite Heq in Hnd. apply NoDup_Permutation.
  - by eapply NoDup_fmap_1.
  - apply NoDup_map_to_list.
  - intros [x v]. rewrite elem_of_map_to_list, map_lookup_filter_Some. simpl. split.
    + intros Hx. apply list_elem_of_lookup in Hx as [i Hi].
      destruct (Forall2_lookup_r _ _ _ _ _ Hl Hi) as ([k b] & Hk & ? & ? & Hg). simpl in *. subst.
      split; [done|]. eapply HP; [done|]. apply list_elem_of_lookup_2 in Hk. by apply Hin in Hk as [??].
    + intros [Hx Hp]. destruct (Hr x v Hx) as (b & Hb & Hg).
      assert ((key x, b) ∈ kvs) as [i Hi]%list_elem_of_lookup by (apply Hin; split; [done|]; by eapply HP).
      destruct (Forall2_lookup_l _ _ _ _ _ Hl Hi) as ([y w] & Hy & Hke & Hm & Hgy). simpl in *.
      apply list_elem_of_lookup_2 in Hy. rewrite (Hinj _ _ _ _ _ _ Hg Hgy Hke) in *. congruence.
Qed.

Lemma filter_all {K V} `{Countable K} (m : gmap K V) : filter (λ xv : K * V, True) m = m.
Proof. apply map_filter_id. done. Qed.

(** The executors of the cluster, as the scheduler reads them. *)
Lemma rep_get_executors s c :
  rep ns s c → ∃ metas, get_executors_metadata ns s = (Ok metas, s) ∧
    metas ≡ₚ (map_to_list (cl_executors c)).*2 ∧
    (list_to_map (reverse (List.map (λ meta, (em_id meta, meta)) metas)) : gmap string ExecutorMeta) =
      cl_executors c.
Proof.
  intros Hr. destruct (backend_prefix_spec (get_executors_prefix ns) s) as (kvs & E & Hkvs).
  destruct (table_entries _ _ _ (λ _, True) (get_executors_prefix ns) kvs _ _ (rep_executors _ _ _ Hr))
    as (l & Hl & Hp); [|done| |done|].
  { intros id m b id' m' b' (Hs & _) (Hs' & _) He.
    assert (KExecutor ns id = KExecutor ns id') as [= ->]; [|done]. by apply key_of_inj. }
  { intros id m b _. split; [done|]. intros _. apply executor_key_prefix. }
  rewrite filter_all in Hp. exists (l.*2).
  assert (get_executors_metadata ns s = (Ok l.*2, s)) as ->.
  { unfold get_executors_metadata, bindM. rewrite E. unfold lift. f_equal.
    apply rmapM_Forall2_ok, Forall2_fmap_r. eapply Forall2_impl; [exact Hl|].
    intros [k b] [id m] (_ & _ & _ & _ & q & Hq & Hm). simpl in *. by rewrite Hq, <-Hm. }
  split_and!; [done|by rewrite Hp|].
  assert (List.map (λ meta, (em_id meta, meta)) l.*2 = l) as ->.
  { clear -Hl. induction Hl as [|[k b] [id m] kvs l (_ & _ & _ & Hid & _) _ IH]; simpl in *; [done|].
    f_equal; [by rewrite Hid|exact IH]. }
  assert (reverse l ≡ₚ map_to_list (cl_executors c)) as Hrev by (by rewrite reverse_Permutation).
  assert (NoDup (reverse l).*1) as Hnd by (rewrite Hrev; apply NoDup_fst_map_to_list).
  by rewrite (list_to_map_proper _ _ Hnd Hrev), list_to_map_to_list.
Qed.

(** ** Jobs and their tasks *)

(** The tasks the scan for a job finds: those of the jobs whose id begins with
    the job's id. *)
Definition job_tasks c (job : string) : gmap TaskId (option TaskStatusStatus) :=
  filter (λ x, starts_with job x.1.1.1 = true) (cl_tasks c).
Definition job_messages c (job : string) : list TaskStatus :=
  (λ x, task_message x.1 x.2) <$> map_to_list (job_tasks c job).

Lemma starts_with_trans p r k : starts_with (p +:+ r) k = true → starts_with p k = true.
Proof. intros [x ->]%starts_with_spec. rewrite <-string_app_assoc. apply starts_with_app. Qed.

Lemma task_key_inj x o b y o' b' :
  task_good x o b → task_good y o' b' → task_key ns x = task_key ns y → x = y.
Proof.
  destruct x as [[j st] pt], y as [[j' st'] pt']. intros [(Hj & _) _] [(Hj' & _) _] He.
  assert (KTask ns j st pt = KTask ns j' st' pt') as [= -> -> ->]; [|done]. by apply key_of_inj.
Qed.

Lemma rep_job_status job executors s c :
  rep ns s c → slash_free job → ∃ l, l ≡ₚ job_messages c job ∧
    get_job_status_from_tasks ns job executors s = (Ok (job_status_from_tasks executors l), s).
Proof.
  intros Hr Hjob. destruct (backend_prefix_spec (get_task_prefix_for_job ns job) s) as (kvs & E & Hkvs).
  destruct (table_entries _ _ _ (λ x : TaskId, starts_with job x.1.1 = true) (get_task_prefix_for_job ns job)
    kvs _ _ (rep_tasks _ _ _ Hr)) as (l & Hl & Hp); [apply task_key_inj| | |done|].
  { intros k. apply starts_with_trans. }
  { intros [[j st] pt] o b [(Hj & _) _]. pose proof (scan_job_tasks ns job (KTask ns j st pt)) as Hscan.
    simpl in *. rewrite Hscan by done. split; [by intros (? & ? & ? & [= <- <- <-] & ?)|eauto 10]. }
  exists ((λ x, task_message x.1 x.2) <$> l). split; [by rewrite Hp|].
  unfold get_job_status_from_tasks. unfold bindM at 1. rewrite E.
  assert (rmapM (λ kv, decode_protobuf (T := TaskStatus) kv.2) kvs =
    Ok ((λ x, task_message x.1 x.2) <$> l)) as Hd.
  { apply rmapM_Forall2_ok, Forall2_fmap_r. eapply Forall2_impl; [exact Hl|].
    by intros [k b] [t o] (_ & _ & Hd). }
  unfold bindM, lift. by rewrite Hd.
Qed.

(** The status of a job, from its tasks, is one the messages carry. *)
Lemma job_status_wf c s l job js :
  rep ns s c → l ≡ₚ job_messages c job →
  job_status_from_tasks (cl_executors c) l = Some js → wf_job_status js.
Proof.
  intros Hr Hl Hjs. unfold job_status_from_tasks in Hjs. destruct l as [|t0 l]; [done|].
  rewrite completed_tasks_spec in Hjs. destruct (forallb task_completed (t0 :: l)).
  - simpl in Hjs. simplify_eq. unfold wf_job_status. simpl.
    assert (∀ t, t ∈ t0 :: l → wf_location (location_of (cl_executors c) (t, default "" (task_executor t)))) as Hw.
    { intros t Ht. rewrite Hl in Ht. apply list_elem_of_fmap in Ht as ([[[j st] pt] o] & -> & Hx).
      apply elem_of_map_to_list, map_lookup_filter_Some in Hx as [Hx _].
      destruct (rep_task_at _ _ _ _ _ Hr Hx) as ((_ & Hst & Hpt) & _).
      split; [done|]. unfold location_of. simpl.
      destruct (cl_executors c !! _) as [m|] eqn:Em; simpl; [|done].
      destruct (table_read _ _ _ _ _ (rep_executors _ _ _ Hr) _ _ Em) as (b & _ & _ & Hm & _).
      unfold executor_meta_to_proto. simpl. unfold wf_executor_meta in Hm.
      rewrite wrap_u_id; [done|]. by eapply in_u_mono; [..|exact Hm]. }
    constructor; [apply Hw; by left|]. apply Forall_forall. intros x Hx.
    apply list_elem_of_In, in_map_iff in Hx as (y & <- & Hy).
    apply in_map_iff in Hy as (t & <- & Ht). apply Hw. right. by apply list_elem_of_In.
  - rewrite scan_statuses_spec in Hjs. repeat case_match; simpl in Hjs; simplify_eq; done.
Qed.

(** ** Synchronization *)

(** The status of a job after synchronization: that of its tasks, if it has
    any that says something. *)
Definition job_synced c (job : string) (old new : JobStatus) : Prop :=
  ∃ l, l ≡ₚ job_messages c job ∧ new = default old (job_status_from_tasks (cl_executors c) l).

(** [c'] differs from [c] in the status of the jobs only. *)
Definition same_work c c' : Prop :=
  cl_executors c' = cl_executors c ∧ cl_tasks c' = cl_tasks c ∧ cl_plans c' = cl_plans c.

Lemma rep_synchronize_job job js b s c :
  rep ns s c → job_good job js b → cl_jobs c !! job = Some js →
  ∃ s' new, synchronize_job ns (cl_executors c) (get_job_key ns job, b) s = (Ok (), s') ∧
    job_synced c job js new ∧ rep ns s' (set_job job new c).
Proof.
  intros Hr (Hjob & _ & Hd) Hj. unfold synchronize_job. cbn [fst snd].
  rewrite bindM_lift, extract_job_id by done. rewrite bindM_lift, Hd.
  destruct (rep_job_status job (cl_executors c) s c Hr Hjob) as (l & Hl & E).
  unfold bindM. rewrite E.
  destruct (job_status_from_tasks (cl_executors c) l) as [new|] eqn:En.
  - case_bool_decide as Heq.
    + subst new. exists s, js. split_and!; [done|exists l; by rewrite En|].
      unfold set_job. rewrite insert_id by done. by destruct c.
    + destruct (rep_save_job ns ns_slash_free job new s c) as (s' & Es & Hr'); [done| |done|].
      { by eapply job_status_wf. }
      exists s', new. split_and!; [done|exists l; by rewrite En|done].
  - exists s, js. split_and!; [done|exists l; by rewrite En|].
    unfold set_job. rewrite insert_id by done. by destruct c.
Qed.

Lemma job_synced_work c c' job old new :
  same_work c c' → job_synced c' job old new → job_synced c job old new.
Proof.
  intros (He & Ht & _) (l & Hl & ->). exists l. rewrite He. split; [|done].
  unfold job_messages, job_tasks in *. by rewrite Ht in Hl.
Qed.

(** What the messages of a job say about its tasks. *)
Lemma job_messages_elem c job t :
  t ∈ job_messages c job ↔ ∃ id o, starts_with job id.1.1 = true ∧ cl_tasks c !! id = Some o ∧
    t = task_message id o.
Proof.
  unfold job_messages, job_tasks. rewrite list_elem_of_fmap. split.
  - intros ([id o] & -> & Hx). apply elem_of_map_to_list, map_lookup_filter_Some in Hx as [? ?]. eauto.
  - intros (id & o & Hs & Ho & ->). exists (id, o). split; [done|].
    by apply elem_of_map_to_list, map_lookup_filter_Some.
Qed.

(** All tasks the scan for a job finds are completed. *)
Definition all_complete c (job : string) : Prop :=
  ∀ id o, starts_with job id.1.1 = true → cl_tasks c !! id = Some o → ∃ e, o = Some (TS_Completed e).

Lemma all_complete_messages c job l :
  l ≡ₚ job_messages c job → all_complete c job ↔ forallb task_completed l = true.
Proof.
  intros Hl. rewrite <-Forall_forallb, Forall_forall. split.
  - intros Hall t Ht. rewrite Hl in Ht. apply job_messages_elem in Ht as ([[j st] pt] & o & Hs & Ho & ->).
    by destruct (Hall _ _ Hs Ho) as [e ->].
  - intros Hall [[j st] pt] o Hs Ho. specialize (Hall (task_message (j, st, pt) o)).
    rewrite Hl, job_messages_elem in Hall. specialize (Hall ltac:(eauto)).
    unfold task_completed in Hall. simpl in Hall. destruct o as [[]|]; try done. eauto.
Qed.

(** The job is completed and lists every task the scan for it finds, once. *)
Definition partition_of (t : TaskId) : option PPartitionId := ts_partition_id (task_message t None).
Definition lists_tasks c (job : string) (js : JobStatus) : Prop :=
  ∃ locs, js = mkJobStatus (Some (JS_Completed locs)) ∧ NoDup (ppl_partition_id <$> locs) ∧
    ∀ t, starts_with job t.1.1 = true → is_Some (cl_tasks c !! t) → partition_of t ∈ ppl_partition_id <$> locs.

Lemma partition_of_inj t t' : partition_of t = partition_of t' → t = t'.
Proof. destruct t as [[??]?], t' as [[??]?]. by intros [= -> -> ->]. Qed.

Lemma lists_tasks_mono c c' job js :
  (∀ t, starts_with job t.1.1 = true → is_Some (cl_tasks c' !! t) → is_Some (cl_tasks c !! t)) →
  lists_tasks c job js → lists_tasks c' job js.
Proof. intros Ht (locs & -> & Hnd & Hall). exists locs. split_and!; eauto. Qed.

Lemma job_messages_partitions c job : NoDup (ts_partition_id <$> job_messages c job).
Proof.
  unfold job_messages. rewrite <-list_fmap_compose, (list_fmap_ext _ (partition_of ∘ fst)).
  - rewrite list_fmap_compose. apply NoDup_fmap_2; [|apply NoDup_fst_map_to_list]. intros ??. apply partition_of_inj.
  - by intros _ [[[??]?] ?] _.
Qed.

(** A synchronized job is completed when its tasks are. *)
Lemma synced_complete c job old new id o :
  job_synced c job old new → starts_with job id.1.1 = true → cl_tasks c !! id = Some o →
  all_complete c job → lists_tasks c job new.
Proof.
  intros (l & Hl & ->) Hs Ho Hall. assert (l ≠ []) as Hne.
  { intros ->. assert (task_message id o ∈ job_messages c job) as Hm by (apply job_messages_elem; eauto).
    rewrite <-Hl in Hm. by apply not_elem_of_nil in Hm. }
  pose proof (job_status_eq (cl_executors c) l Hne) as E.
  rewrite (proj1 (all_complete_messages c job l Hl) Hall) in E.
  destruct (job_status_from_tasks _ l) as [[st]|]; simpl in E; [|done]. injection E as ->.
  eexists. split; [done|].
  assert (ppl_partition_id <$> List.map (λ t, location_of (cl_executors c) (t, default "" (task_executor t))) l =
    ts_partition_id <$> l) as -> by (clear; induction l as [|t l IH]; [done|]; csimpl; by rewrite IH).
  split; [rewrite Hl; apply job_messages_partitions|]. intros t Ht [o' Ho']. rewrite Hl.
  apply list_elem_of_fmap. exists (task_message t o'). split; [by destruct t as [[??]?]|].
  apply job_messages_elem. eauto.
Qed.

(** The locations a completed job lists are those of completed tasks, at the
    executors that completed them, which are [known]. *)
Definition locations_complete (known : ExecutorMeta → Prop) c (js : JobStatus) : Prop :=
  ∀ locs l, js = mkJobStatus (Some (JS_Completed locs)) → l ∈ locs →
    ∃ id m, cl_tasks c !! id = Some (Some (TS_Completed (em_id m))) ∧ known m ∧
      l = mkPPartitionLocation (ts_partition_id (task_message id None)) (Some (executor_meta_to_proto m)).

Lemma synced_locations (known : ExecutorMeta → Prop) c job old new :
  (∀ t e, cl_tasks c !! t = Some (Some (TS_Completed e)) → is_Some (cl_executors c !! e)) →
  (∀ e m, cl_executors c !! e = Some m → em_id m = e ∧ known m) →
  job_synced c job old new → locations_complete known c old → locations_complete known c new.
Proof.
  intros Hex Hknown (l & Hl & ->) Hold. destruct (job_status_from_tasks (cl_executors c) l) as [js|] eqn:E; [|done].
  intros locs x Hjs Hx. simpl in Hjs. subst js. assert (l ≠ []) as Hne by (by intros ->).
  pose proof (job_status_eq (cl_executors c) l Hne) as E'. rewrite E in E'.
  cbn [fmap option_fmap option_map js_status] in E'.
  destruct (forallb task_completed l) eqn:Hall; [|destruct (first_error _); [done|]; by destruct (existsb _ _)].
  injection E' as ->. apply list_elem_of_In, in_map_iff in Hx as (t & <- & Ht).
  rewrite List.forallb_forall in Hall. specialize (Hall t Ht).
  apply list_elem_of_In in Ht. rewrite Hl in Ht.
  apply job_messages_elem in Ht as ([[j st] pt] & o & _ & Ho & ->).
  unfold task_completed in Hall. simpl in Hall. destruct o as [[| |e]|]; try done.
  destruct (Hex _ _ Ho) as [m Hm]. destruct (Hknown e m Hm) as [<- Hk]. exists (j, st, pt), m.
  split_and!; [done..|]. unfold location_of. simpl. by rewrite Hm.
Qed.

Lemma rep_synchronize_jobs c0 l kvs s c :
  rep ns s c → same_work c0 c → NoDup l.*1 →
  Forall2 (λ (kv : string * bytes) jv, kv.1 = get_job_key ns jv.1 ∧ job_good jv.1 jv.2 kv.2) kvs l →
  (∀ job js, (job, js) ∈ l → cl_jobs c !! job = Some js) →
  ∃ s' c', mfor (synchronize_job ns (cl_executors c0)) kvs s = (Ok (), s') ∧ rep ns s' c' ∧
    same_work c0 c' ∧ (∀ job js, (job, js) ∈ l → ∃ new, cl_jobs c' !! job = Some new ∧ job_synced c0 job js new) ∧
    (∀ job, job ∉ l.*1 → cl_jobs c' !! job = cl_jobs c !! job).
Proof.
  intros Hr Hsame Hnd Hl. revert s c Hr Hsame Hnd.
  induction Hl as [|[k b] [job js] kvs l [Hk Hg] Hl IH]; intros s c Hr Hsame Hnd Hj; simpl in *.
  { exists s, c. split_and!; try done. by intros ?? ?%not_elem_of_nil. }
  apply NoDup_cons in Hnd as [Hnot Hnd]. subst k. pose proof Hsame as (He & Ht & Hp).
  destruct (rep_synchronize_job job js b s c) as (s1 & new & E & Hnew & Hr1); [done..|apply Hj; by left|].
  rewrite He in E.
  destruct (IH s1 (set_job job new c)) as (s' & c' & E' & Hr' & Hw & Hsync & Hother); [done|done|done| |].
  { intros job' js' Hin. simpl. rewrite lookup_insert_ne; [apply Hj; by right|].
    intros <-. apply Hnot, list_elem_of_fmap. by exists (job, js'). }
  exists s', c'. unfold bindM. rewrite E. split_and!; [done|done|done| |].
  - intros job' js' [[= -> ->]|Hin]%elem_of_cons; [|by apply Hsync].
    exists new. split; [|exact (job_synced_work _ _ _ _ _ Hsame Hnew)].
    rewrite Hother by done. simpl. by rewrite lookup_insert_eq.
  - intros job' [Hne Hni]%not_elem_of_cons. rewrite Hother by done. simpl. by rewrite lookup_insert_ne.
Qed.

(** The jobs of the cluster, as the scheduler reads them. *)
Lemma rep_scan_jobs s c :
  rep ns s c → ∃ kvs l, backend_get_from_prefix (get_job_prefix ns) s = (Ok kvs, s) ∧
    Forall2 (λ (kv : string * bytes) jv, kv.1 = get_job_key ns jv.1 ∧ job_good jv.1 jv.2 kv.2) kvs l ∧
    l ≡ₚ map_to_list (cl_jobs c).
Proof.
  intros Hr. destruct (backend_prefix_spec (get_job_prefix ns) s) as (kvs & E & Hkvs).
  destruct (table_entries _ _ _ (λ _, True) (get_job_prefix ns) kvs _ _ (rep_jobs _ _ _ Hr))
    as (l & Hl & Hp); [|done| |done|].
  { intros id m b id' m' b' (Hs & _) (Hs' & _) He.
    assert (KJob ns id = KJob ns id') as [= ->]; [|done]. by apply key_of_inj. }
  { intros id m b _. split; [done|]. intros _. apply job_key_prefix. }
  rewrite filter_all in Hp. by exists kvs, l.
Qed.

(** [synchronize_job_status] gives every job the status of its tasks and
    changes nothing else. *)
Lemma rep_synchronize s c :
  rep ns s c → ∃ s' c', synchronize_job_status ns s = (Ok (), s') ∧ rep ns s' c' ∧ same_work c c' ∧
    (∀ job, cl_jobs c !! job = None → cl_jobs c' !! job = None) ∧
    (∀ job js, cl_jobs c !! job = Some js →
      ∃ new, cl_jobs c' !! job = Some new ∧ job_synced c job js new).
Proof.
  intros Hr. destruct (rep_scan_jobs s c Hr) as (kvs & l & E & Hl & Hp).
  destruct (rep_get_executors s c Hr) as (metas & Em & _ & Hm).
  assert (∀ job js, (job, js) ∈ l ↔ cl_jobs c !! job = Some js) as Hin.
  { intros job js. by rewrite Hp, elem_of_map_to_list. }
  destruct (rep_synchronize_jobs c l kvs s c) as (s' & c' & Es & Hr' & Hw & Hsync & Hother); try done.
  { rewrite Hp. apply NoDup_fst_map_to_list. }
  { intros job js. apply Hin. }
  exists s', c'. split_and!; try done.
  - unfold synchronize_job_status. unfold bindM at 1. rewrite E. unfold bindM. rewrite Em. by rewrite Hm.
  - intros job Hn. rewrite Hother; [done|]. intros ([job' js] & -> & Hx)%list_elem_of_fmap.
    apply Hin in Hx. simpl in Hn. congruence.
  - intros job js Hj. apply Hsync, Hin, Hj.
Qed.

(** C26 — [synchronize_job_status] succeeds, gives every job the status its tasks
    amount to (or leaves it, where they amount to nothing), and changes no
    executor, task or plan. *)
Theorem synchronize_job_status_spec s c :
  rep ns s c → ∃ s' c', synchronize_job_status ns s = (Ok (), s') ∧ rep ns s' c' ∧
    cl_executors c' = cl_executors c ∧ cl_tasks c' = cl_tasks c ∧ cl_plans c' = cl_plans c ∧
    ∀ job, match cl_jobs c !! job with
      | None => cl_jobs c' !! job = None
      | Some js => ∃ l, l ≡ₚ job_messages c job ∧
          cl_jobs c' !! job = Some (default js (job_status_from_tasks (cl_executors c) l))
      end.
Proof.
  intros Hr. destruct (rep_synchronize s c Hr) as (s' & c' & E & Hr' & (H1' & H2' & H3') & Hn & Hs).
  exists s', c'. split_and!; try done. intros job. destruct (cl_jobs c !! job) as [js|] eqn:Ej; [|by apply Hn].
  destruct (Hs job js Ej) as (new & Hnew & l & Hl & ->). by exists l.
Qed.

(** ** The invariant *)

Lemma ok_set_executor m c : cluster_ok c → cluster_ok (set_executor m c).
Proof.
  intros [Hp Hi He]. split; [done|done|]. intros t e Ht. simpl in *.
  destruct (decide (em_id m = e)) as [<-|Hne]; [rewrite lookup_insert_eq; eauto|].
  rewrite lookup_insert_ne by done. by eapply He.
Qed.

Lemma ok_set_status t o c :
  cluster_ok c → is_Some (cl_tasks c !! t) →
  (∀ e, o = Some (TS_Completed e) → is_Some (cl_executors c !! e)) → cluster_ok (set_task t o c).
Proof.
  intros [Hp Hi He] [o0 Ht] Ho.
  assert (∀ t' o', cl_tasks (set_task t o c) !! t' = Some o' →
    ∃ o'', cl_tasks c !! t' = Some o'') as Hold.
  { intros t' o'. simpl. destruct (decide (t = t')) as [<-|]; [eauto|].
    rewrite lookup_insert_ne by done. eauto. }
  split.
  - intros job st pt o' (o'' & Ht')%Hold. by eapply Hp.
  - intros job st pt o' p st' pt' (o'' & Ht')%Hold Hpl Hin.
    destruct (Hi _ _ _ _ _ _ _ Ht' Hpl Hin) as [Hlt Hs]. split; [done|]. simpl.
    destruct (decide (t = (job, st', pt'))) as [->|]; [rewrite lookup_insert_eq; eauto|].
    by rewrite lookup_insert_ne.
  - intros t' e Ht'. simpl in *. destruct (decide (t = t')) as [<-|].
    + rewrite lookup_insert_eq in Ht'. simplify_eq. by apply Ho.
    + rewrite lookup_insert_ne in Ht' by done. by eapply He.
Qed.

Lemma ok_same_work c c' : same_work c c' → cluster_ok c → cluster_ok c'.
Proof.
  intros (He & Ht & Hp) [R1 R2 R3]. split; intros *; rewrite ?He, ?Ht, ?Hp; [apply R1|apply R2|apply R3].
Qed.

(** ** Reports of an executor *)

(** A report an executor may make: the status of a recorded task, completed by
    that executor if completed. *)
Definition report_ok (ex : string) c (t : TaskStatus) : Prop :=
  ∃ id st, t = task_message id (Some st) ∧ is_Some (cl_tasks c !! id) ∧
    ∀ e, st = TS_Completed e → e = ex.

Definition apply_report c (t : TaskStatus) : Cluster :=
  match ts_partition_id t with
  | Some pid => set_task (ppi_job_id pid, ppi_stage_id pid, ppi_partition_id pid) (ts_status t) c
  | None => c
  end.
Definition apply_reports : Cluster → list TaskStatus → Cluster := foldl apply_report.

Lemma apply_report_message id o c : apply_report c (task_message id o) = set_task id o c.
Proof. by destruct id as [[job st] pt]. Qed.

Lemma rep_reports ex (f : BallistaError → Status) reports s c :
  rep ns s c → cluster_ok c → is_Some (cl_executors c !! ex) → Forall (report_ok ex c) reports →
  ∃ s', mfor (λ t, map_errM f (save_task_status ns t)) reports s = (Ok (), s') ∧
    rep ns s' (apply_reports c reports) ∧ cluster_ok (apply_reports c reports).
Proof.
  intros Hr Hok Hex. revert s c Hr Hok Hex.
  induction reports as [|t reports IH]; intros s c Hr Hok Hex Hall; [by exists s|].
  apply Forall_cons in Hall as [(id & st & -> & [o Ho] & Hst) Hall].
  destruct (rep_task_at _ _ _ _ _ Hr Ho) as [Hrange _].
  destruct (rep_save_task ns ns_slash_free id (Some st) s c Hrange Hr) as (s1 & E & Hr1).
  destruct (IH s1 (set_task id (Some st) c)) as (s' & E' & Hr' & Hok'); [done| |done| |].
  - apply ok_set_status; [done|eauto|]. intros e [= ->]. by rewrite (Hst e eq_refl).
  - eapply Forall_impl; [exact Hall|]. intros t (id' & st' & -> & Hs & Hst'). exists id', st'.
    split_and!; [done| |done]. simpl. destruct (decide (id = id')) as [->|].
    + rewrite lookup_insert_eq. eauto.
    + by rewrite lookup_insert_ne.
  - exists s'. cbn [mfor]. unfold bindM at 1, map_errM at 1. rewrite E. simpl map_err. cbn [apply_reports foldl].
    rewrite apply_report_message. done.
Qed.

(** ** A poll *)

(** The cluster after the reports of a poll. *)
Definition reported c (m : ExecutorMeta) (reports : list TaskStatus) : Cluster :=
  apply_reports (set_executor m c) reports.

(** What a poll answers and leaves: either no task, and if one was asked for
    none can run; or one that can run, recorded as running on the executor. *)
Definition poll_outcome c (m : ExecutorMeta) (accept : bool) (task : option TaskDefinition) c' : Prop :=
  (task = None ∧ same_work c c' ∧ (accept = true → ∀ t, ¬ runnable c t)) ∨
  (accept = true ∧ ∃ t plan q,
    task = Some (mkTaskDefinition (ts_partition_id (task_message t None)) (Some q)) ∧
    exec_to_proto plan = Ok q ∧ runnable c t ∧ sent_plan c t plan ∧
    same_work (set_task t (Some (TS_Running (em_id m))) c) c').

Lemma runnable_recorded c t : runnable c t → is_Some (cl_tasks c !! t).
Proof. destruct t as [[job st] pt]. intros [-> _]. eauto. Qed.

Lemma rep_next_task `{!WithNewChildrenOk} `{ErrorText} accept m s c :
  rep ns s c → cluster_ok c →
  ∃ task s' c', next_task ns accept (em_id m) s = (Ok task, s') ∧ rep ns s' c' ∧ cluster_ok c' ∧
    cl_jobs c' = cl_jobs c ∧ poll_outcome c m accept task c'.
Proof.
  intros Hr Hok. destruct accept; [|exists None, s, c; split_and!; try done; by left].
  unfold next_task, or_internal.
  destruct (rep_assign ns ns_slash_free (em_id m) s c Hr Hok)
    as [[E Hn]|(t & plan & s' & E & Hrun & Hsent & Hr')].
  - exists None, s, c. unfold bindM, map_errM. rewrite E. split_and!; try done. by left.
  - destruct t as [[job st] pt]. pose proof Hsent as (p & locs & Hp & Hres & _).
    destruct (ok_plan _ Hok job st pt None) as (p' & Hp' & Hst); [by destruct Hrun|]. simplify_eq.
    destruct (stage_resolved locs p plan Hst Hres) as [_ [q Hq]].
    eexists _, s', _. unfold bindM, map_errM. rewrite E. simpl. rewrite Hq.
    split_and!; [done|exact Hr'| |done|].
    + apply ok_set_status; [done|by apply runnable_recorded|done].
    + right. split; [done|]. by exists (job, st, pt), plan, q.
Qed.

Lemma poll_outcome_work c m accept task c1 c' :
  poll_outcome c m accept task c1 → same_work c1 c' → poll_outcome c m accept task c'.
Proof.
  assert (∀ a, same_work a c1 → same_work c1 c' → same_work a c') as Htr.
  { intros a (A1 & A2 & A3) (B1 & B2 & B3). split_and!; congruence. }
  intros [(? & ? & ?)|(? & t & plan & q & ? & ? & ? & ? & ?)] Hw; [left|right]; eauto 10.
Qed.

(** The jobs after a poll: if it reports outcomes, the jobs follow their
    tasks. *)
Definition jobs_followed (reports : list TaskStatus) c c' : Prop :=
  match reports with
  | [] => cl_jobs c' = cl_jobs c
  | _ => ∀ job, match cl_jobs c !! job with
      | None => cl_jobs c' !! job = None
      | Some js => ∃ new, cl_jobs c' !! job = Some new ∧ job_synced c' job js new
      end
  end.

Lemma reported_jobs c m reports : cl_jobs (reported c m reports) = cl_jobs c.
Proof.
  unfold reported. change (cl_jobs c) with (cl_jobs (set_executor m c)).
  generalize (set_executor m c). unfold apply_reports. induction reports as [|t reports IH]; intros c0; [done|].
  simpl. rewrite IH. unfold apply_report. by destruct (ts_partition_id t).
Qed.

Lemma reported_executors c m reports :
  cl_executors (reported c m reports) = <[em_id m := m]> (cl_executors c).
Proof.
  unfold reported. change (<[em_id m := m]> (cl_executors c)) with (cl_executors (set_executor m c)).
  generalize (set_executor m c). unfold apply_reports. induction reports as [|t reports IH]; intros c0; [done|].
  simpl. rewrite IH. unfold apply_report. by destruct (ts_partition_id t).
Qed.

Lemma rep_poll_work_locked `{!WithNewChildrenOk} `{ErrorText} m accept reports s c :
  wf_executor_meta m → slash_free (em_id m) → rep ns s c → cluster_ok c →
  Forall (report_ok (em_id m) c) reports →
  ∃ task s' c', poll_work_locked ns m accept reports s = (Ok task, s') ∧ rep ns s' c' ∧
    cluster_ok c' ∧ poll_outcome (reported c m reports) m accept task c' ∧ jobs_followed reports c c'.
Proof.
  intros Hm Hid Hr Hok Hrep. unfold poll_work_locked.
  destruct (rep_save_executor ns ns_slash_free m s c) as (s1 & E1 & Hr1); [done..|].
  destruct (rep_reports (em_id m) (internal_error "Could not save task status: ") reports s1 (set_executor m c))
    as (s2 & E2 & Hr2 & Hok2); [done|by apply ok_set_executor|simpl; rewrite lookup_insert_eq; eauto|done|].
  destruct (rep_next_task accept m s2 (reported c m reports)) as (task & s3 & c3 & E3 & Hr3 & Hok3 & Hj3 & Hout); [done..|].
  rewrite reported_jobs in Hj3.
  assert (∃ s4 c4, (match reports with [] => ret () | _ => log_error (synchronize_job_status ns) end :
      MR S Status unit) s3 = (Ok (), s4) ∧ rep ns s4 c4 ∧ same_work c3 c4 ∧ jobs_followed reports c c4)
    as (s4 & c4 & E4 & Hr4 & Hw & Hj4).
  { destruct reports as [|t reports]; [by exists s3, c3|].
    destruct (rep_synchronize s3 c3 Hr3) as (s4 & c4 & E4 & Hr4 & Hw & Hn & Hs). exists s4, c4.
    unfold log_error. rewrite E4. split_and!; [done..|]. intros job. rewrite <-Hj3.
    destruct (cl_jobs c3 !! job) as [js|] eqn:Ej; [|by apply Hn].
    destruct (Hs job js Ej) as (new & Hnew & Hsync). exists new. split; [done|].
    apply (job_synced_work _ c3); [|done]. destruct Hw as (W1 & W2 & W3). split_and!; done. }
  exists task, s4, c4. split_and!; [|done|by eapply ok_same_work|by eapply poll_outcome_work|done].
  unfold bindM at 1, or_internal at 1, map_errM at 1. rewrite E1. simpl map_err.
  unfold bindM at 1. unfold or_internal. rewrite E2. unfold bindM at 1. rewrite E3.
  unfold bindM. rewrite E4. done.
Qed.

(** ** Planning a job *)

(** A new pending task of a stage whose plan and inputs are recorded. *)
Lemma ok_add_task job st pt p c :
  cluster_ok c → cl_plans c !! (job, st) = Some p → stage_ok p →
  (∀ st' pt', (st', pt') ∈ inputs_of p → (st' < st)%Z ∧ is_Some (cl_tasks c !! (job, st', pt'))) →
  cluster_ok (set_task (job, st, pt) None c).
Proof.
  intros [R1 R2 R3] Hp Hst Hin.
  assert (∀ t, is_Some (cl_tasks c !! t) → is_Some (<[(job, st, pt) := None]> (cl_tasks c) !! t)) as Hmono.
  { intros t Ht. destruct (decide ((job, st, pt) = t)) as [<-|]; [rewrite lookup_insert_eq; eauto|].
    by rewrite lookup_insert_ne. }
  split; simpl.
  - intros job' st' pt' o [[[= <- <- <-] <-]|[_ Ho]]%lookup_insert_Some; eauto.
  - intros job' st' pt' o p' st2 pt2 [[[= <- <- <-] <-]|[_ Ho]]%lookup_insert_Some Hp' Hi.
    + simplify_eq. destruct (Hin _ _ Hi). auto.
    + destruct (R2 _ _ _ _ _ _ _ Ho Hp' Hi). auto.
  - intros t e [[_ ?]|[_ Ht]]%lookup_insert_Some; [done|]. by eapply R3.
Qed.

(** The plan of a stage that has no tasks yet. *)
Lemma ok_add_plan job st p c :
  cluster_ok c → (∀ pt, cl_tasks c !! (job, st, pt) = None) → cluster_ok (set_plan (job, st) p c).
Proof.
  intros [R1 R2 R3] Hnew. split; simpl; [..|done].
  - intros job' st' pt o Ho. rewrite lookup_insert_ne; [by eapply R1|].
    intros [= <- <-]. by rewrite Hnew in Ho.
  - intros job' st' pt o p' st2 pt2 Ho. rewrite lookup_insert_ne; [by eapply R2|].
    intros [= <- <-]. by rewrite Hnew in Ho.
Qed.

Definition add_task (job : string) (st : Z) c (pt : Z) : Cluster := set_task (job, st, pt) None c.
Definition stage_partitions (stage : QueryStageExec) : list Z :=
  zrange (partition_count (stage_plan stage)).
Definition add_stage (job : string) c (stage : QueryStageExec) : Cluster :=
  foldl (add_task job (qs_stage_id stage))
    (set_plan (job, qs_stage_id stage) (qs_child stage) c) (stage_partitions stage).

Lemma add_tasks_spec job st l c :
  let c' := foldl (add_task job st) c l in
  cl_plans c' = cl_plans c ∧ cl_executors c' = cl_executors c ∧ cl_jobs c' = cl_jobs c ∧
  (∀ pt, pt ∈ l → cl_tasks c' !! (job, st, pt) = Some None) ∧
  (∀ t, (∀ pt, pt ∈ l → t ≠ (job, st, pt)) → cl_tasks c' !! t = cl_tasks c !! t).
Proof.
  revert c. induction l as [|pt l IH] using rev_ind; intros c; simpl.
  { split_and!; try done. by intros ? ?%not_elem_of_nil. }
  rewrite foldl_snoc. destruct (IH c) as (E1 & E2 & E3 & Hin & Hout). simpl. split_and!; try done.
  - intros pt' Hpt. destruct (decide (pt = pt')) as [->|Hne]; [by rewrite lookup_insert_eq|].
    rewrite lookup_insert_ne by congruence. apply Hin. set_solver.
  - intros t Ht. rewrite lookup_insert_ne; [apply Hout; intros; apply Ht; set_solver|].
    intros He. eapply Ht; [|symmetry; exact He]. set_solver.
Qed.

(** A stage the store can hold and the scheduler can run. *)
Definition stage_fits (stage : QueryStageExec) : Prop :=
  storable (qs_child stage) ∧ df_root (qs_child stage) ∧ in_u 32 (qs_stage_id stage) ∧
  (0 < partition_count (stage_plan stage) < 2 ^ 32)%Z.

Lemma rep_save_stage `{ErrorText} job stage s c :
  slash_free job → stage_fits stage → rep ns s c →
  ∃ s', save_stage ns job stage s = (Ok (), s') ∧ rep ns s' (add_stage job c stage).
Proof.
  intros Hjob (Hsto & _ & Hst & Hcount) Hr. unfold save_stage, add_stage.
  destruct (rep_save_plan ns ns_slash_free job (qs_stage_id stage) (qs_child stage) s c) as (s1 & E1 & Hr1);
    [done..|].
  unfold bindM at 1, or_internal at 1, map_errM at 1. rewrite E1. simpl map_err.
  fold (stage_partitions stage).
  assert (∀ pt, pt ∈ stage_partitions stage → in_u 32 pt) as Hpt.
  { intros pt Hpt%elem_of_zrange. unfold in_u. lia. }
  clear E1 Hr. revert s1 Hr1 Hpt.
  generalize (set_plan (job, qs_stage_id stage) (qs_child stage) c) as c1.
  induction (stage_partitions stage) as [|pt l IH]; intros c1 s1 Hr1 Hpt; [by exists s1|].
  cbn [mfor foldl]. unfold bindM at 1, or_internal at 1, map_errM at 1.
  unfold pending_status at 1. rewrite !(wrap_u_id 32); [|apply Hpt; by left|done].
  destruct (rep_save_task ns ns_slash_free (job, qs_stage_id stage, pt) None s1 c1) as (s2 & E2 & Hr2);
    [split_and!; try done; apply Hpt; by left|done|].
  cbn [task_message] in E2. rewrite E2. simpl map_err. apply IH; [done|]. intros; apply Hpt; by right.
Qed.

Lemma inputs_of_reads pre p st pt :
  reads pre p → (st, pt) ∈ inputs_of p →
  ∃ stage, stage ∈ pre ∧ st = qs_stage_id stage ∧ pt ∈ stage_partitions stage.
Proof.
  intros [_ Hf] Hin. unfold inputs_of, shuffle_inputs in Hin.
  apply list_elem_of_In, in_flat_map in Hin as (u & Hu & Hin). apply list_elem_of_In in Hu.
  rewrite Forall_forall in Hf. destruct (Hf u Hu) as (stage & Hs & ->). simpl in Hin.
  rewrite app_nil_r in Hin. apply in_map_iff in Hin as (x & [= <- <-] & Hx).
  exists stage. split_and!; [done..|]. by apply list_elem_of_In.
Qed.

Lemma stage_fits_ok pre stage :
  stage_fits stage → Forall stage_fits pre → reads pre (qs_child stage) → stage_ok (qs_child stage).
Proof.
  intros ([Hb Hv] & Hroot & _) Hpre [Hres Hf]. unfold stage_ok. split_and!; [exact Hroot| | |].
  - unfold df_root in Hroot. destruct (qs_child stage) as [op cs]. simpl in *.
    destruct op; try done; by apply andb_prop in Hres as [_ Hres].
  - eapply Forall_impl; [exact Hf|]. intros u (s & Hs & ->). simpl.
    rewrite Forall_forall in Hpre. destruct (Hpre s Hs) as (_ & _ & _ & Hc). simpl in Hc. lia.
  - destruct (exec_trip _ Hb) as (q & Hq & _). by rewrite Hq.
Qed.

Lemma ok_add_stage job c pre stage :
  cluster_ok c → stage_fits stage → Forall stage_fits pre → reads pre (qs_child stage) →
  (∀ x, x ∈ pre → (qs_stage_id x < qs_stage_id stage)%Z) →
  (∀ x pt, x ∈ pre → pt ∈ stage_partitions x → is_Some (cl_tasks c !! (job, qs_stage_id x, pt))) →
  (∀ pt, cl_tasks c !! (job, qs_stage_id stage, pt) = None) →
  cluster_ok (add_stage job c stage).
Proof.
  intros Hok Hfit Hpre Hreads Hlt Hrec Hnew.
  pose proof (stage_fits_ok pre stage Hfit Hpre Hreads) as Hsok. unfold add_stage.
  assert (∀ c1 l, cluster_ok c1 → cl_plans c1 !! (job, qs_stage_id stage) = Some (qs_child stage) →
    (∀ x pt, x ∈ pre → pt ∈ stage_partitions x → is_Some (cl_tasks c1 !! (job, qs_stage_id x, pt))) →
    cluster_ok (foldl (add_task job (qs_stage_id stage)) c1 l)) as Hfold.
  { intros c1 l. revert c1. induction l as [|pt l IH]; intros c1 Hok1 Hp1 Hrec1; [done|]. simpl. apply IH; [|done|].
    - apply (ok_add_task job _ pt (qs_child stage)); [done..|]. intros st' pt' Hin.
      destruct (inputs_of_reads _ _ _ _ Hreads Hin) as (x & Hs & -> & Hpt). auto.
    - intros x pt' Hs Hpt'. simpl.
      destruct (decide ((job, qs_stage_id stage, pt) = (job, qs_stage_id x, pt'))) as [->|];
        [rewrite lookup_insert_eq; eauto|rewrite lookup_insert_ne by done; auto]. }
  apply Hfold; [by apply ok_add_plan| |done]. simpl. by rewrite lookup_insert_eq.
Qed.

Definition add_stages (job : string) : Cluster → list QueryStageExec → Cluster := foldl (add_stage job).

(** The stages are numbered in increasing order. *)
Definition stages_sorted : list QueryStageExec → Prop :=
  StronglySorted (λ x y, qs_stage_id x < qs_stage_id y)%Z.

Lemma ids_sorted n stages : qs_stage_id <$> stages = ids n (length stages) → stages_sorted stages.
Proof.
  intros Hids. unfold stages_sorted.
  assert (∀ k m, StronglySorted (λ i j, i < j)%Z ((λ i, n + 1 + Z.of_nat i)%Z <$> seq k m)) as Hs.
  { intros k m. revert k. induction m as [|m IH]; intros k; simpl; constructor; [apply IH|].
    apply Forall_fmap, Forall_forall. intros i Hi%elem_of_seq. simpl. lia. }
  specialize (Hs 0%nat (length stages)). fold (ids n (length stages)) in Hs. rewrite <-Hids in Hs.
  clear Hids. induction stages as [|x stages IH]; [constructor|].
  csimpl in Hs. apply StronglySorted_inv in Hs as [Hs Hx]. constructor; [by apply IH|].
  clear -Hx. induction stages as [|y stages IH]; [constructor|]. csimpl in Hx. inversion Hx. subst.
  constructor; [done|by apply IH].
Qed.

Lemma sorted_before l1 l2 x y :
  stages_sorted (l1 ++ l2) → x ∈ l1 → y ∈ l2 → (qs_stage_id x < qs_stage_id y)%Z.
Proof. apply (StronglySorted_app_1_elem_of (λ x y, qs_stage_id x < qs_stage_id y)%Z). Qed.

Lemma add_stage_tasks job c stage :
  let c' := add_stage job c stage in
  (∀ pt, pt ∈ stage_partitions stage → cl_tasks c' !! (job, qs_stage_id stage, pt) = Some None) ∧
  (∀ t, (∀ pt, t ≠ (job, qs_stage_id stage, pt)) → cl_tasks c' !! t = cl_tasks c !! t) ∧
  (∀ t o, cl_tasks c' !! t = Some o → cl_tasks c !! t = Some o ∨ (t.1.1 = job ∧ o = None)) ∧
  cl_plans c' = <[(job, qs_stage_id stage) := qs_child stage]> (cl_plans c) ∧
  cl_executors c' = cl_executors c ∧ cl_jobs c' = cl_jobs c.
Proof.
  destruct (add_tasks_spec job (qs_stage_id stage) (stage_partitions stage)
    (set_plan (job, qs_stage_id stage) (qs_child stage) c)) as (E1 & E2 & E3 & Hin & Hout).
  unfold add_stage. split_and!; try done; [intros t Ht; rewrite Hout; [done|]; auto|].
  intros [[j st] pt] o Hto.
  destruct (decide ((j, st) = (job, qs_stage_id stage) ∧ pt ∈ stage_partitions stage)) as [[[= -> ->] Hpt]|Hn].
  - rewrite Hin in Hto by done. simplify_eq. by right.
  - left. rewrite Hout in Hto; [done|]. intros pt' Hpt' [= -> -> ->]. by destruct Hn.
Qed.

Lemma rep_save_stages `{ErrorText} job pre stages s c :
  slash_free job → Forall stage_fits (pre ++ stages) → deps_ok pre stages →
  stages_sorted (pre ++ stages) → rep ns s c → cluster_ok c →
  (∀ x pt, x ∈ pre → pt ∈ stage_partitions x → is_Some (cl_tasks c !! (job, qs_stage_id x, pt))) →
  (∀ x pt, x ∈ stages → cl_tasks c !! (job, qs_stage_id x, pt) = None) →
  ∃ s', mfor (save_stage ns job) stages s = (Ok (), s') ∧ rep ns s' (add_stages job c stages) ∧
    cluster_ok (add_stages job c stages).
Proof.
  intros Hjob. revert pre s c.
  induction stages as [|stage stages IH]; intros pre s c Hfit Hdeps Hsort Hr Hok Hrec Hnew; [by exists s|].
  destruct Hdeps as [Hreads Hdeps]. pose proof Hfit as [Hpre Hst]%Forall_app.
  apply Forall_cons in Hst as [Hstage _].
  destruct (rep_save_stage job stage s c Hjob Hstage Hr) as (s1 & E1 & Hr1).
  assert (∀ x, x ∈ pre → (qs_stage_id x < qs_stage_id stage)%Z) as Hlt.
  { intros x Hx. apply (sorted_before _ _ _ _ Hsort); [done|by left]. }
  assert (cluster_ok (add_stage job c stage)) as Hok1.
  { apply (ok_add_stage job c pre stage); try done. intros pt. apply Hnew. by left. }
  destruct (add_stage_tasks job c stage) as (Htasks & Hother & _ & _).
  destruct (IH (pre ++ [stage]) s1 (add_stage job c stage)) as (s' & E' & Hr' & Hok'); try done.
  - by rewrite <-app_assoc.
  - by rewrite <-app_assoc.
  - intros x pt [Hx| ->%list_elem_of_singleton]%elem_of_app Hpt; [|rewrite Htasks by done; eauto].
    rewrite Hother; [by apply Hrec|]. intros pt' [= He ?]. specialize (Hlt x Hx). lia.
  - intros x pt Hx. rewrite Hother; [apply Hnew; by right|]. intros pt' [= He ?].
    change (pre ++ stage :: stages) with (pre ++ [stage] ++ stages) in Hsort.
    rewrite app_assoc in Hsort.
    assert (qs_stage_id stage < qs_stage_id x)%Z; [|lia].
    apply (sorted_before _ _ _ _ Hsort); [set_solver|done].
  - exists s'. cbn [mfor]. unfold bindM at 1. rewrite E1. done.
Qed.

Lemma add_stages_spec job stages c :
  stages_sorted stages →
  let c' := add_stages job c stages in
  (∀ x, x ∈ stages → cl_plans c' !! (job, qs_stage_id x) = Some (qs_child x) ∧
    ∀ pt, pt ∈ stage_partitions x → cl_tasks c' !! (job, qs_stage_id x, pt) = Some None) ∧
  (∀ t o, cl_tasks c' !! t = Some o → cl_tasks c !! t = Some o ∨ (t.1.1 = job ∧ o = None)) ∧
  (∀ t, t.1.1 ≠ job → cl_tasks c' !! t = cl_tasks c !! t) ∧
  cl_executors c' = cl_executors c ∧ cl_jobs c' = cl_jobs c.
Proof.
  induction stages as [|stage stages IH] using rev_ind; intros Hs; simpl.
  { split_and!; try done; [by intros ? ?%not_elem_of_nil|by left]. }
  unfold add_stages in *. rewrite foldl_snoc.
  assert (stages_sorted stages) as Hs1 by (by eapply StronglySorted_app_1_l in Hs).
  destruct (IH Hs1) as (Hin & Hnew & Hother & He & Hj). clear IH.
  destruct (add_stage_tasks job (foldl (add_stage job) c stages) stage) as (Ht & Ho & Hn & Hp & He' & Hj').
  split_and!; [| | |congruence|congruence].
  - intros x [Hx| ->%list_elem_of_singleton]%elem_of_app.
    + assert (qs_stage_id x < qs_stage_id stage)%Z as Hlt by (apply (sorted_before _ _ _ _ Hs); set_solver).
      destruct (Hin x Hx) as [Hpl Hts]. rewrite Hp, lookup_insert_ne by (intros [= ?]; lia).
      split; [done|]. intros pt Hpt. rewrite Ho; [auto|]. intros pt' [= ?]. lia.
    + rewrite Hp, lookup_insert_eq. done.
  - intros t o [Hto|?]%Hn; [by apply Hnew|by right].
  - intros t Hne. rewrite Ho; [auto|]. by intros pt ->.
Qed.

Section jobs.
Context `{ErrorText} {DFSchema : Type} `{QueryContext DFSchema}.

Definition running_status : JobStatus := mkJobStatus (Some JS_Running).
Definition failed_status (e : Status) : JobStatus := mkJobStatus (Some (JS_Failed (status_display e))).

(** The planning of a job that succeeds. *)
Lemma rep_plan_job job (plan optimized : LogicalPlan DFSchema) p executors stages planner' s c :
  slash_free job → rep ns s c → cluster_ok c → (∀ st pt, cl_tasks c !! (job, st, pt) = None) →
  ctx_optimize plan = Ok optimized → ctx_create_physical_plan optimized = Ok p → df_plan p = true →
  executors ≠ [] → plan_query_stages (mkDistributedPlanner executors 0) job p = Ok (stages, planner') →
  Forall stage_fits stages →
  ∃ s', plan_job ns job plan executors s = (Ok (), s') ∧
    rep ns s' (add_stages job (set_job job running_status c) stages) ∧
    cluster_ok (add_stages job (set_job job running_status c) stages) ∧ stages_sorted stages.
Proof.
  intros Hjob Hr Hok Hnew Ho Hp Hdf Hex Hst Hfit.
  destruct (plan_query_stages_ok _ _ _ _ _ Hdf Hst) as (Hids & _ & Hdeps & _ & _).
  apply ids_sorted in Hids as Hsort.
  destruct (rep_save_job ns ns_slash_free job running_status s c) as (s1 & E1 & Hr1); [done..|].
  destruct (rep_save_stages job [] stages s1 (set_job job running_status c)) as (s2 & E2 & Hr2 & Hok2); try done.
  { by eapply ok_same_work; [|exact Hok]. }
  { by intros x pt Hx%not_elem_of_nil. }
  exists s2. split; [|done]. unfold plan_job, plan_job_body.
  rewrite bindM_lift, Ho. cbn [map_err]. rewrite bindM_lift, Hp. cbn [map_err].
  rewrite (bindM_ok _ _ s s1 ()) by (unfold log_error; fold running_status; by rewrite E1).
  rewrite bindM_lift. destruct executors as [|e0 executors]; [done|]. cbn [map_err DistributedPlanner_try_new].
  rewrite bindM_lift, Hst. cbn [map_err fst]. by rewrite E2.
Qed.

(** A job whose planning fails is recorded as failed, with the error. *)
Lemma rep_plan_job_failed job (plan : LogicalPlan DFSchema) executors e s s1 c1 :
  slash_free job → plan_job_body ns job plan executors s = (Err e, s1) → rep ns s1 c1 →
  ∃ s', plan_job ns job plan executors s = (Ok (), s') ∧ rep ns s' (set_job job (failed_status e) c1).
Proof.
  intros Hjob E Hr. destruct (rep_save_job ns ns_slash_free job (failed_status e) s1 c1) as (s' & E' & Hr'); [done..|].
  exists s'. split; [|done]. unfold plan_job. rewrite E. fold (failed_status e). by rewrite E'.
Qed.
End jobs.
End refine.
