(* ===== verification/Leases.v ===== *)
(** * Executors that are lost

    The registration of an executor has a lease (LEASE_TIME in
    src/rust/scheduler/src/state/mod.rs), which every poll renews; etcd removes
    the registration of an executor that stops polling.  The tasks it completed
    stay recorded as completed, and the scheduler looks up the address of the
    executor of every input of a task it hands out.

    The theorem: when all pending tasks could run but for an input of the lost
    executor, a poll for a task does not fail but crashes.  The loss of an
    executor that completed no task is harmless: the store stays consistent
    ([expire_ok]). *)

From S2P Require Import Prelude Keys Proto Arrow Scalar Expr LogicalPlan SchedTypes ExecPlan.
From S2P Require Import Planner Physical Backend State Assign Server Cluster Refine.

Abbreviation no_value := "called `Option::unwrap()` on a `None` value".

Section leases.
Context {S : Type} `{BackendOk S}.
Context `{Codec} `{!MessageOk PPhysicalPlanNode}.
Context `{PhysicalPlanner} `{ExprBuildersOk} `{ExecutionPlanMethodsOk} `{HashOrderOk} `{ErrorText}.
Context (ns : string) (ns_slash_free : slash_free ns).
Implicit Types (s : S) (c : Cluster).

(** The lease of the registration of the executor [e] runs out. *)
Definition lease_expires (e : string) s s' : Prop := contents s' = delete (get_executor_key ns e) (contents s).
Definition expire (e : string) c : Cluster :=
  mkCluster (delete e (cl_executors c)) (cl_tasks c) (cl_plans c) (cl_jobs c).

(** A removed entry that belongs to another table. *)
Lemma table_delete_other {K V} `{Countable K} (prefix : string) (key : K → string) good entries (m : gmap K V) k :
  (∀ x, starts_with prefix (key x) = true) → starts_with prefix k = false →
  table prefix key good entries m → table prefix key good (delete k entries) m.
Proof.
  intros Hkey Hk [Hscan Hread]. split.
  - intros k' b [_ Hb]%lookup_delete_Some. by apply Hscan.
  - intros x v (b & Hb & Hg)%Hread. exists b. split; [|done]. rewrite lookup_delete_ne; [done|].
    intros ->. by rewrite Hkey in Hk.
Qed.
(** A removed entry of the table. *)
Lemma table_delete {K V} `{Countable K} (prefix : string) (key : K → string) good entries (m : gmap K V) x :
  (∀ y w b, good y w b → key x = key y → x = y) →
  table prefix key good entries m → table prefix key good (delete (key x) entries) (delete x m).
Proof.
  intros Hinj [Hscan Hread]. split.
  - intros k b' [Hne Hb]%lookup_delete_Some Hp. destruct (Hscan k b' Hb Hp) as (y & w & -> & Hy & Hgy).
    exists y, w. split_and!; [done| |done]. rewrite lookup_delete_ne; [done|]. by intros <-.
  - intros y w [Hne Hy]%lookup_delete_Some. destruct (Hread y w Hy) as (b' & Hb' & Hgy). exists b'.
    split; [|done]. rewrite lookup_delete_ne; [done|]. intros E. by eapply Hne, Hinj.
Qed.

Lemma rep_expire e s s' c : slash_free e → rep ns s c → lease_expires e s s' → rep ns s' (expire e c).
Proof.
  intros He [Re Rt Rp Rj] Hs. unfold lease_expires in Hs.
  assert (wf_key (KExecutor ns e)) as Hwf by done. split; rewrite Hs; simpl.
  - apply table_delete; [|done]. intros y w b (Hy & _) E.
    assert (KExecutor ns e = KExecutor ns y) as [= ->]; [|done]. by apply key_of_inj.
  - apply table_delete_other; [apply task_id_prefix| |done]. apply (other_kind _ (KExecutor ns e) _ (scan_tasks_spec ns _ ns_slash_free Hwf)).
    by intros (? & ? & ? & ?).
  - apply table_delete_other; [apply stage_key_prefix| |done].
    apply (other_kind _ (KExecutor ns e) _ (scan_stages_spec ns _ ns_slash_free Hwf)). by intros (? & ? & ?).
  - apply table_delete_other; [apply job_key_prefix| |done].
    apply (other_kind _ (KExecutor ns e) _ (scan_jobs_spec ns _ ns_slash_free Hwf)). by intros (? & ?).
Qed.

(** No task is recorded as completed by the executor [e]. *)
Definition lease_harmless (e : string) s : Prop :=
  ∀ k b t, contents s !! k = Some b → starts_with (get_task_prefix ns) k = true →
    decode_protobuf (T := TaskStatus) b = Ok t → task_executor t ≠ Some e.

(** The loss of such an executor leaves a consistent cluster. *)
Lemma expire_ok e s c : rep ns s c → lease_harmless e s → cluster_ok c → cluster_ok (expire e c).
Proof.
  intros Hr Hh Hok. split; simpl; [apply Hok..|]. intros [[job st] pt] e' Ht.
  rewrite lookup_delete_ne; [by eapply ok_executors|]. intros ->.
  destruct (rep_task_at _ _ _ _ _ Hr Ht) as (_ & b & Hb & Hd).
  by eapply Hh; [exact Hb|apply task_id_prefix|exact Hd|].
Qed.

(** ** The search for a task *)

(** All inputs are completed, one of them by an executor that is not found. *)
Lemma locate_inputs_lost job kvs executors inputs acc :
  (∀ stage part, (stage, part) ∈ inputs → ∃ t, task_at kvs ns job stage part t ∧ task_completed t = true) →
  (∃ stage part t e, (stage, part) ∈ inputs ∧ task_at kvs ns job stage part t ∧ task_executor t = Some e ∧
    ∀ m, m ∈ executors → em_id m ≠ e) →
  locate_inputs ns job kvs executors inputs acc = Panic no_value.
Proof.
  revert acc. induction inputs as [|[st pt] inputs IH]; intros acc Hall (stage & part & t & e & Hin & Hat & He & Hlost);
    [by apply not_elem_of_nil in Hin|].
  destruct (Hall st pt) as (t0 & (b & Hb & Hd) & Hc); [by left|]. simpl. rewrite Hb. simpl. rewrite Hd.
  unfold task_completed in Hc. destruct (ts_status t0) as [[|?|e0]|] eqn:Es; try done.
  destruct (List.find _ executors) as [m|] eqn:Ef; [|done]. simpl.
  apply IH; [intros ?? ?; apply Hall; by right|].
  apply elem_of_cons in Hin as [[= -> ->]|Hin]; [|by exists stage, part, t, e].
  destruct Hat as (b' & Hb' & Hd'). assert (t = t0) as -> by congruence. unfold task_executor in He. rewrite Es in He. injection He as ->.
  apply List.find_some in Ef as [Hm Hid%bool_decide_eq_true]. by destruct (Hlost m); [apply list_elem_of_In|].
Qed.

Definition lost_input kvs (executors : list ExecutorMeta) (pid : PPartitionId) (p : ExecutionPlan) : Prop :=
  (∀ stage part, (stage, part) ∈ inputs_of p →
    ∃ t, task_at kvs ns (ppi_job_id pid) stage part t ∧ task_completed t = true) ∧
  ∃ stage part t e, (stage, part) ∈ inputs_of p ∧ task_at kvs ns (ppi_job_id pid) stage part t ∧
    task_executor t = Some e ∧ ∀ m, m ∈ executors → em_id m ≠ e.

Lemma try_task_lost ex kvs executors b pid p s :
  decode_protobuf b = Ok (mkTaskStatus (Some pid) None) → task_plan s ns pid p → lost_input kvs executors pid p →
  try_task ns ex kvs executors b s = (Panic no_value, s).
Proof.
  intros Hb Hp [Hall Hlost]. unfold try_task. rewrite bindM_lift, Hb. cbn [ts_status ts_partition_id].
  rewrite bindM_lift. cbn [unwrap]. unfold bindM at 1. rewrite Hp.
  rewrite bindM_lift, find_unresolved_shuffles_eq, bindM_lift.
  by rewrite locate_inputs_lost.
Qed.

(** Every task that can be considered is pending with a lost input. *)
Lemma try_tasks_lost ex kvs executors entries s :
  (∀ k b, (k, b) ∈ entries → ∃ t, decode_protobuf (T := TaskStatus) b = Ok t ∧
    (ts_status t = None → ∃ pid p, t = mkTaskStatus (Some pid) None ∧ task_plan s ns pid p ∧ lost_input kvs executors pid p)) →
  (∃ k b pid, (k, b) ∈ entries ∧ decode_protobuf b = Ok (mkTaskStatus (Some pid) None)) →
  try_tasks ns ex kvs executors entries s = (Panic no_value, s).
Proof.
  induction entries as [|[k b] entries IH]; intros Hall (k0 & b0 & pid0 & Hin & Hd0); [by apply not_elem_of_nil in Hin|].
  destruct (Hall k b) as (t & Hd & Ht); [by left|]. cbn [try_tasks]. cbn [snd]. unfold bindM at 1.
  destruct (ts_status t) as [r|] eqn:Es.
  - assert (try_task ns ex kvs executors b s = (Ok None, s)) as ->
      by (unfold try_task; rewrite bindM_lift, Hd, Es; done).
    apply IH; [intros; apply (Hall k1); by right|].
    exists k0, b0, pid0. split; [|done]. apply elem_of_cons in Hin as [[= -> ->]|?]; [|done]. rewrite Hd in Hd0. by injection Hd0 as ->.
  - destruct (Ht eq_refl) as (pid & p & -> & Hp & Hl). by rewrite (try_task_lost _ _ _ _ pid p).
Qed.

(** ** A poll *)

(** A pending task that could run, but for an input the executor [e] completed. *)
Definition reads_from c (t : TaskId) (e : string) : Prop :=
  ∃ p st pt, cl_plans c !! t.1 = Some p ∧ (st, pt) ∈ inputs_of p ∧
    cl_tasks c !! (t.1.1, st, pt) = Some (Some (TS_Completed e)).

Lemma assign_lost ex e s c :
  rep ns s c → cl_executors c !! e = None →
  (∃ t, cl_tasks c !! t = Some None) → (∀ t, cl_tasks c !! t = Some None → runnable c t ∧ reads_from c t e) →
  assign_next_schedulable_task ns ex s = (Panic no_value, s).
Proof.
  intros Hr He Hpend Hall. rewrite assign_unfold.
  destruct (rep_get_executors ns ns_slash_free s c Hr) as (executors & E & _ & _). rewrite E.
  apply try_tasks_lost.
  - intros k b [Hb Hp]%elem_of_task_entries.
    destruct (table_scan _ _ _ _ _ (rep_tasks _ _ _ Hr) _ _ Hb Hp) as ([[job st] pt] & o & -> & Ht & (Hjob & Hst & Hpt) & Hd).
    exists (task_message (job, st, pt) o). split; [done|]. simpl. intros ->.
    destruct (Hall _ Ht) as [(_ & p & Hpl & Hin) (p' & st' & pt' & Hpl' & Hin' & He')]. simpl in *. simplify_eq.
    assert (∀ st pt r, cl_tasks c !! (job, st, pt) = Some (Some r) →
      task_at (task_entries ns s) ns job st pt (task_message (job, st, pt) (Some r))) as Hat.
    { intros st0 pt0 r Hr0. apply task_at_entries. destruct (rep_task_at _ _ _ _ _ Hr Hr0) as (_ & b0 & ? & ?). by exists b0. }
    exists (mkPPartitionId job st pt), p. split; [done|]. split; [|split].
    + unfold task_plan. simpl. rewrite as_usize_u32 by done. by apply rep_get_plan with c.
    + intros stage part Hi. destruct (Hin _ _ Hi) as [e0 He0]. eexists. split; [by apply Hat|done].
    + exists st', pt', (task_message (job, st', pt') (Some (TS_Completed e))), e. split_and!; [done|by apply Hat|done|].
      intros m Hm Hid. by rewrite <-Hid, (rep_executor_read ns s c executors m Hr E Hm) in He.
  - destruct Hpend as [[[job st] pt] Ht]. destruct (rep_task_at _ _ _ _ _ Hr Ht) as (_ & b & Hb & Hd).
    exists (task_key ns (job, st, pt)), b, (mkPPartitionId job st pt). split; [|done].
    apply elem_of_task_entries. split; [done|]. apply task_id_prefix.
Qed.

(** C30 — A lost executor can stop the scheduler: let the lease of an executor
    have run out, let there be a pending task, and let every pending task have
    all its inputs completed, one of them by that executor.  Then the handler
    of a poll of any other executor that asks for a task and reports nothing
    crashes instead of answering; with etcd it does not give the lock back. *)
Theorem lost_executor_breaks_polls g e m s s' c :
  rep ns s c → slash_free e → lease_expires e s s' → wf_executor_meta m → slash_free (em_id m) → em_id m ≠ e →
  (∃ t, cl_tasks c !! t = Some None) → (∀ t, cl_tasks c !! t = Some None → runnable c t ∧ reads_from c t e) →
  ∃ s'', poll_work ns (Ok ()) g (mkPollWorkParams (Some (executor_meta_to_proto m)) true []) (false, s') =
    Some (Panic no_value, (lock_drop g true, s'')).
Proof.
  intros Hr He Hs Hm Hid Hne Hpend Hall. pose proof (rep_expire e s s' c He Hr Hs) as Hr'.
  destruct (rep_save_executor ns ns_slash_free m s' (expire e c) Hm Hid Hr') as (s1 & E1 & Hr1).
  exists s1. unfold poll_work. cbn [pw_metadata pw_can_accept_task pw_task_status map_err].
  rewrite executor_meta_trip by done. unfold poll_work_locked, or_internal at 1, map_errM at 1. unfold bindM at 1.
  rewrite E1. cbn [map_err mfor]. unfold ret at 1, bindM at 1, bindM at 1. unfold next_task.
  assert (cl_executors (set_executor m (expire e c)) !! e = None) as Hlost.
  { simpl. rewrite lookup_insert_ne by done. apply lookup_delete_eq. }
  unfold or_internal, map_errM, bindM. by rewrite (assign_lost (em_id m) e s1 _ Hr1 Hlost).
Qed.
End leases.
