(* ===== verification/Blocked.v ===== *)
(** * Stages that cannot be decoded

    The planning of a job saves every stage that can be encoded
    (src/rust/scheduler/src/lib.rs), but not every plan that is encoded can be
    decoded: [asin] has a number in the messages (logical_plan/to_proto.rs) and
    no case in the decoder (logical_plan/from_proto.rs).  The search for a task
    decodes the stage of every pending task it meets, and gives up with the
    first error.

    The theorem: once all tasks that are pending belong to such stages, a poll
    for a task is answered with an error, and the store is left in the same
    situation.  (The theorems on runs in System.v therefore ask for queries
    whose stages survive the encoding.) *)

From S2P Require Import Prelude Keys Proto Arrow Scalar Expr LogicalPlan SchedTypes ExecPlan.
From S2P Require Import Planner Physical Backend State Assign Server Cluster.

Section blocked.
Context {S : Type} `{BackendOk S}.
Context `{Codec} `{!MessageOk PPhysicalPlanNode}.
Context `{PhysicalPlanner} `{ExprBuilders} `{ExecutionPlanMethods} `{HashOrderOk} `{ErrorText}.
Context (ns : string) (ns_slash_free : slash_free ns).
Implicit Types (s : S).

(** An entry for a stage that is a message, but not one of a plan. *)
Definition undecodable (b : bytes) : Prop :=
  ∃ m e, b ≠ [] ∧ decode_protobuf (T := PPhysicalPlanNode) b = Ok m ∧ proto_to_exec m = Err e.

(** The stage of a task, of a job without slashes. *)
Definition stuck_task s (t : TaskStatus) : Prop :=
  ∃ pid b, t = mkTaskStatus (Some pid) None ∧ slash_free (ppi_job_id pid) ∧
    contents s !! get_stage_plan_key ns (ppi_job_id pid) (as_usize (ppi_stage_id pid)) = Some b ∧ undecodable b.

(** The registrations and the tasks are readable, some task is pending, and the
    stages of all pending tasks are undecodable. *)
Record blocked s : Prop := {
  bl_executors k b : contents s !! k = Some b → starts_with (get_executors_prefix ns) k = true →
    is_ok (decode_protobuf (T := PExecutorMetadata) b) = true;
  bl_tasks k b : contents s !! k = Some b → starts_with (get_task_prefix ns) k = true →
    ∃ t, decode_protobuf (T := TaskStatus) b = Ok t ∧ (ts_status t = None → stuck_task s t);
  bl_pending : ∃ k b pid, contents s !! k = Some b ∧ starts_with (get_task_prefix ns) k = true ∧
    decode_protobuf b = Ok (mkTaskStatus (Some pid) None);
}.

Lemma blocked_stage s job st b :
  contents s !! get_stage_plan_key ns job st = Some b → undecodable b →
  ∃ e, get_stage_plan ns job st s = (Err e, s).
Proof.
  intros Hb (m & e & Hne & Hd & Hp). exists e. unfold get_stage_plan.
  rewrite (bindM_get_some _ _ _ _ Hb). destruct b; [done|]. rewrite bindM_lift, Hd. unfold lift. by rewrite Hp.
Qed.

Lemma try_task_stuck ex kvs executors b t s :
  decode_protobuf b = Ok t → ts_status t = None → stuck_task s t →
  ∃ e, try_task ns ex kvs executors b s = (Err e, s).
Proof.
  intros Hd Hn (pid & v & -> & _ & Hv & Hu). destruct (blocked_stage s _ _ v Hv Hu) as [e E]. exists e.
  unfold try_task. rewrite bindM_lift, Hd. cbn [ts_status ts_partition_id]. rewrite bindM_lift. cbn [unwrap].
  unfold bindM. by rewrite E.
Qed.

(** The search meets a pending task sooner or later. *)
Lemma try_tasks_stuck ex kvs executors entries s :
  (∀ k b, (k, b) ∈ entries → ∃ t, decode_protobuf (T := TaskStatus) b = Ok t ∧ (ts_status t = None → stuck_task s t)) →
  (∃ k b pid, (k, b) ∈ entries ∧ decode_protobuf b = Ok (mkTaskStatus (Some pid) None)) →
  ∃ e, try_tasks ns ex kvs executors entries s = (Err e, s).
Proof.
  induction entries as [|[k b] entries IH]; intros Hall (k0 & b0 & pid0 & Hin & Hd0); [by apply not_elem_of_nil in Hin|].
  destruct (Hall k b) as (t & Hd & Ht); [by left|]. cbn [try_tasks]. cbn [snd]. unfold bindM at 1.
  destruct (ts_status t) as [r|] eqn:Es.
  - assert (try_task ns ex kvs executors b s = (Ok None, s)) as ->
      by (unfold try_task; rewrite bindM_lift, Hd, Es; done).
    apply IH; [intros; apply (Hall k1); by right|]. exists k0, b0, pid0. split; [|done].
    apply elem_of_cons in Hin as [[= -> ->]|?]; [|done]. rewrite Hd in Hd0. by injection Hd0 as ->.
  - destruct (try_task_stuck ex kvs executors b t s Hd Es (Ht eq_refl)) as [e E]. exists e. by rewrite E.
Qed.

Lemma assign_blocked ex s : blocked s → ∃ e, assign_next_schedulable_task ns ex s = (Err e, s).
Proof.
  intros [He Ht Hp]. rewrite assign_unfold. destruct (get_executors_metadata_eq ns s) as (kvs & E & Hkvs). rewrite E.
  destruct (rmapM_all_ok (λ kv : string * bytes, rmap executor_meta_from_proto (decode_protobuf kv.2)) kvs) as [metas ->].
  { apply Forall_forall. intros [k b] [Hk Hpre]%Hkvs. specialize (He k b Hk Hpre). simpl. by destruct (decode_protobuf b). }
  apply try_tasks_stuck; [intros k b [? ?]%elem_of_task_entries; by eapply Ht|].
  destruct Hp as (k & b & pid & Hk & Hpre & Hd). exists k, b, pid. split; [|done]. by apply elem_of_task_entries.
Qed.

(** Saving a registration changes nothing of it. *)
Lemma blocked_save_executor m s :
  wf_executor_meta m → slash_free (em_id m) → blocked s →
  ∃ s', save_executor_metadata ns m s = (Ok (), s') ∧ blocked s'.
Proof.
  intros Hm Hid [He Ht Hp].
  destruct (put_message _ (get_executor_key ns (em_id m)) (Some LEASE_TIME) s (executor_valid m Hm))
    as (b & s' & E & Hc & Hd & _). exists s'. split; [done|].
  assert (wf_key (KExecutor ns (em_id m))) as Hwf by done.
  assert (starts_with (get_task_prefix ns) (get_executor_key ns (em_id m)) = false) as Hother.
  { apply (other_kind _ (KExecutor ns (em_id m)) _ (scan_tasks_spec ns _ ns_slash_free Hwf)). by intros (? & ? & ? & ?). }
  assert (∀ k, starts_with (get_task_prefix ns) k = true → contents s' !! k = contents s !! k) as Htask.
  { intros k Hk. rewrite Hc, lookup_insert_ne; [done|]. intros <-. by rewrite Hother in Hk. }
  split.
  - intros k v. rewrite Hc. intros [[<- <-]|[_ Hk]]%lookup_insert_Some Hpre; [by rewrite Hd|by eapply He].
  - intros k v Hk Hpre. rewrite Htask in Hk by done. destruct (Ht k v Hk Hpre) as (t & Hdt & Hstuck). exists t.
    split; [done|]. intros Hn. destruct (Hstuck Hn) as (pid & w & -> & Hj & Hw & Hu). exists pid, w.
    split_and!; try done. rewrite Hc, lookup_insert_ne; [done|]. intros Heq.
    assert (KExecutor ns (em_id m) = KStage ns (ppi_job_id pid) (as_usize (ppi_stage_id pid))) by (by apply key_of_inj).
    congruence.
  - destruct Hp as (k & v & pid & Hk & Hpre & Hdt). exists k, v, pid. by rewrite Htask.
Qed.

(** C35 — A stage that is encoded but cannot be decoded blocks the scheduler.  When
    the registrations and the tasks of a store are readable, some task is
    pending and the stages of all pending tasks are such, a poll that asks for
    a task and reports nothing is answered with an error; the store it leaves
    is in the same situation, so that the next such poll fails, too; and with
    etcd the handler does not give the lock back. *)
Theorem undecodable_stage_blocks_polls g m s :
  wf_executor_meta m → slash_free (em_id m) → blocked s →
  ∃ e s', poll_work ns (Ok ()) g (mkPollWorkParams (Some (executor_meta_to_proto m)) true []) (false, s) =
    Some (Err e, (match g with OwnedMutexGuard => false | EtcdLockGuard _ => true end, s')) ∧ blocked s'.
Proof.
  intros Hm Hid Hb. destruct (blocked_save_executor m s Hm Hid Hb) as (s1 & E1 & Hb1).
  destruct (assign_blocked (em_id m) s1 Hb1) as [e E2]. eexists _, s1. split; [|done].
  unfold poll_work. cbn [pw_metadata pw_can_accept_task pw_task_status map_err].
  rewrite executor_meta_trip by done. unfold poll_work_locked, or_internal at 1, map_errM at 1. unfold bindM at 1.
  rewrite E1. cbn [map_err mfor]. unfold ret at 1, bindM at 1, bindM at 1. unfold next_task.
  unfold or_internal, map_errM, bindM. rewrite E2. by destruct g.
Qed.
End blocked.
