(* ===== verification/Planning.v ===== *)
(** * The planning of a job, write by write

    The task [execute_query] spawns (rust/scheduler/src/lib.rs) takes no lock:
    polls run between its writes.  Here the task is cut into its writes to the
    store, in order ([plan_job_writes]), and every write is proved to keep the
    cluster one the scheduler can work on.  The planning tasks of all jobs make
    their steps in any order ([planning_step]); each step is simulated on the
    cluster ([planning_simulated]). *)

From S2P Require Import Prelude Keys Proto Arrow Scalar Expr LogicalPlan SchedTypes ExecPlan.
From S2P Require Import Planner Physical Backend State Assign Server Cluster Refine.

(** A write: the plan of a stage, or one pending task of it. *)
Inductive PlanWrite :=
| WritePlan (stage : QueryStageExec)
| WriteTask (stage : QueryStageExec) (partition : Z).

(** What is left of a planning task: everything, or its last writes. *)
Inductive Planning (DFSchema : Type) :=
| PQueued (plan : LogicalPlan DFSchema) (executors : list ExecutorMeta)
| PWrites (writes : list PlanWrite).
(** The stages of a job and the physical plan they were made of. *)
Record Query := mkQuery { q_stages : list QueryStageExec; q_physical : ExecutionPlan }.
Arguments PQueued {_}.
Arguments PWrites {_}.

Section planning.
Context {S : Type} `{BackendOk S}.
Context `{Codec} `{!MessageOk PPhysicalPlanNode}.
Context `{PhysicalPlanner} `{ExprBuildersOk} `{ExecutionPlanMethodsOk} `{HashOrderOk}.
Context `{ErrorText} {DFSchema : Type} `{QueryContext DFSchema}.
Context (ns : string) (ns_slash_free : slash_free ns).
Implicit Types (s : S) (c : Cluster).

Definition stage_writes (stage : QueryStageExec) : list PlanWrite :=
  WritePlan stage :: (WriteTask stage <$> stage_partitions stage).
Definition plan_writes (stages : list QueryStageExec) : list PlanWrite := flat_map stage_writes stages.

Definition plan_write (job : string) (w : PlanWrite) : MR S Status unit :=
  match w with
  | WritePlan stage => or_internal "Could not save stage plan: "
      (save_stage_plan ns job (qs_stage_id stage) (qs_child stage))
  | WriteTask stage partition => or_internal "Could not save task status: "
      (save_task_status ns (pending_status job (qs_stage_id stage) partition))
  end.

(** The job is marked as running before its first stage is saved. *)
Definition start_job (job : string) : MR S Status unit :=
  log_error (save_job_metadata ns job running_status).

(** *** The writes are those of [plan_job] *)

Lemma mfor_app {A} (f : A → MR S Status unit) l1 l2 s :
  mfor f (l1 ++ l2) s = (let! _ := mfor f l1 in mfor f l2) s.
Proof.
  revert s. induction l1 as [|x l1 IH]; intros s; [done|]. cbn [mfor app]. unfold bindM in *.
  destruct (f x s) as [[] s1]; [apply IH|done..].
Qed.

Lemma mfor_fmap {A B} (f : B → MR S Status unit) (g : A → B) l s :
  mfor f (g <$> l) s = mfor (λ x, f (g x)) l s.
Proof.
  revert s. induction l as [|x l IH]; intros s; [done|]. cbn [mfor fmap list_fmap]. unfold bindM in *.
  destruct (f (g x) s) as [[] s1]; [apply IH|done..].
Qed.

Lemma save_stage_writes job stage s :
  save_stage ns job stage s = mfor (plan_write job) (stage_writes stage) s.
Proof.
  unfold save_stage, stage_writes. cbn [mfor plan_write]. unfold bindM at 1 2.
  destruct (or_internal _ _ s) as [[] s1]; [|done..]. by rewrite mfor_fmap.
Qed.

Lemma save_stages_writes job stages s :
  mfor (save_stage ns job) stages s = mfor (plan_write job) (plan_writes stages) s.
Proof.
  revert s. induction stages as [|stage stages IH]; intros s; [done|].
  unfold plan_writes. cbn [flat_map]. rewrite mfor_app. cbn [mfor]. unfold bindM at 1 2.
  rewrite save_stage_writes. destruct (mfor _ (stage_writes stage) s) as [[] s1]; [apply IH|done..].
Qed.
(** A plan with its stages: what [plan_job] goes on to write. *)
Record plannable (job : string) (plan : LogicalPlan DFSchema) (executors : list ExecutorMeta)
    (stages : list QueryStageExec) : Prop := {
  pl_physical : ∃ optimized p planner', ctx_optimize plan = Ok optimized ∧
    ctx_create_physical_plan optimized = Ok p ∧ df_plan p = true ∧
    plan_query_stages (mkDistributedPlanner executors 0) job p = Ok (stages, planner');
  pl_executors : executors ≠ [];
  pl_fits : Forall stage_fits stages;
}.

(** The query a planning task has made stages of: neither the optimizer nor
    the planner refused it. *)
Definition planned_query (job : string) (plan : LogicalPlan DFSchema) (executors : list ExecutorMeta) (q : Query) : Prop :=
  ∃ optimized planner', ctx_optimize plan = Ok optimized ∧ ctx_create_physical_plan optimized = Ok (q_physical q) ∧
    executors ≠ [] ∧ plan_query_stages (mkDistributedPlanner executors 0) job (q_physical q) = Ok (q_stages q, planner').

(** The stages of the query can be stored and read back: DataFusion made its
    physical plan of its own operators, and every stage survives its encoding
    and has between one and 2^32 - 1 partitions.  Not every query has this: the
    encoder writes functions the decoder refuses. *)
Definition query_fits (q : Query) : Prop := df_plan (q_physical q) = true ∧ Forall stage_fits (q_stages q).

Lemma fitting_plannable job plan executors q :
  planned_query job plan executors q → query_fits q → plannable job plan executors (q_stages q).
Proof. intros (optimized & planner' & Ho & Hp & Hex & Hst) [Hdf Hfit]. split; [|done..]. by exists optimized, (q_physical q), planner'. Qed.

Lemma plan_body_writes job plan executors q s :
  planned_query job plan executors q →
  plan_job_body ns job plan executors s =
    (let! _ := start_job job in mfor (plan_write job) (plan_writes (q_stages q))) s.
Proof.
  intros (optimized & planner' & Ho & Hp & Hex & Hst). unfold plan_job_body.
  rewrite bindM_lift, Ho. cbn [map_err]. rewrite bindM_lift, Hp. cbn [map_err].
  unfold start_job, running_status.
  destruct (log_error (save_job_metadata ns job (mkJobStatus (Some JS_Running))) s) as [r s1] eqn:E.
  destruct r; [|unfold bindM; by rewrite E..].
  rewrite !(bindM_ok _ _ _ _ _ E), bindM_lift. destruct executors as [|e0 executors]; [done|]. cbn [map_err DistributedPlanner_try_new].
  rewrite bindM_lift, Hst. cbn [map_err fst]. apply save_stages_writes.
Qed.

(** The planning task of such a query: its writes, and [fail_job!] at the first
    that fails. *)
Lemma plan_job_writes job plan executors q s :
  planned_query job plan executors q →
  plan_job ns job plan executors s =
    match (let! _ := start_job job in mfor (plan_write job) (plan_writes (q_stages q))) s with
    | (Err e, s') =>
        match save_job_metadata ns job (failed_status e) s' with
        | (Err _, s'') => (Panic "called `Result::unwrap()` on an `Err` value", s'')
        | r => r
        end
    | (Ok _, s') => (Ok (), s')
    | (Panic m, s') => (Panic m, s')
    end.
Proof. intros Hq. unfold plan_job. by rewrite (plan_body_writes _ _ _ _ _ Hq). Qed.

(** The part of [plan_job] that decides whether there is anything to write. *)
Definition planned (job : string) (plan : LogicalPlan DFSchema) (executors : list ExecutorMeta)
    : result Status (list QueryStageExec) :=
  let? optimized := map_err (df_internal_error "Could not create optimized logical plan: ")
    (ctx_optimize plan) in
  let? p := map_err (df_internal_error "Could not create physical plan: ")
    (ctx_create_physical_plan optimized) in
  let? planner := map_err (internal_error "Could not create distributed planner: ")
    (DistributedPlanner_try_new executors) in
  let? stages := map_err (internal_error "Could not plan query stages: ")
    (plan_query_stages planner job p) in
  Ok stages.1.

(** A job that cannot be planned ends as failed, with the error. *)
Lemma plan_job_refused job plan executors e s c :
  planned job plan executors = Err e → slash_free job → rep ns s c →
  ∃ s', plan_job ns job plan executors s = (Ok (), s') ∧
    rep ns s' (set_job job (failed_status e) c).
Proof.
  intros Hp Hjob Hr.
  assert (∃ s1 c1, plan_job_body ns job plan executors s = (Err e, s1) ∧ rep ns s1 c1 ∧
    set_job job (failed_status e) c1 = set_job job (failed_status e) c) as (s1 & c1 & E & Hr1 & Hc1).
  { unfold planned in Hp. unfold plan_job_body.
    rewrite bindM_lift. destruct (map_err _ (ctx_optimize plan)) as [optimized| |]; simpl in Hp;
      [|simplify_eq; by exists s, c|done].
    rewrite bindM_lift. destruct (map_err _ (ctx_create_physical_plan optimized)) as [p| |]; simpl in Hp;
      [|simplify_eq; by exists s, c|done].
    destruct (rep_save_job ns ns_slash_free job running_status s c) as (s1 & E1 & Hr1); [done..|].
    rewrite (bindM_ok _ _ s s1 ()) by (unfold log_error; fold running_status; by rewrite E1).
    exists s1, (set_job job running_status c).
    assert (set_job job (failed_status e) (set_job job running_status c) =
      set_job job (failed_status e) c) as Hc by (unfold set_job; simpl; by rewrite insert_insert_eq).
    rewrite bindM_lift. destruct (map_err _ (DistributedPlanner_try_new executors)) as [planner| |]; simpl in Hp;
      [|injection Hp as ->; by split_and!|done].
    rewrite bindM_lift. destruct (map_err _ (plan_query_stages planner job p)) as [stages| |]; simpl in Hp;
      [done|injection Hp as ->; by split_and!|done]. }
  destruct (rep_plan_job_failed ns ns_slash_free job plan executors e s s1 c1 Hjob E Hr1) as (s' & E' & Hr').
  rewrite Hc1 in Hr'. by exists s'.
Qed.

(** A job whose planning panics stays as it was, or running. *)
Lemma plan_job_crashed job plan executors m s c :
  planned job plan executors = Panic m → slash_free job → rep ns s c →
  ∃ s', plan_job ns job plan executors s = (Panic m, s') ∧ (rep ns s' c ∨ rep ns s' (set_job job running_status c)).
Proof.
  intros Hp Hjob Hr. unfold planned in Hp. unfold plan_job, plan_job_body.
  rewrite bindM_lift. destruct (map_err _ (ctx_optimize plan)) as [optimized| |]; simpl in Hp;
    [|done|simplify_eq; exists s; auto].
  rewrite bindM_lift. destruct (map_err _ (ctx_create_physical_plan optimized)) as [p| |]; simpl in Hp;
    [|done|simplify_eq; exists s; auto].
  destruct (rep_save_job ns ns_slash_free job running_status s c) as (s1 & E1 & Hr1); [done..|].
  rewrite (bindM_ok _ _ s s1 ()) by (unfold log_error; fold running_status; by rewrite E1).
  exists s1. split; [|by right].
  rewrite bindM_lift. destruct (map_err _ (DistributedPlanner_try_new executors)) as [planner| |]; simpl in Hp;
    [|done|by injection Hp as ->].
  rewrite bindM_lift. destruct (map_err _ (plan_query_stages planner job p)) as [stages| |]; simpl in Hp;
    [done..|by injection Hp as ->].
Qed.

(** *** A planning task and the cluster *)

(** The stages [pre] are saved, [cur] is being saved, the others are not. *)
Record writes_ok c (job : string) (ws : list PlanWrite) pre (cur : option (QueryStageExec * list Z))
    (stages : list QueryStageExec) : Prop := {
  wr_writes : ws = match cur with Some (stage, pts) => WriteTask stage <$> pts | None => [] end ++
    plan_writes stages;
  wr_fits : Forall stage_fits (pre ++ option_list (fst <$> cur) ++ stages);
  wr_deps : deps_ok [] (pre ++ option_list (fst <$> cur) ++ stages);
  wr_sorted : stages_sorted (pre ++ option_list (fst <$> cur) ++ stages);
  wr_done stage pt : stage ∈ pre → pt ∈ stage_partitions stage →
    is_Some (cl_tasks c !! (job, qs_stage_id stage, pt));
  wr_left stage pt : stage ∈ stages → cl_tasks c !! (job, qs_stage_id stage, pt) = None;
  wr_cur stage pts : cur = Some (stage, pts) → NoDup pts ∧
    cl_plans c !! (job, qs_stage_id stage) = Some (qs_child stage) ∧
    ∀ pt, if decide (pt ∈ pts)
      then pt ∈ stage_partitions stage ∧ cl_tasks c !! (job, qs_stage_id stage, pt) = None
      else pt ∈ stage_partitions stage → is_Some (cl_tasks c !! (job, qs_stage_id stage, pt));
}.

Definition planning_ok c (x : string * Planning DFSchema) : Prop :=
  slash_free x.1 ∧
  match x.2 with
  | PQueued _ _ => ∀ st pt, cl_tasks c !! (x.1, st, pt) = None
  | PWrites ws => ∃ pre cur stages, writes_ok c x.1 ws pre cur stages
  end.

(** What another step may change: the status of a recorded task. *)
Definition job_frame (job : string) c c' : Prop :=
  (∀ st pt, cl_tasks c !! (job, st, pt) = None ↔ cl_tasks c' !! (job, st, pt) = None) ∧
  (∀ st, cl_plans c' !! (job, st) = cl_plans c !! (job, st)).

Lemma job_frame_is_Some job c c' st pt :
  job_frame job c c' → is_Some (cl_tasks c !! (job, st, pt)) → is_Some (cl_tasks c' !! (job, st, pt)).
Proof. intros [Hf _] Hs%not_eq_None_Some. apply not_eq_None_Some. by rewrite <-Hf. Qed.

Lemma planning_ok_frame c c' x : job_frame x.1 c c' → planning_ok c x → planning_ok c' x.
Proof.
  intros Hf [Hjob Hx]. pose proof Hf as [Ht Hp]. split; [done|]. destruct x as [job [plan executors|ws]]; simpl in *.
  - intros st pt. by rewrite <-Ht.
  - destruct Hx as (pre & cur & stages & [Hw Hfit Hd Hs Hdone Hleft Hcur]). exists pre, cur, stages.
    split; [done..| | |].
    + intros stage pt Hst Hpt. by apply (job_frame_is_Some job c c'); [|apply Hdone].
    + intros stage pt Hst. by apply Ht, Hleft.
    + intros stage pts E. destruct (Hcur stage pts E) as (Hnd & Hpl & Hpts). rewrite Hp.
      split_and!; [done..|]. intros pt. specialize (Hpts pt). case_decide.
      * destruct Hpts as [? Hn%Ht]. done.
      * intros Hin%Hpts. by apply (job_frame_is_Some job c c').
Qed.

(** A task that starts. *)
Lemma writes_start job plan executors stages c :
  plannable job plan executors stages → (∀ st pt, cl_tasks c !! (job, st, pt) = None) →
  writes_ok c job (plan_writes stages) [] None stages.
Proof.
  intros [(optimized & p & planner' & _ & _ & Hdf & Hst) _ Hfit] Hnew.
  destruct (plan_query_stages_ok _ _ _ _ _ Hdf Hst) as (Hids & _ & Hdeps & _ & _).
  split; simpl; try done; [by eapply ids_sorted|]. by intros stage pt ?%not_elem_of_nil.
Qed.

(** *** A write on the cluster *)

Definition write_cluster (job : string) (w : PlanWrite) c : Cluster :=
  match w with
  | WritePlan stage => set_plan (job, qs_stage_id stage) (qs_child stage) c
  | WriteTask stage pt => set_task (job, qs_stage_id stage, pt) None c
  end.

(** A task is written once. *)
Definition write_new (job : string) (w : PlanWrite) c : Prop :=
  match w with
  | WritePlan stage => ∀ pt, cl_tasks c !! (job, qs_stage_id stage, pt) = None
  | WriteTask stage pt => cl_tasks c !! (job, qs_stage_id stage, pt) = None
  end.

Lemma rep_plan_write job w s c :
  slash_free job → rep ns s c →
  match w with
  | WritePlan stage => stage_fits stage
  | WriteTask stage pt => stage_fits stage ∧ pt ∈ stage_partitions stage
  end →
  ∃ s', plan_write job w s = (Ok (), s') ∧ rep ns s' (write_cluster job w c).
Proof.
  intros Hjob Hr Hw. destruct w as [stage|stage pt]; simpl in *.
  - destruct Hw as (Hsto & _ & Hst & _).
    destruct (rep_save_plan ns ns_slash_free job (qs_stage_id stage) (qs_child stage) s c) as (s1 & E1 & Hr1); [done..|].
    exists s1. unfold or_internal, map_errM. by rewrite E1.
  - destruct Hw as ((_ & _ & Hst & Hcount) & Hpt%elem_of_zrange).
    assert (in_u 32 pt) by (unfold in_u; lia).
    destruct (rep_save_task ns ns_slash_free (job, qs_stage_id stage, pt) None s c) as (s2 & E2 & Hr2); [done..|].
    exists s2. unfold or_internal, map_errM, pending_status. rewrite !(wrap_u_id 32) by done.
    cbn [task_message] in E2. by rewrite E2.
Qed.

(** The next write of a planning task: a plan, and the tasks of that stage
    follow; or a task of the current stage. *)
Lemma writes_next c job w ws pre cur stages :
  writes_ok c job (w :: ws) pre cur stages →
  (∃ stage pts, w = WriteTask stage (hd 0%Z pts) ∧ pts ≠ [] ∧ cur = Some (stage, pts) ∧
    ws = (WriteTask stage <$> tl pts) ++ plan_writes stages) ∨
  (∃ stage stages', w = WritePlan stage ∧ stages = stage :: stages' ∧
    ws = (WriteTask stage <$> stage_partitions stage) ++ plan_writes stages' ∧
    ∀ x pts, cur = Some (x, pts) → pts = []).
Proof.
  intros [Hw _ _ _ _ _ _]. destruct cur as [[stage [|pt pts]]|]; simpl in Hw.
  2:{ simplify_eq. left. by exists stage, (pt :: pts). }
  all: right; destruct stages as [|stage' stages]; [done|]; unfold plan_writes in Hw; simpl in Hw;
    simplify_eq; exists stage', stages; split_and!; try done; intros; by simplify_eq.
Qed.

(** The stages that are saved completely once the current one is. *)
Lemma writes_done c job ws pre cur stages :
  writes_ok c job ws pre cur stages → (∀ x pts, cur = Some (x, pts) → pts = []) →
  ∀ stage pt, stage ∈ pre ++ option_list (fst <$> cur) → pt ∈ stage_partitions stage →
    is_Some (cl_tasks c !! (job, qs_stage_id stage, pt)).
Proof.
  intros Hw Hcur stage pt [Hst|Hst]%elem_of_app Hpt; [by eapply wr_done|].
  destruct cur as [[x pts]|]; simpl in Hst; [|by apply not_elem_of_nil in Hst].
  apply list_elem_of_singleton in Hst as ->. destruct (wr_cur _ _ _ _ _ _ Hw x pts eq_refl) as (_ & _ & Hp).
  rewrite (Hcur x pts eq_refl) in Hp. specialize (Hp pt).
  by rewrite decide_False in Hp by apply not_elem_of_nil; auto.
Qed.

Lemma write_plan_ok c job ws ws' pre cur stage stages :
  writes_ok c job ws pre cur (stage :: stages) → (∀ x pts, cur = Some (x, pts) → pts = []) →
  ws' = (WriteTask stage <$> stage_partitions stage) ++ plan_writes stages →
  writes_ok (write_cluster job (WritePlan stage) c) job ws'
    (pre ++ option_list (fst <$> cur)) (Some (stage, stage_partitions stage)) stages.
Proof.
  intros Hw Hcur ->. pose proof (writes_done _ _ _ _ _ _ Hw Hcur) as Hdone.
  destruct Hw as [_ Hfit Hd Hs _ Hleft _]. split; simpl; rewrite <-?app_assoc; try done.
  - intros x pt Hx. apply Hleft. by right.
  - intros x pts [= <- <-]. rewrite lookup_insert_eq. split_and!; [apply NoDup_zrange|done|].
    intros pt. case_decide; [|done]. split; [done|]. apply Hleft. by left.
Qed.

Lemma write_task_ok c job ws ws' pre stage pt pts stages :
  writes_ok c job ws pre (Some (stage, pt :: pts)) stages →
  ws' = (WriteTask stage <$> pts) ++ plan_writes stages →
  writes_ok (write_cluster job (WriteTask stage pt) c) job ws' pre (Some (stage, pts)) stages.
Proof.
  intros [_ Hfit Hd Hs Hdone Hleft Hcur] ->. simpl in *.
  destruct (Hcur _ _ eq_refl) as ([Hnot Hnd]%NoDup_cons & Hpl & Hpts).
  assert (∀ x, x ∈ stages → (qs_stage_id stage < qs_stage_id x)%Z) as Hlt.
  { intros x Hx. change (stages_sorted (pre ++ [stage] ++ stages)) in Hs. rewrite app_assoc in Hs.
    apply (sorted_before _ _ _ _ Hs); [|done]. apply elem_of_app. right. by apply list_elem_of_singleton. }
  assert (∀ t, is_Some (cl_tasks c !! t) →
    is_Some (<[(job, qs_stage_id stage, pt) := None]> (cl_tasks c) !! t)) as Hmono.
  { intros t [o Ht]. destruct (decide ((job, qs_stage_id stage, pt) = t)) as [<-|];
      [rewrite lookup_insert_eq; eauto|]. rewrite lookup_insert_ne by done. eauto. }
  split; simpl; try done.
  - intros x pt' Hx Hpt'. by apply Hmono, Hdone.
  - intros x pt' Hx. rewrite lookup_insert_ne; [by apply Hleft|]. intros [= He _]. specialize (Hlt x Hx). lia.
  - intros x pts' [= <- <-]. split_and!; [done..|]. intros pt'. specialize (Hpts pt').
    destruct (decide (pt' = pt)) as [->|Hne].
    + rewrite decide_False by done. intros _. rewrite lookup_insert_eq. eauto.
    + rewrite lookup_insert_ne by congruence. destruct (decide (pt' ∈ pts)) as [Hin|Hni].
      * rewrite decide_True in Hpts by (by right). done.
      * rewrite decide_False in Hpts; [done|]. by intros [?|?]%elem_of_cons.
Qed.

(** A planning task can make its next write, and the scheduler can work on the
    cluster afterwards. *)
Lemma plan_write_step job w ws s c :
  planning_ok c (job, PWrites (w :: ws)) → rep ns s c → cluster_ok c →
  ∃ s', plan_write job w s = (Ok (), s') ∧ rep ns s' (write_cluster job w c) ∧
    cluster_ok (write_cluster job w c) ∧ planning_ok (write_cluster job w c) (job, PWrites ws) ∧
    write_new job w c.
Proof.
  intros [Hjob (pre & cur & stages & Hw)] Hr Hok. simpl in Hjob.
  destruct (writes_next _ _ _ _ _ _ _ Hw) as [(stage & pts & -> & Hne & -> & Hws)|(stage & stages' & -> & -> & Hws & Hcur)].
  - destruct pts as [|pt pts]; [done|]. simpl in Hws. cbn [hd].
    pose proof (write_task_ok _ _ _ _ _ _ _ _ _ Hw Hws) as Hw'.
    destruct Hw as [_ Hfit Hd Hs Hdone _ Hcur]. destruct (Hcur _ _ eq_refl) as (_ & Hpl & Hpts).
    specialize (Hpts pt). rewrite decide_True in Hpts by (by left). destruct Hpts as [Hpt Hnone].
    simpl in Hfit, Hd, Hs. apply Forall_app in Hfit as [Hpre [Hstage _]%Forall_cons].
    apply deps_ok_app in Hd as [_ [Hreads _]].
    destruct (rep_plan_write job (WriteTask stage pt) s c) as (s' & E & Hr'); [done..|].
    exists s'. split_and!; [done|done| |split; [done|by eexists _, _, _]|done].
    apply (ok_add_task job _ pt (qs_child stage)); [done|done|by eapply stage_fits_ok|].
    intros st' pt' (x & Hx & -> & Hpt')%(inputs_of_reads _ _ _ _ Hreads).
    split; [|by apply Hdone]. apply (sorted_before _ _ _ _ Hs); [done|by left].
  - pose proof (write_plan_ok _ _ _ _ _ _ _ _ Hw Hcur Hws) as Hw'. destruct Hw as [_ Hfit _ _ _ Hleft _].
    assert (stage_fits stage) as Hstage.
    { rewrite Forall_forall in Hfit. apply Hfit. rewrite !elem_of_app. right. right. by left. }
    destruct (rep_plan_write job (WritePlan stage) s c) as (s' & E & Hr'); [done..|].
    assert (∀ pt, cl_tasks c !! (job, qs_stage_id stage, pt) = None) as Hnew by (intros pt; apply Hleft; by left).
    exists s'. split_and!; [done|done| |split; [done|by eexists _, _, _]|done].
    by apply ok_add_plan.
Qed.
(** ** The planning tasks of a scheduler

    The jobs that are planned, each with what is left of its planning task.  A
    step accepts a query, starts the writes of a job, ends a planning task that
    is refused or panics, makes one write, or ends a planning task at a write
    that fails, with the job recorded as failed ([fail_job!]).  Jobs have fresh
    ids (the handler draws them at random).

    The parameter [admits] says which queries are planned; the theorems about
    runs need a condition on these, so the condition is an argument of the
    steps and not part of them. *)

Section steps.
Context `{DataFusion DFSchema} (admits : Query → Prop).
Implicit Types pl : list (string * Planning DFSchema).

Inductive planning_step : S * list (string * Planning DFSchema) → S * list (string * Planning DFSchema) → Prop :=
| step_accept s pl job query plan executors s' :
    slash_free job → (∀ st pt, contents s !! get_task_status_key ns job st pt = None) → job ∉ pl.*1 →
    parse_query query = Ok plan → get_executors_metadata ns s = (Ok executors, s) →
    execute_query ns job (mkExecuteQueryParams (Some query)) s =
      (Ok (job, plan_job ns job plan executors), s') →
    planning_step (s, pl) (s', (job, PQueued plan executors) :: pl)
| step_start s l1 job plan executors l2 q s' :
    planned_query job plan executors q → admits q → start_job job s = (Ok (), s') →
    planning_step (s, l1 ++ (job, PQueued plan executors) :: l2)
      (s', l1 ++ (job, PWrites (plan_writes (q_stages q))) :: l2)
| step_refuse s l1 job plan executors l2 e s' :
    planned job plan executors = Err e → plan_job ns job plan executors s = (Ok (), s') →
    planning_step (s, l1 ++ (job, PQueued plan executors) :: l2) (s', l1 ++ l2)
| step_crash s l1 job plan executors l2 m m' s' :
    planned job plan executors = Panic m → plan_job ns job plan executors s = (Panic m', s') →
    planning_step (s, l1 ++ (job, PQueued plan executors) :: l2) (s', l1 ++ l2)
| step_write s l1 job w ws l2 s' :
    plan_write job w s = (Ok (), s') →
    planning_step (s, l1 ++ (job, PWrites (w :: ws)) :: l2) (s', l1 ++ (job, PWrites ws) :: l2)
| step_write_fails s l1 job w ws l2 e s1 r s' :
    plan_write job w s = (Err e, s1) → save_job_metadata ns job (failed_status e) s1 = (r, s') →
    planning_step (s, l1 ++ (job, PWrites (w :: ws)) :: l2) (s', l1 ++ l2)
| step_write_crashes s l1 job w ws l2 m s' :
    plan_write job w s = (Panic m, s') →
    planning_step (s, l1 ++ (job, PWrites (w :: ws)) :: l2) (s', l1 ++ l2).

(** The steps on the cluster, of queries that fit. *)
Inductive planning_effect : list (string * Planning DFSchema) → Cluster → list (string * Planning DFSchema) → Cluster → Prop :=
| effect_accept pl c job query plan executors :
    job ∉ pl.*1 → parse_query query = Ok plan → (∀ st pt, cl_tasks c !! (job, st, pt) = None) →
    planning_effect pl c ((job, PQueued plan executors) :: pl) (set_job job (mkJobStatus (Some JS_Queued)) c)
| effect_start l1 job plan executors l2 q c :
    planned_query job plan executors q → admits q → (∀ st pt, cl_tasks c !! (job, st, pt) = None) →
    planning_effect (l1 ++ (job, PQueued plan executors) :: l2) c
      (l1 ++ (job, PWrites (plan_writes (q_stages q))) :: l2) (set_job job running_status c)
| effect_refuse l1 job plan executors l2 js c :
    (∀ locs, js ≠ mkJobStatus (Some (JS_Completed locs))) → (∀ st pt, cl_tasks c !! (job, st, pt) = None) →
    planning_effect (l1 ++ (job, PQueued plan executors) :: l2) c (l1 ++ l2) (set_job job js c)
| effect_crash l1 job plan executors l2 c :
    planning_effect (l1 ++ (job, PQueued plan executors) :: l2) c (l1 ++ l2) c
| effect_write l1 job w ws l2 c :
    write_new job w c →
    planning_effect (l1 ++ (job, PWrites (w :: ws)) :: l2) c (l1 ++ (job, PWrites ws) :: l2) (write_cluster job w c).

(** The planning tasks are in step with the cluster. *)
Record planning_inv c (pl : list (string * Planning DFSchema)) : Prop := {
  pi_jobs : NoDup pl.*1;
  pi_ok : Forall (planning_ok c) pl;
}.

Lemma planning_inv_frame c c' pl : (∀ job, job_frame job c c') → planning_inv c pl → planning_inv c' pl.
Proof.
  intros Hf [Hnd Hok]. split; [done|]. eapply Forall_impl; [exact Hok|]. intros x. by apply planning_ok_frame.
Qed.

(** Another job's planning is not touched. *)
Lemma write_frame job w c job' : job' ≠ job → job_frame job' c (write_cluster job w c).
Proof.
  intros Hne. destruct w as [stage|stage pt]; split; simpl; intros; try done;
    rewrite lookup_insert_ne by congruence; done.
Qed.

(** The planning tasks after a change for one job. *)
Lemma planning_others c c' job l1 l2 x :
  planning_inv c (l1 ++ (job, x) :: l2) → (∀ job', job' ≠ job → job_frame job' c c') →
  planning_inv c' (l1 ++ l2) ∧ (job ∉ (l1 ++ l2).*1) ∧ planning_ok c (job, x).
Proof.
  intros [Hnd Hall] Hf. assert (NoDup ((job, x) :: l1 ++ l2).*1) as Hnd'.
  { by rewrite Permutation_middle. }
  rewrite <-Permutation_middle in Hall. apply Forall_cons in Hall as [Hx Hall].
  csimpl in Hnd'. apply NoDup_cons in Hnd' as [Hni Hnd']. split_and!; [split; [done|]|done|done].
  rewrite Forall_forall in Hall |- *. intros y Hy. eapply planning_ok_frame; [|by apply Hall].
  apply Hf. intros He. apply Hni. rewrite <-He. by apply list_elem_of_fmap_2.
Qed.

Lemma planning_insert c job l1 l2 x :
  planning_inv c (l1 ++ l2) → job ∉ (l1 ++ l2).*1 → planning_ok c (job, x) →
  planning_inv c (l1 ++ (job, x) :: l2).
Proof.
  intros [Hnd Hall] Hni Hx. split; rewrite <-Permutation_middle; csimpl; constructor; done.
Qed.

Lemma rep_fresh job s c :
  rep ns s c → (∀ st pt, contents s !! get_task_status_key ns job st pt = None) →
  ∀ st pt, cl_tasks c !! (job, st, pt) = None.
Proof.
  intros Hr Hf st pt. destruct (cl_tasks c !! (job, st, pt)) as [o|] eqn:Eo; [|done].
  destruct (rep_task_at _ _ _ _ _ Hr Eo) as (_ & b & Hb & _). simpl in Hb. by rewrite Hf in Hb.
Qed.

(** What [execute_query] leaves. *)
Lemma execute_query_stored job query plan executors s s' c :
  slash_free job → parse_query query = Ok plan → get_executors_metadata ns s = (Ok executors, s) →
  execute_query ns job (mkExecuteQueryParams (Some query)) s = (Ok (job, plan_job ns job plan executors), s') →
  rep ns s c → rep ns s' (set_job job (mkJobStatus (Some JS_Queued)) c).
Proof.
  intros Hjob Hq Hex E Hr.
  destruct (rep_save_job ns ns_slash_free job (mkJobStatus (Some JS_Queued)) s c) as (s1 & E1 & Hr1); [done..|].
  assert (s' = s1) as ->; [|done].
  unfold execute_query in E. cbn [eq_query] in E. rewrite bindM_lift, Hq in E.
  unfold or_internal, map_errM in E. unfold bindM at 1 in E. rewrite Hex in E. cbn [map_err] in E.
  unfold bindM in E. rewrite E1 in E. cbn [map_err] in E. by injection E.
Qed.

(** Every step has its effect, and the scheduler can work on the cluster
    afterwards, if the queries fit: then no write fails. *)
Lemma planning_simulated x x' c :
  (∀ q, admits q → query_fits q) →
  planning_step x x' → rep ns x.1 c → cluster_ok c → planning_inv c x.2 →
  ∃ c', rep ns x'.1 c' ∧ cluster_ok c' ∧ planning_inv c' x'.2 ∧ planning_effect x.2 c x'.2 c'.
Proof.
  intros Hfits Hstep Hr Hok Hpl.
  assert (∀ l1 job y l2 js, x.2 = l1 ++ (job, y) :: l2 → planning_inv (set_job job js c) (l1 ++ l2) ∧
    planning_inv c (l1 ++ l2) ∧ (job ∉ (l1 ++ l2).*1) ∧ planning_ok c (job, y)) as Hothers.
  { intros l1 job y l2 js E. rewrite E in Hpl.
    destruct (planning_others c (set_job job js c) _ _ _ _ Hpl) as (? & ? & ?); [done|].
    by destruct (planning_others c c _ _ _ _ Hpl) as (? & _). }
  destruct Hstep as [s pl job query plan executors s' Hjob Hf Hni Hq Hex E
    |s l1 job plan executors l2 q s' Hplan Hadm E|s l1 job plan executors l2 e s' Hplan E|s l1 job plan executors l2 m m' s' Hplan E
    |s l1 job w ws l2 s' E|s l1 job w ws l2 e s1 r s' E Es|s l1 job w ws l2 m s' E]; simpl in *.
  - pose proof (rep_fresh job s c Hr Hf) as Hnew. eexists. split; [by eapply execute_query_stored|].
    split; [by eapply ok_same_work; [|exact Hok]|]. split; [|by eapply effect_accept].
    apply (planning_insert _ job [] pl); [by eapply planning_inv_frame; [|exact Hpl]|done|by split].
  - destruct (Hothers _ _ _ _ running_status eq_refl) as (Hpl' & _ & Hni & [Hjob Hnew]). simpl in Hjob, Hnew.
    destruct (rep_save_job ns ns_slash_free job running_status s c) as (s1 & E1 & Hr1); [done..|].
    unfold start_job, log_error in E. rewrite E1 in E. simplify_eq.
    eexists. split; [exact Hr1|]. split; [by eapply ok_same_work; [|exact Hok]|]. split; [|by eapply effect_start].
    apply planning_insert; [done..|]. split; [done|]. eexists _, _, _. eapply writes_start; [|done].
    by apply fitting_plannable; [|apply Hfits].
  - destruct (Hothers _ _ _ _ (failed_status e) eq_refl) as (Hpl' & _ & Hni & [Hjob Hnew]). simpl in Hjob, Hnew.
    destruct (plan_job_refused job plan executors e s c Hplan Hjob Hr) as (s1 & E1 & Hr1).
    rewrite E in E1. simplify_eq.
    eexists. split_and!; [exact Hr1|by eapply ok_same_work; [|exact Hok]|done|by apply effect_refuse].
  - destruct (Hothers _ _ _ _ running_status eq_refl) as (Hpl' & Hpl'' & Hni & [Hjob Hnew]). simpl in Hjob, Hnew.
    destruct (plan_job_crashed job plan executors m s c Hplan Hjob Hr) as (s1 & E1 & Hr1).
    rewrite E in E1. simplify_eq. destruct Hr1 as [Hr1|Hr1]; eexists.
    + split_and!; [exact Hr1|done|done|apply effect_crash].
    + split_and!; [exact Hr1|by eapply ok_same_work; [|exact Hok]|done|by apply effect_refuse].
  - destruct (planning_others c (write_cluster job w c) _ _ _ _ Hpl) as (Hpl' & Hni & Hx);
      [by intros; apply write_frame|].
    destruct (plan_write_step job w ws s c Hx Hr Hok) as (s1 & E1 & Hr1 & Hok1 & Hx1 & Hnew).
    rewrite E in E1. simplify_eq.
    eexists. split_and!; [exact Hr1|done|by apply planning_insert|by apply effect_write].
  - destruct (Hothers _ _ _ _ running_status eq_refl) as (_ & _ & _ & Hx).
    destruct (plan_write_step job w ws s c Hx Hr Hok) as (s2 & E2 & _). congruence.
  - destruct (Hothers _ _ _ _ running_status eq_refl) as (_ & _ & _ & Hx).
    destruct (plan_write_step job w ws s c Hx Hr Hok) as (s2 & E2 & _). congruence.
Qed.
End steps.

(** ** Properties *)

(** C11 — A query that can be planned, on a cluster with executors: the planning
    succeeds, the job is running, the plan of every stage is recorded and every
    partition of it is a pending task, the tasks of other jobs are untouched,
    and the scheduler can work on the cluster. *)
Theorem plan_job_records_stages job (plan : LogicalPlan DFSchema) executors stages s c :
  plannable job plan executors stages → slash_free job → rep ns s c → cluster_ok c →
  (∀ st pt, cl_tasks c !! (job, st, pt) = None) →
  ∃ s' c', plan_job ns job plan executors s = (Ok (), s') ∧ rep ns s' c' ∧ cluster_ok c' ∧
    cl_jobs c' !! job = Some running_status ∧
    (∀ stage, stage ∈ stages → cl_plans c' !! (job, qs_stage_id stage) = Some (qs_child stage) ∧
      ∀ pt, (0 ≤ pt < partition_count (stage_plan stage))%Z →
        cl_tasks c' !! (job, qs_stage_id stage, pt) = Some None) ∧
    (∀ t, t.1.1 ≠ job → cl_tasks c' !! t = cl_tasks c !! t).
Proof.
  intros [(optimized & p & planner' & Ho & Hp & Hdf & Hst) Hex Hfit] Hjob Hr Hok Hnew.
  destruct (rep_plan_job ns ns_slash_free job plan optimized p executors stages planner' s c)
    as (s' & E & Hr' & Hok' & Hsort); [done..|].
  destruct (add_stages_spec ns ns_slash_free job stages (set_job job running_status c) Hsort)
    as (Hin & _ & Hother & _ & Hj).
  eexists s', _. split_and!; [exact E|exact Hr'|exact Hok'| | |done].
  - rewrite Hj. simpl. by rewrite lookup_insert_eq.
  - intros stage Hstage. destruct (Hin stage Hstage) as [Hpl Hts]. split; [done|].
    intros pt Hpt. by apply Hts, elem_of_zrange.
Qed.

(** C22 — A query that cannot be planned (the optimizer or the planner refuses
    it, or there are no executors): the planning task ends normally and the
    job is recorded as failed with that error; nothing else changes. *)
Theorem plan_job_records_failure job (plan : LogicalPlan DFSchema) executors e s c :
  planned job plan executors = Err e → slash_free job → rep ns s c →
  ∃ s', plan_job ns job plan executors s = (Ok (), s') ∧
    rep ns s' (set_job job (mkJobStatus (Some (JS_Failed (status_display e)))) c).
Proof. apply plan_job_refused. Qed.
End planning.
