(* ===== verification/Shared.v ===== *)
(** * A poll while jobs are planned

    [poll_work] (src/rust/scheduler/src/lib.rs) holds the global lock, but the
    tasks that plan jobs do not take it: their writes fall between any two
    operations of a poll on the store.  A shared store applies, before every
    operation, what the planning tasks did since the last one.  The handlers
    are generic in the backend, so a poll on a shared store is the very code of
    Server.v.

    The result: up to its search for a task, a disturbed poll acts as one
    that runs at the moment it reads the tasks ([shared_poll]); the
    synchronization of the jobs that follows it reads every job at a moment of
    its own, and leaves the jobs in step with their tasks all the same
    ([synced]). *)

From S2P Require Import Prelude Keys Proto Arrow Scalar Expr LogicalPlan SchedTypes ExecPlan.
From S2P Require Import Planner Physical Backend State Assign Server Cluster Refine Planning.

(** ** What planning may do to a cluster *)

(** Executors and recorded tasks stay as they are, as do the plans of their
    stages; new tasks are pending. *)
Record work_extends (c c' : Cluster) : Prop := {
  ext_executors : cl_executors c' = cl_executors c;
  ext_tasks t o : cl_tasks c !! t = Some o → cl_tasks c' !! t = Some o;
  ext_new t r : cl_tasks c' !! t = Some (Some r) → cl_tasks c !! t = Some (Some r);
  ext_plans job st pt : is_Some (cl_tasks c !! (job, st, pt)) →
    cl_plans c' !! (job, st) = cl_plans c !! (job, st);
}.
(** The status of a job with tasks stays, and no job becomes completed. *)
Record extends (c c' : Cluster) : Prop := {
  ext_work :> work_extends c c';
  ext_jobs job st pt : is_Some (cl_tasks c !! (job, st, pt)) → cl_jobs c' !! job = cl_jobs c !! job;
  ext_completed job locs : cl_jobs c' !! job = Some (mkJobStatus (Some (JS_Completed locs))) →
    cl_jobs c !! job = Some (mkJobStatus (Some (JS_Completed locs)));
}.

Lemma ext_recorded c c' t : work_extends c c' → is_Some (cl_tasks c !! t) → is_Some (cl_tasks c' !! t).
Proof. intros Hw [o Ho]. exists o. by apply (ext_tasks _ _ Hw). Qed.

#[export] Instance work_extends_preorder : PreOrder work_extends.
Proof.
  split; [by split|]. intros c1 c2 c3 H12 H23. split.
  - by rewrite (ext_executors _ _ H23), (ext_executors _ _ H12).
  - intros t o Ht. by apply (ext_tasks _ _ H23), (ext_tasks _ _ H12).
  - intros t r Ht. by apply (ext_new _ _ H12), (ext_new _ _ H23).
  - intros job st pt Ht. rewrite (ext_plans _ _ H23 job st pt); [by apply (ext_plans _ _ H12 job st pt)|].
    by apply (ext_recorded _ _ _ H12).
Qed.
#[export] Instance extends_preorder : PreOrder extends.
Proof.
  split; [by split|]. intros c1 c2 c3 H12 H23. split.
  - etransitivity; [apply H12|apply H23].
  - intros job st pt Ht. rewrite (ext_jobs _ _ H23 job st pt); [by apply (ext_jobs _ _ H12 job st pt)|].
    by apply (ext_recorded _ _ _ H12).
  - intros job locs Hj. by apply (ext_completed _ _ H12), (ext_completed _ _ H23).
Qed.

Lemma extends_set_job job js c :
  (∀ st pt, cl_tasks c !! (job, st, pt) = None) → (∀ locs, js ≠ mkJobStatus (Some (JS_Completed locs))) →
  extends c (set_job job js c).
Proof.
  intros Hnew Hjs. split; [by split|..]; simpl.
  - intros job' st pt [o Ho]. rewrite lookup_insert_ne; [done|]. intros <-. by rewrite Hnew in Ho.
  - intros job' locs [[<- He]|[_ ?]]%lookup_insert_Some; [by destruct (Hjs locs)|done].
Qed.

Lemma extends_write job w c : write_new job w c → extends c (write_cluster job w c).
Proof.
  intros Hnew. split; [|by destruct w..]. destruct w as [stage|stage pt]; split; simpl in *; try done.
  - intros job' st pt [o Ho]. rewrite lookup_insert_ne; [done|]. intros [= <- <-]. by rewrite Hnew in Ho.
  - intros t o Ht. rewrite lookup_insert_ne; [done|]. intros <-. congruence.
  - by intros t r [[_ ?]|[_ ?]]%lookup_insert_Some.
Qed.

(** The cluster before the poll's own write of [t], when others wrote after it. *)
Lemma extends_before_task t o c c' :
  is_Some (cl_tasks c !! t) → extends (set_task t o c) c' → ∃ c1, extends c c1 ∧ c' = set_task t o c1.
Proof.
  intros [o0 Ho] [[He Ht Hn Hp] Hj Hc]. simpl in *.
  assert (∀ x, is_Some (cl_tasks c !! x) → is_Some (<[t := o]> (cl_tasks c) !! x)) as Hrec.
  { intros x Hx. destruct (decide (t = x)) as [<-|]; [rewrite lookup_insert_eq; eauto|by rewrite lookup_insert_ne]. }
  exists (set_task t o0 c'). split.
  - split; [split|..]; simpl; try done; [| |eauto|eauto].
    + intros x ox Hx. destruct (decide (t = x)) as [<-|]; [rewrite lookup_insert_eq; congruence|].
      rewrite lookup_insert_ne by done. apply Ht. by rewrite lookup_insert_ne.
    + intros x r Hx. destruct (decide (t = x)) as [<-|]; [rewrite lookup_insert_eq in Hx; congruence|].
      rewrite lookup_insert_ne in Hx by done. apply Hn in Hx. by rewrite lookup_insert_ne in Hx.
  - unfold set_task. simpl. rewrite insert_insert_eq, insert_id; [by destruct c'|].
    apply Ht, lookup_insert_eq.
Qed.

Lemma extends_set_task t o c c' : is_Some (cl_tasks c !! t) → extends c c' → extends (set_task t o c) (set_task t o c').
Proof.
  intros Hrec [[He Ht Hn Hp] Hj Hc].
  assert (∀ x, is_Some (<[t := o]> (cl_tasks c) !! x) → is_Some (cl_tasks c !! x)) as Hback.
  { intros x [ox [[<- _]|[_ Hx]]%lookup_insert_Some]; eauto. }
  split; [split|..]; simpl; try done; [| |eauto|eauto].
  - intros x ox [[<- <-]|[Hne Hx]]%lookup_insert_Some; [apply lookup_insert_eq|]. rewrite lookup_insert_ne; auto.
  - intros x r [[<- ->]|[Hne Hx]]%lookup_insert_Some; [apply lookup_insert_eq|]. rewrite lookup_insert_ne; auto.
Qed.

Lemma extends_before_executor m c c' :
  extends (set_executor m c) c' → ∃ c1, extends c c1 ∧ c' = set_executor m c1.
Proof.
  intros [[He Ht Hn Hp] Hj Hc]. simpl in *.
  exists (mkCluster (cl_executors c) (cl_tasks c') (cl_plans c') (cl_jobs c')).
  split; [by split; [split|..]|]. unfold set_executor. simpl. rewrite <-He. by destruct c'.
Qed.

(** The reports of an executor and the writes of the planning tasks commute. *)
Lemma extends_before_reports ex reports c c' :
  Forall (report_ok ex c) reports → extends (apply_reports c reports) c' →
  ∃ c1, extends c c1 ∧ c' = apply_reports c1 reports.
Proof.
  revert c' c. induction reports as [|t reports IH] using rev_ind; intros c' c Hall Hext; [by exists c'|].
  apply Forall_app in Hall as [Hall [(id & st & -> & Hrec & _) _]%Forall_cons].
  unfold apply_reports in *. rewrite foldl_snoc, apply_report_message in Hext.
  apply extends_before_task in Hext as (c1 & Hext & ->); [|].
  - destruct (IH c1 c Hall Hext) as (c2 & Hext2 & ->). exists c2. split; [done|].
    by rewrite foldl_snoc, apply_report_message.
  - clear -Hrec. induction reports as [|t reports IH] using rev_ind; [done|]. rewrite foldl_snoc.
    unfold apply_report at 1. destruct (ts_partition_id t) as [pid|]; [|done]. simpl.
    destruct (decide ((ppi_job_id pid, ppi_stage_id pid, ppi_partition_id pid) = id)) as [<-|];
      [rewrite lookup_insert_eq; eauto|by rewrite lookup_insert_ne].
Qed.

Lemma report_ok_extends ex c c' t : work_extends c c' → report_ok ex c t → report_ok ex c' t.
Proof. intros Hw (id & st & -> & Hrec & He). exists id, st. split_and!; [done|by eapply ext_recorded|done]. Qed.

Lemma poll_outcome_executors `{PhysicalPlanner} `{ExecutionPlanMethods} c m accept task c' :
  poll_outcome c m accept task c' → cl_executors c' = cl_executors c.
Proof. by intros [(_ & (-> & _) & _)|(_ & t & ? & ? & _ & _ & _ & _ & (-> & _))]. Qed.

Lemma runnable_extends c c' t : work_extends c c' → runnable c t → runnable c' t.
Proof.
  destruct t as [[job st] pt]. intros Hw [Ht (p & Hp & Hin)]. split; [by apply (ext_tasks _ _ Hw)|].
  exists p. split; [rewrite (ext_plans _ _ Hw job st pt); eauto|].
  intros st' pt' Hi. destruct (Hin st' pt' Hi) as [e He]. exists e. by apply (ext_tasks _ _ Hw).
Qed.

(** ** Jobs that follow their tasks *)

(** A job that has tasks is completed when all its tasks are, and then lists
    each of them. *)
Definition job_follows c (job : string) : Prop :=
  ∀ js st pt, cl_jobs c !! job = Some js → is_Some (cl_tasks c !! (job, st, pt)) → all_complete c job →
    lists_tasks c job js.
(** The locations a completed job lists are those of completed tasks. *)
Definition jobs_sound (known : ExecutorMeta → Prop) c : Prop :=
  ∀ job js, cl_jobs c !! job = Some js → locations_complete known c js.
Record jobs_ok (known : ExecutorMeta → Prop) c : Prop := {
  jobs_complete job : job_follows c job;
  jobs_located : jobs_sound known c;
}.

(** The status of a job that has tasks stays. *)
Definition job_kept (job : string) c c' : Prop :=
  ∀ st pt, is_Some (cl_tasks c !! (job, st, pt)) → cl_jobs c' !! job = cl_jobs c !! job.

(** If all tasks of a job are complete, none of them is new. *)
Lemma complete_before c c' job :
  work_extends c c' → all_complete c' job →
  all_complete c job ∧ ∀ id, starts_with job id.1.1 = true → is_Some (cl_tasks c' !! id) → is_Some (cl_tasks c !! id).
Proof.
  intros Hw Hall. split.
  - intros id o Hs Ho. by apply (Hall id o Hs), (ext_tasks _ _ Hw).
  - intros id Hs [o Ho]. destruct (Hall id o Hs Ho) as [e ->]. apply (ext_new _ _ Hw) in Ho. eauto.
Qed.

Lemma starts_with_refl k : starts_with k k = true.
Proof. apply starts_with_spec. exists "". by rewrite string_app_nil_r. Qed.

Lemma follows_kept c c' job : work_extends c c' → job_kept job c c' → job_follows c job → job_follows c' job.
Proof.
  intros Hw Hk Hf js st pt Hj Hrec Hall. destruct (complete_before c c' job Hw Hall) as [Hall0 Hold].
  apply Hold in Hrec; [|apply starts_with_refl]. apply (lists_tasks_mono c); [done|].
  apply (Hf js st pt); [|done..]. by rewrite <-(Hk st pt).
Qed.

Lemma locations_extends known c c' js :
  work_extends c c' → locations_complete known c js → locations_complete known c' js.
Proof.
  intros Hw Hl locs l Hjs Hin. destruct (Hl locs l Hjs Hin) as (id & m & Hid & ?). exists id, m.
  split; [by apply (ext_tasks _ _ Hw)|done].
Qed.

Lemma sound_extends known c c' : extends c c' → jobs_sound known c → jobs_sound known c'.
Proof.
  intros He Hs job js Hj locs l -> Hl.
  exact (locations_extends known c c' _ He (Hs job _ (ext_completed _ _ He _ _ Hj)) locs l eq_refl Hl).
Qed.

Lemma extends_kept c c' job : extends c c' → job_kept job c c'.
Proof. intros He st pt. apply (ext_jobs _ _ He). Qed.

Lemma jobs_ok_extends known c c' : extends c c' → jobs_ok known c → jobs_ok known c'.
Proof.
  intros He [Hc Hs]. split; [|by eapply sound_extends]. intros job.
  eapply follows_kept; [apply He|by apply extends_kept|done].
Qed.

(** ** The shared store *)

Section shared.
Context {S : Type} `{BackendOk S}.
Context `{Codec} `{!MessageOk PPhysicalPlanNode}.
Context `{PhysicalPlanner} `{ExprBuildersOk} `{ExecutionPlanMethodsOk} `{!WithNewChildrenOk} `{HashOrderOk}.
Context `{ErrorText} {DFSchema : Type} `{DataFusion DFSchema} `{QueryContext DFSchema}.
Context (ns : string) (ns_slash_free : slash_free ns).

(** A store with the planning tasks that write to it. *)
Abbreviation Planned := (S * list (string * Planning DFSchema))%type.
(** The same, with what the planning tasks do before each of the next
    operations on the store. *)
Definition Shared : Type := Planned * list (Planned → Planned).
Implicit Types (sh : Shared) (c : Cluster) (pl : list (string * Planning DFSchema)).

Definition disturb sh : Shared :=
  match sh with (x, f :: fs) => (f x, fs) | (x, []) => (x, []) end.
Definition on_store {E A} (m : MR S E A) : MR Shared E A := λ sh,
  let '((s, pl), fs) := disturb sh in let '(r, s') := m s in (r, ((s', pl), fs)).

#[export] Instance shared_client : ConfigBackendClient Shared := {
  backend_get key := on_store (backend_get key);
  backend_get_from_prefix prefix := on_store (backend_get_from_prefix prefix);
  backend_put key value lease := on_store (backend_put key value lease);
}.

(** The queries that are planned. *)
Context (admits : Query → Prop) (admits_fit : ∀ q, admits q → query_fits q).

(** What planning tasks do: any number of their steps. *)
Definition by_planning (f : Planned → Planned) : Prop := ∀ x, rtc (planning_step ns admits) x (f x).

(** *** Operations that are one operation on the store *)

Lemma on_store_bind {E A B} (m : MR S E A) (k : A → result E B) sh :
  (let! x := on_store m in lift (k x)) sh = on_store (let! x := m in lift (k x)) sh.
Proof.
  unfold bindM, on_store. destruct (disturb sh) as [[s pl] fs]. destruct (m s) as [[a|e|msg] s']; done.
Qed.

Lemma get_executors_shared sh :
  get_executors_metadata ns sh = on_store (get_executors_metadata ns) sh.
Proof. apply on_store_bind. Qed.

Lemma get_stage_plan_shared job st sh :
  get_stage_plan ns job st sh = on_store (get_stage_plan ns job st) sh.
Proof.
  unfold get_stage_plan. simpl. unfold bindM at 1, on_store. destruct (disturb sh) as [[s pl] fs]. unfold bindM at 2.
  destruct (backend_get (get_stage_plan_key ns job st) s) as [[[|b bs]|e|msg] s']; try done.
  unfold bindM, lift. by destruct (decode_protobuf _).
Qed.

Lemma job_status_shared job executors sh :
  get_job_status_from_tasks ns job executors sh = on_store (get_job_status_from_tasks ns job executors) sh.
Proof.
  unfold get_job_status_from_tasks. simpl. unfold bindM at 1, on_store. destruct (disturb sh) as [[s pl] fs].
  unfold bindM at 2. destruct (backend_get_from_prefix _ s) as [[kvs|e|msg] s']; try done.
  unfold bindM, lift. by destruct (rmapM _ kvs).
Qed.

Lemma put_shared {T} `{MessageOk T} (m : T) key lease sh :
  valid_message m →
  (let! value := lift (encode_protobuf m) in backend_put key value lease) sh =
  on_store (let! value := lift (encode_protobuf m) in backend_put key value lease) sh.
Proof.
  intros (b & E & _)%message_roundtrip. unfold on_store. rewrite bindM_lift. unfold encode_protobuf. rewrite E.
  cbn [map_err]. simpl. unfold on_store. destruct (disturb sh) as [[s pl] fs]. by rewrite bindM_lift.
Qed.

Lemma save_executor_shared m sh :
  wf_executor_meta m → save_executor_metadata ns m sh = on_store (save_executor_metadata ns m) sh.
Proof. intros Hm. apply put_shared. by apply executor_valid. Qed.
Lemma save_job_shared job js sh :
  wf_job_status js → save_job_metadata ns job js sh = on_store (save_job_metadata ns job js) sh.
Proof. intros Hjs. apply put_shared. by apply job_valid. Qed.
Lemma save_task_shared t o sh :
  task_in_range t → save_task_status ns (task_message t o) sh = on_store (save_task_status ns (task_message t o)) sh.
Proof.
  intros Ht. pose proof (task_valid t o Ht) as Hv. destruct t as [[job st] pt]. unfold save_task_status.
  cbn [ts_partition_id task_message unwrap]. rewrite bindM_lift.
  etransitivity; [apply put_shared; exact Hv|].
  unfold on_store. destruct (disturb sh) as [[s pl] fs]. by rewrite bindM_lift.
Qed.

(** *** A store that is not disturbed

    is a store: [m] acts on it as [m0] on the store alone. *)
Definition calm {E A} (m : MR Shared E A) (m0 : MR S E A) : Prop :=
  ∀ s pl, m ((s, pl), []) = let '(r, s') := m0 s in (r, ((s', pl), [])).

Lemma calm_lift {E A} (r : result E A) : calm (lift r) (lift r).
Proof. by intros s pl. Qed.
Lemma calm_ret {E A} (a : A) : calm (E := E) (ret a) (ret a).
Proof. by intros s pl. Qed.
Lemma calm_store {E A} (m : MR S E A) : calm (on_store m) m.
Proof. by intros s pl. Qed.
Lemma calm_bind {E A B} (m : MR Shared E A) m0 (k : A → MR Shared E B) k0 :
  calm m m0 → (∀ a, calm (k a) (k0 a)) → calm (bindM m k) (bindM m0 k0).
Proof.
  intros Hm Hk s pl. unfold bindM. rewrite Hm. destruct (m0 s) as [[a|e|msg] s']; [apply Hk|done..].
Qed.
Lemma calm_map_err {E F A} (f : E → F) (m : MR Shared E A) m0 : calm m m0 → calm (map_errM f m) (map_errM f m0).
Proof. intros Hm s pl. unfold map_errM. rewrite Hm. by destruct (m0 s). Qed.
Lemma calm_log (m : M Shared unit) m0 : calm m m0 → calm (log_error m) (log_error m0).
Proof. intros Hm s pl. unfold log_error. rewrite Hm. by destruct (m0 s) as [[]]. Qed.
Lemma calm_mfor {E A} (f : A → MR Shared E unit) f0 l : (∀ x, calm (f x) (f0 x)) → calm (mfor f l) (mfor f0 l).
Proof.
  intros Hf. induction l as [|x l IH]; [apply calm_ret|]. by apply calm_bind; [|intros _].
Qed.

Ltac calm := repeat match goal with
  | |- calm (bindM _ _) (bindM _ _) => apply calm_bind; [|intros ?]
  | |- calm (or_internal _ _) (or_internal _ _) => apply calm_map_err
  | |- calm (map_errM _ _) (map_errM _ _) => apply calm_map_err
  | |- calm (log_error _) (log_error _) => apply calm_log
  | |- calm (mfor _ _) (mfor _ _) => apply calm_mfor; intros ?
  | |- calm (lift _) (lift _) => apply calm_lift
  | |- calm (ret _) (ret _) => apply calm_ret
  | |- calm (if ?b then _ else _) _ => destruct b
  | |- calm (match ?x with _ => _ end) _ => destruct x
  | |- calm (backend_get _) _ => apply calm_store
  | |- calm (backend_get_from_prefix _) _ => apply calm_store
  | |- calm (backend_put _ _ _) _ => apply calm_store
  end.

Lemma calm_assign ex : calm (assign_next_schedulable_task ns ex) (assign_next_schedulable_task ns ex).
Proof.
  unfold assign_next_schedulable_task, get_executors_metadata. calm. revert a0.
  induction (hash_iter (list_to_map (reverse a))) as [|kv entries IH]; intros executors; [apply calm_ret|].
  cbn [try_tasks]. unfold try_task, get_stage_plan, save_task_status. calm. apply IH.
Qed.

Lemma calm_synchronize : calm (synchronize_job_status ns) (synchronize_job_status ns).
Proof.
  unfold synchronize_job_status, get_executors_metadata, synchronize_job, get_job_status_from_tasks, save_job_metadata. calm.
Qed.

(** A poll that is not disturbed is a poll on the store. *)
Lemma poll_calm lock_answer guard req held s pl :
  poll_work ns lock_answer guard req (held, (((s, pl), []) : Shared)) =
  (λ x, (x.1, (x.2.1, ((x.2.2, pl), [])))) <$> poll_work ns lock_answer guard req (held, s).
Proof.
  unfold poll_work. destruct (pw_metadata req) as [m|]; [|done]. destruct held; [done|].
  destruct (map_err _ lock_answer); [|done..].
  assert (calm (poll_work_locked ns (executor_meta_from_proto m) (pw_can_accept_task req) (pw_task_status req))
    (poll_work_locked ns (executor_meta_from_proto m) (pw_can_accept_task req) (pw_task_status req))) as ->.
  { unfold poll_work_locked, save_executor_metadata, save_task_status, next_task. calm;
      [apply calm_assign|apply calm_synchronize]. }
  destruct (poll_work_locked _ _ _ _ s) as [[task|e|msg] s']; [|done..]. by destruct (lock_unlock guard true).
Qed.

(** *** The store and the cluster

    [J] is what a client of this file wants to know of the planning tasks, in
    addition to their own invariant. *)
Context (J : Cluster → list (string * Planning DFSchema) → Prop).
Context (J_effect : ∀ c pl c' pl', planning_inv c pl → J c pl → planning_effect admits pl c pl' c' → J c' pl').
Context (J_frame : ∀ c c' pl, (∀ job, job_frame job c c') → J c pl → J c' pl).

Record holds sh c : Prop := {
  sh_rep : rep ns sh.1.1 c;
  sh_ok : cluster_ok c;
  sh_planning : planning_inv c sh.1.2;
  sh_more : J c sh.1.2;
  sh_others : Forall by_planning sh.2;
}.

Lemma effect_extends pl c pl' c' : planning_effect admits pl c pl' c' → extends c c'.
Proof. destruct 1; [by apply extends_set_job..|reflexivity|by apply extends_write]. Qed.

Lemma steps_hold x x' fs c :
  rtc (planning_step ns admits) x x' → holds (x, fs) c → ∃ c', holds (x', fs) c' ∧ extends c c'.
Proof.
  intros Hsteps. revert c. induction Hsteps as [x|x y z Hxy _ IH]; intros c Hh; [by exists c|].
  destruct Hh as [Hr Hok Hpl HJ Hfs]. simpl in *.
  destruct (planning_simulated ns ns_slash_free admits x y c admits_fit Hxy Hr Hok Hpl) as (c1 & Hr1 & Hok1 & Hpl1 & He).
  destruct (IH c1) as (c' & Hh' & Hext); [split; try done; exact (J_effect _ _ _ _ Hpl HJ He)|].
  exists c'. split; [done|]. etransitivity; [by eapply effect_extends|done].
Qed.

Lemma disturb_holds sh c : holds sh c → ∃ c', holds (disturb sh) c' ∧ extends c c'.
Proof.
  destruct sh as [x [|f fs]]; intros Hh; [by exists c|]. simpl.
  pose proof (sh_others _ _ Hh) as [Hf Hfs]%Forall_cons.
  apply (steps_hold x); [apply Hf|]. by destruct Hh; split.
Qed.

(** An operation of the poll, between two of which the planning tasks run:
    what is known of it on a store of its own is known of it here. *)
Lemma on_store_spec {E A} (m : MR S E A) (Q : result E A → Cluster → Cluster → Prop) sh c :
  holds sh c →
  (∀ s c1, extends c c1 → rep ns s c1 → cluster_ok c1 → ∃ r s' c2, m s = (r, s') ∧ rep ns s' c2 ∧
    cluster_ok c2 ∧ (∀ job, job_frame job c1 c2) ∧ Q r c1 c2) →
  ∃ r sh' c1 c2, on_store m sh = (r, sh') ∧ holds sh' c2 ∧ extends c c1 ∧ Q r c1 c2.
Proof.
  intros Hh Hm. destruct (disturb_holds sh c Hh) as (c1 & [Hr Hok Hpl HJ Hfs] & Hext). unfold on_store.
  destruct (disturb sh) as [[s pl] fs]. simpl in *.
  destruct (Hm s c1 Hext Hr Hok) as (r & s' & c2 & E1 & Hr2 & Hok2 & Hf & HQ).
  exists r, ((s', pl), fs), c1, c2. rewrite E1. split_and!; try done. split; try done; simpl;
    [by eapply planning_inv_frame|by eapply J_frame].
Qed.

(** Reading changes nothing. *)
Lemma on_store_read {E A} (m : MR S E A) (Q : result E A → Cluster → Prop) sh c :
  holds sh c →
  (∀ s c1, extends c c1 → rep ns s c1 → cluster_ok c1 → ∃ r, m s = (r, s) ∧ Q r c1) →
  ∃ r sh' c1, on_store m sh = (r, sh') ∧ holds sh' c1 ∧ extends c c1 ∧ Q r c1.
Proof.
  intros Hh Hm. destruct (on_store_spec m (λ r c1 c2, c1 = c2 ∧ Q r c1) sh c Hh) as (r & sh' & c1 & c2 & E1 & Hh' & Hext & <- & HQ).
  - intros s c1 Hext Hr Hok. destruct (Hm s c1 Hext Hr Hok) as (r & E1 & HQ). exists r, s, c1. by split_and!.
  - eauto 10.
Qed.

Lemma set_task_frame t o c job : is_Some (cl_tasks c !! t) → job_frame job c (set_task t o c).
Proof.
  intros [o0 Ho]. split; [|done]. intros st pt. simpl. destruct (decide (t = (job, st, pt))) as [->|];
    [rewrite lookup_insert_eq; by rewrite Ho|by rewrite lookup_insert_ne].
Qed.

(** *** Registration and reports *)

Lemma shared_save_executor m sh c :
  wf_executor_meta m → slash_free (em_id m) → holds sh c →
  ∃ sh' c1, save_executor_metadata ns m sh = (Ok (), sh') ∧ extends c c1 ∧ holds sh' (set_executor m c1).
Proof.
  intros Hm Hid Hh. rewrite save_executor_shared by done.
  destruct (on_store_spec (save_executor_metadata ns m) (λ r c1 c2, r = Ok () ∧ c2 = set_executor m c1) sh c Hh)
    as (r & sh' & c1 & c2 & E1 & Hh' & Hext & -> & ->); [|eauto].
  intros s c1 _ Hr Hok. destruct (rep_save_executor ns ns_slash_free m s c1) as (s' & E1 & Hr'); [done..|].
  exists (Ok ()), s', (set_executor m c1). split_and!; try done. by apply ok_set_executor.
Qed.

Lemma shared_save_task t o sh c :
  is_Some (cl_tasks c !! t) → (∀ e, o = Some (TS_Completed e) → is_Some (cl_executors c !! e)) → holds sh c →
  ∃ sh' c1, save_task_status ns (task_message t o) sh = (Ok (), sh') ∧ extends c c1 ∧ holds sh' (set_task t o c1).
Proof.
  intros Hrec Ho Hh. destruct Hrec as [o0 Ht].
  destruct (rep_task_at _ _ _ _ _ (sh_rep _ _ Hh) Ht) as [Hrange _]. rewrite save_task_shared by done.
  destruct (on_store_spec (save_task_status ns (task_message t o)) (λ r c1 c2, r = Ok () ∧ c2 = set_task t o c1) sh c Hh)
    as (r & sh' & c1 & c2 & E1 & Hh' & Hext & -> & ->); [|eauto].
  intros s c1 Hext Hr Hok. destruct (rep_save_task ns ns_slash_free t o s c1) as (s' & E1 & Hr'); [done..|].
  assert (is_Some (cl_tasks c1 !! t)) as Hrec1 by (apply (ext_recorded c); [apply Hext|eauto]).
  exists (Ok ()), s', (set_task t o c1). split_and!; try done.
  - apply ok_set_status; [done..|]. by rewrite (ext_executors _ _ Hext).
  - intros job. by apply set_task_frame.
Qed.

Lemma shared_reports ex (f : BallistaError → Status) reports sh c :
  is_Some (cl_executors c !! ex) → Forall (report_ok ex c) reports → holds sh c →
  ∃ sh' c1, mfor (λ t, map_errM f (save_task_status ns t)) reports sh = (Ok (), sh') ∧ extends c c1 ∧
    holds sh' (apply_reports c1 reports).
Proof.
  revert sh c. induction reports as [|t reports IH]; intros sh c Hex Hall Hh; [by exists sh, c|].
  apply Forall_cons in Hall as [(id & st & -> & Hrec & Hst) Hall].
  destruct (shared_save_task id (Some st) sh c Hrec) as (sh1 & c1 & E1 & Hext1 & Hh1);
    [intros e [= ->]; by rewrite (Hst e eq_refl)|done|].
  assert (is_Some (cl_tasks c1 !! id)) as Hrec1 by (by apply (ext_recorded c); [apply Hext1|]).
  destruct (IH sh1 (set_task id (Some st) c1)) as (sh2 & c2 & E2 & Hext2 & Hh2); [|..|done|].
  - simpl. by rewrite (ext_executors _ _ Hext1).
  - eapply Forall_impl; [exact Hall|]. intros t (id' & st' & -> & Hs & Hst'). exists id', st'.
    split_and!; [done| |done]. apply (ext_recorded c c1) in Hs; [|apply Hext1]. simpl.
    destruct (decide (id = id')) as [->|]; [rewrite lookup_insert_eq; eauto|by rewrite lookup_insert_ne].
  - destruct (extends_before_task id (Some st) c1 c2 Hrec1 Hext2) as (c3 & Hext3 & ->).
    exists sh2, c3. split_and!; [|by etransitivity|].
    + cbn [mfor]. unfold bindM at 1, map_errM at 1. rewrite E1. cbn [map_err]. done.
    + cbn [apply_reports foldl]. by rewrite apply_report_message.
Qed.

(** *** The search for a task

    The tasks are read once; what the search does with them is what it does
    on the store as it was then. *)

Lemma rep_find_executor s c metas id :
  rep ns s c → get_executors_metadata ns s = (Ok metas, s) →
  List.find (λ m, bool_decide (em_id m = id)) metas = cl_executors c !! id.
Proof.
  intros Hr E1. destruct (List.find _ metas) as [m|] eqn:Ef.
  - apply List.find_some in Ef as [Hm <-%bool_decide_eq_true].
    symmetry. eapply rep_executor_read; [exact Hr|exact E1|]. by apply list_elem_of_In.
  - destruct (cl_executors c !! id) as [m|] eqn:Em; [|done].
    destruct (rep_get_executors ns ns_slash_free s c Hr) as (metas' & E2 & Hp & _). rewrite E1 in E2. simplify_eq.
    destruct (table_read _ _ _ _ _ (rep_executors _ _ _ Hr) _ _ Em) as (b & _ & _ & _ & Hid & _).
    assert (m ∈ metas') as Hin%list_elem_of_In.
    { rewrite Hp. apply list_elem_of_fmap. exists (id, m). split; [done|]. by apply elem_of_map_to_list. }
    pose proof (List.find_none _ _ Ef m Hin) as Hn. by rewrite bool_decide_eq_false in Hn.
Qed.

Lemma locate_inputs_ext job kvs executors executors' inputs acc :
  (∀ id, List.find (λ m, bool_decide (em_id m = id)) executors' = List.find (λ m, bool_decide (em_id m = id)) executors) →
  locate_inputs ns job kvs executors' inputs acc = locate_inputs ns job kvs executors inputs acc.
Proof.
  intros Hf. revert acc. induction inputs as [|[st pt] inputs IH]; intros acc; [done|]. cbn [locate_inputs].
  destruct (unwrap _ _); [|done..]. cbn. destruct (decode_protobuf _) as [t| |]; [|done..].
  destruct (ts_status t) as [[| |e]|]; try done. rewrite Hf. destruct (List.find _ executors) as [m|]; [apply IH|done].
Qed.

Lemma shared_get_plan job st pt p sh c :
  cl_tasks c !! (job, st, pt) = Some None → cl_plans c !! (job, st) = Some p → holds sh c →
  ∃ sh' c1, get_stage_plan ns job st sh = (Ok p, sh') ∧ extends c c1 ∧ holds sh' c1.
Proof.
  intros Ht Hp Hh. rewrite get_stage_plan_shared.
  destruct (on_store_read (get_stage_plan ns job st) (λ r _, r = Ok p) sh c Hh) as (r & sh' & c1 & E1 & Hh' & Hext & ->);
    [|eauto]. intros s c1 Hext Hr Hok. exists (Ok p). split; [|done].
  apply (rep_get_plan ns job st p s c1); [done|]. rewrite (ext_plans _ _ Hext job st pt); [done|eauto].
Qed.

(** What the search leaves of one task. *)
Definition searched (ex : string) cs (r : option (TaskStatus * ExecutionPlan)) sh : Prop :=
  match r with
  | None => ∃ c, extends cs c ∧ holds sh c
  | Some (status, _) => ∃ t c, status = task_message t (Some (TS_Running ex)) ∧ cl_tasks cs !! t = Some None ∧
      extends cs c ∧ holds sh (set_task t (Some (TS_Running ex)) c)
  end.

Lemma shared_try_task ex kvs executors executors' k b s cs r s' sh c :
  rep ns s cs → cluster_ok cs → contents s !! k = Some b → starts_with (get_task_prefix ns) k = true →
  (∀ id, List.find (λ m, bool_decide (em_id m = id)) executors' = List.find (λ m, bool_decide (em_id m = id)) executors) →
  try_task ns ex kvs executors b s = (Ok r, s') → extends cs c → holds sh c →
  ∃ sh', try_task ns ex kvs executors' b sh = (Ok r, sh') ∧ searched ex cs r sh' ∧ (r = None → s' = s).
Proof.
  intros Hr Hok Hk Hpre Hfind E1 Hext Hh.
  destruct (table_scan _ _ _ _ _ (rep_tasks _ _ _ Hr) _ _ Hk Hpre) as ([[job st] pt] & o & -> & Ht & (Hjob & Hst & Hpt) & Hd).
  unfold try_task in *. rewrite bindM_lift, Hd in E1. rewrite bindM_lift, Hd. destruct o as [o|]; simpl in E1 |- *.
  { injection E1 as <- <-. exists sh. split_and!; [done|by exists c|done]. }
  rewrite bindM_lift in E1. rewrite bindM_lift. cbn [unwrap ppi_job_id ppi_stage_id] in *.
  rewrite as_usize_u32 in E1 by done. rewrite as_usize_u32 by done.
  destruct (ok_plan _ Hok _ _ _ _ Ht) as (p & Hp & _). rewrite (bindM_ok _ _ _ _ _ (rep_get_plan ns job st p s cs Hr Hp)) in E1.
  destruct (shared_get_plan job st pt p sh c) as (sh1 & c1 & Es & Hext1 & Hh1);
    [by apply (ext_tasks _ _ Hext)|rewrite (ext_plans _ _ Hext job st pt); [done|eauto]|done|].
  rewrite (bindM_ok _ _ _ _ _ Es). rewrite bindM_lift in E1. rewrite bindM_lift. destruct (find_unresolved_shuffles p); [|done..].
  rewrite bindM_lift in E1. rewrite bindM_lift. rewrite (locate_inputs_ext _ _ executors executors') by done.
  assert (extends cs c1) as Hext2 by (by etransitivity).
  destruct (locate_inputs _ _ _ executors _ _) as [[locs|]| |]; [|injection E1 as <- <-; exists sh1; split_and!; [done|by exists c1|done]|done..].
  rewrite bindM_lift in E1. rewrite bindM_lift. destruct (remove_unresolved_shuffles locs p) as [plan| |]; [|done..].
  destruct (bindM_inv _ _ _ _ _ E1) as ([] & s1 & _ & E2). injection E2 as <- <-.
  destruct (shared_save_task (job, st, pt) (Some (TS_Running ex)) sh1 c1) as (sh2 & c2 & Es2 & Hext3 & Hh2);
    [rewrite (ext_tasks _ _ Hext2 _ _ Ht); eauto|done|done|].
  exists sh2. split_and!; [|by exists (job, st, pt), c2; split_and!; [..|by etransitivity|]|done].
  cbn [task_message] in Es2. by rewrite (bindM_ok _ _ _ _ _ Es2).
Qed.

Lemma shared_try_tasks ex kvs executors executors' entries s cs r s' sh c :
  rep ns s cs → cluster_ok cs →
  (∀ k b, (k, b) ∈ entries → contents s !! k = Some b ∧ starts_with (get_task_prefix ns) k = true) →
  (∀ id, List.find (λ m, bool_decide (em_id m = id)) executors' = List.find (λ m, bool_decide (em_id m = id)) executors) →
  try_tasks ns ex kvs executors entries s = (Ok r, s') → extends cs c → holds sh c →
  ∃ sh', try_tasks ns ex kvs executors' entries sh = (Ok r, sh') ∧ searched ex cs r sh'.
Proof.
  intros Hr Hok Hin Hfind. revert sh c. induction entries as [|[k b] entries IH]; intros sh c E1 Hext Hh.
  { injection E1 as <- <-. exists sh. split; [done|]. by exists c. }
  destruct (Hin k b) as [Hk Hpre]; [by left|]. cbn [try_tasks snd] in *.
  destruct (bindM_inv _ _ _ _ _ E1) as (x & s1 & E2 & E3).
  destruct (shared_try_task ex kvs executors executors' k b s cs x s1 sh c) as (sh1 & Es & Hs & Hn); [done..|].
  rewrite (bindM_ok _ _ _ _ _ Es). destruct x as [x|].
  - injection E3 as <- <-. by exists sh1.
  - rewrite (Hn eq_refl) in E3. destruct Hs as (c1 & Hext1 & Hh1).
    apply (IH ltac:(intros; apply Hin; by right) sh1 c1); [exact E3|done..].
Qed.

Lemma shared_assign ex sh c :
  holds sh c → ∃ cs r sh', assign_next_schedulable_task ns ex sh = (Ok r, sh') ∧ extends c cs ∧ cluster_ok cs ∧
    searched ex cs r sh' ∧
    match r with
    | None => ∀ t, ¬ runnable cs t
    | Some (status, plan) => ∃ t, status = task_message t (Some (TS_Running ex)) ∧ runnable cs t ∧ sent_plan cs t plan
    end.
Proof.
  intros Hh. unfold assign_next_schedulable_task. simpl.
  destruct (on_store_read (backend_get_from_prefix (get_task_prefix ns)) (λ r c1, ∃ s entries,
      rep ns s c1 ∧ r = Ok entries ∧ list_to_map (reverse entries) = task_entries ns s) sh c Hh)
    as (r & sh1 & cs & E1 & Hh1 & Hext1 & s & entries & Hr & -> & Hkvs).
  { intros s c1 _ Hr _. destruct (scan_map (get_task_prefix ns) s) as (kvs & E & _ & Hm). eauto 10. }
  rewrite (bindM_ok _ _ _ _ _ E1), Hkvs. pose proof (sh_ok _ _ Hh1) as Hok.
  destruct (rep_get_executors ns ns_slash_free s cs Hr) as (executors & Ee & _).
  destruct (on_store_read (get_executors_metadata ns) (λ r c1, ∃ metas, r = Ok metas ∧
      ∀ id, List.find (λ m, bool_decide (em_id m = id)) metas = List.find (λ m, bool_decide (em_id m = id)) executors) sh1 cs Hh1)
    as (r & sh2 & c2 & E2 & Hh2 & Hext2 & metas & -> & Hfind).
  { intros s1 c1 Hext Hr1 _. destruct (rep_get_executors ns ns_slash_free s1 c1 Hr1) as (metas & E & _).
    exists (Ok metas). split; [done|]. exists metas. split; [done|]. intros id.
    rewrite (rep_find_executor s1 c1), (rep_find_executor s cs) by done. by rewrite (ext_executors _ _ Hext). }
  assert (∀ k b, (k, b) ∈ hash_iter (task_entries ns s) →
    contents s !! k = Some b ∧ starts_with (get_task_prefix ns) k = true) as Hin
    by (intros k b; apply elem_of_task_entries).
  rewrite (bindM_ok _ _ sh1 sh2 metas) by (by rewrite get_executors_shared).
  destruct (rep_assign ns ns_slash_free ex s cs Hr Hok) as [[E Hn]|(t & plan & s' & E & Hrun & Hsent & _)];
    rewrite assign_unfold, Ee in E.
  - destruct (shared_try_tasks ex _ _ metas _ s cs _ _ sh2 c2 Hr Hok Hin Hfind E Hext2 Hh2) as (sh' & E' & Hs).
    by exists cs, None, sh'.
  - destruct (shared_try_tasks ex _ _ metas _ s cs _ _ sh2 c2 Hr Hok Hin Hfind E Hext2 Hh2) as (sh' & E' & Hs).
    exists cs, (Some (task_message t (Some (TS_Running ex)), plan)), sh'. split_and!; try done. by exists t.
Qed.

(** *** The synchronization of the jobs *)

Section synchronize.
Context (known : ExecutorMeta → Prop).

(** A job of the scan, the next to be synchronized. *)
Definition unsynced c0 c (x : string * JobStatus) : Prop :=
  ∀ st pt, is_Some (cl_tasks c0 !! (x.1, st, pt)) → cl_jobs c !! x.1 = Some x.2.

Lemma shared_job_status job executors sh c :
  slash_free job → holds sh c →
  ∃ l sh' c1, get_job_status_from_tasks ns job executors sh = (Ok (job_status_from_tasks executors l), sh') ∧
    extends c c1 ∧ holds sh' c1 ∧ l ≡ₚ job_messages c1 job ∧ (executors = cl_executors c1 →
      ∀ js, job_status_from_tasks executors l = Some js → wf_job_status js).
Proof.
  intros Hjob Hh. rewrite job_status_shared.
  destruct (on_store_read (get_job_status_from_tasks ns job executors) (λ r c1, ∃ l,
      r = Ok (job_status_from_tasks executors l) ∧ l ≡ₚ job_messages c1 job ∧ (executors = cl_executors c1 →
        ∀ js, job_status_from_tasks executors l = Some js → wf_job_status js)) sh c Hh)
    as (r & sh' & c1 & E1 & Hh' & Hext & l & -> & Hl & Hwf); [|by exists l, sh', c1].
  intros s c1 _ Hr _. destruct (rep_job_status ns ns_slash_free job executors s c1 Hr Hjob) as (l & Hl & E1).
  eexists. split; [exact E1|]. exists l. split_and!; [done..|]. intros -> js. by eapply job_status_wf.
Qed.

Lemma shared_save_job job js sh c :
  slash_free job → wf_job_status js → holds sh c →
  ∃ sh' c1, save_job_metadata ns job js sh = (Ok (), sh') ∧ extends c c1 ∧ holds sh' (set_job job js c1).
Proof.
  intros Hjob Hjs Hh. rewrite save_job_shared by done.
  destruct (on_store_spec (save_job_metadata ns job js) (λ r c1 c2, r = Ok () ∧ c2 = set_job job js c1) sh c Hh)
    as (r & sh' & c1 & c2 & E1 & Hh' & Hext & -> & ->); [|eauto].
  intros s c1 _ Hr Hok. destruct (rep_save_job ns ns_slash_free job js s c1) as (s' & E1 & Hr'); [done..|].
  exists (Ok ()), s', (set_job job js c1). split_and!; try done. by eapply ok_same_work; [|exact Hok].
Qed.

(** The status of the scan is that of the job, if its tasks are complete. *)
Lemma synced_follows c0 c1 job js :
  work_extends c0 c1 → unsynced c0 c1 (job, js) → job_synced c1 job js js → job_follows c1 job.
Proof.
  intros Hw Hu Hs js' st pt Hj Hrec Hall. destruct (complete_before _ _ _ Hw Hall) as [_ Hold].
  assert (is_Some (cl_tasks c0 !! (job, st, pt))) as Hrec0 by (apply Hold; [apply starts_with_refl|done]).
  pose proof (Hu st pt Hrec0) as Hj'. simpl in Hj'. simplify_eq. destruct Hrec as [o Ho].
  by apply (synced_complete c1 job js' js' (job, st, pt) o Hs (starts_with_refl job)).
Qed.

Lemma shared_sync_job job js b c0 sh c :
  job_good job js b → work_extends c0 c → unsynced c0 c (job, js) →
  (∀ e m, cl_executors c0 !! e = Some m → em_id m = e ∧ known m) → jobs_sound known c → holds sh c →
  ∃ sh' c', synchronize_job ns (cl_executors c0) (get_job_key ns job, b) sh = (Ok (), sh') ∧ holds sh' c' ∧
    work_extends c c' ∧ jobs_sound known c' ∧ job_follows c' job ∧ ∀ job', job' ≠ job → job_kept job' c c'.
Proof.
  intros (Hjob & _ & Hd) Hw Hu Hknown Hsound Hh. unfold synchronize_job. cbn [fst snd].
  rewrite bindM_lift, extract_job_id by done. rewrite bindM_lift, Hd.
  destruct (shared_job_status job (cl_executors c0) sh c Hjob Hh) as (l & sh1 & c1 & E1 & Hext & Hh1 & Hl & Hwf).
  assert (work_extends c0 c1) as Hw1 by (etransitivity; [exact Hw|apply Hext]).
  assert (cl_executors c0 = cl_executors c1) as He by (by rewrite (ext_executors _ _ Hw1)).
  rewrite (bindM_ok _ _ _ _ _ E1). clear E1. specialize (Hwf He). rewrite He in *.
  assert (unsynced c0 c1 (job, js)) as Hu1.
  { intros st pt Hrec. simpl. rewrite (ext_jobs _ _ Hext job st pt); [by apply (Hu st pt)|].
    by apply (ext_recorded c0). }
  assert (job_synced c1 job js js → job_follows c1 job) as Hsame by (by eapply synced_follows).
  destruct (job_status_from_tasks (cl_executors c1) l) as [new|] eqn:En.
  2:{ exists sh1, c1. split_and!; [done|done|apply Hext|by eapply sound_extends| |by intros; apply extends_kept].
      apply Hsame. exists l. by rewrite En. }
  case_bool_decide as Heq.
  { subst new. exists sh1, c1. split_and!; [done|done|apply Hext|by eapply sound_extends| |by intros; apply extends_kept].
    apply Hsame. exists l. by rewrite En. }
  destruct (shared_save_job job new sh1 c1 Hjob (Hwf new eq_refl) Hh1) as (sh2 & c2 & E2 & Hext2 & Hh2).
  assert (extends c c2) as Hext12 by (by etransitivity).
  assert (work_extends c1 (set_job job new c2)) as Hw12 by (destruct Hext2 as [[]]; by split).
  assert (locations_complete known c1 new) as Hnew.
  { apply (synced_locations known c1 job (mkJobStatus None)); [apply (sh_ok _ _ Hh1)|done|exists l; by rewrite En|].
    by intros locs x ?. }
  exists sh2, (set_job job new c2). split_and!; [done|done| | | |].
  - destruct Hext12 as [[]]; by split.
  - intros job' js' Hj. simpl in Hj. apply lookup_insert_Some in Hj as [[<- <-]|[_ Hj]]; [by apply (locations_extends known c1)|].
    exact (sound_extends known c c2 Hext12 Hsound job' js' Hj).
  - intros js' st pt Hj [o Ho] Hall. simpl in Hj. rewrite lookup_insert_eq in Hj. injection Hj as <-.
    destruct (complete_before c1 _ job Hw12 Hall) as [Hall1 Hold].
    destruct (Hold (job, st, pt)) as [o1 Ho1]; [apply starts_with_refl|by exists o|].
    apply (lists_tasks_mono c1); [done|].
    apply (synced_complete c1 job js new (job, st, pt) o1); [exists l; by rewrite En|apply starts_with_refl|done..].
  - intros job' Hne st pt Hrec. simpl. rewrite lookup_insert_ne by done. by apply (extends_kept c c2 job' Hext12 st pt).
Qed.

Lemma shared_sync_jobs c0 l kvs sh c :
  (∀ e m, cl_executors c0 !! e = Some m → em_id m = e ∧ known m) →
  Forall2 (λ (kv : string * bytes) jv, kv.1 = get_job_key ns jv.1 ∧ job_good jv.1 jv.2 kv.2) kvs l → NoDup l.*1 →
  work_extends c0 c → Forall (unsynced c0 c) l → jobs_sound known c →
  (∀ job, job ∉ l.*1 → job_follows c job) → holds sh c →
  ∃ sh' c', mfor (synchronize_job ns (cl_executors c0)) kvs sh = (Ok (), sh') ∧ holds sh' c' ∧
    work_extends c c' ∧ jobs_ok known c'.
Proof.
  intros Hknown Hl. revert sh c. induction Hl as [|[k b] [job js] kvs l [Hk Hg] Hl IH]; intros sh c Hnd Hw Hu Hsound Hdone Hh; simpl in *.
  { exists sh, c. split_and!; [done..|]. split; [|done]. intros job. apply Hdone, not_elem_of_nil. }
  subst k. apply NoDup_cons in Hnd as [Hnot Hnd]. apply Forall_cons in Hu as [Hu Hus].
  destruct (shared_sync_job job js b c0 sh c) as (sh1 & c1 & E1 & Hh1 & Hw1 & Hsound1 & Hf1 & Hkept); [done..|].
  assert (work_extends c0 c1) as Hw01 by (by etransitivity).
  destruct (IH sh1 c1) as (sh' & c' & E' & Hh' & Hw' & Hok'); [done..| |done| |done|].
  - rewrite Forall_forall in Hus |- *. intros [job' js'] Hin st pt Hrec. simpl.
    assert (job' ≠ job) as Hne by (intros ->; apply Hnot; by apply (list_elem_of_fmap_2 fst) in Hin).
    rewrite (Hkept job' Hne st pt); [by apply (Hus _ Hin st pt)|by apply (ext_recorded c0)].
  - intros job' Hni. destruct (decide (job' = job)) as [->|Hne]; [done|].
    eapply follows_kept; [exact Hw1|by apply Hkept|]. apply Hdone. by apply not_elem_of_cons.
  - exists sh', c'. split_and!; [|done|by etransitivity|done]. unfold bindM. by rewrite E1.
Qed.

(** The jobs are read first, the tasks of each of them later. *)
Lemma shared_synchronize sh c :
  (∀ e m, cl_executors c !! e = Some m → em_id m = e ∧ known m) → jobs_sound known c → holds sh c →
  ∃ sh' c', synchronize_job_status ns sh = (Ok (), sh') ∧ holds sh' c' ∧ work_extends c c' ∧ jobs_ok known c'.
Proof.
  intros Hknown Hsound Hh. unfold synchronize_job_status. simpl.
  destruct (on_store_read (backend_get_from_prefix (get_job_prefix ns)) (λ r c1, ∃ kvs l, r = Ok kvs ∧
      Forall2 (λ (kv : string * bytes) jv, kv.1 = get_job_key ns jv.1 ∧ job_good jv.1 jv.2 kv.2) kvs l ∧
      l ≡ₚ map_to_list (cl_jobs c1)) sh c Hh) as (r & sh1 & c1 & E1 & Hh1 & Hext1 & kvs & l & -> & Hl & Hp).
  { intros s c1 _ Hr _. destruct (rep_scan_jobs ns ns_slash_free s c1 Hr) as (kvs & l & E & ? & ?). eauto 10. }
  rewrite (bindM_ok _ _ _ _ _ E1).
  destruct (on_store_read (get_executors_metadata ns) (λ r c2, ∃ metas, r = Ok metas ∧
      (list_to_map (reverse (List.map (λ meta, (em_id meta, meta)) metas)) : gmap string ExecutorMeta) = cl_executors c2) sh1 c1 Hh1)
    as (r & sh2 & c2 & E2 & Hh2 & Hext2 & metas & -> & Hmetas).
  { intros s c2 _ Hr _. destruct (rep_get_executors ns ns_slash_free s c2 Hr) as (metas & E & _ & ?). eauto 10. }
  rewrite (bindM_ok _ _ sh1 sh2 metas) by (by rewrite get_executors_shared). rewrite Hmetas, (ext_executors _ _ Hext2).
  assert (extends c c2) as Hext12 by (by etransitivity).
  assert (∀ job js, (job, js) ∈ l ↔ cl_jobs c1 !! job = Some js) as Hin.
  { intros job js. by rewrite Hp, elem_of_map_to_list. }
  destruct (shared_sync_jobs c1 l kvs sh2 c2) as (sh' & c' & E' & Hh' & Hw' & Hok'); try done.
  - by rewrite (ext_executors _ _ Hext1).
  - rewrite Hp. apply NoDup_fst_map_to_list.
  - apply Hext2.
  - apply Forall_forall. intros [job js] Hx%Hin st pt Hrec. simpl. by rewrite (ext_jobs _ _ Hext2 job st pt).
  - by eapply sound_extends.
  - intros job Hni. eapply follows_kept; [apply Hext2|by apply extends_kept|].
    intros js st pt Hj. destruct Hni. by apply (list_elem_of_fmap_2 fst _ (job, js)), Hin.
  - exists sh', c'. split_and!; [done..| |done]. etransitivity; [apply Hext12|done].
Qed.
End synchronize.

(** *** A poll *)

Lemma shared_next_task accept m sh c :
  holds sh c → ∃ task sh' cs ca c', next_task ns accept (em_id m) sh = (Ok task, sh') ∧ extends c cs ∧ cluster_ok cs ∧
    poll_outcome cs m accept task ca ∧ cl_jobs ca = cl_jobs cs ∧ extends ca c' ∧ holds sh' c'.
Proof.
  intros Hh. destruct accept; [|exists None, sh, c, c, c; split_and!; try done; [apply (sh_ok _ _ Hh)|by left]].
  unfold next_task, or_internal.
  destruct (shared_assign (em_id m) sh c Hh) as (cs & [[status plan]|] & sh' & E1 & Hext & Hok & Hs & Hr).
  - destruct Hs as (t & c1 & -> & Ht & Hext1 & Hh1). destruct Hr as (t' & Ht' & Hrun & Hsent).
    assert (t = t') as <- by (destruct t as [[??]?], t' as [[??]?]; by injection Ht' as -> -> ->).
    destruct t as [[job st] pt]. pose proof Hsent as (p & locs & Hp & Hres & _).
    destruct (ok_plan _ Hok job st pt None Ht) as (p' & Hp' & Hst). simplify_eq.
    destruct (stage_resolved locs p plan Hst Hres) as [_ [q Hq]].
    eexists _, sh', cs, (set_task (job, st, pt) (Some (TS_Running (em_id m))) cs), _.
    unfold bindM, map_errM. rewrite E1. simpl. rewrite Hq. split_and!; [done..| |done| |exact Hh1].
    + right. split; [done|]. by exists (job, st, pt), plan, q.
    + by apply extends_set_task.
  - destruct Hs as (c1 & Hext1 & Hh1). exists None, sh', cs, cs, c1. unfold bindM, map_errM. rewrite E1.
    split_and!; try done. by left.
Qed.

(** A poll that is disturbed by planning tasks: at some moment the reports take
    effect and a task is chosen and started, as in a poll of its own; then the
    jobs are synchronized. *)
Lemma shared_poll_locked known m accept reports sh c :
  wf_executor_meta m → slash_free (em_id m) → Forall (report_ok (em_id m) c) reports →
  (∀ e m, cl_executors c !! e = Some m → em_id m = e ∧ known m) → known m →
  (∀ c1 task ca, extends c c1 → poll_outcome (reported c1 m reports) m accept task ca →
    cl_jobs ca = cl_jobs c1 → jobs_sound known ca) → holds sh c →
  ∃ task sh' c1 ca c', poll_work_locked ns m accept reports sh = (Ok task, sh') ∧ extends c c1 ∧ cluster_ok (reported c1 m reports) ∧
    poll_outcome (reported c1 m reports) m accept task ca ∧ cl_jobs ca = cl_jobs c1 ∧ work_extends ca c' ∧
    holds sh' c' ∧ match reports with [] => extends ca c' | _ => jobs_ok known c' end.
Proof.
  intros Hm Hid Hrep Hknown Hkm Hsound Hh. unfold poll_work_locked.
  destruct (shared_save_executor m sh c Hm Hid Hh) as (sh1 & c1 & E1 & Hext1 & Hh1).
  assert (Forall (report_ok (em_id m) (set_executor m c1)) reports) as Hrep1.
  { eapply Forall_impl; [exact Hrep|]. intros t Ht. exact (report_ok_extends _ c c1 t Hext1 Ht). }
  destruct (shared_reports (em_id m) (internal_error "Could not save task status: ") reports sh1 (set_executor m c1))
    as (sh2 & c2 & E2 & Hext2 & Hh2); [simpl; rewrite lookup_insert_eq; eauto|done..|].
  destruct (extends_before_executor m c1 c2 Hext2) as (c3 & Hext3 & ->).
  destruct (shared_next_task accept m sh2 (reported c3 m reports)) as (task & sh3 & cs & ca & c4 & E3 & Hext4 & Hok & Hout & Hj & Hext5 & Hh4);
    [done|].
  assert (Forall (report_ok (em_id m) (set_executor m c3)) reports) as Hrep3.
  { eapply Forall_impl; [exact Hrep1|]. intros t Ht. exact (report_ok_extends _ c1 c3 t Hext3 Ht). }
  destruct (extends_before_reports (em_id m) reports (set_executor m c3) cs Hrep3 Hext4) as (c5 & Hext6 & ->).
  destruct (extends_before_executor m c3 c5 Hext6) as (c6 & Hext7 & ->). change (apply_reports (set_executor m c6) reports) with (reported c6 m reports) in *.
  assert (extends c c6) as Hext by (do 2 (etransitivity; [eassumption|]); done).
  rewrite reported_jobs in Hj. pose proof (Hsound c6 task ca Hext Hout Hj) as Hs.
  assert (∃ sh' c', (match reports with [] => ret () | _ => log_error (synchronize_job_status ns) end :
      MR Shared Status unit) sh3 = (Ok (), sh') ∧ work_extends ca c' ∧ holds sh' c' ∧
      match reports with [] => extends ca c' | _ => jobs_ok known c' end) as (sh' & c' & E4 & Hw & Hh' & Hfin).
  { destruct reports as [|t0 reports]; [exists sh3, c4; split_and!; try done; apply Hext5|].
    destruct (shared_synchronize known sh3 c4) as (sh' & c' & E4 & Hh' & Hw & Hok'); [|by eapply sound_extends|done|].
    - intros e m' Hm'. rewrite (ext_executors _ _ Hext5), (poll_outcome_executors _ _ _ _ _ Hout), reported_executors in Hm'.
      apply lookup_insert_Some in Hm' as [[<- <-]|[_ Hm']]; [done|]. apply Hknown. by rewrite <-(ext_executors _ _ Hext).
    - exists sh', c'. unfold log_error. rewrite E4. split_and!; [done| |done..]. etransitivity; [apply Hext5|done]. }
  exists task, sh', c6, ca, c'. split_and!; try done.
  unfold bindM at 1, or_internal at 1, map_errM at 1. rewrite E1. cbn [map_err]. unfold bindM at 1. unfold or_internal.
  rewrite E2. unfold bindM at 1. rewrite E3. unfold bindM. by rewrite E4.
Qed.
End shared.
