(* ===== verification/Executor.v ===== *)
(** * The executor's work loop

    Models src/rust/executor/src/execution_loop.rs: the loop in which an
    executor reports the outcome of its tasks to the scheduler, asks for a
    task when it has a free slot, and runs the task it gets.

    The state of the loop is the number of free slots, the queue of outcomes
    not yet reported and the tasks that run; a step is a poll with the
    scheduler's answer, or the end of a running task.  The theorems: the free
    slots and the running tasks always add up to the configured number; a
    poll that the scheduler answers with an error loses the outcomes it
    carried. *)

From S2P Require Import Prelude Keys Proto Arrow Scalar Expr LogicalPlan SchedTypes ExecPlan.
From S2P Require Import Planner Physical Backend State Server.

(** The variables of [poll_loop]: the executor's metadata, the free slots
    ([available_tasks_slots]), the channel of task statuses, and the spawned
    tasks. *)
Record Executor := mkExecutor {
  ex_metadata : PExecutorMetadata;
  ex_slots : Z;
  ex_channel : list TaskStatus;
  ex_running : list PPartitionId }.

(** The start of [poll_loop]. *)
Definition start_executor (executor_meta : ExecutorMeta) (concurrent_tasks : Z) : Executor :=
  mkExecutor (executor_meta_to_proto executor_meta) concurrent_tasks [] [].

Section executor.
Context `{PhysicalPlanner} `{ExprBuilders} `{ExecutionPlanMethods} `{ErrorText}.

(** [sample_tasks_status]: receives until the channel is empty.  (The loop
    keeps a sender, so the channel is never disconnected.)  The result is what
    was received and what is left in the channel. *)
Fixpoint sample_tasks_status (task_status_receiver : list TaskStatus)
    : list TaskStatus * list TaskStatus :=
  match task_status_receiver with
  | [] => ([], [])
  | status :: rest =>
      let '(task_status, remaining) := sample_tasks_status rest in (status :: task_status, remaining)
  end.

(** [as_task_status], on the error of the execution, if any. *)
Definition as_task_status (execution_error : option BallistaError) (executor_id : string)
    (task_id : PPartitionId) : TaskStatus :=
  match execution_error with
  | None => mkTaskStatus (Some task_id) (Some (TS_Completed executor_id))
  | Some e =>
      mkTaskStatus (Some task_id)
        (Some (TS_Failed ("Task failed due to Tokio error: " +:+ display_error e)))
  end.

(** The request of one turn of the loop: the outcomes are taken from the
    channel before the request is sent. *)
Definition poll_request (ex : Executor) : PollWorkParams * Executor :=
  let '(task_status, remaining) := sample_tasks_status (ex_channel ex) in
  (mkPollWorkParams (Some (ex_metadata ex)) (0 <? ex_slots ex)%Z task_status,
   mkExecutor (ex_metadata ex) (ex_slots ex) remaining (ex_running ex)).

(** [run_received_tasks], up to the spawned part: [fetch_sub] wraps around. *)
Definition run_received_tasks (ex : Executor) (task : TaskDefinition) : Result Executor :=
  let? _ := unwrap "called `Option::unwrap()` on a `None` value" (td_task_id task) in
  let slots := as_usize (ex_slots ex - 1) in
  let? plan := unwrap "called `Option::unwrap()` on a `None` value" (td_plan task) in
  match proto_to_exec plan with
  | Err _ => Panic "called `Result::unwrap()` on an `Err` value"
  | Panic m => Panic m
  | Ok _ =>
      let? task_id := unwrap "called `Option::unwrap()` on a `None` value" (td_task_id task) in
      Ok (mkExecutor (ex_metadata ex) slots (ex_channel ex) (ex_running ex ++ [task_id]))
  end.

(** The rest of the turn: the scheduler's answer.  A handler that panicked
    answers with an error. *)
Definition poll_response (ex : Executor) (answer : result Status PollWorkResult) : Result Executor :=
  match answer with
  | Ok result =>
      match pwr_task result with
      | Some task => run_received_tasks ex task
      | None => Ok ex
      end
  | Err _ | Panic _ => Ok ex
  end.

(** The spawned part of [run_received_tasks] for the task [task_id], which
    runs between [before] and [after]: the slot is free again and the outcome
    is sent to the channel. *)
Definition finish_task (ex : Executor) (before after : list PPartitionId) (task_id : PPartitionId)
    (execution_error : option BallistaError) : Executor :=
  mkExecutor (ex_metadata ex) (as_usize (ex_slots ex + 1))
    (ex_channel ex ++ [as_task_status execution_error (pem_id (ex_metadata ex)) task_id])
    (before ++ after).

(** The spawned part, when the execution panics: nothing more happens. *)
Definition abort_task (ex : Executor) (before after : list PPartitionId) : Executor :=
  mkExecutor (ex_metadata ex) (ex_slots ex) (ex_channel ex) (before ++ after).

(** ** Steps of the loop

    A turn in which the scheduler gives a task only if it was asked for one,
    the end of a running task, and a running task that panics; the number
    counts the slots lost. *)
Inductive executor_step : Executor → Z → Executor → Prop :=
| step_poll ex req ex1 answer ex2 :
    poll_request ex = (req, ex1) →
    (∀ r task, answer = Ok r → pwr_task r = Some task → pw_can_accept_task req = true) →
    poll_response ex1 answer = Ok ex2 →
    executor_step ex 0 ex2
| step_finish ex before after task_id execution_error :
    ex_running ex = before ++ task_id :: after →
    executor_step ex 0 (finish_task ex before after task_id execution_error)
| step_abort ex before after task_id :
    ex_running ex = before ++ task_id :: after →
    executor_step ex 1 (abort_task ex before after).

Inductive executor_steps : Executor → Z → Executor → Prop :=
| steps_refl ex : executor_steps ex 0 ex
| steps_next ex k ex1 k1 ex2 :
    executor_steps ex k ex1 → executor_step ex1 k1 ex2 → executor_steps ex (k + k1) ex2.

(** The slots of an executor that is configured for [n] tasks and lost [k]
    slots. *)
Definition slots_ok (n k : Z) (ex : Executor) : Prop :=
  (ex_slots ex + Z.of_nat (length (ex_running ex)) + k = n)%Z ∧ (0 ≤ ex_slots ex)%Z ∧ (0 ≤ k)%Z.

Lemma sample_all channel : sample_tasks_status channel = (channel, []).
Proof. induction channel as [|t channel IH]; simpl; [done|]. by rewrite IH. Qed.

Lemma poll_request_eq ex :
  poll_request ex = (mkPollWorkParams (Some (ex_metadata ex)) (0 <? ex_slots ex)%Z (ex_channel ex),
    mkExecutor (ex_metadata ex) (ex_slots ex) [] (ex_running ex)).
Proof. unfold poll_request. by rewrite sample_all. Qed.

Lemma run_received_spec ex task ex' :
  run_received_tasks ex task = Ok ex' →
  ∃ task_id plan p, task = mkTaskDefinition (Some task_id) (Some plan) ∧ proto_to_exec plan = Ok p ∧
    ex' = mkExecutor (ex_metadata ex) (as_usize (ex_slots ex - 1)) (ex_channel ex)
            (ex_running ex ++ [task_id]).
Proof.
  destruct task as [[task_id|] [plan|]]; try done. unfold run_received_tasks. simpl.
  destruct (proto_to_exec plan) as [p| |] eqn:Ep; try done. intros [= <-]. by exists task_id, plan, p.
Qed.

Lemma executor_step_slots n k ex k' ex' :
  in_u 64 n → slots_ok n k ex → executor_step ex k' ex' → slots_ok n (k + k') ex'.
Proof.
  unfold in_u, slots_ok. intros Hn (Hs & Hnn & Hk) Hstep.
  destruct Hstep as [ex req ex1 answer ex2 Hreq Hask Hresp|ex before after task_id err Hrun|ex before after task_id Hrun].
  - rewrite poll_request_eq in Hreq. simplify_eq.
    destruct answer as [[[task|]]| |]; simpl in Hresp; simplify_eq; simpl; try lia.
    apply run_received_spec in Hresp as (task_id & plan & p & -> & _ & ->). simpl.
    specialize (Hask _ _ eq_refl eq_refl). simpl in Hask. apply Z.ltb_lt in Hask.
    rewrite wrap_u_id by (unfold in_u; lia). rewrite length_app. simpl. lia.
  - simpl. rewrite Hrun, length_app in Hs. simpl in Hs. rewrite wrap_u_id by (unfold in_u; lia).
    rewrite length_app. lia.
  - simpl. rewrite Hrun, length_app in Hs. simpl in Hs. rewrite length_app. lia.
Qed.

(** ** Panics

    The loop sees its tasks through the slots and the channel only, so an
    execution that panics is to it one that never ends. *)
Definition masks (ex x : Executor) : Prop :=
  ex_metadata x = ex_metadata ex ∧ ex_slots x = ex_slots ex ∧ ex_channel x = ex_channel ex ∧
  ex_running ex `sublist_of` ex_running x.

Lemma masks_response ex x answer ex' :
  masks ex x → poll_response ex answer = Ok ex' → ∃ x', poll_response x answer = Ok x' ∧ masks ex' x'.
Proof.
  intros (Hm & Hs & Hc & Hr) Hresp. destruct answer as [[[task|]]| |]; simpl in Hresp; simplify_eq; try (by exists x).
  apply run_received_spec in Hresp as (task_id & plan & p & -> & Hp & ->). eexists. unfold poll_response. simpl.
  unfold run_received_tasks. simpl. rewrite Hp. split; [done|]. rewrite Hm, Hs, Hc. split_and!; [done..|].
  simpl. by apply sublist_app.
Qed.

Lemma masks_step ex k ex' x :
  executor_step ex k ex' → masks ex x → ∃ x', (x' = x ∨ executor_step x 0 x') ∧ masks ex' x'.
Proof.
  intros Hstep Hx. pose proof Hx as (Hm & Hs & Hc & Hr).
  destruct Hstep as [ex req ex1 answer ex2 Hreq Hask Hresp|ex before after task_id err Hrun|ex before after task_id Hrun].
  - rewrite poll_request_eq in Hreq. simplify_eq.
    destruct (masks_response (mkExecutor (ex_metadata ex) (ex_slots ex) [] (ex_running ex))
      (mkExecutor (ex_metadata x) (ex_slots x) [] (ex_running x)) answer ex2) as (x' & E & Hx'); [by split_and!|done|].
    exists x'. split; [|done]. right. eapply step_poll; [apply poll_request_eq| |exact E].
    intros r task Hr' Ht. specialize (Hask r task Hr' Ht). simpl in *. by rewrite Hs.
  - rewrite Hrun in Hr. apply sublist_app_l in Hr as (b & a & Ex & Hb & Ha).
    apply sublist_cons_l in Ha as (a1 & a2 & -> & Ha). rewrite app_assoc in Ex.
    exists (finish_task x (b ++ a1) a2 task_id err). split; [right; by eapply step_finish|].
    unfold finish_task, masks. simpl. rewrite Hm, Hs, Hc. split_and!; [done..|].
    apply sublist_app; [|done]. by apply sublist_inserts_r.
  - exists x. split; [by left|]. unfold abort_task. split_and!; try done. simpl.
    transitivity (ex_running ex); [|done]. rewrite Hrun. apply sublist_app; [done|by constructor].
Qed.

(** ** Properties *)

(** Every run of an executor, executions that panic included, is to the
    scheduler one in which no execution panics: the same requests, slots and
    outcomes, with the executions that panicked still running. *)
Theorem panics_never_end ex k ex' :
  executor_steps ex k ex' → ∃ x, executor_steps ex 0 x ∧ masks ex' x.
Proof.
  induction 1 as [ex|ex k ex1 k1 ex2 _ (x & Hx & Hm) Hstep].
  - exists ex. by split; [constructor|].
  - destruct (masks_step _ _ _ _ Hstep Hm) as (x' & [->|Hs] & Hm'); [by exists x|].
    exists x'. split; [|done]. by apply (steps_next _ 0 x 0).
Qed.

(** C28 — However its polls are answered and its tasks end, an executor that was
    started for [n] concurrent tasks has as many free slots as it runs fewer
    tasks than [n], less one for every task whose execution panicked: it
    never runs more than [n] tasks and the counter never wraps around. *)
Theorem executor_slots meta n k ex :
  in_u 64 n → executor_steps (start_executor meta n) k ex →
  (ex_slots ex + Z.of_nat (length (ex_running ex)) + k = n)%Z ∧ (0 ≤ ex_slots ex)%Z ∧ (0 ≤ k)%Z.
Proof.
  intros Hn Hsteps. remember (start_executor meta n) as ex0 eqn:E0.
  induction Hsteps as [ex|ex k ex1 k1 ex2 _ IH Hstep].
  - subst. unfold start_executor, in_u in *. simpl. lia.
  - by eapply executor_step_slots; [|apply IH|].
Qed.

(** C31 — A poll takes all outcomes from the channel and puts them into the
    request; when the scheduler answers with an error, the turn ends with the
    channel empty and nothing else changed: those outcomes are not reported
    again. *)
Theorem failed_poll_drops_outcomes ex e req ex1 :
  poll_request ex = (req, ex1) →
  pw_task_status req = ex_channel ex ∧
  poll_response ex1 (Err e) =
    Ok (mkExecutor (ex_metadata ex) (ex_slots ex) [] (ex_running ex)).
Proof. rewrite poll_request_eq. intros [= <- <-]. done. Qed.
End executor.

(** ** Witnesses *)

Section witnesses.
Existing Instance sample_physical_planner.
Existing Instance direct_builders.
Existing Instance sample_exec_methods.

Definition sample_texts : ErrorText := {|
  datafusion_debug _ := "error"; datafusion_display _ := "error"; status_display _ := "status" |}.

Definition sample_meta : ExecutorMeta := mkExecutorMeta "e1" "localhost" 50051.
Definition sample_pid : PPartitionId := mkPPartitionId "abc" 1 0.
Definition sample_definition : TaskDefinition :=
  mkTaskDefinition (Some sample_pid) (Some (exec_node (PPT_Empty false (Some (mkPSchema []))))).

Lemma executor_slots_witness :
  (3 + Z.of_nat 1 + 0 = 4)%Z ∧ (0 ≤ 3)%Z ∧ (0 ≤ 0)%Z.
Proof.
  apply (@executor_slots sample_physical_planner direct_builders sample_exec_methods sample_texts
    sample_meta 4 0
    (mkExecutor (executor_meta_to_proto sample_meta) 3 [] [sample_pid])).
  - unfold in_u. lia.
  - change 0%Z with (0 + 0)%Z. eapply steps_next; [apply steps_refl|].
    apply (step_poll _ (mkPollWorkParams (Some (executor_meta_to_proto sample_meta)) true [])
      (start_executor sample_meta 4) (Ok (mkPollWorkResult (Some sample_definition)))); done.
Defined.

Lemma failed_poll_drops_outcomes_witness :
  let done_task := mkTaskStatus (Some sample_pid) (Some (TS_Completed "e1")) in
  let ex := mkExecutor (executor_meta_to_proto sample_meta) 4 [done_task] [] in
  [done_task] = [done_task] ∧
  poll_response (mkExecutor (executor_meta_to_proto sample_meta) 4 [] [])
    (Err (Status_internal "unavailable")) =
  Ok (mkExecutor (executor_meta_to_proto sample_meta) 4 [] []).
Proof.
  apply (failed_poll_drops_outcomes
    (mkExecutor (executor_meta_to_proto sample_meta) 4
      [mkTaskStatus (Some sample_pid) (Some (TS_Completed "e1"))] [])
    (Status_internal "unavailable")
    (mkPollWorkParams (Some (executor_meta_to_proto sample_meta)) true
      [mkTaskStatus (Some sample_pid) (Some (TS_Completed "e1"))])).
  reflexivity.
Defined.
End witnesses.
