(* ===== verification/Startup.v ===== *)
(** * Starting the processes

    The [main] functions of the scheduler (src/rust/scheduler/src/main.rs) and
    of the executor (src/rust/executor/src/main.rs), with the configuration of
    the executor (src/rust/executor/src/lib.rs): from the options to the
    services and loops that run.  What the operating system and the network
    answer is a parameter.

    The theorems: what an executor that started registers as and where it
    serves; that an executor in local mode never notices that its scheduler did
    not start; which options have no effect. *)

From S2P Require Import Prelude Keys Proto Arrow Scalar Expr LogicalPlan SchedTypes ExecPlan.
From S2P Require Import Planner Physical Backend State Server Executor.

(** ** What a start comes to

    A process that runs, one that exited after printing its version, one that
    still waits, or an error or panic with its text. *)
Inductive Startup (A : Type) :=
| Started (a : A)
| Exited
| Waiting
| Failed (context : string)
| Crashed (msg : string).
Arguments Started {A} a.
Arguments Exited {A}.
Arguments Waiting {A}.
Arguments Failed {A} context.
Arguments Crashed {A} msg.

Definition sbind {A B} (m : Startup A) (k : A → Startup B) : Startup B :=
  match m with
  | Started a => k a
  | Exited => Exited
  | Waiting => Waiting
  | Failed e => Failed e
  | Crashed e => Crashed e
  end.
Notation "'let$' x ':=' e 'in' k" := (sbind e (λ x, k))
  (at level 10, x pattern, e at level 100, k at level 200) : ballista_scope.

(** [.context(..)?] and [?]: the context is what is shown of the error. *)
Definition with_context {E A} (c : string) (r : result E A) : Startup A :=
  match r with Ok a => Started a | Err _ => Failed c | Panic m => Crashed m end.
Definition or_fail {A} (r : result string A) : Startup A :=
  match r with Ok a => Started a | Err e => Failed e | Panic m => Crashed m end.

(** [format!("{}:{}", host, port)]. *)
Definition host_port (host : string) (port : Z) : string := host +:+ ":" +:+ pretty port.

(** ** The scheduler *)

Inductive ConfigBackend := CB_Etcd | CB_Standalone.

Record SchedulerOpts := mkSchedulerOpts {
  so_version : bool; so_namespace : string; so_bind_host : string; so_port : Z;
  so_config_backend : ConfigBackend; so_etcd_urls : string }.

Section scheduler.
Context {Addr EtcdStore SledStore : Type}.
Context (parse_addr : string → result string Addr) (etcd_connect : string → result string EtcdStore)
  (sled_temporary : Result SledStore) (serve : Addr → option (result string unit)).

(** The server that runs: its store, its namespace and its address. *)
Record SchedulerProcess := mkSchedulerProcess {
  sp_store : EtcdStore + SledStore; sp_namespace : string; sp_addr : Addr }.

(** [start_server]: [serve] has returned, or it has not and the server runs. *)
Definition start_server (config_backend : EtcdStore + SledStore) (namespace : string) (addr : Addr)
    : Startup SchedulerProcess :=
  match serve addr with
  | None => Started (mkSchedulerProcess config_backend namespace addr)
  | Some r => let$ _ := with_context "Could not start grpc server" r in Exited
  end.

Definition scheduler_main (opt : SchedulerOpts) : Startup SchedulerProcess :=
  if so_version opt then Exited
  else
    let namespace := so_namespace opt in
    let$ addr := or_fail (parse_addr (host_port (so_bind_host opt) (so_port opt))) in
    let$ client :=
      match so_config_backend opt with
      | CB_Etcd =>
          let$ etcd := with_context "Could not connect to etcd" (etcd_connect (so_etcd_urls opt)) in
          Started (inl etcd)
      | CB_Standalone =>
          let$ client := with_context "Could not create standalone config backend" sled_temporary in
          Started (inr client)
      end in
    start_server client namespace addr.
End scheduler.
Arguments SchedulerProcess : clear implicits.

(** ** The executor *)

Record ExecutorConfig := mkExecutorConfig {
  ec_host : string; ec_port : Z; ec_work_dir : string; ec_concurrent_tasks : Z }.
Definition ExecutorConfig_new (host : string) (port : Z) (work_dir : string) (concurrent_tasks : Z) : ExecutorConfig :=
  mkExecutorConfig host port work_dir concurrent_tasks.

Record ExecutorOpts := mkExecutorOpts {
  eo_version : bool; eo_namespace : string; eo_scheduler_host : string; eo_scheduler_port : Z; eo_local : bool;
  eo_bind_host : string; eo_external_host : string; eo_port : Z; eo_work_dir : option string;
  eo_concurrent_tasks : Z }.

(** [futures::future::MaybeDone] of the spawned scheduler: the future, until it
    is polled; its outcome, of the task and of the server in it, afterwards. *)
Inductive MaybeDone (F : Type) :=
| MD_Future (f : F)
| MD_Done (outcome : result string (result string unit))
| MD_Gone.
Arguments MD_Future {F} f.
Arguments MD_Done {F} outcome.
Arguments MD_Gone {F}.
(** [maybe_done]: it does not poll the future. *)
Definition maybe_done {F} (f : F) : MaybeDone F := MD_Future f.

(** The loop that waits for the scheduler of local mode: [connects] are the
    outcomes of the attempts to connect so far. *)
Fixpoint await_scheduler {F} (connects : list (result string unit)) (scheduler_result : MaybeDone F) : Startup unit :=
  match connects with
  | [] => Waiting
  | Ok _ :: _ => Started ()
  | _ :: rest =>
      match scheduler_result with
      | MD_Future f => await_scheduler rest (maybe_done f)
      | MD_Done (Err e) => Failed "Tokio error"
      | MD_Done (Ok (Err e)) => Failed "Scheduler failed to initialize correctly"
      | MD_Done (Ok (Ok _)) => Failed "Scheduler unexpectedly finished successfully"
      | MD_Done (Ok (Panic m)) | MD_Done (Panic m) => Crashed m
      | MD_Gone => Crashed "Received Gone from recently created MaybeDone"
      end
  end.

(** What the surroundings of an executor answer. *)
Class Surroundings (Addr SledStore F : Type) := {
  parse_addr : string → result string Addr;
  (** [TempDir::new()?.into_path().into_os_string().into_string()] *)
  new_temp_dir : result string (option string);
  new_uuid : string;
  sled_temporary : Result SledStore;
  (** [tokio::spawn] of a scheduler server, and the attempts to connect to it *)
  spawn_scheduler : SledStore → string → Addr → F;
  connects : list (result string unit);
  (** [SchedulerGrpcClient::connect] and [BallistaClient::try_new] *)
  scheduler_connect : string → result string unit;
  flight_connect : string → Z → result string unit;
  (** the spawned flight server, if it has ended: the outcome of the task and
      of the server in it *)
  flight_server : Addr → option (result string (result string unit));
}.

(** The process that runs: its configuration, where its flight service is
    bound, the scheduler in it and the state of its loop. *)
Record ExecutorProcess (Addr SledStore : Type) := mkExecutorProcess {
  xp_config : ExecutorConfig; xp_addr : Addr; xp_scheduler : option (SledStore * string * Addr); xp_loop : Executor }.
Arguments mkExecutorProcess {Addr SledStore}.
Arguments xp_config {Addr SledStore}.
Arguments xp_addr {Addr SledStore}.
Arguments xp_scheduler {Addr SledStore}.
Arguments xp_loop {Addr SledStore}.

Section executor.
Context {Addr SledStore F : Type} `{Surroundings Addr SledStore F}.

(** The scheduler of local mode. *)
Definition start_local_scheduler (opt : ExecutorOpts) : Startup (SledStore * string * Addr) :=
  let$ client := with_context "Could not create standalone config backend" sled_temporary in
  let text := host_port (eo_bind_host opt) (eo_scheduler_port opt) in
  let$ addr := with_context ("Could not parse " +:+ text) (parse_addr text) in
  let$ _ := await_scheduler connects (maybe_done (spawn_scheduler client (eo_namespace opt) addr)) in
  Started (client, eo_namespace opt, addr).

Definition executor_main (opt : ExecutorOpts) : Startup (ExecutorProcess Addr SledStore) :=
  if eo_version opt then Exited
  else
    let text := host_port (eo_bind_host opt) (eo_port opt) in
    let$ addr := with_context ("Could not parse address: " +:+ text) (parse_addr text) in
    let scheduler_host := if eo_local opt then eo_external_host opt else eo_scheduler_host opt in
    let scheduler_url := "http://" +:+ host_port scheduler_host (eo_scheduler_port opt) in
    let$ temp_dir := or_fail new_temp_dir in
    let$ temp_dir := or_fail (unwrap "called `Result::unwrap()` on an `Err` value" temp_dir) in
    let work_dir := default temp_dir (eo_work_dir opt) in
    let config := ExecutorConfig_new (eo_external_host opt) (eo_port opt) work_dir (eo_concurrent_tasks opt) in
    let executor_meta := mkExecutorMeta new_uuid (eo_external_host opt) (eo_port opt) in
    let$ local :=
      if eo_local opt then let$ scheduler := start_local_scheduler opt in Started (Some scheduler)
      else Started None in
    let$ _ := with_context "Could not connect to scheduler" (scheduler_connect scheduler_url) in
    let$ _ := or_fail (flight_connect (eo_external_host opt) (eo_port opt)) in
    let poll_loop := start_executor executor_meta (eo_concurrent_tasks opt) in
    match flight_server addr with
    | None => Started (mkExecutorProcess config addr local poll_loop)
    | Some task =>
        let$ server := with_context "Tokio error" task in
        let$ _ := with_context "Could not start executor server" server in
        Exited
    end.
End executor.

(** ** Lemmas *)

Lemma sbind_started {A B} (m : Startup A) (k : A → Startup B) b :
  sbind m k = Started b ↔ ∃ a, m = Started a ∧ k a = Started b.
Proof. split; [|by intros (a & -> & ?)]. destruct m; simpl; try discriminate. eauto. Qed.
Lemma with_context_started {E A} c (r : result E A) a : with_context c r = Started a ↔ r = Ok a.
Proof. destruct r; simpl; split; intros [=]; by subst. Qed.
Lemma or_fail_started {A} (r : result string A) a : or_fail r = Started a ↔ r = Ok a.
Proof. destruct r; simpl; split; intros [=]; by subst. Qed.

Lemma unwrap_ok {E A} m (o : option A) a : unwrap (E := E) m o = Ok a ↔ o = Some a.
Proof. destruct o; simpl; split; intros [=]; by subst. Qed.

(** Takes apart how a process came to be started. *)
Ltac started_inv := repeat match goal with
  | H : sbind _ _ = Started _ |- _ => apply sbind_started in H as (? & ? & H)
  | H : with_context _ _ = Started _ |- _ => apply with_context_started in H
  | H : or_fail _ = Started _ |- _ => apply or_fail_started in H
  | H : unwrap _ _ = Ok _ |- _ => apply unwrap_ok in H
  end.

(** The loop that waits never sees the outcome of the scheduler. *)
Lemma await_scheduler_started {F} cs (f : F) u :
  await_scheduler cs (maybe_done f) = Started u → Exists (λ r, r = Ok ()) cs.
Proof.
  induction cs as [|[[]|e|m] cs IH]; simpl; intros E; [discriminate|by left|right; by apply IH..].
Qed.
Lemma await_scheduler_waiting {F} cs (f : F) :
  Forall (λ r, r ≠ Ok ()) cs → await_scheduler cs (maybe_done f) = Waiting.
Proof. induction 1 as [|[[]|e|m] cs Hr _ IH]; simpl; [done|done|exact IH..]. Qed.

(** ** Properties *)

Section started.
Context {Addr SledStore F : Type} `{Surroundings Addr SledStore F}.

(** An executor that started is registered under a fresh id with the address
    at which it could be reached, as the host and port of its configuration;
    all its task slots are free, and in local mode a scheduler with the
    namespace of the options had accepted a connection. *)
Theorem executor_started opt p :
  executor_main opt = Started p →
  ex_metadata (xp_loop p) = executor_meta_to_proto (mkExecutorMeta new_uuid (eo_external_host opt) (eo_port opt)) ∧
  ec_host (xp_config p) = eo_external_host opt ∧ ec_port (xp_config p) = eo_port opt ∧
  flight_connect (ec_host (xp_config p)) (ec_port (xp_config p)) = Ok () ∧
  parse_addr (host_port (eo_bind_host opt) (eo_port opt)) = Ok (xp_addr p) ∧
  ex_slots (xp_loop p) = eo_concurrent_tasks opt ∧ ex_running (xp_loop p) = [] ∧
  ((eo_local opt = false ∧ xp_scheduler p = None) ∨
   (eo_local opt = true ∧ Exists (λ r, r = Ok ()) connects ∧
     ∃ store addr, xp_scheduler p = Some (store, eo_namespace opt, addr))).
Proof.
  unfold executor_main. destruct (eo_version opt); [discriminate|]. intros Hm. started_inv.
  destruct (flight_server _) as [t|]; [by started_inv|]. injection Hm as <-.
  repeat match goal with x : () |- _ => destruct x end. split_and!; try done.
  destruct (eo_local opt); [right|left; by simplify_eq]. started_inv. simplify_eq.
  match goal with H : start_local_scheduler opt = _ |- _ => unfold start_local_scheduler in H end. started_inv.
  simplify_eq. split_and!; [done|by eapply await_scheduler_started|eauto].
Qed.

(** In local mode the outcome of the scheduler is looked at in a future that
    nothing polls: while no connection succeeds the executor waits, whatever
    became of the scheduler it spawned, and none of the errors for a scheduler
    that ended is ever reported. *)
Theorem local_scheduler_unnoticed opt :
  eo_version opt = false → eo_local opt = true → Forall (λ r, r ≠ Ok ()) connects →
  is_ok (parse_addr (host_port (eo_bind_host opt) (eo_port opt))) = true →
  is_ok (parse_addr (host_port (eo_bind_host opt) (eo_scheduler_port opt))) = true →
  (∃ dir, new_temp_dir = Ok (Some dir)) → is_ok sled_temporary = true →
  executor_main opt = Waiting.
Proof.
  intros Hv Hl Hc Ha Hs [dir Hd] Hsled. unfold executor_main, start_local_scheduler. rewrite Hv, Hl, Hd.
  destruct (parse_addr (host_port _ (eo_port opt))); [|done..]. simpl.
  destruct sled_temporary; [|done..]. simpl. destruct (parse_addr (host_port _ (eo_scheduler_port opt))); [|done..]. simpl.
  by rewrite await_scheduler_waiting.
Qed.

(** Outside local mode the namespace of an executor has no effect: it joins
    whatever the scheduler serves. *)
Theorem executor_namespace_unused opt ns :
  eo_local opt = false →
  executor_main opt = executor_main (mkExecutorOpts (eo_version opt) ns (eo_scheduler_host opt) (eo_scheduler_port opt)
    (eo_local opt) (eo_bind_host opt) (eo_external_host opt) (eo_port opt) (eo_work_dir opt) (eo_concurrent_tasks opt)).
Proof. intros Hl. unfold executor_main. simpl. by rewrite Hl. Qed.

(** A temporary directory is made, and must be possible to make, also for an
    executor that is given a work directory. *)
Theorem work_dir_needs_temp_dir opt p :
  executor_main opt = Started p → ∃ dir, new_temp_dir = Ok (Some dir) ∧
    ec_work_dir (xp_config p) = default dir (eo_work_dir opt).
Proof.
  unfold executor_main. destruct (eo_version opt); [discriminate|]. intros Hm. started_inv.
  destruct (flight_server _) as [t|]; [by started_inv|]. injection Hm as <-. subst. eauto.
Qed.
End started.

(** A scheduler that started serves its namespace from the store that the
    options name: etcd at their urls, or a new store in a temporary file. *)
Theorem scheduler_started {Addr E D} parse connect (temporary : Result D) serve opt (p : SchedulerProcess Addr E D) :
  scheduler_main parse connect temporary serve opt = Started p →
  sp_namespace p = so_namespace opt ∧ parse (host_port (so_bind_host opt) (so_port opt)) = Ok (sp_addr p) ∧
  serve (sp_addr p) = None ∧
  match so_config_backend opt, sp_store p with
  | CB_Etcd, inl store => connect (so_etcd_urls opt) = Ok store
  | CB_Standalone, inr store => temporary = Ok store
  | _, _ => False
  end.
Proof.
  unfold scheduler_main, start_server. destruct (so_version opt); [discriminate|]. intros Hm. started_inv.
  destruct (serve _) eqn:Es; [by started_inv|]. injection Hm as <-. split_and!; [done..|].
  destruct (so_config_backend opt); started_inv; by simplify_eq/=.
Qed.
