(* ===== verification/System.v ===== *)
(** * The scheduler and its executors together

    The whole control plane as a state machine: the scheduler's store with
    its lock (Server.v), any number of executors running the work loop
    (Executor.v), and the jobs that are planned meanwhile.  A step is a poll
    of one executor, between whose operations on the store the planning tasks
    write to it (Shared.v); the end of a task; a step of a planning task
    (Planning.v); an executor that joins; or a lease that runs out of an
    executor that completed no task (what happens after the others is in
    Leases.v).

    The invariant ties the store to the executors: a task recorded as running
    is on exactly one executor, in its running tasks or in its unreported
    outcomes.  From it: a poll never fails, no task is run twice, and when
    all executors are idle and nothing failed, every task is complete. *)

From S2P Require Import Prelude Keys Proto Arrow Scalar Expr LogicalPlan SchedTypes ExecPlan.
From S2P Require Import Planner Physical Backend State Assign Server Cluster Refine Leases Planning Shared Executor.

(** ** Tasks in flight *)

Definition task_of (pid : PPartitionId) : TaskId :=
  (ppi_job_id pid, ppi_stage_id pid, ppi_partition_id pid).
Definition status_task (st : TaskStatus) : option TaskId := task_of <$> ts_partition_id st.

(** The tasks an executor was given and has not reported. *)
Definition in_flight (ex : Executor) : list TaskId :=
  (task_of <$> ex_running ex) ++ omap status_task (ex_channel ex).
Definition flights (exs : list Executor) : list TaskId := flat_map in_flight exs.

(** The outcomes an executor reports. *)
Definition finished (own : string) (r : TaskStatusStatus) : Prop :=
  r = TS_Completed own ∨ ∃ e, r = TS_Failed e.
Definition outcome_ok (own : string) (st : TaskStatus) : Prop :=
  ∃ t r, st = task_message t (Some r) ∧ finished own r.

Lemma status_task_message t o : status_task (task_message t o) = Some t.
Proof. by destruct t as [[??]?]. Qed.

Lemma task_of_message t o pid : ts_partition_id (task_message t o) = Some pid → task_of pid = t.
Proof. destruct t as [[??]?]. by intros [= <-]. Qed.

Lemma in_flight_running ex t : t ∈ task_of <$> ex_running ex → t ∈ in_flight ex.
Proof. intros. apply elem_of_app. by left. Qed.
Lemma in_flight_channel ex t : t ∈ omap status_task (ex_channel ex) → t ∈ in_flight ex.
Proof. intros. apply elem_of_app. by right. Qed.
Lemma in_flight_inv ex t :
  t ∈ in_flight ex → t ∈ task_of <$> ex_running ex ∨ t ∈ omap status_task (ex_channel ex).
Proof. apply elem_of_app. Qed.

Lemma flights_app l1 ex l2 : flights (l1 ++ ex :: l2) = flights l1 ++ in_flight ex ++ flights l2.
Proof. unfold flights. by rewrite flat_map_app. Qed.

Lemma elem_of_flights t exs : t ∈ flights exs ↔ ∃ ex, ex ∈ exs ∧ t ∈ in_flight ex.
Proof.
  unfold flights. rewrite list_elem_of_In, in_flat_map. split; intros (ex & H1 & H2); exists ex;
    rewrite list_elem_of_In in *; by rewrite ?list_elem_of_In in *.
Qed.

Lemma elem_of_middle {A} (x : A) l1 y l2 : x ∈ l1 ++ y :: l2 ↔ x = y ∨ x ∈ l1 ++ l2.
Proof. set_solver. Qed.

(** What the executors hold when [ex] sits between [l1] and [l2]. *)
Lemma flights_middle l1 ex l2 : flights (l1 ++ ex :: l2) ≡ₚ in_flight ex ++ flights (l1 ++ l2).
Proof.
  rewrite flights_app. unfold flights. rewrite flat_map_app. apply Permutation_app_swap_app.
Qed.

(** The tasks after the reports of outcomes. *)
Lemma reports_lookup own reports c :
  Forall (outcome_ok own) reports →
  cl_plans (apply_reports c reports) = cl_plans c ∧
  ∀ t, (t ∈ omap status_task reports → ∃ r, task_message t (Some r) ∈ reports ∧
      finished own r ∧ cl_tasks (apply_reports c reports) !! t = Some (Some r)) ∧
    (t ∉ omap status_task reports → cl_tasks (apply_reports c reports) !! t = cl_tasks c !! t).
Proof.
  revert c. induction reports as [|st reports IH]; intros c Hall; simpl.
  { split; [done|]. intros t. split; [by intros ?%not_elem_of_nil|done]. }
  apply Forall_cons in Hall as [(t0 & r0 & -> & Hr0) Hall].
  rewrite status_task_message, apply_report_message.
  destruct (IH (set_task t0 (Some r0) c) Hall) as [Hp Ht]. split; [done|].
  intros t. destruct (Ht t) as [Hin Hout]. split.
  - assert (t ∈ omap status_task reports → ∃ r, task_message t (Some r) ∈ task_message t0 (Some r0) :: reports ∧
      finished own r ∧ cl_tasks (apply_reports (set_task t0 (Some r0) c) reports) !! t = Some (Some r)) as Hlater.
    { intros (r & Hr & ?)%Hin. exists r. split; [by right|done]. }
    intros [->|Ht']%elem_of_cons; [|auto].
    destruct (decide (t0 ∈ omap status_task reports)) as [Hd|Hd]; [auto|].
    exists r0. split_and!; [by left|done|]. rewrite Hout by done. simpl. by rewrite lookup_insert_eq.
  - intros [Hne Hni]%not_elem_of_cons. rewrite Hout by done. simpl. by rewrite lookup_insert_ne.
Qed.

(** ** The system *)

Section system.
Context {S : Type} `{BackendOk S}.
Context `{Codec} `{!MessageOk PPhysicalPlanNode}.
Context `{PhysicalPlanner} `{ExprBuildersOk} `{ExecutionPlanMethodsOk} `{!WithNewChildrenOk}.
Context `{HashOrderOk} `{ErrorText} {DFSchema : Type} `{DataFusion DFSchema} `{QueryContext DFSchema}.
Context (ns : string) (ns_slash_free : slash_free ns).
Context (g : LockGuard) (g_unlocks : g = OwnedMutexGuard ∨ g = EtcdLockGuard (Ok ())).
Implicit Types (s : S) (c : Cluster).

(** The lock, the store, the executors, and the planning tasks that are not
    done, each with its job. *)
Record System := mkSystem {
  sys_held : bool;
  sys_store : S;
  sys_executors : list Executor;
  sys_planning : list (string * Planning DFSchema) }.

(** The task of an answer to a poll. *)
Definition answer_tasks (answer : result Status PollWorkResult) : list TaskId :=
  match answer with
  | Ok (mkPollWorkResult (Some (mkTaskDefinition (Some pid) _))) => [task_of pid]
  | _ => []
  end.

(** What the runs of a system are free to do, besides what the code decides:
    which queries are planned, whose registrations may be lost and when, and
    whether the answers to polls may be lost. *)
Record Regime := mkRegime {
  r_admits : Query → Prop;
  r_loses : string → S → Prop;
  r_lossy : Prop }.

(** Anything may happen. *)
Definition unrestricted : Regime := mkRegime (λ _, True) (λ _ _, True) True.

(** The conditions of the theorems: the stages of every query that is planned
    survive their encoding ([query_fits]), no executor loses its registration
    after it completed a task, and no answer is lost.  What happens without them
    is shown in Blocked.v and Leases.v. *)
Record regular (R : Regime) : Prop := {
  regular_queries q : r_admits R q → query_fits q;
  regular_leases e s : r_loses R e s → lease_harmless ns e s;
  regular_answers : ¬ r_lossy R;
}.

Section runs.
Context (R : Regime).

(** A step, with the task it hands out: a poll, disturbed between its
    operations on the store by what the planning tasks do; a poll whose answer
    is lost; the end of a task; a step of a planning task; a new executor; the
    loss of the registration of an executor (it is back with the executor's
    next poll; one that never polls again is one that stopped); and the end of
    the session of a lock that was not given back. *)
Inductive system_step : System → list TaskId → System → Prop :=
| sys_poll held s l1 ex l2 pl others req ex1 answer held' s' pl' others' ex2 :
    poll_request ex = (req, ex1) → Forall (by_planning ns (r_admits R)) others →
    poll_work ns (Ok ()) g req (held, (((s, pl), others) : Shared)) = Some (answer, (held', ((s', pl'), others'))) →
    poll_response ex1 answer = Ok ex2 →
    system_step (mkSystem held s (l1 ++ ex :: l2) pl) (answer_tasks answer)
      (mkSystem held' s' (l1 ++ ex2 :: l2) pl')
| sys_lost held s l1 ex l2 pl others req ex1 answer held' s' pl' others' e ex2 :
    r_lossy R → poll_request ex = (req, ex1) → Forall (by_planning ns (r_admits R)) others →
    poll_work ns (Ok ()) g req (held, (((s, pl), others) : Shared)) = Some (answer, (held', ((s', pl'), others'))) →
    poll_response ex1 (Err e) = Ok ex2 →
    system_step (mkSystem held s (l1 ++ ex :: l2) pl) (answer_tasks answer)
      (mkSystem held' s' (l1 ++ ex2 :: l2) pl')
| sys_finish held s l1 ex l2 pl before after pid err :
    ex_running ex = before ++ pid :: after →
    system_step (mkSystem held s (l1 ++ ex :: l2) pl) []
      (mkSystem held s (l1 ++ finish_task ex before after pid err :: l2) pl)
| sys_plan held s exs pl s' pl' :
    planning_step ns (r_admits R) (s, pl) (s', pl') →
    system_step (mkSystem held s exs pl) [] (mkSystem held s' exs pl')
| sys_join held s exs pl meta n :
    slash_free (em_id meta) →
    system_step (mkSystem held s exs pl) [] (mkSystem held s (exs ++ [start_executor meta n]) pl)
| sys_expire held s exs pl e s' :
    slash_free e → lease_expires ns e s s' → r_loses R e s →
    system_step (mkSystem held s exs pl) [] (mkSystem held s' exs pl)
| sys_unlock s exs pl :
    system_step (mkSystem true s exs pl) [] (mkSystem false s exs pl).

(** The systems that are reached from an empty store, with the tasks that
    were handed out on the way. *)
Inductive reachable : System → list TaskId → Prop :=
| reach_start s : contents s = ∅ → reachable (mkSystem false s [] []) []
| reach_step sys trace ts sys' :
    reachable sys trace → system_step sys ts sys' → reachable sys' (trace ++ ts).
End runs.

(** Every run is one of the unrestricted system. *)
Lemma planning_unrestricted (admits : Query → Prop) x x' :
  planning_step (DFSchema := DFSchema) ns admits x x' → planning_step ns (λ _, True) x x'.
Proof.
  destruct 1; [by eapply step_accept|by eapply step_start|by eapply step_refuse|by eapply step_crash|by apply step_write
    |by eapply step_write_fails|by eapply step_write_crashes].
Qed.
Lemma by_planning_unrestricted (admits : Query → Prop) others :
  Forall (by_planning (DFSchema := DFSchema) ns admits) others → Forall (by_planning ns (λ _, True)) others.
Proof.
  intros Ho. eapply Forall_impl; [exact Ho|]. intros f Hf x. specialize (Hf x).
  induction Hf as [|y z w Hyz _ IH]; [apply rtc_refl|]. eapply rtc_l; [by eapply planning_unrestricted|done].
Qed.
Lemma reachable_unrestricted R sys trace : reachable R sys trace → reachable unrestricted sys trace.
Proof.
  induction 1 as [s Hs|sys trace ts sys' _ IH Hstep]; [by apply reach_start|]. eapply reach_step; [exact IH|].
  destruct Hstep; [| |by apply sys_finish| |by apply sys_join|by eapply sys_expire|apply sys_unlock].
  - by eapply sys_poll; [|eapply by_planning_unrestricted| |].
  - by eapply sys_lost; [..|eapply by_planning_unrestricted| |].
  - by apply sys_plan; eapply planning_unrestricted.
Qed.

(** The metadata the scheduler makes of an executor's request. *)
Abbreviation meta_of ex := (executor_meta_from_proto (ex_metadata ex)).
Definition known (exs : list Executor) (m : ExecutorMeta) : Prop := ∃ ex, ex ∈ exs ∧ m = meta_of ex.

(** The tasks in flight and the executors agree. *)
Record flight_inv (exs : list Executor) c : Prop := {
  inv_known e m : cl_executors c !! e = Some m → em_id m = e ∧ known exs m;
  inv_ids ex : ex ∈ exs → slash_free (pem_id (ex_metadata ex));
  inv_channel ex : ex ∈ exs → Forall (outcome_ok (pem_id (ex_metadata ex))) (ex_channel ex);
  inv_flight ex t : ex ∈ exs → t ∈ in_flight ex →
    cl_tasks c !! t = Some (Some (TS_Running (pem_id (ex_metadata ex))));
  inv_nodup : NoDup (flights exs);
  inv_running t e : cl_tasks c !! t = Some (Some (TS_Running e)) → t ∈ flights exs;
}.
(** The store and the executors agree. *)
Record sys_inv (sys : System) c : Prop := {
  inv_held : sys_held sys = false;
  inv_rep : rep ns (sys_store sys) c;
  inv_ok : cluster_ok c;
  inv_jobs : jobs_ok (known (sys_executors sys)) c;
  inv_flights :> flight_inv (sys_executors sys) c;
}.

Lemma known_mono exs exs' m : (∀ ex, ex ∈ exs → ∃ ex', ex' ∈ exs' ∧ ex_metadata ex' = ex_metadata ex) →
  known exs m → known exs' m.
Proof. intros Hs (ex & Hex & ->). destruct (Hs ex Hex) as (ex' & ? & E). exists ex'. by rewrite E. Qed.
(** The executor [ex] becomes [ex'], with the same metadata. *)
Lemma known_update l1 ex ex' l2 m :
  ex_metadata ex' = ex_metadata ex → known (l1 ++ ex :: l2) m → known (l1 ++ ex' :: l2) m.
Proof.
  intros E. apply known_mono. intros x [->|Hx]%elem_of_middle; [exists ex'|exists x];
    (split; [apply elem_of_middle; auto|done]).
Qed.
Lemma jobs_ok_mono (known known' : ExecutorMeta → Prop) c :
  (∀ m, known m → known' m) → jobs_ok known c → jobs_ok known' c.
Proof.
  intros Hk [Hcomp Hsound]. split; [done|]. intros job js Hj locs l Hjs Hl.
  destruct (Hsound job js Hj locs l Hjs Hl) as (id & m & ? & ? & ?). exists id, m. auto.
Qed.

Lemma meta_of_wf ex : wf_executor_meta (meta_of ex).
Proof. unfold wf_executor_meta, executor_meta_from_proto. simpl. by apply wrap_u_range. Qed.

Lemma channel_reports exs c ex :
  flight_inv exs c → ex ∈ exs → Forall (report_ok (em_id (meta_of ex)) c) (ex_channel ex).
Proof.
  intros Hi Hex. pose proof (inv_channel _ _ Hi ex Hex) as Hc. rewrite Forall_forall in Hc |- *.
  intros st Hst. destruct (Hc st Hst) as (t & r & -> & Hr). exists t, r. split_and!; [done| |].
  - rewrite (inv_flight _ _ Hi ex t Hex); [eauto|]. unfold in_flight. apply elem_of_app. right.
    apply list_elem_of_omap. eexists. split; [exact Hst|]. apply status_task_message.
  - intros e ->. destruct Hr as [[= ->]|(? & ?)]; done.
Qed.

(** New pending tasks and new jobs change nothing of it. *)
Lemma flights_extend exs c c' : work_extends c c' → flight_inv exs c → flight_inv exs c'.
Proof.
  intros Hw [Hk Hids Hch Hfl Hnd Hrun]. split; try done.
  - intros e m. rewrite (ext_executors _ _ Hw). apply Hk.
  - intros ex t Hex Ht. by apply (ext_tasks _ _ Hw), Hfl.
  - intros t e Ht. by eapply Hrun, (ext_new _ _ Hw).
Qed.

(** The tasks after the reports of [ex]: those it reported are finished, the
    others are as before. *)
Lemma reported_tasks exs c ex :
  flight_inv exs c → ex ∈ exs →
  let c1 := reported c (meta_of ex) (ex_channel ex) in
  cl_plans c1 = cl_plans c ∧
  ∀ t, (t ∈ omap status_task (ex_channel ex) →
      ∃ r, task_message t (Some r) ∈ ex_channel ex ∧ finished (pem_id (ex_metadata ex)) r ∧
        cl_tasks c1 !! t = Some (Some r)) ∧
    (t ∉ omap status_task (ex_channel ex) → cl_tasks c1 !! t = cl_tasks c !! t).
Proof.
  intros Hi Hex. apply (reports_lookup _ (ex_channel ex) (set_executor (meta_of ex) c)).
  by apply (inv_channel _ _ Hi).
Qed.

(** The tasks [ts] are started and no task is started again; a status is new
    only if one of the executors had it in its channel; the plan of a stage
    with tasks stays. *)
Record started (exs : list Executor) (ts : list TaskId) c c' : Prop := {
  started_keep t r : cl_tasks c !! t = Some (Some r) → ∃ r', cl_tasks c' !! t = Some (Some r');
  started_nodup : NoDup ts;
  started_fresh t r : t ∈ ts → cl_tasks c !! t ≠ Some (Some r);
  started_now t : t ∈ ts → ∃ own, cl_tasks c' !! t = Some (Some (TS_Running own));
  started_only t r : cl_tasks c' !! t = Some (Some r) → t ∈ ts ∨ ∃ r', cl_tasks c !! t = Some (Some r');
  started_reported t r : cl_tasks c' !! t = Some (Some r) → cl_tasks c !! t = Some (Some r) ∨ t ∈ ts ∨
    ∃ ex, ex ∈ exs ∧ task_message t (Some r) ∈ ex_channel ex;
  started_recorded t : is_Some (cl_tasks c !! t) → is_Some (cl_tasks c' !! t);
  started_plans job st pt o p : cl_tasks c !! (job, st, pt) = Some o →
    cl_plans c !! (job, st) = Some p → cl_plans c' !! (job, st) = Some p;
}.

(** Planning before and after. *)
Lemma started_between exs ts c c1 c2 c' :
  work_extends c c1 → started exs ts c1 c2 → work_extends c2 c' → started exs ts c c'.
Proof.
  intros Hw1 Hs Hw2. split.
  - intros t r Ht%(ext_tasks _ _ Hw1). destruct (started_keep _ _ _ _ Hs _ _ Ht) as [r' Hr'].
    exists r'. by apply (ext_tasks _ _ Hw2).
  - apply Hs.
  - intros t r Hin Ht%(ext_tasks _ _ Hw1). by eapply started_fresh.
  - intros t Hin. destruct (started_now _ _ _ _ Hs _ Hin) as [own Ho]. exists own. by apply (ext_tasks _ _ Hw2).
  - intros t r Ht%(ext_new _ _ Hw2). destruct (started_only _ _ _ _ Hs _ _ Ht) as [?|[r' Hr'%(ext_new _ _ Hw1)]]; eauto.
  - intros t r Ht%(ext_new _ _ Hw2).
    destruct (started_reported _ _ _ _ Hs _ _ Ht) as [Hr'%(ext_new _ _ Hw1)|[?|?]]; auto.
  - intros t Ht. by apply (ext_recorded _ _ _ Hw2), (started_recorded _ _ _ _ Hs), (ext_recorded _ _ _ Hw1).
  - intros job st pt o p Ho Hp. assert (is_Some (cl_tasks c !! (job, st, pt))) as Hrec by eauto.
    rewrite (ext_plans _ _ Hw2 job st pt).
    + eapply started_plans; [exact Hs|by apply (ext_tasks _ _ Hw1)|]. by rewrite (ext_plans _ _ Hw1 job st pt).
    + by apply (started_recorded _ _ _ _ Hs), (ext_recorded _ _ _ Hw1).
Qed.

Lemma started_refl exs c : started exs [] c c.
Proof.
  split; try done; eauto; [constructor| |].
  - by intros t r ?%not_elem_of_nil.
  - by intros t ?%not_elem_of_nil.
Qed.
Lemma started_extends exs c c' : work_extends c c' → started exs [] c c'.
Proof. intros Hw. by eapply started_between; [|apply started_refl|]. Qed.

(** A task after a poll: untouched, reported, or handed out. *)
Lemma poll_task exs c ex task c' t :
  flight_inv exs c → ex ∈ exs →
  poll_outcome (reported c (meta_of ex) (ex_channel ex)) (meta_of ex) (0 <? ex_slots ex)%Z task c' →
  (cl_tasks c' !! t = cl_tasks c !! t ∧ t ∉ answer_tasks (Ok (mkPollWorkResult task))) ∨
  (∃ own r, cl_tasks c !! t = Some (Some (TS_Running own)) ∧ task_message t (Some r) ∈ ex_channel ex ∧
    finished own r ∧ cl_tasks c' !! t = Some (Some r) ∧ t ∉ answer_tasks (Ok (mkPollWorkResult task))) ∨
  (∃ own, cl_tasks c !! t = Some None ∧ cl_tasks c' !! t = Some (Some (TS_Running own)) ∧
    answer_tasks (Ok (mkPollWorkResult task)) = [t]).
Proof.
  intros Hi Hex Hout. destruct (reported_tasks _ c ex Hi Hex) as [_ Ht1].
  set (c1 := reported c _ _) in *.
  assert ((cl_tasks c1 !! t = cl_tasks c !! t) ∨
    ∃ own r, cl_tasks c !! t = Some (Some (TS_Running own)) ∧ task_message t (Some r) ∈ ex_channel ex ∧
      finished own r ∧ cl_tasks c1 !! t = Some (Some r)) as Hc1.
  { destruct (Ht1 t) as [Hin Hnot].
    destruct (decide (t ∈ omap status_task (ex_channel ex))) as [Hd|Hd]; [right|left; auto].
    destruct (Hin Hd) as (r & Hm & Hr & E). exists (pem_id (ex_metadata ex)), r. split_and!; [|done..].
    apply (inv_flight _ _ Hi); [done|]. by apply in_flight_channel. }
  destruct Hout as [(-> & (_ & Hw & _) & _)|(Hacc & x & plan & q & -> & Hq & Hrun & _ & (_ & Hw & _))].
  - rewrite Hw. assert (t ∉ answer_tasks (Ok (mkPollWorkResult None))) by apply not_elem_of_nil.
    destruct Hc1 as [?|(own & r & ? & ? & ? & ?)]; [by left|]. right. left. by exists own, r.
  - assert (cl_tasks c1 !! x = Some None) as Hp by (by destruct x as [[??]?], Hrun).
    assert (answer_tasks (Ok (mkPollWorkResult (Some (mkTaskDefinition
      (ts_partition_id (task_message x None)) (Some q))))) = [x]) as -> by (by destruct x as [[??]?]).
    simpl in Hw. rewrite Hw. destruct (decide (x = t)) as [->|Hne].
    + rewrite lookup_insert_eq. right. right. eexists. split_and!; [|done..].
      destruct Hc1 as [?|(? & ? & ? & ? & ? & ?)]; congruence.
    + rewrite lookup_insert_ne by done. assert (t ∉ [x]) by (rewrite list_elem_of_singleton; congruence).
      destruct Hc1 as [?|(own & r & ? & ? & ? & ?)]; [by left|]. right. left. by exists own, r.
Qed.

Lemma poll_plans exs c ex task c' :
  flight_inv exs c → ex ∈ exs →
  poll_outcome (reported c (meta_of ex) (ex_channel ex)) (meta_of ex) (0 <? ex_slots ex)%Z task c' →
  cl_plans c' = cl_plans c.
Proof.
  intros Hi Hex Hout. destruct (reported_tasks _ c ex Hi Hex) as [<- _].
  by destruct Hout as [(_ & (_ & _ & ->) & _)|(_ & x & ? & ? & _ & _ & _ & _ & (_ & _ & ->))].
Qed.

(** The executors a poll leaves registered. *)
Lemma poll_executors exs c ex task c' e m :
  flight_inv exs c → ex ∈ exs →
  poll_outcome (reported c (meta_of ex) (ex_channel ex)) (meta_of ex) (0 <? ex_slots ex)%Z task c' →
  cl_executors c' !! e = Some m → em_id m = e ∧ known exs m.
Proof.
  intros Hi Hex Hout Hm. rewrite (poll_outcome_executors _ _ _ _ _ Hout), reported_executors in Hm.
  apply lookup_insert_Some in Hm as [[<- <-]|[_ Hm]]; [|by apply (inv_known _ _ Hi)].
  split; [done|]. by exists ex.
Qed.

Lemma started_poll exs c ex task c' :
  flight_inv exs c → ex ∈ exs →
  poll_outcome (reported c (meta_of ex) (ex_channel ex)) (meta_of ex) (0 <? ex_slots ex)%Z task c' →
  started exs (answer_tasks (Ok (mkPollWorkResult task))) c c'.
Proof.
  intros Hi Hex Hout. pose proof (λ t, poll_task exs c ex task c' t Hi Hex Hout) as Ht.
  split.
  - intros t r Hr. destruct (Ht t) as [[-> _]|[(? & ? & ? & ? & ? & ? & ?)|(? & ? & ? & ?)]]; [eauto|eauto|congruence].
  - destruct task as [[[pid|] ?]|]; simpl; [apply NoDup_singleton|constructor..].
  - intros t r Hin. destruct (Ht t) as [[_ ?]|[(? & ? & ? & ? & ? & ? & ?)|(? & ? & ? & ?)]]; [done..|congruence].
  - intros t Hin. destruct (Ht t) as [[_ ?]|[(? & ? & ? & ? & ? & ? & ?)|(? & ? & ? & ?)]]; [done|done|eauto].
  - intros t r Hr. destruct (Ht t) as [[<- _]|[(? & ? & ? & ? & ? & ? & ?)|(? & ? & ? & ->)]]; [eauto|eauto|].
    left. by apply list_elem_of_singleton.
  - intros t r Hr. destruct (Ht t) as [[<- _]|[(own & r' & ? & ? & ? & ? & ?)|(? & ? & ? & ->)]]; [auto| |].
    + right. right. exists ex. split; [done|]. by simplify_eq.
    + right. left. by apply list_elem_of_singleton.
  - intros t Hr. by destruct (Ht t) as [[-> _]|[(? & ? & ? & ? & ? & -> & ?)|(? & ? & -> & ?)]].
  - intros job st pt o p _ Hp. by rewrite (poll_plans exs c ex task c' Hi Hex Hout).
Qed.

(** *** Jobs and polls *)

(** The locations of the completed jobs are still those of completed tasks. *)
Lemma sound_poll exs c ex task c' :
  flight_inv exs c → ex ∈ exs →
  poll_outcome (reported c (meta_of ex) (ex_channel ex)) (meta_of ex) (0 <? ex_slots ex)%Z task c' →
  cl_jobs c' = cl_jobs c → jobs_sound (known exs) c → jobs_sound (known exs) c'.
Proof.
  intros Hi Hex Hout Hj Hs job js Hjs locs x Hc Hx. rewrite Hj in Hjs.
  destruct (Hs job js Hjs locs x Hc Hx) as (id & m & Hid & Hpid). exists id, m. split; [|done].
  destruct (poll_task exs c ex task c' id Hi Hex Hout) as [[-> _]|[(? & ? & E & _)|(? & E & _)]]; congruence.
Qed.

(** Without outcomes to report, a poll completes no job. *)
Lemma follows_poll exs c ex task c' :
  poll_outcome (reported c (meta_of ex) []) (meta_of ex) (0 <? ex_slots ex)%Z task c' →
  cl_jobs c' = cl_jobs c → jobs_ok (known exs) c → ∀ job, job_follows c' job.
Proof.
  intros Hout Hj [Hcomp _] job js st pt Hjs [o Ho] Hall. rewrite Hj in Hjs.
  assert (∀ id, cl_tasks c !! id = cl_tasks c' !! id ∨ cl_tasks c !! id = Some None ∧
    ∃ own, cl_tasks c' !! id = Some (Some (TS_Running own))) as Hid.
  { intros id. destruct Hout as [(-> & (_ & Hw & _) & _)|(_ & x & _ & _ & _ & _ & Hrun & _ & (_ & Hw & _))];
      unfold reported in *; simpl in *; rewrite Hw; [by left|].
    destruct (decide (x = id)) as [->|Hne]; [|rewrite lookup_insert_ne by done; by left].
    rewrite lookup_insert_eq. right. split; [|eauto]. by destruct id as [[??]?], Hrun. }
  apply (lists_tasks_mono c).
  { intros id _. destruct (Hid id) as [->|[-> _]]; eauto. }
  apply (Hcomp job js st pt Hjs).
  - destruct (Hid (job, st, pt)) as [->|[-> _]]; eauto.
  - intros id o' Hs Ho'. destruct (Hid id) as [E|[E [own E']]]; [rewrite E in Ho'; eauto|].
    by destruct (Hall id _ Hs E') as [? ?].
Qed.

(** The scheduler answers every poll, with a task only if one can run,
    whatever the planning tasks do meanwhile. *)
Context (R : Regime) (HR : regular R).
Section answered.
Context (J : Cluster → list (string * Planning DFSchema) → Prop).
Context (J_effect : ∀ c pl c' pl', planning_inv c pl → J c pl → planning_effect (r_admits R) pl c pl' c' → J c' pl').
Context (J_frame : ∀ c c' pl, (∀ job, job_frame job c c') → J c pl → J c' pl).

Lemma poll_answered sys c ex req ex1 others :
  sys_inv sys c → planning_inv c (sys_planning sys) → J c (sys_planning sys) →
  ex ∈ sys_executors sys → poll_request ex = (req, ex1) → Forall (by_planning ns (r_admits R)) others →
  ∃ task sh' c1 ca c', poll_work ns (Ok ()) g req (sys_held sys, (((sys_store sys, sys_planning sys), others) : Shared)) =
      Some (Ok (mkPollWorkResult task), (false, sh')) ∧ extends c c1 ∧
    poll_outcome (reported c1 (meta_of ex) (ex_channel ex)) (meta_of ex) (0 <? ex_slots ex)%Z task ca ∧
    work_extends ca c' ∧ holds ns (r_admits R) J sh' c' ∧ jobs_ok (known (sys_executors sys)) c'.
Proof.
  intros Hi Hpl HJ Hex Hreq Hothers. rewrite poll_request_eq in Hreq. simplify_eq.
  destruct (shared_poll_locked ns ns_slash_free (r_admits R) (regular_queries _ HR) J J_effect J_frame (known (sys_executors sys)) (meta_of ex)
    (0 <? ex_slots ex)%Z (ex_channel ex) ((sys_store sys, sys_planning sys), others) c)
    as (task & sh' & c1 & ca & c' & E & Hext & Hok & Hout & Hj & Hw & Hh & Hfin).
  - apply meta_of_wf.
  - by apply (inv_ids _ _ Hi).
  - by apply (channel_reports _ _ _ Hi).
  - intros e m. apply (inv_known _ _ Hi).
  - by exists ex.
  - intros c1 task ca Hext Hout Hj. eapply sound_poll; [|done|exact Hout|done|].
    + eapply flights_extend; [apply Hext|apply Hi].
    + eapply sound_extends; [done|]. apply (inv_jobs _ _ Hi).
  - split; try done; apply Hi.
  - exists task, sh', c1, ca, c'. split_and!; try done.
    + unfold poll_work. simpl. rewrite (inv_held _ _ Hi). simpl in E. rewrite E. by destruct g_unlocks as [-> | ->].
    + destruct (ex_channel ex) as [|r0 reports] eqn:Ech; [|done].
      pose proof (jobs_ok_extends _ _ _ Hext (inv_jobs _ _ Hi)) as Hjobs1. apply (jobs_ok_extends _ ca); [done|]. split.
      * by eapply follows_poll.
      * eapply (sound_poll _ c1 ex task ca); [eapply flights_extend; [apply Hext|apply Hi]|done|by rewrite Ech|done|apply Hjobs1].
Qed.
End answered.

(** *** Polls keep the invariant *)

(** The executor [ex] becomes [ex']; the others keep what they have. *)
Lemma flights_update l1 ex l2 c ex' c' :
  flight_inv (l1 ++ ex :: l2) c →
  (∀ e m, cl_executors c' !! e = Some m → em_id m = e ∧ known (l1 ++ ex :: l2) m) →
  ex_metadata ex' = ex_metadata ex →
  Forall (outcome_ok (pem_id (ex_metadata ex))) (ex_channel ex') →
  (∀ t, t ∈ in_flight ex' → cl_tasks c' !! t = Some (Some (TS_Running (pem_id (ex_metadata ex))))) →
  (∀ t, t ∈ flights (l1 ++ l2) → cl_tasks c' !! t = cl_tasks c !! t) →
  NoDup (in_flight ex') → (∀ t, t ∈ in_flight ex' → t ∉ flights (l1 ++ l2)) →
  (∀ t e, cl_tasks c' !! t = Some (Some (TS_Running e)) → t ∈ in_flight ex' ∨ t ∈ flights (l1 ++ l2)) →
  flight_inv (l1 ++ ex' :: l2) c'.
Proof.
  intros Hi Hknown Hm Hch Hfl Hoth Hnd Hdis Hrun.
  assert (∀ x, x ∈ l1 ++ l2 → x ∈ l1 ++ ex :: l2) as Hsub by (intros; apply elem_of_middle; by right).
  assert (∀ m, known (l1 ++ ex :: l2) m → known (l1 ++ ex' :: l2) m) as Hk by (intros m; by apply known_update).
  split; simpl; try done.
  - intros e m Hem. destruct (Hknown e m Hem). auto.
  - intros x [->|Hx]%elem_of_middle; [rewrite Hm|]; apply (inv_ids _ _ Hi); simpl; rewrite elem_of_middle; auto.
  - intros x [->|Hx]%elem_of_middle; [by rewrite Hm|]. apply (inv_channel _ _ Hi). by apply Hsub.
  - intros x t [->|Hx]%elem_of_middle Ht; [rewrite Hm; by apply Hfl|].
    rewrite Hoth; [by apply (inv_flight _ _ Hi); [apply Hsub|]|]. apply elem_of_flights. eauto.
  - rewrite flights_middle. apply NoDup_app. split_and!; [done|done|].
    pose proof (inv_nodup _ _ Hi) as Hn. simpl in Hn. rewrite flights_middle in Hn.
    by apply NoDup_app in Hn as (_ & _ & ?).
  - intros t e Ht. rewrite flights_middle. apply elem_of_app. by eapply Hrun.
Qed.

Lemma inv_finish held s l1 ex l2 pl before after pid err c :
  ex_running ex = before ++ pid :: after → sys_inv (mkSystem held s (l1 ++ ex :: l2) pl) c →
  sys_inv (mkSystem held s (l1 ++ finish_task ex before after pid err :: l2) pl) c.
Proof.
  intros Hrun Hi. set (ex' := finish_task ex before after pid err).
  assert (in_flight ex' ≡ₚ in_flight ex) as Hp.
  { unfold in_flight, ex', finish_task. simpl. rewrite Hrun, omap_app.
    assert (omap status_task [as_task_status err (pem_id (ex_metadata ex)) pid] = [task_of pid]) as ->
      by (by destruct err).
    rewrite !fmap_app, fmap_cons, (app_assoc _ _ [_]), (Permutation_app_comm _ [_]), <-!app_assoc. simpl.
    by rewrite Permutation_middle. }
  assert (ex ∈ l1 ++ ex :: l2) as Hex by (apply elem_of_middle; by left).
  pose proof (inv_nodup _ _ Hi) as Hn. simpl in Hn. rewrite flights_middle in Hn.
  apply NoDup_app in Hn as (Hn1 & Hn2 & Hn3).
  split; try apply Hi; [apply (jobs_ok_mono (known (l1 ++ ex :: l2))); [intros m; by apply known_update|first [done|apply Hi]]|].
  apply (flights_update l1 ex l2 c ex' c); try done; try apply Hi.
  - apply Forall_app. split; [by apply (inv_channel _ _ Hi)|]. constructor; [|constructor].
    exists (task_of pid). destruct pid as [j st pt]. destruct err as [e|]; eexists; (split; [reflexivity|]).
    + right. eauto.
    + by left.
  - intros t Ht. rewrite Hp in Ht. by apply (inv_flight _ _ Hi).
  - by rewrite Hp.
  - intros t Ht. rewrite Hp in Ht. auto.
  - intros t e Ht. apply (inv_running _ _ Hi) in Ht. simpl in Ht.
    rewrite flights_middle in Ht. rewrite Hp. by apply elem_of_app.
Qed.

(** The tasks in flight after the reports of [ex]: what it runs and what the
    others hold is as before, and nothing else is running. *)
Record reports_absorbed c c1 (ex : Executor) (others : list Executor) : Prop := {
  abs_others t : t ∈ flights others → cl_tasks c1 !! t = cl_tasks c !! t;
  abs_own t : t ∈ task_of <$> ex_running ex →
    cl_tasks c1 !! t = Some (Some (TS_Running (pem_id (ex_metadata ex))));
  abs_running t e : cl_tasks c1 !! t = Some (Some (TS_Running e)) →
    t ∈ task_of <$> ex_running ex ∨ t ∈ flights others;
  abs_nodup : NoDup (task_of <$> ex_running ex);
  abs_disjoint t : t ∈ task_of <$> ex_running ex → t ∉ flights others;
}.

Lemma reports_absorb l1 ex l2 c :
  flight_inv (l1 ++ ex :: l2) c →
  reports_absorbed c (reported c (meta_of ex) (ex_channel ex)) ex (l1 ++ l2).
Proof.
  intros Hi. assert (ex ∈ l1 ++ ex :: l2) as Hex by (apply elem_of_middle; by left).
  destruct (reported_tasks _ c ex Hi Hex) as [_ Ht1]. set (c1 := reported c _ _) in *.
  pose proof (inv_nodup _ _ Hi) as Hn. simpl in Hn. rewrite flights_middle in Hn.
  apply NoDup_app in Hn as (Hn1 & Hn2 & Hn3). unfold in_flight in Hn1.
  apply NoDup_app in Hn1 as (Hr1 & Hr2 & Hr3). split; [| | |done|].
  - intros t Ht. apply Ht1. intros Hc. apply (Hn2 t); [|done]. by apply in_flight_channel.
  - intros t Ht. destruct (Ht1 t) as [_ ->]; [|auto].
    apply (inv_flight _ _ Hi ex); [done|]. by apply in_flight_running.
  - intros t e Ht. destruct (Ht1 t) as [Hin Hnot].
    destruct (decide (t ∈ omap status_task (ex_channel ex))) as [Hd|Hd].
    + destruct (Hin Hd) as (r & _ & [->|(? & ->)] & Hr); congruence.
    + rewrite (Hnot Hd) in Ht. apply (inv_running _ _ Hi) in Ht. simpl in Ht.
      rewrite flights_middle in Ht. apply elem_of_app in Ht as [[Ht|Ht]%in_flight_inv|Ht]; [by left|done|by right].
  - intros t Ht. by apply Hn2, in_flight_running.
Qed.

(** An answer without a task. *)
Lemma flights_poll_none l1 ex l2 c c' :
  flight_inv (l1 ++ ex :: l2) c →
  (∀ e m, cl_executors c' !! e = Some m → em_id m = e ∧ known (l1 ++ ex :: l2) m) →
  cl_tasks c' = cl_tasks (reported c (meta_of ex) (ex_channel ex)) →
  flight_inv (l1 ++ (poll_request ex).2 :: l2) c'.
Proof.
  intros Hi Hknown Hw. destruct (reports_absorb _ _ _ _ Hi) as [Hoth Hown Hrun Hnd Hdis].
  rewrite poll_request_eq.
  apply (flights_update l1 ex l2 c _ c'); try done; unfold in_flight; simpl;
    rewrite ?app_nil_r; try done; intros t; rewrite Hw; eauto.
Qed.

(** An answer with the task [t]. *)
Lemma flights_poll_task l1 ex l2 c c' pid slots :
  flight_inv (l1 ++ ex :: l2) c →
  (∀ e m, cl_executors c' !! e = Some m → em_id m = e ∧ known (l1 ++ ex :: l2) m) →
  let c1 := reported c (meta_of ex) (ex_channel ex) in
  cl_tasks c1 !! task_of pid = Some None →
  cl_tasks c' = <[task_of pid := Some (TS_Running (pem_id (ex_metadata ex)))]> (cl_tasks c1) →
  flight_inv (l1 ++ mkExecutor (ex_metadata ex) slots [] (ex_running ex ++ [pid]) :: l2) c'.
Proof.
  intros Hi Hknown c1 Hpend Hw.
  destruct (reports_absorb _ _ _ _ Hi) as [Hoth Hown Hrun Hnd Hdis]. fold c1 in Hoth, Hown, Hrun.
  assert (task_of pid ∉ task_of <$> ex_running ex) as Hni by (intros Ht; rewrite Hown in Hpend by done; congruence).
  assert (task_of pid ∉ flights (l1 ++ l2)) as Hnf.
  { intros Ht. rewrite Hoth in Hpend by done. apply elem_of_flights in Ht as (x & Hx & Ht).
    rewrite (inv_flight _ _ Hi x (task_of pid)) in Hpend; [congruence| |done]. apply elem_of_middle. by right. }
  apply (flights_update l1 ex l2 c _ c'); try done; unfold in_flight; simpl;
    rewrite ?app_nil_r, ?fmap_app; simpl; try done.
  - intros x [Hx| ->%list_elem_of_singleton]%elem_of_app; rewrite Hw; [|by rewrite lookup_insert_eq].
    rewrite lookup_insert_ne by (intros <-; done). auto.
  - intros x Hx. rewrite Hw, lookup_insert_ne by (intros <-; done). auto.
  - apply NoDup_app. split_and!; [done| |apply NoDup_singleton].
    intros x Hx ->%list_elem_of_singleton. done.
  - intros x [Hx| ->%list_elem_of_singleton]%elem_of_app; [auto|done].
  - intros x e. rewrite Hw. rewrite elem_of_app, list_elem_of_singleton.
    intros [[<- _]|[_ Hx]]%lookup_insert_Some; [auto|]. destruct (Hrun x e Hx); auto.
Qed.

(** The executor with the answer. *)
Lemma flights_poll l1 ex l2 c req ex1 task ex2 ca :
  flight_inv (l1 ++ ex :: l2) c → poll_request ex = (req, ex1) →
  poll_outcome (reported c (meta_of ex) (ex_channel ex)) (meta_of ex) (0 <? ex_slots ex)%Z task ca →
  poll_response ex1 (Ok (mkPollWorkResult task)) = Ok ex2 →
  flight_inv (l1 ++ ex2 :: l2) ca ∧ ex_metadata ex2 = ex_metadata ex.
Proof.
  intros Hi Hreq Hout Hresp. assert (ex ∈ l1 ++ ex :: l2) as Hex by (apply elem_of_middle; by left).
  pose proof (λ e m, poll_executors _ c ex task ca e m Hi Hex Hout) as Hknown.
  destruct Hout as [(-> & (_ & Hw & _) & _)|(Hacc & t & plan & q & -> & Hq & Hrunnable & _ & (_ & Hw & _))].
  - simpl in Hresp. simplify_eq. replace ex2 with (poll_request ex).2 by (by rewrite Hreq).
    split; [by eapply flights_poll_none|by rewrite poll_request_eq].
  - apply run_received_spec in Hresp as (pid & plan' & p' & Htd & _ & ->).
    injection Htd as Hpid <-. apply task_of_message in Hpid. subst t.
    rewrite poll_request_eq in Hreq. simplify_eq. simpl. split; [|done]. apply (flights_poll_task l1 ex l2 c); try done.
    by destruct pid, Hrunnable.
Qed.

(** *** The whole invariant: the planning tasks are in step with the cluster. *)
Record full_inv (sys : System) c : Prop := {
  full_sys : sys_inv sys c;
  full_planning : planning_inv c (sys_planning sys);
}.

Section polled.
Context (J : Cluster → list (string * Planning DFSchema) → Prop).
Context (J_effect : ∀ c pl c' pl', planning_inv c pl → J c pl → planning_effect (r_admits R) pl c pl' c' → J c' pl').
Context (J_frame : ∀ c c' pl, (∀ job, job_frame job c c') → J c pl → J c' pl).

Lemma full_poll held s l1 ex l2 pl others req ex1 answer held' s' pl' others' ex2 c :
  poll_request ex = (req, ex1) → Forall (by_planning ns (r_admits R)) others →
  poll_work ns (Ok ()) g req (held, (((s, pl), others) : Shared)) = Some (answer, (held', ((s', pl'), others'))) →
  poll_response ex1 answer = Ok ex2 →
  full_inv (mkSystem held s (l1 ++ ex :: l2) pl) c → J c pl →
  ∃ c', full_inv (mkSystem held' s' (l1 ++ ex2 :: l2) pl') c' ∧ J c' pl' ∧
    started (l1 ++ ex :: l2) (answer_tasks answer) c c'.
Proof.
  intros Hreq Hothers Hpoll Hresp [Hi Hpl] HJ. assert (ex ∈ l1 ++ ex :: l2) as Hex by (apply elem_of_middle; by left).
  destruct (poll_answered J J_effect J_frame _ c ex req ex1 others Hi Hpl HJ Hex Hreq Hothers)
    as (task & sh' & c1 & ca & c' & E & Hext & Hout & Hw & [Hr' Hok' Hpl' HJ' _] & Hjobs).
  cbn [sys_held sys_store sys_planning sys_executors] in *. rewrite E in Hpoll. simplify_eq. simpl in *.
  assert (flight_inv (l1 ++ ex :: l2) c1) as Hi1 by (eapply flights_extend; [apply Hext|apply Hi]).
  destruct (flights_poll _ _ _ _ _ _ _ _ _ Hi1 Hreq Hout Hresp) as [Hi2 Hmeta]. exists c'. split_and!; [|done|].
  - split; [|done]. split; try done; simpl; [apply (jobs_ok_mono (known (l1 ++ ex :: l2))); [intros m; by apply known_update|first [done|apply Hi]]|by eapply flights_extend].
  - eapply started_between; [apply Hext| |exact Hw]. by apply (started_poll _ c1 ex).
Qed.
End polled.

(** *** New jobs and new executors *)

Lemma full_plan held s exs pl s' pl' c :
  planning_step ns (r_admits R) (s, pl) (s', pl') → full_inv (mkSystem held s exs pl) c →
  ∃ c', full_inv (mkSystem held s' exs pl') c' ∧ planning_effect (r_admits R) pl c pl' c' ∧ extends c c'.
Proof.
  intros Hstep [Hi Hpl].
  destruct (planning_simulated ns ns_slash_free (r_admits R) _ _ c (regular_queries _ HR) Hstep (inv_rep _ _ Hi) (inv_ok _ _ Hi) Hpl)
    as (c' & Hr' & Hok' & Hpl' & He). pose proof (effect_extends _ _ _ _ _ He) as Hext.
  exists c'. split_and!; [|done..]. split; [|done]. split; simpl; try done; [apply Hi| |].
  - eapply jobs_ok_extends; [done|apply Hi].
  - eapply flights_extend; [apply Hext|apply Hi].
Qed.

Lemma inv_join held s exs pl meta n c :
  slash_free (em_id meta) → sys_inv (mkSystem held s exs pl) c →
  sys_inv (mkSystem held s (exs ++ [start_executor meta n]) pl) c.
Proof.
  intros Hid [Hh Hr Hok Hjobs [Hk Hids Hch Hfl Hnf Hrun]].
  assert (∀ m, known exs m → known (exs ++ [start_executor meta n]) m) as Hmono.
  { intros m. apply known_mono. intros ex Hex. exists ex. split; [apply elem_of_app; by left|done]. }
  split; simpl in *; try done; [by apply (jobs_ok_mono _ _ _ Hmono)|]. split.
  - intros e m Hem. destruct (Hk e m Hem). auto.
  - intros ex [Hx| ->%list_elem_of_singleton]%elem_of_app; [by apply Hids|done].
  - intros ex [Hx| ->%list_elem_of_singleton]%elem_of_app; [by apply Hch|constructor].
  - intros ex t [Hx| ->%list_elem_of_singleton]%elem_of_app; [by apply Hfl|].
    by intros ?%not_elem_of_nil.
  - unfold flights in *. rewrite flat_map_app. simpl. by rewrite app_nil_r.
  - intros t e Ht. unfold flights. rewrite flat_map_app. apply elem_of_app. left. by eapply Hrun.
Qed.

Lemma full_expire held s s' exs pl e c :
  slash_free e → lease_expires ns e s s' → lease_harmless ns e s → full_inv (mkSystem held s exs pl) c →
  full_inv (mkSystem held s' exs pl) (expire e c).
Proof.
  intros He Hs Hh [[Hheld Hr Hok Hjobs [Hk Hids Hch Hfl Hnd Hrun]] Hpl]. simpl in *. split; [split|]; simpl; try done.
  - by eapply rep_expire.
  - by eapply expire_ok.
  - by destruct Hjobs.
  - split; try done. intros e' m Hm. simpl in Hm. apply lookup_delete_Some in Hm as [_ Hm]. by apply Hk.
  - by eapply planning_inv_frame; [|exact Hpl].
Qed.

Lemma full_step sys ts sys' c :
  full_inv sys c → system_step R sys ts sys' → ∃ c', full_inv sys' c' ∧ started (sys_executors sys) ts c c'.
Proof.
  intros Hfull Hstep. destruct Hstep as [held s l1 ex l2 pl others req ex1 answer held' s' pl' others' ex2 Hreq Hoth Hpoll Hresp
    |held s l1 ex l2 pl others req ex1 answer held' s' pl' others' e ex2 Hlost
    | |held s exs pl s' pl' Hstep| |held s exs pl e s' He Hs Hh|].
  - destruct (full_poll (λ _ _, True) ltac:(done) ltac:(done) _ _ _ _ _ _ _ _ _ _ _ _ _ _ _ c Hreq Hoth Hpoll Hresp Hfull I)
      as (c' & Hf & _ & Hst). eauto.
  - by destruct (regular_answers _ HR).
  - exists c. split; [|apply started_refl]. destruct Hfull. split; [by apply inv_finish|done].
  - destruct (full_plan _ _ _ _ _ _ _ Hstep Hfull) as (c' & Hf & _ & Hext). exists c'. split; [done|].
    apply started_extends, Hext.
  - exists c. split; [|apply started_refl]. destruct Hfull. split; [by apply inv_join|done].
  - exists (expire e c). split; [by eapply full_expire; [..|apply (regular_leases _ HR)|]|]. by destruct (started_refl exs c); split.
  - by pose proof (inv_held _ _ (full_sys _ _ Hfull)).
Qed.

(** ** Runs *)

Definition empty_cluster : Cluster := mkCluster ∅ ∅ ∅ ∅.

Lemma empty_rep s : contents s = ∅ → rep ns s empty_cluster.
Proof. intros Hs. split; rewrite Hs; split; intros *; by rewrite lookup_empty. Qed.

Lemma empty_full s : contents s = ∅ → full_inv (mkSystem false s [] []) empty_cluster.
Proof.
  intros Hs. split; [|split; constructor]. split; simpl; try done; [by apply empty_rep|].
  split; try done; try (by intros * ?%not_elem_of_nil). constructor.
Qed.

Lemma reachable_inv sys trace :
  reachable R sys trace → ∃ c, full_inv sys c ∧ NoDup trace ∧
    ∀ t, t ∈ trace ↔ ∃ r, cl_tasks c !! t = Some (Some r).
Proof.
  induction 1 as [s Hs|sys trace ts sys' _ (c & IH & Hnd & Htr) Hstep].
  - exists empty_cluster. split_and!; [by apply empty_full|constructor|].
    intros t. split; [by intros ?%not_elem_of_nil|]. simpl. by intros [? ?%lookup_empty_Some].
  - destruct (full_step _ _ _ _ IH Hstep) as (c' & Hi & Hs). exists c'. split_and!; [done| |].
    + apply NoDup_app. split_and!; [done| |by apply Hs].
      intros t (r & Ht)%Htr Hin. by apply (started_fresh _ _ _ _ Hs t r) in Hin.
    + intros t. rewrite elem_of_app, Htr. split.
      * intros [(r & Ht)|[own Hin]%(started_now _ _ _ _ Hs)]; [by eapply started_keep|eauto].
      * intros [r Hr]. destruct (started_only _ _ _ _ Hs t r Hr); auto.
Qed.

(** *** The work of a run *)

(** The tasks that are running, and the outcomes that are not reported. *)
Definition running_count (exs : list Executor) : nat := sum_list_with (λ ex, length (ex_running ex)) exs.
Definition channel_count (exs : list Executor) : nat := sum_list_with (λ ex, length (ex_channel ex)) exs.

(** The useful part of a step: the tasks it hands out, and one more if a task
    ends or if outcomes are reported. *)
Definition work (sys : System) (ts : list TaskId) (sys' : System) : nat :=
  length ts +
  (if running_count (sys_executors sys') <? running_count (sys_executors sys) then 1 else 0)%nat +
  (if channel_count (sys_executors sys') <? channel_count (sys_executors sys) then 1 else 0)%nat.

(** The reachable systems, with the work of their run. *)
Inductive worked : System → list TaskId → nat → Prop :=
| work_start s : contents s = ∅ → worked (mkSystem false s [] []) [] 0
| work_step sys trace n ts sys' :
    worked sys trace n → system_step R sys ts sys' → worked sys' (trace ++ ts) (n + work sys ts sys').

Lemma worked_reachable sys trace n : worked sys trace n → reachable R sys trace.
Proof. induction 1; [by apply reach_start|by eapply reach_step]. Qed.

Lemma reachable_worked sys trace : reachable R sys trace → ∃ n, worked sys trace n.
Proof.
  induction 1 as [|sys trace ts sys' _ [n IH] Hstep]; [by exists 0%nat; apply work_start|].
  eexists. by eapply work_step.
Qed.

(** What is left to do for the tasks that were handed out. *)
Definition debt (sys : System) : nat :=
  (2 * running_count (sys_executors sys) + channel_count (sys_executors sys))%nat.

Lemma answer_received ex answer ex' :
  poll_response ex answer = Ok ex' →
  length (ex_running ex') = (length (ex_running ex) + length (answer_tasks answer))%nat ∧
  ex_channel ex' = ex_channel ex.
Proof.
  destruct answer as [[[task|]]| |]; simpl; intros Hr; simplify_eq; try (split; [lia|done]).
  apply run_received_spec in Hr as (pid & plan & p & -> & _ & ->). simpl. by rewrite length_app.
Qed.

(** A step does its work at the expense of what is left to do. *)
Lemma step_pays sys ts sys' :
  system_step R sys ts sys' → (work sys ts sys' + debt sys' ≤ debt sys + 3 * length ts)%nat.
Proof.
  destruct 1 as [held s l1 ex l2 pl others req ex1 answer held' s' pl' others' ex2 Hreq _ _ Hresp
    |held s l1 ex l2 pl others req ex1 answer held' s' pl' others' e ex2 _ Hreq _ _ Hresp
    |held s l1 ex l2 pl before after pid err Hrun| | | |];
    unfold work, debt, running_count, channel_count; simpl; rewrite ?Nat.ltb_irrefl; try lia;
    rewrite !sum_list_with_app; simpl.
  - rewrite poll_request_eq in Hreq. simplify_eq. apply answer_received in Hresp as [Hn Hc].
    simpl in Hn. rewrite Hn, Hc. simpl. repeat case_match; simpl; rewrite ?Nat.ltb_lt, ?Nat.ltb_ge in *; lia.
  - rewrite poll_request_eq in Hreq. simpl in Hresp. simplify_eq. simpl.
    repeat case_match; simpl; rewrite ?Nat.ltb_lt, ?Nat.ltb_ge in *; lia.
  - rewrite Hrun, !length_app. simpl. repeat case_match; rewrite ?Nat.ltb_lt, ?Nat.ltb_ge in *; lia.
  - repeat case_match; rewrite ?Nat.ltb_lt, ?Nat.ltb_ge in *; lia.
Qed.

Lemma worked_bound sys trace n : worked sys trace n → (n + debt sys ≤ 3 * length trace)%nat.
Proof.
  induction 1 as [|sys trace n ts sys' _ IH Hstep]; [done|].
  apply step_pays in Hstep. rewrite length_app. lia.
Qed.

(** *** Tasks that can run *)

Lemma rep_tasks_eq s c c' : rep ns s c → rep ns s c' → cl_tasks c = cl_tasks c'.
Proof.
  assert (∀ c c' t o, rep ns s c → rep ns s c' → cl_tasks c !! t = Some o → cl_tasks c' !! t = Some o) as Hhalf.
  { intros d d' [[job st] pt] o Hr Hr' Ht.
    destruct (rep_task_at _ _ _ _ _ Hr Ht) as ((Hjob & _) & b & Hb & Hd).
    destruct (rep_task_unique _ ns_slash_free job st pt (task_message (job, st, pt) o) _ _ Hr' Hjob)
      as (o' & Hm & Ho'); [by exists b|]. by injection Hm as ->. }
  intros Hr Hr'. apply map_eq. intros t. apply option_eq. split; by apply Hhalf.
Qed.

Lemma rep_plans_eq s c c' : rep ns s c → rep ns s c' → cl_plans c = cl_plans c'.
Proof.
  assert (∀ c c' k p, rep ns s c → rep ns s c' → cl_plans c !! k = Some p → cl_plans c' !! k = Some p) as Hhalf.
  { intros d d' [job st] p Hr Hr' Hp.
    destruct (table_read _ _ _ _ _ (rep_plans _ _ _ Hr) _ _ Hp) as (b & Hb & Hjob & _ & q & Hd & Hq).
    destruct (table_scan _ _ _ _ _ (rep_plans _ _ _ Hr') _ _ Hb (stage_key_prefix ns (job, st)))
      as ([job' st'] & p' & Hk & Hp' & Hjob' & _ & q' & Hd' & Hq').
    assert (KStage ns job st = KStage ns job' st') as [= <- <-] by (by apply key_of_inj). congruence. }
  intros Hr Hr'. apply map_eq. intros k. apply option_eq. split; by apply Hhalf.
Qed.

(** If nothing is running and nothing has failed, a job with a pending task
    has one whose inputs are complete: the one of its first stage. *)
Lemma pending_runnable c job st pt :
  cluster_ok c →
  (∀ t r, cl_tasks c !! t = Some (Some r) → ∃ e, r = TS_Completed e) →
  (0 ≤ st)%Z → (∀ t o, cl_tasks c !! t = Some o → (0 ≤ t.1.2)%Z) →
  cl_tasks c !! (job, st, pt) = Some None → ∃ t, runnable c t.
Proof.
  intros Hok Hdone Hst Hpos. revert pt. pattern st. apply Zlt_0_ind; [|done].
  clear st Hst. intros st IH Hst pt Hpt.
  destruct (ok_plan _ Hok _ _ _ _ Hpt) as (p & Hp & _).
  destruct (decide (Exists (λ x, cl_tasks c !! (job, x.1, x.2) = Some None) (inputs_of p))) as [Hx|Hn].
  - apply Exists_exists in Hx as ([st' pt'] & Hin & Hpend). simpl in Hpend.
    destruct (ok_inputs _ Hok _ _ _ _ _ _ _ Hpt Hp Hin) as [Hlt _].
    apply (IH st' ltac:(specialize (Hpos _ _ Hpend); simpl in Hpos; lia) pt' Hpend).
  - exists (job, st, pt). split; [done|]. exists p. split; [done|]. intros st' pt' Hin.
    destruct (ok_inputs _ Hok _ _ _ _ _ _ _ Hpt Hp Hin) as [_ [o Ho]].
    destruct o as [r|]; [by destruct (Hdone _ _ Ho) as [e ->]; eauto|].
    destruct Hn. apply Exists_exists. by exists (st', pt').
Qed.
(** The same in a cluster whose executors hold no task. *)
Lemma idle_runnable exs s c t :
  rep ns s c → cluster_ok c → flight_inv exs c → (∀ ex, ex ∈ exs → in_flight ex = []) →
  (∀ t e, cl_tasks c !! t ≠ Some (Some (TS_Failed e))) → cl_tasks c !! t = Some None → ∃ x, runnable c x.
Proof.
  intros Hr Hok Hi Hidle Hfail Ht. destruct t as [[job st] pt]. apply (pending_runnable c job st pt Hok); [| | |done].
  - intros t [e|e|e] Hs; [|by destruct (Hfail t e)|eauto].
    apply (inv_running _ _ Hi), elem_of_flights in Hs as (ex' & Hex' & Hin). rewrite Hidle in Hin by done.
    by apply not_elem_of_nil in Hin.
  - destruct (rep_task_at _ _ _ _ _ Hr Ht) as ((_ & Hst & _) & _). apply Hst.
  - intros [[j st'] pt'] o Ho. destruct (rep_task_at _ _ _ _ _ Hr Ho) as ((_ & Hst & _) & _). apply Hst.
Qed.

(** An executor that holds no task has no outcome to report. *)
Lemma idle_channel exs c ex : flight_inv exs c → ex ∈ exs → in_flight ex = [] → ex_channel ex = [].
Proof.
  intros Hi Hex Hidle. destruct (ex_channel ex) as [|st l] eqn:Ec; [done|].
  pose proof (Forall_inv (eq_ind _ (Forall _) (inv_channel _ _ Hi ex Hex) _ Ec)) as (x & r & -> & _).
  unfold in_flight in Hidle. rewrite Ec in Hidle. simpl in Hidle.
  rewrite status_task_message in Hidle. by destruct (task_of <$> ex_running ex).
Qed.

(** ** Properties *)

(** C1 — In every system reached by a regular run (the stages of the planned
    queries survive their encoding, no executor that completed a task loses its
    registration, no answer is lost), whatever the interleaving of polls, ends
    of tasks, queries and the writes of their planning, the scheduler answers
    the poll of every executor, also if planning tasks write to the store
    between any two operations of that poll: the handler does not fail, crash or
    wait for the lock, and releases it.  The poll takes effect at one moment of
    it (after some of the planning): it hands out a task only if the executor
    has a free slot, the task is pending and all its inputs are complete, and
    records it as running there; it hands out none to an executor with a free
    slot only if no task can run. *)
Theorem polls_always_answered sys trace ex others :
  reachable R sys trace → ex ∈ sys_executors sys → Forall (by_planning ns (r_admits R)) others →
  ∃ c task sh' c1 ca c', rep ns (sys_store sys) c ∧
    poll_work ns (Ok ()) g (poll_request ex).1
      (sys_held sys, (((sys_store sys, sys_planning sys), others) : Shared)) =
      Some (Ok (mkPollWorkResult task), (false, sh')) ∧
    extends c c1 ∧
    poll_outcome (reported c1 (meta_of ex) (ex_channel ex)) (meta_of ex) (0 <? ex_slots ex)%Z task ca ∧
    work_extends ca c' ∧ rep ns sh'.1.1 c'.
Proof.
  intros (c & [Hi Hpl] & _)%reachable_inv Hex Hothers.
  destruct (poll_answered (λ _ _, True) ltac:(done) ltac:(done) sys c ex (poll_request ex).1 (poll_request ex).2 others Hi Hpl I Hex)
    as (task & sh' & c1 & ca & c' & E & Hext & Hout & Hw & Hh & _); [by destruct (poll_request ex)|done|].
  exists c, task, sh', c1, ca, c'. split_and!; try done; [apply Hi|apply Hh].
Qed.

(** C3 — No task is handed out twice in a regular run, no two executors hold the
    same task, the tasks that were handed out are those that are not pending, and
    the tasks recorded as running are exactly those that an executor is
    running or has finished and not reported. *)
Theorem tasks_started_once sys trace :
  reachable R sys trace →
  NoDup trace ∧ NoDup (flights (sys_executors sys)) ∧
  ∃ c, rep ns (sys_store sys) c ∧
    (∀ t, t ∈ trace ↔ ∃ r, cl_tasks c !! t = Some (Some r)) ∧
    (∀ t, t ∈ flights (sys_executors sys) ↔ ∃ e, cl_tasks c !! t = Some (Some (TS_Running e))).
Proof.
  intros (c & [Hi _] & Hnd & Htr)%reachable_inv. split_and!; [done|apply Hi|].
  exists c. split_and!; [apply Hi|done|]. intros t. split.
  - intros (ex & Hex & Ht)%elem_of_flights. eexists. by apply (inv_flight _ _ Hi ex).
  - intros [e Ht]. by apply (inv_running _ _ Hi t e).
Qed.

(** C4 — In a regular run the scheduler is never stuck: if no executor holds a
    task and no task has failed, and some task is pending, then the poll of any
    executor with a free slot is answered with a task, whatever planning tasks
    write during the poll. *)
Theorem idle_cluster_progresses sys trace c ex t others :
  reachable R sys trace → rep ns (sys_store sys) c →
  (∀ ex, ex ∈ sys_executors sys → in_flight ex = []) →
  (∀ t e, cl_tasks c !! t ≠ Some (Some (TS_Failed e))) → cl_tasks c !! t = Some None →
  ex ∈ sys_executors sys → (0 < ex_slots ex)%Z → Forall (by_planning ns (r_admits R)) others →
  ∃ task sh', poll_work ns (Ok ()) g (poll_request ex).1
      (sys_held sys, (((sys_store sys, sys_planning sys), others) : Shared)) =
    Some (Ok (mkPollWorkResult (Some task)), (false, sh')).
Proof.
  intros (c0 & [Hi Hpl] & _)%reachable_inv Hr Hidle Hfail Ht Hex Hslots Hothers.
  rewrite (rep_tasks_eq _ _ _ Hr (inv_rep _ _ Hi)) in *. clear c Hr.
  destruct (poll_answered (λ _ _, True) ltac:(done) ltac:(done) sys c0 ex (poll_request ex).1 (poll_request ex).2 others Hi Hpl I Hex)
    as (task & sh' & c1 & ca & c' & E & Hext & Hout & _); [by destruct (poll_request ex)|done|].
  destruct Hout as [(-> & _ & Hnone)|(_ & x & plan & q & -> & _)]; [|eauto].
  exfalso. pose proof (idle_channel _ _ _ Hi Hex (Hidle ex Hex)) as Hch.
  destruct (idle_runnable _ _ _ t (inv_rep _ _ Hi) (inv_ok _ _ Hi) Hi Hidle Hfail Ht) as [x Hx].
  apply (Hnone ltac:(lia) x). rewrite Hch. apply (runnable_extends _ c1) in Hx; [|apply Hext]. by destruct x as [[??]?].
Qed.

(** C8 — What a client is told, in every system reached by a regular run: for
    every job the store knows, [get_job_status] answers with its status.  If the
    job has tasks, and all tasks of the jobs whose id begins with its id (which
    its scan finds) are complete, then its status is completed and lists each of
    those tasks exactly once.  Conversely, a status that is completed lists only
    tasks that have completed, with the address of the executor that completed
    them, which is one of the executors of the system; it need not list them
    all, since a job may be reported as completed in the middle of its
    planning. *)
Theorem job_status_answers sys trace :
  reachable R sys trace →
  ∃ c, rep ns (sys_store sys) c ∧ ∀ job js, cl_jobs c !! job = Some js →
    get_job_status ns job (sys_store sys) =
      (Ok (mkGetJobStatusResult (Some js)), sys_store sys) ∧
    (∀ st pt, is_Some (cl_tasks c !! (job, st, pt)) → all_complete c job → lists_tasks c job js) ∧
    locations_complete (known (sys_executors sys)) c js.
Proof.
  intros (c & [Hi _] & _)%reachable_inv. exists c. split; [apply Hi|]. intros job js Hj. split_and!.
  - unfold get_job_status, or_internal, map_errM, bindM.
    by rewrite (rep_get_job _ _ _ _ _ (inv_rep _ _ Hi) Hj).
  - intros st pt. by apply (jobs_complete _ _ (inv_jobs _ _ Hi)).
  - by apply (jobs_located _ _ (inv_jobs _ _ Hi) job).
Qed.
(** C17 — A regular run does a bounded amount of work: handing out tasks, ending them and
    reporting their outcomes takes at most three steps per task in the store,
    whatever else happens in between; polls beyond that find nothing to do. *)
Theorem work_bounded sys trace n c :
  worked sys trace n → rep ns (sys_store sys) c → (n ≤ 3 * size (cl_tasks c))%nat.
Proof.
  intros Hw Hr. pose proof (worked_bound _ _ _ Hw) as Hb.
  destruct (reachable_inv _ _ (worked_reachable _ _ _ Hw)) as (c0 & [Hi _] & Hnd & Htr).
  rewrite (rep_tasks_eq _ _ _ Hr (inv_rep _ _ Hi)).
  assert (length trace ≤ size (cl_tasks c0))%nat; [|lia].
  rewrite <-size_dom, <-(size_list_to_set (C := gset TaskId) trace) by done. apply subseteq_size.
  intros t. rewrite elem_of_list_to_set, Htr, elem_of_dom. intros [r ->]. eauto.
Qed.
End system.
