(* ===== verification/SchedulerTests.v ===== *)
(** * The tests of the scheduler

    The unit tests of src/rust/scheduler/src/state/mod.rs, state/standalone.rs,
    lib.rs and planner.rs as programs of the model, and that they pass: those
    of the state on every backend that keeps its contract, where the calls are
    followed on the abstract cluster of [Cluster], by rules for single calls
    that [Refine] justifies; that of the planner for every physical plan of the
    shape of the test's query. *)

From Stdlib Require Import Sorting.Sorted.
From S2P Require Import Prelude Keys Proto Arrow Scalar Expr LogicalPlan SchedTypes ExecPlan.
From S2P Require Import Planner Physical Backend Utils State Assign Server Cluster Refine System SerdeTests.

(** ** What the tests use of the language *)

Definition assert {S} (b : bool) : M S unit :=
  if b then ret () else lift (Panic "assertion failed").
(** [m.await], its result as a value. *)
Definition outcome {S A} (m : M S A) : M S (Result A) := λ s,
  match m s with
  | (Panic e, s') => (Panic e, s')
  | (r, s') => (Ok r, s')
  end.
Definition is_err {A} (r : Result A) : bool := match r with Err _ => true | _ => false end.
Abbreviation none_unwrapped := "called `Option::unwrap()` on a `None` value".

Module state_tests.
Section tests.
Context {S : Type} `{ConfigBackendClient S}.
Context `{Message PExecutorMetadata} `{Message JobStatus} `{Message TaskStatus}.

Definition meta_123 : ExecutorMeta := mkExecutorMeta "123" "localhost" 123.
Definition queued : JobStatus := mkJobStatus (Some JS_Queued).
Definition running : JobStatus := mkJobStatus (Some JS_Running).
(** A [TaskStatus] of the job ["job"]. *)
Definition task (stage_id partition_id : Z) (status : option TaskStatusStatus) : TaskStatus :=
  mkTaskStatus (Some (mkPPartitionId "job" stage_id partition_id)) status.

Definition executor_metadata : M S unit :=
  let! _ := save_executor_metadata "test" meta_123 in
  let! result := get_executors_metadata "test" in
  assert (bool_decide ([meta_123] = result)).

Definition executor_metadata_empty : M S unit :=
  let! _ := save_executor_metadata "test" meta_123 in
  let! result := get_executors_metadata "test2" in
  assert (bool_decide (result = [])).

Definition job_metadata : M S unit :=
  let! _ := save_job_metadata "test" "job" queued in
  let! result := get_job_metadata "test" "job" in
  let! _ := assert (bool_decide (js_status result ≠ None)) in
  let! status := lift (unwrap none_unwrapped (js_status result)) in
  match status with JS_Queued => ret () | _ => lift (Panic "Unexpected status") end.

Definition job_metadata_non_existant : M S unit :=
  let! _ := save_job_metadata "test" "job" queued in
  let! result := outcome (get_job_metadata "test2" "job2") in
  assert (is_err result).

Definition failed_task : TaskStatus := task 1 2 (Some (TS_Failed "error")).

Definition task_status : M S unit :=
  let! _ := save_task_status "test" failed_task in
  let! result := get_task_status "test" "job" 1 2 in
  let! _ := assert (bool_decide (ts_status result ≠ None)) in
  let! status := lift (unwrap none_unwrapped (ts_status result)) in
  match status with TS_Failed _ => ret () | _ => lift (Panic "Unexpected status") end.

Definition task_status_non_existant : M S unit :=
  let! _ := save_task_status "test" failed_task in
  let! result := outcome (get_task_status "test" "job" 25 2) in
  assert (is_err result).

Definition task_synchronize_job_status_queued : M S unit :=
  let! _ := save_job_metadata "default" "job" queued in
  let! _ := synchronize_job_status "default" in
  let! result := get_job_metadata "default" "job" in
  assert (bool_decide (result = queued)).

Definition task_synchronize_job_status_running : M S unit :=
  let! _ := save_job_metadata "default" "job" running in
  let! _ := save_task_status "default" (task 0 0 (Some (TS_Completed ""))) in
  let! _ := save_task_status "default" (task 0 1 (Some (TS_Running ""))) in
  let! _ := synchronize_job_status "default" in
  let! result := get_job_metadata "default" "job" in
  assert (bool_decide (result = running)).

Definition task_synchronize_job_status_running2 : M S unit :=
  let! _ := save_job_metadata "default" "job" running in
  let! _ := save_task_status "default" (task 0 0 (Some (TS_Completed ""))) in
  let! _ := save_task_status "default" (task 0 1 None) in
  let! _ := synchronize_job_status "default" in
  let! result := get_job_metadata "default" "job" in
  assert (bool_decide (result = running)).

(** [match result.status.unwrap()] with one arm that does not panic. *)
Definition expect_status (result : JobStatus) (f : JobStatusStatus → bool) : M S unit :=
  let! status := lift (unwrap none_unwrapped (js_status result)) in
  if f status then ret () else lift (Panic "Received status: {:?}").

Definition task_synchronize_job_status_completed : M S unit :=
  let! _ := save_job_metadata "default" "job" running in
  let! _ := save_task_status "default" (task 0 0 (Some (TS_Completed ""))) in
  let! _ := save_task_status "default" (task 0 1 (Some (TS_Completed ""))) in
  let! _ := synchronize_job_status "default" in
  let! result := get_job_metadata "default" "job" in
  expect_status result (λ s, match s with JS_Completed _ => true | _ => false end).

Definition task_synchronize_job_status_completed2 : M S unit :=
  let! _ := save_job_metadata "default" "job" queued in
  let! _ := save_task_status "default" (task 0 0 (Some (TS_Completed ""))) in
  let! _ := save_task_status "default" (task 0 1 (Some (TS_Completed ""))) in
  let! _ := synchronize_job_status "default" in
  let! result := get_job_metadata "default" "job" in
  expect_status result (λ s, match s with JS_Completed _ => true | _ => false end).

Definition task_synchronize_job_status_failed : M S unit :=
  let! _ := save_job_metadata "default" "job" running in
  let! _ := save_task_status "default" (task 0 0 (Some (TS_Completed ""))) in
  let! _ := save_task_status "default" (task 0 1 (Some (TS_Failed ""))) in
  let! _ := save_task_status "default" (task 0 2 None) in
  let! _ := synchronize_job_status "default" in
  let! result := get_job_metadata "default" "job" in
  expect_status result (λ s, match s with JS_Failed _ => true | _ => false end).

Definition all : list (M S unit) :=
  [executor_metadata; executor_metadata_empty; job_metadata; job_metadata_non_existant; task_status;
   task_status_non_existant; task_synchronize_job_status_queued; task_synchronize_job_status_running;
   task_synchronize_job_status_running2; task_synchronize_job_status_completed;
   task_synchronize_job_status_completed2; task_synchronize_job_status_failed].
End tests.
End state_tests.

(** ** The rules *)

Section rules.
Context {S : Type} `{BackendOk S}.
Context `{Codec} `{!MessageOk PPhysicalPlanNode}.
Context `{PhysicalPlanner} `{ExprBuildersOk} `{ExecutionPlanMethodsOk} `{HashOrderOk}.
Context (ns : string) (ns_slash_free : slash_free ns).
Implicit Types (s : S) (c : Cluster).

(** From a store that represents [c], the program returns a value and ends in a
    store, for which [Q] holds. *)
Definition runs {A} c (m : M S A) (Q : A → Cluster → Prop) : Prop :=
  ∀ s, rep ns s c → ∃ a s' c', m s = (Ok a, s') ∧ rep ns s' c' ∧ Q a c'.

Lemma runs_bind {A B} c (m : M S A) (k : A → M S B) Q R :
  runs c m Q → (∀ a c', Q a c' → runs c' (k a) R) → runs c (bindM m k) R.
Proof.
  intros Hm Hk s Hr. destruct (Hm s Hr) as (a & s1 & c1 & E & Hr1 & Ha).
  destruct (Hk a c1 Ha s1 Hr1) as (b & s2 & c2 & E2 & Hr2 & Hb). exists b, s2, c2. unfold bindM. by rewrite E.
Qed.
Lemma runs_ret {A} c (a : A) (Q : A → Cluster → Prop) : Q a c → runs c (ret a) Q.
Proof. intros Ha s Hr. by exists a, s, c. Qed.

Lemma runs_save_executor c m : wf_executor_meta m → slash_free (em_id m) →
  runs c (save_executor_metadata ns m) (λ _ c', c' = set_executor m c).
Proof. intros Hm Hid s Hr. destruct (rep_save_executor ns ns_slash_free m s c Hm Hid Hr) as (s' & E & Hr'). eauto 10. Qed.
Lemma runs_save_job c job js : slash_free job → wf_job_status js →
  runs c (save_job_metadata ns job js) (λ _ c', c' = set_job job js c).
Proof. intros Hj Hjs s Hr. destruct (rep_save_job ns ns_slash_free job js s c Hj Hjs Hr) as (s' & E & Hr'). eauto 10. Qed.
Lemma runs_save_task c t o : task_in_range t →
  runs c (save_task_status ns (task_message t o)) (λ _ c', c' = set_task t o c).
Proof. intros Ht s Hr. destruct (rep_save_task ns ns_slash_free t o s c Ht Hr) as (s' & E & Hr'). eauto 10. Qed.
Lemma runs_get_job c job js : cl_jobs c !! job = Some js →
  runs c (get_job_metadata ns job) (λ a c', a = js ∧ c' = c).
Proof. intros Hj s Hr. pose proof (rep_get_job ns job js s c Hr Hj). eauto 10. Qed.
Lemma runs_synchronize c :
  runs c (synchronize_job_status ns) (λ _ c', same_work c c' ∧
    ∀ job js, cl_jobs c !! job = Some js → ∃ new, cl_jobs c' !! job = Some new ∧ job_synced c job js new).
Proof. intros s Hr. destruct (rep_synchronize ns ns_slash_free s c Hr) as (s' & c' & E & Hr' & Hw & _ & Hs). eauto 10. Qed.

(** The status of a job after synchronization, read back. *)
Lemma runs_synced {A} c job js (k : JobStatus → M S A) Q :
  cl_jobs c !! job = Some js →
  (∀ l c', l ≡ₚ job_messages c job → runs c' (k (default js (job_status_from_tasks (cl_executors c) l))) Q) →
  runs c (let! _ := synchronize_job_status ns in let! result := get_job_metadata ns job in k result) Q.
Proof.
  intros Hj Hk. eapply runs_bind; [apply runs_synchronize|]. intros _ c' [_ Hs].
  destruct (Hs job js Hj) as (new & Hnew & l & Hl & ->). eapply runs_bind; [by apply runs_get_job|].
  intros a c'' [-> ->]. by apply Hk.
Qed.

Lemma runs_passes (m : M S unit) Q s : runs empty_cluster m Q → contents s = ∅ → (m s).1 = Ok ().
Proof. intros Hm Hs. destruct (Hm s) as ([] & s' & c' & -> & _); [by apply empty_rep|done]. Qed.
End rules.

(** ** Statuses, whatever the order of the tasks *)

Lemma forallb_perm {A} (f : A → bool) l l' : l ≡ₚ l' → forallb f l = forallb f l'.
Proof. induction 1; simpl; try congruence. by destruct (f x), (f y). Qed.
Lemma existsb_perm {A} (f : A → bool) l l' : l ≡ₚ l' → existsb f l = existsb f l'.
Proof. induction 1; simpl; try congruence. by destruct (f x), (f y). Qed.
Lemma first_error_perm l l' : l ≡ₚ l' → (length (omap task_error l') ≤ 1)%nat → first_error l = first_error l'.
Proof.
  intros Hl Hlen. unfold first_error. assert (omap task_error l ≡ₚ omap task_error l') as Hp by (by rewrite Hl).
  destruct (omap task_error l') as [|e [|? ?]]; [|..|simpl in Hlen; lia].
  - by apply Permutation_nil_r in Hp as ->.
  - by apply Permutation_singleton_r in Hp as ->.
Qed.

Lemma job_status_perm executors l l' :
  l ≡ₚ l' → l' ≠ [] → (length (omap task_error l') ≤ 1)%nat →
  ∃ locations, js_status <$> job_status_from_tasks executors l =
    if forallb task_completed l' then Some (Some (JS_Completed locations))
    else match first_error l' with
      | Some e => Some (Some (JS_Failed e))
      | None => if existsb task_running l' then Some (Some JS_Running) else None
      end.
Proof.
  intros Hl Hne Hlen. eexists. rewrite job_status_eq.
  - by rewrite (forallb_perm _ _ _ Hl), (existsb_perm _ _ _ Hl), (first_error_perm _ _ Hl).
  - intros ->. symmetry in Hl. by apply Permutation_nil_r in Hl.
Qed.

(** ** The tests pass *)

Section pass.
Context {S : Type} `{BackendOk S}.
Context `{Codec} `{!MessageOk PPhysicalPlanNode}.
Context `{PhysicalPlanner} `{ExprBuildersOk} `{ExecutionPlanMethodsOk} `{HashOrderOk}.
(** The default message has no field set. *)
Context (task_default : message_default (T := TaskStatus) = mkTaskStatus None None).
Import state_tests.
Implicit Types (s : S) (c : Cluster).

Lemma executor_metadata_passes s : contents s = ∅ → (executor_metadata s).1 = Ok ().
Proof.
  intros Hs. destruct (rep_save_executor "test" eq_refl meta_123 s empty_cluster) as (s1 & E & Hr);
    [split; [done|reflexivity]|reflexivity|by apply empty_rep|].
  unfold executor_metadata, bindM. rewrite E.
  destruct (rep_get_executors "test" eq_refl s1 _ Hr) as (metas & -> & Hp & _).
  assert ((map_to_list (cl_executors (set_executor meta_123 empty_cluster))).*2 = [meta_123]) as El.
  { simpl. by rewrite insert_empty, map_to_list_singleton. }
  rewrite El in Hp. apply Permutation_singleton_r in Hp as ->. unfold assert. by rewrite bool_decide_true.
Qed.

(** A record of a namespace is not found in another. *)
Lemma executor_metadata_empty_passes s : contents s = ∅ → (executor_metadata_empty s).1 = Ok ().
Proof.
  intros Hs. unfold executor_metadata_empty.
  destruct (put_message (executor_meta_to_proto meta_123) (get_executor_key "test" "123") (Some LEASE_TIME) s)
    as (b & s1 & E & Hc & _); [by apply executor_valid|].
  unfold bindM at 1, save_executor_metadata. cbn [em_id meta_123]. rewrite E.
  destruct (backend_prefix_spec (get_executors_prefix "test2") s1) as (kvs & Ek & Hp).
  rewrite Hc, Hs, insert_empty, map_filter_singleton_False in Hp by (by vm_compute).
  rewrite map_to_list_empty in Hp. apply Permutation_nil_r in Hp as ->.
  unfold bindM, get_executors_metadata, bindM. by rewrite Ek.
Qed.

Lemma job_metadata_passes s : contents s = ∅ → (job_metadata s).1 = Ok ().
Proof.
  apply (runs_passes "test" _ (λ _ _, True)). eapply runs_bind; [by apply runs_save_job|].
  intros _ c' ->. eapply runs_bind; [apply runs_get_job; simpl; apply lookup_insert_eq|]. intros a c' [-> ->].
  by apply (runs_ret "test").
Qed.

Lemma job_metadata_non_existant_passes s : contents s = ∅ → (job_metadata_non_existant s).1 = Ok ().
Proof.
  intros Hs. unfold job_metadata_non_existant.
  destruct (put_message queued (get_job_key "test" "job") None s (job_valid queued I)) as (b & s1 & E & Hc & _).
  unfold bindM at 1, save_job_metadata. rewrite E. unfold bindM, outcome, get_job_metadata.
  rewrite bindM_get, Hc, Hs, lookup_insert_ne, lookup_empty by (by vm_compute). done.
Qed.

(** The failed task as it is recorded. *)
Lemma failed_task_saved s :
  contents s = ∅ → ∃ b s', save_task_status "test" failed_task s = (Ok (), s') ∧ b ≠ [] ∧
    contents s' = {[get_task_status_key "test" "job" 1 2 := b]} ∧ decode_protobuf b = Ok failed_task.
Proof.
  intros Hs. assert (valid_message failed_task) as Hv by (by apply (task_valid ("job", 1, 2)%Z)).
  destruct (put_message failed_task (get_task_status_key "test" "job" 1 2) None s Hv) as (b & s' & E & Hc & Hd & Hne).
  exists b, s'. split_and!; [exact E| |by rewrite Hc, Hs, insert_empty|done].
  intros Hb. by rewrite task_default in Hne; discriminate (Hne Hb).
Qed.

Lemma task_status_passes s : contents s = ∅ → (task_status s).1 = Ok ().
Proof.
  intros (b & s' & E & Hb & Hc & Hd)%failed_task_saved. unfold task_status. unfold bindM at 1. rewrite E.
  unfold bindM at 1, get_task_status.
  rewrite (bindM_get_some _ _ _ b) by (by rewrite Hc, lookup_singleton_eq). destruct b; [done|]. unfold lift at 1. by rewrite Hd.
Qed.

Lemma task_status_non_existant_passes s : contents s = ∅ → (task_status_non_existant s).1 = Ok ().
Proof.
  intros (b & s' & E & Hb & Hc & Hd)%failed_task_saved. unfold task_status_non_existant. unfold bindM at 1. rewrite E.
  unfold bindM, outcome, get_task_status. rewrite bindM_get, Hc, lookup_singleton_ne by (by vm_compute). done.
Qed.

(** The tests of the synchronization save a job and some of its tasks. *)
Lemma runs_save_test_task c st pt o :
  in_u 32 st → in_u 32 pt → runs "default" c (save_task_status "default" (task st pt o)) (λ _ c', c' = set_task ("job", st, pt) o c).
Proof. intros Hst Hpt. by apply (runs_save_task "default" eq_refl c ("job", st, pt)). Qed.

(** The status that tasks amount to, if there is one. *)
Definition status_of (l : list TaskStatus) (locations : list PPartitionLocation) : option JobStatusStatus :=
  if forallb task_completed l then Some (JS_Completed locations)
  else match first_error l with
    | Some e => Some (JS_Failed e)
    | None => if existsb task_running l then Some JS_Running else None
    end.

Lemma runs_synced_status c js (k : JobStatus → M S unit) :
  cl_jobs c !! "job" = Some js → job_messages c "job" ≠ [] →
  (length (omap task_error (job_messages c "job")) ≤ 1)%nat →
  (∀ locations c', runs "default" c' (k
     match status_of (job_messages c "job") locations with Some status => mkJobStatus (Some status) | None => js end)
     (λ _ _, True)) →
  runs "default" c (let! _ := synchronize_job_status "default" in let! result := get_job_metadata "default" "job" in k result)
    (λ _ _, True).
Proof.
  intros Hj Hne Hlen Hk. eapply runs_synced; [done..|]. intros l c' Hl. unfold status_of in Hk.
  destruct (job_status_perm (cl_executors c) l _ Hl Hne Hlen) as [locations E]. specialize (Hk locations c').
  destruct (job_status_from_tasks (cl_executors c) l) as [[status]|]; simpl in E |- *;
    destruct (forallb task_completed _); try (by simplify_eq);
    destruct (first_error _); try (by simplify_eq); destruct (existsb task_running _); by simplify_eq.
Qed.

Lemma synchronize_queued_passes s : contents s = ∅ → (task_synchronize_job_status_queued s).1 = Ok ().
Proof.
  apply (runs_passes "default" _ (λ _ _, True)). eapply runs_bind; [by apply runs_save_job|]. intros _ c ->.
  eapply runs_synced; [done|apply lookup_insert_eq|]. intros l c' Hl.
  assert (job_messages (set_job "job" queued empty_cluster) "job" = []) as Hm by reflexivity. rewrite Hm in Hl.
  apply Permutation_nil_r in Hl as ->. unfold assert. rewrite bool_decide_true by done. by apply (runs_ret "default").
Qed.

Ltac save_all := repeat (eapply runs_bind;
  [first [by apply runs_save_job|apply runs_save_test_task; by vm_compute]|]; intros _ ? ->).
(** The status is computed from the tasks that were saved. *)
Ltac synced := apply (runs_passes "default" _ (λ _ _, True)); save_all;
  eapply runs_synced_status; [reflexivity|by vm_compute|vm_compute; lia|];
  intros locations c'; match goal with |- context [status_of ?l ?locs] =>
    let v := eval vm_compute in (status_of l locs) in
    change (status_of l locs) with v end; by apply (runs_ret "default").

Lemma synchronize_running_passes s : contents s = ∅ → (task_synchronize_job_status_running s).1 = Ok ().
Proof. synced. Qed.
Lemma synchronize_running2_passes s : contents s = ∅ → (task_synchronize_job_status_running2 s).1 = Ok ().
Proof. synced. Qed.
Lemma synchronize_completed_passes s : contents s = ∅ → (task_synchronize_job_status_completed s).1 = Ok ().
Proof. synced. Qed.
Lemma synchronize_completed2_passes s : contents s = ∅ → (task_synchronize_job_status_completed2 s).1 = Ok ().
Proof. synced. Qed.
Lemma synchronize_failed_passes s : contents s = ∅ → (task_synchronize_job_status_failed s).1 = Ok ().
Proof. synced. Qed.

(** The tests of the scheduler state pass on every backend that keeps its
    contract, whatever the order in which it lists the entries. *)
Theorem state_tests_pass s : contents s = ∅ → Forall (λ test : M S unit, (test s).1 = Ok ()) all.
Proof.
  intros Hs. repeat (apply Forall_cons; split); [..|constructor];
    eauto using executor_metadata_passes, executor_metadata_empty_passes, job_metadata_passes,
      job_metadata_non_existant_passes, task_status_passes, task_status_non_existant_passes, synchronize_queued_passes,
      synchronize_running_passes, synchronize_running2_passes, synchronize_completed_passes,
      synchronize_completed2_passes, synchronize_failed_passes.
Qed.
End pass.

(** ** The backend: standalone.rs *)

#[export] Instance byte_eq_dec : EqDecision Byte.byte := Byte.byte_eq_dec.
#[export] Instance bytes_eq_dec : EqDecision bytes := list_eq_dec.

Module standalone_tests.
Section tests.
Context {D : Type} `{Sled D}.

(** ["value".as_bytes()]. *)
Definition value : bytes := String.list_byte_of_string "value".

Definition put_read : M D unit :=
  let! _ := StandaloneClient.put "key" value None in
  let! result := StandaloneClient.get "key" in
  assert (bool_decide (result = value)).

Definition read_empty : M D unit :=
  let! result := StandaloneClient.get "key" in
  assert (bool_decide (result = [])).

Definition read_prefix : M D unit :=
  let! _ := StandaloneClient.put "key/1" value None in
  let! _ := StandaloneClient.put "key/2" value None in
  let! result := StandaloneClient.get_from_prefix "key" in
  assert (bool_decide (result = [("key/1", value); ("key/2", value)])).
End tests.
End standalone_tests.

(** The tests of the standalone backend pass on a new store: [sled] lists the
    entries in the order of their keys. *)
Theorem standalone_tests_pass {D} `{SledOk D} (db : D) :
  (∀ d p kvs, sled_scan_prefix d p = Ok kvs → StronglySorted (λ a b, String.ltb a.1 b.1 = true) kvs) →
  sled_contents db = ∅ →
  (standalone_tests.put_read db).1 = Ok () ∧ (standalone_tests.read_empty db).1 = Ok () ∧
  (standalone_tests.read_prefix db).1 = Ok ().
Proof.
  intros Hsorted Hdb. split_and!.
  - unfold standalone_tests.put_read, bindM, StandaloneClient.put.
    destruct (sled_insert_spec db "key" standalone_tests.value) as (d' & -> & Hd).
    unfold StandaloneClient.get. rewrite sled_get_spec, Hd, lookup_insert_eq. by vm_compute.
  - unfold standalone_tests.read_empty, bindM, StandaloneClient.get. by rewrite sled_get_spec, Hdb, lookup_empty.
  - unfold standalone_tests.read_prefix, bindM, StandaloneClient.put.
    destruct (sled_insert_spec db "key/1" standalone_tests.value) as (d1 & -> & Hd1). simpl.
    destruct (sled_insert_spec d1 "key/2" standalone_tests.value) as (d2 & -> & Hd2). simpl.
    unfold StandaloneClient.get_from_prefix. destruct (sled_scan_prefix_spec d2 "key") as (kvs & E & Hp). rewrite E.
    pose proof (Hsorted _ _ _ E) as Hs. rewrite Hd2, Hd1, Hdb in Hp.
    assert (map_to_list (filter (λ kv : string * bytes, starts_with "key" kv.1 = true)
      (<["key/2" := standalone_tests.value]> (<["key/1" := standalone_tests.value]> (∅ : gmap string bytes)))) ≡ₚ
      [("key/1", standalone_tests.value); ("key/2", standalone_tests.value)]) as Hl.
    { rewrite !map_filter_insert_True, map_filter_empty by done.
      rewrite map_to_list_insert, insert_empty, map_to_list_singleton by done. apply Permutation_swap. }
    rewrite Hl in Hp. simpl.
    destruct (Permutation_length_2_inv (symmetry Hp)) as [->| ->]; [by rewrite bool_decide_true|].
    inversion_clear Hs as [|? ? _ Hlt]. inversion_clear Hlt as [|? ? Hlt' _]. discriminate Hlt'.
Qed.

(** ** The service: lib.rs *)

Module server_tests.
Section tests.
Context {S : Type} `{ConfigBackendClient S}.
Context `{Message PExecutorMetadata} `{Message JobStatus} `{Message TaskStatus} `{Message PPhysicalPlanNode}.
Context `{PhysicalPlanner} `{ExprBuilders} `{ExecutionPlanMethods} `{HashOrder} `{ErrorText}.

Definition exec_meta : PExecutorMetadata := mkPExecutorMetadata "abc" "" 0.

(** A poll without reports, that no task is in the answer, and that one
    executor is registered; [None] is a poll that waits. *)
Definition poll_and_check (can_accept_task : bool) (state : bool * S) : option (Result unit * (bool * S)) :=
  match poll_work "default" (Ok ()) OwnedMutexGuard (mkPollWorkParams (Some exec_meta) can_accept_task []) state with
  | None => None
  | Some (Ok response, (held, s)) => Some
      match pwr_task response with
      | Some _ => (Panic "assertion failed: response.task.is_none()", (held, s))
      | None =>
          match get_executors_metadata "default" s with
          | (Ok executors, s') =>
              (if bool_decide (length executors = 1%nat) then Ok () else Panic "assertion failed", (held, s'))
          | (_, s') => (Panic "called `Result::unwrap()` on an `Err` value", (held, s'))
          end
      end
  | Some (_, state') => Some (Panic "Received error response", state')
  end.

Definition test_poll_work (s : S) : option (Result unit) :=
  match poll_and_check false (false, s) with
  | Some (Ok _, state) => option_map fst (poll_and_check true state)
  | r => option_map fst r
  end.
End tests.
End server_tests.

Section poll_test.
Context {S : Type} `{BackendOk S}.
Context `{Codec} `{!MessageOk PPhysicalPlanNode}.
Context `{PhysicalPlanner} `{ExprBuildersOk} `{ExecutionPlanMethodsOk} `{!WithNewChildrenOk} `{HashOrderOk} `{ErrorText}.
Import server_tests.
Implicit Types (s : S) (c : Cluster).

(** A poll of the executor of the test on a cluster without tasks. *)
Lemma poll_and_check_ok accept s c :
  rep "default" s c → cl_tasks c = ∅ → (∀ e m, cl_executors c !! e = Some m → e = "abc") →
  ∃ s' c', poll_and_check accept (false, s) = Some (Ok (), (false, s')) ∧ rep "default" s' c' ∧ cl_tasks c' = ∅ ∧
    ∀ e m, cl_executors c' !! e = Some m → e = "abc".
Proof.
  intros Hr Ht He. unfold poll_and_check, poll_work. cbn [pw_metadata pw_can_accept_task pw_task_status map_err].
  assert (cluster_ok c) as Hok by (split; intros *; by rewrite Ht, lookup_empty).
  destruct (rep_poll_work_locked "default" eq_refl (executor_meta_from_proto exec_meta) accept [] s c)
    as (task & s' & c' & -> & Hr' & _ & Hout & _); [done|done|done|done|constructor|].
  destruct Hout as [(-> & (W1 & W2 & _) & _)|(_ & t & _ & _ & _ & _ & Hrun & _)].
  2: { apply runnable_recorded in Hrun as [o Ho]. simpl in Ho. by rewrite Ht, lookup_empty in Ho. }
  cbn [rmap lock_unlock pwr_task lock_drop].
  destruct (rep_get_executors "default" eq_refl s' c' Hr') as (metas & -> & Hp & _).
  assert (cl_executors c' = {["abc" := executor_meta_from_proto exec_meta]}) as Hex.
  { rewrite W1. simpl. apply map_eq. intros e. destruct (decide (e = "abc")) as [->|Hne].
    - by rewrite lookup_insert_eq, lookup_singleton_eq.
    - rewrite lookup_insert_ne, lookup_singleton_ne by done. destruct (cl_executors c !! e) as [m|] eqn:Em; [|done].
      by destruct Hne; eapply He. }
  rewrite Hex, map_to_list_singleton in Hp. apply Permutation_singleton_r in Hp as ->.
  exists s', c'. split_and!; [by rewrite bool_decide_true|done|by rewrite W2|].
  intros e m. rewrite Hex. by intros [<- _]%lookup_singleton_Some.
Qed.

(** The test of [poll_work] passes: an executor that polls twice is registered
    once, and is given no task as there is none. *)
Theorem poll_test_passes s : contents s = ∅ → test_poll_work s = Some (Ok ()).
Proof.
  intros Hs. destruct (poll_and_check_ok false s empty_cluster) as (s1 & c1 & E1 & Hr1 & Ht1 & He1);
    [by apply empty_rep|done|by intros e m|].
  destruct (poll_and_check_ok true s1 c1) as (s2 & c2 & E2 & _); [done..|].
  unfold test_poll_work. by rewrite E1, E2.
Qed.
End poll_test.

(** ** The planner: planner.rs *)

Module planner_tests.
Section tests.
Context `{PhysicalPlanner} `{ExprBuilders} `{ExecutionPlanMethods} `{PlanText} `{Debug ExecutionPlan}.

(** [plan.children()[0]]. *)
Definition first_child (plan : ExecutionPlan) : Result ExecutionPlan :=
  unwrap "index out of bounds" (head (plan_children plan)).
(** [downcast_exec!]. *)
Definition downcast_exec (f : PlanOp → bool) (plan : ExecutionPlan) : Result ExecutionPlan :=
  if f (plan_op plan) then Ok plan else Panic "called `Option::unwrap()` on a `None` value".
Definition is_sort (op : PlanOp) : bool := match op with X_Sort _ => true | _ => false end.
Definition is_projection (op : PlanOp) : bool := match op with X_Projection _ => true | _ => false end.
Definition is_hash_aggregate (op : PlanOp) : bool := match op with X_HashAggregate _ _ _ _ => true | _ => false end.
Definition is_merge (op : PlanOp) : bool := match op with X_Merge => true | _ => false end.
(** The stages an unresolved shuffle reads. *)
Definition query_stage_ids_of (plan : ExecutionPlan) : Result (list Z) :=
  match plan_op plan with
  | X_UnresolvedShuffle query_stage_ids _ _ => Ok query_stage_ids
  | _ => Panic "called `Option::unwrap()` on a `None` value"
  end.

Definition roundtrip_operator (plan : ExecutionPlan) : Result ExecutionPlan :=
  let? proto := exec_to_proto plan in
  let? result_exec_plan := proto_to_exec proto in
  Ok result_exec_plan.

(** The test, from the physical plan of its query on. *)
Definition planner_test (job_uuid : string) (plan : ExecutionPlan) : Result unit :=
  let? planner := DistributedPlanner_try_new [mkExecutorMeta "" "" 0] in
  let? planned := plan_query_stages planner job_uuid plan in
  let stages := planned.1 in
  let? _ := rmapM (λ stage, format_plan (stage_plan stage) 0) stages in
  let? stage2 := unwrap "index out of bounds" (stages !! 2%nat) in
  let? sort := first_child (stage_plan stage2) in
  let? sort := downcast_exec is_sort sort in
  let? projection := first_child sort in
  let? projection := downcast_exec is_projection projection in
  let? final_hash := first_child projection in
  let? final_hash := downcast_exec is_hash_aggregate final_hash in
  let? unresolved_shuffle := first_child final_hash in
  let? query_stage_ids := query_stage_ids_of unresolved_shuffle in
  let? _ := assert_eq query_stage_ids [2]%Z in
  let? stage1 := unwrap "index out of bounds" (stages !! 1%nat) in
  let? merge_exec := first_child (stage_plan stage1) in
  let? merge_exec := downcast_exec is_merge merge_exec in
  let? unresolved_shuffle := first_child merge_exec in
  let? query_stage_ids := query_stage_ids_of unresolved_shuffle in
  let? _ := assert_eq query_stage_ids [1]%Z in
  let? stage0 := unwrap "index out of bounds" (stages !! 0%nat) in
  let? partial_hash := first_child (stage_plan stage0) in
  let? partial_hash_serde := roundtrip_operator partial_hash in
  let? partial_hash := downcast_exec is_hash_aggregate partial_hash in
  let? partial_hash_serde := downcast_exec is_hash_aggregate partial_hash_serde in
  assert_eq (debug partial_hash) (debug partial_hash_serde).
End tests.
End planner_tests.

Section planner_test.
Context `{PhysicalPlanner} `{ExprBuildersOk} `{ExecutionPlanMethods} `{!WithNewChildrenOk} `{PlanText}.
Context `{Debug ExecutionPlan}.

(** The physical plan of the test's query, as the comment in the test shows
    it: a scan that is aggregated, merged, aggregated again, projected and
    sorted. *)
Section query.
Context (groups : list (PhysicalExpr * string)) (aggs : list AggregateExpr) (input_schema : Schema).
Context (projections : list (PhysicalExpr * string)) (sorts : list PhysicalSortExpr) (scan_op : PlanOp).

Definition scan : ExecutionPlan := Exec scan_op [].

Definition partial_aggregate : ExecutionPlan := Exec (X_HashAggregate Partial groups aggs input_schema) [scan].
Definition final_aggregate (child : ExecutionPlan) : ExecutionPlan :=
  Exec (X_Sort sorts) [Exec (X_Projection projections) [Exec (X_HashAggregate Final groups aggs input_schema) [child]]].
Definition query_plan : ExecutionPlan := final_aggregate (Exec X_Merge [partial_aggregate]).

(** What DataFusion documents of the operators: a merge, a sort and a final
    aggregation have one partition, a projection those of its input. *)
Definition partitioning_ok : Prop :=
  (∀ cs, df_partition_count X_Merge cs = 1%Z) ∧ (∀ cs, df_partition_count (X_Sort sorts) cs = 1%Z) ∧
  (∀ cs, df_partition_count (X_HashAggregate Final groups aggs input_schema) cs = 1%Z) ∧
  (∀ c, df_partition_count (X_Projection projections) [c] = partition_count c).

(** The operators of the query have a text. *)
Definition texts_ok : Prop :=
  is_ok (rmapM format_agg_expr aggs) = true ∧ is_ok (operator_str scan) = true ∧
  ∀ cs, is_ok (operator_str (Exec (X_Sort sorts) cs)) = true ∧ is_ok (operator_str (Exec (X_Projection projections) cs)) = true.

(** The stages the comment in the test expects. *)
Definition query_stages (job : string) : list QueryStageExec :=
  let stage1 := mkQueryStageExec job 1 partial_aggregate in
  let stage2 := mkQueryStageExec job 2 (Exec X_Merge [unresolved_for stage1]) in
  [stage1; stage2; mkQueryStageExec job 3 (final_aggregate (unresolved_for stage2))].

Lemma query_planned_as_expected job executors :
  partitioning_ok →
  plan_query_stages (mkDistributedPlanner executors 0) job query_plan =
    Ok (query_stages job, mkDistributedPlanner executors 3).
Proof.
  intros (Hm & Hs & Ha & Hp).
  unfold plan_query_stages, query_plan, final_aggregate, partial_aggregate, scan. simpl.
  unfold split_at_operator. simpl. unfold keep_children, cut_children, stage_per_child, with_new_children. simpl.
  repeat (rewrite with_new_children_ok by done; simpl).
  repeat (rewrite ?Hs, ?Hp, ?Ha; simpl; rewrite ?with_new_children_ok by done; simpl).
  done.
Qed.

Lemma texts_format job :
  texts_ok → is_ok (rmapM (λ stage, format_plan (stage_plan stage) 0) (query_stages job)) = true.
Proof.
  intros (Ha & Hs & Ht). rewrite rmapM_is_ok. apply Forall_forallb.
  assert (∀ m cs, is_ok (operator_str (Exec (X_HashAggregate m groups aggs input_schema) cs)) = true) as Hagg.
  { intros m cs. unfold operator_str. simpl. by destruct (rmapM format_agg_expr aggs). }
  repeat constructor; apply format_plan_is_ok; intros d q Hq; simpl in Hq;
    repeat (apply elem_of_cons in Hq as [[= -> ->]|Hq]; [by auto; apply Ht|]); by apply not_elem_of_nil in Hq.
Qed.

(** The test of the planner passes for every plan of the query's shape: three
    stages, of which the last reads the second and the second the first, and
    the partial aggregation survives the messages. *)
Theorem planner_test_passes job :
  partitioning_ok → texts_ok → built_exec partial_aggregate → planner_tests.planner_test job query_plan = Ok ().
Proof.
  intros Hpart Htext Hbuilt. unfold planner_tests.planner_test. simpl DistributedPlanner_try_new. cbn match.
  rewrite query_planned_as_expected by done. cbn [fst].
  pose proof (texts_format job Htext) as Hf.
  destruct (rmapM (λ stage, format_plan (stage_plan stage) 0) (query_stages job)); [|done..]. clear Hf. simpl.
  destruct (exec_trip _ Hbuilt) as (q & Hq & Hd). unfold planner_tests.roundtrip_operator. rewrite Hq, Hd. simpl.
  apply assert_eq_refl.
Qed.
End query.
End planner_test.
