(* ===== verification/Queries.v ===== *)
(** * The query behind a stage

    In every run of the system (System.v), the plan of a stage in the store is
    a stage the planner made of the physical plan of the job's query.  The
    queries are remembered here, beside the system: one entry per job whose
    planning has started. *)

From S2P Require Import Prelude Keys Proto Arrow Scalar Expr LogicalPlan SchedTypes ExecPlan.
From S2P Require Import Planner Slicing Physical Backend Utils Batch State Assign Server Flight Execution.
From S2P Require Import Cluster Refine Planning Shared.
From S2P Require Import Leases Executor System.

Abbreviation meta_of ex := (executor_meta_from_proto (ex_metadata ex)).

Section queries.
Context {S : Type} `{BackendOk S}.
Context `{Codec} `{!MessageOk PPhysicalPlanNode}.
Context `{PhysicalPlanner} `{ExprBuildersOk} `{ExecutionPlanMethodsOk} `{!WithNewChildrenOk}.
Context `{!InterfaceOk} `{!ConstructorsOk}.
Context `{HashOrderOk} `{ErrorText} {DFSchema : Type} `{DataFusion DFSchema} `{QueryContext DFSchema}.
Context (ns : string) (ns_slash_free : slash_free ns).
Context (g : LockGuard) (g_unlocks : g = OwnedMutexGuard ∨ g = EtcdLockGuard (Ok ())).
Context (R : Regime (S := S)) (HR : regular ns R).
Implicit Types (sys : System (S := S) (DFSchema := DFSchema)) (pl : list (string * Planning DFSchema)) (c : Cluster) (qs : gmap string Query).

(** The query of a job: what a client sent was parsed, DataFusion made a
    physical plan of it, and the planner cut that into the stages. *)
Definition query_planned (job : string) (q : Query) : Prop :=
  ∃ query (plan : LogicalPlan DFSchema) executors, parse_query query = Ok plan ∧ planned_query job plan executors q.

(** The plans of the store are stages of the queries. *)
Definition plans_known c qs : Prop :=
  ∀ job st p, cl_plans c !! (job, st) = Some p →
    ∃ q s, qs !! job = Some q ∧ s ∈ q_stages q ∧ qs_stage_id s = st ∧ p = qs_child s.

(** Every partition of a stage of a query is a task, or about to be one. *)
Definition tasks_known pl c qs : Prop :=
  ∀ job q s pt, qs !! job = Some q → s ∈ q_stages q → pt ∈ stage_partitions s →
    is_Some (cl_tasks c !! (job, qs_stage_id s, pt)) ∨
    ∃ ws, (job, PWrites ws) ∈ pl ∧ WriteTask s pt ∈ ws.

(** The planning tasks and the queries: a queued job has no entry yet, a job
    that is being written has one and writes stages of it, jobs with an entry
    are never forgotten, and the stages and tasks in the store are those of
    their job's query. *)
Record queries_inv pl c qs : Prop := {
  qn_queued job plan executors : (job, PQueued plan executors) ∈ pl →
    (∃ query, parse_query query = Ok plan) ∧ qs !! job = None;
  qn_writes job ws : (job, PWrites ws) ∈ pl →
    ∃ q, qs !! job = Some q ∧ ∀ s, WritePlan s ∈ ws → s ∈ q_stages q;
  qn_jobs job q : qs !! job = Some q → query_planned job q ∧ r_admits R q ∧ ∃ ws, (job, PWrites ws) ∈ pl;
  qn_plans : plans_known c qs;
  qn_tasks : tasks_known pl c qs;
}.

(** Steps that record no new task or plan. *)
Lemma queries_frame pl c c' qs : (∀ job, job_frame job c c') → queries_inv pl c qs → queries_inv pl c' qs.
Proof.
  intros Hf [Hq Hw Hj Hp Ht]. split; try done.
  - intros job st p. destruct (Hf job) as [_ ->]. apply Hp.
  - intros job q s pt Hqs Hs Hpt. destruct (Ht job q s pt Hqs Hs Hpt) as [?|?]; [left|by right].
    by apply (job_frame_is_Some _ _ _ _ _ (Hf job)).
Qed.

Lemma plans_known_mono c qs qs' : qs ⊆ qs' → plans_known c qs → plans_known c qs'.
Proof.
  intros Hsub Hp job st p (q & s & Hq & ?)%Hp. exists q, s. split; [by eapply lookup_weaken|done].
Qed.

Lemma plan_writes_task s pt stages : s ∈ stages → pt ∈ stage_partitions s → WriteTask s pt ∈ plan_writes stages.
Proof.
  intros Hs Hpt. apply list_elem_of_In, in_flat_map. exists s. rewrite <-!list_elem_of_In. split; [done|].
  right. by apply list_elem_of_fmap_2.
Qed.

Lemma plan_writes_stage s stages : WritePlan s ∈ plan_writes stages → s ∈ stages.
Proof.
  unfold plan_writes. intros (x & Hx & Hs)%list_elem_of_In%in_flat_map. apply list_elem_of_In in Hx, Hs.
  apply elem_of_cons in Hs as [[= ->]|Hs]; [done|]. by apply list_elem_of_fmap in Hs as (? & ? & _).
Qed.

(** An entry of the planning, after one of them is replaced. *)
Lemma planning_replaced (job job' : string) (x x' y : Planning DFSchema) l1 l2 :
  NoDup (l1 ++ (job, x) :: l2).*1 → (job', y) ∈ l1 ++ (job, x') :: l2 →
  (job' = job ∧ y = x') ∨ (job' ≠ job ∧ (job', y) ∈ l1 ++ (job, x) :: l2).
Proof.
  intros Hnd [[= -> ->]|Hin]%elem_of_middle; [by left|]. right. split; [|apply elem_of_middle; by right].
  intros ->. assert (NoDup ((job, x) :: l1 ++ l2).*1) as Hnd' by (by rewrite Permutation_middle).
  csimpl in Hnd'. apply NoDup_cons in Hnd' as [Hni _]. apply Hni. by apply (list_elem_of_fmap_2 fst) in Hin.
Qed.

Lemma in_middle {A} (x : A) l1 l2 : x ∈ l1 ++ x :: l2.
Proof. apply elem_of_middle. by left. Qed.

Section step.
Context (c : Cluster) (qs : gmap string Query).

(** A query is accepted. *)
Lemma queries_accept pl job query plan executors js :
  job ∉ pl.*1 → parse_query query = Ok plan → queries_inv pl c qs →
  queries_inv ((job, PQueued plan executors) :: pl) (set_job job js c) qs.
Proof.
  intros Hni Hparse [Hq Hw Hj Hp Ht]. split; [| | |done|].
  - intros job' plan' executors' [[= -> -> ->]|Hin]%elem_of_cons; [|by eapply Hq].
    split; [eauto|]. destruct (qs !! job) as [q|] eqn:E; [|done]. destruct (Hj job q E) as (_ & _ & ws & Hin).
    destruct Hni. by apply (list_elem_of_fmap_2 fst) in Hin.
  - intros job' ws [?|Hin]%elem_of_cons; [done|]. by apply Hw.
  - intros job' q Hq'. destruct (Hj job' q Hq') as (? & ? & ws & ?). split; [done|]. split; [done|]. exists ws. by right.
  - intros job' q s pt Hq' Hs Hpt. destruct (Ht job' q s pt Hq' Hs Hpt) as [?|(ws & ? & ?)]; [by left|].
    right. exists ws. split; [by right|done].
Qed.

(** Its planning starts to write. *)
Lemma queries_plan l1 job plan executors l2 q js :
  let pl := l1 ++ (job, PQueued plan executors) :: l2 in
  NoDup pl.*1 → queries_inv pl c qs → query_planned job q → r_admits R q →
  queries_inv (l1 ++ (job, PWrites (plan_writes (q_stages q))) :: l2) (set_job job js c) (<[job := q]> qs).
Proof.
  intros pl Hnd [Hq Hw Hj Hp Ht] Hplan Hadm.
  assert (qs !! job = None) as Hnone by (by apply (Hq job plan executors), in_middle). split.
  - intros job' plan' executors' [[_ ?]|[Hne Hin]]%(planning_replaced _ _ _ _ _ _ _ Hnd); [done|].
    rewrite lookup_insert_ne by done. by eapply Hq.
  - intros job' ws [[-> [= ->]]|[Hne Hin]]%(planning_replaced _ _ _ _ _ _ _ Hnd).
    + exists q. rewrite lookup_insert_eq. split; [done|]. intros x. apply plan_writes_stage.
    + rewrite lookup_insert_ne by done. by apply Hw.
  - intros job' q' [[<- <-]|[Hne Hq']]%lookup_insert_Some; [split; [done|split; [done|eexists; apply in_middle]]|].
    destruct (Hj job' q' Hq') as (? & ? & ws & Hin). split; [done|]. split; [done|]. exists ws.
    apply elem_of_middle in Hin as [[= _ ?]|?]. apply elem_of_middle. by right.
  - by eapply plans_known_mono; [apply insert_subseteq|].
  - intros job' q' x pt [[<- <-]|[Hne Hq']]%lookup_insert_Some Hx Hpt.
    + right. eexists. split; [apply in_middle|by apply plan_writes_task].
    + destruct (Ht job' q' x pt Hq' Hx Hpt) as [?|(ws & Hin & ?)]; [by left|]. right. exists ws. split; [|done].
      apply elem_of_middle in Hin as [[= _ ?]|?]. apply elem_of_middle. by right.
Qed.

(** A query that cannot be planned is dropped. *)
Lemma queries_drop l1 job plan executors l2 :
  queries_inv (l1 ++ (job, PQueued plan executors) :: l2) c qs → queries_inv (l1 ++ l2) c qs.
Proof.
  intros [Hq Hw Hj Hp Ht]. split; [| | |done|].
  - intros job' plan' executors' Hin. apply (Hq job' plan' executors'), elem_of_middle. by right.
  - intros job' ws Hin. apply (Hw job' ws), elem_of_middle. by right.
  - intros job' q Hq'. destruct (Hj job' q Hq') as (? & ? & ws & Hin). split; [done|]. split; [done|]. exists ws.
    by apply elem_of_middle in Hin as [[= _ ?]|?].
  - intros job' q' x pt Hq' Hx Hpt. destruct (Ht job' q' x pt Hq' Hx Hpt) as [?|(ws & Hin & ?)]; [by left|].
    right. exists ws. split; [|done]. by apply elem_of_middle in Hin as [[= _ ?]|?].
Qed.

(** One write is done. *)
Lemma queries_write l1 job w ws l2 :
  let pl := l1 ++ (job, PWrites (w :: ws)) :: l2 in
  NoDup pl.*1 → queries_inv pl c qs → write_new job w c →
  queries_inv (l1 ++ (job, PWrites ws) :: l2) (write_cluster job w c) qs.
Proof.
  intros pl Hnd [Hq Hw Hj Hp Ht] Hnew. destruct (Hw job (w :: ws)) as (q0 & Hq0 & Hws); [apply in_middle|]. split.
  - intros job' plan' executors' [[_ ?]|[_ Hin]]%(planning_replaced _ _ _ _ _ _ _ Hnd); [done|]. by eapply Hq.
  - intros job' ws' [[-> [= ->]]|[_ Hin]]%(planning_replaced _ _ _ _ _ _ _ Hnd); [|by apply Hw].
    exists q0. split; [done|]. intros x Hx. apply Hws. by right.
  - intros job' q Hq'. destruct (Hj job' q Hq') as (? & ? & ws' & Hin). split; [done|]. split; [done|].
    destruct (decide (job' = job)) as [->|Hne]; [exists ws; apply in_middle|].
    exists ws'. apply elem_of_middle in Hin as [[= ? _]|?]; [done|]. apply elem_of_middle. by right.
  - destruct w as [stage|stage pt]; [|done]. intros job' st p. simpl.
    intros [[[= <- <-] <-]|[_ Hx]]%lookup_insert_Some; [|by apply Hp]. exists q0, stage.
    split_and!; [done|apply Hws; by left|done..].
  - intros job' q x pt Hq' Hx Hpt. pose proof (extends_write job w c Hnew) as Hext.
    destruct (Ht job' q x pt Hq' Hx Hpt) as [?|(ws' & Hin & Hxs)]; [left; by apply (ext_recorded _ _ _ Hext)|].
    apply elem_of_middle in Hin as [[= -> ->]|Hin].
    + apply elem_of_cons in Hxs as [<-|Hxs]; [left; simpl; rewrite lookup_insert_eq; eauto|].
      right. exists ws. split; [apply in_middle|done].
    + right. exists ws'. split; [apply elem_of_middle; by right|done].
Qed.
End step.

(** A step of a planning task keeps the queries, and may add one. *)
Lemma queries_effect pl c pl' c' qs :
  planning_inv c pl → queries_inv pl c qs → planning_effect (r_admits R) pl c pl' c' →
  ∃ qs', qs ⊆ qs' ∧ queries_inv pl' c' qs'.
Proof.
  intros [Hnd _] Hi He. destruct He as [pl c job query plan executors Hni Hparse _
    |l1 job plan executors l2 q c Hplan Hadm _|l1 job plan executors l2 js c _ _|l1 job plan executors l2 c|l1 job w ws l2 c Hnew].
  - exists qs. split; [done|]. by eapply queries_accept.
  - destruct (qn_queued _ _ _ Hi _ _ _ (in_middle _ _ _)) as [[query Hparse] Hnone].
    exists (<[job := q]> qs). split; [by apply insert_subseteq|]. eapply queries_plan; [exact Hnd|exact Hi| |done].
    by exists query, plan, executors.
  - exists qs. split; [done|]. eapply queries_frame; [|by eapply queries_drop]. done.
  - exists qs. split; [done|]. by eapply queries_drop.
  - exists qs. split; [done|]. by apply queries_write.
Qed.

(** What a poll keeps of the queries, with what is planned meanwhile. *)
Definition queries_from qs c pl : Prop := ∃ qs', qs ⊆ qs' ∧ queries_inv pl c qs'.

Lemma queries_from_effect qs c pl c' pl' :
  planning_inv c pl → queries_from qs c pl → planning_effect (r_admits R) pl c pl' c' → queries_from qs c' pl'.
Proof.
  intros Hpl (qs1 & Hsub & Hq) He. destruct (queries_effect _ _ _ _ _ Hpl Hq He) as (qs' & ? & ?).
  exists qs'. split; [by etransitivity|done].
Qed.
Lemma queries_from_frame qs c c' pl : (∀ job, job_frame job c c') → queries_from qs c pl → queries_from qs c' pl.
Proof. intros Hf (qs' & ? & ?). exists qs'. split; [done|]. by eapply queries_frame. Qed.

(** Every step keeps the system and the queries, and may add some. *)
Lemma queries_step sys ts sys' c qs :
  full_inv ns sys c → queries_inv (sys_planning sys) c qs → system_step ns g R sys ts sys' →
  ∃ c' qs', full_inv ns sys' c' ∧ started (sys_executors sys) ts c c' ∧ qs ⊆ qs' ∧ queries_inv (sys_planning sys') c' qs'.
Proof.
  intros Hf Hq Hstep. assert (queries_from qs c (sys_planning sys)) as HJ by (by exists qs).
  destruct Hstep as [held s l1 ex l2 pl others req ex1 answer held' s' pl' others' ex2 Hreq Hoth Hpoll Hresp
    |held s l1 ex l2 pl others req ex1 answer held' s' pl' others' e ex2 Hlost
    |held s l1 ex l2 pl before after pid err Hrun|held s exs pl s' pl' Hstep|held s exs pl meta n Hid|held s exs pl e s' He Hs Hh|]; simpl in *.
  - destruct (full_poll ns ns_slash_free g g_unlocks R HR (queries_from qs) (queries_from_effect qs) (queries_from_frame qs)
      _ _ _ _ _ _ _ _ _ _ _ _ _ _ _ c Hreq Hoth Hpoll Hresp Hf HJ) as (c' & Hf' & (qs' & Hsub & Hq') & Hst). by exists c', qs'.
  - by destruct (regular_answers _ _ HR).
  - exists c, qs. split_and!; [|apply started_refl|done..]. destruct Hf. split; [by apply inv_finish|done].
  - destruct (full_plan ns ns_slash_free R HR _ _ _ _ _ _ _ Hstep Hf) as (c' & Hf' & He & Hext).
    destruct (queries_effect _ _ _ _ _ (full_planning _ _ _ Hf) Hq He) as (qs' & Hsub & Hq').
    exists c', qs'. split_and!; try done. apply started_extends, Hext.
  - exists c, qs. split_and!; [|apply started_refl|done..]. destruct Hf. split; [by apply inv_join|done].
  - exists (expire e c), qs. split_and!; [by eapply full_expire; [..|apply (regular_leases _ _ HR)|]| |done|by eapply queries_frame; [|exact Hq]].
    by destruct (started_refl exs c); split.
  - by pose proof (inv_held _ _ _ (full_sys _ _ _ Hf)).
Qed.

Lemma queries_start c : cl_plans c = ∅ → queries_inv [] c ∅.
Proof.
  intros Hp. split; simpl; try (by intros * ?%not_elem_of_nil); [done| |by intros job q]. intros job st p. by rewrite Hp.
Qed.

(** ** The query of a stage *)

(** What is known of the plan of a stage in the store. *)
Lemma stage_query pl c qs job st p :
  queries_inv pl c qs → cl_plans c !! (job, st) = Some p →
  ∃ q s part, qs !! job = Some q ∧ query_planned job q ∧ p = qs_child s ∧ stage_fits s ∧
    let m := rebuild_stages ∅ (q_stages q) in
    stages_mean (q_stages q) m ∧ reads (q_stages q) p ∧ reads_once s ∧ m !! st = Some part ∧ rebuild m p = Some part.
Proof.
  intros Hq Hp. destruct (qn_plans _ _ _ Hq _ _ _ Hp) as (q & s & Hj & Hs & <- & ->).
  destruct (qn_jobs _ _ _ Hq _ _ Hj) as (Hplanned & [Hdf Hfit]%(regular_queries _ _ HR) & _).
  pose proof Hplanned as (query & plan & executors & _ & optimized & planner' & _ & _ & _ & Hst).
  destruct (plan_query_stages_rebuilds _ _ _ _ _ Hdf Hst) as (_ & Hd & Hm & _ & Ho & _).
  destruct (Hm s Hs) as (part & Hpart & Hreb & _). exists q, s, part. rewrite Forall_forall in Hfit, Ho.
  split_and!; auto. cbv zeta. split_and!; auto. by apply deps_reads.
Qed.

(** The inputs of a plan are read where they were completed. *)
Definition inputs_located (exs : list Executor) c (job : string) (p : ExecutionPlan) (locs : gmap Z (list PartitionLocation)) : Prop :=
  ∀ stage, Forall2 (λ part l, pl_partition_id l = mkPartitionId job stage part ∧
      cl_tasks c !! (job, stage, part) = Some (Some (TS_Completed (em_id (pl_executor_meta l)))) ∧
      known exs (pl_executor_meta l))
    (parts_of stage (inputs_of p)) (default [] (locs !! stage)).
(** The plan that was received for a task is the plan of its stage with the
    shuffles resolved. *)
Definition plan_sent (exs : list Executor) c (t : TaskId) (plan : ExecutionPlan) : Prop :=
  ∃ p locs, cl_plans c !! t.1 = Some p ∧ plan = resolve locs p ∧ inputs_located exs c t.1.1 p locs.


(** The locations of the inputs fit the messages. *)
Lemma inputs_fit s exs c job p locs : rep ns s c → inputs_located exs c job p locs → locations_fit locs p.
Proof.
  intros Hr Hl id _. specialize (Hl id). apply Forall_forall. intros l [i Hi]%list_elem_of_lookup.
  destruct (Forall2_lookup_r _ _ _ _ _ Hl Hi) as (part & _ & Hpid & Ht & (ex & _ & Hmeta)).
  split; [|rewrite Hmeta; apply meta_of_wf]. rewrite Hpid.
  by destruct (rep_task_at _ _ _ _ _ Hr Ht) as ((_ & ? & ?) & _).
Qed.

(** The inputs of a task that is handed out, after the poll. *)
Lemma handed_inputs exs c ex job p locs c' t own exs' :
  flight_inv exs c → ex ∈ exs → (∀ m, known exs m → known exs' m) →
  let c1 := reported c (meta_of ex) (ex_channel ex) in
  cl_tasks c1 !! t = Some None → cl_tasks c' = <[t := Some (TS_Running own)]> (cl_tasks c1) →
  (∀ stage, Forall2 (λ part l, pl_partition_id l = mkPartitionId job stage part ∧
      cl_tasks c1 !! (job, stage, part) = Some (Some (TS_Completed (em_id (pl_executor_meta l)))) ∧
      cl_executors c1 !! em_id (pl_executor_meta l) = Some (pl_executor_meta l))
    (parts_of stage (inputs_of p)) (default [] (locs !! stage))) →
  inputs_located exs' c' job p locs.
Proof.
  intros Hi Hex Hk c1 Hpend Ht Hl stage. eapply Forall2_impl; [exact (Hl stage)|].
  intros part l (Hpid & Hc & Hm). split_and!; [done| |].
  - rewrite Ht, lookup_insert_ne; [done|]. intros ->. congruence.
  - apply Hk. unfold c1 in Hm. rewrite reported_executors in Hm.
    apply lookup_insert_Some in Hm as [[_ <-]|[_ Hm]]; [by exists ex|]. by destruct (inv_known _ _ Hi _ _ Hm).
Qed.

Lemma inputs_located_extends exs c c' job p locs :
  work_extends c c' → inputs_located exs c job p locs → inputs_located exs c' job p locs.
Proof.
  intros Hw Hl stage. eapply Forall2_impl; [exact (Hl stage)|]. intros part l (? & Hc & ?).
  split_and!; [done|by apply (ext_tasks _ _ Hw)|done].
Qed.

(** The plan of a stage of the query of its job. *)
Definition stage_of_query (stage : string * Z) (p : ExecutionPlan) : Prop :=
  ∃ q s, query_planned stage.1 q ∧ s ∈ q_stages q ∧ qs_stage_id s = stage.2 ∧ p = qs_child s.

(** The plan a poll is answered with is the plan of the task's stage, and an
    executor decodes it. *)
Definition plan_handed sys c' (task : option TaskDefinition) : Prop :=
  ∀ task', task = Some task' → ∃ pid q p locs, task' = mkTaskDefinition (Some pid) (Some q) ∧
    proto_to_exec q = Ok (resolve locs p) ∧ cl_plans c' !! (task_of pid).1 = Some p ∧ stage_of_query (task_of pid).1 p ∧
    ∀ exs', (∀ m, known (sys_executors sys) m → known exs' m) → inputs_located exs' c' (task_of pid).1.1 p locs.

Lemma handed_plan sys c qs ex req ex1 others :
  full_inv ns sys c → queries_inv (sys_planning sys) c qs → ex ∈ sys_executors sys →
  poll_request ex = (req, ex1) → Forall (by_planning ns (r_admits R)) others →
  ∃ task sh' c', poll_work ns (Ok ()) g req (sys_held sys, (((sys_store sys, sys_planning sys), others) : Shared)) =
      Some (Ok (mkPollWorkResult task), (false, sh')) ∧ rep ns sh'.1.1 c' ∧ plan_handed sys c' task.
Proof.
  intros [Hi Hpl] Hq Hex Hreq Hoth. assert (queries_from qs c (sys_planning sys)) as HJ by (by exists qs).
  destruct (poll_answered ns ns_slash_free g g_unlocks R HR (queries_from qs) (queries_from_effect qs) (queries_from_frame qs)
    _ c ex req ex1 others Hi Hpl HJ Hex Hreq Hoth)
    as (task & sh' & c1 & ca & c' & E & Hext & Hout & Hwx & [Hr' Hok' _ (qs' & _ & Hq') _] & _).
  exists task, sh', c'. split_and!; try done. intros task' ->.
  destruct Hout as [(? & _)|(_ & [[job st] pt] & sent & q & [= ->] & Henc & Hrun & Hsent & (_ & Hw & Hplans))]; [done|].
  assert (flight_inv (sys_executors sys) c1) as Hi1 by (eapply flights_extend; [apply Hext|apply Hi]).
  destruct Hsent as (p & locs & Hp & Hres & _ & Hl). destruct Hrun as [Hpend _]. simpl in Hw, Hplans.
  assert (cl_tasks ca !! (job, st, pt) = Some (Some (TS_Running (em_id (meta_of ex))))) as Hta
    by (rewrite Hw; apply lookup_insert_eq).
  pose proof (λ exs' Hk, inputs_located_extends _ _ _ _ _ _ Hwx
    (handed_inputs _ c1 ex job p locs ca _ _ exs' Hi1 Hex Hk Hpend Hw Hl)) as Hin.
  assert (cl_plans c' !! (job, st) = Some p) as Hp'.
  { rewrite (ext_plans _ _ Hwx job st pt), Hplans by (rewrite Hta; eauto). done. }
  exists (mkPPartitionId job st pt), q, p, locs. split_and!; try done.
  2: { destruct (qn_plans _ _ _ Hq' _ _ _ Hp') as (query & s & Hj & Hs & Hid & ->).
    destruct (qn_jobs _ _ _ Hq' _ _ Hj) as [Hplanned _]. by exists query, s. }
  destruct (stage_query _ _ _ _ _ _ Hq' Hp') as (query & s & ? & ? & ? & -> & Hfit & ? & Hr & ?).
  pose proof (inputs_fit _ _ c' job _ locs Hr' (Hin _ (λ m Hm, Hm))) as Hlf. destruct Hfit as ([Hb _] & Hroot & _).
  destruct (ok_plan _ Hok' job st pt _ (ext_tasks _ _ Hwx _ _ Hta)) as (p' & Hp2 & Hok).
  rewrite Hp' in Hp2. injection Hp2 as <-. destruct (stage_resolved locs _ sent Hok Hres) as [-> _].
  destruct (resolve_sent locs _ Hb (proj1 Hr) Hlf) as (q2 & Eq & Ep & _). rewrite Henc in Eq. by injection Eq as <-.
Qed.

(** The executor takes that answer. *)
Lemma handed_accepted sys c' task ex :
  plan_handed sys c' task →
  ∃ ex2, poll_response (poll_request ex).2 (Ok (mkPollWorkResult task)) = Ok ex2 ∧
    task_of <$> ex_running ex2 = (task_of <$> ex_running ex) ++ answer_tasks (Ok (mkPollWorkResult task)).
Proof.
  intros Hh. rewrite poll_request_eq. destruct task as [task|].
  - destruct (Hh task eq_refl) as (pid & q & p & locs & -> & Hplan & _).
    eexists. cbn [poll_response pwr_task]. unfold run_received_tasks. cbn [td_task_id td_plan unwrap]. rewrite Hplan.
    split; [done|]. simpl. by rewrite fmap_app.
  - eexists. split; [done|]. simpl. by rewrite app_nil_r.
Qed.

Lemma reachable_queries sys trace :
  reachable ns g R sys trace → ∃ c qs, full_inv ns sys c ∧ queries_inv (sys_planning sys) c qs.
Proof.
  induction 1 as [s Hs|sys trace ts sys' _ (c & qs & Hf & Hq) Hstep].
  - exists empty_cluster, ∅. split; [by apply empty_full|by apply queries_start].
  - destruct (queries_step _ _ _ c qs Hf Hq Hstep) as (c' & qs' & ? & _ & _ & ?). eauto.
Qed.

(** ** Properties *)

(** C6 — What a poll of a regular run sends reaches the executor as it is meant:
    the executor can take the answer, also to a poll that planning tasks
    disturb, and runs the task in it, if any, beside those it has; the plan it
    decodes from the answer is that of a stage of the query of the task's job,
    with every shuffle replaced by a reader of the partitions it stands for, each
    at the executor that completed it.  (That the plan of the stage itself
    survives its encoding is a condition on the run; the plan that is sent is
    another one, with the locations in it.) *)
Theorem polls_accepted sys trace ex others :
  reachable ns g R sys trace → ex ∈ sys_executors sys → Forall (by_planning ns (r_admits R)) others →
  ∃ task sh' ex' c', poll_work ns (Ok ()) g (poll_request ex).1
      (sys_held sys, (((sys_store sys, sys_planning sys), others) : Shared)) =
      Some (Ok (mkPollWorkResult task), (false, sh')) ∧ rep ns sh'.1.1 c' ∧
    poll_response (poll_request ex).2 (Ok (mkPollWorkResult task)) = Ok ex' ∧
    task_of <$> ex_running ex' = (task_of <$> ex_running ex) ++ answer_tasks (Ok (mkPollWorkResult task)) ∧
    ∀ task', task = Some task' → ∃ pid m p locs, task' = mkTaskDefinition (Some pid) (Some m) ∧
      proto_to_exec m = Ok (resolve locs p) ∧ stage_of_query (task_of pid).1 p ∧
      inputs_located (sys_executors sys) c' (task_of pid).1.1 p locs.
Proof.
  intros (c & qs & Hf & Hq)%reachable_queries Hex Hoth.
  destruct (handed_plan sys c qs ex _ _ others Hf Hq Hex (surjective_pairing _) Hoth)
    as (task & sh' & c' & E & Hr & Hh). destruct (handed_accepted sys c' task ex Hh) as (ex2 & Hresp & Hrun).
  exists task, sh', ex2, c'. split_and!; try done. intros task' Ht.
  destruct (Hh task' Ht) as (pid & m & p & locs & -> & Hd & _ & Hst & Hin). exists pid, m, p, locs. auto.
Qed.
End queries.
