(* ===== verification/Completion.v ===== *)
(** * Every job can be completed

    From every system reached by a regular run (System.v) in which no task failed, some
    continuation completes all tasks: as long as one is not complete, there is
    a poll or the end of a task that brings the system closer to that.  Such a
    continuation plans nothing and needs the executors the system has. *)

From S2P Require Import Prelude Keys Proto Arrow Scalar Expr LogicalPlan SchedTypes ExecPlan.
From S2P Require Import Planner Slicing Physical Backend Utils Batch State Assign Server Flight Execution.
From S2P Require Import Cluster Refine Planning Shared Leases Executor System Queries.

Abbreviation meta_of ex := (executor_meta_from_proto (ex_metadata ex)).

(** The tasks that are pending. *)
Definition pending_count (c : Cluster) : nat := size (filter (λ x, x.2 = None) (cl_tasks c)).
(** What is left to do: a pending task is handed out, ends, and is reported. *)
Definition left_to_do (exs : list Executor) (c : Cluster) : nat :=
  (3 * pending_count c + 2 * running_count exs + channel_count exs)%nat.

(** No task failed, neither in the store nor on its way to it. *)
Definition healthy (exs : list Executor) (c : Cluster) : Prop :=
  (∀ t e, cl_tasks c !! t ≠ Some (Some (TS_Failed e))) ∧
  ∀ ex t e, ex ∈ exs → task_message t (Some (TS_Failed e)) ∉ ex_channel ex.

(** An executor that can run tasks, and lost no slot. *)
Definition usable (ex : Executor) : Prop := ∃ n, in_u 64 n ∧ (0 < n)%Z ∧ slots_ok n 0 ex.

(** Every executor polls and ends tasks; nothing else changes. *)
Section completion.
Context {S : Type} `{BackendOk S}.
Context `{Codec} `{!MessageOk PPhysicalPlanNode}.
Context `{PhysicalPlanner} `{ExprBuildersOk} `{ExecutionPlanMethodsOk} `{!WithNewChildrenOk}.
Context `{!InterfaceOk} `{!ConstructorsOk}.
Context `{HashOrderOk} `{ErrorText} {DFSchema : Type} `{DataFusion DFSchema} `{QueryContext DFSchema}.
Context (ns : string) (ns_slash_free : slash_free ns).
Context (g : LockGuard) (g_unlocks : g = OwnedMutexGuard ∨ g = EtcdLockGuard (Ok ())).
Context (R : Regime (S := S)) (HR : regular ns R).
Implicit Types (sys : System (S := S) (DFSchema := DFSchema)) (c : Cluster) (qs : gmap string Query).

(** A continuation that plans nothing and lets no executor join. *)
Inductive serves : System (S := S) (DFSchema := DFSchema) → list TaskId → System → Prop :=
| serves_done sys : serves sys [] sys
| serves_step sys ts sys1 more sys2 :
    system_step ns g R sys ts sys1 → sys_planning sys1 = sys_planning sys →
    ex_metadata <$> sys_executors sys1 = ex_metadata <$> sys_executors sys →
    serves sys1 more sys2 → serves sys (ts ++ more) sys2.

Lemma serves_reachable sys more sys' :
  serves sys more sys' → ∀ trace, reachable ns g R sys trace → reachable ns g R sys' (trace ++ more).
Proof.
  induction 1 as [sys|sys ts sys1 more sys2 Hstep _ _ _ IH]; intros trace Hr; [by rewrite app_nil_r|].
  rewrite app_assoc. apply IH. by eapply reach_step.
Qed.

(** ** The pending tasks after a poll *)

Lemma pending_poll exs c ex task c' :
  flight_inv exs c → ex ∈ exs →
  poll_outcome (reported c (meta_of ex) (ex_channel ex)) (meta_of ex) (0 <? ex_slots ex)%Z task c' →
  (pending_count c' + length (answer_tasks (Ok (mkPollWorkResult task))) = pending_count c)%nat.
Proof.
  intros Hi Hex Hout. pose proof (λ t, poll_task exs c ex task c' t Hi Hex Hout) as Ht. unfold pending_count.
  assert (∀ t, t ∉ answer_tasks (Ok (mkPollWorkResult task)) →
    filter (λ x, x.2 = None) (cl_tasks c') !! t = filter (λ x, x.2 = None) (cl_tasks c) !! t) as Hother.
  { intros t Hni. rewrite !map_lookup_filter. destruct (Ht t) as [[-> _]|[(own & r & -> & _ & _ & -> & _)|(own & _ & _ & E)]];
      [done..|]. rewrite E in Hni. destruct Hni. by left. }
  assert (answer_tasks (Ok (mkPollWorkResult task)) = [] ∨ ∃ x, answer_tasks (Ok (mkPollWorkResult task)) = [x]) as [E|[x E]]
    by (destruct task as [[[pid|] ?]|]; simpl; eauto); rewrite E in *; simpl.
  - rewrite Nat.add_0_r. f_equal. apply map_eq. intros t. apply Hother, not_elem_of_nil.
  - assert (filter (λ x, x.2 = None) (cl_tasks c) = <[x := None]> (filter (λ x, x.2 = None) (cl_tasks c'))) as ->.
    { apply map_eq. intros t. destruct (decide (x = t)) as [<-|Hne].
      - rewrite lookup_insert_eq. apply map_lookup_filter_Some.
        destruct (Ht x) as [[_ Hni]|[(? & ? & _ & _ & _ & _ & Hni)|(? & ? & _ & _)]]; [destruct Hni; by left..|done].
      - rewrite lookup_insert_ne by done. symmetry. apply Hother. by intros ->%list_elem_of_singleton. }
    rewrite map_size_insert_None; [lia|]. apply map_lookup_filter_None_2. right. intros o Ho.
    destruct (Ht x) as [[_ Hni]|[(? & ? & _ & _ & _ & _ & Hni)|(? & _ & Hx & _)]]; [destruct Hni; by left..|].
    simpl. congruence.
Qed.

(** No poll makes a task fail that did not. *)
Lemma healthy_poll l1 ex l2 c task ex2 c' :
  let exs := l1 ++ ex :: l2 in
  flight_inv exs c →
  poll_outcome (reported c (meta_of ex) (ex_channel ex)) (meta_of ex) (0 <? ex_slots ex)%Z task c' →
  ex_channel ex2 = [] → healthy exs c → healthy (l1 ++ ex2 :: l2) c'.
Proof.
  intros exs Hi Hout Hch [Hst Hmsg]. assert (ex ∈ exs) as Hex by (apply elem_of_middle; by left). split.
  - intros t e Ht. destruct (poll_task exs c ex task c' t Hi Hex Hout) as [[E _]|[(own & r & _ & Hm & _ & E & _)|(own & _ & E & _)]].
    + apply (Hst t e). congruence.
    + rewrite Ht in E. injection E as <-. by apply (Hmsg ex t e).
    + congruence.
  - intros x t e [->|Hx]%elem_of_middle; [rewrite Hch; apply not_elem_of_nil|].
    apply Hmsg, elem_of_middle. by right.
Qed.

(** ** Steps towards completion *)

(** A poll that nothing disturbs. *)
Lemma serve_poll held s l1 ex l2 pl c qs :
  let sys := mkSystem held s (l1 ++ ex :: l2) pl in
  full_inv ns sys c → queries_inv R pl c qs → Forall usable (l1 ++ ex :: l2) → healthy (l1 ++ ex :: l2) c →
  ∃ task s' ex2 c' qs', let sys' := mkSystem false s' (l1 ++ ex2 :: l2) pl in
    system_step ns g R sys (answer_tasks (Ok (mkPollWorkResult task))) sys' ∧ ex_metadata ex2 = ex_metadata ex ∧
    full_inv ns sys' c' ∧ queries_inv R pl c' qs' ∧ Forall usable (l1 ++ ex2 :: l2) ∧ healthy (l1 ++ ex2 :: l2) c' ∧
    ex_channel ex2 = [] ∧
    length (ex_running ex2) = (length (ex_running ex) + length (answer_tasks (Ok (mkPollWorkResult task))))%nat ∧
    (pending_count c' + length (answer_tasks (Ok (mkPollWorkResult task))) = pending_count c)%nat ∧
    (∀ t, is_Some (cl_tasks c !! t) → is_Some (cl_tasks c' !! t)) ∧
    (answer_tasks (Ok (mkPollWorkResult task)) = [] → (0 < ex_slots ex)%Z → ∀ t, ¬ runnable (reported c (meta_of ex) (ex_channel ex)) t).
Proof.
  intros sys Hf Hq Hus Hh. pose proof Hf as [Hi Hpl]. assert (ex ∈ l1 ++ ex :: l2) as Hex by (apply elem_of_middle; by left).
  destruct (rep_poll_work_locked ns ns_slash_free (meta_of ex) (0 <? ex_slots ex)%Z (ex_channel ex) s c)
    as (task & s' & c1 & E1 & Hr1 & _ & Hout & _);
    [apply meta_of_wf|by apply (inv_ids _ _ Hi)|apply (inv_rep _ _ _ Hi)|apply (inv_ok _ _ _ Hi)|by apply (channel_reports _ _ _ Hi)|].
  assert (poll_work ns (Ok ()) g (poll_request ex).1 (held, (((s, pl), []) : Shared)) =
    Some (Ok (mkPollWorkResult task), (false, ((s', pl), [])))) as E2.
  { rewrite poll_calm. pose proof (inv_held _ _ _ Hi) as Hheld. simpl in Hheld. subst held. rewrite poll_request_eq. unfold poll_work. simpl. simpl in E1. rewrite E1.
    by destruct g_unlocks as [-> | ->]. }
  destruct (handed_plan ns ns_slash_free g g_unlocks R HR sys c qs ex _ _ [] Hf Hq Hex (surjective_pairing _) (Forall_nil_2 _))
    as (task' & sh' & c2 & E3 & _ & Hhand). cbn [sys sys_held sys_store sys_planning] in E3. rewrite E2 in E3. simplify_eq.
  destruct (handed_accepted sys c2 task' ex Hhand) as (ex2 & Hresp & _).
  assert (system_step ns g R sys (answer_tasks (Ok (mkPollWorkResult task'))) (mkSystem false s' (l1 ++ ex2 :: l2) pl)) as Hstep.
  { by eapply sys_poll; [apply surjective_pairing|apply Forall_nil_2|exact E2|]. }
  destruct (queries_step ns ns_slash_free g g_unlocks R HR _ _ _ c qs Hf Hq Hstep) as (c' & qs' & Hf' & Hstarted & _ & Hq').
  assert (cl_tasks c' = cl_tasks c1) as Ht by (eapply rep_tasks_eq; [done|apply (full_sys _ _ _ Hf')|done]).
  destruct (answer_received _ _ _ Hresp) as [Hlen Hch]. rewrite poll_request_eq in Hlen, Hch. simpl in Hlen, Hch.
  destruct (flights_poll l1 ex l2 c _ _ task' ex2 c1 Hi (surjective_pairing _) Hout Hresp) as [_ Hm].
  pose proof (pending_poll _ c ex task' c1 Hi Hex Hout) as Hpend.
  pose proof (healthy_poll l1 ex l2 c task' ex2 c1 Hi Hout Hch Hh) as Hh1.
  exists task', s', ex2, c', qs'. split_and!; try done.
  - apply Forall_app in Hus as [Hu1 [Hu Hu2]%Forall_cons]. apply Forall_app. split; [done|]. constructor; [|done].
    destruct Hu as (n & Hn & Hpos & Hs). exists n. split_and!; [done..|].
    apply (executor_step_slots n 0 ex 0 ex2 Hn Hs). eapply step_poll; [apply surjective_pairing| |exact Hresp].
    intros r task [= <-] Htask. rewrite poll_request_eq. simpl in *.
    by destruct Hout as [(-> & _)|(Hacc & _)].
  - destruct Hh1 as [Hst Hmsg]. split; [by rewrite Ht|done].
  - unfold pending_count in *. by rewrite Ht.
  - apply Hstarted.
  - intros Hna Hslots. destruct Hout as [(-> & _ & Hn)|(_ & [[??]?] & ? & ? & -> & _)]; [|done]. apply Hn. by apply Z.ltb_lt.
Qed.

(** A running task ends without an error. *)
Lemma serve_finish held s l1 ex l2 pl pid rest c :
  let sys := mkSystem held s (l1 ++ ex :: l2) pl in let ex2 := finish_task ex [] rest pid None in
  let sys' := mkSystem held s (l1 ++ ex2 :: l2) pl in
  ex_running ex = pid :: rest → full_inv ns sys c → Forall usable (l1 ++ ex :: l2) → healthy (l1 ++ ex :: l2) c →
  system_step ns g R sys [] sys' ∧ full_inv ns sys' c ∧ Forall usable (l1 ++ ex2 :: l2) ∧ healthy (l1 ++ ex2 :: l2) c.
Proof.
  intros sys ex2 sys' Hrun [Hi Hpl] Hus [Hst Hmsg]. split_and!.
  - by apply sys_finish.
  - split; [by apply inv_finish|done].
  - apply Forall_app in Hus as [Hu1 [Hu Hu2]%Forall_cons]. apply Forall_app. split; [done|]. constructor; [|done].
    destruct Hu as (n & Hn & Hpos & Hs). exists n. split_and!; [done..|].
    apply (executor_step_slots n 0 ex 0 ex2 Hn Hs). by apply step_finish.
  - split; [done|]. intros x t e [->|Hx]%elem_of_middle.
    + simpl. intros [Hin|Hin%list_elem_of_singleton]%elem_of_app; [|by destruct t as [[??]?]].
      apply (Hmsg ex t e); [apply elem_of_middle; by left|done].
    + apply Hmsg, elem_of_middle. by right.
Qed.

(** Where every executor can go on. *)
Record serving sys c qs : Prop := {
  sv_full : full_inv ns sys c;
  sv_queries : queries_inv R (sys_planning sys) c qs;
  sv_usable : Forall usable (sys_executors sys);
  sv_healthy : healthy (sys_executors sys) c;
}.

(** One step brings the system closer to completion. *)
Definition closer sys c : Prop :=
  ∃ ts sys' c' qs', system_step ns g R sys ts sys' ∧ sys_planning sys' = sys_planning sys ∧
    ex_metadata <$> sys_executors sys' = ex_metadata <$> sys_executors sys ∧ serving sys' c' qs' ∧
    (∀ t, is_Some (cl_tasks c !! t) → is_Some (cl_tasks c' !! t)) ∧
    (left_to_do (sys_executors sys') c' < left_to_do (sys_executors sys) c)%nat.

Lemma closer_finish sys c qs ex :
  serving sys c qs → ex ∈ sys_executors sys → ex_running ex ≠ [] → closer sys c.
Proof.
  destruct sys as [held s exs pl]. simpl. intros [Hf Hq Hus Hh] (l1 & l2 & ->)%list_elem_of_split Hrun. simpl in *.
  destruct (ex_running ex) as [|pid rest] eqn:E; [done|].
  destruct (serve_finish held s l1 ex l2 pl pid rest c E Hf Hus Hh) as (Hstep & Hf' & Hus' & Hh').
  eexists _, _, c, qs. split_and!; [exact Hstep|done| |by split|done|].
  - simpl. by rewrite !fmap_app.
  - unfold left_to_do, running_count, channel_count. simpl. rewrite !sum_list_with_app. simpl.
    rewrite E, length_app. simpl. lia.
Qed.

Lemma closer_poll sys c qs ex :
  serving sys c qs → ex ∈ sys_executors sys →
  (ex_channel ex = [] → (0 < ex_slots ex)%Z ∧ ∃ t, runnable c t) → closer sys c.
Proof.
  destruct sys as [held s exs pl]. simpl. intros [Hf Hq Hus Hh] (l1 & l2 & ->)%list_elem_of_split Huse. simpl in *.
  destruct (serve_poll held s l1 ex l2 pl c qs Hf Hq Hus Hh)
    as (task & s' & ex2 & c' & qs' & Hstep & Hm & Hf' & Hq' & Hus' & Hh' & Hch & Hlen & Hpend & Hrec & Hnone).
  eexists _, _, c', qs'. split_and!; [exact Hstep|done| |by split|done|].
  - simpl. rewrite !fmap_app. csimpl. by rewrite Hm.
  - set (given := answer_tasks (Ok (mkPollWorkResult task))) in *. clearbody given.
    assert (0 < length (ex_channel ex) + length given)%nat.
    { destruct (ex_channel ex) as [|] eqn:Ec; [|simpl; lia]. destruct (Huse eq_refl) as [Hslots [t Ht]].
      destruct given; [|simpl; lia]. exfalso.
      apply (Hnone eq_refl Hslots t). by destruct t as [[??]?]. }
    unfold left_to_do, running_count, channel_count. simpl. rewrite !sum_list_with_app. simpl.
    rewrite Hch, Hlen. simpl. lia.
Qed.

(** As long as a task is not complete, there is such a step. *)
Lemma serving_progress sys c qs :
  serving sys c qs → sys_executors sys ≠ [] →
  ((∀ ex, ex ∈ sys_executors sys → in_flight ex = []) ∧
    ∀ t o, cl_tasks c !! t = Some o → ∃ e, o = Some (TS_Completed e)) ∨ closer sys c.
Proof.
  intros Hs Hne. destruct (decide (Exists (λ ex, ex_running ex ≠ []) (sys_executors sys))) as [Hx|Hrun].
  { apply Exists_exists in Hx as (ex & Hex & Hr). right. by eapply closer_finish. }
  destruct (decide (Exists (λ ex, ex_channel ex ≠ []) (sys_executors sys))) as [Hx|Hch].
  { apply Exists_exists in Hx as (ex & Hex & Hr). right. by eapply closer_poll. }
  assert (∀ ex, ex ∈ sys_executors sys → ex_running ex = [] ∧ ex_channel ex = []) as Hempty.
  { intros ex Hex. split; apply dec_stable; intros Hn; [apply Hrun|apply Hch]; apply Exists_exists; eauto. }
  assert (∀ ex, ex ∈ sys_executors sys → in_flight ex = []) as Hidle.
  { intros ex Hex. destruct (Hempty ex Hex) as [Hr Hc]. unfold in_flight. by rewrite Hr, Hc. }
  destruct Hs as [Hf Hq Hus Hh]. pose proof (full_sys _ _ _ Hf) as Hi.
  destruct (decide (map_Forall (λ _ o, o ≠ None) (cl_tasks c))) as [Hall|Hp].
  - left. split; [done|]. intros t [[e|e|e]|] Ht; [|by destruct (proj1 Hh t e)|eauto|by destruct (Hall t None Ht)].
    apply (inv_running _ _ Hi), elem_of_flights in Ht as (ex & Hex & Hin). rewrite Hidle in Hin by done.
    by apply not_elem_of_nil in Hin.
  - apply map_not_Forall in Hp as (t & o & Ht & Hn); [|apply _]. apply dec_stable in Hn as ->. right.
    assert (∃ ex, ex ∈ sys_executors sys) as [ex Hex]
      by (destruct (sys_executors sys) as [|ex ?]; [by destruct Hne|exists ex; by left]).
    eapply closer_poll; [by split|exact Hex|]. intros _. split.
    + rewrite Forall_forall in Hus. destruct (Hus ex Hex) as (n & _ & Hpos & Hs & _).
      rewrite (proj1 (Hempty ex Hex)) in Hs. simpl in Hs. lia.
    + eapply (idle_runnable ns _ _ c t); [apply Hi..|done| |done]. apply Hh.
Qed.

Lemma serves_complete sys c qs :
  serving sys c qs → sys_executors sys ≠ [] →
  ∃ more sys' c', serves sys more sys' ∧ sys_planning sys' = sys_planning sys ∧ full_inv ns sys' c' ∧
    (∀ t, is_Some (cl_tasks c !! t) → is_Some (cl_tasks c' !! t)) ∧
    (∀ ex, ex ∈ sys_executors sys' → in_flight ex = []) ∧
    ∀ t o, cl_tasks c' !! t = Some o → ∃ e, o = Some (TS_Completed e).
Proof.
  remember (left_to_do (sys_executors sys) c) as n eqn:E. revert sys c qs E.
  induction (lt_wf n) as [n _ IH]. intros sys c qs -> Hs Hne.
  destruct (serving_progress sys c qs Hs Hne) as [[Hidle Hdone]|(ts & sys1 & c1 & qs1 & Hstep & Hpl & Hm & Hs1 & Hrec & Hlt)].
  { exists [], sys, c. split_and!; try done; [constructor|apply Hs]. }
  destruct (IH _ Hlt sys1 c1 qs1 eq_refl Hs1) as (more & sys' & c' & Hserves & Hpl' & Hf' & Hrec' & Hidle & Hdone).
  { intros E. rewrite E in Hm. by apply Hne, (fmap_nil_inv ex_metadata). }
  exists (ts ++ more), sys', c'. split_and!; [by eapply serves_step|by rewrite Hpl'|done|auto|done..].
Qed.

(** ** Properties *)

(** C5 — Every job can be completed.  Take any system reached by a regular run
    with at least one executor, all of whose executors have their slots, in
    which no task failed, neither in the store nor in an outcome that is not
    reported yet.  Some sequence of polls and ends of tasks, which needs no new
    executor and no planning, leads to a system in which every recorded task is
    completed and no executor holds one, and there a client that asks for a job
    of the store that has tasks is told that it is completed, with each of its
    tasks listed once. *)
Theorem jobs_can_complete sys trace c :
  reachable ns g R sys trace → rep ns (sys_store sys) c → sys_executors sys ≠ [] →
  Forall usable (sys_executors sys) → healthy (sys_executors sys) c →
  ∃ more sys' c', serves sys more sys' ∧ reachable ns g R sys' (trace ++ more) ∧ rep ns (sys_store sys') c' ∧
    (∀ ex, ex ∈ sys_executors sys' → in_flight ex = []) ∧
    (∀ t, is_Some (cl_tasks c !! t) → ∃ e, cl_tasks c' !! t = Some (Some (TS_Completed e))) ∧
    ∀ job js st pt, cl_jobs c' !! job = Some js → is_Some (cl_tasks c' !! (job, st, pt)) →
      get_job_status ns job (sys_store sys') = (Ok (mkGetJobStatusResult (Some js)), sys_store sys') ∧
      lists_tasks c' job js.
Proof.
  intros Hreach Hr Hne Hus Hh. destruct (reachable_queries ns ns_slash_free g g_unlocks R HR _ _ Hreach) as (c0 & qs & Hf & Hq).
  assert (cl_tasks c0 = cl_tasks c) as Ht by (by eapply rep_tasks_eq; [|apply (full_sys _ _ _ Hf)|]).
  assert (healthy (sys_executors sys) c0) as Hh0 by (destruct Hh; split; [by rewrite Ht|done]).
  destruct (serves_complete sys c0 qs ltac:(by split) Hne) as (more & sys' & c' & Hserves & _ & Hf' & Hrec & Hidle & Hdone).
  pose proof (full_sys _ _ _ Hf') as Hi'.
  exists more, sys', c'. split_and!; [done|by eapply serves_reachable|apply Hi'|done| |].
  - intros t Hs. rewrite <-Ht in Hs. destruct (Hrec t Hs) as [o Ho]. rewrite Ho. destruct (Hdone t o Ho) as [e ->]. eauto.
  - intros job js st pt Hj Hs. split.
    + unfold get_job_status, or_internal, map_errM, bindM. by rewrite (rep_get_job _ _ _ _ _ (inv_rep _ _ _ Hi') Hj).
    + apply (jobs_complete _ _ (inv_jobs _ _ _ Hi') _ js st pt Hj Hs). intros t o _ Ho. by apply Hdone in Ho.
Qed.
End completion.
