(* ===== verification/Dataflow.v ===== *)
(** * The data behind a completed job

    The system of System.v together with the data plane of Flight.v: every
    executor has a disk, a task that ends has run its plan (Execution.v) through
    the executor's own flight service (the spawned part of [run_received_tasks]
    in src/rust/executor/src/execution_loop.rs), reading its inputs from the
    disks of the other executors, and the status it reports is the outcome of
    that.  A client (Client.v) that is told that a job is completed fetches the
    partitions from these disks.

    The invariant: the plan of a task is a stage of its job's query (Queries.v)
    with its shuffles resolved to completed tasks, and whatever is recorded or
    waiting to be reported as completed by an executor is in a finished file on
    its disk, which holds what the part of the query the stage stands for
    produces in one process.  From it: [collect] on a completed job returns the
    output of the parts of its query, and the tasks of the last stage hold the
    result of the whole query. *)

From S2P Require Import Prelude Keys Proto Arrow Scalar Expr LogicalPlan SchedTypes ExecPlan.
From S2P Require Import Planner Slicing Physical Backend Utils Batch State Assign Server Flight Execution Client.
From S2P Require Import Cluster Refine Planning Shared Executor System Queries.

Definition executor_id (ex : Executor) : string := pem_id (ex_metadata ex).
Definition address (ex : Executor) : string * Z := (em_host (meta_of ex), em_port (meta_of ex)).

Section dataflow.
Context {S : Type} `{BackendOk S}.
Context `{Codec} `{!MessageOk PPhysicalPlanNode} `{MessageOk PAction}.
Context `{PhysicalPlanner} `{ExprBuildersOk} `{ExecutionPlanMethodsOk} `{!WithNewChildrenOk}.
Context `{!InterfaceOk} `{!ConstructorsOk} `{Operators}.
Context `{HashOrderOk} `{ErrorText} {DFSchema : Type} `{DataFusion DFSchema} `{QueryContext DFSchema}.
Context `{PlanText} `{ArraysOk} {FlightData File : Type} `{DataPlaneOk FlightData File}.
Context (ns : string) (ns_slash_free : slash_free ns).
Context (g : LockGuard) (g_unlocks : g = OwnedMutexGuard ∨ g = EtcdLockGuard (Ok ())).
(** The working directory of an executor. *)
Context (work_dir : string → string).
Implicit Types (sys : System (S := S) (DFSchema := DFSchema)) (c : Cluster) (disks : gmap string (Disk File)) (plans : gmap TaskId ExecutionPlan) (exs : list Executor) (qs : gmap string Query).

(** The disks of the executors, and the plan of each task that was received,
    which its spawned part keeps. *)
Record DataSystem := mkDataSystem {
  ds_system : System (S := S) (DFSchema := DFSchema);
  ds_disks : gmap string (Disk File);
  ds_plans : gmap TaskId ExecutionPlan }.

Definition disk_of disks (id : string) : Disk File := default ∅ (disks !! id).

(** The executors as a client, or another executor, reaches them. *)
Definition network_of exs disks : Network File :=
  list_to_map ((λ ex, (address ex, (work_dir (executor_id ex), disk_of disks (executor_id ex)))) <$> exs).
Definition network (ds : DataSystem) : Network File :=
  network_of (sys_executors (ds_system ds)) (ds_disks ds).

(** The plan an executor takes from the answer to its poll. *)
Definition received (answer : result Status PollWorkResult) plans : gmap TaskId ExecutionPlan :=
  match answer with
  | Ok (mkPollWorkResult (Some (mkTaskDefinition (Some pid) (Some q)))) =>
      match proto_to_exec q with Ok plan => <[task_of pid := plan]> plans | _ => plans end
  | _ => plans
  end.

(** The spawned part of [run_received_tasks]: the request to the executor's own
    flight service, which runs the plan as [execute]. *)
Definition run_task (execute : ExecutionPlan → Z → DFResult BatchStream) (id : string) (pid : PPartitionId)
    (plan : ExecutionPlan) : M (Disk File) (list (string * PartitionStats)) :=
  execute_partition (H6 := executing execute) (work_dir id) (ppi_job_id pid)
    (as_usize (ppi_stage_id pid)) [as_usize (ppi_partition_id pid)] plan.
Definition execution_error {A} (r : Result A) : option BallistaError :=
  match r with Err e => Some e | _ => None end.

(** The request of a task. *)
Definition run_request (pid : PPartitionId) (plan : ExecutionPlan) : Action :=
  A_ExecutePartition (mkExecutePartition (ppi_job_id pid) (as_usize (ppi_stage_id pid))
    [as_usize (ppi_partition_id pid)] plan []).

(** What the runs are free to do: as in System.v, and which requests the
    executors send. *)
Record DataRegime := mkDataRegime {
  d_regime :> Regime (S := S);
  d_sends : Action → Prop }.

(** The batches of the stages of a query have the schema of their stream and no
    dictionary columns, which a [FlightDataStream] does not decode. *)
Definition query_plain (q : Query) : Prop :=
  ∀ id part i schema bs, rebuild_stages ∅ (q_stages q) !! id = Some part →
    local_runs part i (Ok (schema, Ok <$> bs)) → plain_batches schema bs.

(** The conditions of the theorems: those of System.v, the stages of the queries
    give no dictionary columns, and the requests survive their encoding. *)
Record data_regular (D : DataRegime) : Prop := {
  dr_regular : regular ns D;
  dr_plain q : r_admits D q → query_plain q;
  dr_messages a : d_sends D a → message_ok a;
}.

Section runs.
Context (D : DataRegime).

(** A step: a poll, disturbed by planning tasks; a poll whose answer is lost;
    the end of a task whose execution, one that its plan can have in the
    network, did not panic; a step that changes no executor (of a planning task,
    a registration or the lock); and a new executor, with an id and an address
    of its own. *)
Inductive data_step : DataSystem → list TaskId → DataSystem → Prop :=
| data_poll held s l1 ex l2 pl others req ex1 answer held' s' pl' others' ex2 disks plans :
    poll_request ex = (req, ex1) → Forall (by_planning ns (r_admits D)) others →
    poll_work ns (Ok ()) g req (held, (((s, pl), others) : Shared)) = Some (answer, (held', ((s', pl'), others'))) →
    poll_response ex1 answer = Ok ex2 →
    data_step (mkDataSystem (mkSystem held s (l1 ++ ex :: l2) pl) disks plans) (answer_tasks answer)
      (mkDataSystem (mkSystem held' s' (l1 ++ ex2 :: l2) pl') disks (received answer plans))
| data_lost held s l1 ex l2 pl others req ex1 answer held' s' pl' others' e ex2 disks plans :
    r_lossy D → poll_request ex = (req, ex1) → Forall (by_planning ns (r_admits D)) others →
    poll_work ns (Ok ()) g req (held, (((s, pl), others) : Shared)) = Some (answer, (held', ((s', pl'), others'))) →
    poll_response ex1 (Err e) = Ok ex2 →
    data_step (mkDataSystem (mkSystem held s (l1 ++ ex :: l2) pl) disks plans) (answer_tasks answer)
      (mkDataSystem (mkSystem held' s' (l1 ++ ex2 :: l2) pl') disks plans)
| data_finish held s l1 ex l2 pl before after pid disks plans plan execute r d :
    ex_running ex = before ++ pid :: after → plans !! task_of pid = Some plan → d_sends D (run_request pid plan) →
    (∀ p i, plan_runs (fetch_from (network_of (l1 ++ ex :: l2) disks)) p i (execute p i)) →
    run_task execute (executor_id ex) pid plan (disk_of disks (executor_id ex)) = (r, d) → is_panic r = false →
    data_step (mkDataSystem (mkSystem held s (l1 ++ ex :: l2) pl) disks plans) []
      (mkDataSystem (mkSystem held s (l1 ++ finish_task ex before after pid (execution_error r) :: l2) pl)
        (<[executor_id ex := d]> disks) plans)
| data_plan sys sys' disks plans :
    system_step ns g D sys [] sys' → sys_executors sys' = sys_executors sys →
    data_step (mkDataSystem sys disks plans) [] (mkDataSystem sys' disks plans)
| data_join held s exs pl meta n disks plans :
    slash_free (em_id meta) →
    executor_id (start_executor meta n) ∉ executor_id <$> exs →
    address (start_executor meta n) ∉ address <$> exs →
    data_step (mkDataSystem (mkSystem held s exs pl) disks plans) []
      (mkDataSystem (mkSystem held s (exs ++ [start_executor meta n]) pl) disks plans).

Inductive data_reachable : DataSystem → list TaskId → Prop :=
| data_start s disks : contents s = ∅ → data_reachable (mkDataSystem (mkSystem false s [] []) disks ∅) []
| data_next ds trace ts ds' :
    data_reachable ds trace → data_step ds ts ds' → data_reachable ds' (trace ++ ts).
End runs.

Context (D : DataRegime) (HD : data_regular D).
Local Abbreviation HR := (dr_regular _ HD).

(** The system is that of System.v. *)
Lemma data_system_step ds ts ds' : data_step D ds ts ds' → system_step ns g D (ds_system ds) ts (ds_system ds').
Proof.
  destruct 1; simpl; [by eapply sys_poll|by eapply sys_lost|by apply sys_finish|done|by apply sys_join].
Qed.
Lemma data_system_reachable ds trace : data_reachable D ds trace → reachable ns g D (ds_system ds) trace.
Proof.
  induction 1 as [s disks Hs|ds trace ts ds' _ IH Hstep]; [by apply reach_start|].
  by eapply reach_step; [|apply data_system_step].
Qed.

(** ** What is kept of a task *)

(** The part of a query that a stage stands for. *)
Definition stage_stands qs (stage : string * Z) (part : ExecutionPlan) : Prop :=
  ∃ q, qs !! stage.1 = Some q ∧ rebuild_stages ∅ (q_stages q) !! stage.2 = Some part.
(** What a task produces: what a partition of its part of the query can give
    when it is run in one process. *)
Definition task_output qs (t : TaskId) (schema : Schema) (bs : list RecordBatch) : Prop :=
  ∃ part, stage_stands qs t.1 part ∧ local_runs part t.2 (Ok (schema, Ok <$> bs)).
Definition task_file (id : string) (t : TaskId) : string := partition_file (work_dir id) t.1.1 t.1.2 t.2.
Definition kept disks qs (id : string) (t : TaskId) : Prop :=
  ∃ schema bs, task_output qs t schema bs ∧ plain_batches schema bs ∧
    disk_of disks id !! task_file id t = Some (ipc_file schema bs true).

Record data_inv (ds : DataSystem) c qs : Prop := {
  dn_ids : NoDup (executor_id <$> sys_executors (ds_system ds));
  dn_addresses : NoDup (address <$> sys_executors (ds_system ds));
  dn_channel ex t e : ex ∈ sys_executors (ds_system ds) →
    task_message t (Some (TS_Completed e)) ∈ ex_channel ex → kept (ds_disks ds) qs (executor_id ex) t;
  dn_tasks t e : cl_tasks c !! t = Some (Some (TS_Completed e)) → kept (ds_disks ds) qs e t;
  dn_plans t plan : ds_plans ds !! t = Some plan →
    is_Some (cl_tasks c !! t) ∧ plan_sent (sys_executors (ds_system ds)) c t plan;
}.

(** ** Reading the inputs of a task *)

Lemma network_lookup exs disks ex :
  NoDup (address <$> exs) → ex ∈ exs →
  network_of exs disks !! address ex = Some (work_dir (executor_id ex), disk_of disks (executor_id ex)).
Proof.
  intros Hnd Hex. apply elem_of_list_to_map_1.
  - by rewrite <-list_fmap_compose.
  - apply list_elem_of_fmap. by exists ex.
Qed.

(** The requests for partitions survive the codec. *)
Hypothesis fetch_messages : ∀ t : TaskId, task_in_range t →
  message_ok (A_FetchPartition (PartitionId_new t.1.1 t.1.2 t.2)).

(** What an executor keeps of a task is what another fetches. *)
Lemma kept_fetched exs disks qs ex t :
  NoDup (address <$> exs) → ex ∈ exs → task_in_range t → kept disks qs (executor_id ex) t →
  ∃ schema bs, task_output qs t schema bs ∧
    fetch_from (network_of exs disks) (address ex).1 (address ex).2 t.1.1 t.1.2 t.2 = Ok (schema, Ok <$> bs).
Proof.
  intros Hnd Hex Hr (schema & bs & Ho & Hp & Hf). exists schema, bs. split; [done|].
  unfold fetch_from, BallistaClient_try_new. rewrite <-surjective_pairing, network_lookup by done. cbn [ok_or fst snd].
  rewrite (fetch_ok _ _ _ _ (disk_of disks (executor_id ex)) (ipc_file schema bs true) schema bs []); try done.
  - pose proof (fetch_messages t Hr). destruct t as [[job st] pt], Hr as (_ & ? & ?). by split; [split|].
  - rewrite app_nil_r. apply ipc_read_ok.
Qed.

Section inputs.
Context (ds : DataSystem) (c : Cluster) (qs : gmap string Query).
Context (Hf : full_inv ns (ds_system ds) c) (Hq : queries_inv D (sys_planning (ds_system ds)) c qs) (Hd : data_inv ds c qs).
Abbreviation exs := (sys_executors (ds_system ds)).

Lemma task_range t o : cl_tasks c !! t = Some o → task_in_range t.
Proof. intros Ho. by destruct (rep_task_at _ _ _ _ _ (inv_rep _ _ _ (full_sys _ _ _ Hf)) Ho). Qed.

(** The readers of a stage deliver what the stage stands for. *)
Lemma inputs_delivered job q p locs :
  qs !! job = Some q → let m := rebuild_stages ∅ (q_stages q) in
  Forall stage_fits (q_stages q) → stages_mean (q_stages q) m → reads (q_stages q) p → NoDup (shuffle_ids p) →
  inputs_located exs c job p locs → inputs_deliver (fetch_from (network ds)) locs m p.
Proof.
  intros Hj m Hfit Hm Hr Hnd Hl id part Hid Hpart.
  destruct (input_partitions _ _ _ _ _ Hm Hr Hnd Hid Hpart) as (Hparts & s & Hs & Hcount).
  specialize (Hl id). rewrite Hparts in Hl. split.
  { apply Forall2_length in Hl. rewrite <-Hl, length_zrange. rewrite Forall_forall in Hfit.
    destruct (Hfit s Hs) as (_ & _ & _ & Hpos). lia. }
  intros i Hi%elem_of_zrange. pose proof (zrange_lookup _ _ Hi) as Hlook.
  destruct (Forall2_lookup_l _ _ _ _ _ Hl Hlook) as (l & Hli & Hpid & Ht & (ex & Hex & Hmeta)).
  unfold shuffle_reader_execute. rewrite Hli. cbn [unwrap]. rewrite Hpid. cbn [pid_job_id pid_stage_id].
  pose proof (dn_tasks _ _ _ Hd _ _ Ht) as Hk. rewrite Hmeta in Hk |- *.
  destruct (kept_fetched exs (ds_disks ds) qs ex (job, id, i) (dn_addresses _ _ _ Hd) Hex (task_range _ _ Ht) Hk)
    as (schema & bs & (part' & (q' & Hj' & Hpart') & Ho) & E).
  simpl in *. rewrite Hj in Hj'. injection Hj' as <-. fold m in Hpart'. rewrite Hpart in Hpart'. injection Hpart' as <-.
  unfold network. by rewrite E.
Qed.

(** The plan of a task arrives as it was sent, and running it in the network
    gives what its part of the query can give in one process. *)
Lemma sent_plan_runs t plan :
  plan_sent exs c t plan →
  resent plan = Ok plan ∧ ∀ schema bs, plan_runs (fetch_from (network ds)) plan t.2 (Ok (schema, Ok <$> bs)) →
    task_output qs t schema bs ∧ plain_batches schema bs.
Proof.
  destruct t as [[job st] pt]. intros (p & locs & Hp & -> & Hl). cbn [fst snd] in *.
  destruct (stage_query ns D HR _ _ _ _ _ _ Hq Hp) as (q & s & part & Hj & Hplan & -> & Hfit & Hm & Hr & Ho & Hpart & Hreb).
  destruct (qn_jobs _ _ _ _ Hq _ _ Hj) as (_ & Hadm & _). pose proof (regular_queries _ _ HR _ Hadm) as [_ Hfits].
  destruct Hfit as ([Hb _] & Hroot & _). split.
  { destruct (resolve_sent locs (qs_child s) Hb (proj1 Hr)) as (_ & _ & _ & ?); [|done].
    exact (inputs_fit ns _ _ c job _ locs (inv_rep _ _ _ (full_sys _ _ _ Hf)) Hl). }
  intros schema bs Hrun. pose proof (inputs_delivered _ _ _ _ Hj Hfits Hm Hr Ho Hl) as Hdel.
  destruct (resolve_runs (fetch_from (network ds)) _ _ _ _ _ Hm Hr Hreb Hdel) as [_ E].
  apply E in Hrun; [|by left]. split.
  - exists part. split; [|done]. by exists q.
  - exact (dr_plain _ HD q Hadm st part pt schema bs Hpart Hrun).
Qed.
End inputs.

(** ** The invariant is kept *)

Lemma received_other answer plans t : t ∉ answer_tasks answer → received answer plans !! t = plans !! t.
Proof.
  destruct answer as [[[[[pid|] [q|]]|]]| |]; try done. simpl. intros Hne.
  destruct (proto_to_exec q); [|done..]. rewrite lookup_insert_ne; [done|]. intros <-. by apply Hne; left.
Qed.
Lemma received_new answer plans t plan :
  received answer plans !! t = Some plan → plans !! t = Some plan ∨
  ∃ pid q, answer = Ok (mkPollWorkResult (Some (mkTaskDefinition (Some pid) (Some q)))) ∧ t = task_of pid ∧
    proto_to_exec q = Ok plan.
Proof.
  destruct answer as [[[[[pid|] [q|]]|]]| |]; simpl; auto. destruct (proto_to_exec q) as [p| |] eqn:Eq; auto.
  intros [[<- <-]|[_ ?]]%lookup_insert_Some; eauto 10.
Qed.

Lemma response_frame ex answer ex' :
  poll_response ex answer = Ok ex' → ex_channel ex' = ex_channel ex ∧ ex_metadata ex' = ex_metadata ex.
Proof.
  destruct answer as [[[task|]]| |]; simpl; intros Hr; simplify_eq; try done.
  by apply run_received_spec in Hr as (pid & plan & p & _ & _ & ->).
Qed.

(** An executor changes, but not its metadata. *)
Lemma same_executors l1 (ex ex' : Executor) l2 :
  ex_metadata ex' = ex_metadata ex →
  executor_id <$> (l1 ++ ex' :: l2) = executor_id <$> (l1 ++ ex :: l2) ∧
  address <$> (l1 ++ ex' :: l2) = address <$> (l1 ++ ex :: l2) ∧
  ∀ m, known (l1 ++ ex :: l2) m → known (l1 ++ ex' :: l2) m.
Proof.
  intros E. rewrite !fmap_app, !fmap_cons. unfold executor_id, address. rewrite E. split_and!; [done..|].
  intros m. apply known_mono. intros x [->|Hx]%elem_of_middle; [exists ex'|exists x];
    (split; [apply elem_of_middle; auto|done]).
Qed.

(** The tasks whose completion is recorded or to be reported were handed out. *)
Lemma channel_running sys c ex t r :
  sys_inv ns sys c → ex ∈ sys_executors sys → task_message t (Some r) ∈ ex_channel ex →
  t ∈ omap status_task (ex_channel ex) ∧ cl_tasks c !! t = Some (Some (TS_Running (executor_id ex))).
Proof.
  intros Hi Hex Hm. assert (t ∈ omap status_task (ex_channel ex)) as Hin.
  { apply list_elem_of_omap. eexists. split; [exact Hm|]. apply status_task_message. }
  split; [done|]. apply (inv_flight _ _ Hi ex); [done|]. by apply in_flight_channel.
Qed.

(** A completed task stays completed. *)
Lemma completed_stays sys ts c c' t e :
  sys_inv ns sys c → started (sys_executors sys) ts c c' → cl_tasks c !! t = Some (Some (TS_Completed e)) →
  cl_tasks c' !! t = Some (Some (TS_Completed e)).
Proof.
  intros Hi Hs Ht. destruct (started_keep _ _ _ _ Hs _ _ Ht) as [r Hr].
  destruct (started_reported _ _ _ _ Hs _ _ Hr) as [?|[Hin|(ex & Hex & Hm)]];
    [congruence|by apply (started_fresh _ _ _ _ Hs _ _ Hin) in Ht|]. destruct (channel_running _ _ _ _ _ Hi Hex Hm). congruence.
Qed.

Lemma plan_sent_mono sys ts c c' exs' t plan :
  sys_inv ns sys c → started (sys_executors sys) ts c c' → (∀ m, known (sys_executors sys) m → known exs' m) →
  is_Some (cl_tasks c !! t) → plan_sent (sys_executors sys) c t plan → plan_sent exs' c' t plan.
Proof.
  intros Hi Hs Hk [o Ho] (p & locs & Hp & -> & Hl). destruct t as [[job st] pt]. exists p, locs.
  split_and!; [by eapply started_plans|done|]. intros stage. eapply Forall2_impl; [exact (Hl stage)|].
  intros part l (Hpid & Ht & Hm). split_and!; [done|by eapply completed_stays|auto].
Qed.

Lemma kept_queries disks qs qs' id t : qs ⊆ qs' → kept disks qs id t → kept disks qs' id t.
Proof.
  intros Hsub (schema & bs & (part & (q & Hj & Hpart) & Ho) & Hrest). exists schema, bs. split; [|done].
  exists part. split; [|done]. exists q. split; [by eapply lookup_weaken|done].
Qed.

(** The completed tasks after a step: recorded before, or reported by it. *)
Lemma kept_completed ds c c' qs ts t e :
  data_inv ds c qs → sys_inv ns (ds_system ds) c → started (sys_executors (ds_system ds)) ts c c' →
  cl_tasks c' !! t = Some (Some (TS_Completed e)) → kept (ds_disks ds) qs e t.
Proof.
  intros Hd Hi Hs Ht.
  assert (t ∉ ts) as Hni by (intros Hin; destruct (started_now _ _ _ _ Hs t Hin); congruence).
  destruct (started_reported _ _ _ _ Hs t _ Ht) as [Hc|[?|(ex & Hex & Hm)]]; [by eapply dn_tasks|done|].
  assert (e = executor_id ex) as ->; [|by eapply dn_channel].
  pose proof (inv_channel _ _ Hi ex Hex) as Hall. rewrite Forall_forall in Hall.
  destruct (Hall _ Hm) as (t' & r & E & Hf). destruct t as [[??]?], t' as [[??]?]. simplify_eq/=.
  by destruct Hf as [[= ->]|[? ?]].
Qed.

Lemma data_inv_poll held s l1 ex l2 pl others req ex1 answer held' s' pl' others' ex2 disks plans c c' qs qs' :
  let ds := mkDataSystem (mkSystem held s (l1 ++ ex :: l2) pl) disks plans in
  let sys' := mkSystem held' s' (l1 ++ ex2 :: l2) pl' in
  poll_request ex = (req, ex1) → Forall (by_planning ns (r_admits D)) others →
  poll_work ns (Ok ()) g req (held, (((s, pl), others) : Shared)) = Some (answer, (held', ((s', pl'), others'))) →
  poll_response ex1 answer = Ok ex2 →
  full_inv ns (ds_system ds) c → full_inv ns sys' c' → queries_inv D (sys_planning (ds_system ds)) c qs → qs ⊆ qs' →
  started (sys_executors (ds_system ds)) (answer_tasks answer) c c' → data_inv ds c qs →
  data_inv (mkDataSystem sys' disks (received answer plans)) c' qs'.
Proof.
  intros ds sys' Hreq Hoth Hpoll Hresp Hf Hf' Hq Hsub Hs Hd. pose proof (full_sys _ _ _ Hf) as Hi.
  assert (ex ∈ l1 ++ ex :: l2) as Hex by apply in_middle. apply response_frame in Hresp as [Hch Hm].
  rewrite poll_request_eq in Hreq. injection Hreq as <- <-. simpl in Hch, Hm.
  destruct (same_executors l1 ex ex2 l2 Hm) as (Eid & Ead & Hk). split; simpl.
  - rewrite Eid. apply (dn_ids _ _ _ Hd).
  - rewrite Ead. apply (dn_addresses _ _ _ Hd).
  - intros x t e [->|Hx]%elem_of_middle Ht; [rewrite Hch in Ht; by apply not_elem_of_nil in Ht|].
    apply (kept_queries _ qs); [done|]. apply (dn_channel _ _ _ Hd x t e); [|done]. apply elem_of_middle. by right.
  - intros t e Ht. apply (kept_queries _ qs); [done|]. exact (kept_completed ds c c' qs _ t e Hd Hi Hs Ht).
  - intros t plan [Hp|(pid & q & -> & -> & Hplan)]%received_new.
    + destruct (dn_plans _ _ _ Hd t plan Hp) as [Hrec Hst]. split; [by apply (started_recorded _ _ _ _ Hs)|].
      exact (plan_sent_mono _ _ _ _ _ _ _ Hi Hs Hk Hrec Hst).
    + assert (task_of pid ∈ [task_of pid]) as Hin by (by left).
      destruct (started_now _ _ _ _ Hs _ Hin) as [own Hown]. split; [eauto|].
      destruct (handed_plan ns ns_slash_free g g_unlocks D HR (ds_system ds) c qs ex _ _ others Hf Hq Hex (poll_request_eq ex) Hoth)
        as (task & sh1 & c1 & E & Hr1 & Hh). cbn [ds_system ds sys_held sys_store sys_planning] in E. rewrite E in Hpoll. simplify_eq.
      destruct (Hh _ eq_refl) as (pid' & q' & p & locs & [= <- <-] & Hplan' & Hp & _ & Hl).
      rewrite Hplan in Hplan'. injection Hplan' as ->. simpl in Hr1. pose proof (inv_rep _ _ _ (full_sys _ _ _ Hf')) as Hr'. simpl in Hr'.
      exists p, locs. split_and!; [by rewrite (rep_plans_eq ns ns_slash_free _ _ _ Hr' Hr1)|done|].
      intros stage. rewrite (rep_tasks_eq ns ns_slash_free _ _ _ Hr' Hr1). by apply Hl.
Qed.

Lemma task_numbers pid : task_in_range (task_of pid) →
  as_usize (ppi_stage_id pid) = ppi_stage_id pid ∧ as_usize (ppi_partition_id pid) = ppi_partition_id pid.
Proof. intros (_ & Hst & Hpt). split; apply wrap_u_id; (eapply in_u_mono; [| |eassumption]; lia). Qed.

(** The request of a task, with the numbers it is sent with. *)
Definition task_request (pid : PPartitionId) (plan : ExecutionPlan) : Action :=
  A_ExecutePartition (mkExecutePartition (ppi_job_id pid) (ppi_stage_id pid) [ppi_partition_id pid] plan []).

(** The end of a task changes the file of no other task. *)
Lemma kept_run execute id id' pid t disks qs plan r d :
  message_ok (task_request pid plan) → task_in_range (task_of pid) → task_in_range t → t ≠ task_of pid →
  run_task execute id pid plan (disk_of disks id) = (r, d) →
  kept disks qs id' t → kept (<[id := d]> disks) qs id' t.
Proof.
  intros Hm Hrange Hrange' Hne Hrun (schema & bs & Ho & Hpl & Hf). unfold run_task in Hrun.
  destruct (task_numbers pid Hrange) as [Est Ept]. rewrite Est, Ept in Hrun.
  destruct pid as [job st pt], t as [[job' st'] pt']. destruct Hrange as (Hj & Hst & Hpt), Hrange' as (Hj' & _).
  exists schema, bs. split_and!; [done..|]. unfold disk_of in *. destruct (decide (id = id')) as [<-|Hid].
  - rewrite lookup_insert_eq. rewrite <-Hf.
    pose proof (execute_partition_touches (H9 := executing execute) (work_dir id) job st pt plan
      Hm Hst Hpt (default ∅ (disks !! id))) as Ht.
    cbn [ppi_job_id ppi_stage_id ppi_partition_id] in Hrun. rewrite Hrun in Ht. apply Ht. unfold task_file. simpl.
    intros E. apply partition_file_inj in E; [|done..]. by apply Hne.
  - by rewrite lookup_insert_ne.
Qed.

(** A task that ends without an error leaves its output. *)
Lemma kept_new execute id pid disks qs plan x d :
  message_ok (task_request pid plan) → task_in_range (task_of pid) → resent plan = Ok plan →
  (∀ schema bs, execute plan (ppi_partition_id pid) = Ok (schema, Ok <$> bs) →
    task_output qs (task_of pid) schema bs ∧ plain_batches schema bs) →
  run_task execute id pid plan (disk_of disks id) = (Ok x, d) → kept (<[id := d]> disks) qs id (task_of pid).
Proof.
  intros Hm Hrange Hr Hout Hrun. unfold run_task in Hrun.
  destruct (task_numbers pid Hrange) as [Est Ept]. rewrite Est, Ept in Hrun. destruct Hrange as (_ & Hst & Hpt).
  apply (execute_partition_inv (H9 := executing execute))
    in Hrun as (plan' & schema & bs & Hr' & He & ->); [|done..].
  rewrite Hr in Hr'. injection Hr' as <-. destruct (Hout schema bs He) as [Ho Hp]. exists schema, bs.
  split_and!; [done..|]. unfold disk_of. rewrite lookup_insert_eq. apply lookup_insert_eq.
Qed.

Lemma data_inv_finish held s l1 ex l2 pl before after pid disks plans plan execute r d c qs :
  let ds := mkDataSystem (mkSystem held s (l1 ++ ex :: l2) pl) disks plans in
  ex_running ex = before ++ pid :: after → plans !! task_of pid = Some plan →
  message_ok (task_request pid plan) → (∀ p i, plan_runs (fetch_from (network ds)) p i (execute p i)) →
  run_task execute (executor_id ex) pid plan (disk_of disks (executor_id ex)) = (r, d) → is_panic r = false →
  full_inv ns (ds_system ds) c → queries_inv D (sys_planning (ds_system ds)) c qs → data_inv ds c qs →
  data_inv (mkDataSystem (mkSystem held s (l1 ++ finish_task ex before after pid (execution_error r) :: l2) pl)
    (<[executor_id ex := d]> disks) plans) c qs.
Proof.
  intros ds Hrun Hplan Hm Hexec Hr Hnp Hf Hq Hd. pose proof (full_sys _ _ _ Hf) as Hi.
  assert (ex ∈ l1 ++ ex :: l2) as Hex by apply in_middle.
  assert (task_of pid ∈ task_of <$> ex_running ex) as Hin.
  { rewrite Hrun, fmap_app. apply elem_of_app. right. by left. }
  assert (cl_tasks c !! task_of pid = Some (Some (TS_Running (executor_id ex)))) as Hpid.
  { apply (inv_flight _ _ Hi ex); [done|]. by apply in_flight_running. }
  pose proof (task_range ds c Hf _ _ Hpid) as Hrange.
  assert (∀ t o id, cl_tasks c !! t = Some o → t ≠ task_of pid →
    kept disks qs id t → kept (<[executor_id ex := d]> disks) qs id t) as Hkeep.
  { intros t o id Ho Hne. eapply kept_run; [exact Hm|done|by eapply (task_range ds c Hf)|done|exact Hr]. }
  set (ex' := finish_task _ _ _ _ _). destruct (same_executors l1 ex ex' l2 eq_refl) as (Eid & Ead & Hk).
  pose proof (inv_nodup _ _ Hi) as Hn. simpl in Hn. rewrite flights_middle in Hn.
  apply NoDup_app in Hn as (Hn1 & Hn2 & _). apply NoDup_app in Hn1 as (_ & Hn1 & _).
  split; simpl.
  - rewrite Eid. apply (dn_ids _ _ _ Hd).
  - rewrite Ead. apply (dn_addresses _ _ _ Hd).
  - intros x t e [->|Hx]%elem_of_middle Ht.
    + simpl in Ht. apply elem_of_app in Ht as [Ht|Ht%list_elem_of_singleton].
      * destruct (channel_running _ _ _ _ _ Hi Hex Ht) as [Hc Hrec].
        apply (Hkeep t _ _ Hrec); [intros ->; by apply (Hn1 _ Hin)|]. by apply (dn_channel _ _ _ Hd ex t e).
      * destruct r as [x|err|]; [|by destruct t as [[??]?]|done].
        destruct (dn_plans _ _ _ Hd _ _ Hplan) as [_ Hsent].
        destruct (sent_plan_runs ds c qs Hf Hq Hd _ _ Hsent) as [Hres Hout].
        replace t with (task_of pid) by (destruct t as [[??]?], pid; by injection Ht as -> -> -> _).
        apply (kept_new execute _ pid disks qs plan x d Hm Hrange Hres); [|exact Hr].
        intros schema bs E. apply Hout. rewrite <-E. apply Hexec.
    + assert (x ∈ l1 ++ ex :: l2) as Hx' by (apply elem_of_middle; by right).
      destruct (channel_running _ _ _ _ _ Hi Hx' Ht) as [Hc Hrec].
      apply (Hkeep t _ _ Hrec); [|by apply (dn_channel _ _ _ Hd x t e)]. intros ->.
      apply (Hn2 (task_of pid)); [by apply in_flight_running|]. apply elem_of_flights. exists x.
      split; [done|]. by apply in_flight_channel.
  - intros t e Ht. apply (Hkeep t _ _ Ht); [congruence|]. by apply (dn_tasks _ _ _ Hd).
  - intros t x Hx. destruct (dn_plans _ _ _ Hd t x Hx) as [Hrec Hst]. split; [done|].
    by eapply (plan_sent_mono _ []); [exact Hi|apply started_refl|exact Hk|..].
Qed.

Lemma data_inv_plan sys sys' disks plans c c' qs qs' :
  sys_executors sys' = sys_executors sys → sys_inv ns sys c → started (sys_executors sys) [] c c' → qs ⊆ qs' →
  data_inv (mkDataSystem sys disks plans) c qs → data_inv (mkDataSystem sys' disks plans) c' qs'.
Proof.
  intros Hexs Hi Hs Hsub Hd. split; simpl; rewrite ?Hexs; try apply Hd.
  - intros ex t e Hex Ht. apply (kept_queries _ qs); [done|]. by apply (dn_channel _ _ _ Hd ex t e).
  - intros t e Ht. apply (kept_queries _ qs); [done|].
    exact (kept_completed (mkDataSystem sys disks plans) c c' qs [] t e Hd Hi Hs Ht).
  - intros t plan Hp. destruct (dn_plans _ _ _ Hd _ _ Hp) as [Hrec Hst].
    split; [by apply (started_recorded _ _ _ _ Hs)|]. by eapply plan_sent_mono.
Qed.

Lemma data_inv_join held s exs pl meta n disks plans c qs :
  let ex := start_executor meta n in
  sys_inv ns (mkSystem held s exs pl) c →
  executor_id ex ∉ executor_id <$> exs → address ex ∉ address <$> exs →
  data_inv (mkDataSystem (mkSystem held s exs pl) disks plans) c qs →
  data_inv (mkDataSystem (mkSystem held s (exs ++ [ex]) pl) disks plans) c qs.
Proof.
  intros ex Hinv Hid Had [Hi Ha Hc Ht Hp]. split; simpl in *; try done; try rewrite fmap_app.
  - apply NoDup_app. split_and!; [done| |apply NoDup_singleton]. by intros x Hx ->%list_elem_of_singleton.
  - apply NoDup_app. split_and!; [done| |apply NoDup_singleton]. by intros x Hx ->%list_elem_of_singleton.
  - intros x t e [Hx| ->%list_elem_of_singleton]%elem_of_app; [by apply Hc|]. by intros ?%not_elem_of_nil.
  - intros t plan Hx. destruct (Hp t plan Hx) as [Hrec Hst]. split; [done|].
    eapply (plan_sent_mono _ []); [exact Hinv|apply started_refl| |done|exact Hst].
    intros m. apply known_mono. intros x Hex. exists x. split; [apply elem_of_app; by left|done].
Qed.

Lemma data_reachable_inv ds trace :
  data_reachable D ds trace →
  ∃ c qs, full_inv ns (ds_system ds) c ∧ queries_inv D (sys_planning (ds_system ds)) c qs ∧ data_inv ds c qs.
Proof.
  induction 1 as [s disks Hs|ds trace ts ds' Hr (c & qs & Hf & Hq & Hd) Hstep].
  - exists empty_cluster, ∅. split_and!; [by apply empty_full|by apply queries_start|].
    split; simpl; try constructor; try (by intros * ?%not_elem_of_nil); done.
  - pose proof (full_sys _ _ _ Hf) as Hi. pose proof (data_system_step _ _ _ Hstep) as Hsys.
    destruct (queries_step ns ns_slash_free g g_unlocks D HR _ _ _ c qs Hf Hq Hsys) as (c' & qs' & Hf' & Hs & Hsub & Hq').
    destruct Hstep as [held s l1 ex l2 pl others req ex1 answer held' s' pl' others' ex2 disks plans Hreq Hoth Hpoll Hresp
      |held s l1 ex l2 pl others req ex1 answer held' s' pl' others' e ex2 disks plans Hlost
      |held s l1 ex l2 pl before after pid disks plans plan execute r d Hrun Hp Hsends Hexec Hrt Hnp|sys sys' disks plans _ Hexs
      |held s exs pl meta n disks plans Hid Hni Hna]; simpl in *.
    + exists c', qs'. split; [done|]. split; [done|].
      exact (data_inv_poll _ _ _ _ _ _ _ _ _ _ _ _ _ _ _ _ _ _ _ _ _ Hreq Hoth Hpoll Hresp Hf Hf' Hq Hsub Hs Hd).
    + by destruct (regular_answers _ _ HR).
    + exists c, qs. split; [destruct Hf; split; [by apply inv_finish|done]|]. split; [done|].
      apply (data_inv_finish held s l1 ex l2 pl before after pid disks plans plan execute r d); try done.
      pose proof (dr_messages _ HD _ Hsends) as Hm. unfold run_request in Hm. unfold task_request. destruct (task_numbers pid) as [Est Ept]; [|by rewrite Est, Ept in Hm].
      apply (task_range (mkDataSystem (mkSystem held s (l1 ++ ex :: l2) pl) disks plans) c Hf _ (Some (TS_Running (executor_id ex)))).
      apply (inv_flight _ _ Hi ex); [apply in_middle|]. apply in_flight_running. simpl. rewrite Hrun, fmap_app.
      apply elem_of_app. right. by left.
    + exists c', qs'. split; [done|]. split; [done|]. by eapply data_inv_plan.
    + exists c, qs. split; [destruct Hf; split; [by apply inv_join|done]|]. split; [done|].
      by apply data_inv_join.
Qed.

(** ** Fetching *)

(** What a location of a completed job stands for: a completed task, and its
    output. *)
Definition location_output c qs (l : PPartitionLocation) (out : Schema * list RecordBatch) : Prop :=
  ∃ t e, ppl_partition_id l = partition_of t ∧ cl_tasks c !! t = Some (Some (TS_Completed e)) ∧
    task_output qs t out.1 out.2.

Lemma location_fetched ds c qs t m :
  full_inv ns (ds_system ds) c → data_inv ds c qs → known (sys_executors (ds_system ds)) m →
  cl_tasks c !! t = Some (Some (TS_Completed (em_id m))) →
  let l := mkPPartitionLocation (partition_of t) (Some (executor_meta_to_proto m)) in
  ∃ out, location_output c qs l out ∧ fetch_location (fetch_from (network ds)) l = Ok out.2.
Proof.
  intros Hf Hd (ex & Hex & ->) Ht l. pose proof (task_range ds c Hf _ _ Ht) as Hrange.
  destruct (dn_tasks _ _ _ Hd _ _ Ht) as (schema & bs & Ho & Hp & Hfile). exists (schema, bs).
  split; [by exists t, (executor_id ex)|]. pose proof (fetch_messages t Hrange) as Hmsg.
  destruct t as [[job st] pt]. destruct Hrange as (_ & Hr1 & Hr2). simpl.
  set (r := mkTaskResult (mkPPartitionId job st pt) (executor_id ex) (meta_of ex) schema bs).
  assert (stored {[executor_id ex := meta_of ex]} (network ds) r) as Hstored.
  { split; simpl; [apply lookup_singleton_eq|apply meta_of_wf|by split; [split|]| |done].
    eexists _, _. split; [exact (network_lookup _ (ds_disks ds) ex (dn_addresses _ _ _ Hd) Hex)|exact Hfile]. }
  pose proof (fetch_location_ok _ _ r (stored_served _ _ r Hstored)) as E. unfold location_of in E. simpl in E.
  by rewrite lookup_singleton_eq in E.
Qed.

(** The locations a client is told, and what it fetches from them. *)
Lemma locations_fetched ds c qs job js locs :
  full_inv ns (ds_system ds) c → data_inv ds c qs → cl_jobs c !! job = Some js →
  js = mkJobStatus (Some (JS_Completed locs)) →
  ∀ l, l ∈ locs → ∃ out, location_output c qs l out ∧ fetch_location (fetch_from (network ds)) l = Ok out.2.
Proof.
  intros Hf Hd Hj -> l Hl.
  destruct (jobs_located _ _ (inv_jobs _ _ _ (full_sys _ _ _ Hf)) _ _ Hj locs l eq_refl Hl) as (t & m & Ht & Hk & ->).
  by apply location_fetched.
Qed.

Lemma job_told ds c job js :
  full_inv ns (ds_system ds) c →
  (get_job_status ns job (sys_store (ds_system ds))).1 = Ok (mkGetJobStatusResult (Some js)) →
  cl_jobs c !! job = Some js.
Proof.
  intros Hf Hjob. unfold get_job_status, or_internal, bindM, map_errM in Hjob.
  destruct (get_job_metadata ns job _) as [[js'|e|m] s'] eqn:E; [|discriminate..]. injection Hjob as ->.
  eapply rep_job_read; [|exact E]. apply (inv_rep _ _ _ (full_sys _ _ _ Hf)).
Qed.

(** The queries that are known: every job has one physical plan, and the stages
    in the store were cut from it. *)
Definition queries_of c qs : Prop := (∀ job q, qs !! job = Some q → query_planned job q) ∧ plans_known c qs.

Lemma queries_inv_of pl c qs : queries_inv D pl c qs → queries_of c qs.
Proof. intros Hq. split; [|apply Hq]. intros job q Hj. by destruct (qn_jobs _ _ _ _ Hq _ _ Hj). Qed.

(** When the planning of a job is done, all its tasks are recorded. *)
Lemma planned_tasks sys c qs job :
  full_inv ns sys c → queries_inv D (sys_planning sys) c qs → (job, PWrites []) ∈ sys_planning sys →
  ∃ q, qs !! job = Some q ∧ ∀ s pt, s ∈ q_stages q → pt ∈ stage_partitions s →
    is_Some (cl_tasks c !! (job, qs_stage_id s, pt)).
Proof.
  intros Hf Hq Hp. destruct (qn_writes _ _ _ _ Hq _ _ Hp) as (q & Hj & _). exists q. split; [done|].
  intros s pt Hs Hpt. destruct (qn_tasks _ _ _ _ Hq _ _ _ _ Hj Hs Hpt) as [?|(ws & Hin & Hw)]; [done|].
  pose proof (pi_jobs _ _ (full_planning _ _ _ Hf)) as Hnd. apply list_elem_of_split in Hp as (l1 & l2 & E). rewrite E in Hin, Hnd.
  destruct (planning_replaced _ _ _ _ _ _ _ Hnd Hin) as [[_ [= ->]]|[? _]]; [|done]. by apply not_elem_of_nil in Hw.
Qed.

(** The last stage of a query stands for its physical plan. *)
Lemma last_stage_stands job q :
  query_planned job q → query_fits q → ∃ s, last (q_stages q) = Some s ∧ s ∈ q_stages q ∧ stage_fits s ∧
    rebuild_stages ∅ (q_stages q) !! qs_stage_id s = Some (q_physical q) ∧
    partition_count (stage_plan s) = partition_count (q_physical q).
Proof.
  intros (query & plan & executors & _ & optimized & planner' & _ & _ & _ & Hst) [Hdf Hfit].
  destruct (plan_query_stages_rebuilds _ _ _ _ _ Hdf Hst) as (_ & _ & Hm & _ & _ & s & Hlast & Hp).
  pose proof (last_Some_elem_of _ _ Hlast) as Hs. exists s. rewrite Forall_forall in Hfit.
  destruct (Hm s Hs) as (part & Hpart & _ & _ & Hc). simplify_eq. split_and!; auto.
Qed.

Context `{LocalContext DFSchema}.

(** C9 — End to end: whenever the scheduler reports a job as completed, in any
    regular run of the cluster (the stages of the planned queries survive their
    encoding and give no dictionary columns, no executor that completed a task
    loses its registration, no answer is lost, requests survive their encoding),
    a client that waits for the job gets, for every task the job lists, an output
    of the task's part of the query: what that part of the job's physical plan
    can produce for the partition when it is run in one process, complete and in
    the order of the list. *)
Theorem completed_job_collected ds trace job locs frame state connect execute_query waits rest :
  data_reachable D ds trace →
  (get_job_status ns job (sys_store (ds_system ds))).1 =
    Ok (mkGetJobStatusResult (Some (mkJobStatus (Some (JS_Completed locs))))) →
  submitted connect execute_query frame state job → Forall waiting waits →
  ∃ c qs outputs, rep ns (sys_store (ds_system ds)) c ∧ queries_of c qs ∧
    Forall2 (location_output c qs) locs outputs ∧
    collect connect execute_query (fetch_from (network ds)) frame state
        (waits ++ Ok (mkGetJobStatusResult (Some (mkJobStatus (Some (JS_Completed locs))))) :: rest) =
      Some (Ok (MemoryStream.mkMemoryStream (flat_map snd outputs)
        (dfschema_to_schema (logical_plan_schema (df frame))) None 0)).
Proof.
  intros (c & qs & Hf & Hq & Hd)%data_reachable_inv Hjob Hsub Hw.
  pose proof (job_told ds c job _ Hf Hjob) as Hj. pose proof (locations_fetched ds c qs job _ locs Hf Hd Hj eq_refl) as Hl.
  destruct (list_choice _ locs Hl) as [outputs Hout].
  exists c, qs, outputs. split_and!; [apply (inv_rep _ _ _ (full_sys _ _ _ Hf))|by eapply queries_inv_of| |].
  { eapply Forall2_impl; [exact Hout|by intros ? ? []]. }
  rewrite (collect_waits _ _ _ _ _ job) by done. cbn [wait_for_job map_err gj_status js_status mbind option_bind].
  assert (rmapM (fetch_location (fetch_from (network ds))) locs = Ok (snd <$> outputs)) as ->.
  { clear -Hout. induction Hout as [|l out locs outputs [_ E] _ IH]; [done|]. csimpl.
    by rewrite E, IH. }
  unfold MemoryStream.try_new. simpl. by rewrite flat_map_concat_map.
Qed.

(** C2 — The distributed result is a local one, in every regular run (the stages
    of the planned queries survive their encoding and give no dictionary columns,
    no executor that completed a task loses its registration, no answer is lost,
    requests survive their encoding): once the planning of a job is done and its
    tasks are complete, the job is reported as completed, it lists no task
    twice, and for every partition of the physical plan of the job's query it
    lists a location from which a client fetches batches that running the whole
    plan in one process can produce for that partition, all of them and in their
    order.  (A plan whose operators leave no choice has one such result.) *)
Theorem finished_query_answered ds trace job js c :
  data_reachable D ds trace → (job, PWrites []) ∈ sys_planning (ds_system ds) →
  rep ns (sys_store (ds_system ds)) c → all_complete c job →
  (get_job_status ns job (sys_store (ds_system ds))).1 = Ok (mkGetJobStatusResult (Some js)) →
  ∃ q s locs, query_planned job q ∧ r_admits D q ∧ last (q_stages q) = Some s ∧
    js = mkJobStatus (Some (JS_Completed locs)) ∧ NoDup (ppl_partition_id <$> locs) ∧
    ∀ i, i ∈ zrange (partition_count (q_physical q)) → ∃ l schema bs, l ∈ locs ∧
      ppl_partition_id l = Some (mkPPartitionId job (qs_stage_id s) i) ∧
      local_runs (q_physical q) i (Ok (schema, Ok <$> bs)) ∧
      fetch_location (fetch_from (network ds)) l = Ok bs.
Proof.
  intros (c0 & qs & Hf & Hq & Hd)%data_reachable_inv Hplan Hr Hall Hjob.
  unfold all_complete in Hall. rewrite (rep_tasks_eq ns ns_slash_free _ _ _ Hr (inv_rep _ _ _ (full_sys _ _ _ Hf))) in Hall.
  pose proof (job_told ds c0 job _ Hf Hjob) as Hj.
  destruct (planned_tasks _ _ _ _ Hf Hq Hplan) as (q & Hqj & Htasks).
  destruct (qn_jobs _ _ _ _ Hq _ _ Hqj) as (Hplanned & Hadm & _).
  destruct (last_stage_stands _ _ Hplanned (regular_queries _ _ HR _ Hadm)) as (s & Hlast & Hs & Hfit & Hpart & Hcount).
  pose proof (inv_jobs _ _ _ (full_sys _ _ _ Hf)) as Hjobs.
  assert (∀ i, i ∈ zrange (partition_count (q_physical q)) → is_Some (cl_tasks c0 !! (job, qs_stage_id s, i))) as Ht.
  { intros i Hi. apply Htasks; [done|]. unfold stage_partitions. by rewrite Hcount. }
  pose proof (starts_with_refl job) as Hself.
  destruct (jobs_complete _ _ Hjobs job js (qs_stage_id s) 0%Z Hj) as (locs & -> & Hnd & Hlist); [|done|].
  { apply Ht, elem_of_zrange. destruct Hfit as (_ & _ & _ & Hpos). rewrite Hcount in Hpos. lia. }
  exists q, s, locs. split_and!; try done. intros i Hi.
  specialize (Hlist (job, qs_stage_id s, i) Hself (Ht i Hi)). apply list_elem_of_fmap in Hlist as (l & Hl & Hin).
  destruct (locations_fetched ds c0 qs job _ locs Hf Hd Hj eq_refl l Hin) as ([schema bs] & (t & e & Hpid & _ & Ho) & E).
  rewrite <-Hl in Hpid. apply partition_of_inj in Hpid as <-. destruct Ho as (part & (q' & Hq' & Hp') & Hrun).
  simpl in *. rewrite Hqj in Hq'. injection Hq' as <-. rewrite Hpart in Hp'. injection Hp' as <-.
  exists l, schema, bs. by split_and!.
Qed.
End dataflow.
