(* ===== verification/Run.v ===== *)
(** * A run of the system

    A concrete cluster: a store in memory, one executor with two slots, and a
    query planned into two stages of one partition.  Its runs instantiate the
    theorems of Refine.v, Planning.v, System.v and Dataflow.v, and one of them
    shows a job that is reported as completed while it is still being
    planned. *)

From S2P Require Import Prelude Keys Proto Arrow Scalar Expr LogicalPlan SchedTypes ExecPlan.
From S2P Require Import Planner Slicing Physical Backend Utils Batch State Assign Server Flight Execution Client.
From S2P Require Import Cluster Refine Leases Blocked Planning Shared Executor System Queries Completion Dataflow.

Module Run.
Definition ns : string := "default".
Definition job : string := "abc".

(** ** The third-party code *)

#[export] Existing Instance Sample.backend.
#[export] Existing Instance Sample.backend_ok.
#[export] Existing Instance Sample.job_message.
#[export] Existing Instance Sample.task_message.
#[export] Existing Instance Sample.executor_message.
#[export] Existing Instance SampleStore.order.
#[export] Existing Instance SampleStore.order_ok.
#[export] Existing Instance sample_physical_planner.
#[export] Existing Instance direct_builders.
#[export] Existing Instance direct_builders_ok.
#[export] Existing Instance sample_exec_methods.
#[export] Existing Instance SampleStore.methods_ok.
#[export] Existing Instance SampleStore.methods_total.
#[export] Existing Instance sample_texts.
#[export] Existing Instance direct_datafusion.

#[export] Instance job_ok : MessageOk JobStatus := countable_message_ok _ _.
#[export] Instance task_ok : MessageOk TaskStatus := countable_message_ok _ _.
#[export] Instance executor_ok : MessageOk PExecutorMetadata := countable_message_ok _ _.

(** The two stages of the query, and their messages. *)
Definition stage1 : QueryStageExec := mkQueryStageExec job 1
  (Exec (X_HashAggregate Partial [] [] (mkSchema [])) [Exec (X_Empty true (mkSchema [])) []]).
Definition stage2 : QueryStageExec := mkQueryStageExec job 2
  (Exec (X_HashAggregate Final [] [] (mkSchema []))
    [Exec (X_UnresolvedShuffle [1%Z] (mkSchema []) 1) []]).
Definition node (mode : Z) (input : PhysicalPlanType) : PPhysicalPlanNode :=
  exec_node (PPT_HashAggregate [] [] mode (Some (exec_node input)) [] [] (Some (mkPSchema []))).
Definition node1 : PPhysicalPlanNode := node 0 (PPT_Empty true (Some (mkPSchema []))).
Definition node2 : PPhysicalPlanNode := node 1 (PPT_Unresolved [1%Z] (Some (mkPSchema [])) 1).

(** The plan of a query that calls [asin], and its message. *)
Definition asin_physical : ExecutionPlan :=
  Exec (X_Projection [(PE_ScalarFunction "asin" [PE_Column "x"], "y")]) [Exec (X_Empty true (mkSchema [])) []].
Definition node3 : PPhysicalPlanNode := match exec_to_proto asin_physical with Ok q => q | _ => node1 end.

(** A codec for three messages. *)
Definition number_of (q : PPhysicalPlanNode) : Byte.byte :=
  match q with
  | mkPhysicalPlanNode (Some (PPT_HashAggregate _ _ mode _ _ _ _)) => if (mode =? 0)%Z then Byte.x01 else Byte.x02
  | _ => Byte.x03
  end.
#[export] Instance plan_message : Message PPhysicalPlanNode := {|
  prost_encode q := Ok [number_of q];
  prost_decode b := match b with [Byte.x01] => Ok node1 | [Byte.x03] => Ok node3 | _ => Ok node2 end;
  message_default := mkPhysicalPlanNode None;
  valid_message q := q = node1 ∨ q = node2 ∨ q = node3;
|}.
#[export] Instance plan_message_ok : MessageOk PPhysicalPlanNode.
Proof. intros q [->|[-> | ->]]; eexists; split_and!; done. Qed.
#[export] Instance codec : Codec.
Proof. by split. Qed.

#[export] Instance context : QueryContext Schema := {|
  ctx_sql _ := Ok (LP_EmptyRelation true (mkSchema []));
  ctx_optimize p := Ok p;
  ctx_create_physical_plan p :=
    match p with LP_EmptyRelation false _ => Ok asin_physical | _ => Ok sample_physical end;
  parquet_try_from_path _ := Ok (mkSchema [], []);
|}.

Definition plan : LogicalPlan Schema := LP_EmptyRelation true (mkSchema []).
Definition query : ExecuteQuery := EQ_Sql "select count(1)".

(** ** Steps *)

Lemma stages_fit : Forall stage_fits [stage1; stage2].
Proof.
  assert (exact_schema (mkSchema [])) as Hs by (split; [constructor|reflexivity]).
  constructor; [|constructor; [|constructor]];
    (split; [split|split; [done|split; [by split|by split]]]).
  - split_and!; try done; constructor.
  - intros q Hq. vm_compute in Hq. simplify_eq. by left.
  - split_and!; try done; repeat constructor; done.
  - intros q Hq. vm_compute in Hq. simplify_eq. by right; left.
Qed.

(** Runs in which this query is planned, executors that completed nothing lose
    their registration, and no answer is lost. *)
Definition sample_query : Query := mkQuery [stage1; stage2] sample_physical.
Lemma sample_query_fits : query_fits sample_query.
Proof. split; [reflexivity|apply stages_fit]. Qed.
Definition regime : Regime (S := Memory) := mkRegime (λ q, q = sample_query) (lease_harmless ns) False.
Lemma regime_regular : regular ns regime.
Proof. split; [intros q ->; apply sample_query_fits|done|by intros []]. Qed.

Abbreviation reach := (reachable (S := Memory) (DFSchema := Schema) ns OwnedMutexGuard regime).

(** A poll of the only executor, with the task it is given. *)
Definition poll (s : Memory) (ex : Executor) : option (list TaskId * Memory * Executor) :=
  let '(req, ex1) := poll_request ex in
  match poll_work ns (Ok ()) OwnedMutexGuard req (false, s) with
  | Some (answer, (false, s')) =>
      match poll_response ex1 answer with Ok ex2 => Some (answer_tasks answer, s', ex2) | _ => None end
  | _ => None
  end.
Definition poll_store (s : Memory) (ex : Executor) : Memory :=
  match poll s ex with Some (_, s', _) => s' | None => s end.
Definition poll_executor (s : Memory) (ex : Executor) : Executor :=
  match poll s ex with Some (_, _, ex') => ex' | None => ex end.
Definition poll_tasks (s : Memory) (ex : Executor) : list TaskId :=
  match poll s ex with Some (ts, _, _) => ts | None => [] end.

Lemma step_poll s ex pl :
  match poll s ex with Some _ => true | None => false end = true →
  system_step (DFSchema := Schema) ns OwnedMutexGuard regime (mkSystem false s [ex] pl) (poll_tasks s ex)
    (mkSystem false (poll_store s ex) [poll_executor s ex] pl).
Proof.
  intros Hp. destruct (poll s ex) as [[[ts s'] ex']|] eqn:E; [|done].
  unfold poll_store, poll_executor, poll_tasks. rewrite E. unfold poll in E.
  destruct (poll_request ex) as [req ex1] eqn:Ereq.
  destruct (poll_work ns (Ok ()) OwnedMutexGuard req (false, s)) as [[answer [[] s1]]|] eqn:Ep; try done.
  destruct (poll_response ex1 answer) as [ex2| |] eqn:Er; try done. simplify_eq.
  apply (sys_poll ns OwnedMutexGuard regime false s [] ex [] pl [] req ex1 answer false s' pl [] ex'); [done..| |done].
  rewrite poll_calm. by rewrite Ep.
Qed.

Lemma run_poll s ex pl trace :
  reach (mkSystem false s [ex] pl) trace →
  match poll s ex with Some _ => true | None => false end = true →
  reach (mkSystem false (poll_store s ex) [poll_executor s ex] pl) (trace ++ poll_tasks s ex).
Proof. intros Hr Hp. eapply reach_step; [exact Hr|]. by apply step_poll. Qed.

Lemma fst_ok {E A} (r : result E A * Memory) a : r.1 = Ok a → r = (Ok a, r.2).
Proof. destruct r. simpl. by intros ->. Qed.

Lemma pure_result {A} (r : Result A * Memory) a s : r.1 = Ok a → r.2 = s → r = (Ok a, s).
Proof. destruct r. by intros [= ->] [= ->]. Qed.

(** A query that is accepted. *)
Lemma execute_query_ok q (p : LogicalPlan Schema) executors s s' :
  parse_query q = Ok p → get_executors_metadata ns s = (Ok executors, s) →
  save_job_metadata ns job (mkJobStatus (Some JS_Queued)) s = (Ok (), s') →
  execute_query ns job (mkExecuteQueryParams (Some q)) s = (Ok (job, plan_job ns job p executors), s').
Proof.
  intros Hq He Hs. unfold execute_query. cbn [eq_query]. rewrite bindM_lift, Hq.
  unfold or_internal, map_errM. unfold bindM at 1. rewrite He. cbn [map_err].
  unfold bindM. by rewrite Hs.
Qed.

(** A write of the planning of the only job. *)
Lemma system_write s exs w ws :
  (plan_write ns job w s).1 = Ok () →
  system_step (DFSchema := Schema) ns OwnedMutexGuard regime (mkSystem false s exs [(job, PWrites (w :: ws))]) []
    (mkSystem false (plan_write ns job w s).2 exs [(job, PWrites ws)]).
Proof.
  intros Hw. apply sys_plan, (step_write ns (r_admits regime) s [] job w ws [] (plan_write ns job w s).2).
  by apply fst_ok.
Qed.
Lemma run_write s exs w ws trace :
  reach (mkSystem false s exs [(job, PWrites (w :: ws))]) trace →
  (plan_write ns job w s).1 = Ok () →
  reach (mkSystem false (plan_write ns job w s).2 exs [(job, PWrites ws)]) (trace ++ []).
Proof.
  intros Hr Hw. eapply reach_step; [exact Hr|]. by apply system_write.
Qed.

(** ** Up to the first writes *)

Definition ex0 : Executor := start_executor sample_meta 2.
Definition s1 : Memory := poll_store ∅ ex0.
Definition ex1 : Executor := poll_executor ∅ ex0.
Definition s2 : Memory := (save_job_metadata ns job (mkJobStatus (Some JS_Queued)) s1).2.
Definition s3 : Memory := (start_job ns job s2).2.
Definition s4 : Memory := (plan_write ns job (WritePlan stage1) s3).2.
Definition s5 : Memory := (plan_write ns job (WriteTask stage1 0) s4).2.

Lemma query_planned_sample : planned_query job plan [sample_meta] sample_query.
Proof. exists plan, (mkDistributedPlanner [sample_meta] 2). split_and!; [reflexivity..|discriminate|reflexivity]. Qed.
Lemma query_plannable : plannable job plan [sample_meta] [stage1; stage2].
Proof. exact (fitting_plannable _ _ _ _ query_planned_sample sample_query_fits). Qed.

Lemma s1_executors : get_executors_metadata ns s1 = (Ok [sample_meta], s1).
Proof. vm_compute. reflexivity. Qed.

Lemma step_query :
  system_step (DFSchema := Schema) ns OwnedMutexGuard regime (mkSystem false s1 [ex1] []) []
    (mkSystem false s2 [ex1] [(job, PQueued plan [sample_meta])]).
Proof.
  apply sys_plan, (step_accept ns (r_admits regime) s1 [] job query plan [sample_meta]);
    [done|intros st pt; vm_compute; reflexivity|apply not_elem_of_nil|reflexivity|apply s1_executors|].
  apply execute_query_ok; [reflexivity|apply s1_executors|]. apply fst_ok. vm_compute. reflexivity.
Qed.
Lemma system_start :
  system_step (DFSchema := Schema) ns OwnedMutexGuard regime (mkSystem false s2 [ex1] [(job, PQueued plan [sample_meta])]) []
    (mkSystem false s3 [ex1] [(job, PWrites (plan_writes [stage1; stage2]))]).
Proof.
  apply sys_plan, (step_start ns (r_admits regime) s2 [] job plan [sample_meta] [] sample_query).
  - apply query_planned_sample.
  - reflexivity.
  - apply fst_ok. vm_compute. reflexivity.
Qed.

Lemma run_joined : reach (mkSystem false s1 [ex1] []) [].
Proof.
  assert (reach (mkSystem false ∅ [ex0] []) ([] ++ [])) as R0.
  { eapply reach_step; [by apply reach_start|]. by apply (sys_join ns OwnedMutexGuard regime false ∅ [] []). }
  apply (run_poll ∅ ex0 [] [] R0). vm_compute. reflexivity.
Qed.

Lemma run_planning :
  reach (mkSystem false s3 [ex1] [(job, PWrites (plan_writes [stage1; stage2]))]) [].
Proof.
  pose proof (reach_step _ _ _ _ _ _ _ run_joined step_query) as R2. exact (reach_step _ _ _ _ _ _ _ R2 system_start).
Qed.

Definition rest : list PlanWrite := [WritePlan stage2; WriteTask stage2 0].

Lemma run_first_stage : reach (mkSystem false s5 [ex1] [(job, PWrites rest)]) [].
Proof.
  apply (run_write s4 [ex1] (WriteTask stage1 0) rest []); [|vm_compute; reflexivity].
  apply (run_write s3 [ex1] (WritePlan stage1) (WriteTask stage1 0 :: rest) []); [|vm_compute; reflexivity].
  apply run_planning.
Qed.

(** ** All writes, then a poll *)

Definition s6 : Memory := (plan_write ns job (WritePlan stage2) s5).2.
Definition s7 : Memory := (plan_write ns job (WriteTask stage2 0) s6).2.

Lemma run_planned : reach (mkSystem false s7 [ex1] [(job, PWrites [])]) [].
Proof.
  apply (run_write s6 [ex1] (WriteTask stage2 0) [] []); [|vm_compute; reflexivity].
  apply (run_write s5 [ex1] (WritePlan stage2) [WriteTask stage2 0] []); [|vm_compute; reflexivity].
  apply run_first_stage.
Qed.

(** ** The first stage runs before the second is written *)

Definition pid1 : PPartitionId := mkPPartitionId job 1 0.
Definition s8 : Memory := poll_store s5 ex1.
Definition ex2 : Executor := poll_executor s5 ex1.

Lemma run_first_task : reach (mkSystem false s8 [ex2] [(job, PWrites rest)]) [(job, 1%Z, 0%Z)].
Proof. apply (run_poll s5 ex1 _ [] run_first_stage). vm_compute. reflexivity. Qed.

Definition ex3 : Executor := finish_task ex2 [] [] pid1 None.
Definition s9 : Memory := poll_store s8 ex3.
Definition ex4 : Executor := poll_executor s8 ex3.

Lemma step_first_finish :
  system_step (DFSchema := Schema) ns OwnedMutexGuard regime (mkSystem false s8 [ex2] [(job, PWrites rest)]) []
    (mkSystem false s8 [ex3] [(job, PWrites rest)]).
Proof.
  apply (sys_finish ns OwnedMutexGuard regime false s8 [] ex2 [] [(job, PWrites rest)] [] [] pid1 None).
  vm_compute. reflexivity.
Qed.

Lemma run_first_report :
  reach (mkSystem false s9 [ex4] [(job, PWrites rest)]) [(job, 1%Z, 0%Z)].
Proof.
  apply (run_poll s8 ex3 _ [(job, 1%Z, 0%Z)]); [|vm_compute; reflexivity].
  exact (reach_step _ _ _ _ _ _ _ run_first_task step_first_finish).
Qed.

(** The same steps with their work: the task is handed out, ends, and is
    reported. *)
Lemma work_first_report :
  ∃ n, worked ns OwnedMutexGuard regime (mkSystem false s9 [ex4] [(job, PWrites rest)]) [(job, 1%Z, 0%Z)] (n + 3).
Proof.
  destruct (reachable_worked ns OwnedMutexGuard regime _ _ run_first_stage) as [n Hn]. exists n.
  assert (match poll s5 ex1 with Some _ => true | None => false end = true) as P1 by (vm_compute; reflexivity).
  assert (match poll s8 ex3 with Some _ => true | None => false end = true) as P2 by (vm_compute; reflexivity).
  pose proof (work_step _ _ _ _ _ _ _ _ Hn (step_poll s5 ex1 _ P1)) as W1.
  pose proof (work_step _ _ _ _ _ _ _ _ W1 step_first_finish) as W2.
  pose proof (work_step _ _ _ _ _ _ _ _ W2 (step_poll s8 ex3 _ P2)) as W3.
  replace (n + 3)%nat with (n + 1 + 1 + 1)%nat by lia. exact W3.
Qed.

(** ** Properties of the run *)

(** C32 — The planning of a job takes no lock, and a poll between its writes
    draws conclusions from the tasks written so far: here the only task of
    the first stage completes before the second stage is written, and a client
    is told that the job is completed, with the output of the first stage as
    its result, while the plan and the task of the final stage are still to be
    written. *)
Theorem premature_completion :
  ∃ sys trace, reach sys trace ∧ sys_planning sys = [(job, PWrites rest)] ∧
    (get_job_status ns job (sys_store sys)).1 =
      Ok (mkGetJobStatusResult (Some (mkJobStatus (Some (JS_Completed
        [mkPPartitionLocation (Some pid1) (Some (executor_meta_to_proto sample_meta))]))))).
Proof.
  eexists _, _. split; [apply run_first_report|]. split; [done|]. vm_compute. reflexivity.
Qed.

Lemma guard_unlocks : OwnedMutexGuard = OwnedMutexGuard ∨ OwnedMutexGuard = EtcdLockGuard (Ok ()).
Proof. by left. Qed.

(** What disturbs a poll: the next write of the first planning task. *)
Definition next_write (x : Memory * list (string * Planning Schema)) : Memory * list (string * Planning Schema) :=
  match x with
  | (s, (job, PWrites (w :: ws)) :: pl) =>
      match plan_write ns job w s with (Ok _, s') => (s', (job, PWrites ws) :: pl) | _ => x end
  | _ => x
  end.
Lemma next_write_planning : by_planning ns (r_admits regime) next_write.
Proof.
  intros [s [|[j [|[|w ws]]] pl]]; try apply rtc_refl. simpl.
  destruct (plan_write ns j w s) as [[[]| |] s'] eqn:E; [|apply rtc_refl..].
  by apply rtc_once, (step_write ns (r_admits regime) s [] j w ws pl s').
Qed.
Lemma two_writes : Forall (by_planning ns (r_admits regime)) [next_write; next_write].
Proof. repeat constructor; apply next_write_planning. Qed.

(** The second stage is written while the executor polls. *)
Lemma polls_always_answered_witness :
  ∃ c task sh' c1 ca c', rep ns s5 c ∧
    poll_work ns (Ok ()) OwnedMutexGuard (poll_request ex1).1
      (false, (((s5, [(job, PWrites rest)]), [next_write; next_write]) : Shared)) =
      Some (Ok (mkPollWorkResult task), (false, sh')) ∧ extends c c1 ∧
    poll_outcome (reported c1 (executor_meta_from_proto (ex_metadata ex1)) (ex_channel ex1))
      (executor_meta_from_proto (ex_metadata ex1)) (0 <? ex_slots ex1)%Z task ca ∧
    work_extends ca c' ∧ rep ns sh'.1.1 c'.
Proof.
  apply (polls_always_answered ns eq_refl OwnedMutexGuard guard_unlocks regime regime_regular _ [] ex1 _ run_first_stage);
    [by left|apply two_writes].
Defined.

(** In that poll the executor gets the task of the first stage, and the second
    stage is recorded when it is answered. *)
Example disturbed_poll :
  match poll_work ns (Ok ()) OwnedMutexGuard (poll_request ex1).1
    (false, (((s5, [(job, PWrites rest)]), [next_write; next_write]) : Shared)) with
  | Some (answer, (held, ((s, pl), others))) =>
      answer_tasks answer = [(job, 1%Z, 0%Z)] ∧ held = false ∧ pl = [(job, PWrites [])] ∧ others = [] ∧
      (get_task_status ns job 2 0 s).1 = Ok (task_message (job, 2%Z, 0%Z) None)
  | None => False
  end.
Proof. vm_compute. repeat split; reflexivity. Qed.

(** The registration of the executor runs out before it has done anything. *)
Definition s1_expired : Memory := delete (get_executor_key ns (em_id sample_meta)) s1.
Lemma run_expired : reach (mkSystem false s1_expired [ex1] []) [].
Proof.
  assert (reach (mkSystem false s1 [ex1] []) []) as R1 by apply run_joined.
  apply (reach_step _ _ _ _ _ [] _ R1).
  apply (sys_expire ns OwnedMutexGuard regime false s1 [ex1] [] (em_id sample_meta) s1_expired); [done|done|].
  intros k b t Hk Hp.
  apply (check_entries s1 (λ k _, negb (starts_with (get_task_prefix ns) k)) ltac:(vm_compute; reflexivity)) in Hk.
  by rewrite Hp in Hk.
Qed.
(** It is back with the next poll. *)
Example expired_registered :
  (get_executors_metadata ns (poll_store s1_expired ex1)).1 = Ok [sample_meta].
Proof. vm_compute. reflexivity. Qed.

Lemma tasks_started_once_witness :
  NoDup [(job, 1%Z, 0%Z)] ∧ NoDup (flights [ex2]) ∧
  ∃ c, rep ns s8 c ∧
    (∀ t, t ∈ [(job, 1%Z, 0%Z)] ↔ ∃ r, cl_tasks c !! t = Some (Some r)) ∧
    (∀ t, t ∈ flights [ex2] ↔ ∃ e, cl_tasks c !! t = Some (Some (TS_Running e))).
Proof. apply (tasks_started_once ns eq_refl OwnedMutexGuard guard_unlocks regime regime_regular _ _ run_first_task). Defined.

Lemma work_bounded_witness :
  ∃ n c, rep ns s9 c ∧ (n + 3 ≤ 3 * size (cl_tasks c))%nat.
Proof.
  destruct work_first_report as [n Hn].
  destruct (reachable_inv ns eq_refl OwnedMutexGuard guard_unlocks regime regime_regular _ _ run_first_report) as (c & [Hi _] & _).
  exists n, c. split; [exact (inv_rep _ _ _ Hi)|].
  exact (work_bounded ns eq_refl OwnedMutexGuard guard_unlocks regime regime_regular _ _ _ c Hn (inv_rep _ _ _ Hi)).
Defined.

Lemma job_status_answers_witness :
  ∃ c, rep ns s9 c ∧ ∀ job js, cl_jobs c !! job = Some js →
    get_job_status ns job s9 = (Ok (mkGetJobStatusResult (Some js)), s9) ∧
    (∀ st pt, is_Some (cl_tasks c !! (job, st, pt)) → all_complete c job → lists_tasks c job js) ∧
    locations_complete (known [ex4]) c js.
Proof. apply (job_status_answers ns eq_refl OwnedMutexGuard guard_unlocks regime regime_regular _ _ run_first_report). Defined.

(** The tasks of the planned job are pending. *)
Definition not_failed (k : string) (b : bytes) : bool :=
  negb (starts_with (get_task_prefix ns) k) ||
  match decode_protobuf (T := TaskStatus) b with
  | Ok (mkTaskStatus _ (Some (TS_Failed _))) => false
  | _ => true
  end.
Lemma s7_not_failed : forallb (λ kb, not_failed kb.1 kb.2) (map_to_list s7) = true.
Proof. vm_compute. reflexivity. Qed.

Lemma s7_cluster :
  ∃ c, rep ns s7 c ∧ cl_tasks c !! (job, 1%Z, 0%Z) = Some None ∧
    ∀ t e, cl_tasks c !! t ≠ Some (Some (TS_Failed e)).
Proof.
  destruct (reachable_inv ns eq_refl OwnedMutexGuard guard_unlocks regime regime_regular _ _ run_planned) as (c & [Hi _] & _).
  pose proof (inv_rep _ _ _ Hi) as Hr. simpl in Hr. exists c. split_and!; [done| |].
  - destruct (rep_task_unique ns eq_refl job 1 0 (task_message (job, 1%Z, 0%Z) None) s7 c Hr) as (o & Ho & Ht).
    + reflexivity.
    + eexists. split; [vm_compute; reflexivity|]. vm_compute. reflexivity.
    + rewrite Ht. by injection Ho as <-.
  - intros [[j st] pt] e Ht. destruct (rep_task_at _ _ _ _ _ Hr Ht) as (_ & b & Hb & Hd).
    apply (check_entries s7 not_failed s7_not_failed) in Hb. unfold not_failed in Hb.
    cbn [task_key] in Hb. rewrite task_key_prefix, Hd in Hb. done.
Qed.

Lemma idle_cluster_progresses_witness :
  ∃ task sh', poll_work ns (Ok ()) OwnedMutexGuard (poll_request ex1).1
      (false, (((s7, [(job, PWrites [])]), [next_write; next_write]) : Shared)) =
    Some (Ok (mkPollWorkResult (Some task)), (false, sh')).
Proof.
  destruct s7_cluster as (c & Hr & Hp & Hf).
  apply (idle_cluster_progresses ns eq_refl OwnedMutexGuard guard_unlocks regime regime_regular
    (mkSystem false s7 [ex1] [(job, PWrites [])]) [] c ex1 (job, 1%Z, 0%Z) _ run_planned Hr).
  - intros ex ->%list_elem_of_singleton. vm_compute. reflexivity.
  - exact Hf.
  - exact Hp.
  - by left.
  - vm_compute. reflexivity.
  - apply two_writes.
Defined.

Lemma synchronize_job_status_spec_witness :
  ∃ c s' c', rep ns s9 c ∧ synchronize_job_status ns s9 = (Ok (), s') ∧ rep ns s' c' ∧
    cl_tasks c' = cl_tasks c.
Proof.
  destruct (reachable_inv ns eq_refl OwnedMutexGuard guard_unlocks regime regime_regular _ _ run_first_report) as (c & [Hi _] & _).
  destruct (synchronize_job_status_spec ns eq_refl s9 c (inv_rep _ _ _ Hi)) as (s' & c' & E & Hr & _ & Ht & _).
  exists c, s', c'. split; [exact (inv_rep _ _ _ Hi)|]. split; [exact E|]. split; [exact Hr|exact Ht].
Defined.

Lemma plan_job_records_stages_witness :
  ∃ s' c', plan_job ns job plan [sample_meta] ∅ = (Ok (), s') ∧ rep ns s' c' ∧
    cl_plans c' !! (job, 2%Z) = Some (qs_child stage2) ∧ cl_tasks c' !! (job, 2%Z, 0%Z) = Some None.
Proof.
  destruct (plan_job_records_stages ns eq_refl job plan [sample_meta] [stage1; stage2] (∅ : Memory) empty_cluster)
    as (s' & c' & E & Hr & _ & _ & Hst & _).
  - exact query_plannable.
  - reflexivity.
  - apply empty_rep. reflexivity.
  - split; intros; discriminate.
  - reflexivity.
  - exists s', c'. destruct (Hst stage2) as [Hp Ht]; [right; left|].
    split; [exact E|]. split; [exact Hr|]. split; [exact Hp|]. apply Ht.
    split; [discriminate|reflexivity].
Defined.

(** Without executors nothing can be planned. *)
Lemma plan_job_records_failure_witness :
  ∃ s', plan_job ns job plan [] ∅ = (Ok (), s') ∧
    rep ns s' (set_job job (mkJobStatus (Some (JS_Failed "status"))) empty_cluster).
Proof.
  destruct (plan_job_records_failure ns eq_refl job plan []
    (internal_error "Could not create distributed planner: "
      (General "DistributedPlanner requires at least one executor")) (∅ : Memory) empty_cluster) as (s' & E & Hr).
  - reflexivity.
  - reflexivity.
  - apply empty_rep. reflexivity.
  - exists s'. split; [exact E|exact Hr].
Defined.

(** ** The data of the run *)

#[export] Existing Instance SamplePlane.quiet_plane.
#[export] Existing Instance SamplePlane.quiet_plane_ok.
#[export] Existing Instance SamplePlane.plan_text.
#[export] Existing Instance SampleBatch.arrays.
#[export] Existing Instance SampleBatch.arrays_ok.
#[export] Existing Instance SampleClient.local.

(** Operators that count the items of their inputs. *)
Definition items (r : DFResult BatchStream) : nat := match r with Ok stream => length stream.2 | _ => 0%nat end.
#[export] Instance operators : Operators := {|
  op_choice := unit;
  op_execute _ inputs _ part := Ok (mkSchema [], [Ok (mkRecordBatch (mkSchema [])
    [C_Other (Z.of_nat (sum_list (sum_list_with items <$> (snd <$> inputs))))] 1)]);
  merge_streams _ streams := List.concat streams;
|}.
Definition any : op_choice := ().
#[export] Instance methods_interface : InterfaceOk.
Proof. by split. Qed.
#[export] Instance constructors_ok : ConstructorsOk.
Proof.
  intros op cs cs' E Hc. destruct op; try done;
    destruct cs as [|x [|y [|z cs]]], cs' as [|x' [|y' [|z' cs']]]; try done.
Qed.
Lemma operators_plain op inputs choice part schema bs :
  op_execute op inputs choice part = Ok (schema, Ok <$> bs) → plain_batches schema bs.
Proof.
  intros [= <- Hbs]. destruct bs as [|b [|? ?]]; [discriminate| |discriminate]. injection Hbs as <-. repeat constructor.
Qed.

(** A codec for fetches and for the requests of the two tasks. *)
Definition pid2 : PPartitionId := mkPPartitionId job 2 0.
Definition location1 : PPartitionLocation :=
  mkPPartitionLocation (Some pid1) (Some (executor_meta_to_proto sample_meta)).
Definition resolved2 : PPhysicalPlanNode := node 1 (PPT_ShuffleReader [location1] (Some (mkPSchema []))).
Definition request (stage : Z) (plan : PPhysicalPlanNode) : PAction :=
  mkPAction (Some (AT_ExecutePartition (mkPExecutePartition job stage [0%Z] (Some plan) []))) [].
Definition fetch_request (pid : PPartitionId) : PAction := mkPAction (Some (AT_FetchPartition pid)) [].
#[export] Instance action_message : Message PAction := {|
  prost_encode a := match pa_action_type a with
    | Some (AT_FetchPartition pid) => Ok (Byte.x01 :: digits (encode pid))
    | Some (AT_ExecutePartition e) => Ok [if (pep_stage_id e =? 1)%Z then Byte.x02 else Byte.x03]
    | _ => Err ""
    end;
  prost_decode b := match b with
    | Byte.x01 :: b => match from_digits b ≫= decode with Some pid => Ok (fetch_request pid) | None => Err "" end
    | Byte.x02 :: _ => Ok (request 1 node1)
    | _ => Ok (request 2 resolved2)
    end;
  message_default := mkPAction None [];
  valid_message a := a = request 1 node1 ∨ a = request 2 resolved2 ∨ ∃ pid, a = fetch_request pid;
|}.
#[export] Instance action_message_ok : MessageOk PAction.
Proof.
  intros q [->|[->|[pid ->]]]; eexists; split_and!; try done. simpl.
  by rewrite from_digits_digits; simpl; rewrite decode_encode.
Qed.
Lemma fetches_valid (t : TaskId) : task_in_range t → message_ok (A_FetchPartition (PartitionId_new t.1.1 t.1.2 t.2)).
Proof. intros _ q [= <-]. right. right. by eexists. Qed.

Definition plan1 : ExecutionPlan := qs_child stage1.

(** What the stages of the query produce, and which requests are sent. *)
Lemma sample_query_plain : query_plain sample_query.
Proof.
  intros id part i schema bs Hpart Hr. assert (df_root part) as Hroot.
  { change (rebuild_stages ∅ _) with ({[1%Z := plan1; 2%Z := sample_physical]} : gmap Z ExecutionPlan) in Hpart.
    apply lookup_insert_Some in Hpart as [[_ <-]|[_ Hpart]]; [done|]. by apply lookup_singleton_Some in Hpart as [_ <-]. }
  destruct part as [op cs]. destruct (runs_operator_inv _ _ _ _ _ Hroot Hr) as (choice & inputs & E & _).
  by eapply operators_plain.
Qed.
Definition data_regime : DataRegime (S := Memory) := mkDataRegime regime message_ok.
Lemma data_regime_regular : data_regular ns data_regime.
Proof. split; [apply regime_regular|intros q ->; apply sample_query_plain|done]. Qed.

Definition work_dir (_ : string) : string := "/tmp/work".
Abbreviation data_reach :=
  (data_reachable (S := Memory) (DFSchema := Schema) (File := BatchStream) ns OwnedMutexGuard work_dir data_regime).
Abbreviation data s ex pl disks plans := (mkDataSystem (File := BatchStream) (DFSchema := Schema) (mkSystem false s [ex] pl) disks plans).

Definition poll_plans (s : Memory) (ex : Executor) (plans : gmap TaskId ExecutionPlan) : gmap TaskId ExecutionPlan :=
  match poll_work ns (Ok ()) OwnedMutexGuard (poll_request ex).1 (false, s) with
  | Some (answer, _) => received answer plans
  | None => plans
  end.
Lemma data_run_poll s ex pl disks plans trace :
  data_reach (data s ex pl disks plans) trace →
  match poll s ex with Some _ => true | None => false end = true →
  data_reach (data (poll_store s ex) (poll_executor s ex) pl disks (poll_plans s ex plans)) (trace ++ poll_tasks s ex).
Proof.
  intros Hr Hp. eapply data_next; [exact Hr|]. destruct (poll s ex) as [[[ts s'] ex']|] eqn:E; [|done].
  unfold poll_store, poll_executor, poll_tasks, poll_plans. rewrite E. unfold poll in E.
  destruct (poll_request ex) as [req ex1] eqn:Ereq. cbn [fst].
  destruct (poll_work ns (Ok ()) OwnedMutexGuard req (false, s)) as [[answer [[] sx]]|] eqn:Ep; try done.
  destruct (poll_response ex1 answer) as [ex2| |] eqn:Er; try done. simplify_eq.
  apply (data_poll ns OwnedMutexGuard work_dir data_regime false s [] ex [] pl [] req ex1 answer false s' pl [] ex'); [done..| |done].
  rewrite poll_calm. by rewrite Ep.
Qed.
Lemma data_run_plan s pl s' pl' ex disks plans trace :
  data_reach (data s ex pl disks plans) trace →
  system_step ns OwnedMutexGuard regime (mkSystem false s [ex] pl) [] (mkSystem false s' [ex] pl') →
  data_reach (data s' ex pl' disks plans) (trace ++ []).
Proof. intros Hr Hs. eapply data_next; [exact Hr|]. by apply data_plan. Qed.

(** The end of the only running task. *)
Definition outcome (ex : Executor) (pid : PPartitionId) (plan : ExecutionPlan) (disks : gmap string (Disk BatchStream)) :=
  run_task work_dir (plan_run (fetch_from (network_of work_dir [ex] disks)) any) (executor_id ex) pid plan (disk_of disks (executor_id ex)).
Definition disks_after ex pid plan disks : gmap string (Disk BatchStream) :=
  <[executor_id ex := (outcome ex pid plan disks).2]> disks.
Lemma data_run_finish s ex pl disks plans trace pid plan :
  data_reach (data s ex pl disks plans) trace → ex_running ex = [pid] → plans !! task_of pid = Some plan →
  message_ok (run_request pid plan) →
  is_ok (outcome ex pid plan disks).1 = true →
  data_reach (data s (finish_task ex [] [] pid None) pl (disks_after ex pid plan disks) plans) (trace ++ []).
Proof.
  intros Hr Hrun Hp Hm Ho. eapply data_next; [exact Hr|].
  assert (execution_error (outcome ex pid plan disks).1 = None ∧ is_panic (outcome ex pid plan disks).1 = false)
    as [E Hnp] by (by destruct ((outcome ex pid plan disks).1)). rewrite <-E.
  by apply (data_finish ns OwnedMutexGuard work_dir data_regime false s [] ex [] pl [] [] pid disks plans plan
    (plan_run (fetch_from (network_of work_dir [ex] disks)) any) (outcome ex pid plan disks).1 (outcome ex pid plan disks).2); [..|intros; apply plan_run_runs|apply surjective_pairing|].
Qed.

(** The planning of the job, on an executor without data. *)
Lemma data_planning :
  data_reach (data s3 ex1 [(job, PWrites (plan_writes [stage1; stage2]))] ∅ ∅) [].
Proof.
  assert (data_reach (data ∅ ex0 [] ∅ ∅) ([] ++ [])) as R0.
  { eapply data_next; [by apply data_start|].
    by apply (data_join ns OwnedMutexGuard work_dir data_regime false ∅ [] [] sample_meta 2 ∅ ∅); [|apply not_elem_of_nil..]. }
  apply data_run_poll in R0 as R1; [|vm_compute; reflexivity].
  pose proof (data_run_plan _ _ _ _ _ _ _ _ R1 step_query) as R2.
  exact (data_run_plan _ _ _ _ _ _ _ _ R2 system_start).
Qed.
Lemma data_write s ex w ws :
  data_reach (data s ex [(job, PWrites (w :: ws))] ∅ ∅) [] → (plan_write ns job w s).1 = Ok () →
  data_reach (data (plan_write ns job w s).2 ex [(job, PWrites ws)] ∅ ∅) [].
Proof. intros Hr Hw. exact (data_run_plan _ _ _ _ _ _ _ _ Hr (system_write _ _ _ _ Hw)). Qed.

(** *** All stages are written, and both tasks run *)

Definition plan2 : ExecutionPlan := Exec (X_HashAggregate Final [] [] (mkSchema []))
  [Exec (X_ShuffleReader [mkPartitionLocation (mkPartitionId job 1 0) sample_meta] (mkSchema [])) []].

Definition s10 : Memory := poll_store s7 ex1.
Definition ex5 : Executor := poll_executor s7 ex1.
Definition plans1 : gmap TaskId ExecutionPlan := poll_plans s7 ex1 ∅.
Definition ex6 : Executor := finish_task ex5 [] [] pid1 None.
Definition disks1 : gmap string (Disk BatchStream) := disks_after ex5 pid1 plan1 ∅.
Definition s11 : Memory := poll_store s10 ex6.
Definition ex7 : Executor := poll_executor s10 ex6.
Definition plans2 : gmap TaskId ExecutionPlan := poll_plans s10 ex6 plans1.
Definition ex8 : Executor := finish_task ex7 [] [] pid2 None.
Definition disks2 : gmap string (Disk BatchStream) := disks_after ex7 pid2 plan2 disks1.
Definition s12 : Memory := poll_store s11 ex8.
Definition ex9 : Executor := poll_executor s11 ex8.
Definition final_data := data s12 ex9 [(job, PWrites [])] disks2 (poll_plans s11 ex8 plans2).

Lemma data_done : data_reach final_data [(job, 1%Z, 0%Z); (job, 2%Z, 0%Z)].
Proof.
  assert (data_reach (data s7 ex1 [(job, PWrites [])] ∅ ∅) []) as R0.
  { apply (data_write s6 ex1 (WriteTask stage2 0) []); [|vm_compute; reflexivity].
    apply (data_write s5 ex1 (WritePlan stage2) [WriteTask stage2 0]); [|vm_compute; reflexivity].
    apply (data_write s4 ex1 (WriteTask stage1 0) rest); [|vm_compute; reflexivity].
    apply (data_write s3 ex1 (WritePlan stage1) (WriteTask stage1 0 :: rest)); [|vm_compute; reflexivity].
    apply data_planning. }
  apply data_run_poll in R0 as R1; [|vm_compute; reflexivity].
  apply (data_run_finish _ _ _ _ _ _ pid1 plan1) in R1 as R2; [|vm_compute; reflexivity..| |vm_compute; reflexivity].
  2: { intros q Hq. left. vm_compute in Hq. by injection Hq as <-. }
  apply data_run_poll in R2 as R3; [|vm_compute; reflexivity].
  apply (data_run_finish _ _ _ _ _ _ pid2 plan2) in R3 as R4; [|vm_compute; reflexivity..| |vm_compute; reflexivity].
  2: { intros q Hq. right. left. vm_compute in Hq. by injection Hq as <-. }
  apply data_run_poll in R4 as R5; [|vm_compute; reflexivity]. exact R5.
Qed.

(** The store with the first task pending, and its first poll. *)
Lemma polls_accepted_witness :
  ∃ pid m p locs sh' ex', poll_work ns (Ok ()) OwnedMutexGuard (poll_request ex1).1
      (false, (((s5, [(job, PWrites rest)]), [next_write; next_write]) : Shared)) =
      Some (Ok (mkPollWorkResult (Some (mkTaskDefinition (Some pid) (Some m)))), (false, sh')) ∧
    poll_response (poll_request ex1).2 (Ok (mkPollWorkResult (Some (mkTaskDefinition (Some pid) (Some m))))) = Ok ex' ∧
    proto_to_exec m = Ok (resolve locs p) ∧ stage_of_query (DFSchema := Schema) (task_of pid).1 p.
Proof.
  destruct (polls_accepted ns eq_refl OwnedMutexGuard guard_unlocks regime regime_regular _ [] ex1
    [next_write; next_write] run_first_stage) as (task & sh' & ex' & c' & E & _ & Hresp & _ & Htask);
    [by left|apply two_writes|].
  pose proof disturbed_poll as Hd. cbn [sys_held sys_store sys_planning] in E. rewrite E in Hd.
  destruct task as [task|]; [|by destruct sh' as [[]], Hd].
  destruct (Htask task eq_refl) as (pid & m & p & locs & -> & Hm & Hs & _).
  exists pid, m, p, locs, sh', ex'. split_and!; [exact E|exact Hresp|exact Hm|exact Hs].
Defined.

(** Both tasks of the planned job can be completed by the one executor. *)
Lemma jobs_can_complete_witness :
  ∃ more (sys' : System (S := Memory) (DFSchema := Schema)) c' e,
    serves ns OwnedMutexGuard regime (mkSystem false s7 [ex1] [(job, PWrites [])]) more sys' ∧ rep ns (sys_store sys') c' ∧
    cl_tasks c' !! (job, 1%Z, 0%Z) = Some (Some (TS_Completed e)).
Proof.
  destruct s7_cluster as (c & Hr & Hp & Hf).
  destruct (jobs_can_complete ns eq_refl OwnedMutexGuard guard_unlocks regime regime_regular
    (mkSystem false s7 [ex1] [(job, PWrites [])]) [] c run_planned Hr) as (more & sys' & c' & Hs & _ & Hr' & _ & Ht & _).
  - done.
  - apply Forall_singleton. exists 2%Z. split_and!; [by split|done|]. vm_compute. repeat split; discriminate.
  - split; [exact Hf|]. intros ex t e ->%list_elem_of_singleton. vm_compute. by intros ?%not_elem_of_nil.
  - destruct (Ht (job, 1%Z, 0%Z)) as [e He]; [eauto|]. by exists more, sys', c', e.
Defined.

Definition final_status : JobStatus := mkJobStatus (Some (JS_Completed
  [location1; mkPPartitionLocation (Some pid2) (Some (executor_meta_to_proto sample_meta))])).

Lemma completed_job_collected_witness :
  ∃ outputs : list (Schema * list RecordBatch), length outputs = 2%nat ∧
    collect (λ _, Ok ()) (λ _, Ok job) (fetch_from (network work_dir final_data)) (mkBallistaDataFrame plan)
        (remote (DFSchema := Schema) "localhost" 50050 ∅) [Ok (mkGetJobStatusResult (Some final_status))] =
      Some (Ok (MemoryStream.mkMemoryStream (flat_map snd outputs) (mkSchema []) None 0)).
Proof.
  assert (submitted (λ _, Ok ()) (λ _, Ok job) (mkBallistaDataFrame plan)
    (remote (DFSchema := Schema) "localhost" 50050 ∅) job) as Hsub by (split; [reflexivity|by eexists]).
  destruct (completed_job_collected ns eq_refl OwnedMutexGuard guard_unlocks work_dir data_regime data_regime_regular fetches_valid
    final_data _ job _ _ _ _ _ [] [] data_done ltac:(vm_compute; reflexivity) Hsub (Forall_nil_2 _))
    as (c & qs & outputs & _ & _ & Hout & Hcollect).
  exists outputs. split; [by apply Forall2_length in Hout|exact Hcollect].
Defined.

(** The tasks of the run are all completed. *)
Definition is_completed (k : string) (b : bytes) : bool :=
  negb (starts_with (get_task_prefix ns) k) ||
  match decode_protobuf (T := TaskStatus) b with
  | Ok (mkTaskStatus _ (Some (TS_Completed _))) => true
  | _ => false
  end.
Lemma s12_completed : forallb (λ kb, is_completed kb.1 kb.2) (map_to_list s12) = true.
Proof. vm_compute. reflexivity. Qed.
Lemma s12_cluster : ∃ c, rep ns s12 c ∧ all_complete c job.
Proof.
  destruct (data_reachable_inv ns eq_refl OwnedMutexGuard guard_unlocks work_dir data_regime data_regime_regular fetches_valid _ _ data_done)
    as (c & qs & Hf & _). pose proof (inv_rep _ _ _ (full_sys _ _ _ Hf)) as Hr. simpl in Hr. exists c. split; [done|].
  intros [[j st] pt] o _ Ht. destruct (rep_task_at _ _ _ _ _ Hr Ht) as (_ & b & Hb & Hd).
  apply (check_entries s12 is_completed s12_completed) in Hb. unfold is_completed in Hb.
  cbn [task_key] in Hb. rewrite task_key_prefix, Hd in Hb. destruct o as [[]|]; try discriminate. by eexists.
Qed.

Lemma finished_query_answered_witness :
  ∃ l schema bs, l ∈ [location1; mkPPartitionLocation (Some pid2) (Some (executor_meta_to_proto sample_meta))] ∧
    ppl_partition_id l = Some pid2 ∧ local_runs sample_physical 0 (Ok (schema, Ok <$> bs)) ∧
    fetch_location (fetch_from (network work_dir final_data)) l = Ok bs.
Proof.
  destruct s12_cluster as (c & Hr & Hall).
  destruct (finished_query_answered ns eq_refl OwnedMutexGuard guard_unlocks work_dir data_regime data_regime_regular fetches_valid
    final_data _ job final_status c data_done ltac:(by left) Hr Hall ltac:(vm_compute; reflexivity))
    as (q & s & locs & _ & Hq & Hlast & Hlocs & _ & Hall').
  injection Hlocs as <-. simpl in Hq. subst q. injection Hlast as <-.
  destruct (Hall' 0%Z) as (l & schema & bs & ? & ? & ? & ?); [by apply elem_of_zrange|]. by exists l, schema, bs.
Defined.

(** ** A lost executor *)

(** The first task is completed and the second is pending. *)
Definition s13 : Memory := (plan_write ns job (WritePlan stage2) s9).2.
Definition s14 : Memory := (plan_write ns job (WriteTask stage2 0) s13).2.
Definition s15 : Memory := delete (get_executor_key ns "e1") s14.

Lemma run_pending : reach (mkSystem false s14 [ex4] [(job, PWrites [])]) [(job, 1%Z, 0%Z)].
Proof.
  apply (run_write s13 [ex4] (WriteTask stage2 0) [] [(job, 1%Z, 0%Z)]); [|vm_compute; reflexivity].
  apply (run_write s9 [ex4] (WritePlan stage2) [WriteTask stage2 0] [(job, 1%Z, 0%Z)]); [|vm_compute; reflexivity].
  apply run_first_report.
Qed.
Definition pending_second (k : string) (b : bytes) : bool :=
  negb (starts_with (get_task_prefix ns) k) ||
  match decode_protobuf (T := TaskStatus) b with
  | Ok (mkTaskStatus (Some pid) None) => bool_decide (pid = pid2)
  | _ => true
  end.
Lemma s14_pending : forallb (λ kb, pending_second kb.1 kb.2) (map_to_list s14) = true.
Proof. vm_compute. reflexivity. Qed.
Lemma s14_task c st o :
  rep ns s14 c → task_at s14 ns job st 0 (task_message (job, st, 0%Z) o) → cl_tasks c !! (job, st, 0%Z) = Some o.
Proof.
  intros Hr Ht. destruct (rep_task_unique ns eq_refl job st 0 (task_message (job, st, 0%Z) o) s14 c Hr) as (o' & Ho & Hc);
    [reflexivity|exact Ht|]. rewrite Hc. by injection Ho as ->.
Qed.

Lemma s14_plan : get_stage_plan ns job 2 s14 = (Ok (qs_child stage2), s14).
Proof. apply pure_result; [vm_compute; reflexivity|apply get_stage_plan_pure]. Qed.

Lemma s14_cluster : ∃ c, rep ns s14 c ∧ (∃ t, cl_tasks c !! t = Some None) ∧
  ∀ t, cl_tasks c !! t = Some None → runnable c t ∧ reads_from c t "e1".
Proof.
  destruct (reachable_inv ns eq_refl OwnedMutexGuard guard_unlocks regime regime_regular _ _ run_pending) as (c & [Hi _] & _).
  pose proof (inv_rep _ _ _ Hi) as Hr. simpl in Hr. exists c. split; [done|].
  assert (cl_tasks c !! (job, 2%Z, 0%Z) = Some None) as H2.
  { apply s14_task; [done|]. eexists. split; [vm_compute; reflexivity|]. vm_compute. reflexivity. }
  assert (cl_tasks c !! (job, 1%Z, 0%Z) = Some (Some (TS_Completed "e1"))) as H1.
  { apply s14_task; [done|]. eexists. split; [vm_compute; reflexivity|]. vm_compute. reflexivity. }
  split; [eauto|]. intros [[j st] pt] Ht.
  assert ((j, st, pt) = (job, 2%Z, 0%Z)) as [= -> -> ->].
  { destruct (rep_task_at _ _ _ _ _ Hr Ht) as (_ & b & Hb & Hd).
    apply (check_entries s14 pending_second s14_pending) in Hb. unfold pending_second in Hb.
    cbn [task_key] in Hb. rewrite task_key_prefix, Hd in Hb. simpl in Hb. by apply bool_decide_eq_true in Hb as [= -> -> ->]. }
  destruct (ok_plan _ (inv_ok _ _ _ Hi) _ _ _ _ H2) as (p & Hp & _).
  assert (qs_child stage2 = p) as <-.
  { pose proof (rep_get_plan ns job 2 p s14 c Hr Hp) as Hg. rewrite s14_plan in Hg. congruence. }
  split.
  - split; [done|]. eexists. split; [exact Hp|]. intros st pt Hin. apply list_elem_of_singleton in Hin as [= -> ->]. eauto.
  - exists (qs_child stage2), 1%Z, 0%Z. split_and!; [done|by left|done].
Qed.

Lemma lost_executor_breaks_polls_witness :
  ∃ s', poll_work ns (Ok ()) (EtcdLockGuard (Ok ()))
      (mkPollWorkParams (Some (executor_meta_to_proto (mkExecutorMeta "e2" "localhost" 50052))) true []) (false, s15) =
    Some (Panic "called `Option::unwrap()` on a `None` value", (true, s')).
Proof.
  destruct s14_cluster as (c & Hr & Hp & Hall).
  apply (lost_executor_breaks_polls ns eq_refl (EtcdLockGuard (Ok ())) "e1" (mkExecutorMeta "e2" "localhost" 50052) s14 s15 c Hr);
    [reflexivity|reflexivity|by vm_compute|reflexivity|done|exact Hp|exact Hall].
Defined.

(** A data frame over a registered table is submitted to the store with one
    executor: the scheduler plans the scan of the file, without [DISTINCT] and
    with the limit modulo 2^32. *)
Lemma collect_submits_plan_witness :
  let frame := mkBallistaDataFrame (registered_plan true (2 ^ 32 + 7) adapted_file) in
  ∃ query, plan_to_proto (df frame) = Ok query ∧
    execute_query ns job (mkExecuteQueryParams (Some (EQ_LogicalPlan query))) s1 =
      (Ok (job, plan_job ns job (registered_plan false 7 sample_file) [sample_meta]), s2).
Proof.
  intros frame.
  refine (proj1 (proj2 (collect_submits_plan (H11 := direct_datafusion_ok) ns job frame (remote "localhost" 50050 ∅)
    (λ _, Ok ()) s1 s2 [sample_meta] (registered_plan false 7 sample_file) _ _ _ _ _))).
  - apply registered_sendable.
  - vm_compute. reflexivity.
  - reflexivity.
  - apply s1_executors.
  - apply fst_ok. vm_compute. reflexivity.
Defined.

(** ** A stage that cannot be decoded *)

(** The query with [asin] is planned. *)
Definition asin_plan : LogicalPlan Schema := LP_EmptyRelation false (mkSchema []).
Definition s16 : Memory := (plan_job ns job asin_plan [sample_meta] s2).2.
Lemma s16_planned : plan_job ns job asin_plan [sample_meta] s2 = (Ok (), s16).
Proof. apply fst_ok. vm_compute. reflexivity. Qed.

Definition readable (k : string) (b : bytes) : bool :=
  (negb (starts_with (get_executors_prefix ns) k) || is_ok (decode_protobuf (T := PExecutorMetadata) b)) &&
  (negb (starts_with (get_task_prefix ns) k) ||
   match decode_protobuf (T := TaskStatus) b with
   | Ok t => bool_decide (t = mkTaskStatus (Some pid1) None)
   | _ => false
   end).
Lemma s16_readable : forallb (λ kb, readable kb.1 kb.2) (map_to_list s16) = true.
Proof. vm_compute. reflexivity. Qed.

Lemma s16_blocked : blocked ns s16.
Proof.
  split.
  - intros k b Hb Hp. apply (check_entries s16 readable s16_readable) in Hb. unfold readable in Hb.
    rewrite Hp in Hb. by apply andb_prop in Hb as [Hb _].
  - intros k b Hb Hp. apply (check_entries s16 readable s16_readable) in Hb. unfold readable in Hb.
    rewrite Hp in Hb. apply andb_prop in Hb as [_ Hb]. simpl in Hb.
    destruct (decode_protobuf b) as [t| |]; [|discriminate..]. apply bool_decide_eq_true in Hb as ->.
    eexists. split; [reflexivity|]. intros _. exists pid1, [Byte.x03].
    split_and!; [done|reflexivity|vm_compute; reflexivity|].
    exists node3. eexists. split; [done|]. split; [reflexivity|]. vm_compute. reflexivity.
  - exists (get_task_status_key ns job 1 0). eexists _, pid1. split; [vm_compute; reflexivity|].
    split; vm_compute; reflexivity.
Qed.

Lemma undecodable_stage_blocks_polls_witness :
  is_ok (exec_to_proto asin_physical) = true ∧
  ∃ e s', poll_work ns (Ok ()) (EtcdLockGuard (Ok ()))
      (mkPollWorkParams (Some (executor_meta_to_proto sample_meta)) true []) (false, s16) =
    Some (Err e, (true, s')) ∧ blocked ns s'.
Proof.
  split; [vm_compute; reflexivity|].
  apply (undecodable_stage_blocks_polls ns eq_refl (EtcdLockGuard (Ok ())) sample_meta s16);
    [by vm_compute|reflexivity|exact s16_blocked].
Defined.

(** A store with an entry that is no task makes a poll fail. *)
Definition broken : Memory := {[get_task_status_key ns job 1 0 := []]}.
Definition broken_answer : option (result Status PollWorkResult * (bool * Memory)) :=
  poll_work ns (Ok ()) (EtcdLockGuard (Ok ())) (poll_request ex1).1 (false, broken).

Lemma broken_fails : match broken_answer with Some (Err _, _) => true | _ => false end = true.
Proof. vm_compute. reflexivity. Qed.

Lemma poll_releases_lock_witness :
  ∃ e s', broken_answer = Some (Err e, (true, s')).
Proof.
  pose proof broken_fails as Hb.
  destruct broken_answer as [[[r|e|m] [held' s']]|] eqn:E; [discriminate| |discriminate..].
  assert (is_Some (pw_metadata (poll_request ex1).1)) as Hm by (vm_compute; eauto).
  pose proof (poll_releases_lock ns (EtcdLockGuard (Ok ())) (poll_request ex1).1 broken _ _ _ Hm E) as Hh.
  exists e, s'. by rewrite Hh.
Defined.
End Run.
